(* ===== verification/_CoqProject ===== *)
-Q . S2P
Prelude.v
GoPath.v
Base64.v
Trace.v
Hcl.v
VarsFile.v
Status.v
StatusHeap.v
MeshDtos.v
MeshAuth.v
MeshClient.v
TfConfig.v
Run.v
RunM.v
Example.v
Frame.v
GitSource.v
TfEnv.v
Script.v
TfVars.v
TfBinaries.v
TfCmd.v
TfCommands.v
TfFrames.v
TfRun.v
TfSuccess.v
TfContract.v
Dtos.v
RunApi.v
StatusUpdate.v
Worker.v
SingleRun.v
Manager.v
Crypto.v
Decryption.v
ControllerConfig.v
Metrics.v
Registration.v
ControllerApi.v
Controller.v
InProcess.v
Kubernetes.v
KubeMetrics.v
GoUrl.v
Float64.v
KeycloakClaims.v
Keycloak.v
WifToken.v
Startup.v
ManualConfig.v
ManualRun.v
TfWorkspace.v
EndToEnd.v
Cluster.v
InProcessRuns.v
Process.v
