(* ===== verification/Prelude.v ===== *)
(** * The building-block runners of meshStack, verified

    meshStack hands building-block runs to runners. This development models the
    Go programs of the repository that take such runs, execute them and report
    on them, and proves what makes them correct. Definitions carry the names of
    the source; a dot of a method is an underscore ([api_RegisterSource]) or
    the record is the last argument. This first file holds what all others
    share: Go's errors, results, strings, integers and dynamic values, the
    development's tactics and the general lemmas.

    ** The programs

    - tf-block-runner polls meshStack for runs (or is given one in a file),
      checks the sources of a building block out, runs OpenTofu or Terraform on
      them and reports the progress step by step.
    - run-controller claims runs of every kind, decrypts them and hands each to
      a Kubernetes job or, built with a tag, to a runner in the same process.
    - manual-block-runner reports the runs of blocks that need no work.
    - go-meshapi-client is the library under all three: DTOs, HTTP client,
      authentication, and the encryption of inputs.

    ** The files

    Go's standard library, as far as it is used: [GoPath] (path, filepath,
    strings.NewReplacer, the directory view of a file map), [Base64], [GoUrl]
    (PathEscape, RawURLEncoding), [Float64] (differences of whole numbers);
    [Trace] is the effect of a client that makes requests one after the other,
    with the specifications [adds], [returns] and [ends] of what it adds to the
    trace, the last of a computation that may panic.

    go-meshapi-client: [MeshDtos] (meshapi/dtos.go), [MeshAuth] (auth.go, the
    class [AuthProvider]), [MeshClient] (client.go), [Crypto]
    (crypto/meshcertbasedcrypto.go, meshsymmetriccrypto.go).

    tf-block-runner/tfrun, bottom up:
    - [Status] (runstatus.go, executionstatus.go, behavior.go, stepids.go,
      datatype.go) treats a run's status as a value; [StatusHeap] justifies it,
      with step cells in a store and the accesses of both goroutines
      (runcontextinfo.go).
    - [Hcl] (tfconfig_parse.go, backendsearch.go), [VarsFile]
      (tfcmd_vars.go), [TfConfig] (config.go), [Run] (run.go).
    - [RunM] is the state monad of a run (runcontextinfo.go, logwrapper.go):
      its status, the update log, the file system, the trace of what the
      outside sees, with the content of the plan file whenever tofu is given
      one or has written one. [Frame] has the generic facts about it, for any
      [PanicPolicy] that says which panics are let pass, [Example] a concrete
      outside to evaluate on.
    - [GitSource] (gitsource.go, git.go, authSsh.go, authNone.go), [TfEnv],
      [TfVars] and [TfCmd] (tfcmd.go: the environment of tofu, the inputs, the
      generic command), [Script] (scriptcmd.go), [TfBinaries]
      (tfbinaries.go), [TfCommands] (tfapply.go, tfplan.go, tfdestroy.go).
    - [TfFrames], [TfRun], [TfSuccess] and [TfContract] prove what a command
      does, from the frames of each operation up to its contract; [TfSuccess]
      says what tofu has done when a command succeeds.
    - [Dtos] (dtos.go), [RunApi] (runapi.go, the class [RunApi] with its laws
      and the instance over HTTP), [StatusUpdate] (statusupdate.go), [Worker]
      (worker.go), [SingleRun] (singlerunworker.go, which repeats worker.go),
      [Manager] (manager.go).
    - [TfWorkspace] follows a whole run through the commands and proves on
      whose state it works.

    run-controller: [Decryption], [ControllerConfig], [Metrics],
    [Registration], [ControllerApi], [Controller], [Kubernetes]
    (controller/decryption.go, config.go, metrics.go, dtos.go and
    registration.go, runapi.go, controller.go, kubernetes.go with wiftoken.go
    and dispatcher.go), [KubeMetrics] (what the metrics of a dispatch say of
    it), [InProcess]
    (inprocess/dispatcher.go), [KeycloakClaims] and [Keycloak] (keycloakwif/),
    [WifToken], which composes the last with the registration and the job, and
    [Startup] (the main.go of the controller and of tf-block-runner, up to the
    first run).

    [EndToEnd] composes the two ways of a Terraform run, decrypted by its own
    runner or by the controller, across Decryption, Dtos, Run and GitSource.
    [Cluster] composes the controller's loop with the Kubernetes dispatcher and
    with the runner that a job starts, [InProcessRuns] with the in-process
    dispatcher and the two runners that its goroutines are. [Process] takes the
    three main.go to their exit codes: the run of a single-run process, the
    goroutines of a polling one and its signal, the wait of the controller.

    manual-block-runner: [ManualConfig] (manual/config.go), [ManualRun]
    (manual/run.go, poll.go, main.go).

    ** How they interact

    A client is verified against an interface: the workers against the class
    [RunApi] and [RunApiLaws], the controller against [ControllerRunApi] and
    [Dispatcher] with their laws, every HTTP request against [AuthProvider].
    The instances discharge the laws: [LiveApi] in RunApi, [LiveControllerApi]
    in ControllerApi, [LiveInProcess] in InProcess, and for the Kubernetes
    dispatcher [KubernetesDispatcher_Laws] in Cluster, from what [ClusterLaws]
    says of a cluster. What the outside does is an
    argument that sees everything that happened before: [Env] in RunM,
    [KubeEnv], [KcEnv], [HttpEnv], [Host]. Goroutines are step relations over
    what they share: the published statuses (Worker), the channels of manager
    and worker (Manager), the counter and the wait group (InProcess).

    ** What is proved

    - Commands (TfContract): an apply, plan or destroy always ends, with a
      terminal status published last, or panics for one of the causes that
      [CrashCause] lists; steps only move on; an apply with a predecessor gives
      tofu the plan file only, with the downloaded bytes in it; a dry run
      changes nothing, uploads only the plan that tofu wrote and succeeds only
      once it is uploaded; the messages of the steps partition the log. A run
      works on the state of its own block only (TfWorkspace).
    - Reporting (StatusHeap, Worker, StatusUpdate, SingleRun, RunApi): the
      shared cells refine the value model; in every interleaving the observer
      sends statuses in order and the right final one, under the run's token,
      and reports success only of what tofu has done (TfSuccess); the runner of
      a job does what a polling runner does.
    - Polling (Manager, Controller, InProcess, Startup, Cluster, InProcessRuns,
      Process): the manager refines a single token going round; a cycle of the
      controller stays within the capacity it saw and accounts for every
      claimed run, and so does the cluster at every moment; a dispatched run is
      executed by the runner of its job or by a goroutine of the controller, as
      the fetched run with its secrets revealed; a process starts with what its
      runs need, a polling one ends after a signal, and a single-run one exits
      with 0 once it has its run, or with 2 when the run makes it panic.
    - What a run gets (TfEnv, TfVars, Script, GitSource, Decryption,
      Kubernetes, KubeMetrics, Keycloak, KeycloakClaims, WifToken, EndToEnd):
      exactly the specified environment, inputs and secrets; a job only with
      the run's data, no orphaned secret or Keycloak client except in the cases
      the theorems name, and metrics that say what was done; a token that fits
      what was registered and lives as long as asked for; the same run whoever
      decrypts it, up to the run object that is handed on.
    - Codecs and configuration (Crypto, Dtos, TfVars, MeshClient, MeshAuth,
      ControllerConfig, Registration, ManualConfig, ManualRun): round trips,
      bounds, panics characterised exactly, equivalences with a declarative
      reading, and validity of an accepted configuration.

    ** Bounds and fuel

    Integers of Go are [Z] with [wrap64] where a product or a sum can overflow:
    durations, sizes, token lifetimes. Text is a string of bytes; an ASCII
    function of bytes is marked as such. Fuel occurs where the recursion is not
    structural, and is enough by a lemma or by the theorem that uses it: the
    length of the text in [ReplaceAll], [Replacer_Replace], [TrimSpace],
    [expand] and the PEM blocks of a certificate; the depth of a value in
    [AddVariable]; 61 attempts in [registerController]; the
    number of iterations until the cancellation in the manual poller's [Run].

    ** Panics

    A panic is [None] of [may_panic] or of a monad's result, [Panicked] in a
    run, and theorems say when it happens instead of assuming it away. What is
    assumed of a run's outside are laws of Go and of libraries: [CommandLaws]
    (TfFrames: a map is ranged over once, cty takes every string) and
    [HostLaws] (SingleRun: the same of the processes that get no key). A
    command may then panic for a cause of [CrashCause]: the version of the
    building block does not parse (version.Must), the decryption of an input
    panics (a malformed ciphertext, or no key at all), or the directory of the
    clone cannot be looked at and has no path to report. [RunCrash] (Worker)
    adds what the worker needs before its command, [SingleCrash] (SingleRun)
    is the same for a run without encrypted inputs.

    ** Not modelled

    Code that is not part of the repository is a parameter with its documented
    behaviour as named hypotheses: encoding/json, yaml.v3, hcl and cty, go-git
    and ssh, terraform-exec and the installers, go-version, backoff, the
    Kubernetes client, X.509, RSA, AES and PEM, net/http, the operating system
    and the clock. Left out are the operator's log lines (not the update log,
    which the user sees), Prometheus and its server (the measurements are
    modelled, but for a gauge that is set once), what the health servers answer,
    a second signal, request timeouts, the test mode of TfBinaries with the mocks
    (mockedgitfacade.go, mockedtffacade.go), and the deadlines of the calls of
    tofu, whose expiry is one of the errors a call may return. *)

From Stdlib Require Export Ascii ZArith Lia SpecFloat.
From Stdlib Require String.
From stdpp Require Export base tactics list gmap strings pretty sorting numbers.

#[global] Set Default Goal Selector "!".

Declare Scope go_scope.
Delimit Scope go_scope with go.

(** ** Error values *)

(** Go error values, as far as the sources build and inspect them: plain
    messages ([errors.New], [fmt.Errorf] without [%w]), messages that wrap an
    error ([fmt.Errorf] with [%w], kept as the text before and after the
    wrapped error), and the concrete error types that the sources test with
    [errors.As] / [errors.AsType]. *)
Inductive error :=
| errNew (msg : string)
| errWrap (pre : string) (e : error) (post : string)
| errStatus (status : Z)
| errURL (opURL : string) (e : error)
| errExit (text : string) (code : Z)
| errNoHandler (runnerType : string)
| errRunTooLarge (runId : string) (dataSize maxSize : Z)
| errNotExist (path : string).

#[global] Instance error_eq_dec : EqDecision error.
Proof. solve_decision. Defined.

(** [go-meshapi-client/meshapi/client.go]: [StatusError.Error]. *)
Definition StatusError_Error (status : Z) : string :=
  "unexpected HTTP status: " +:+ pretty status.

(** [run-controller/controller/dispatcher.go]: [NoHandlerError.Error]. *)
Definition NoHandlerError_Error (runnerType : string) : string :=
  "no implementation handler configured for type '" +:+ runnerType +:+ "'".

(** [run-controller/controller/kubernetes.go]: [RunTooLargeError.Error]. *)
Definition RunTooLargeError_Error (runId : string) (dataSize maxSize : Z) : string :=
  "run " +:+ runId +:+ " data size (" +:+ pretty dataSize +:+
  " bytes) exceeds Kubernetes secret limit (" +:+ pretty maxSize +:+ " bytes)".

(** [err.Error()]. *)
Fixpoint Error (e : error) : string :=
  match e with
  | errNew msg => msg
  | errWrap pre e post => pre +:+ Error e +:+ post
  | errStatus status => StatusError_Error status
  | errURL opURL e => opURL +:+ ": " +:+ Error e
  | errExit text _ => text
  | errNoHandler t => NoHandlerError_Error t
  | errRunTooLarge r d m => RunTooLargeError_Error r d m
  | errNotExist path => path +:+ ": file does not exist"
  end.

(** [errors.As]: the first error of the chain that [f] recognises. *)
Fixpoint errors_As {A} (f : error → option A) (e : error) : option A :=
  match f e with
  | Some a => Some a
  | None =>
      match e with
      | errWrap _ e _ | errURL _ e => errors_As f e
      | _ => None
      end
  end.

(** [errors.Is], for a target that [f] recognises. *)
Definition errors_Is {A} (f : error → option A) (e : error) : bool :=
  match errors_As f e with Some _ => true | None => false end.

Definition isStatusError (e : error) : option Z :=
  match e with errStatus s => Some s | _ => None end.
Definition isURLError (e : error) : option unit :=
  match e with errURL _ _ => Some tt | _ => None end.
Definition isExitError (e : error) : option Z :=
  match e with errExit _ c => Some c | _ => None end.
Definition isNoHandlerError (e : error) : option string :=
  match e with errNoHandler t => Some t | _ => None end.
Definition isRunTooLargeError (e : error) : option unit :=
  match e with errRunTooLarge _ _ _ => Some tt | _ => None end.
Definition isNotExist (e : error) : option unit :=
  match e with errNotExist _ => Some tt | _ => None end.

(** ** Results: a Go pair [(value, error)] of which exactly one is used *)

Inductive result (A : Type) :=
| Ok (a : A)
| Err (e : error).
Arguments Ok {A} a.
Arguments Err {A} e.

#[global] Instance result_eq_dec {A} `{EqDecision A} : EqDecision (result A).
Proof. solve_decision. Defined.

#[global] Instance result_ret : MRet result := λ A a, Ok a.
#[global] Instance result_bind : MBind result := λ A B f r,
  match r with Ok a => f a | Err e => Err e end.
#[global] Instance result_fmap : FMap result := λ A B f r,
  match r with Ok a => Ok (f a) | Err e => Err e end.

(** [fmt.Errorf(pre + "%w" + post, err)] on the error side of a result. *)
Definition wrapErr {A} (pre : string) (r : result A) (post : string) : result A :=
  match r with Ok a => Ok a | Err e => Err (errWrap pre e post) end.

(** [util.Must]: the panic is [None]. *)
Definition Must {A} (r : result A) : option A :=
  match r with Ok a => Some a | Err _ => None end.

Definition is_ok {A} (r : result A) : bool :=
  match r with Ok _ => true | Err _ => false end.

(** ** Machine integers *)

(** Go's [int] and [int64] on the 64-bit targets the runners are built for. *)
Definition wrap64 (z : Z) : Z := (z + 2^63) `mod` 2^64 - 2^63.
Definition in_int64 (z : Z) : Prop := (-(2^63) ≤ z < 2^63)%Z.

Definition Second : Z := 1000000000.
Definition Minute : Z := 60 * Second.
Definition Millisecond : Z := 1000000.

(** ** Characters and strings *)

Definition chr (n : nat) : string := String (ascii_of_nat n) "".
Definition LF : string := chr 10.
Definition CR : string := chr 13.
Definition DQ : string := chr 34.

Definition slen (s : string) : Z := Z.of_nat (String.length s).

(** [s[i:j]]: [None] is Go's slice-bounds panic. *)
Definition sslice (s : string) (i j : Z) : option string :=
  if decide (0 ≤ i ∧ i ≤ j ∧ j ≤ slen s)%Z
  then Some (String.substring (Z.to_nat i) (Z.to_nat (j - i)) s)
  else None.

Fixpoint sdrop (n : nat) (s : string) : string :=
  match n, s with
  | S n, String _ s => sdrop n s
  | _, _ => s
  end.
Fixpoint stake (n : nat) (s : string) : string :=
  match n, s with
  | S n, String c s => String c (stake n s)
  | _, _ => ""
  end.

(** The first [n] bytes of [s]. *)
Definition stakeZ (n : Z) (s : string) : string :=
  if decide (slen s ≤ n)%Z then s else stake (Z.to_nat n) s.

(** The functions of package [strings] that the sources call. *)
Definition HasPrefix (s p : string) : bool := String.prefix p s.
Definition HasSuffix (s p : string) : bool :=
  String.prefix (String.rev p) (String.rev s).
Definition CutPrefix (s p : string) : option string :=
  if HasPrefix s p then Some (sdrop (String.length p) s) else None.
Definition TrimPrefix (s p : string) : string := default s (CutPrefix s p).
Definition TrimSuffix (s p : string) : string :=
  if HasSuffix s p then stake (String.length s - String.length p) s else s.
Fixpoint Contains (s sub : string) : bool :=
  String.prefix sub s ||
  match s with
  | "" => false
  | String _ s => Contains s sub
  end.
Fixpoint hasChar (c : ascii) (s : string) : bool :=
  match s with
  | "" => false
  | String d s => bool_decide (d = c) || hasChar c s
  end.
(** [strings.TrimLeft(s, c)] for a cutset of one ASCII character. *)
Fixpoint TrimLeftChar (c : ascii) (s : string) : string :=
  match s with
  | "" => ""
  | String d s' => if decide (d = c) then TrimLeftChar c s' else s
  end.
Fixpoint Join (l : list string) (sep : string) : string :=
  match l with
  | [] => ""
  | [x] => x
  | x :: l => x +:+ sep +:+ Join l sep
  end.
(** [strings.ReplaceAll(s, old, new)] for a non-empty [old]; the fuel is the
    length of the string, of which every step drops at least one byte. *)
Fixpoint ReplaceAll_go (fuel : nat) (s old new : string) : string :=
  match fuel with
  | O => s
  | S fuel =>
      match s with
      | "" => ""
      | String c s' =>
          if HasPrefix s old
          then new +:+ ReplaceAll_go fuel (sdrop (String.length old) s) old new
          else String c (ReplaceAll_go fuel s' old new)
      end
  end.
Definition ReplaceAll (s old new : string) : string :=
  ReplaceAll_go (String.length s) s old new.

(** [strings.TrimSpace]: the UTF-8 encodings of the code points of Unicode's
    White_Space property, stripped at both ends. *)
Definition utf8_spaces : list string :=
  [chr 9; chr 10; chr 11; chr 12; chr 13; chr 32;
   chr 194 +:+ chr 133; chr 194 +:+ chr 160; chr 225 +:+ chr 154 +:+ chr 128] ++
  ((λ n, chr 226 +:+ chr 128 +:+ chr n) <$>
    [128; 129; 130; 131; 132; 133; 134; 135; 136; 137; 138; 168; 169; 175]) ++
  [chr 226 +:+ chr 129 +:+ chr 159; chr 227 +:+ chr 128 +:+ chr 128].
Fixpoint trimLeft_go (fuel : nat) (spaces : list string) (s : string) : string :=
  match fuel with
  | O => s
  | S fuel =>
      match list_find (λ p, HasPrefix s p = true) spaces with
      | Some (_, p) => trimLeft_go fuel spaces (sdrop (String.length p) s)
      | None => s
      end
  end.
Definition TrimSpace (s : string) : string :=
  let l := trimLeft_go (String.length s) utf8_spaces s in
  String.rev (trimLeft_go (String.length l) (String.rev <$> utf8_spaces) (String.rev l)).

(** [cmp.Or] on strings: the first one that is not empty. *)
Definition cmpOr (a b : string) : string := if decide (a = "") then b else a.

(** [util.SortedByKeys] (tf-block-runner/util/maps.go): the pairs of a map in
    the byte order of their keys. *)
Definition key_le {V} (x y : string * V) : Prop := String.le x.1 y.1.
#[global] Instance key_le_dec {V} : RelDecision (@key_le V).
Proof. intros x y. unfold key_le. apply _. Defined.
Definition SortedByKeys {V} (m : gmap string V) : list (string * V) :=
  merge_sort key_le (map_to_list m).

(** ** Dynamic values *)

(** Go's [any], as [encoding/json] fills it: JSON numbers are [float64] (the
    IEEE datum, as the Standard Library's [spec_float]) except in the manual
    runner, which keeps their text ([jsontext.Value]). *)
Inductive any :=
| anyNil
| anyBool (b : bool)
| anyFloat (f : spec_float)
| anyRaw (text : string)
| anyStr (s : string)
| anyList (l : list any)
| anyMap (m : list (string * any)).

Section fmt.
Context (fmt_float : spec_float → string).

(** [fmt.Sprintf("%v", v)]; maps are printed in key order, in which they are
    kept here. The shortest decimal form of a float is a parameter. *)
Fixpoint Sprint (v : any) : string :=
  match v with
  | anyNil => "<nil>"
  | anyBool b => if b then "true" else "false"
  | anyFloat f => fmt_float f
  | anyRaw t => t
  | anyStr s => s
  | anyList l => "[" +:+ Join (map Sprint l) " " +:+ "]"
  | anyMap m =>
      "map[" +:+ Join (map (λ kv, kv.1 +:+ ":" +:+ Sprint kv.2) m) " " +:+ "]"
  end.
End fmt.

(** ** Tactics and hints *)

Create HintDb go discriminated.

(** Case analysis on the scrutinee of every [match] of the goal. *)
Ltac go_cases :=
  repeat match goal with
  | |- context [match ?x with _ => _ end] => destruct x eqn:?
  end.

(** [lia] after evaluating the powers of two and the time units. *)
Ltac lia64 :=
  unfold in_int64, Minute, Second, Millisecond in *;
  change (2^63)%Z with 9223372036854775808%Z in *;
  change (2^64)%Z with 18446744073709551616%Z in *; lia.

Ltac split_and_eauto := repeat split; eauto with go.

(** ** Lemmas shared by the components *)

Lemma wrap64_id z : in_int64 z → wrap64 z = z.
Proof. unfold wrap64. intros H. rewrite Z.mod_small by lia64. lia. Qed.

Lemma wrap64_range z : in_int64 (wrap64 z).
Proof. unfold in_int64, wrap64. pose proof (Z.mod_pos_bound (z + 2^63) (2^64)). lia. Qed.

Lemma string_app_nil_r s : s +:+ "" = s.
Proof. induction s as [|c s IH]; [done|]. change (String c (s +:+ "") = String c s). by rewrite IH. Qed.

Lemma string_app_cons c s1 s2 : String c s1 +:+ s2 = String c (s1 +:+ s2).
Proof. done. Qed.

Lemma string_app_assoc s1 s2 s3 : s1 +:+ (s2 +:+ s3) = (s1 +:+ s2) +:+ s3.
Proof.
  induction s1 as [|c s1 IH]; [done|].
  change (String c (s1 +:+ (s2 +:+ s3)) = String c ((s1 +:+ s2) +:+ s3)). by rewrite IH.
Qed.

Lemma length_string_app s1 s2 :
  String.length (s1 +:+ s2) = String.length s1 + String.length s2.
Proof.
  induction s1 as [|c s1 IH]; [done|].
  change (S (String.length (s1 +:+ s2)) = S (String.length s1 + String.length s2)). by rewrite IH.
Qed.

Lemma slen_app s1 s2 : slen (s1 +:+ s2) = (slen s1 + slen s2)%Z.
Proof. unfold slen. rewrite length_string_app. lia. Qed.

Lemma slen_nonneg s : (0 ≤ slen s)%Z.
Proof. unfold slen. lia. Qed.

Lemma length_stake n s : String.length (stake n s) = n `min` String.length s.
Proof. revert n. induction s as [|c s IH]; intros [|n]; simpl; [done..|]. by rewrite IH. Qed.

Lemma slen_stakeZ n s : (0 ≤ n)%Z → slen (stakeZ n s) = Z.min n (slen s).
Proof.
  intros Hn. unfold stakeZ. case_decide; [lia|]. unfold slen in *. rewrite length_stake. lia.
Qed.

Lemma stakeZ_id n s : (slen s ≤ n)%Z → stakeZ n s = s.
Proof. intros. unfold stakeZ. by rewrite decide_True. Qed.

Lemma substring_app_l n m s1 s2 :
  n + m ≤ String.length s1 →
  String.substring n m (s1 +:+ s2) = String.substring n m s1.
Proof.
  revert n m. induction s1 as [|c s1 IH]; intros n m H.
  - assert (n = 0 ∧ m = 0) as [-> ->] by (simpl in H; lia). by destruct s2.
  - change ((String c s1) +:+ s2) with (String c (s1 +:+ s2)).
    destruct n as [|n]; simpl in *.
    + destruct m as [|m]; [done|]. f_equal. apply (IH 0). lia.
    + apply IH. lia.
Qed.

(** A slice that lies inside a prefix does not see what is appended to it. *)
Lemma sslice_app_l s1 s2 i j :
  (j ≤ slen s1)%Z → sslice (s1 +:+ s2) i j = sslice s1 i j.
Proof.
  intros H. unfold sslice. pose proof (slen_nonneg s2).
  destruct (decide (0 ≤ i ∧ i ≤ j ∧ j ≤ slen s1)%Z) as [Hd|Hd].
  - rewrite decide_True by (rewrite slen_app; lia).
    rewrite substring_app_l; [done|]. unfold slen in *. lia.
  - rewrite decide_False; [done|]. rewrite slen_app. lia.
Qed.

Lemma substring_app_consecutive (s : string) (n a b : nat) :
  String.substring n a s +:+ String.substring (n + a) b s = String.substring n (a + b) s.
Proof.
  revert n a. induction s as [|c s IH]; intros n a.
  - destruct n, a; simpl; try done; by destruct b.
  - destruct n as [|n]; simpl.
    + destruct a as [|a]; simpl; [done|]. rewrite string_app_cons. f_equal. apply (IH 0).
    + apply IH.
Qed.

(** Consecutive slices join. *)
Lemma sslice_join s a b c x y :
  sslice s a b = Some x → sslice s b c = Some y → sslice s a c = Some (x +:+ y).
Proof.
  unfold sslice. repeat case_decide; try done; try lia. intros [= <-] [= <-].
  replace (Z.to_nat b) with (Z.to_nat a + Z.to_nat (b - a)) by lia.
  rewrite substring_app_consecutive. do 2 f_equal. lia.
Qed.

Lemma sslice_is_Some s i j :
  (0 ≤ i ≤ j)%Z → (j ≤ slen s)%Z → is_Some (sslice s i j).
Proof. intros. unfold sslice. rewrite decide_True by lia. eauto. Qed.

Lemma string_app_inj s s1 s2 : s +:+ s1 = s +:+ s2 → s1 = s2.
Proof.
  induction s as [|c s IH]; [done|]. rewrite !string_app_cons. intros H. apply IH. congruence.
Qed.

Lemma HasPrefix_spec s p : HasPrefix s p = true ↔ ∃ r, s = p +:+ r.
Proof.
  unfold HasPrefix. revert s. induction p as [|c p IH]; intros s.
  - split; [by exists s|]. by destruct s.
  - destruct s as [|d s]; simpl; [split; [done|by intros [r ?]]|].
    destruct (ascii_dec c d) as [->|Hne].
    + rewrite IH. setoid_rewrite string_app_cons. naive_solver.
    + setoid_rewrite string_app_cons. naive_solver.
Qed.

Lemma sdrop_app p r : sdrop (String.length p) (p +:+ r) = r.
Proof. induction p as [|c p IH]; [by destruct r|]. rewrite string_app_cons. apply IH. Qed.

Lemma CutPrefix_Some s p r : CutPrefix s p = Some r ↔ s = p +:+ r.
Proof.
  unfold CutPrefix. destruct (HasPrefix s p) eqn:Hp.
  - apply HasPrefix_spec in Hp as [r' ->]. rewrite sdrop_app. split.
    + naive_solver.
    + intros H%string_app_inj. by subst.
  - split; [done|]. intros ->. assert (HasPrefix (p +:+ r) p = true) by (apply HasPrefix_spec; eauto).
    congruence.
Qed.

Lemma CutPrefix_None s p : CutPrefix s p = None ↔ HasPrefix s p = false.
Proof. unfold CutPrefix. by destruct (HasPrefix s p). Qed.

Lemma hasChar_app c s1 s2 : hasChar c (s1 +:+ s2) = hasChar c s1 || hasChar c s2.
Proof. induction s1 as [|d s1 IH]; [done|]. rewrite string_app_cons. simpl. by rewrite IH, orb_assoc. Qed.

(** A prefix of a concatenation lies in the first part, or covers it. *)
Lemma HasPrefix_app_inv s1 s2 p :
  HasPrefix (s1 +:+ s2) p = true →
  HasPrefix s1 p = true ∨ ∃ q, p = s1 +:+ q ∧ q ≠ "" ∧ HasPrefix s2 q = true.
Proof.
  revert p. induction s1 as [|c s1 IH]; intros p Hp.
  - destruct p as [|d p]; [by left|]. right. by exists (String d p).
  - destruct p as [|d p]; [by left|]. rewrite string_app_cons in Hp. unfold HasPrefix in *. simpl in *.
    destruct (ascii_dec d c) as [->|]; [|done].
    destruct (IH p Hp) as [?|(q & -> & ? & ?)]; [by left|]. right. by exists q.
Qed.

(** Two strings split at the first occurrence of a character. *)
Lemma split_at_char_inj c s1 t1 s2 t2 :
  hasChar c s1 = false → hasChar c s2 = false →
  s1 +:+ String c t1 = s2 +:+ String c t2 → s1 = s2 ∧ t1 = t2.
Proof.
  revert s2. induction s1 as [|a s1 IH]; intros [|b s2] H1 H2 He; simpl in H1, H2;
    repeat match goal with H : _ || _ = false |- _ => apply orb_false_iff in H as [?%bool_decide_eq_false ?] end.
  - by simplify_eq/=.
  - by simplify_eq/=.
  - by simplify_eq/=.
  - rewrite !string_app_cons in He. simplify_eq. destruct (IH s2) as [-> ->]; done.
Qed.

Lemma errors_As_wrap {A} (f : error → option A) pre e post :
  f (errWrap pre e post) = None → errors_As f (errWrap pre e post) = errors_As f e.
Proof. intros H. simpl. by rewrite H. Qed.

Lemma SortedByKeys_perm {V} (m : gmap string V) : SortedByKeys m ≡ₚ map_to_list m.
Proof. apply merge_sort_Permutation. Qed.

Lemma elem_of_SortedByKeys {V} (m : gmap string V) k v :
  (k, v) ∈ SortedByKeys m ↔ m !! k = Some v.
Proof. rewrite SortedByKeys_perm. apply elem_of_map_to_list. Qed.

#[export] Hint Resolve wrap64_id wrap64_range slen_nonneg sslice_is_Some : go.

(** ** Filtered and sorted lists *)

Lemma filter_none {B} (P : B → Prop) `{∀ x, Decision (P x)} l : Forall (λ x, ¬ P x) l → filter P l = [].
Proof. induction 1; [done|]. by rewrite list.filter_cons_False. Qed.

Lemma Forall_filter {B} (P : B → Prop) `{∀ x, Decision (P x)} (Q : B → Prop) l :
  Forall Q l → Forall Q (filter P l).
Proof. rewrite !list.Forall_forall. intros HQ x [_ Hx]%list_elem_of_filter. auto. Qed.

Lemma StronglySorted_filter {B} (R : relation B) (P : B → Prop) `{∀ x, Decision (P x)} l :
  StronglySorted R l → StronglySorted R (filter P l).
Proof.
  induction 1 as [|x l Hs IH Hx]; [constructor|]. destruct (decide (P x)).
  - rewrite list.filter_cons_True by done. constructor; [done|]. by apply Forall_filter.
  - by rewrite list.filter_cons_False.
Qed.

Lemma StronglySorted_reverse {B} (R : relation B) l :
  StronglySorted R l → StronglySorted (flip R) (reverse l).
Proof.
  induction 1 as [|x l Hs IH Hx]; [constructor|]. rewrite reverse_cons.
  apply StronglySorted_app. split_and!; [|done|repeat constructor].
  intros y z Hy ->%list_elem_of_singleton. rewrite elem_of_reverse in Hy.
  rewrite list.Forall_forall in Hx. by apply Hx.
Qed.
