(* ===== verification/GoPath.v ===== *)
(** * GoPath: packages path and path/filepath, as far as the runners call them

    [Clean], [Join], [Ext] and [Rel] on slash-separated paths (the runners are
    built for Linux), and the directory view of a file system kept as a map
    from the paths of its regular files to their contents: a directory is a
    path below which there is a file. *)

From S2P Require Import Prelude.

Definition slash : ascii := ascii_of_nat 47.

Fixpoint Split_go (sep : ascii) (s cur : string) : list string :=
  match s with
  | "" => [cur]
  | String c s =>
      if decide (c = sep) then cur :: Split_go sep s ""
      else Split_go sep s (cur +:+ String c "")
  end.
Definition Split (sep : ascii) (s : string) : list string := Split_go sep s "".

(** The elements of a cleaned path; the accumulator is reversed. *)
Fixpoint cleanElems (rooted : bool) (elems acc : list string) : list string :=
  match elems with
  | [] => rev acc
  | e :: es =>
      if decide (e = "" ∨ e = ".") then cleanElems rooted es acc
      else if decide (e = "..") then
        match acc with
        | [] => cleanElems rooted es (if rooted then [] else [".."])
        | a :: acc' =>
            if decide (a = "..") then cleanElems rooted es (".." :: acc)
            else cleanElems rooted es acc'
        end
      else cleanElems rooted es (e :: acc)
  end.

Definition path_Clean (p : string) : string :=
  let rooted := HasPrefix p "/" in
  let body := Join (cleanElems rooted (Split slash p) []) "/" in
  if rooted then "/" +:+ body else if decide (body = "") then "." else body.

Definition path_Join (elems : list string) : string :=
  match filter (λ e, e ≠ "") elems with
  | [] => ""
  | es => path_Clean (Join es "/")
  end.

Definition path_Base (p : string) : string := List.last (Split slash p) "".

(** The file name extension, with its dot. *)
Fixpoint Ext_go (s : string) (ext : string) : string :=
  match s with
  | "" => ext
  | String c s' =>
      if decide (c = ascii_of_nat 46) then Ext_go s' s else Ext_go s' ext
  end.
Definition filepath_Ext (p : string) : string := Ext_go (path_Base p) "".

(** [strings.ToLower] on ASCII letters: the extensions compared with are ASCII. *)
Definition lowerChar (c : ascii) : ascii :=
  let n := nat_of_ascii c in
  if decide (65 ≤ n ∧ n ≤ 90) then ascii_of_nat (n + 32) else c.
Fixpoint ToLower (s : string) : string :=
  match s with "" => "" | String c s => String (lowerChar c) (ToLower s) end.

(** [strings.NewReplacer(pairs...).Replace]: at every position the first pair
    that matches is replaced, and the text behind it is looked at next. The
    old strings are not empty; the fuel is the length of the text. *)
Fixpoint Replacer_go (fuel : nat) (pairs : list (string * string)) (s : string) : string :=
  match fuel, s with
  | S fuel, String c s' =>
      match list_find (λ p : string * string, HasPrefix s p.1 = true) pairs with
      | Some (_, (old, new)) => new +:+ Replacer_go fuel pairs (sdrop (String.length old) s)
      | None => String c (Replacer_go fuel pairs s')
      end
  | _, _ => s
  end.
Definition Replacer_Replace (pairs : list (string * string)) (s : string) : string :=
  Replacer_go (String.length s) pairs s.

(** The path of [p] below the directory [dir]. *)
Definition below (dir p : string) : option string := CutPrefix p (dir +:+ "/").

(** ** The file system *)

Definition isDir (fs : gmap string string) (p : string) : bool :=
  existsb (λ kv, match below p kv.1 with Some _ => true | None => false end) (map_to_list fs).

Definition exists_ (fs : gmap string string) (p : string) : bool :=
  bool_decide (is_Some (fs !! p)) || isDir fs p.

Definition removeAll (fs : gmap string string) (p : string) : gmap string string :=
  filter (λ kv, kv.1 ≠ p ∧ below p kv.1 = None) fs.

(** The regular files below [dir], by their path relative to it, in the order
    [filepath.Walk] meets them: the order of the names element by element, so
    the slash sorts before every other character. *)
Fixpoint walkKey (p : string) : string :=
  match p with
  | "" => ""
  | String c p => String (if decide (c = slash) then ascii_of_nat 0 else c) (walkKey p)
  end.
Definition walk_le (x y : string * string) : Prop := String.le (walkKey x.1) (walkKey y.1).
#[global] Instance walk_le_dec : RelDecision walk_le.
Proof. intros x y. unfold walk_le. apply _. Defined.

Definition filesBelow (fs : gmap string string) (dir : string) : list (string * string) :=
  merge_sort walk_le (omap (λ kv, r ← below dir kv.1; Some (r, kv.2)) (map_to_list fs)).

(** [fs.ReadDir(os.DirFS(dir), ".")]: the names of the directory's entries in
    order, and whether each is a directory. *)
Definition readDir (fs : gmap string string) (dir : string) : list (string * bool) :=
  let entries : gmap string bool := foldr (λ '(rel, _) m,
    match Split slash rel with
    | name :: rest => <[name := match rest with [] => false | _ => true end]> m
    | [] => m
    end) ∅ (filesBelow fs dir) in
  SortedByKeys entries.

(** ** Lemmas *)

Lemma removeAll_lookup fs p q :
  removeAll fs p !! q = (if decide (q ≠ p ∧ below p q = None) then fs !! q else None).
Proof.
  unfold removeAll. case_decide as Hd.
  - destruct (fs !! q) as [c|] eqn:Hq.
    + by apply map_lookup_filter_Some.
    + apply map_lookup_filter_None. by left.
  - apply map_lookup_filter_None. right. by intros c _ Hc.
Qed.

Lemma removeAll_below fs p q : below p q <> None → removeAll fs p !! q = None.
Proof. intros Hb. rewrite removeAll_lookup, decide_False; [done|]. tauto. Qed.
