(* ===== verification/Base64.v ===== *)
(** * Base64: Go's encoding/base64.StdEncoding

    The codec that run payloads, data URLs, run JSON and ciphertexts pass
    through: padded standard base64, whose decoder skips CR and LF anywhere and
    does not check the unused trailing bits. Its error's byte offset is not
    kept. The round trip is what the components that decode rely on. *)

From S2P Require Import Prelude.
From Stdlib Require Import NArith ZifyN.

Definition alphabet : string :=
  "ABCDEFGHIJKLMNOPQRSTUVWXYZabcdefghijklmnopqrstuvwxyz0123456789+/".
Definition padChar : ascii := ascii_of_nat 61.

Definition encChar (n : N) : ascii :=
  default padChar (String.get (N.to_nat n) alphabet).

Definition decChar (c : ascii) : option N :=
  let n := N_of_ascii c in
  if decide (65 ≤ n ∧ n ≤ 90)%N then Some (n - 65)%N
  else if decide (97 ≤ n ∧ n ≤ 122)%N then Some (n - 71)%N
  else if decide (48 ≤ n ∧ n ≤ 57)%N then Some (n + 4)%N
  else if decide (n = 43)%N then Some 62%N
  else if decide (n = 47)%N then Some 63%N
  else None.

Definition enc24 (v : N) (i : N) : ascii := encChar ((v / 64 ^ (3 - i)) mod 64)%N.
Definition byteOf (v : N) (i : N) : ascii := ascii_of_N ((v / 256 ^ (2 - i)) mod 256)%N.

Definition join3 (a b c : N) : N := (a * 65536 + b * 256 + c)%N.
Definition join4 (a b c d : N) : N := (a * 262144 + b * 4096 + c * 64 + d)%N.

Fixpoint EncodeToString (s : string) : string :=
  match s with
  | "" => ""
  | String a "" =>
      let v := join3 (N_of_ascii a) 0 0 in
      String (enc24 v 0) (String (enc24 v 1) (String padChar (String padChar "")))
  | String a (String b "") =>
      let v := join3 (N_of_ascii a) (N_of_ascii b) 0 in
      String (enc24 v 0) (String (enc24 v 1) (String (enc24 v 2) (String padChar "")))
  | String a (String b (String c s)) =>
      let v := join3 (N_of_ascii a) (N_of_ascii b) (N_of_ascii c) in
      String (enc24 v 0) (String (enc24 v 1) (String (enc24 v 2) (String (enc24 v 3)
        (EncodeToString s))))
  end.

Fixpoint stripNewlines (s : string) : string :=
  match s with
  | "" => ""
  | String c s =>
      if decide (c = ascii_of_nat 10 ∨ c = ascii_of_nat 13) then stripNewlines s
      else String c (stripNewlines s)
  end.

Fixpoint decodeQuads (s : string) : option string :=
  match s with
  | "" => Some ""
  | String a (String b (String c (String d s))) =>
      x ← decChar a;
      y ← decChar b;
      if decide (d = padChar ∧ c = padChar ∧ s = "") then
        Some (String (byteOf (join4 x y 0 0) 0) "")
      else
        z ← decChar c;
        if decide (d = padChar ∧ s = "") then
          let v := join4 x y z 0 in
          Some (String (byteOf v 0) (String (byteOf v 1) ""))
        else
          t ← decChar d;
          let v := join4 x y z t in
          rest ← decodeQuads s;
          Some (String (byteOf v 0) (String (byteOf v 1) (String (byteOf v 2) rest)))
  | _ => None
  end.

Definition DecodeString (s : string) : result string :=
  match decodeQuads (stripNewlines s) with
  | Some bytes => Ok bytes
  | None => Err (errNew "illegal base64 data")
  end.

(** ** The round trip *)

Lemma decChar_encChar n : (n < 64)%N → decChar (encChar n) = Some n.
Proof.
  intros Hn.
  assert (Forall (λ k, decChar (encChar (N.of_nat k)) = Some (N.of_nat k)) (seq 0 64)) as H
    by (apply (bool_decide_unpack _); vm_compute; exact I).
  rewrite <-(N2Nat.id n). apply (proj1 (Forall_seq _ _ _) H). lia.
Qed.

Lemma encChar_plain n : (n < 64)%N →
  encChar n ≠ padChar ∧ encChar n ≠ ascii_of_nat 10 ∧ encChar n ≠ ascii_of_nat 13.
Proof.
  intros Hn%decChar_encChar. split_and!; intros He; rewrite He in Hn; vm_compute in Hn; done.
Qed.

Lemma enc24_lt v i : ((v / 64 ^ (3 - i)) mod 64 < 64)%N.
Proof. by apply N.mod_lt. Qed.

Lemma decChar_enc24 v i : decChar (enc24 v i) = Some ((v / 64 ^ (3 - i)) mod 64)%N.
Proof. apply decChar_encChar, enc24_lt. Qed.

Lemma enc24_plain v i :
  enc24 v i ≠ padChar ∧ enc24 v i ≠ ascii_of_nat 10 ∧ enc24 v i ≠ ascii_of_nat 13.
Proof. apply encChar_plain, enc24_lt. Qed.

Lemma byte_lt a : (N_of_ascii a < 256)%N.
Proof. apply N_ascii_bounded. Qed.

(** The four digits of three bytes give the bytes back. *)
Lemma join4_digits a b c v :
  v = join3 (N_of_ascii a) (N_of_ascii b) (N_of_ascii c) →
  join4 ((v / 64 ^ (3 - 0)) mod 64) ((v / 64 ^ (3 - 1)) mod 64)
        ((v / 64 ^ (3 - 2)) mod 64) ((v / 64 ^ (3 - 3)) mod 64) = v.
Proof.
  intros ->. pose proof (byte_lt a). pose proof (byte_lt b). pose proof (byte_lt c).
  change (64 ^ (3 - 0))%N with 262144%N. change (64 ^ (3 - 1))%N with 4096%N.
  change (64 ^ (3 - 2))%N with 64%N. change (64 ^ (3 - 3))%N with 1%N.
  unfold join3, join4. lia.
Qed.

Lemma byteOf_join3 a b c v :
  v = join3 (N_of_ascii a) (N_of_ascii b) (N_of_ascii c) →
  byteOf v 0 = a ∧ byteOf v 1 = b ∧ byteOf v 2 = c.
Proof.
  intros ->. pose proof (byte_lt a). pose proof (byte_lt b). pose proof (byte_lt c).
  unfold byteOf, join3.
  change (256 ^ (2 - 0))%N with 65536%N. change (256 ^ (2 - 1))%N with 256%N.
  change (256 ^ (2 - 2))%N with 1%N.
  assert (∀ n x, n = N_of_ascii x → ascii_of_N n = x) as Hx by (intros ?? ->; apply ascii_N_embedding).
  split_and!; apply Hx; lia.
Qed.

Lemma stripNewlines_plain c s :
  c ≠ ascii_of_nat 10 → c ≠ ascii_of_nat 13 →
  stripNewlines (String c s) = String c (stripNewlines s).
Proof. intros H1 H2. cbn [stripNewlines]. rewrite decide_False; tauto. Qed.

Lemma stripNewlines_enc24 v i s :
  stripNewlines (String (enc24 v i) s) = String (enc24 v i) (stripNewlines s).
Proof. destruct (enc24_plain v i) as (_ & ? & ?). by apply stripNewlines_plain. Qed.

Lemma stripNewlines_pad s : stripNewlines (String padChar s) = String padChar (stripNewlines s).
Proof. by apply stripNewlines_plain. Qed.

(** Induction on a string three characters at a time. *)
Lemma string_ind3 (P : string → Prop) :
  P "" → (∀ a, P (String a "")) → (∀ a b, P (String a (String b ""))) →
  (∀ a b c s, P s → P (String a (String b (String c s)))) → ∀ s, P s.
Proof.
  intros H0 H1 H2 H3. fix IH 1. intros [|a [|b [|c s]]];
    [exact H0|apply H1|apply H2|apply H3, IH].
Qed.

Lemma stripNewlines_Encode s : stripNewlines (EncodeToString s) = EncodeToString s.
Proof.
  induction s as [|a|a b|a b c s IH] using string_ind3; [done|..]; cbn [EncodeToString];
    by rewrite ?stripNewlines_enc24, ?stripNewlines_pad, ?IH.
Qed.

Lemma decodeQuads_Encode s : decodeQuads (EncodeToString s) = Some s.
Proof.
  induction s as [|a|a b|a b c s IH] using string_ind3; [done|..];
    cbn [EncodeToString decodeQuads]; rewrite !decChar_enc24; cbn [mbind option_bind].
  - rewrite decide_True by done. pose proof (join4_digits a Ascii.zero Ascii.zero _ eq_refl) as Hj.
    pose proof (byteOf_join3 a Ascii.zero Ascii.zero _ eq_refl) as (Hb & _).
    change (N_of_ascii Ascii.zero) with 0%N in *.
    assert ((join3 (N_of_ascii a) 0 0 / 64 ^ (3 - 2)) mod 64 = 0 ∧
            (join3 (N_of_ascii a) 0 0 / 64 ^ (3 - 3)) mod 64 = 0)%N as [E2 E3].
    { pose proof (byte_lt a). change (64 ^ (3 - 2))%N with 64%N. change (64 ^ (3 - 3))%N with 1%N.
      unfold join3. lia. }
    rewrite E2, E3 in Hj. by rewrite Hj, Hb.
  - pose proof (enc24_plain (join3 (N_of_ascii a) (N_of_ascii b) 0) 2) as (Hp & _).
    rewrite decide_False by naive_solver. rewrite decide_True by done.
    pose proof (join4_digits a b Ascii.zero _ eq_refl) as Hj.
    pose proof (byteOf_join3 a b Ascii.zero _ eq_refl) as (Ha & Hb & _).
    change (N_of_ascii Ascii.zero) with 0%N in *.
    assert ((join3 (N_of_ascii a) (N_of_ascii b) 0 / 64 ^ (3 - 3)) mod 64 = 0)%N as E3.
    { pose proof (byte_lt a). pose proof (byte_lt b). change (64 ^ (3 - 3))%N with 1%N.
      unfold join3. lia. }
    rewrite E3 in Hj. cbn zeta. by rewrite Hj, Ha, Hb.
  - pose proof (enc24_plain (join3 (N_of_ascii a) (N_of_ascii b) (N_of_ascii c)) 3) as (Hp & _).
    rewrite !decide_False by naive_solver. rewrite IH. cbn [mbind option_bind]. cbn zeta.
    rewrite (join4_digits a b c _ eq_refl). by destruct (byteOf_join3 a b c _ eq_refl) as (-> & -> & ->).
Qed.

Lemma decode_encode s : DecodeString (EncodeToString s) = Ok s.
Proof. unfold DecodeString. by rewrite stripNewlines_Encode, decodeQuads_Encode. Qed.

Lemma decodeQuads_length_le n : ∀ s bytes, String.length s ≤ n → decodeQuads s = Some bytes →
  4 * String.length bytes ≤ 3 * String.length s.
Proof.
  induction n as [|n IH]; intros s bytes Hn Hd.
  { destruct s; [by simplify_eq/=|simpl in Hn; lia]. }
  destruct s as [|a [|b [|c [|d s]]]]; [by simplify_eq/=|done..|].
  cbn [decodeQuads] in Hd. repeat (case_match || simplify_option_eq); simplify_eq; simpl in *; try lia.
  all: match goal with H : decodeQuads _ = Some _ |- _ => apply IH in H; simpl in *; lia end.
Qed.

(** Every quad of characters the decoder accepts gives at most three bytes. *)
Lemma decodeQuads_length s bytes :
  decodeQuads s = Some bytes → 4 * String.length bytes ≤ 3 * String.length s.
Proof. by apply (decodeQuads_length_le (String.length s)). Qed.

(** Decoding what the encoder produced gives the same bytes back, so a run
    object that is encoded for a job, a script or a payload arrives intact;
    and whatever decodes yields at most three bytes for four characters. *)
Theorem DecodeString_EncodeToString (s : string) :
  DecodeString (EncodeToString s) = Ok s ∧
  ∀ t bytes, DecodeString t = Ok bytes → 4 * String.length bytes ≤ 3 * String.length (stripNewlines t).
Proof.
  split; [apply decode_encode|]. intros t bytes. unfold DecodeString. case_match; [|done].
  intros [= <-]. by apply decodeQuads_length.
Qed.
