(* ===== verification/Trace.v ===== *)
(** * Trace: computations that talk to a remote service

    The effect the run-controller's clients share: a computation makes
    requests one after the other, each answered by an environment that knows
    everything that happened before, and leaves the requests with their
    answers as events of a trace. It may also panic. [adds], [returns]
    and [ends] are the specifications of what a computation adds to the trace:
    of one that may panic, what it adds if not; of one that returns; and of one
    that may panic, what it adds in either case. *)

From S2P Require Import Prelude.

(** A result, or [None] for a panic, and the trace so far. *)
Definition K (E A : Type) : Type := list E → option A * list E.

#[global] Instance K_ret {E} : MRet (K E) := λ A a t, (Some a, t).
#[global] Instance K_bind {E} : MBind (K E) := λ A B f m t,
  match m t with
  | (Some a, t) => f a t
  | (None, t) => (None, t)
  end.

Section Trace.
Context {E : Type}.

(** One request: the answer depends on what happened before. *)
Definition request {R} (answer : list E → R) (event : R → E) : K E R :=
  λ t, let r := answer t in (Some r, t ++ [event r]).

(** Something that is observed without a request: the clock, randomness. *)
Definition observe {R} (answer : list E → R) : K E R := λ t, (Some (answer t), t).

(** A pure computation that may panic. *)
Definition orPanic {A} (o : option A) : K E A := λ t, (o, t).

Definition adds {A} (m : K E A) (Q : A → list E → Prop) : Prop :=
  ∀ t, ∃ es, (m t).2 = t ++ es ∧ ∀ a, (m t).1 = Some a → Q a es.

Lemma adds_ret {A} (a : A) (Q : A → list E → Prop) : Q a [] → adds (mret a) Q.
Proof. intros HQ t. exists []. simpl. rewrite app_nil_r. split; [done|]. by intros b [= <-]. Qed.

Lemma adds_request {R} answer (event : R → E) (Q : R → list E → Prop) :
  (∀ t, Q (answer t) [event (answer t)]) → adds (request answer event) Q.
Proof. intros HQ t. eexists. split; [done|]. by intros r [= <-]. Qed.

Lemma adds_observe {R} answer (Q : R → list E → Prop) :
  (∀ t, Q (answer t) []) → adds (observe answer) Q.
Proof. intros HQ t. exists []. simpl. rewrite app_nil_r. split; [done|]. by intros r [= <-]. Qed.

Lemma adds_orPanic {A} (o : option A) (Q : A → list E → Prop) :
  (∀ a, o = Some a → Q a []) → adds (orPanic o) Q.
Proof. intros HQ t. exists []. simpl. rewrite app_nil_r. by split. Qed.

Lemma adds_bind {A B} (m : K E A) (f : A → K E B) Q (R : B → list E → Prop) :
  adds m Q → (∀ a es, Q a es → adds (f a) (λ b es', R b (es ++ es'))) → adds (m ≫= f) R.
Proof.
  intros Hm Hf t. destruct (Hm t) as (es & Ht & HQ). unfold mbind, K_bind.
  destruct (m t) as [[a|] t1]; simpl in *; subst t1; [|by exists es].
  destruct (Hf a es (HQ a eq_refl) (t ++ es)) as (es' & Ht' & HR).
  exists (es ++ es'). by rewrite Ht', app_assoc.
Qed.

Lemma adds_weaken {A} (m : K E A) (Q R : A → list E → Prop) :
  adds m Q → (∀ a es, Q a es → R a es) → adds m R.
Proof. intros Hm HQR t. destruct (Hm t) as (es & Ht & HQ). exists es. eauto. Qed.

Lemma adds_run {A} (m : K E A) Q t a t' :
  adds m Q → m t = (Some a, t') → ∃ es, t' = t ++ es ∧ Q a es.
Proof. intros Hm Hr. destruct (Hm t) as (es & Ht & HQ). rewrite Hr in *. exists es. split; [done|by apply HQ]. Qed.

(** The same for a computation that never panics. *)
Definition returns {A} (m : K E A) (Q : A → list E → Prop) : Prop :=
  ∀ t, ∃ a es, m t = (Some a, t ++ es) ∧ Q a es.

Lemma returns_ret {A} (a : A) (Q : A → list E → Prop) : Q a [] → returns (mret a) Q.
Proof. intros HQ t. exists a, []. by rewrite app_nil_r. Qed.

Lemma returns_request {R} answer (event : R → E) (Q : R → list E → Prop) :
  (∀ t, Q (answer t) [event (answer t)]) → returns (request answer event) Q.
Proof. intros HQ t. by eexists _, _. Qed.

Lemma returns_observe {R} answer (Q : R → list E → Prop) :
  (∀ t, Q (answer t) []) → returns (observe answer) Q.
Proof. intros HQ t. eexists _, []. by rewrite app_nil_r. Qed.

Lemma returns_bind {A B} (m : K E A) (f : A → K E B) Q (R : B → list E → Prop) :
  returns m Q → (∀ a es, Q a es → returns (f a) (λ b es', R b (es ++ es'))) → returns (m ≫= f) R.
Proof.
  intros Hm Hf t. destruct (Hm t) as (a & es & Ht & HQ). unfold mbind, K_bind. rewrite Ht.
  destruct (Hf a es HQ (t ++ es)) as (b & es' & Ht' & HR). exists b, (es ++ es').
  by rewrite Ht', app_assoc.
Qed.

Lemma returns_adds {A} (m : K E A) Q : returns m Q → adds m Q.
Proof. intros Hm t. destruct (Hm t) as (a & es & -> & HQ). exists es. split; [done|]. by intros b [= <-]. Qed.

(** The same for a computation that may panic, with what is left then. *)
Definition ends {A} (m : K E A) (Q : option A → list E → Prop) : Prop :=
  ∀ t, ∃ es, (m t).2 = t ++ es ∧ Q (m t).1 es.

Lemma ends_ret {A} (a : A) (Q : option A → list E → Prop) : Q (Some a) [] → ends (mret a) Q.
Proof. intros HQ t. exists []. simpl. by rewrite app_nil_r. Qed.

Lemma ends_orPanic {A B} (o : option A) (f : A → K E B) (R : option B → list E → Prop) :
  (o = None → R None []) → (∀ a, o = Some a → ends (f a) R) → ends (orPanic o ≫= f) R.
Proof.
  intros Hn Hf t. unfold mbind, K_bind, orPanic. destruct o as [a|]; [by apply Hf|].
  exists []. simpl. rewrite app_nil_r. auto.
Qed.

Lemma ends_bind {A B} (m : K E A) (f : A → K E B) Q (R : option B → list E → Prop) :
  returns m Q → (∀ a es, Q a es → ends (f a) (λ b es', R b (es ++ es'))) → ends (m ≫= f) R.
Proof.
  intros Hm Hf t. destruct (Hm t) as (a & es & Ht & HQ). unfold mbind, K_bind. rewrite Ht.
  destruct (Hf a es HQ (t ++ es)) as (es' & Ht' & HR). exists (es ++ es'). by rewrite Ht', app_assoc.
Qed.

Lemma ends_weaken {A} (m : K E A) (Q R : option A → list E → Prop) :
  ends m Q → (∀ a es, Q a es → R a es) → ends m R.
Proof. intros Hm HQR t. destruct (Hm t) as (es & Ht & HQ). exists es. eauto. Qed.

Lemma ends_run {A} (m : K E A) Q t r t' : ends m Q → m t = (r, t') → ∃ es, t' = t ++ es ∧ Q r es.
Proof. intros Hm Hr. destruct (Hm t) as (es & Ht & HQ). rewrite Hr in *. by exists es. Qed.

Lemma returns_weaken {A} (m : K E A) (Q R : A → list E → Prop) :
  returns m Q → (∀ a es, Q a es → R a es) → returns m R.
Proof. intros Hm HQR t. destruct (Hm t) as (a & es & Ht & HQ). exists a, es. eauto. Qed.
End Trace.
