(* ===== verification/Hcl.v ===== *)
(** * Hcl: reading Terraform configurations

    Models tf-block-runner/tfrun/tfconfig_parse.go and backendsearch.go: which
    files of a directory are parsed and as what, the search for a backend
    block, and the collection of declared input variables. The HCL parser, its
    schema matching and the cty value library are a record of parameters. *)

From S2P Require Import Prelude GoPath.

Inductive Severity := DiagError | DiagWarning.
#[export] Instance Severity_eq_dec : EqDecision Severity.
Proof. solve_decision. Defined.

Record Diagnostic := mkDiag { diag_Severity : Severity; diag_Summary : string; diag_Detail : string }.

Definition HasErrors (diags : list Diagnostic) : bool :=
  existsb (λ d, bool_decide (diag_Severity d = DiagError)) diags.

(** What [hclwrite] writes: attributes, with a value or a traversal of one
    root, and blocks. *)
Inductive WItem (Cty : Type) :=
| WAttr (name : string) (v : Cty)
| WTraversal (name root : string)
| WBlock (type : string) (labels : list string) (body : list (WItem Cty)).
Arguments WAttr {Cty}. Arguments WTraversal {Cty}. Arguments WBlock {Cty}.

(** The HCL and cty libraries: [hcl_blocks body type label] is
    [Body.PartialContent] for the blocks of one type, with one label or none,
    and [hcl_typeAttribute] the same for the attribute [type], with the source
    text of its expression. *)
Record HclLib := mkHclLib {
  HclBody : Type;
  Cty : Type;
  CtyType : Type;
  Expr : Type;
  ParseHCL : string → string → HclBody * list Diagnostic;
  ParseJSON : string → string → HclBody * list Diagnostic;
  hcl_blocks : HclBody → string → bool →
    option (list (string * list string * HclBody)) * list Diagnostic;
  hcl_typeAttribute : HclBody → option string * list Diagnostic;
  diagsError : list Diagnostic → string;
  ParseExpression : string → Expr * list Diagnostic;
  exprValue : Expr → Cty * list Diagnostic;
  json_Valid : string → bool;
  ctyjson_ImpliedType : string → result CtyType;
  ctyjson_Unmarshal : string → CtyType → result Cty;
  ctyjson_Marshal : Cty → result string;
  gocty_ImpliedType : any → result CtyType;
  gocty_ToCtyValue : any → CtyType → result Cty;
  StringVal : string → Cty;
  BoolVal : bool → Cty;
  NullString : Cty;
  hclBytes : list (WItem Cty) → string;
}.

Section Parse.
Context (lib : HclLib).
(** What the operating system answers for an operation on a path. *)
Context (osErr : string → string → option error).
Context (fs : gmap string string) (dir : string).

Record TfFile := mkTfFile { tf_Body : option (HclBody lib); tf_Filename : string }.

Definition readEntry (parseAs : string → string → HclBody lib * list Diagnostic) (name : string)
    : TfFile * list Diagnostic :=
  let path := path_Join [dir; name] in
  match osErr "read" path, fs !! path with
  | None, Some content =>
      let '(body, diags) := parseAs content name in (mkTfFile (Some body) name, diags)
  | Some e, _ =>
      (mkTfFile None "", [mkDiag DiagError ("Failed to read file " +:+ name) (Error e)])
  | None, None =>
      (mkTfFile None "", [mkDiag DiagError ("Failed to read file " +:+ name)
                            (Error (errNotExist path))])
  end.

(** The sequence that the iterator yields when it is consumed to its end. *)
Definition ParseTerraformConfig : list (TfFile * list Diagnostic) :=
  match osErr "readdir" dir with
  | Some e =>
      [(mkTfFile None "", [mkDiag DiagError "Failed to read entries in Terraform config dir" (Error e)])]
  | None =>
      omap (λ '(name, isdir),
        if (isdir : bool) then None
        else
          let suffix := ToLower (filepath_Ext name) in
          if decide (suffix = ".tf") then Some (readEntry (ParseHCL lib) name)
          else if decide (suffix = ".json") then Some (readEntry (ParseJSON lib) name)
          else None) (readDir fs dir)
  end.

(** ** backendsearch.go *)

(** The blocks of one [terraform] block's body: [None] goes on. *)
Fixpoint findBackendIn (filename : string) (terraformBlocks : list (string * list string * HclBody lib))
    : option (bool * string * list Diagnostic) :=
  match terraformBlocks with
  | [] => None
  | (_, _, body) :: terraformBlocks =>
      let '(backendBlocks, diags) := hcl_blocks lib body "backend" true in
      match backendBlocks with
      | None => Some (false, "", diags)
      | Some backendBlocks =>
          if HasErrors diags then Some (false, "", diags)
          else if existsb (λ b, bool_decide (b.1.1 = "backend")) backendBlocks
          then Some (true, filename, [])
          else findBackendIn filename terraformBlocks
      end
  end.

Fixpoint findBackendLoop (files : list (TfFile * list Diagnostic)) : bool * string * list Diagnostic :=
  match files with
  | [] => (false, "", [])
  | (srcFile, diags) :: files =>
      if HasErrors diags then (false, "", diags)
      else match tf_Body srcFile with
      | None => (false, "", diags)
      | Some body =>
          let '(terraformBlocks, diags) := hcl_blocks lib body "terraform" false in
          match terraformBlocks with
          | None => (false, "", diags)
          | Some terraformBlocks =>
              if HasErrors diags then (false, "", diags)
              else match findBackendIn (tf_Filename srcFile) terraformBlocks with
              | Some r => r
              | None => findBackendLoop files
              end
          end
      end
  end.
Definition FindBackendConfig : bool * string * list Diagnostic :=
  findBackendLoop ParseTerraformConfig.

(** ** The variables a configuration declares: name to type *)

Fixpoint variableInputsIn (blocks : list (string * list string * HclBody lib))
    (result : gmap string string) (errDiags : list Diagnostic)
    : gmap string string * list Diagnostic :=
  match blocks with
  | [] => (result, errDiags)
  | (_, labels, body) :: blocks =>
      match labels with
      | [varName] =>
          let '(typeAttr, diags) := hcl_typeAttribute lib body in
          if HasErrors diags then variableInputsIn blocks result (errDiags ++ diags)
          else variableInputsIn blocks (<[varName := default "any" typeAttr]> result) errDiags
      | _ => variableInputsIn blocks result errDiags
      end
  end.

Fixpoint variableInputsLoop (files : list (TfFile * list Diagnostic))
    (result : gmap string string) (errDiags : list Diagnostic)
    : gmap string string * list Diagnostic :=
  match files with
  | [] => (result, errDiags)
  | (tfFile, diags) :: files =>
      if HasErrors diags then variableInputsLoop files result (errDiags ++ diags)
      else match tf_Body tfFile with
      | None => variableInputsLoop files result errDiags
      | Some body =>
          let '(variableBlocks, diags) := hcl_blocks lib body "variable" true in
          match variableBlocks with
          | None => variableInputsLoop files result (errDiags ++ diags)
          | Some variableBlocks =>
              if HasErrors diags then variableInputsLoop files result (errDiags ++ diags)
              else
                let '(result, errDiags) := variableInputsIn variableBlocks result errDiags in
                variableInputsLoop files result errDiags
          end
      end
  end.
Definition ParseVariableInputs : gmap string string * list Diagnostic :=
  variableInputsLoop ParseTerraformConfig ∅ [].

(** ** Properties *)

(** A configuration file declares a backend that the search can see: in one
    of its [terraform] blocks there is a [backend] block. *)
Definition declaresBackend (f : TfFile * list Diagnostic) : Prop :=
  HasErrors f.2 = false ∧
  ∃ body tbs ds, tf_Body f.1 = Some body ∧ hcl_blocks lib body "terraform" false = (Some tbs, ds) ∧
    ∃ t ls b bbs ds', (t, ls, b) ∈ tbs ∧ hcl_blocks lib b "backend" true = (Some bbs, ds') ∧
      ∃ bt bl bb, (bt, bl, bb) ∈ bbs ∧ bt = "backend".

Lemma findBackendIn_found filename tbs f ds :
  findBackendIn filename tbs = Some (true, f, ds) →
  f = filename ∧ ds = [] ∧ ∃ t ls b bbs ds', (t, ls, b) ∈ tbs ∧
    hcl_blocks lib b "backend" true = (Some bbs, ds') ∧ ∃ bt bl bb, (bt, bl, bb) ∈ bbs ∧ bt = "backend".
Proof.
  induction tbs as [|[[t ls] b] tbs IH]; simpl; [done|].
  destruct (hcl_blocks lib b "backend" true) as [[bbs|] diags] eqn:Hb; [|naive_solver].
  destruct (HasErrors diags); [naive_solver|].
  destruct (existsb _ bbs) eqn:Hex.
  - intros [= <- <-]. apply existsb_exists in Hex as ([[bt bl] bb] & Hin & Hbt%bool_decide_eq_true).
    apply list_elem_of_In in Hin. split_and!; [done..|]. exists t, ls, b, bbs, diags.
    split_and!; [set_solver|done|]. by exists bt, bl, bb.
  - intros H. apply IH in H as (-> & -> & (t' & ls' & b' & bbs' & ds' & ? & ? & ?)).
    split_and!; [done..|]. exists t', ls', b', bbs', ds'. split_and!; [set_solver|done..].
Qed.

(** The search reports a backend only with the name of a file of the
    directory that declares one, and then without diagnostics: the generated
    meshStack backend is left out only when the sources bring a backend of
    their own. *)
Theorem FindBackendConfig_sound (file : string) (diags : list Diagnostic)
    (Hfound : FindBackendConfig = (true, file, diags)) :
  diags = [] ∧ ∃ f, f ∈ ParseTerraformConfig ∧ tf_Filename f.1 = file ∧ declaresBackend f.
Proof.
  unfold FindBackendConfig in Hfound. revert Hfound.
  induction ParseTerraformConfig as [|[src ds] files IH]; simpl; [done|].
  destruct (HasErrors ds) eqn:He; [naive_solver|].
  destruct (tf_Body src) as [body|] eqn:Hb; [|naive_solver].
  destruct (hcl_blocks lib body "terraform" false) as [[tbs|] ds1] eqn:Ht; [|naive_solver].
  destruct (HasErrors ds1); [naive_solver|].
  destruct (findBackendIn (tf_Filename src) tbs) as [[[found f'] ds2]|] eqn:Hf.
  - intros [= -> -> ->]. apply findBackendIn_found in Hf as (-> & -> & Hf). split; [done|].
    exists (src, ds). split_and!; [set_solver|done|]. split; [done|]. by exists body, tbs, ds1.
  - intros H. apply IH in H as (-> & f & ? & ? & ?). split; [done|]. exists f. set_solver.
Qed.
End Parse.

(** A small library to evaluate the definitions with: bodies are texts, a block
    is there when its type's name occurs, values are rendered texts. *)
Definition exampleLib : HclLib := {|
  HclBody := string;
  Cty := string;
  CtyType := unit;
  Expr := string;
  ParseHCL content _ := (content, []);
  ParseJSON content _ := (content, []);
  hcl_blocks body type label :=
    (Some (if Contains body type
           then [(type, if (label : bool) then ["label"] else [], body)] else []), []);
  hcl_typeAttribute _ := (None, []);
  diagsError _ := "";
  ParseExpression raw := (raw, []);
  exprValue e := (e, []);
  json_Valid raw := HasPrefix raw "[";
  ctyjson_ImpliedType _ := Ok tt;
  ctyjson_Unmarshal raw _ := Ok raw;
  ctyjson_Marshal v := Ok v;
  gocty_ImpliedType v := match v with anyStr _ => Ok tt | _ => Err (errNew "no type") end;
  gocty_ToCtyValue v _ := match v with anyStr s => Ok (DQ +:+ s +:+ DQ) | _ => Err (errNew "no value") end;
  StringVal s := DQ +:+ s +:+ DQ;
  BoolVal b := if b : bool then "true" else "false";
  NullString := "null";
  hclBytes items := Join (map (λ i, match i with
    | WAttr n v => n +:+ " = " +:+ v +:+ LF
    | WTraversal n r => n +:+ " = " +:+ r +:+ LF
    | WBlock t ls b => t +:+ " " +:+ Join ls " " +:+ LF
    end) items) "";
|}.

Definition exampleFiles : gmap string string :=
  {["/wd/main.tf" := "resource"; "/wd/backend.tf" := "terraform { backend }"]}.

Lemma FindBackendConfig_sound_witness :
  ∃ f, f ∈ ParseTerraformConfig exampleLib (λ _ _, None) exampleFiles "/wd" ∧
    tf_Filename _ f.1 = "backend.tf".
Proof.
  destruct (FindBackendConfig_sound exampleLib (λ _ _, None) exampleFiles "/wd" "backend.tf" []
              ltac:(vm_compute; reflexivity)) as [_ (f & ? & ? & _)].
  by exists f.
Defined.
