(* ===== verification/VarsFile.v ===== *)
(** * VarsFile: the tfvars file

    Models tf-block-runner/tfrun/tfcmd_vars.go: turning an input value into an
    attribute of a *.tfvars file, as a typed value, as a JSON-encoded string,
    or as raw HCL or JSON with a string as the last resort. The two operations
    call each other; [AddVariable] runs on fuel, and four units are proved
    enough whenever strings convert. [AnyValue] and [RawValue] say, without the
    operations, which value an attribute gets. *)

From S2P Require Import Prelude GoPath Hcl.

Section VarsFile.
Context (lib : HclLib) (json_Marshal : any → result string) (fmt_float : spec_float → string).

(** The attributes of the file's body, in order. *)
Definition VarsFile : Type := list (string * Cty lib).

Definition NewEmptyVarsFile : VarsFile := [].

Fixpoint SetAttributeValue (f : VarsFile) (name : string) (v : Cty lib) : VarsFile :=
  match f with
  | [] => [(name, v)]
  | (n, w) :: f => if decide (n = name) then (n, v) :: f else (n, w) :: SetAttributeValue f name v
  end.

Definition VarsFile_Bytes (f : VarsFile) : string :=
  hclBytes lib ((λ kv, WAttr kv.1 kv.2) <$> f).

Definition unmarshalJson (raw : string) : result (Cty lib) :=
  impliedType ← ctyjson_ImpliedType lib raw;
  ctyjson_Unmarshal lib raw impliedType.

(** [None] is the nil value that comes with errors. *)
Definition parseJsonOrHcl (raw : string) : option (Cty lib) * list Diagnostic :=
  if json_Valid lib raw then
    match unmarshalJson raw with
    | Err e => (None, [mkDiag DiagError "Cannot convert JSON to cty.Value"
                         ("The given JSON cannot be converted: " +:+ Error e)])
    | Ok v => (Some v, [])
    end
  else
    let '(expr, diags) := ParseExpression lib raw in
    if HasErrors diags then (None, diags)
    else let '(v, diags) := exprValue lib expr in (Some v, diags).

Definition convertErrorDiagsToWarnings (diags : list Diagnostic) : list Diagnostic :=
  map (λ d, match diag_Severity d with
            | DiagError => mkDiag DiagWarning (diag_Summary d) (diag_Detail d)
            | DiagWarning => d
            end) diags.

Definition fallbackDiag : Diagnostic :=
  mkDiag DiagWarning "Failed to parse input as JSON or HCL"
    "Cannot parse input as JSON or as HCL value expression, will fallback to string variable".

Definition extend (diags : list Diagnostic) (r : option (VarsFile * list Diagnostic))
    : option (VarsFile * list Diagnostic) :=
  '(f, more) ← r; Some (f, diags ++ more).

(** [AddRawVariable], with the [AddVariable] it calls. *)
Definition AddRawVariable
    (addVariable : VarsFile → string → any → bool → option (VarsFile * list Diagnostic))
    (f : VarsFile) (name rawExpression : string) (EncodeAsJsonString : bool)
    : option (VarsFile * list Diagnostic) :=
  let fallbackUseRawHclAsStringValue diags :=
    extend (diags ++ [fallbackDiag]) (addVariable f name (anyStr rawExpression) false) in
  let '(v, diags) := parseJsonOrHcl rawExpression in
  match v with
  | Some v =>
      if HasErrors diags then fallbackUseRawHclAsStringValue (convertErrorDiagsToWarnings diags)
      else if EncodeAsJsonString then
        match ctyjson_Marshal lib v with
        | Ok vJson => extend diags (addVariable f name (anyStr vJson) false)
        | Err e => fallbackUseRawHclAsStringValue
            (diags ++ [mkDiag DiagWarning "Cannot marshal raw HCL value to JSON"
                         ("The given raw HCL cannot be marshalled: " +:+ Error e)])
        end
      else Some (SetAttributeValue f name v, [])
  | None => fallbackUseRawHclAsStringValue (convertErrorDiagsToWarnings diags)
  end.

(** [None]: out of fuel. *)
Fixpoint AddVariable (fuel : nat) (f : VarsFile) (name : string) (value : any)
    (EncodeAsJsonString : bool) : option (VarsFile * list Diagnostic) :=
  match fuel with
  | O => None
  | S fuel =>
      if EncodeAsJsonString then
        match json_Marshal value with
        | Ok valueJson => AddVariable fuel f name (anyStr valueJson) false
        | Err e =>
            extend [mkDiag DiagWarning "Failed to marshal value into JSON"
                      ("Cannot marshal generic value to JSON, will fallback to fmt.Sprintf to string value: "
                       +:+ Error e)]
              (AddVariable fuel f name (anyStr (Sprint fmt_float value)) false)
        end
      else
        match value with
        | anyNil => Some (SetAttributeValue f name (NullString lib), [])
        | _ =>
            match gocty_ImpliedType lib value with
            | Err e =>
                match json_Marshal value with
                | Ok valueJson => AddRawVariable (AddVariable fuel) f name valueJson false
                | Err e =>
                    Some (f, [mkDiag DiagError "Failed to marshal value into JSON after failing to imply type"
                                ("Cannot marshal generic value to JSON: " +:+ Error e)])
                end
            | Ok impliedType =>
                match gocty_ToCtyValue lib value impliedType with
                | Err e =>
                    Some (f, [mkDiag DiagError "Cannot convert value to cty.Value"
                                ("The given value cannot be converted: " +:+ Error e)])
                | Ok ctyValue => Some (SetAttributeValue f name ctyValue, [])
                end
            end
        end
  end.

Definition addFuel : nat := 4.

(** ** Properties *)

(** Documented behaviour of gocty: a Go string has an implied type, and
    converts to it. *)
Definition stringsConvert : Prop :=
  ∀ s, ∃ t v, gocty_ImpliedType lib (anyStr s) = Ok t ∧ gocty_ToCtyValue lib (anyStr s) t = Ok v.

Fixpoint value_of (f : VarsFile) (name : string) : option (Cty lib) :=
  match f with
  | [] => None
  | (n, v) :: f => if decide (n = name) then Some v else value_of f name
  end.

Lemma value_of_Set f name v n :
  value_of (SetAttributeValue f name v) n = if decide (n = name) then Some v else value_of f n.
Proof.
  induction f as [|[m w] f IH]; simpl.
  - repeat case_decide; naive_solver.
  - destruct (decide (m = name)) as [->|Hm]; simpl; [|rewrite IH]; repeat case_decide; naive_solver.
Qed.

Lemma AddVariable_encoded fuel f name value :
  AddVariable (S fuel) f name value true =
  match json_Marshal value with
  | Ok valueJson => AddVariable fuel f name (anyStr valueJson) false
  | Err e =>
      extend [mkDiag DiagWarning "Failed to marshal value into JSON"
                ("Cannot marshal generic value to JSON, will fallback to fmt.Sprintf to string value: "
                 +:+ Error e)]
        (AddVariable fuel f name (anyStr (Sprint fmt_float value)) false)
  end.
Proof. done. Qed.

Lemma AddVariable_plain fuel f name value :
  value ≠ anyNil →
  AddVariable (S fuel) f name value false =
  match gocty_ImpliedType lib value with
  | Err e =>
      match json_Marshal value with
      | Ok valueJson => AddRawVariable (AddVariable fuel) f name valueJson false
      | Err e =>
          Some (f, [mkDiag DiagError "Failed to marshal value into JSON after failing to imply type"
                      ("Cannot marshal generic value to JSON: " +:+ Error e)])
      end
  | Ok impliedType =>
      match gocty_ToCtyValue lib value impliedType with
      | Err e =>
          Some (f, [mkDiag DiagError "Cannot convert value to cty.Value"
                      ("The given value cannot be converted: " +:+ Error e)])
      | Ok ctyValue => Some (SetAttributeValue f name ctyValue, [])
      end
  end.
Proof. by destruct value. Qed.

(** The cty value of a Go value. *)
Definition ctyOf (value : any) : option (Cty lib) :=
  match gocty_ImpliedType lib value with
  | Ok t => match gocty_ToCtyValue lib value t with Ok v => Some v | Err _ => None end
  | Err _ => None
  end.

Lemma AddVariable_ctyOf fuel f name s :
  stringsConvert → ∃ v, ctyOf (anyStr s) = Some v ∧
    AddVariable (S fuel) f name (anyStr s) false = Some (SetAttributeValue f name v, []).
Proof.
  intros Hs. destruct (Hs s) as (t & v & Ht & Hv). exists v. unfold ctyOf. simpl. by rewrite Ht, Hv.
Qed.

Lemma AddVariable_string fuel f name s :
  stringsConvert → ∃ v, AddVariable (S fuel) f name (anyStr s) false = Some (SetAttributeValue f name v, []).
Proof. intros Hs. destruct (AddVariable_ctyOf fuel f name s Hs) as (v & _ & ?). eauto. Qed.

Lemma AddRawVariable_sets fuel f name raw encode :
  stringsConvert →
  ∃ v ds, AddRawVariable (AddVariable (S fuel)) f name raw encode = Some (SetAttributeValue f name v, ds).
Proof.
  intros Hs. unfold AddRawVariable.
  assert (∀ s ds, ∃ v ds', extend ds (AddVariable (S fuel) f name (anyStr s) false)
    = Some (SetAttributeValue f name v, ds')) as Hx.
  { intros s ds. destruct (AddVariable_string fuel f name s Hs) as [v ->]. simpl. eauto. }
  destruct (parseJsonOrHcl raw) as [[v|] ds]; [|apply Hx].
  destruct (HasErrors ds); [apply Hx|]. destruct encode; [|eauto].
  destruct (ctyjson_Marshal lib v); apply Hx.
Qed.

(** The value is set, or left out with an error. *)
Lemma AddVariable_outcome f name value encode :
  stringsConvert →
  ∃ f' diags, AddVariable addFuel f name value encode = Some (f', diags) ∧
    ((∃ v, f' = SetAttributeValue f name v) ∨ (f' = f ∧ HasErrors diags = true)).
Proof.
  intros Hstr. unfold addFuel. destruct encode.
  { rewrite AddVariable_encoded.
    destruct (json_Marshal value) as [s|e].
    - destruct (AddVariable_string 2 f name s Hstr) as [v ->]. eexists _, _. split; [reflexivity|]. left. eauto.
    - destruct (AddVariable_string 2 f name (Sprint fmt_float value) Hstr) as [v ->].
      eexists _, _. split; [reflexivity|]. left. eauto. }
  assert (value = anyNil ∨ value ≠ anyNil) as [->|Hv] by (destruct value; naive_solver).
  { eexists _, _. split; [reflexivity|]. left. eauto. }
  rewrite AddVariable_plain by done.
  destruct (gocty_ImpliedType lib value) as [t|e].
  { destruct (gocty_ToCtyValue lib value t);
      (eexists _, _; split; [reflexivity|]); [left; eauto|by right]. }
  destruct (json_Marshal value) as [s|e'].
  - destruct (AddRawVariable_sets 2 f name s false Hstr) as (v & ds & ->).
    eexists _, _. split; [reflexivity|]. left. eauto.
  - eexists _, _. split; [reflexivity|]. by right.
Qed.

(** *** The value an attribute gets *)

(** A text is read as JSON if it is JSON, and as an HCL expression if not. *)
Inductive Parses (raw : string) : Cty lib → Prop :=
  | Parses_json t v :
      json_Valid lib raw = true → ctyjson_ImpliedType lib raw = Ok t → ctyjson_Unmarshal lib raw t = Ok v →
      Parses raw v
  | Parses_hcl expr ds v ds' :
      json_Valid lib raw = false → ParseExpression lib raw = (expr, ds) → HasErrors ds = false →
      exprValue lib expr = (v, ds') → HasErrors ds' = false → Parses raw v.

(** A raw expression: what it reads as, or, where the variable is declared to
    be a string, the JSON text of that; and the expression itself, as a
    string, when one of these fails. *)
Inductive RawValue (raw : string) : bool → option (Cty lib) → Prop :=
  | RawValue_typed v : Parses raw v → RawValue raw false (Some v)
  | RawValue_encoded v j : Parses raw v → ctyjson_Marshal lib v = Ok j → RawValue raw true (ctyOf (anyStr j))
  | RawValue_unencodable v e : Parses raw v → ctyjson_Marshal lib v = Err e → RawValue raw true (ctyOf (anyStr raw))
  | RawValue_text encode : (∀ v, ¬ Parses raw v) → RawValue raw encode (ctyOf (anyStr raw)).

(** Any other value: its JSON text where a string is declared, else null, the
    value of its implied type, or, without one, what its JSON text reads as;
    none at all when it does not convert. *)
Inductive AnyValue (value : any) : bool → option (Cty lib) → Prop :=
  | AnyValue_encoded j : json_Marshal value = Ok j → AnyValue value true (ctyOf (anyStr j))
  | AnyValue_printed e : json_Marshal value = Err e → AnyValue value true (ctyOf (anyStr (Sprint fmt_float value)))
  | AnyValue_null : value = anyNil → AnyValue value false (Some (NullString lib))
  | AnyValue_typed t v :
      value ≠ anyNil → gocty_ImpliedType lib value = Ok t → gocty_ToCtyValue lib value t = Ok v →
      AnyValue value false (Some v)
  | AnyValue_inconvertible t e :
      value ≠ anyNil → gocty_ImpliedType lib value = Ok t → gocty_ToCtyValue lib value t = Err e →
      AnyValue value false None
  | AnyValue_untyped e j r :
      value ≠ anyNil → gocty_ImpliedType lib value = Err e → json_Marshal value = Ok j → RawValue j false r →
      AnyValue value false r
  | AnyValue_unmarshalable e e' :
      value ≠ anyNil → gocty_ImpliedType lib value = Err e → json_Marshal value = Err e' → AnyValue value false None.

Definition setTo (f : VarsFile) (name : string) (r : option (Cty lib)) : VarsFile :=
  match r with Some v => SetAttributeValue f name v | None => f end.

Lemma value_of_setTo f name r n :
  value_of f name = None → value_of (setTo f name r) n = if decide (n = name) then r else value_of f n.
Proof.
  intros Hf. destruct r as [v|]; simpl; [by apply value_of_Set|]. by case_decide as Hn; [subst|].
Qed.

Lemma parseJsonOrHcl_Parses raw v :
  Parses raw v → ∃ ds, parseJsonOrHcl raw = (Some v, ds) ∧ HasErrors ds = false.
Proof.
  unfold parseJsonOrHcl, unmarshalJson. intros [t v' Hj Ht Hu|expr ds v' ds' Hj Hp He Hx He'].
  - rewrite Hj, Ht. simpl. rewrite Hu. by exists [].
  - rewrite Hj, Hp, He, Hx. by exists ds'.
Qed.

Lemma parseJsonOrHcl_spec raw :
  match parseJsonOrHcl raw with
  | (Some v, ds) => HasErrors ds = false → Parses raw v
  | (None, _) => True
  end.
Proof.
  unfold parseJsonOrHcl, unmarshalJson. destruct (json_Valid lib raw) eqn:Hj.
  - destruct (ctyjson_ImpliedType lib raw) as [t|] eqn:Ht; simpl; [|done].
    destruct (ctyjson_Unmarshal lib raw t) eqn:Hu; [|done]. intros _. by eapply Parses_json.
  - destruct (ParseExpression lib raw) as [expr ds] eqn:Hp. destruct (HasErrors ds) eqn:He; [done|].
    destruct (exprValue lib expr) as [v ds'] eqn:Hx. intros He'. by eapply Parses_hcl.
Qed.

Lemma AddVariable_text fuel f name s ds :
  stringsConvert →
  ∃ ds', extend ds (AddVariable (S fuel) f name (anyStr s) false) = Some (setTo f name (ctyOf (anyStr s)), ds').
Proof. intros Hs. destruct (AddVariable_ctyOf fuel f name s Hs) as (v & -> & ->). by eexists. Qed.

Lemma AddRawVariable_written fuel f name raw encode :
  stringsConvert →
  ∃ r ds, AddRawVariable (AddVariable (S fuel)) f name raw encode = Some (setTo f name r, ds) ∧ RawValue raw encode r.
Proof.
  intros Hs. unfold AddRawVariable. pose proof (parseJsonOrHcl_spec raw) as Hp.
  assert (∀ ds, (∀ v, ¬ Parses raw v) → ∃ r ds', extend ds (AddVariable (S fuel) f name (anyStr raw) false) =
    Some (setTo f name r, ds') ∧ RawValue raw encode r) as Htext.
  { intros ds Hn. destruct (AddVariable_text fuel f name raw ds Hs) as [ds' ->].
    eexists _, _. split; [done|]. by apply RawValue_text. }
  destruct (parseJsonOrHcl raw) as [[v|] ds] eqn:Hv.
  2: { apply Htext. intros v (ds' & Hv' & _)%parseJsonOrHcl_Parses. congruence. }
  destruct (HasErrors ds) eqn:He.
  { apply Htext. intros v' (ds' & Hv' & ?)%parseJsonOrHcl_Parses. congruence. }
  specialize (Hp eq_refl). destruct encode; [|eexists (Some v), _; split; [done|by apply RawValue_typed]].
  destruct (ctyjson_Marshal lib v) as [j|e] eqn:Hm.
  - destruct (AddVariable_text fuel f name j ds Hs) as [ds' ->].
    eexists _, _. split; [done|]. by eapply RawValue_encoded.
  - edestruct (AddVariable_text fuel f name raw) as [ds' ->]; [done|].
    eexists _, _. split; [done|]. by eapply RawValue_unencodable.
Qed.

Lemma AddVariable_written f name value encode :
  stringsConvert →
  ∃ r ds, AddVariable addFuel f name value encode = Some (setTo f name r, ds) ∧ AnyValue value encode r.
Proof.
  intros Hs. unfold addFuel. destruct encode.
  { rewrite AddVariable_encoded. destruct (json_Marshal value) as [j|e] eqn:Hj.
    - destruct (AddVariable_ctyOf 2 f name j Hs) as (v & Hv & ->).
      eexists (Some v), _. split; [done|]. rewrite <-Hv. by apply AnyValue_encoded.
    - edestruct (AddVariable_text 2 f name) as [ds' ->]; [done|].
      eexists _, _. split; [done|]. by eapply AnyValue_printed. }
  assert (value = anyNil ∨ value ≠ anyNil) as [Hnil|Hv] by (destruct value; naive_solver).
  { rewrite Hnil. eexists (Some _), _. split; [done|]. by apply AnyValue_null. }
  rewrite AddVariable_plain by done. destruct (gocty_ImpliedType lib value) as [t|e] eqn:Ht.
  { destruct (gocty_ToCtyValue lib value t) as [v|e] eqn:Hc.
    - eexists (Some v), _. split; [done|]. by eapply AnyValue_typed.
    - eexists None, _. split; [done|]. by eapply AnyValue_inconvertible. }
  destruct (json_Marshal value) as [j|e'] eqn:Hj.
  - destruct (AddRawVariable_written 2 f name j false Hs) as (r & ds & -> & Hr).
    eexists _, _. split; [done|]. by eapply AnyValue_untyped.
  - eexists None, _. split; [done|]. by eapply AnyValue_unmarshalable.
Qed.

(** Adding a variable always ends, and touches no other attribute. Its
    value is left out only for a value that cannot be converted, and then an
    error is reported; a raw JSON or HCL expression is never left out. *)
Theorem AddVariable_total (f : VarsFile) (name : string) (value : any) (encode : bool)
    (Hstr : stringsConvert) :
  (∃ f' diags, AddVariable addFuel f name value encode = Some (f', diags) ∧
     ((∃ v, f' = SetAttributeValue f name v) ∨ (f' = f ∧ HasErrors diags = true))) ∧
  (∀ raw, ∃ v diags, AddRawVariable (AddVariable addFuel) f name raw encode
     = Some (SetAttributeValue f name v, diags)) ∧
  ∀ v n, n ≠ name → value_of (SetAttributeValue f name v) n = value_of f n.
Proof.
  split_and!.
  - by apply AddVariable_outcome.
  - intros raw. by apply AddRawVariable_sets.
  - intros v n Hn. rewrite value_of_Set. by rewrite decide_False.
Qed.
End VarsFile.

Lemma AddVariable_total_witness :
  AddVariable exampleLib (λ _, Ok "[1]") (λ _, "") addFuel [] "n" (anyList []) false
    = Some ([("n", "[1]")], []) ∧
  ∃ f' diags, AddVariable exampleLib (λ _, Ok "[1]") (λ _, "") addFuel [] "n" (anyList []) false
    = Some (f', diags).
Proof.
  split; [reflexivity|].
  destruct (AddVariable_total exampleLib (λ _, Ok "[1]") (λ _, "") [] "n" (anyList []) false)
    as [(f' & ds & H & _) _]; [|by exists f', ds].
  intros s. by exists tt, (DQ +:+ s +:+ DQ).
Defined.
