(* ===== verification/Status.v ===== *)
(** * Status: the state a run reports

    Models tf-block-runner/tfrun/executionstatus.go, behavior.go, stepids.go,
    datatype.go and runstatus.go: the execution status of runs and steps, the
    run behaviours, and the [RunStatus] a Terraform command fills in, with the
    operations that move its step pointer and fail it. Step pointers are
    values here; StatusHeap.v models them as shared cells and proves that the
    operations agree. *)

From S2P Require Import Prelude.

(** ** executionstatus.go *)

Inductive ExecutionStatus := PENDING | IN_PROGRESS | SUCCEEDED | FAILED | ABORTED.

#[global] Instance ExecutionStatus_eq_dec : EqDecision ExecutionStatus.
Proof. solve_decision. Defined.

Definition isTerminalState (status : ExecutionStatus) : bool :=
  bool_decide (status = SUCCEEDED) || bool_decide (status = FAILED) ||
  bool_decide (status = ABORTED).

Definition ExecutionStatus_str (status : ExecutionStatus) : string :=
  match status with
  | PENDING => "PENDING"
  | IN_PROGRESS => "IN_PROGRESS"
  | SUCCEEDED => "SUCCEEDED"
  | FAILED => "FAILED"
  | ABORTED => "ABORTED"
  end.

(** ** behavior.go *)

Inductive Behavior := APPLY | DETECT | DESTROY | UNKNOWN_BEHAVIOR.

#[global] Instance Behavior_eq_dec : EqDecision Behavior.
Proof. solve_decision. Defined.

Definition behaviors : list Behavior := [APPLY; DETECT; DESTROY].

(** [None] is the [log.Fatalf] of the default case, which ends the process. *)
Definition Behavior_str (b : Behavior) : option string :=
  match b with
  | APPLY => Some "APPLY"
  | DETECT => Some "DETECT"
  | DESTROY => Some "DESTROY"
  | UNKNOWN_BEHAVIOR => None
  end.

Fixpoint DetermineBehavior_loop (bs : list Behavior) (str : string)
    : Behavior * option error :=
  match bs with
  | [] => (UNKNOWN_BEHAVIOR, Some (errNew "cannot determine Behavior type"))
  | b :: bs =>
      if decide (Behavior_str b = Some str) then (b, None)
      else DetermineBehavior_loop bs str
  end.
Definition DetermineBehavior (str : string) : Behavior * option error :=
  DetermineBehavior_loop behaviors str.

(** ** stepids.go *)

Definition StepTrigger := "trigger".
Definition StepSources := "sources".
Definition StepInput := "input".
Definition StepInitTf := "init_tf".
Definition StepPreRunScript := "pre_run_script".
Definition StepExecuteTf := "execute_tf".
Definition StepOutput := "output".

(** ** datatype.go *)

Definition DataType := string.
Definition DATA_TYPE_STRING : DataType := "STRING".
Definition DATA_TYPE_INTEGER : DataType := "INTEGER".
Definition DATA_TYPE_BOOLEAN : DataType := "BOOLEAN".
Definition DATA_TYPE_CODE : DataType := "CODE".
Definition DATA_TYPE_SINGLESELECT : DataType := "SINGLE_SELECT".
Definition DATA_TYPE_MULTISELECT : DataType := "MULTI_SELECT".
Definition DATA_TYPE_FILE : DataType := "FILE".
Definition DATA_TYPE_LIST : DataType := "LIST".

(** ** runstatus.go *)

(** run.go: [TfOutput]. *)
Record TfOutput := mkTfOutput {
  out_Value : any;
  out_Type : DataType;
  out_Sensitive : bool;
}.

Record StepStatus := mkStepStatus {
  step_Name : string;
  step_DisplayName : string;
  step_Status : ExecutionStatus;
  step_Outputs : gmap string TfOutput;
  step_UserMessage : option string;
  step_SystemMessage : option string;
  step_LogStartIdx : Z;
}.

Record RunStatus := mkRunStatus {
  RunId : string;
  Status : ExecutionStatus;
  Steps : list StepStatus;
  CurrentStepIndex : Z;
  Summary : option string;
  ChangesDetected : option bool;
}.

(** Assignments to a single field. *)
Definition set_step_Status (v : ExecutionStatus) (s : StepStatus) : StepStatus :=
  mkStepStatus (step_Name s) (step_DisplayName s) v (step_Outputs s)
    (step_UserMessage s) (step_SystemMessage s) (step_LogStartIdx s).
Definition set_step_Outputs (v : gmap string TfOutput) (s : StepStatus) : StepStatus :=
  mkStepStatus (step_Name s) (step_DisplayName s) (step_Status s) v
    (step_UserMessage s) (step_SystemMessage s) (step_LogStartIdx s).
Definition set_step_UserMessage (v : option string) (s : StepStatus) : StepStatus :=
  mkStepStatus (step_Name s) (step_DisplayName s) (step_Status s) (step_Outputs s)
    v (step_SystemMessage s) (step_LogStartIdx s).
Definition set_step_SystemMessage (v : option string) (s : StepStatus) : StepStatus :=
  mkStepStatus (step_Name s) (step_DisplayName s) (step_Status s) (step_Outputs s)
    (step_UserMessage s) v (step_LogStartIdx s).
Definition set_step_LogStartIdx (v : Z) (s : StepStatus) : StepStatus :=
  mkStepStatus (step_Name s) (step_DisplayName s) (step_Status s) (step_Outputs s)
    (step_UserMessage s) (step_SystemMessage s) v.

Definition set_Status (v : ExecutionStatus) (r : RunStatus) : RunStatus :=
  mkRunStatus (RunId r) v (Steps r) (CurrentStepIndex r) (Summary r) (ChangesDetected r).
Definition set_Steps (v : list StepStatus) (r : RunStatus) : RunStatus :=
  mkRunStatus (RunId r) (Status r) v (CurrentStepIndex r) (Summary r) (ChangesDetected r).
Definition set_CurrentStepIndex (v : Z) (r : RunStatus) : RunStatus :=
  mkRunStatus (RunId r) (Status r) (Steps r) v (Summary r) (ChangesDetected r).
Definition set_ChangesDetected (v : option bool) (r : RunStatus) : RunStatus :=
  mkRunStatus (RunId r) (Status r) (Steps r) (CurrentStepIndex r) (Summary r) v.

(** The index of [currentStepStatus], when it is in range. *)
Definition currentIdx (r : RunStatus) : option nat :=
  if decide (0 ≤ CurrentStepIndex r ∧ CurrentStepIndex r < Z.of_nat (length (Steps r)))%Z
  then Some (Z.to_nat (CurrentStepIndex r)) else None.

Definition currentStepStatus (r : RunStatus) : option StepStatus :=
  currentIdx r ≫= λ i, Steps r !! i.

(** A write through the pointer [currentStepStatus()] returns, when not nil. *)
Definition updateCurrentStep (f : StepStatus → StepStatus) (r : RunStatus) : RunStatus :=
  match currentIdx r with
  | Some i => set_Steps (alter f i (Steps r)) r
  | None => r
  end.

Definition firstStep (r : RunStatus) : RunStatus * option error :=
  if decide (length (Steps r) = 0) then (r, Some (errNew "no_steps"))
  else (set_CurrentStepIndex 0 r, None).

Definition nextStep (r : RunStatus) : RunStatus * option error :=
  if decide (CurrentStepIndex r + 1 < Z.of_nat (length (Steps r)))%Z
  then (set_CurrentStepIndex (CurrentStepIndex r + 1) r, None)
  else (r, Some (errNew "stepIdx_too_high")).

Definition abortedMessage : string := "Aborted due to failure in an earlier step".

Definition failStep (current : Z) (idx : nat) (s : StepStatus) : StepStatus :=
  let s := if decide (current ≤ Z.of_nat idx)%Z then set_step_Status FAILED s else s in
  if decide (current < Z.of_nat idx)%Z
  then set_step_SystemMessage (Some abortedMessage) s else s.

Definition failRunAndNotFinishedSteps (r : RunStatus) : RunStatus :=
  set_Status FAILED (set_Steps (imap (failStep (CurrentStepIndex r)) (Steps r)) r).

(** ** Lemmas *)

Lemma isTerminalState_spec s :
  isTerminalState s = true ↔ s = SUCCEEDED ∨ s = FAILED ∨ s = ABORTED.
Proof. destruct s; unfold isTerminalState; simpl; naive_solver. Qed.

(** [DetermineBehavior] accepts exactly the texts that the behaviours
    print, and returns the behaviour that prints the text; every other text
    is an error with the unknown behaviour. *)
Theorem DetermineBehavior_spec (str : string) :
  match DetermineBehavior str with
  | (b, None) => b ∈ behaviors ∧ Behavior_str b = Some str
  | (b, Some _) => b = UNKNOWN_BEHAVIOR ∧ ∀ b', Behavior_str b' ≠ Some str
  end.
Proof.
  unfold DetermineBehavior, behaviors; simpl.
  repeat case_decide; simplify_eq; try (split; [set_solver|done]).
  split; [done|]. intros []; simpl; congruence.
Qed.

Lemma currentIdx_Some r i :
  currentIdx r = Some i ↔ CurrentStepIndex r = Z.of_nat i ∧ i < length (Steps r).
Proof. unfold currentIdx. case_decide; split; intros; simplify_eq; try lia; f_equal; lia. Qed.

Lemma currentIdx_lookup r i : currentIdx r = Some i → is_Some (Steps r !! i).
Proof. intros [_ ?]%currentIdx_Some. by apply lookup_lt_is_Some. Qed.

Lemma length_updateCurrentStep f r : length (Steps (updateCurrentStep f r)) = length (Steps r).
Proof. unfold updateCurrentStep. case_match; [|done]. simpl. apply length_alter. Qed.

Lemma length_failRun r : length (Steps (failRunAndNotFinishedSteps r)) = length (Steps r).
Proof. simpl. apply length_imap. Qed.
