(* ===== verification/StatusHeap.v ===== *)
(** * StatusHeap: the run status as shared step cells

    Models the pointers of tf-block-runner/tfrun/runstatus.go and
    runcontextinfo.go: [RunStatus.Steps] is a slice of pointers, the run's
    goroutine writes through [currentStepStatus()], and [publishStatus] hands a
    clone to the observer's goroutine, which keeps what [reportedStatus]
    returned while the run goes on. Status.v and RunM.v treat all of these as
    values; the theorem here is what entitles them to. Outputs and messages
    are values here too: the program replaces them and never changes them in
    place. *)

From S2P Require Import Prelude Status.

(** ** The store *)

Definition loc := positive.
Abbreviation Store := (gmap loc StepStatus).

Record RunCell := mkRunCell {
  cell_RunId : string;
  cell_Status : ExecutionStatus;
  cell_Steps : list loc;
  cell_CurrentStepIndex : Z;
  cell_Summary : option string;
  cell_ChangesDetected : option bool;
}.

Definition setc_Status (v : ExecutionStatus) (r : RunCell) : RunCell :=
  mkRunCell (cell_RunId r) v (cell_Steps r) (cell_CurrentStepIndex r) (cell_Summary r) (cell_ChangesDetected r).
Definition setc_Steps (v : list loc) (r : RunCell) : RunCell :=
  mkRunCell (cell_RunId r) (cell_Status r) v (cell_CurrentStepIndex r) (cell_Summary r) (cell_ChangesDetected r).
Definition setc_CurrentStepIndex (v : Z) (r : RunCell) : RunCell :=
  mkRunCell (cell_RunId r) (cell_Status r) (cell_Steps r) v (cell_Summary r) (cell_ChangesDetected r).
Definition setc_ChangesDetected (v : option bool) (r : RunCell) : RunCell :=
  mkRunCell (cell_RunId r) (cell_Status r) (cell_Steps r) (cell_CurrentStepIndex r) (cell_Summary r) v.

(** What is seen through the pointers; [None] for a dangling one. *)
Definition readBack (σ : Store) (r : RunCell) : option RunStatus :=
  steps ← mapM (λ l, σ !! l) (cell_Steps r);
  Some (mkRunStatus (cell_RunId r) (cell_Status r) steps (cell_CurrentStepIndex r)
          (cell_Summary r) (cell_ChangesDetected r)).

(** [&StepStatus{...}], one after the other, into fresh cells. *)
Fixpoint allocSteps (steps : list StepStatus) (σ : Store) : list loc * Store :=
  match steps with
  | [] => ([], σ)
  | s :: steps =>
      let l := fresh (dom σ) in
      let (ls, σ') := allocSteps steps (<[l := s]> σ) in
      (l :: ls, σ')
  end.

(** ** runstatus.go *)

Definition cell_currentStepStatus (r : RunCell) : option loc :=
  if decide (0 ≤ cell_CurrentStepIndex r ∧ cell_CurrentStepIndex r < Z.of_nat (length (cell_Steps r)))%Z
  then cell_Steps r !! Z.to_nat (cell_CurrentStepIndex r) else None.

Definition cell_firstStep (r : RunCell) : RunCell :=
  if decide (length (cell_Steps r) = 0) then r else setc_CurrentStepIndex 0 r.

Definition cell_nextStep (r : RunCell) : RunCell :=
  if decide (cell_CurrentStepIndex r + 1 < Z.of_nat (length (cell_Steps r)))%Z
  then setc_CurrentStepIndex (cell_CurrentStepIndex r + 1) r else r.

(** The loop of [failRunAndNotFinishedSteps] from [idx] on. *)
Fixpoint cell_failSteps (current : Z) (idx : nat) (ls : list loc) (σ : Store) : Store :=
  match ls with
  | [] => σ
  | l :: ls => cell_failSteps current (S idx) ls (alter (failStep current idx) l σ)
  end.

(** [clone]: every step is read and copied into a fresh cell. A pointer that
    dangles cannot occur; [omap] skips it. *)
Definition cell_clone (r : RunCell) (σ : Store) : RunCell * Store :=
  let (ls, σ') := allocSteps (omap (λ l, σ !! l) (cell_Steps r)) σ in
  (setc_Steps ls r, σ').

(** ** The program's accesses *)

(** Everything the run's goroutine does to its status, and the two calls of
    the observer: [reportedStatus] and [reportFailed]. *)
Inductive StatusOp :=
  | InstallSteps (steps : list StepStatus)
  | ResetIndex
  | FirstStep
  | NextStep
  | WriteStep (f : StepStatus → StepStatus)
  | WriteStatus (e : ExecutionStatus)
  | WriteChanges (c : option bool)
  | FailRun
  | Publish
  | ReportFailed
  | TakeReport.

(** As values: the run's status, the published one, the ones taken so far. *)
Record Values := mkValues { val_run : RunStatus; val_report : RunStatus; val_taken : list RunStatus }.

Definition valueOp (v : Values) (op : StatusOp) : Values :=
  let 'mkValues run report taken := v in
  let onRun f := mkValues (f run) report taken in
  match op with
  | InstallSteps steps => onRun (set_Steps steps)
  | ResetIndex => onRun (set_CurrentStepIndex 0)
  | FirstStep => onRun (λ r, (firstStep r).1)
  | NextStep => onRun (λ r, (nextStep r).1)
  | WriteStep f => onRun (updateCurrentStep f)
  | WriteStatus e => onRun (set_Status e)
  | WriteChanges c => onRun (set_ChangesDetected c)
  | FailRun => onRun failRunAndNotFinishedSteps
  | Publish => mkValues run run taken
  | ReportFailed => mkValues run (set_Status FAILED report) taken
  | TakeReport => mkValues run report (report :: taken)
  end.

(** On the store. *)
Record Cells := mkCells { store : Store; c_run : RunCell; c_report : RunCell; c_taken : list RunCell }.

Definition cellOp (c : Cells) (op : StatusOp) : Cells :=
  let 'mkCells σ run report taken := c in
  let onRun f := mkCells σ (f run) report taken in
  match op with
  | InstallSteps steps =>
      let (ls, σ') := allocSteps steps σ in mkCells σ' (setc_Steps ls run) report taken
  | ResetIndex => onRun (setc_CurrentStepIndex 0)
  | FirstStep => onRun cell_firstStep
  | NextStep => onRun cell_nextStep
  | WriteStep f =>
      match cell_currentStepStatus run with
      | Some l => mkCells (alter f l σ) run report taken
      | None => c
      end
  | WriteStatus e => onRun (setc_Status e)
  | WriteChanges b => onRun (setc_ChangesDetected b)
  | FailRun =>
      mkCells (cell_failSteps (cell_CurrentStepIndex run) 0 (cell_Steps run) σ)
        (setc_Status FAILED run) report taken
  | Publish => let (clone, σ') := cell_clone run σ in mkCells σ' run clone taken
  | ReportFailed => mkCells σ run (setc_Status FAILED report) taken
  | TakeReport => mkCells σ run report (report :: taken)
  end.

(** [initRunContextInfo]: [reportStatus: *status], both without steps. *)
Definition initCell (runId : string) : RunCell := mkRunCell runId IN_PROGRESS [] (-1) None None.
Definition initCells (runId : string) : Cells := mkCells ∅ (initCell runId) (initCell runId) [].
Definition initValues (runId : string) : Values :=
  let s := mkRunStatus runId IN_PROGRESS [] (-1) None None in mkValues s s [].

(** ** Lemmas *)

(** The step cells [ls] hold [steps]. *)
Definition holds (σ : Store) : list loc → list StepStatus → Prop := Forall2 (λ l s, σ !! l = Some s).

Lemma holds_mapM σ ls steps : holds σ ls steps → mapM (λ l, σ !! l) ls = Some steps.
Proof. intros H. by apply mapM_Some_2. Qed.
Lemma holds_omap σ ls steps : holds σ ls steps → omap (λ l, σ !! l) ls = steps.
Proof. induction 1 as [|l s ls steps Hl _ IH]; [done|]. cbn. rewrite Hl. f_equal. exact IH. Qed.

Lemma holds_agree σ σ' ls steps :
  (∀ l, l ∈ ls → σ' !! l = σ !! l) → holds σ ls steps → holds σ' ls steps.
Proof.
  intros Hag H. induction H as [|l s ls steps Hl _ IH]; constructor.
  - rewrite Hag; [done|left].
  - apply IH. intros l' Hl'. apply Hag. by right.
Qed.

Lemma holds_dom σ ls steps l : holds σ ls steps → l ∈ ls → l ∈ dom σ.
Proof.
  intros H Hl. induction H as [|l' s ls steps Hl' _ IH]; [by apply elem_of_nil in Hl|].
  apply elem_of_cons in Hl as [->|Hl]; [by apply elem_of_dom_2 in Hl'|auto].
Qed.

(** Allocation gives fresh, distinct cells with the contents asked for, and
    leaves the others. *)
Lemma allocSteps_spec steps σ ls σ' :
  allocSteps steps σ = (ls, σ') →
  holds σ' ls steps ∧ NoDup ls ∧ (∀ l, l ∈ ls → l ∉ dom σ) ∧ (∀ l, l ∈ dom σ → σ' !! l = σ !! l).
Proof.
  revert σ ls σ'. induction steps as [|s steps IH]; simpl; intros σ ls σ'.
  { intros [= <- <-]. split_and!; [constructor|constructor|set_solver|done]. }
  pose proof (is_fresh (dom σ)) as Hf. set (l := fresh (dom σ)) in *.
  destruct (allocSteps steps (<[l:=s]> σ)) as [ls1 σ1] eqn:Ha. intros [= <- <-].
  apply IH in Ha as (Hh & Hn & Hfr & Hag). clear IH. split_and!.
  - constructor; [|done]. rewrite Hag by set_solver. by rewrite lookup_insert_eq.
  - constructor; [|done]. intros Hl. apply Hfr in Hl. set_solver.
  - intros l' [->|Hl']%elem_of_cons; [done|]. apply Hfr in Hl'. set_solver.
  - intros l' Hl'. rewrite Hag by set_solver. rewrite lookup_insert_ne; [done|]. set_solver.
Qed.

Lemma cell_failSteps_other current idx ls σ l :
  l ∉ ls → cell_failSteps current idx ls σ !! l = σ !! l.
Proof.
  revert idx σ. induction ls as [|l' ls IH]; intros idx σ Hl; [done|]. simpl.
  rewrite IH by set_solver. rewrite lookup_alter_ne; [done|]. set_solver.
Qed.

Lemma cell_failSteps_holds current idx ls σ steps :
  NoDup ls → holds σ ls steps →
  holds (cell_failSteps current idx ls σ) ls (imap (λ i, failStep current (idx + i)) steps).
Proof.
  revert idx σ steps. induction ls as [|l ls IH]; intros idx σ steps Hn Hh;
    apply Forall2_cons_inv_l in Hh as Hh' || apply Forall2_nil_inv_l in Hh as ->; [constructor|].
  destruct Hh' as (s & steps' & Hl & Hh' & ->). apply list.NoDup_cons in Hn as [Hl' Hn]. simpl. constructor.
  - rewrite cell_failSteps_other by done. rewrite lookup_alter_eq, Hl. simpl. by rewrite Nat.add_0_r.
  - rewrite (imap_ext _ (λ i, failStep current (S idx + i))).
    2: { intros i s' _. simpl. by rewrite Nat.add_succ_r. }
    apply IH; [done|]. eapply holds_agree; [|done]. intros l'' Hl''. rewrite lookup_alter_ne; [done|]. set_solver.
Qed.

Lemma alter_holds f σ ls steps i l :
  NoDup ls → holds σ ls steps → ls !! i = Some l → holds (alter f l σ) ls (alter f i steps).
Proof.
  revert i steps. induction ls as [|l' ls IH]; intros i steps Hn Hh Hi; [done|].
  apply Forall2_cons_inv_l in Hh as (s & steps' & Hl & Hh & ->). apply list.NoDup_cons in Hn as [Hl' Hn].
  destruct i as [|i]; simpl in *.
  - injection Hi as ->. constructor; [by rewrite lookup_alter_eq, Hl|].
    eapply holds_agree; [|done]. intros l'' ?. rewrite lookup_alter_ne; [done|]. set_solver.
  - constructor; [|by apply IH]. apply list_elem_of_lookup_2 in Hi.
    rewrite lookup_alter_ne; [done|]. set_solver.
Qed.

(** ** The refinement *)

Record shows (σ : Store) (r : RunCell) (s : RunStatus) : Prop := {
  shows_id : cell_RunId r = RunId s;
  shows_status : cell_Status r = Status s;
  shows_steps : holds σ (cell_Steps r) (Steps s);
  shows_index : cell_CurrentStepIndex r = CurrentStepIndex s;
  shows_summary : cell_Summary r = Summary s;
  shows_changes : cell_ChangesDetected r = ChangesDetected s;
}.

Lemma shows_readBack σ r s : shows σ r s → readBack σ r = Some s.
Proof.
  intros [? ? H ? ? ?]. unfold readBack. rewrite (holds_mapM _ _ _ H). simpl.
  destruct s; simpl in *. by f_equal; congruence.
Qed.

Lemma shows_agree σ σ' r s :
  (∀ l, l ∈ cell_Steps r → σ' !! l = σ !! l) → shows σ r s → shows σ' r s.
Proof. intros ? []. split; try done. by eapply holds_agree. Qed.

(** The reports, published and taken, share no cell with the run. *)
Record Separate (c : Cells) (v : Values) : Prop := {
  sep_run : shows (store c) (c_run c) (val_run v);
  sep_nodup : NoDup (cell_Steps (c_run c));
  sep_reports : Forall2 (shows (store c)) (c_report c :: c_taken c) (val_report v :: val_taken v);
  sep_disjoint : Forall (λ r, ∀ l, l ∈ cell_Steps r → l ∉ cell_Steps (c_run c)) (c_report c :: c_taken c);
}.

(** Writing the run's own cells leaves the reports alone. *)
Lemma reports_kept σ σ' (ls : list loc) rs ss :
  Forall2 (shows σ) rs ss → Forall (λ r, ∀ l, l ∈ cell_Steps r → l ∉ ls) rs →
  (∀ l, l ∉ ls → l ∈ dom σ → σ' !! l = σ !! l) → Forall2 (shows σ') rs ss.
Proof.
  intros H Hd Hk. induction H as [|r s rs ss Hs _ IH]; [constructor|].
  apply list.Forall_cons in Hd as [Hr Hd]. constructor; [|auto].
  eapply shows_agree; [|exact Hs]. intros l Hl. apply Hk; [by apply Hr|].
  eapply holds_dom; [apply Hs|done].
Qed.

Lemma currentIdx_cell σ r s :
  shows σ r s → cell_currentStepStatus r = currentIdx s ≫= λ i, cell_Steps r !! i.
Proof.
  intros [_ _ H Hi _ _]. unfold cell_currentStepStatus, currentIdx.
  rewrite Hi, (Forall2_length H). by case_decide.
Qed.

Lemma Separate_onRun σ run report taken v f g :
  Separate (mkCells σ run report taken) v →
  (shows σ run (val_run v) → shows σ (f run) (g (val_run v))) → cell_Steps (f run) = cell_Steps run →
  Separate (mkCells σ (f run) report taken) (mkValues (g (val_run v)) (val_report v) (val_taken v)).
Proof. intros [Hr Hn Hs Hd] Hf Hl. split; simpl in *; rewrite ?Hl; auto. Qed.

Lemma Separate_write f c v : Separate c v → Separate (cellOp c (WriteStep f)) (valueOp v (WriteStep f)).
Proof.
  destruct c as [σ run report taken], v as [rv pv tv]. intros [Hr Hn Hs Hd]. simpl in *.
  rewrite (currentIdx_cell _ _ _ Hr). unfold updateCurrentStep.
  destruct (currentIdx rv) as [i|] eqn:Hi; simpl; [|by split].
  destruct (cell_Steps run !! i) as [l|] eqn:Hl; simpl.
  2: { apply currentIdx_Some in Hi as [_ Hi]. rewrite <-(Forall2_length (shows_steps _ _ _ Hr)) in Hi.
       apply lookup_ge_None in Hl. lia. }
  split; simpl; [|done| |done].
  - destruct Hr. split; simpl; try done. by apply alter_holds.
  - eapply reports_kept; [done..|]. intros l' Hl' _. rewrite lookup_alter_ne; [done|].
    intros ->. apply Hl'. by eapply list_elem_of_lookup_2.
Qed.

Lemma Separate_fail c v : Separate c v → Separate (cellOp c FailRun) (valueOp v FailRun).
Proof.
  destruct c as [σ run report taken], v as [rv pv tv]. intros [Hr Hn Hs Hd]. simpl in *.
  split; simpl; [|done| |done].
  - destruct Hr as [? ? ? Hi ? ?]. split; simpl; try done. rewrite Hi. by apply cell_failSteps_holds.
  - eapply reports_kept; [done..|]. intros l Hl _. by apply cell_failSteps_other.
Qed.

Lemma Separate_install steps c v :
  Separate c v → Separate (cellOp c (InstallSteps steps)) (valueOp v (InstallSteps steps)).
Proof.
  destruct c as [σ run report taken], v as [rv pv tv]. intros [Hr Hn Hs Hd]. simpl in *.
  destruct (allocSteps steps σ) as [ls σ'] eqn:Ha.
  apply allocSteps_spec in Ha as (Hh & Hn' & Hfr & Hag). split; simpl; [|done| |].
  - destruct Hr. by split.
  - eapply (reports_kept _ _ []); [done| |by intros; apply Hag].
    apply list.Forall_forall. set_solver.
  - clear Hd. remember (report :: taken) as rs. remember (pv :: tv) as ss. clear Heqrs Heqss.
    induction Hs as [|r s rs ss Hs _ IH]; constructor; [|done].
    intros l Hl Hin. apply Hfr in Hin. apply Hin. eapply holds_dom; [apply Hs|done].
Qed.

Lemma Separate_publish c v : Separate c v → Separate (cellOp c Publish) (valueOp v Publish).
Proof.
  destruct c as [σ run report taken], v as [rv pv tv]. intros [Hr Hn Hs Hd]. simpl in *.
  unfold cell_clone. rewrite (holds_omap _ _ _ (shows_steps _ _ _ Hr)).
  destruct (allocSteps (Steps rv) σ) as [ls σ'] eqn:Ha.
  apply allocSteps_spec in Ha as (Hh & Hn' & Hfr & Hag).
  assert (∀ l, l ∈ cell_Steps run → l ∈ dom σ) as Hdom by (intros l; apply (holds_dom _ _ _ _ (shows_steps _ _ _ Hr))).
  assert (shows σ' run rv) as Hr' by (eapply shows_agree; [|done]; intros; by apply Hag, Hdom).
  split; simpl; [done|done| |].
  - constructor; [destruct Hr'; by split|]. apply Forall2_cons_1 in Hs as [_ Hs].
    apply list.Forall_cons in Hd as [_ Hd]. eapply reports_kept; [done..|]. intros; by apply Hag.
  - apply list.Forall_cons in Hd as [_ Hd]. constructor; [|done]. simpl. intros l Hl Hin.
    by apply (Hfr l), Hdom.
Qed.

Lemma Separate_op c v op : Separate c v → Separate (cellOp c op) (valueOp v op).
Proof.
  destruct op; [apply Separate_install| | | |apply Separate_write| | |apply Separate_fail|apply Separate_publish| |];
    destruct c as [σ run report taken], v as [rv pv tv]; intros H; simpl.
  - by apply (Separate_onRun _ _ _ _ _ (setc_CurrentStepIndex 0) (set_CurrentStepIndex 0) H); simpl;
      [intros []; split; simpl in *|].
  - apply (Separate_onRun _ _ _ _ _ cell_firstStep (λ r, (firstStep r).1) H); simpl;
      unfold cell_firstStep, firstStep; [|by case_decide].
    intros Hr. rewrite (Forall2_length (shows_steps _ _ _ Hr)). case_decide; [done|]. destruct Hr; by split.
  - apply (Separate_onRun _ _ _ _ _ cell_nextStep (λ r, (nextStep r).1) H); simpl;
      unfold cell_nextStep, nextStep; [|by case_decide].
    intros Hr. rewrite (Forall2_length (shows_steps _ _ _ Hr)), (shows_index _ _ _ Hr).
    case_decide; [|done]. destruct Hr; by split.
  - by apply (Separate_onRun _ _ _ _ _ (setc_Status e) (set_Status e) H); simpl; [intros []; split|].
  - by apply (Separate_onRun _ _ _ _ _ (setc_ChangesDetected c0) (set_ChangesDetected c0) H); simpl; [intros []; split|].
  - destruct H as [Hr Hn Hs Hd]. simpl in *. apply Forall2_cons_1 in Hs as [Hp Hs]. apply list.Forall_cons in Hd as [Hpd Hd].
    split; simpl; [done|done| |by constructor]. constructor; [|done]. destruct Hp; by split.
  - destruct H as [Hr Hn Hs Hd]. simpl in *. split; simpl; [done|done| |].
    + apply Forall2_cons_1 in Hs as [Hp Hs]. constructor; [done|by constructor].
    + apply list.Forall_cons in Hd as [Hpd Hd]. by repeat constructor.
Qed.

Lemma Separate_ops ops c v : Separate c v → Separate (foldl cellOp c ops) (foldl valueOp v ops).
Proof. revert c v. induction ops as [|op ops IH]; intros c v H; [done|]. by apply IH, Separate_op. Qed.

(** C6. Whatever sequence of accesses the run and its observer make, the store
    of shared step cells shows what the values of this development say: the
    run's own status, the published one, and every report the observer has
    taken, which no later write of the run can change under its hands. *)
Theorem status_store_refines (runId : string) (ops : list StatusOp) :
  let c := foldl cellOp (initCells runId) ops in
  let v := foldl valueOp (initValues runId) ops in
  readBack (store c) (c_run c) = Some (val_run v) ∧
  readBack (store c) (c_report c) = Some (val_report v) ∧
  mapM (readBack (store c)) (c_taken c) = Some (val_taken v).
Proof.
  intros c v. assert (Separate c v) as [Hr _ Hs _].
  { apply Separate_ops. split; simpl; [by split; constructor|constructor| |].
    - repeat constructor.
    - constructor; [|constructor]. simpl. intros l Hl. by apply elem_of_nil in Hl. }
  apply Forall2_cons_1 in Hs as [Hp Hs]. split_and!; [by apply shows_readBack..|].
  apply mapM_Some_2. eapply Forall2_impl; [|exact Hs]. apply shows_readBack.
Qed.

Example status_store_example :
  let c := foldl cellOp (initCells "run-1")
    [InstallSteps [mkStepStatus "a" "A" PENDING ∅ None None 0]; FirstStep; Publish; TakeReport;
     WriteStep (set_step_Status IN_PROGRESS); FailRun] in
  option_map (map step_Status ∘ Steps) (readBack (store c) (c_run c)) = Some [FAILED] ∧
  map (λ r, option_map (map step_Status ∘ Steps) (readBack (store c) r)) (c_taken c) = [Some [PENDING]].
Proof. split; vm_compute; reflexivity. Qed.
