(* ===== verification/MeshDtos.v ===== *)
(** * MeshDtos: the data the runners exchange with meshStack

    Models go-meshapi-client/meshapi/dtos.go: the run a runner fetches, the
    implementation variants, the status updates it sends back, and the
    mapping from implementation types to runner types. [encoding/json]'s text
    format is not modelled: the functions that decode take the decoder as an
    argument. *)

From S2P Require Import Prelude.

(** ** The run *)

Record LinkDTO := mkLinkDTO { Href : string; Templated : bool }.

Record LinksDTO := mkLinksDTO {
  Self : LinkDTO;
  RegisterSourceLink : LinkDTO;
  UpdateSourceLink : LinkDTO;
  MeshstackBaseUrlLink : LinkDTO;
  ArtifactLink : LinkDTO;
  ArtifactUploadLink : LinkDTO;
  TfStateLockLink : LinkDTO;
}.

Record BuildingBlockInputSpecDTO := mkInput {
  input_Key : string;
  input_Value : any;
  input_Type : string;
  input_IsSensitive : bool;
  input_Env : bool;
}.

Record ParentBuildingBlockDTO := mkParentBB { parent_BuildingBlockUuid : string; parent_DefinitionUuid : string }.

Record BuildingBlockDetailsSpecDTO := mkBBDetails {
  bb_DisplayName : string;
  bb_WorkspaceIdentifier : string;
  bb_ProjectIdentifier : string;
  bb_FullPlatformIdentifier : string;
  bb_Inputs : list BuildingBlockInputSpecDTO;
  bb_ParentBuildingBlocks : list ParentBuildingBlockDTO;
}.

Record BuildingBlockSpecDTO := mkBB {
  bb_Uuid : string;
  bb_Spec : BuildingBlockDetailsSpecDTO;
}.

(** [Implementation] is a [json.RawMessage]: the JSON text as it came. *)
Record DefinitionDetailsSpecDTO := mkDefinitionDetails {
  def_WorkspaceIdentifier : string;
  def_Version : Z;
  def_Implementation : string;
}.

Record DefinitionSpecDTO := mkDefinition {
  def_Uuid : string;
  def_Spec : DefinitionDetailsSpecDTO;
}.

(** What started a run. Reasons and author types are open enumerations: the
    runners hand on whatever meshStack sent. *)
Definition TriggerReason := string.
Definition TriggerReasons : list TriggerReason :=
  ["BUILDING_BLOCK_CREATION"; "MANUAL_EXECUTION"; "USER_STATUS_CHANGE"; "PLATFORM_TENANT_ID_UPDATE";
   "PROJECT_PERMISSIONS_CHANGE"; "WORKSPACE_PERMISSION_CHANGE"; "BUILDING_BLOCK_UPGRADE";
   "BUILDING_BLOCK_INPUTS_UPDATE"; "BUILDING_BLOCK_DEFINITION_DELETION"; "BUILDING_BLOCK_DELETION";
   "BUILDING_BLOCK_PURGE"; "DEPENDENCY_OUTPUT_CHANGED"; "PARENT_RUN_SUCCEEDED"; "PREFLIGHT_SUCCEEDED"].

Definition AuthorType := string.
Definition AuthorTypes : list AuthorType := ["User"; "ApiKey"; "ApiUser"; "System"].

Record AuthorDTO := mkAuthor {
  author_Identifier : string;
  author_Type : AuthorType;
  author_DisplayName : option string;
  author_Username : option string;
  author_Email : option string;
  author_Euid : option string;
}.
Record RunTriggerDTO := mkTrigger { trigger_Reason : TriggerReason; trigger_Author : AuthorDTO }.

Record RunSpecDTO := mkRunSpec {
  spec_RunNumber : Z;
  spec_Behavior : string;
  spec_BuildingBlock : BuildingBlockSpecDTO;
  spec_Definition : DefinitionSpecDTO;
  spec_RunToken : string;
  spec_Trigger : option RunTriggerDTO;
}.

Record RunDetailsDTO := mkRunDetails {
  run_ApiVersion : string;
  run_Kind : string;
  run_Uuid : string;                    (* metadata.uuid *)
  run_Spec : RunSpecDTO;
  run_Status : string;
  run_Links : LinksDTO;
}.

(** ** Implementation types *)

Definition ImplementationType := string.
Definition ImplTypeManual : ImplementationType := "MANUAL".
Definition ImplTypeTerraform : ImplementationType := "TERRAFORM".
Definition ImplTypeGitHubWorkflow : ImplementationType := "GITHUB_WORKFLOW".
Definition ImplTypeGitLabCICD : ImplementationType := "GITLAB_CICD".
Definition ImplTypeAzureDevOps : ImplementationType := "AZURE_DEVOPS".

Definition RunnerImplementationType := string.
Definition RunnerTypeManual : RunnerImplementationType := "MANUAL".
Definition RunnerTypeTerraform : RunnerImplementationType := "TERRAFORM".
Definition RunnerTypeGitHubWorkflow : RunnerImplementationType := "GITHUB_WORKFLOW".
Definition RunnerTypeGitLabPipeline : RunnerImplementationType := "GITLAB_PIPELINE".
Definition RunnerTypeAzureDevOpsPipeline : RunnerImplementationType := "AZURE_DEVOPS_PIPELINE".
Definition RunnerTypeAll : RunnerImplementationType := "ALL".

Definition ToRunnerType (implType : ImplementationType) : RunnerImplementationType :=
  if decide (implType = ImplTypeGitLabCICD) then RunnerTypeGitLabPipeline
  else if decide (implType = ImplTypeAzureDevOps) then RunnerTypeAzureDevOpsPipeline
  else implType.

(** [unmarshalType] is [json.Unmarshal] into a struct with one [type] field. *)
Definition GetImplementationType (unmarshalType : string → result string)
    (d : DefinitionDetailsSpecDTO) : result ImplementationType :=
  wrapErr "failed to extract implementation type: " (unmarshalType (def_Implementation d)) "".

Record KnownHostDTO := mkKnownHostDTO {
  kh_Host : string; kh_KeyType : string; kh_KeyValue : string;
}.

Record TerraformImplementation := mkTerraformImpl {
  tfi_Type : string;
  tfi_TerraformVersion : string;
  tfi_RepositoryUrl : string;
  tfi_RepositoryPath : option string;
  tfi_RefName : option string;
  tfi_SshPrivateKey : option string;
  tfi_KnownHost : option KnownHostDTO;
  tfi_Async : bool;
  tfi_UseMeshHttpBackendFallback : bool;
  tfi_PreRunScript : option string;
}.

Record GithubImplementation := mkGithubImpl {
  ghi_Type : string; ghi_GithubBaseUrl : string; ghi_Owner : string; ghi_AppId : string;
  ghi_AppPem : string; ghi_Repository : string; ghi_Branch : string;
  ghi_ApplyWorkflow : string; ghi_DestroyWorkflow : option string;
  ghi_Async : bool; ghi_OmitRunObjectInput : bool;
}.

Record GitlabImplementation := mkGitlabImpl {
  gli_Type : string; gli_GitlabBaseUrl : string; gli_ProjectId : string;
  gli_RefName : string; gli_PipelineTriggerToken : string;
}.

Record AzureDevOpsImplementation := mkAzureImpl {
  azi_Type : string; azi_AzureDevOpsBaseUrl : string; azi_Organization : string;
  azi_Project : string; azi_PipelineId : string; azi_PersonalAccessToken : string;
  azi_Async : bool; azi_RefName : option string;
}.

(** ** Run info *)

Record RunInfo := mkRunInfo {
  info_Uuid : string;
  info_WorkspaceIdentifier : string;
  info_BuildingBlockDefinitionUuid : string;
  info_BuildingBlockDefinitionWorkspace : string;
}.

Definition GetRunInfo (dto : RunDetailsDTO) : RunInfo :=
  mkRunInfo (run_Uuid dto)
    (bb_WorkspaceIdentifier (bb_Spec (spec_BuildingBlock (run_Spec dto))))
    (def_Uuid (spec_Definition (run_Spec dto)))
    (def_WorkspaceIdentifier (def_Spec (spec_Definition (run_Spec dto)))).

(** ** Status updates *)

Record OutputDTO := mkOutputDTO { dto_Value : any; dto_Type : string; dto_Sensitive : bool }.

Record StepStatusUpdateDTO := mkStepUpdate {
  su_Id : string;
  su_DisplayName : string;
  su_Status : option string;
  su_UserMessage : option string;
  su_SystemMessage : option string;
  su_Outputs : gmap string OutputDTO;
}.

Record StepRegistrationDTO := mkStepRegistration {
  sr_Id : string; sr_DisplayName : string; sr_Status : option string;
}.

Record RegistrationDTO := mkRegistration {
  reg_SourceId : string;
  reg_Steps : list StepRegistrationDTO;
}.

(** Sent by the run-controller and the manual runner. *)
Record StatusUpdateDTO := mkStatusUpdate {
  upd_Status : option string;
  upd_Summary : option string;
  upd_Steps : list StepStatusUpdateDTO;
}.

Definition RunTypeTerraform := "TERRAFORM".

(** Sent by the Terraform runner. *)
Record RunStatusUpdateDTO := mkRunStatusUpdate {
  rsu_BlockRunId : string;
  rsu_Source : string;
  rsu_Type : string;
  rsu_Status : option string;
  rsu_CreatedOn : Z;
  rsu_Summary : option string;
  rsu_Steps : list StepStatusUpdateDTO;
  rsu_ChangesDetected : option bool;
}.

(** ** Runner registration *)

Record CloudWifDTO := mkCloudWif { cw_Audience : string; cw_TokenPath : string }.

Record WifDTO := mkWif {
  wif_Issuer : string;
  wif_SubjectTemplate : string;
  wif_Gcp : option CloudWifDTO;
  wif_Aws : option CloudWifDTO;
  wif_Azure : option CloudWifDTO;
}.

Record MeshBuildingBlockRunnerDTO := mkRunnerDTO {
  rdto_ApiVersion : string;
  rdto_Kind : string;
  rdto_Uuid : string;
  rdto_OwnedByWorkspace : string;
  rdto_DisplayName : string;
  rdto_PublicKey : string;
  rdto_ImplementationType : string;
  rdto_WorkloadIdentityFederation : option WifDTO;
}.

(** ** Lemmas *)

(** The implementation types the API documents. *)
Definition implementationTypes : list ImplementationType :=
  [ImplTypeManual; ImplTypeTerraform; ImplTypeGitHubWorkflow; ImplTypeGitLabCICD;
   ImplTypeAzureDevOps].

Lemma ToRunnerType_inj t1 t2 :
  t1 ∈ implementationTypes → t2 ∈ implementationTypes →
  ToRunnerType t1 = ToRunnerType t2 → t1 = t2.
Proof.
  unfold implementationTypes. intros H1 H2.
  repeat (apply elem_of_cons in H1 as [->|H1]); [..|by apply not_elem_of_nil in H1];
    repeat (apply elem_of_cons in H2 as [->|H2]); try (by apply not_elem_of_nil in H2);
    by vm_compute.
Qed.
