(* ===== verification/MeshAuth.v ===== *)
(** * MeshAuth: how the client authenticates

    Models go-meshapi-client/meshapi/auth.go: the [AuthProvider] interface as
    a type class, the Basic and Bearer providers, and the API-key provider
    with its token cache. Time is in nanoseconds. [net/http] and the decoding
    of a response body are arguments. *)

From S2P Require Import Prelude.

(** ** HTTP *)

Record Request := mkRequest {
  req_Method : string;
  req_URL : string;
  req_Header : gmap string string;
  req_Body : string;
}.

(** [resp_Body] is what reading the body yields, with the read error. *)
Record Response := mkResponse {
  resp_StatusCode : Z;
  resp_Body : string;
  resp_BodyErr : option error;
}.

(** What one exchange sees: the clock, [http.NewRequest]'s check of the URL,
    [http.Client.Do], and JSON's decoding of the login response. *)
Record HttpEnv := mkHttpEnv {
  http_Now : Z;
  http_NewRequestErr : string → option error;
  http_Do : Request → result Response;
  http_decodeLogin : string → result (string * Z);
  (* base64.StdEncoding.EncodeToString *)
  http_base64 : string → string;
  (* json.Marshal of the login request *)
  http_encodeLogin : string → string → string;
}.

Definition StatusOK : Z := 200.
Definition StatusCreated : Z := 201.
Definition StatusNotFound : Z := 404.
Definition StatusConflict : Z := 409.

(** ** The interface *)

Class AuthProvider (A : Type) := AuthHeader : HttpEnv → A → string * A.

Record BasicAuth := mkBasicAuth { Username : string; Password : string }.
#[export] Instance BasicAuth_AuthHeader : AuthProvider BasicAuth :=
  λ env a, ("Basic " +:+ http_base64 env (Username a +:+ ":" +:+ Password a), a).

Record BearerTokenAuth := mkBearerTokenAuth { Token : string }.
#[export] Instance BearerTokenAuth_AuthHeader : AuthProvider BearerTokenAuth :=
  λ env a, ("Bearer " +:+ Token a, a).

(** ** API keys *)

Definition tokenExpiryBuffer : Z := 30 * Second.

Record ApiKeyAuth := mkApiKeyAuth {
  aka_baseURL : string;
  aka_clientId : string;
  aka_clientSecret : string;
  aka_token : string;
  aka_expiresAt : Z;
}.

Definition NewApiKeyAuth (baseURL clientId clientSecret : string) : ApiKeyAuth :=
  mkApiKeyAuth baseURL clientId clientSecret "" 0.

(** The lifetime of a token in the cache, in [time.Duration]'s 64 bits. *)
Definition tokenLifetime (expiresIn : Z) : Z :=
  let expiry := wrap64 (wrap64 (expiresIn * Second) - tokenExpiryBuffer) in
  if decide (expiry ≤ 0)%Z then Second else expiry.

Definition loginRequest (env : HttpEnv) (a : ApiKeyAuth) : Request :=
  mkRequest "POST" (aka_baseURL a +:+ "/api/login")
    (<["Accept" := "application/json"]> (<["Content-Type" := "application/json"]> ∅))
    (http_encodeLogin env (aka_clientId a) (aka_clientSecret a)).

Definition fetchToken (env : HttpEnv) (a : ApiKeyAuth) : ApiKeyAuth * option error :=
  match http_NewRequestErr env (aka_baseURL a +:+ "/api/login") with
  | Some e => (a, Some (errWrap "create login request: " e ""))
  | None =>
  match http_Do env (loginRequest env a) with
  | Err e => (a, Some (errWrap "execute login request: " e ""))
  | Ok resp =>
  if decide (resp_StatusCode resp ≠ StatusOK)
  then (a, Some (errNew ("login returned HTTP " +:+ pretty (resp_StatusCode resp) +:+
                         ": " +:+ resp_Body resp)))
  else
  match http_decodeLogin env (resp_Body resp) with
  | Err e => (a, Some (errWrap "decode login response: " e ""))
  | Ok (accessToken, expiresIn) =>
  if decide (accessToken = "")
  then (a, Some (errNew "login response contained empty access_token"))
  else
  (mkApiKeyAuth (aka_baseURL a) (aka_clientId a) (aka_clientSecret a) accessToken
     (http_Now env + tokenLifetime expiresIn), None)
  end
  end
  end.

#[export] Instance ApiKeyAuth_AuthHeader : AuthProvider ApiKeyAuth := λ env a,
  if decide (http_Now env < aka_expiresAt a ∧ aka_token a ≠ "")%Z
  then ("Bearer " +:+ aka_token a, a)
  else
    match fetchToken env a with
    | (a', Some _) => ("", a')
    | (a', None) => ("Bearer " +:+ aka_token a', a')
    end.

(** ** Properties *)

(** The credentials of a provider, which no call may change. *)
Definition sameCredentials (a b : ApiKeyAuth) : Prop :=
  aka_baseURL a = aka_baseURL b ∧ aka_clientId a = aka_clientId b ∧
  aka_clientSecret a = aka_clientSecret b.

Lemma tokenLifetime_pos expiresIn : (0 < tokenLifetime expiresIn)%Z.
Proof. unfold tokenLifetime. case_decide; lia64. Qed.

(** The lifetime given to a fetched token is always positive, whatever
    [expires_in] the server sends, the 64-bit overflow of the duration
    included; and for an [expires_in] above 30 seconds that does not overflow it
    is exactly 30 seconds shorter than the server's. *)
Theorem tokenLifetime_bounds (expiresIn : Z) :
  (0 < tokenLifetime expiresIn)%Z ∧
  ((30 < expiresIn ≤ 9223372036)%Z →
   tokenLifetime expiresIn = (expiresIn * Second - 30 * Second)%Z).
Proof.
  split; [apply tokenLifetime_pos|]. unfold tokenLifetime.
  intros H. unfold tokenExpiryBuffer.
  rewrite (wrap64_id (expiresIn * Second)) by lia64. rewrite wrap64_id by lia64.
  by rewrite decide_False by lia64.
Qed.

Lemma fetchToken_error env a a' e : fetchToken env a = (a', Some e) → a' = a.
Proof. unfold fetchToken. intros. repeat case_match; by simplify_eq. Qed.

Lemma fetchToken_ok env a a' :
  fetchToken env a = (a', None) →
  sameCredentials a a' ∧ aka_token a' ≠ "" ∧ (http_Now env < aka_expiresAt a')%Z.
Proof.
  unfold fetchToken, sameCredentials. intros. repeat case_match; simplify_eq; simpl.
  pose proof (tokenLifetime_pos z). split_and!; try done. lia.
Qed.

(** The API-key provider never hands out an expired or empty token: the
    header is either empty, and then the login failed and the cache is left
    as it was, or it is the Bearer form of a non-empty token of the new state
    that is still valid at the time of the call; and a token that is still
    valid is reused without a login. *)
Theorem ApiKeyAuth_header_valid (env : HttpEnv) (a : ApiKeyAuth) :
  let '(h, a') := AuthHeader env a in
  sameCredentials a a' ∧
  ((h = "" ∧ a' = a ∧ ∃ e, fetchToken env a = (a, Some e)) ∨
   (h = "Bearer " +:+ aka_token a' ∧ aka_token a' ≠ "" ∧
    (http_Now env < aka_expiresAt a')%Z)) ∧
  ((http_Now env < aka_expiresAt a)%Z → aka_token a ≠ "" → a' = a).
Proof.
  unfold AuthHeader, ApiKeyAuth_AuthHeader. case_decide as Hd.
  { unfold sameCredentials. naive_solver. }
  destruct (fetchToken env a) as [a' [e|]] eqn:Hf.
  - apply fetchToken_error in Hf as Ha. subst a'. unfold sameCredentials. naive_solver.
  - destruct (fetchToken_ok _ _ _ Hf) as (?&?&?). naive_solver.
Qed.
