(* ===== verification/MeshClient.v ===== *)
(** * MeshClient: the meshStack run API

    Models go-meshapi-client/meshapi/client.go: the requests a runner sends to
    fetch a run, to register as a status source, to patch the status, and to
    move plan artifacts, with the status codes and size limits the client
    applies to the responses. JSON's text format is an argument. *)

From S2P Require Import Prelude MeshDtos MeshAuth.

Definition BlockRunMediaTypeV1 : string :=
  "application/vnd.meshcloud.api.meshbuildingblockrun.v1.hal+json".
Definition maxArtifactBytes : Z := 134217728.  (* 128 << 20 *)
Definition maxErrorBodyBytes : Z := 16777216.  (* 16 << 20 *)

(** The EP* formats of the client. *)
Definition EPGetRun (baseURL : string) : string :=
  baseURL +:+ "/api/meshobjects/meshbuildingblockruns".
Definition EPRunSourceRegistration (baseURL runID : string) : string :=
  EPGetRun baseURL +:+ "/" +:+ runID +:+ "/status/source".
Definition EPRunSourceUpdate (baseURL runID sourceID : string) : string :=
  EPGetRun baseURL +:+ "/" +:+ runID +:+ "/status/source/" +:+ sourceID.

(** The package variables [runnerName] and [runnerVersion]. *)
Record ClientMetadata := mkMetadata { runnerName : string; runnerVersion : string }.
Definition defaultMetadata : ClientMetadata := mkMetadata "unknown-runner" "dev".
Definition SetClientMetadata (name version : string) (m : ClientMetadata) : ClientMetadata :=
  mkMetadata (if decide (name = "") then runnerName m else name)
             (if decide (version = "") then runnerVersion m else version).
Definition userAgent (m : ClientMetadata) : string :=
  "meshcloud-" +:+ runnerName m +:+ "/" +:+ runnerVersion m.

Record Client (A : Type) := mkClient {
  cl_baseURL : string;
  cl_nodeID : string;
  cl_auth : A;
}.
Arguments mkClient {A}.
Arguments cl_baseURL {A}.
Arguments cl_nodeID {A}.
Arguments cl_auth {A}.

(** [resp.StatusCode < 200 || resp.StatusCode >= 300]. *)
Definition not2xx (code : Z) : bool := bool_decide (code < 200)%Z || bool_decide (300 ≤ code)%Z.

Section Client.
Context {A : Type} `{AuthProvider A}.
Context (meta : ClientMetadata) (env : HttpEnv).

Definition set_auth (a : A) (c : Client A) : Client A :=
  mkClient (cl_baseURL c) (cl_nodeID c) a.

Definition setHeaders (c : Client A) (hs : gmap string string) : gmap string string * Client A :=
  let '(auth, a) := AuthHeader env (cl_auth c) in
  (<["X-Meshcloud-Runner-Version" := runnerVersion meta]>
   (<["X-Meshcloud-Runner-Name" := runnerName meta]>
    (<["User-Agent" := userAgent meta]>
     (<["X-Block-Runner-Node-Id" := cl_nodeID c]>
      (<["Content-Type" := BlockRunMediaTypeV1]>
       (<["Accept" := BlockRunMediaTypeV1]>
        (<["Authorization" := auth]> hs)))))), set_auth a c).

(** One exchange: [http.NewRequest], [setHeaders], the caller's own headers,
    [Do]. The first component is what [NewRequest] or [Do] returned. *)
Definition exchange (c : Client A) (method url body : string)
    (own : gmap string string → gmap string string)
    : (result Response + error) * Client A :=
  match http_NewRequestErr env url with
  | Some e => (inr e, c)
  | None =>
      let '(hs, c) := setHeaders c ∅ in
      (inl (http_Do env (mkRequest method url (own hs) body)), c)
  end.

Definition FetchRun (parseRunDetails : string → result RunDetailsDTO)
    (c : Client A) (runnerUUID : string) : result (RunDetailsDTO * string) * Client A :=
  let url := EPGetRun (cl_baseURL c) +:+ "/create?forRunnerUuid=" +:+ runnerUUID in
  let '(r, c) := exchange c "POST" url "" id in
  (match r with
   | inr e | inl (Err e) => Err e
   | inl (Ok resp) =>
       if decide (resp_StatusCode resp ≠ StatusOK ∧ resp_StatusCode resp ≠ StatusCreated)
       then Err (errStatus (resp_StatusCode resp))
       else match resp_BodyErr resp with
       | Some e => Err e
       | None =>
           match parseRunDetails (resp_Body resp) with
           | Err e => Err (errWrap "failed to parse run JSON: " e "")
           | Ok dto =>
               if decide (run_Uuid dto = "") then Err (errNew "fetched run has no UUID")
               else Ok (dto, resp_Body resp)
           end
       end
   end, c).

(** [io.Copy(w, io.LimitReader(body, maxArtifactBytes+1))]: the bytes the
    writer took, and the error. [w] says how much of the data the writer
    accepts before it fails, if it fails. A read error behind the limit is
    never seen. *)
Definition copyLimited (w : string → string * option error) (resp : Response)
    : string * option error :=
  let '(written, werr) := w (stakeZ (maxArtifactBytes + 1) (resp_Body resp)) in
  match werr with
  | Some e => (written, Some e)
  | None =>
      (written, if decide (slen (resp_Body resp) ≤ maxArtifactBytes)%Z
                then resp_BodyErr resp else None)
  end.

Definition downloadHeaders (hs : gmap string string) : gmap string string :=
  delete "Content-Type" (<["Accept" := "application/octet-stream"]> hs).

(** The result: what was written to [w], and the error. *)
Definition DownloadArtifact (c : Client A) (artifactURL : string)
    (w : string → string * option error) : (string * option error) * Client A :=
  let pre := "download artifact " +:+ artifactURL in
  let '(r, c) := exchange c "GET" artifactURL "" downloadHeaders in
  (match r with
   | inr e => ("", Some (errWrap (pre +:+ ": failed to create request: ") e ""))
   | inl (Err e) => ("", Some (errWrap (pre +:+ ": request failed: ") e ""))
   | inl (Ok resp) =>
       if not2xx (resp_StatusCode resp) then
         let code := pretty (resp_StatusCode resp) in
         let body := stakeZ maxErrorBodyBytes (resp_Body resp) in
         ("", Some (errNew
           match resp_BodyErr resp with
           | Some e =>
               if decide (slen (resp_Body resp) < maxErrorBodyBytes)%Z
               then pre +:+ " returned HTTP " +:+ code +:+ " (failed to read error body: " +:+
                    Error e +:+ ")"
               else pre +:+ " returned HTTP " +:+ code +:+ ": " +:+ body
           | None => pre +:+ " returned HTTP " +:+ code +:+ ": " +:+ body
           end))
       else
         let '(written, err) := copyLimited w resp in
         match err with
         | Some e => (written, Some (errWrap (pre +:+ ": failed to read body: ") e ""))
         | None =>
             if decide (maxArtifactBytes < slen written)%Z
             then (written, Some (errNew (pre +:+
                    ": artifact exceeds the maximum allowed size of " +:+
                    pretty maxArtifactBytes +:+ " bytes")))
             else (written, None)
         end
   end, c).

Definition uploadHeaders (hs : gmap string string) : gmap string string :=
  <["Accept" := "*/*"]> (<["Content-Type" := "application/octet-stream"]> hs).

Definition UploadArtifact (c : Client A) (uploadURL artifact : string)
    : option error * Client A :=
  let pre := "upload artifact " +:+ uploadURL in
  let '(r, c) := exchange c "PUT" uploadURL artifact uploadHeaders in
  (match r with
   | inr e => Some (errWrap (pre +:+ ": failed to create request: ") e "")
   | inl (Err e) => Some (errWrap (pre +:+ ": request failed: ") e "")
   | inl (Ok resp) =>
       if not2xx (resp_StatusCode resp)
       then Some (errNew (pre +:+ " returned HTTP " +:+ pretty (resp_StatusCode resp) +:+
                  ": " +:+ stakeZ maxErrorBodyBytes (resp_Body resp)))
       else None
   end, c).

(** [marshal] is [json.Marshal]. *)
Definition RegisterSourceAt (marshal : RegistrationDTO → result string)
    (c : Client A) (registerURL : string) (registration : RegistrationDTO)
    : option error * Client A :=
  match marshal registration with
  | Err e => (Some (errWrap "failed to marshal registration: " e ""), c)
  | Ok body =>
      let '(r, c) := exchange c "POST" registerURL body id in
      (match r with
       | inr e => Some (errWrap "failed to create request: " e "")
       | inl (Err e) => Some (errWrap "request failed: " e "")
       | inl (Ok resp) =>
           if decide (resp_StatusCode resp = StatusConflict) then None
           else if not2xx (resp_StatusCode resp)
           then Some (errNew ("register source returned HTTP " +:+
                      pretty (resp_StatusCode resp) +:+ ": " +:+ resp_Body resp))
           else None
       end, c)
  end.

Definition RegisterSource (marshal : RegistrationDTO → result string)
    (c : Client A) (runID : string) (registration : RegistrationDTO)
    : option error * Client A :=
  RegisterSourceAt marshal c (EPRunSourceRegistration (cl_baseURL c) runID) registration.

Definition PatchStatusAt {P} (marshal : P → result string)
    (c : Client A) (updateURL : string) (payload : P) : result string * Client A :=
  match marshal payload with
  | Err e => (Err (errWrap "failed to marshal status payload: " e ""), c)
  | Ok body =>
      let '(r, c) := exchange c "PATCH" updateURL body id in
      (match r with
       | inr e => Err (errWrap "failed to create request: " e "")
       | inl (Err e) => Err (errWrap "request failed: " e "")
       | inl (Ok resp) =>
           if not2xx (resp_StatusCode resp)
           then Err (errWrap "patch status: " (errStatus (resp_StatusCode resp))
                       (": " +:+ resp_Body resp))
           else match resp_BodyErr resp with
           | Some e => Err (errWrap "failed to read response body: " e "")
           | None => Ok (resp_Body resp)
           end
       end, c)
  end.

Definition PatchStatus {P} (marshal : P → result string)
    (c : Client A) (runID sourceID : string) (payload : P) : result string * Client A :=
  PatchStatusAt marshal c (EPRunSourceUpdate (cl_baseURL c) runID sourceID) payload.

(** ** Properties *)

Lemma not2xx_spec code : not2xx code = false ↔ (200 ≤ code < 300)%Z.
Proof. unfold not2xx. repeat case_bool_decide; simpl; split; intros; try done; lia. Qed.

Lemma exchange_baseURL c method url body own r c' :
  exchange c method url body own = (r, c') →
  cl_baseURL c' = cl_baseURL c ∧ cl_nodeID c' = cl_nodeID c.
Proof.
  unfold exchange, setHeaders. intros. repeat case_match; by simplify_eq.
Qed.

(** C34. A download that succeeds has written the whole response body, the
    response was a 2xx, and the body is at most 128 MiB; and whatever happens
    the writer is never handed more than 128 MiB and one byte. *)
Theorem DownloadArtifact_bounded (c : Client A) (url : string)
    (w : string → string * option error)
    (Hw : ∀ s, match w s with
               | (out, None) => out = s
               | (out, Some _) => (slen out ≤ slen s)%Z
               end) :
  let '((out, err), _) := DownloadArtifact c url w in
  (slen out ≤ maxArtifactBytes + 1)%Z ∧
  (err = None →
   ∃ req resp, http_Do env req = Ok resp ∧ req_Method req = "GET" ∧ req_URL req = url ∧
     (200 ≤ resp_StatusCode resp < 300)%Z ∧ out = resp_Body resp ∧
     (slen out ≤ maxArtifactBytes)%Z).
Proof.
  unfold DownloadArtifact, exchange.
  destruct (http_NewRequestErr env url); [split; [by vm_compute|done]|].
  destruct (setHeaders c ∅) as [hs c'].
  destruct (http_Do env _) as [resp|e] eqn:Hdo; [|split; [by vm_compute|done]].
  destruct (not2xx _) eqn:Hcode; [split; [by vm_compute|done]|].
  apply not2xx_spec in Hcode. unfold copyLimited.
  specialize (Hw (stakeZ (maxArtifactBytes + 1) (resp_Body resp))).
  destruct (w _) as [out [e|]].
  - rewrite slen_stakeZ in Hw by (by vm_compute). split; [lia|done].
  - subst out. pose proof (slen_stakeZ (maxArtifactBytes + 1) (resp_Body resp)) as Hl.
    specialize (Hl ltac:(by vm_compute)).
    destruct (decide (slen (resp_Body resp) ≤ maxArtifactBytes)%Z) as [Hs|Hs].
    + rewrite (stakeZ_id (maxArtifactBytes + 1)) by lia.
      destruct (resp_BodyErr resp); [split; [lia|done]|].
      rewrite decide_False by lia. split; [lia|]. intros _. by eexists _, resp.
    + rewrite decide_True by lia. split; [lia|done].
Qed.

(** Registering a source fails for every status outside 2xx except 409:
    the call is idempotent. *)
Theorem RegisterSourceAt_conflict_ok (marshal : RegistrationDTO → result string)
    (c : Client A) (url : string) (reg : RegistrationDTO) (body : string) (resp : Response)
    (Hm : marshal reg = Ok body) (Hurl : http_NewRequestErr env url = None)
    (Hdo : ∀ hs, http_Do env (mkRequest "POST" url hs body) = Ok resp) :
  (RegisterSourceAt marshal c url reg).1 = None ↔
  resp_StatusCode resp = StatusConflict ∨ (200 ≤ resp_StatusCode resp < 300)%Z.
Proof.
  unfold RegisterSourceAt, exchange. rewrite Hm, Hurl.
  destruct (setHeaders c ∅) as [hs c']. unfold id. rewrite Hdo. simpl.
  case_decide; [naive_solver|]. rewrite <-not2xx_spec. destruct (not2xx _); naive_solver.
Qed.

(** A refused status update keeps the HTTP status where [errors.As] finds it. *)
Lemma PatchStatusAt_status {P} (marshal : P → result string) c url payload body resp
    (Hm : marshal payload = Ok body) (Hurl : http_NewRequestErr env url = None)
    (Hdo : ∀ hs, http_Do env (mkRequest "PATCH" url hs body) = Ok resp) :
  not2xx (resp_StatusCode resp) = true →
  ∃ e, (PatchStatusAt marshal c url payload).1 = Err e ∧
       errors_As isStatusError e = Some (resp_StatusCode resp).
Proof.
  unfold PatchStatusAt, exchange. rewrite Hm, Hurl. intros Hc.
  destruct (setHeaders c ∅) as [hs c']. unfold id. rewrite Hdo. simpl. rewrite Hc. eauto.
Qed.
End Client.

(** ** An exchange to evaluate them on *)

Definition exampleHttp (resp : Response) : HttpEnv := {|
  http_Now := 1700000000000000000;
  http_NewRequestErr _ := None;
  http_Do _ := Ok resp;
  http_decodeLogin _ := Ok ("token", 3600%Z);
  http_base64 s := s;
  http_encodeLogin u p := u +:+ p;
|}.

Definition exampleClient : Client BearerTokenAuth := mkClient "http://mesh" "node" (mkBearerTokenAuth "t").

Lemma DownloadArtifact_bounded_witness
    (out := (DownloadArtifact defaultMetadata (exampleHttp (mkResponse 200 "PLAN" None)) exampleClient
               "http://mesh/plan" (λ s, (s, None))).1) :
  out.2 = None ∧ (slen out.1 ≤ maxArtifactBytes + 1)%Z.
Proof.
  split; [vm_compute; reflexivity|].
  exact (proj1 (DownloadArtifact_bounded defaultMetadata (exampleHttp (mkResponse 200 "PLAN" None))
    exampleClient "http://mesh/plan" (λ s, (s, None)) (λ s, eq_refl))).
Defined.

Lemma RegisterSourceAt_conflict_ok_witness :
  (RegisterSourceAt defaultMetadata (exampleHttp (mkResponse 409 "exists" None)) (λ _, Ok "{}")
     exampleClient "http://mesh/source" (mkRegistration "s" [])).1 = None.
Proof.
  apply (RegisterSourceAt_conflict_ok _ _ _ _ _ _ "{}" (mkResponse 409 "exists" None));
    [reflexivity|reflexivity|done|left; reflexivity].
Defined.
