(* ===== verification/TfConfig.v ===== *)
(** * TfConfig: the configuration of the Terraform runner

    Models tf-block-runner/tfrun/config.go: reading the configuration file,
    the environment variables that override it, the private key file, and the
    validation that polling mode depends on. The operating system and the
    YAML parser are arguments. *)

From S2P Require Import Prelude MeshAuth.

(** The parts of the operating system the configuration reads. *)
Record OS := mkOS {
  os_LookupEnv : string → option string;
  os_ReadFile : string → result string;
}.

Definition os_Getenv (os : OS) (key : string) : string := default "" (os_LookupEnv os key).

Record RunApiConfig := mkRunApiConfig {
  api_Url : string;
  api_User : string;
  api_Password : string;
  api_ClientId : string;
  api_ClientSecret : string;
}.

Record TfRunnerConfig := mkTfRunnerConfig {
  TfCommandTimeoutMins : Z;
  TfParentWorkingDir : string;
  TfInstallDir : string;
  RunApiBackend : RunApiConfig;
  SkipHostKeyValidation : bool;
  PrivateKey : string;
  PrivateKeyFile : string;
  WsTimeoutMins : Z;
  InitTimeoutMins : Z;
  RunnerUuid : string;
}.

Definition zeroConfig : TfRunnerConfig :=
  mkTfRunnerConfig 0 "" "" (mkRunApiConfig "" "" "" "" "") false "" "" 0 0 "".

Definition set_RunApiBackend (v : RunApiConfig) (c : TfRunnerConfig) : TfRunnerConfig :=
  mkTfRunnerConfig (TfCommandTimeoutMins c) (TfParentWorkingDir c) (TfInstallDir c) v
    (SkipHostKeyValidation c) (PrivateKey c) (PrivateKeyFile c) (WsTimeoutMins c)
    (InitTimeoutMins c) (RunnerUuid c).
Definition set_PrivateKey (v : string) (c : TfRunnerConfig) : TfRunnerConfig :=
  mkTfRunnerConfig (TfCommandTimeoutMins c) (TfParentWorkingDir c) (TfInstallDir c)
    (RunApiBackend c) (SkipHostKeyValidation c) v (PrivateKeyFile c) (WsTimeoutMins c)
    (InitTimeoutMins c) (RunnerUuid c).
Definition set_PrivateKeyFile (v : string) (c : TfRunnerConfig) : TfRunnerConfig :=
  mkTfRunnerConfig (TfCommandTimeoutMins c) (TfParentWorkingDir c) (TfInstallDir c)
    (RunApiBackend c) (SkipHostKeyValidation c) (PrivateKey c) v (WsTimeoutMins c)
    (InitTimeoutMins c) (RunnerUuid c).
Definition set_RunnerUuid (v : string) (c : TfRunnerConfig) : TfRunnerConfig :=
  mkTfRunnerConfig (TfCommandTimeoutMins c) (TfParentWorkingDir c) (TfInstallDir c)
    (RunApiBackend c) (SkipHostKeyValidation c) (PrivateKey c) (PrivateKeyFile c)
    (WsTimeoutMins c) (InitTimeoutMins c) v.

(** The [meshapi.AuthProvider] values [NewAuthProvider] can return; [None]
    stands for the nil interface. *)
Inductive ConfiguredAuth :=
| ApiKeyProvider (a : ApiKeyAuth)
| BasicProvider (a : BasicAuth).

#[export] Instance ConfiguredAuth_AuthHeader : AuthProvider ConfiguredAuth := λ env p,
  match p with
  | ApiKeyProvider a => let '(h, a) := AuthHeader env a in (h, ApiKeyProvider a)
  | BasicProvider a => let '(h, a) := AuthHeader env a in (h, BasicProvider a)
  end.

Definition nonEmpty (s : string) : bool := bool_decide (s ≠ "").

Definition NewAuthProvider (c : RunApiConfig) : option ConfiguredAuth :=
  if nonEmpty (api_ClientId c) && nonEmpty (api_ClientSecret c)
  then Some (ApiKeyProvider (NewApiKeyAuth (api_Url c) (api_ClientId c) (api_ClientSecret c)))
  else if nonEmpty (api_User c) && nonEmpty (api_Password c)
  then Some (BasicProvider (mkBasicAuth (api_User c) (api_Password c)))
  else None.

Definition defaultConfigFile := "runner-config.yml".
Definition defaultPrivateKeyFile := "runner-private.pem".
Definition envConfigFile := "RUNNER_CONFIG_FILE".
Definition envRunnerUuid := "RUNNER_UUID".
Definition envApiUrl := "RUNNER_API_URL".
Definition envAuthUsername := "RUNNER_API_USERNAME".
Definition envAuthPassword := "RUNNER_API_PASSWORD".
Definition envAuthClientId := "RUNNER_API_CLIENT_ID".
Definition envAuthClientSecret := "RUNNER_API_CLIENT_SECRET".
Definition envPrivateKeyFile := "RUNNER_PRIVATE_KEY_FILE".
Definition envExecutionMode := "EXECUTION_MODE".
Definition envRunJsonFilePath := "RUN_JSON_FILE_PATH".

Section Config.
Context (os : OS).

(** [if v := os.Getenv(key); v != "" { field = v }]. *)
Definition override (key current : string) : string :=
  let v := os_Getenv os key in if decide (v = "") then current else v.

Definition applyEnvVars (c : TfRunnerConfig) : TfRunnerConfig :=
  let c := set_RunnerUuid (override envRunnerUuid (RunnerUuid c)) c in
  let b := RunApiBackend c in
  let c := set_RunApiBackend
    (mkRunApiConfig (override envApiUrl (api_Url b))
       (override envAuthUsername (api_User b)) (override envAuthPassword (api_Password b))
       (override envAuthClientId (api_ClientId b))
       (override envAuthClientSecret (api_ClientSecret b))) c in
  let privateKeyFile := os_Getenv os envPrivateKeyFile in
  if decide (privateKeyFile ≠ "") then set_PrivateKeyFile privateKeyFile c
  else if decide (PrivateKeyFile c = "") then set_PrivateKeyFile defaultPrivateKeyFile c
  else c.

Definition applyPrivateKeyFile (path : string) (c : TfRunnerConfig) : TfRunnerConfig :=
  if decide (path = "") then c
  else match os_ReadFile os path with
  | Ok keyData => set_PrivateKey keyData c
  | Err _ => c
  end.

Definition isSingleRunMode : bool := bool_decide (os_Getenv os envExecutionMode = "single-run").

Definition validateAuthConfig (config : TfRunnerConfig) : option error :=
  let b := RunApiBackend config in
  let hasCompleteBasicAuth := nonEmpty (api_User b) && nonEmpty (api_Password b) in
  let hasCompleteApiKeyAuth := nonEmpty (api_ClientId b) && nonEmpty (api_ClientSecret b) in
  if isSingleRunMode then
    if decide (os_Getenv os envRunJsonFilePath = "")
    then Some (errNew "RUN_JSON_FILE_PATH environment variable is required in single-run mode")
    else None
  else if negb hasCompleteBasicAuth && negb hasCompleteApiKeyAuth
  then Some (errNew ("authentication required in polling mode: set either user+password " +:+
                     "(Basic auth) or clientId+clientSecret (API key auth)"))
  else None.

Definition validateRunnerUuid (config : TfRunnerConfig) : option error :=
  if decide (RunnerUuid config = "")
  then Some (errNew ("runnerUuid is required and must not be empty. " +:+
                     "Set it via RUNNER_UUID environment variable or runner-config.yml"))
  else None.

(** [yamlUnmarshal] decodes a file on top of the current configuration. *)
Definition ReadConfig (yamlUnmarshal : string → TfRunnerConfig → result TfRunnerConfig)
    (AppConfig : TfRunnerConfig) : result TfRunnerConfig :=
  let configPath := cmpOr (os_Getenv os envConfigFile) defaultConfigFile in
  c ← match os_ReadFile os configPath with
      | Err e => if errors_Is isNotExist e then Ok AppConfig else Err e
      | Ok fileData => yamlUnmarshal fileData AppConfig
      end;
  let c := applyEnvVars c in
  let c := applyPrivateKeyFile (PrivateKeyFile c) c in
  match validateAuthConfig c with
  | Some e => Err e
  | None => match validateRunnerUuid c with Some e => Err e | None => Ok c end
  end.

(** ** Properties *)

Lemma nonEmpty_true s : nonEmpty s = true ↔ s ≠ "".
Proof. unfold nonEmpty. apply bool_decide_eq_true. Qed.

Lemma NewAuthProvider_is_Some c :
  is_Some (NewAuthProvider c) ↔
  (nonEmpty (api_ClientId c) && nonEmpty (api_ClientSecret c)) ||
  (nonEmpty (api_User c) && nonEmpty (api_Password c)) = true.
Proof.
  unfold NewAuthProvider.
  destruct (_ && _); [simpl; naive_solver|]. destruct (_ && _); simpl; [naive_solver|].
  split; [by intros [??]|done].
Qed.

Lemma ReadConfig_inv yaml app c :
  ReadConfig yaml app = Ok c →
  validateAuthConfig c = None ∧ validateRunnerUuid c = None ∧
  ∃ c0, c = applyPrivateKeyFile (PrivateKeyFile (applyEnvVars c0)) (applyEnvVars c0).
Proof.
  unfold ReadConfig. intros Hr.
  match type of Hr with mbind _ ?r = _ => destruct r as [c0|e] end; [|done].
  simpl in Hr. repeat case_match; simplify_eq. eauto.
Qed.

(** A configuration that [ReadConfig] accepts always has a runner UUID,
    and in polling mode it always yields an auth provider, so the API client
    never runs without credentials; in single-run mode the run file is set. *)
Theorem ReadConfig_authenticated
    (yaml : string → TfRunnerConfig → result TfRunnerConfig) (app c : TfRunnerConfig)
    (Hr : ReadConfig yaml app = Ok c) :
  RunnerUuid c ≠ "" ∧
  (isSingleRunMode = false → is_Some (NewAuthProvider (RunApiBackend c))) ∧
  (isSingleRunMode = true → os_Getenv os envRunJsonFilePath ≠ "").
Proof.
  apply ReadConfig_inv in Hr as (Ha & Hu & _).
  unfold validateRunnerUuid in Hu. case_decide; [done|].
  unfold validateAuthConfig in Ha. split; [done|].
  destruct isSingleRunMode; [by case_decide|]. split; [|done]. intros _.
  apply NewAuthProvider_is_Some.
  by destruct (nonEmpty (api_ClientId _) && _), (nonEmpty (api_User _) && _).
Qed.

Lemma override_set key current v :
  os_LookupEnv os key = Some v → v ≠ "" → override key current = v.
Proof. unfold override, os_Getenv. intros -> ?. simpl. by rewrite decide_False. Qed.

Lemma override_unset key current :
  os_Getenv os key = "" → override key current = current.
Proof. unfold override. intros ->. by rewrite decide_True. Qed.
End Config.

(** [ReadConfig] run with API-key variables in the environment and no files. *)
Definition exampleOS : OS :=
  mkOS (λ k, (list_to_map [("RUNNER_UUID", "u-1"); ("RUNNER_API_CLIENT_ID", "id");
                           ("RUNNER_API_CLIENT_SECRET", "secret")] : gmap string string) !! k)
       (λ p, Err (errNotExist p)).

Lemma ReadConfig_authenticated_witness :
  ∃ c, ReadConfig exampleOS (λ _ c, Ok c) zeroConfig = Ok c ∧ RunnerUuid c = "u-1" ∧
       is_Some (NewAuthProvider (RunApiBackend c)).
Proof.
  eexists. split; [vm_compute; reflexivity|]. split; [vm_compute; reflexivity|].
  refine (proj1 (proj2 (ReadConfig_authenticated exampleOS (λ _ c, Ok c) zeroConfig _ _)) _);
    vm_compute; reflexivity.
Defined.
