(* ===== verification/Run.v ===== *)
(** * Run: the run a worker executes

    Models tf-block-runner/tfrun/run.go and the data of gitsource.go,
    authNone.go and authSsh.go: the run with its input variables and its
    source, the decryption of a sensitive variable, and the workspace name. *)

From S2P Require Import Prelude Status.

(** ** Decryption *)

(** The package variable [meshcrypto.Crypto]: [None] is its nil pointer.
    Crypto.v models what the method [DecryptMeshCertBased] of a non-nil one
    does; [None] is a panic of it, as for a text without its framing. *)
Definition Decryptor : Type := option (string → option (result string)).

(** That method on the pointer; the first statement of it panics on a nil
    receiver. *)
Definition DecryptOn (crypto : Decryptor) (encrypted : string) : option (result string) :=
  match crypto with
  | None => None
  | Some decrypt => decrypt encrypted
  end.

(** What a panic of it is called here. *)
Definition decryptPanic : string := "panic in DecryptMeshCertBased".

(** ** Variables *)

(** Go's type [Variable]. *)
Record InputVariable := mkVariable {
  var_value : any;
  var_env : bool;
  var_Type : DataType;
  var_isSensitive : bool;
}.

Definition decryptHint : string :=
  ". This typically indicates a key mismatch - the private key provided to this building block block runner does not match the public key used to encrypt the input. " +:+
  "Please verify: " +:+
  "1) The correct building block block runner is configured for this building block definition, " +:+
  "2) The private key configured in the runner matches the public key for the runner configured in meshStack, or " +:+
  "3) Create and publish a new building block definition version and re-upload the plaintext for secret inputs so they are re-encrypted with the correct key".

Definition decryptableTypes : list DataType :=
  [DATA_TYPE_CODE; DATA_TYPE_STRING; DATA_TYPE_FILE].

(** [None] is a panic. *)
Definition decryptIfSensitive (fmt_float : spec_float → string) (crypto : Decryptor)
    (v : InputVariable) : option (result any) :=
  if var_isSensitive v then
    if decide (var_Type v ∈ decryptableTypes) then
      match DecryptOn crypto (Sprint fmt_float (var_value v)) with
      | None => None
      | Some (Ok plain) => Some (Ok (anyStr plain))
      | Some (Err e) =>
          Some (Err (errWrap "failed to decrypt secret input: " e decryptHint))
      end
    else Some (Ok (var_value v))
  else Some (Ok (var_value v)).

(** ** The source *)

Record KnownHost := mkKnownHost { host : string; key : string; value : string }.

Inductive Auth :=
| NoAuth
| SshAuth (knownHostEntry : option KnownHost) (certStr : string).

Definition AUTH_TYPE_NONE := "NONE".
Definition AUTH_TYPE_SSH := "SSH".

Definition auth_name (a : Auth) : string :=
  match a with NoAuth => AUTH_TYPE_NONE | SshAuth _ _ => AUTH_TYPE_SSH end.

Record GitSource := mkGitSource {
  gs_url : string;
  gs_path : option string;
  gs_refName : option string;
  gs_auth : Auth;
}.

(** ** The run *)

Definition DEFAULT_TF_VER := "1.4.4".

Record Run := mkRun {
  r_Id : string;
  r_TerraformVersion : string;
  r_Behavior : Behavior;
  r_WorkspaceIdentifier : option string;
  r_ProjectIdentifier : option string;
  r_FullPlatformIdentifier : option string;
  r_BuildingBlockId : string;
  r_BuildingBlockName : string;
  r_IsAsync : bool;
  r_Vars : gmap string InputVariable;
  r_RunJsonBase64 : string;
  r_Source : GitSource;
  r_UseMeshBackendFallback : bool;
  r_PreRunScript : option string;
  r_RunToken : string;
  r_MeshstackBaseUrl : string;
  r_ArtifactUrl : string;
  r_ArtifactUploadUrl : string;
  r_TfStateLockUrl : string;
}.

Definition toWorkspaceStr (run : Run) : string :=
  default "_" (r_WorkspaceIdentifier run) +:+ "." +:+
  default "_" (r_ProjectIdentifier run) +:+ "." +:+
  default "_" (r_FullPlatformIdentifier run) +:+ ":" +:+ r_BuildingBlockId run.

(** ** Properties *)

(** Decryption panics exactly for a sensitive input of a decryptable type
    when no private key was configured (the crypto instance is nil), where the
    error message that the crypto package has for a missing private key is
    never reached, or when the instance panics on its text; an input that is
    not sensitive comes back unchanged. *)
Theorem decryptIfSensitive_panics_iff
    (fmt_float : spec_float → string) (crypto : Decryptor) (v : InputVariable) :
  (decryptIfSensitive fmt_float crypto v = None ↔
   DecryptOn crypto (Sprint fmt_float (var_value v)) = None ∧
   var_isSensitive v = true ∧ var_Type v ∈ decryptableTypes) ∧
  (var_isSensitive v = false →
   decryptIfSensitive fmt_float crypto v = Some (Ok (var_value v))).
Proof.
  unfold decryptIfSensitive. split.
  - destruct (var_isSensitive v); [|naive_solver].
    case_decide; [|naive_solver]. destruct (DecryptOn _ _) as [[]|]; naive_solver.
  - by intros ->.
Qed.

Lemma string_rev_app_acc s1 s2 a : String.rev_app (s1 +:+ s2) a = String.rev_app s2 (String.rev_app s1 a).
Proof. revert a. induction s1 as [|c s1 IH]; intros a; [done|]. apply (IH (String c a)). Qed.

(** The workspace a run creates is one [selectWorkspace] recognises by its suffix. *)
Lemma HasSuffix_app s p : HasSuffix (s +:+ p) p = true.
Proof.
  unfold HasSuffix, String.rev. rewrite string_rev_app_acc.
  assert (∀ p a b, String.prefix (String.rev_app p a) (String.rev_app p b) = String.prefix a b) as Hr.
  { clear. intros p. induction p as [|c p IH]; intros a b; [done|]. simpl. rewrite IH.
    simpl. by destruct (ascii_dec c c). }
  rewrite Hr. by destruct (String.rev_app s "").
Qed.

Lemma toWorkspaceStr_suffix run : HasSuffix (toWorkspaceStr run) (r_BuildingBlockId run) = true.
Proof.
  unfold toWorkspaceStr. rewrite !string_app_assoc. apply HasSuffix_app.
Qed.
