(* ===== verification/RunM.v ===== *)
(** * RunM: the state of a running Terraform command

    Models tf-block-runner/tfrun/logwrapper.go and runcontextinfo.go, and the
    effects a Terraform command has: the run status it fills in and publishes,
    the update log and its write callback, the files of the working directory,
    and the calls to tofu, git, the shell and meshStack, recorded as events. A
    call of tofu that is given a plan file, or writes one, also records what is
    in that file then.

    A command is a state transformer on [World]. What it cannot know
    (the result of an external call, a write or read error of the operating
    system, the clock, whether the context has ended) is answered by an [Env],
    whose every field is a function of the events so far, so that quantifying
    over environments covers every behaviour of the outside. A Go panic is an
    outcome of its own. *)

From S2P Require Import Prelude GoPath Status TfConfig Run.

(** ** External calls *)

(** A call of the terraform-exec facade (tffacade.go) with its options. *)
Inductive TfCall :=
| TfSetEnv (env : gmap string string)
| TfInit (upgrade forceCopy : bool)
| TfPlan (out lockTimeout : string)
| TfApply (dirOrPlan : option string) (lockTimeout : string)
| TfDestroy (lockTimeout : string) (dir : option string)
| TfOutputs
| TfWorkspaceList
| TfWorkspaceNew (workspace lockTimeout : string)
| TfWorkspaceSelect (workspace : string)
| TfWorkspaceDelete (workspace : string) (force : bool) (lockTimeout : string).

(** What an SSH auth method hands to go-git: the private key, whether host
    keys go unchecked, and the host key algorithms to ask for (none: any). *)
Record TransportAuth := mkTransportAuth {
  ta_pem : string;
  ta_insecure : bool;
  ta_HostKeyAlgorithms : list string;
}.

(** A git operation: go-git's, or the [git] command of the Azure workaround. *)
Inductive GitCall :=
| GitClone (url dir : string) (auth : option TransportAuth)
| GitHead
| GitWorktree
| GitResolve (revision : string)
| GitCheckout (hash : string)
| GitBash (command : string).

(** tfexec's [OutputMeta]. *)
Record OutputMeta := mkOutputMeta {
  om_Sensitive : bool;
  om_Type : string;
  om_Value : option string;    (* None: the nil RawMessage *)
}.

Inductive event :=
| EvLog (chunk : string)
| EvPublish (status : RunStatus)
| EvTf (call : TfCall)
| EvInstall (product version : string)
| EvGit (call : GitCall)
| EvScript (args environ : list string) (stdin : string)
| EvSleep (ns : Z)
| EvDownload (url : string) (bytes : string) (ok : bool)
| EvUpload (url data : string) (ok : bool)
| EvFile (path content : string)
| EvPlanFile (path : string) (content : option string).   (* what tofu finds or leaves there *)


(** ** State *)

Record World := mkWorld {
  runStatus : RunStatus;
  reportStatus : RunStatus;
  logFile : string;
  logSize : Z;
  callbackSet : bool;
  useWorkspaces : bool;
  files : gmap string string;  (* the regular files, by path *)
  dirs : gset string;          (* the directories made by [os.Mkdir] *)
  trace : list event;          (* newest first *)
}.

Definition set_runStatus (v : RunStatus) (w : World) : World :=
  mkWorld v (reportStatus w) (logFile w) (logSize w) (callbackSet w) (useWorkspaces w)
    (files w) (dirs w) (trace w).
Definition set_reportStatus (v : RunStatus) (w : World) : World :=
  mkWorld (runStatus w) v (logFile w) (logSize w) (callbackSet w) (useWorkspaces w)
    (files w) (dirs w) (trace w).
Definition set_log (f : string) (n : Z) (w : World) : World :=
  mkWorld (runStatus w) (reportStatus w) f n (callbackSet w) (useWorkspaces w)
    (files w) (dirs w) (trace w).
Definition set_callback (w : World) : World :=
  mkWorld (runStatus w) (reportStatus w) (logFile w) (logSize w) true (useWorkspaces w)
    (files w) (dirs w) (trace w).
Definition set_useWorkspaces (v : bool) (w : World) : World :=
  mkWorld (runStatus w) (reportStatus w) (logFile w) (logSize w) (callbackSet w) v
    (files w) (dirs w) (trace w).
Definition set_files (v : gmap string string) (w : World) : World :=
  mkWorld (runStatus w) (reportStatus w) (logFile w) (logSize w) (callbackSet w)
    (useWorkspaces w) v (dirs w) (trace w).
Definition set_dirs (v : gset string) (w : World) : World :=
  mkWorld (runStatus w) (reportStatus w) (logFile w) (logSize w) (callbackSet w)
    (useWorkspaces w) (files w) v (trace w).
Definition emit (ev : event) (w : World) : World :=
  mkWorld (runStatus w) (reportStatus w) (logFile w) (logSize w) (callbackSet w)
    (useWorkspaces w) (files w) (dirs w) (ev :: trace w).

(** The fields of [RunContextInfo] that no command assigns. *)
Record RunContextInfo := mkRunContextInfo {
  runId : string;
  runJsonBase64 : string;
  bbId : string;
  workspaceIdentifier : string;
  asyncRun : bool;
  useMeshBackendFallback : bool;
  workingDirectory : string;
  artifactFilePath : string;
  runToken : string;
  meshstackBaseUrl : string;
  tfStateLockUrl : string;
}.

(** tfcmd.go: [TfCmdParams]; [useWorkspaces], which a command assigns, is in the
    [World], and [dir] is never read. *)
Record TfCmdParams := mkTfCmdParams {
  buildingBlockId : string;
  tfVersion : string;
  suggestedWorkspace : string;
  vars : gmap string InputVariable;
  source : GitSource;
  preRunScript : option string;
  runMode : string;
  artifactUrl : string;
  artifactUploadUrl : string;
}.

(** ** The monad *)

Inductive outcome (A : Type) :=
| Done (a : A)
| Panicked (msg : string).
Arguments Done {A} a.
Arguments Panicked {A} msg.

Definition M (A : Type) : Type := World → outcome A * World.

#[global] Instance M_ret : MRet M := λ A a w, (Done a, w).
#[global] Instance M_bind : MBind M := λ A B k m w,
  match m w with
  | (Done a, w) => k a w
  | (Panicked msg, w) => (Panicked msg, w)
  end.

Definition gets {A} (f : World → A) : M A := λ w, (Done (f w), w).
Definition modify (f : World → World) : M unit := λ w, (Done tt, f w).
Definition panic {A} (msg : string) : M A := λ w, (Panicked msg, w).

(** [if x, err := m; err != nil { return err }; k]. *)
Notation "x '←?' m ';' k" :=
  (mbind (M := M) (λ r, match r with Ok x => k | Err e => mret (Err e) end) m)
  (at level 20, m at level 100, k at level 200, only parsing) : go_scope.

(** [if x, err := m; err != nil { h err; return }; k]. *)
Notation "x '←!' m 'orelse' h ';' k" :=
  (mbind (M := M) (λ r, match r with Ok x => k | Err e => h e end) m)
  (at level 20, m at level 100, h at level 100, k at level 200, only parsing) : go_scope.

(** [if err := m; err != nil { return err }; k]. *)
Notation "'check' m ';' k" :=
  (mbind (M := M) (λ r, match r with None => k | Some e => mret (Err e) end) m)
  (at level 20, m at level 100, k at level 200, only parsing) : go_scope.

Definition err_of (o : option error) : result unit :=
  match o with None => Ok tt | Some e => Err e end.

(** ** The environment *)

(** Why a context has ended: [context.DeadlineExceeded], or
    [context.Canceled] with [context.Cause]'s error. *)
Inductive ctxErr := DeadlineExceeded | Canceled (cause : error).

Record Env := mkEnv {
  (* os.File.Write on the update log: None when it takes all bytes, or the
     number it took before it failed *)
  env_logWriteErr : list event → string → option nat;
  (* os.ReadFile on the update log fails *)
  env_logReadFails : list event → bool;
  env_ctxErr : list event → option ctxErr;
  env_nowUnix : list event → Z;
  (* tofu: what it prints, its error, its effect on the files, its results *)
  env_tfOutput : list event → TfCall → list string;
  env_tfErr : list event → TfCall → option error;
  env_tfFiles : list event → TfCall → gmap string string → gmap string string;
  env_tfChanged : list event → bool;
  env_tfOutputs : list event → gmap string OutputMeta;
  env_tfWorkspaces : list event → list string * string;
  (* git *)
  env_git : list event → GitCall → string * option error;
  env_gitFiles : list event → GitCall → gmap string string → gmap string string;
  (* the operating system's other failures, by operation and path; the number
     of bytes that a failing write left in a file it could open *)
  env_osErr : list event → string → string → option error;
  env_osWritten : list event → string → option nat;
  (* the environment of the process, and the crypto instance *)
  env_lookupEnv : string → option string;
  env_crypto : Decryptor;
  (* fmt's %v on a float, json.Marshal, and how two versions compare (None: the
     first is not one; the second is always a literal that is) *)
  env_fmtFloat : spec_float → string;
  env_jsonMarshal : any → result string;
  env_jsonUnmarshal : string → option any;
  env_jsonIndent : string → string;
  env_versionCompare : string → string → option comparison;
  (* gogitssh.NewPublicKeysFromFile on the contents of a file *)
  env_parseKey : string → option error;
  (* the order in which Go ranges over the variables *)
  env_varOrder : list event → gmap string InputVariable → list (string * InputVariable);
  env_envOrder : list event → gmap string string → list (string * string);
  (* the artifact endpoints *)
  env_download : list event → string → string * option error;
  env_upload : list event → string → string → option error;
  (* a script, by its bash arguments: its output, its error, its effect on the
     files; the name os.CreateTemp picks in a directory *)
  env_script : list event → list string → string * option error;
  env_scriptFiles : list event → list string → gmap string string → gmap string string;
  env_tempName : list event → string → string;
}.

Section RunM.
Context (env : Env).

Definition ask {A} (f : list event → A) : M A := gets (λ w, f (trace w)).

(** ** runcontextinfo.go *)

(** [publishStatus]: the clone is deep (StatusHeap.v), so a value here. *)
Definition publishStatus : M unit := modify (λ w,
  emit (EvPublish (runStatus w)) (set_reportStatus (runStatus w) w)).

(** [reportedStatus] and [reportFailed], which the observer and the
    registration failure use. *)
Definition reportedStatus : M RunStatus := gets reportStatus.
Definition reportFailed : M unit := modify (λ w,
  set_reportStatus (set_Status FAILED (reportStatus w)) w).

(** ** worker.go: [fileContentOrEmpty] on the update log *)

Definition fileContentOrEmpty (startIdx endIdx : Z) : M string :=
  readFails ← ask (env_logReadFails env);
  if (readFails : bool) then mret ""
  else
    content ← gets logFile;
    match sslice content startIdx endIdx with
    | Some s => mret s
    | None => panic "slice bounds out of range"
    end.

(** ** tfcmd.go: the current step's messages *)

Definition setCurrentStepMessage (userMessage : option string) : M unit :=
  status ← gets runStatus;
  match currentStepStatus status with
  | None => mret tt
  | Some currentStep =>
      modify (λ w, match userMessage with
        | Some _ => set_runStatus (updateCurrentStep (set_step_UserMessage userMessage)
                      (runStatus w)) w
        | None => w end);;
      endIdx ← gets logSize;
      logs ← fileContentOrEmpty (step_LogStartIdx currentStep) endIdx;
      modify (λ w, set_runStatus
        (updateCurrentStep (set_step_SystemMessage (Some logs)) (runStatus w)) w)
  end.

Definition commitStatus : M unit := publishStatus.

(** ** logwrapper.go *)

(** The callback [assignOutput] installs; before, it does nothing. *)
Definition logCallback : M unit :=
  set ← gets callbackSet;
  if (set : bool) then setCurrentStepMessage None;; commitStatus else mret tt.

Definition logwrap_Write (p : string) : M (Z * option error) :=
  failure ← ask (λ t, env_logWriteErr env t p);
  match failure with
  | Some k =>
      let taken := stake k p in
      modify (λ w, emit (EvLog taken) (set_log (logFile w +:+ taken) (logSize w) w));;
      mret (slen taken, Some (errNew "write failed"))
  | None =>
      modify (λ w, emit (EvLog p)
        (set_log (logFile w +:+ p) (logSize w + slen p)%Z w));;
      logCallback;;
      mret (slen p, None)
  end.

Definition PrintlnToUpdateLogs (msg : string) : M unit :=
  logwrap_Write (msg +:+ LF);; mret tt.

(** The operator's local log is not modelled, so this is the update log's part. *)
Definition PrintlnToLocalAndUpdateLogs (msg : string) : M unit := PrintlnToUpdateLogs msg.

(** ** tfexec *)

Fixpoint writeChunks (chunks : list string) : M unit :=
  match chunks with
  | [] => mret tt
  | c :: cs => logwrap_Write c;; writeChunks cs
  end.

(** The plan file that a call reads when it starts, and the one that it has
    written when it is over. *)
Definition planRead (call : TfCall) : option string :=
  match call with TfApply dirOrPlan _ => dirOrPlan | _ => None end.
Definition planWritten (call : TfCall) : option string :=
  match call with TfPlan out _ => Some out | _ => None end.
Definition notePlan (path : option string) : M unit := modify (λ w,
  match path with Some p => emit (EvPlanFile p (files w !! p)) w | None => w end).

(** A run of tofu: its standard output and error reach the log wrapper as
    they come, one write at a time (its mutex). *)
Definition runTf (call : TfCall) : M (option error) :=
  t ← gets trace;
  modify (emit (EvTf call));;
  notePlan (planRead call);;
  writeChunks (env_tfOutput env t call);;
  modify (λ w, set_files (env_tfFiles env t call (files w)) w);;
  notePlan (planWritten call);;
  mret (env_tfErr env t call).

(** ** Package os, on the file system of the run *)

Definition osFails (op path : string) : M (option error) :=
  ask (λ t, env_osErr env t op path).

Definition os_ReadFileM (path : string) : M (result string) :=
  failure ← osFails "read" path;
  fs ← gets files;
  mret match failure with
  | Some e => Err e
  | None => match fs !! path with Some c => Ok c | None => Err (errNotExist path) end
  end.

Definition os_WriteFile (path content : string) : M (option error) :=
  failure ← osFails "write" path;
  match failure with
  | None =>
      modify (λ w, emit (EvFile path content) (set_files (<[path := content]> (files w)) w));;
      mret None
  | Some e =>
      written ← ask (λ t, env_osWritten env t path);
      modify (λ w, match written with
        | Some n => emit (EvFile path (stake n content))
                      (set_files (<[path := stake n content]> (files w)) w)
        | None => w end);;
      mret (Some e)
  end.

Definition pathExists (path : string) (w : World) : bool :=
  exists_ (files w) path || bool_decide (path ∈ dirs w).

Definition os_Stat (path : string) : M (option error) :=
  failure ← osFails "stat" path;
  present ← gets (pathExists path);
  mret match failure with
  | Some e => Some e
  | None => if (present : bool) then None else Some (errNotExist path)
  end.

Definition os_Mkdir (path : string) : M (option error) :=
  failure ← osFails "mkdir" path;
  present ← gets (pathExists path);
  match failure with
  | Some e => mret (Some e)
  | None =>
      if (present : bool) then mret (Some (errNew "file exists"))
      else modify (λ w, set_dirs ({[path]} ∪ dirs w) w);; mret None
  end.

(** A failing removal leaves the directory as it is here; its callers ignore
    the error, and the temporary clone is not read afterwards. *)
Definition os_RemoveAll (path : string) : M (option error) :=
  failure ← osFails "remove" path;
  match failure with
  | Some e => mret (Some e)
  | None =>
      modify (λ w, set_files (removeAll (files w) path) (set_dirs (dirs w ∖ {[path]}) w));;
      mret None
  end.
End RunM.

Arguments publishStatus /.
