(* ===== verification/Example.v ===== *)
(** * Example: a concrete environment to evaluate the commands in

    An environment in which every external call succeeds, and the variants and
    worlds that the witnesses of the theorems run on. *)

From S2P Require Import Prelude GoPath Hcl Status TfConfig Run RunM.

Definition tfPrints (call : TfCall) : list string :=
  match call with TfSetEnv _ => [] | _ => ["tofu" +:+ LF] end.

(** [tfErr], [getErr]: which tofu calls fail; everything else succeeds, and a
    plan writes its plan file. *)
Definition exampleEnvOf (crypto : Decryptor) (tfErr : TfCall → option error) : Env := {|
  env_logWriteErr _ _ := None;
  env_logReadFails _ := false;
  env_ctxErr _ := None;
  env_nowUnix _ := 1700000000%Z;
  env_tfOutput _ call := tfPrints call;
  env_tfErr _ call := tfErr call;
  env_tfFiles _ call fs :=
    match call with TfPlan out _ => <[out := "PLAN"]> fs | _ => fs end;
  env_tfChanged _ := true;
  env_tfOutputs _ := ∅;
  env_tfWorkspaces _ := ([], "default");
  env_git _ call := match call with GitHead => ("h0", None) | _ => ("h1", None) end;
  env_gitFiles _ call fs :=
    match call with
    | GitClone _ dir _ => <[dir +:+ "/main.tf" := "resource"]> fs
    | _ => fs
    end;
  env_osErr _ _ _ := None;
  env_osWritten _ _ := None;
  env_lookupEnv k := if decide (k = "HOME") then Some "/home/tofu" else None;
  env_crypto := crypto;
  env_fmtFloat _ := "0";
  env_jsonMarshal _ := Ok "[]";
  env_jsonUnmarshal t := Some (anyStr (TrimSuffix (TrimPrefix t DQ) DQ));
  env_jsonIndent t := t;
  env_versionCompare _ _ := Some Gt;
  env_parseKey _ := None;
  env_varOrder _ := map_to_list;
  env_envOrder _ := map_to_list;
  env_download _ _ := ("PLAN", None);
  env_upload _ _ _ := None;
  env_script _ _ := ("", None);
  env_scriptFiles _ _ fs := fs;
  env_tempName _ dir := dir +:+ "/meshstack-user-message-1.txt";
|}.

Definition exampleEnvWith : (TfCall → option error) → Env := exampleEnvOf None.

Definition exampleEnv : Env := exampleEnvWith (λ _, None).

Definition exampleCfg : TfRunnerConfig :=
  mkTfRunnerConfig 30 "/work" "/install" (mkRunApiConfig "http://mesh" "u" "p" "" "")
    false "" "" 5 5 "runner-1".

Definition exampleInfo : RunContextInfo := {|
  runId := "run-1"; runJsonBase64 := "e30="; bbId := "bb-1"; workspaceIdentifier := "ws";
  asyncRun := false; useMeshBackendFallback := true; workingDirectory := "/wd";
  artifactFilePath := "/wd/plan.tfplan"; runToken := "token"; meshstackBaseUrl := "";
  tfStateLockUrl := "" |}.

Definition exampleParams (mode artifact upload : string) : TfCmdParams := {|
  buildingBlockId := "bb-1"; tfVersion := "1.9.0"; suggestedWorkspace := "ws._._:bb-1";
  vars := {["region" := mkVariable (anyStr "eu") false DATA_TYPE_STRING false;
            "TOKEN" := mkVariable (anyStr "t") true DATA_TYPE_STRING false]};
  source := mkGitSource "https://git/repo" None (Some "main") NoAuth;
  preRunScript := None; runMode := mode; artifactUrl := artifact; artifactUploadUrl := upload |}.

Definition exampleStatus : RunStatus :=
  mkRunStatus "run-1" IN_PROGRESS [] (-1) None None.

Definition exampleWorld : World :=
  mkWorld exampleStatus exampleStatus "" 0 false true ∅ ∅ [].
