(* ===== verification/Frame.v ===== *)
(** * Frame: what the operations of a Terraform command may change

    The program logic of the [M] monad: weakest preconditions that let only
    some panics pass ([wp]), preorders on worlds that a computation stays within
    ([Keeps]), the invariant on the update log that makes every slice of it
    legal ([LogOk]), and the frame of the operations between two moves of the
    step pointer ([Quiet]): they leave the skeleton of the status alone. *)

From S2P Require Import Prelude GoPath Status TfConfig Run RunM.

(** ** Weakest preconditions *)

(** The panics that a proof lets pass, by what they are called: none, those
    whose cause it names, or all of them. *)
Class PanicPolicy := lets_panic : string → Prop.

Definition wp {policy : PanicPolicy} {A} (m : M A) (w : World) (Q : A → World → Prop) : Prop :=
  match m w with
  | (Done a, w') => Q a w'
  | (Panicked msg, _) => lets_panic msg
  end.

Section Wp.
Context {policy : PanicPolicy} {A B : Type}.

Lemma wp_ret (a : A) w Q : Q a w → wp (mret a) w Q.
Proof. done. Qed.

Lemma wp_bind (m : M A) (k : A → M B) w Q :
  wp m w (λ a w', wp (k a) w' Q) → wp (m ≫= k) w Q.
Proof. unfold wp, mbind, M_bind. by destruct (m w) as [[a|msg] w']. Qed.

Lemma wp_gets (f : World → A) w Q : Q (f w) w → wp (gets f) w Q.
Proof. done. Qed.

Lemma wp_modify (f : World → World) w Q : Q tt (f w) → wp (modify f) w Q.
Proof. done. Qed.

Lemma wp_mono (m : M A) w (Q Q' : A → World → Prop) :
  wp m w Q → (∀ a w', Q a w' → Q' a w') → wp m w Q'.
Proof. unfold wp. destruct (m w) as [[a|msg] w']; eauto. Qed.

Lemma wp_panic msg w (Q : A → World → Prop) : lets_panic msg → wp (panic msg) w Q.
Proof. done. Qed.

Lemma wp_done (m : M A) w Q a w' : wp m w Q → m w = (Done a, w') → Q a w'.
Proof. unfold wp. intros Hm Hr. by rewrite Hr in Hm. Qed.

(** How a computation ends. *)
Lemma wp_ends (m : M A) w Q :
  wp m w Q → (∃ a w', m w = (Done a, w') ∧ Q a w') ∨ ∃ msg w', m w = (Panicked msg, w') ∧ lets_panic msg.
Proof. unfold wp. destruct (m w) as [[a|msg] w']; eauto 6. Qed.
End Wp.

Lemma M_bind_Done {A B} (m : M A) (k : A → M B) w b w' :
  (m ≫= k) w = (Done b, w') ↔ ∃ a w1, m w = (Done a, w1) ∧ k a w1 = (Done b, w').
Proof. unfold mbind, M_bind. destruct (m w) as [[a|msg] w1]; naive_solver. Qed.

Lemma M_ret_Done {A} (a b : A) w w' : mret (M := M) a w = (Done b, w') ↔ a = b ∧ w = w'.
Proof. unfold mret, M_ret. naive_solver. Qed.

(** ** Preorders that computations stay within *)

Definition Keeps {A} (R : relation World) (m : M A) : Prop := ∀ w, R w (m w).2.

Section Keeps.
Context {A B : Type} (R : relation World) `{!PreOrder R}.

Lemma Keeps_ret (a : A) : Keeps R (mret a).
Proof. intros w. simpl. reflexivity. Qed.

Lemma Keeps_panic msg : Keeps R (panic (A := A) msg).
Proof. intros w. simpl. reflexivity. Qed.

Lemma Keeps_bind (m : M A) (k : A → M B) :
  Keeps R m → (∀ a, Keeps R (k a)) → Keeps R (m ≫= k).
Proof.
  intros Hm Hk w. unfold mbind, M_bind. specialize (Hm w).
  destruct (m w) as [[a|msg] w']; simpl in *; [|done].
  etrans; [exact Hm|]. apply Hk.
Qed.

Lemma Keeps_gets (f : World → A) : Keeps R (gets f).
Proof. intros w. simpl. reflexivity. Qed.

Lemma Keeps_modify (f : World → World) : (∀ w, R w (f w)) → Keeps R (modify f).
Proof. intros Hf w. apply Hf. Qed.
End Keeps.

(** ** The trace *)

(** The events added to a trace, each allowed given the events before it. *)
Inductive extends (P : event → list event → Prop) (past : list event) : list event → Prop :=
| extends_nil : extends P past past
| extends_cons ev tr : extends P past tr → P ev tr → extends P past (ev :: tr).

#[export] Instance extends_trans P : Transitive (λ x y, extends P x y).
Proof. intros x y z Hxy Hyz. induction Hyz; eauto using extends. Qed.

Definition grows (P : event → list event → Prop) (w w' : World) : Prop :=
  extends P (trace w) (trace w').

#[export] Instance grows_preorder P : PreOrder (grows P).
Proof. split; [intros w; constructor|]. intros x y z. apply extends_trans. Qed.

Lemma extends_mono (P Q : event → list event → Prop) x y :
  (∀ ev past, P ev past → Q ev past) → extends P x y → extends Q x y.
Proof. intros HPQ. induction 1; constructor; auto. Qed.

Lemma extends_app P x y : extends P x y → ∃ evs, y = evs ++ x.
Proof.
  induction 1 as [|ev tr _ [evs ->]]; [by exists []|]. by exists (ev :: evs).
Qed.

(** Each event of a trace that grew from nothing was allowed when it came. *)
Lemma extends_inv P post ev past :
  extends P [] (post ++ ev :: past) → P ev past.
Proof.
  revert ev past. induction post as [|e post IH]; intros ev past H; inversion H; subst; eauto.
Qed.

Lemma extends_Forall P past tr (C : event → Prop) :
  (∀ ev p, P ev p → C ev) → extends P past tr → Forall C past → Forall C tr.
Proof. intros HC. induction 1; [done|]. intros. constructor; eauto. Qed.

(** A computation that only adds events of the class [C]. *)
Definition Emits (C : event → Prop) {A} (m : M A) : Prop :=
  Keeps (grows (λ ev _, C ev)) m.

Lemma Emits_ret C {A} (a : A) : Emits C (mret a).
Proof. apply Keeps_ret, _. Qed.

Lemma Emits_gets C {A} (f : World → A) : Emits C (gets f).
Proof. apply Keeps_gets, _. Qed.

Lemma Emits_panic C {A} msg : Emits C (panic (A := A) msg).
Proof. apply Keeps_panic, _. Qed.

Lemma Emits_bind C {A B} (m : M A) (k : A → M B) :
  Emits C m → (∀ a, Emits C (k a)) → Emits C (m ≫= k).
Proof. apply Keeps_bind, _. Qed.

Lemma Emits_mono (C D : event → Prop) {A} (m : M A) :
  (∀ ev, C ev → D ev) → Emits C m → Emits D m.
Proof. intros HCD Hm w. eapply extends_mono; [|apply Hm]. simpl. auto. Qed.

Lemma Keeps_grows_of_Emits (C : event → Prop) P {A} (m : M A) :
  (∀ ev past, C ev → P ev past) → Emits C m → Keeps (grows P) m.
Proof. intros HCP Hm w. eapply extends_mono; [|apply Hm]. simpl. auto. Qed.

(** ** The update log *)

Record LogOk (w : World) : Prop := {
  logok_size : (0 ≤ logSize w ≤ slen (logFile w))%Z;
  logok_steps : Forall (λ s, 0 ≤ step_LogStartIdx s ≤ logSize w)%Z (Steps (runStatus w));
}.

(** ** The skeleton of a status *)

Definition stepSkeleton (s : StepStatus) :=
  (step_Name s, step_DisplayName s, step_Status s, step_LogStartIdx s).
Definition skeleton (r : RunStatus) :=
  (RunId r, Status r, CurrentStepIndex r, ChangesDetected r, stepSkeleton <$> Steps r).

Lemma skeleton_inv r r' :
  skeleton r = skeleton r' →
  RunId r = RunId r' ∧ Status r = Status r' ∧ CurrentStepIndex r = CurrentStepIndex r' ∧
  ChangesDetected r = ChangesDetected r' ∧ stepSkeleton <$> Steps r = stepSkeleton <$> Steps r'.
Proof. unfold skeleton. intros Hs. by simplify_eq. Qed.

Lemma skeleton_length r r' : skeleton r = skeleton r' → length (Steps r) = length (Steps r').
Proof.
  intros (_ & _ & _ & _ & Hl)%skeleton_inv. apply (f_equal length) in Hl.
  by rewrite !length_fmap in Hl.
Qed.

Lemma skeleton_currentIdx r r' : skeleton r = skeleton r' → currentIdx r = currentIdx r'.
Proof.
  intros Hs. pose proof (skeleton_length _ _ Hs) as Hl. unfold currentIdx.
  apply skeleton_inv in Hs as (_ & _ & -> & _). by rewrite Hl.
Qed.

Lemma skeleton_starts (P : Z → Prop) r r' :
  skeleton r = skeleton r' →
  Forall (λ s, P (step_LogStartIdx s)) (Steps r) → Forall (λ s, P (step_LogStartIdx s)) (Steps r').
Proof.
  intros (_ & _ & _ & _ & Hs)%skeleton_inv.
  change (λ s, P (step_LogStartIdx s)) with ((λ t : string * string * ExecutionStatus * Z, P t.2) ∘ stepSkeleton).
  rewrite <-!Forall_fmap. by rewrite Hs.
Qed.

(** Updates of the current step that keep its skeleton keep the status's. *)
Lemma skeleton_updateCurrentStep f r :
  (∀ s, stepSkeleton (f s) = stepSkeleton s) → skeleton (updateCurrentStep f r) = skeleton r.
Proof.
  intros Hf. unfold updateCurrentStep. destruct (currentIdx r) as [i|]; [|done].
  unfold skeleton; simpl. f_equal. apply list_eq. intros j.
  rewrite !list_lookup_fmap. destruct (decide (i = j)) as [->|Hij].
  - rewrite list_lookup_alter, decide_True by done. destruct (Steps r !! j); [apply (f_equal Some), Hf|done].
  - by rewrite list_lookup_alter_ne.
Qed.

Lemma updateCurrentStep_other f r i :
  currentIdx r ≠ Some i → Steps (updateCurrentStep f r) !! i = Steps r !! i.
Proof.
  intros Hi. unfold updateCurrentStep. destruct (currentIdx r) as [j|]; [|done].
  simpl. apply list_lookup_alter_ne. congruence.
Qed.

(** ** Quiet computations *)

Definition quietEvent (r : RunStatus) (ev : event) : Prop :=
  match ev with EvPublish s => skeleton s = skeleton r | _ => True end.

Record evolves (w w' : World) : Prop := {
  ev_skeleton : skeleton (runStatus w') = skeleton (runStatus w);
  ev_others : ∀ i, currentIdx (runStatus w) ≠ Some i →
    Steps (runStatus w') !! i = Steps (runStatus w) !! i;
  ev_trace : extends (λ ev _, quietEvent (runStatus w) ev) (trace w) (trace w');
  ev_log : ∃ more, logFile w' = logFile w +:+ more;
  ev_logSize : (logSize w ≤ logSize w')%Z;
}.

#[export] Instance evolves_preorder : PreOrder evolves.
Proof.
  split.
  - intros w. split; [done|done|constructor| |lia]. exists "". by rewrite string_app_nil_r.
  - intros x y z [S1 O1 T1 [m1 L1] Z1] [S2 O2 T2 [m2 L2] Z2]. split.
    + congruence.
    + intros i Hi. rewrite O2, O1; [done..|]. by rewrite (skeleton_currentIdx _ _ S1).
    + eapply extends_trans; [exact T1|]. eapply extends_mono; [|exact T2].
      intros [] _; simpl; congruence.
    + exists (m1 +:+ m2). by rewrite L2, L1, string_app_assoc.
    + lia.
Qed.

Definition Quiet {policy : PanicPolicy} {A} (m : M A) : Prop :=
  ∀ w, LogOk w → wp m w (λ _ w', LogOk w' ∧ evolves w w').

Section Quiet.
Context {policy : PanicPolicy} {A B : Type}.

Lemma Quiet_ret (a : A) : Quiet (mret a).
Proof. intros w Hw. apply wp_ret. by split. Qed.

Lemma Quiet_panic msg : lets_panic msg → Quiet (panic (A := A) msg).
Proof. intros Hp w Hw. by apply wp_panic. Qed.

Lemma Quiet_bind (m : M A) (k : A → M B) :
  Quiet m → (∀ a, Quiet (k a)) → Quiet (m ≫= k).
Proof.
  intros Hm Hk w Hw. apply wp_bind. eapply wp_mono; [by apply Hm|].
  intros a w1 [Hw1 E1]. eapply wp_mono; [by apply Hk|].
  intros b w2 [Hw2 E2]. split; [done|]. by etrans.
Qed.

Lemma Quiet_gets (f : World → A) : Quiet (gets f).
Proof. intros w Hw. apply wp_gets. by split. Qed.

Lemma Quiet_modify (f : World → World) :
  (∀ w, LogOk w → LogOk (f w) ∧ evolves w (f w)) → Quiet (modify f).
Proof. intros Hf w Hw. apply wp_modify. by apply Hf. Qed.

(** Changes to nothing but files, directories, the workspace flag and the trace. *)
Lemma Quiet_modify_aside (f : World → World) :
  (∀ w, runStatus (f w) = runStatus w ∧ logFile (f w) = logFile w ∧ logSize (f w) = logSize w ∧
        extends (λ ev _, quietEvent (runStatus w) ev) (trace w) (trace (f w))) →
  Quiet (modify f).
Proof.
  intros Hf. apply Quiet_modify. intros w [Hs Hp].
  destruct (Hf w) as (E1 & E2 & E3 & E4). split.
  - split; [by rewrite E2, E3|by rewrite E1, E3].
  - split; rewrite ?E1, ?E2, ?E3; try done. exists "". by rewrite string_app_nil_r.
Qed.
End Quiet.

Lemma LogOk_updateCurrentStep f w :
  (∀ s, stepSkeleton (f s) = stepSkeleton s) → LogOk w →
  LogOk (set_runStatus (updateCurrentStep f (runStatus w)) w).
Proof.
  intros Hf [Hs Hp]. split; [done|]. simpl.
  eapply (skeleton_starts (λ z, 0 ≤ z ≤ logSize w)%Z); [|exact Hp].
  by rewrite skeleton_updateCurrentStep.
Qed.

Lemma evolves_updateCurrentStep f w :
  (∀ s, stepSkeleton (f s) = stepSkeleton s) →
  evolves w (set_runStatus (updateCurrentStep f (runStatus w)) w).
Proof.
  intros Hf. split; simpl; [by apply skeleton_updateCurrentStep|
    intros i; by apply updateCurrentStep_other|constructor| |lia].
  exists "". by rewrite string_app_nil_r.
Qed.

Lemma Quiet_updateCurrentStep {policy : PanicPolicy} f :
  (∀ s, stepSkeleton (f s) = stepSkeleton s) →
  Quiet (modify (λ w, set_runStatus (updateCurrentStep f (runStatus w)) w)).
Proof.
  intros Hf. apply Quiet_modify. intros w Hw.
  split; [by apply LogOk_updateCurrentStep|by apply evolves_updateCurrentStep].
Qed.

(** ** Structural automation *)

Create HintDb quiet discriminated.
Create HintDb emits discriminated.

(** Walks through the binds and the case distinctions of a computation; the
    leaves are lemmas of the database. *)
Ltac quiet_step :=
  first
    [ solve [auto with quiet nocore]
    | apply Quiet_ret | apply Quiet_gets
    | apply Quiet_bind; [|intros ?]
    | match goal with |- Quiet (match ?x with _ => _ end) => destruct x end
    | match goal with |- Quiet (let _ := _ in _) => cbv zeta end ].
Ltac quiet := repeat quiet_step.

Ltac emits_step :=
  first
    [ solve [auto with emits nocore]
    | apply Emits_ret | apply Emits_gets | apply Emits_panic
    | apply Emits_bind; [|intros ?]
    | match goal with |- Emits _ (match ?x with _ => _ end) => destruct x end
    | match goal with |- Emits _ (let _ := _ in _) => cbv zeta end ].
Ltac emits := repeat emits_step.

(** ** Classes of events *)

Class AllowsLog (C : event → Prop) : Prop := {
  allows_log chunk : C (EvLog chunk);
  allows_publish s : C (EvPublish s);
}.
Class AllowsFile (C : event → Prop) : Prop := allows_file p c : C (EvFile p c).
Class AllowsGit (C : event → Prop) : Prop := allows_git call : C (EvGit call).

(** ** The operations of RunM *)

Section Ops.
Context {policy : PanicPolicy} (env : Env) (C : event → Prop).

Lemma Emits_modify_same (f : World → World) :
  (∀ w, trace (f w) = trace w) → Emits C (modify f).
Proof. intros Hf. apply Keeps_modify. intros w. unfold grows. rewrite Hf. constructor. Qed.

Lemma Emits_modify_emit (f : World → World) ev :
  C ev → (∀ w, trace (f w) = ev :: trace w) → Emits C (modify f).
Proof.
  intros Hev Hf. apply Keeps_modify. intros w. unfold grows. rewrite Hf. by constructor; [constructor|].
Qed.

Lemma Quiet_ask {A} (f : list event → A) : Quiet (ask f).
Proof. apply Quiet_gets. Qed.
Lemma Emits_ask {A} (f : list event → A) : Emits C (ask f).
Proof. apply Keeps_gets, _. Qed.

Lemma Quiet_osFails op p : Quiet (osFails env op p).
Proof. apply Quiet_gets. Qed.
Lemma Emits_osFails op p : Emits C (osFails env op p).
Proof. apply Keeps_gets, _. Qed.

Lemma currentStepStatus_start (r : RunStatus) s (P : StepStatus → Prop) :
  currentStepStatus r = Some s → Forall P (Steps r) → P s.
Proof.
  unfold currentStepStatus. intros Hs HF. destruct (currentIdx r) as [i|]; [|done].
  by eapply Forall_lookup_1.
Qed.

(** The slice a step's messages are read from is always in bounds. *)
Lemma wp_fileContentOrEmpty w s Q :
  LogOk w → (0 ≤ s ≤ logSize w)%Z →
  (∀ logs, logs = "" ∨ sslice (logFile w) s (logSize w) = Some logs → Q logs w) →
  wp (fileContentOrEmpty env s (logSize w)) w Q.
Proof.
  intros [Hl _] Hs HQ. unfold fileContentOrEmpty.
  apply wp_bind, wp_gets. destruct (env_logReadFails env (trace w)); [apply wp_ret; auto|].
  apply wp_bind, wp_gets.
  destruct (sslice_is_Some (logFile w) s (logSize w)) as [logs Hlogs]; [lia..|].
  rewrite Hlogs. apply wp_ret. auto.
Qed.

Lemma Quiet_setCurrentStepMessage userMessage : Quiet (setCurrentStepMessage env userMessage).
Proof.
  intros w Hw. unfold setCurrentStepMessage. apply wp_bind, wp_gets.
  destruct (currentStepStatus (runStatus w)) as [cur|] eqn:Hcur; [|by apply wp_ret].
  set (w1 := match userMessage with
    | Some _ => set_runStatus (updateCurrentStep (set_step_UserMessage userMessage) (runStatus w)) w
    | None => w end).
  assert (LogOk w1 ∧ evolves w w1) as [Hw1 E1].
  { unfold w1. destruct userMessage; [|done].
    split; [by apply LogOk_updateCurrentStep|by apply evolves_updateCurrentStep]. }
  apply wp_bind, wp_modify. fold w1. apply wp_bind, wp_gets, wp_bind.
  assert (logSize w1 = logSize w) as Hsz by (unfold w1; by destruct userMessage).
  apply wp_fileContentOrEmpty; [done| |].
  { rewrite Hsz.
    apply (currentStepStatus_start _ _ (λ s, 0 ≤ step_LogStartIdx s ≤ logSize w)%Z Hcur), Hw. }
  intros logs _. apply wp_modify. split; [by apply LogOk_updateCurrentStep|].
  etrans; [exact E1|]. by apply evolves_updateCurrentStep.
Qed.

Lemma Quiet_commitStatus : Quiet commitStatus.
Proof.
  apply Quiet_modify. intros w [Hs Hp]. split; [by split|].
  split; simpl; try done; [|by exists ""; rewrite string_app_nil_r].
  constructor; [constructor|done].
Qed.

Lemma Quiet_logCallback : Quiet (logCallback env).
Proof.
  apply Quiet_bind; [apply Quiet_gets|]. intros []; [|apply Quiet_ret].
  apply Quiet_bind; [apply Quiet_setCurrentStepMessage|]. intros _. apply Quiet_commitStatus.
Qed.

Lemma Quiet_append (f : World → World) taken n :
  (0 ≤ n ≤ slen taken)%Z →
  (∀ w, f w = emit (EvLog taken) (set_log (logFile w +:+ taken) (logSize w + n)%Z w)) →
  Quiet (modify f).
Proof.
  intros Hn Hf. apply Quiet_modify. intros w [Hs Hp]. rewrite Hf. split.
  - split; simpl; [rewrite slen_app; lia|]. eapply Forall_impl; [|exact Hp]. simpl. lia.
  - split; simpl; try done; [|by exists taken|lia]. by constructor; [constructor|].
Qed.

Lemma Quiet_logwrap_Write p : Quiet (logwrap_Write env p).
Proof.
  apply Quiet_bind; [apply Quiet_ask|]. intros [k|].
  - apply Quiet_bind; [|intros; apply Quiet_ret]. apply (Quiet_append _ (stake k p) 0).
    + pose proof (slen_nonneg (stake k p)). lia.
    + intros w. by rewrite Z.add_0_r.
  - apply Quiet_bind; [|intros _; apply Quiet_bind; [apply Quiet_logCallback|intros; apply Quiet_ret]].
    apply (Quiet_append _ p (slen p)); [|done]. pose proof (slen_nonneg p). lia.
Qed.

Lemma Quiet_PrintlnToUpdateLogs msg : Quiet (PrintlnToUpdateLogs env msg).
Proof. apply Quiet_bind; [apply Quiet_logwrap_Write|]. intros. apply Quiet_ret. Qed.

Lemma Quiet_writeChunks chunks : Quiet (writeChunks env chunks).
Proof.
  induction chunks as [|c cs IH]; [apply Quiet_ret|].
  apply Quiet_bind; [apply Quiet_logwrap_Write|]. by intros _.
Qed.

Lemma Quiet_modify_emit (f : World → World) ev :
  (∀ s, ev ≠ EvPublish s) →
  (∀ w, runStatus (f w) = runStatus w ∧ logFile (f w) = logFile w ∧ logSize (f w) = logSize w ∧
        trace (f w) = ev :: trace w) →
  Quiet (modify f).
Proof.
  intros Hev Hf. apply Quiet_modify_aside. intros w. destruct (Hf w) as (?&?&?&Ht).
  split_and!; [done..|]. rewrite Ht. constructor; [constructor|]. destruct ev; naive_solver.
Qed.

Lemma Quiet_modify_same (f : World → World) :
  (∀ w, runStatus (f w) = runStatus w ∧ logFile (f w) = logFile w ∧ logSize (f w) = logSize w ∧
        trace (f w) = trace w) →
  Quiet (modify f).
Proof.
  intros Hf. apply Quiet_modify_aside. intros w. destruct (Hf w) as (?&?&?&Ht).
  split_and!; [done..|]. rewrite Ht. constructor.
Qed.

Lemma Quiet_emit ev : (∀ s, ev ≠ EvPublish s) → Quiet (modify (emit ev)).
Proof. intros Hev. by apply (Quiet_modify_emit _ ev). Qed.

Lemma Quiet_set_files (f : World → gmap string string) : Quiet (modify (λ w, set_files (f w) w)).
Proof. by apply Quiet_modify_same. Qed.

Lemma Quiet_notePlan path : Quiet (notePlan path).
Proof.
  apply Quiet_modify_aside. intros w. destruct path as [p|]; simpl; split_and!; try done; [|constructor].
  by constructor; [constructor|].
Qed.

Lemma Quiet_runTf call : Quiet (runTf env call).
Proof.
  apply Quiet_bind; [apply Quiet_gets|]. intros t.
  apply Quiet_bind; [by apply Quiet_emit|]. intros _.
  apply Quiet_bind; [apply Quiet_notePlan|]. intros _.
  apply Quiet_bind; [apply Quiet_writeChunks|]. intros _.
  apply Quiet_bind; [apply Quiet_set_files|]. intros _.
  apply Quiet_bind; [apply Quiet_notePlan|]. intros _. apply Quiet_ret.
Qed.

Lemma Quiet_os_ReadFileM p : Quiet (os_ReadFileM env p).
Proof.
  apply Quiet_bind; [apply Quiet_osFails|]. intros. apply Quiet_bind; [apply Quiet_gets|].
  intros. apply Quiet_ret.
Qed.

Lemma Quiet_os_WriteFile p c : Quiet (os_WriteFile env p c).
Proof.
  apply Quiet_bind; [apply Quiet_osFails|]. intros [e|].
  - apply Quiet_bind; [apply Quiet_ask|]. intros [n|].
    + apply Quiet_bind; [|intros; apply Quiet_ret]. by apply (Quiet_modify_emit _ (EvFile p (stake n c))).
    + apply Quiet_bind; [|intros; apply Quiet_ret]. by apply Quiet_modify_same.
  - apply Quiet_bind; [|intros; apply Quiet_ret]. by apply (Quiet_modify_emit _ (EvFile p c)).
Qed.

Lemma Quiet_os_Stat p : Quiet (os_Stat env p).
Proof.
  apply Quiet_bind; [apply Quiet_osFails|]. intros. apply Quiet_bind; [apply Quiet_gets|].
  intros. apply Quiet_ret.
Qed.

Lemma Quiet_os_Mkdir p : Quiet (os_Mkdir env p).
Proof.
  apply Quiet_bind; [apply Quiet_osFails|]. intros. apply Quiet_bind; [apply Quiet_gets|].
  intros []; destruct a; try apply Quiet_ret.
  apply Quiet_bind; [|intros; apply Quiet_ret]. by apply Quiet_modify_same.
Qed.

Lemma Quiet_os_RemoveAll p : Quiet (os_RemoveAll env p).
Proof.
  apply Quiet_bind; [apply Quiet_osFails|]. intros [e|]; [apply Quiet_ret|].
  apply Quiet_bind; [|intros; apply Quiet_ret]. by apply Quiet_modify_same.
Qed.

(** Which events they add. *)
Context {HC : AllowsLog C}.

Lemma Emits_setCurrentStepMessage userMessage : Emits C (setCurrentStepMessage env userMessage).
Proof.
  apply Keeps_bind; [apply _|apply Keeps_gets, _|]. intros r.
  destruct (currentStepStatus r) as [cur|]; [|apply Keeps_ret, _].
  apply Keeps_bind; [apply _|by apply Emits_modify_same; intros; destruct userMessage|]. intros _.
  apply Keeps_bind; [apply _|apply Keeps_gets, _|]. intros z.
  apply Keeps_bind; [apply _| |by intros; apply Emits_modify_same].
  apply Keeps_bind; [apply _|apply Keeps_gets, _|]. intros []; [apply Keeps_ret, _|].
  apply Keeps_bind; [apply _|apply Keeps_gets, _|]. intros c.
  destruct (sslice _ _ _); [apply Keeps_ret, _|apply Keeps_panic, _].
Qed.

Lemma Emits_commitStatus : Emits C commitStatus.
Proof.
  apply Keeps_modify. intros w. constructor; [constructor|]. apply allows_publish.
Qed.

Lemma Emits_logwrap_Write p : Emits C (logwrap_Write env p).
Proof.
  apply Keeps_bind; [apply _|apply Keeps_gets, _|]. intros [k|].
  - apply Keeps_bind; [apply _| |intros; apply Keeps_ret, _].
    by apply (Emits_modify_emit _ (EvLog (stake k p))); [apply allows_log|].
  - apply Keeps_bind; [apply _| |intros _].
    { by apply (Emits_modify_emit _ (EvLog p)); [apply allows_log|]. }
    apply Keeps_bind; [apply _| |intros _; apply Keeps_ret, _].
    apply Keeps_bind; [apply _|apply Keeps_gets, _|]. intros []; [|apply Keeps_ret, _].
    apply Keeps_bind; [apply _|apply Emits_setCurrentStepMessage|]. intros _. apply Emits_commitStatus.
Qed.

Lemma Emits_PrintlnToUpdateLogs msg : Emits C (PrintlnToUpdateLogs env msg).
Proof. apply Keeps_bind; [apply _|apply Emits_logwrap_Write|]. intros. apply Keeps_ret, _. Qed.

Lemma Emits_writeChunks chunks : Emits C (writeChunks env chunks).
Proof.
  induction chunks as [|c cs IH]; [apply Keeps_ret, _|].
  apply Keeps_bind; [apply _|apply Emits_logwrap_Write|]. by intros _.
Qed.

Lemma Emits_notePlan path : (∀ p c, path = Some p → C (EvPlanFile p c)) → Emits C (notePlan path).
Proof.
  intros Hp. apply Keeps_modify. intros w. destruct path as [p|]; [|constructor].
  constructor; [constructor|]. by apply Hp.
Qed.

Lemma Emits_runTf call :
  C (EvTf call) → (∀ p c, planRead call = Some p ∨ planWritten call = Some p → C (EvPlanFile p c)) →
  Emits C (runTf env call).
Proof.
  intros Hc Hn. apply Keeps_bind; [apply _|apply Keeps_gets, _|]. intros t.
  apply Keeps_bind; [apply _|by apply (Emits_modify_emit _ (EvTf call))|]. intros _.
  apply Keeps_bind; [apply _|apply Emits_notePlan; auto|]. intros _.
  apply Keeps_bind; [apply _|apply Emits_writeChunks|]. intros _.
  apply Keeps_bind; [apply _|by apply Emits_modify_same|]. intros _.
  apply Keeps_bind; [apply _|apply Emits_notePlan; auto|]. intros _. apply Keeps_ret, _.
Qed.

Lemma Emits_os_ReadFileM p : Emits C (os_ReadFileM env p).
Proof.
  apply Keeps_bind; [apply _|apply Keeps_gets, _|]. intros.
  apply Keeps_bind; [apply _|apply Keeps_gets, _|]. intros. apply Keeps_ret, _.
Qed.

Lemma Emits_os_Stat p : Emits C (os_Stat env p).
Proof.
  apply Keeps_bind; [apply _|apply Keeps_gets, _|]. intros.
  apply Keeps_bind; [apply _|apply Keeps_gets, _|]. intros. apply Keeps_ret, _.
Qed.

Lemma Emits_os_Mkdir p : Emits C (os_Mkdir env p).
Proof.
  apply Keeps_bind; [apply _|apply Keeps_gets, _|]. intros [].
  all: apply Keeps_bind; [apply _|apply Keeps_gets, _|]; intros [].
  all: try apply Keeps_ret, _.
  apply Keeps_bind; [apply _|by apply Emits_modify_same|intros; apply Keeps_ret, _].
Qed.

Lemma Emits_os_RemoveAll p : Emits C (os_RemoveAll env p).
Proof.
  apply Keeps_bind; [apply _|apply Keeps_gets, _|]. intros [e|]; [apply Keeps_ret, _|].
  apply Keeps_bind; [apply _|by apply Emits_modify_same|intros; apply Keeps_ret, _].
Qed.

Context {HF : AllowsFile C}.

Lemma Emits_os_WriteFile p c : Emits C (os_WriteFile env p c).
Proof.
  apply Keeps_bind; [apply _|apply Keeps_gets, _|]. intros [e|].
  - apply Keeps_bind; [apply _|apply Keeps_gets, _|]. intros [n|].
    all: apply Keeps_bind; [apply _| |intros; apply Keeps_ret, _].
    + by apply (Emits_modify_emit _ (EvFile p (stake n c))); [apply allows_file|].
    + by apply Emits_modify_same.
  - apply Keeps_bind; [apply _| |intros; apply Keeps_ret, _].
    by apply (Emits_modify_emit _ (EvFile p c)); [apply allows_file|].
Qed.
End Ops.

#[export] Hint Resolve Quiet_osFails Quiet_ask Quiet_commitStatus Quiet_setCurrentStepMessage
  Quiet_logwrap_Write Quiet_PrintlnToUpdateLogs Quiet_writeChunks Quiet_runTf Quiet_os_ReadFileM
  Quiet_os_WriteFile Quiet_os_Stat Quiet_os_Mkdir Quiet_os_RemoveAll Quiet_set_files : quiet.
#[export] Hint Resolve Emits_osFails Emits_ask Emits_commitStatus Emits_setCurrentStepMessage
  Emits_logwrap_Write Emits_PrintlnToUpdateLogs Emits_writeChunks Emits_os_ReadFileM
  Emits_os_WriteFile Emits_os_Stat Emits_os_Mkdir Emits_os_RemoveAll : emits.
#[export] Hint Extern 1 (Quiet (PrintlnToLocalAndUpdateLogs _ _)) =>
  apply Quiet_PrintlnToUpdateLogs : quiet.
#[export] Hint Extern 1 (Emits _ (PrintlnToLocalAndUpdateLogs _ _)) =>
  apply Emits_PrintlnToUpdateLogs; apply _ : emits.
#[export] Hint Extern 1 (AllowsLog _) => apply _ : emits.
#[export] Hint Extern 1 (AllowsFile _) => apply _ : emits.
#[export] Hint Extern 1 (AllowsGit _) => apply _ : emits.

(** ** Computations that make and remove no directory *)

Definition sameDirs (w w' : World) : Prop := dirs w' = dirs w.
#[export] Instance sameDirs_preorder : PreOrder sameDirs.
Proof. split; [done|]. intros x y z ??. unfold sameDirs in *. congruence. Qed.

Create HintDb dirs discriminated.

Ltac keeps_dirs_step :=
  first
    [ solve [auto with dirs nocore]
    | apply (Keeps_ret _) | apply (Keeps_gets _) | apply (Keeps_panic _)
    | apply (Keeps_bind _); [|intros ?]
    | match goal with |- Keeps _ (match ?x with _ => _ end) => destruct x end
    | apply Keeps_modify; intros ?; repeat case_match; reflexivity ].
Ltac keeps_dirs := repeat keeps_dirs_step.

Lemma sameDirs_setCurrentStepMessage env m : Keeps sameDirs (setCurrentStepMessage env m).
Proof. unfold setCurrentStepMessage, fileContentOrEmpty, ask. keeps_dirs. Qed.
#[export] Hint Resolve sameDirs_setCurrentStepMessage : dirs.

Lemma sameDirs_logwrap_Write env p : Keeps sameDirs (logwrap_Write env p).
Proof. unfold logwrap_Write, logCallback, commitStatus, publishStatus, ask. keeps_dirs. Qed.
#[export] Hint Resolve sameDirs_logwrap_Write : dirs.
#[export] Hint Extern 1 (Keeps sameDirs (PrintlnToUpdateLogs _ _)) =>
  unfold PrintlnToUpdateLogs; apply Keeps_bind; [apply _|apply sameDirs_logwrap_Write|intros; apply (Keeps_ret _)] : dirs.
#[export] Hint Extern 1 (Keeps sameDirs (PrintlnToLocalAndUpdateLogs _ _)) =>
  unfold PrintlnToLocalAndUpdateLogs, PrintlnToUpdateLogs; apply Keeps_bind; [apply _|apply sameDirs_logwrap_Write|intros; apply (Keeps_ret _)] : dirs.

Lemma wp_Quiet_dirs {policy : PanicPolicy} {A} (m : M A) w :
  Quiet m → Keeps sameDirs m → LogOk w →
  wp m w (λ _ w', LogOk w' ∧ evolves w w' ∧ dirs w' = dirs w).
Proof.
  intros Hm Hd Hw. specialize (Hm w Hw). specialize (Hd w). unfold wp in *.
  destruct (m w) as [[a|] w']; [|done]. naive_solver.
Qed.

(** A quiet computation in the middle of a frame proof. *)
Lemma wp_Quiet_from {policy : PanicPolicy} {A} (m : M A) w0 w :
  Quiet m → evolves w0 w → LogOk w → wp m w (λ _ w', LogOk w' ∧ evolves w0 w').
Proof.
  intros Hm E Hw. eapply wp_mono; [by apply Hm|]. intros ? w' [? ?]. split; [done|]. by etrans.
Qed.

(** ** Computations that never panic, whatever the state of the log *)

Definition Total {A} (m : M A) : Prop := ∀ w, ∃ a, (m w).1 = Done a.

Lemma Total_bind {A B} (m : M A) (k : A → M B) : Total m → (∀ a, Total (k a)) → Total (m ≫= k).
Proof.
  intros Hm Hk w. unfold mbind, M_bind. destruct (Hm w) as [a Ha].
  destruct (m w) as [o w1]; simpl in Ha; subst o. apply Hk.
Qed.

Lemma Total_gets {A} (f : World → A) : Total (gets f).
Proof. intros w. by eexists. Qed.
Lemma Total_modify f : Total (modify f).
Proof. intros w. by eexists. Qed.
Lemma Total_ret {A} (a : A) : Total (mret a).
Proof. intros w. by eexists. Qed.

Ltac total :=
  repeat first
    [ assumption | apply Total_ret | apply Total_gets | apply Total_modify
    | apply Total_bind; [|intros ?]
    | match goal with |- Total (match ?x with _ => _ end) => destruct x end ].
