(* ===== verification/GitSource.v ===== *)
(** * GitSource: fetching the Terraform sources

    Models tf-block-runner/tfrun/gitsource.go, git.go, authNone.go and
    authSsh.go: preparing the authentication files, cloning (through go-git, or
    through the [git] command for Azure DevOps), checking out the ref, and
    moving the sources into the working directory. go-git is the [env_git]
    oracle; the host key callback that it calls back is a function of its own. *)

From S2P Require Import Prelude GoPath Status TfConfig Run RunM Frame.

Definition TMP_FILE_KNOWN_HOSTS := "known_hosts_tmp".
Definition TMP_FILE_SSH_CERT := "ssh_cert".
Definition ERR_MSG_AUTH_PREP := "Something went wrong while initializing the git authentication method. Please try again.".
Definition ERR_MSG_PREPARE := "An error occurred while preparing the SSH auth method. Please try again.".
Definition ERR_MSG_INVALID_KEY := "The provided SSH key is invalid. Please check the key and try again.".
Definition ERR_MSG_KNOWN_HOSTS_NO_MATCH := "No matching known_hosts entry found in the configuration for the target host and key. Please check the configured known_hosts and try again.".
Definition ERR_MSG_KNOWN_HOST_NONE_PROVIDED := "Built in known_host entries do no contain a match for your host. Please add a known host entry to your configuration.".
Definition ErrResolveGeneric : error := errNew "ssh_error_generic".
Definition ErrResolveNoExtraKnownHost : error := errNew "ssh_error_no_extra_known_host".
Definition AZURE_DEVOPS_DOMAIN := "dev.azure.com".
Definition TEMP_CLONE_DIR_PATH := "tmp-clone-meshstack".
Definition MSG_CLONE_SUCCESS := "Successfully cloned sources from your repository.".
Definition MSG_FILES_AQUISITTION_SUCCESS := "Successfully copied files from your repository to the working directory.".

Definition isErr (target : error) (e : error) : option unit :=
  if decide (e = target) then Some tt else None.

Definition toKnownHostsFileContent (kh : KnownHost) : string :=
  host kh +:+ " " +:+ key kh +:+ " " +:+ value kh +:+ LF.

(** ** The host key callback *)

Section HostKey.
(** [knownhosts.New] on a file: the check of a host name, remote address and
    public key that it returns. *)
Context {HostKey : Type}.
Context (knownhosts_New : string → result (HostKey → option error)).
Context (lookupEnv : string → option string).

Definition checkKnownHostsHolder (entry : option KnownHost) (dir : string) (k : HostKey)
    : option error :=
  match entry with
  | None => Some (errNew "no custom known_hosts defined")
  | Some _ =>
      match knownhosts_New (path_Join [dir; TMP_FILE_KNOWN_HOSTS]) with
      | Err e => Some e
      | Ok callback =>
          match callback k with
          | None => None
          | Some _ => Some (errNew "could not find a valid entry")
          end
      end
  end.

Definition checkKnownHostsEnv (k : HostKey) : option error :=
  let file := default "" (lookupEnv "SSH_KNOWN_HOSTS") in
  if decide (file = "") then Some (errNew "SSH_KNOWN_HOSTS not set")
  else match knownhosts_New file with
  | Err e => Some e
  | Ok callback =>
      match callback k with
      | None => None
      | Some e => Some (errNew ("failed using known_host from environment, due to following error: " +:+ Error e))
      end
  end.

Definition checkLocalKnownHostFile (k : HostKey) : option error :=
  match knownhosts_New (path_Join [default "" (lookupEnv "HOME"); ".ssh"; "known_hosts"]) with
  | Err e => Some e
  | Ok callback =>
      match callback k with
      | None => None
      | Some e => Some (errNew ("failed using global known_hosts file, due to following error: " +:+ Error e))
      end
  end.

Definition combinedKnownHostsKeyCallback (entry : option KnownHost) (dir : string) (k : HostKey)
    : option error :=
  match checkKnownHostsHolder entry dir k with
  | None => None
  | Some _ =>
      match checkKnownHostsEnv k with
      | None => None
      | Some _ =>
          match checkLocalKnownHostFile k with
          | None => None
          | Some _ =>
              Some match entry with
                   | None => ErrResolveNoExtraKnownHost
                   | Some _ => ErrResolveGeneric
                   end
          end
      end
  end.

Definition knownHostsKeyCallback (entry : option KnownHost) (dir : string) (insecure : bool)
    (k : HostKey) : option error :=
  if insecure then None else combinedKnownHostsKeyCallback entry dir k.

(** The known_hosts file at a path trusts a key. *)
Definition trusts (path : string) (k : HostKey) : Prop :=
  ∃ callback, knownhosts_New path = Ok callback ∧ callback k = None.

(** A host key is accepted exactly when host key checking is switched off,
    or one of the three known_hosts files trusts it: the configured entry's
    (only if there is an entry), the one SSH_KNOWN_HOSTS names (only if it is
    set and not empty), or the runner's own. *)
Theorem knownHostsKeyCallback_accepts (entry : option KnownHost) (dir : string)
    (insecure : bool) (k : HostKey) :
  knownHostsKeyCallback entry dir insecure k = None ↔
  insecure = true ∨
  (entry ≠ None ∧ trusts (path_Join [dir; TMP_FILE_KNOWN_HOSTS]) k) ∨
  (∃ f, lookupEnv "SSH_KNOWN_HOSTS" = Some f ∧ f ≠ "" ∧ trusts f k) ∨
  trusts (path_Join [default "" (lookupEnv "HOME"); ".ssh"; "known_hosts"]) k.
Proof.
  assert (∀ p (e : error) (g : error → error),
    match knownhosts_New p with
    | Err e => Some e
    | Ok c => match c k with None => None | Some e => Some (g e) end
    end = None ↔ trusts p k) as Hfile.
  { unfold trusts. intros p e g. destruct (knownhosts_New p) as [c|e'].
    - destruct (c k) eqn:?; naive_solver.
    - naive_solver. }
  assert (checkKnownHostsHolder entry dir k = None ↔
    entry ≠ None ∧ trusts (path_Join [dir; TMP_FILE_KNOWN_HOSTS]) k) as H1.
  { unfold checkKnownHostsHolder. destruct entry; [|naive_solver].
    rewrite (Hfile _ (errNew "") (λ _, errNew "could not find a valid entry")). naive_solver. }
  assert (checkKnownHostsEnv k = None ↔
    ∃ f, lookupEnv "SSH_KNOWN_HOSTS" = Some f ∧ f ≠ "" ∧ trusts f k) as H2.
  { unfold checkKnownHostsEnv. destruct (lookupEnv "SSH_KNOWN_HOSTS") as [f|]; simpl; [|naive_solver].
    case_decide; [naive_solver|]. rewrite (Hfile f (errNew "")). naive_solver. }
  assert (checkLocalKnownHostFile k = None ↔
    trusts (path_Join [default "" (lookupEnv "HOME"); ".ssh"; "known_hosts"]) k) as H3.
  { apply (Hfile _ (errNew "")). }
  rewrite <-H1, <-H2, <-H3. unfold knownHostsKeyCallback, combinedKnownHostsKeyCallback.
  destruct insecure; [naive_solver|]. clear. go_cases; naive_solver.
Qed.
End HostKey.

(** ** Authentication *)

Section GitSource.
Context (env : Env) (cfg : TfRunnerConfig).

(** [None] is a panic. *)
Definition unwrapCert (certStr : string) : option (result string) :=
  match env_crypto env with
  | None => Some (Ok certStr)
  | Some decrypt => decrypt certStr
  end.

Definition auth_prepare (a : Auth) (dir : string) : M (option error) :=
  match a with
  | NoAuth => mret None
  | SshAuth entry certStr =>
      match unwrapCert certStr with
      | None => panic decryptPanic
      | Some (Err e) => mret (Some e)
      | Some (Ok cert) =>
          let cert := if HasSuffix cert LF then cert else cert +:+ LF in
          failure ← os_WriteFile env (path_Join [dir; TMP_FILE_SSH_CERT]) cert;
          match failure with
          | Some e => PrintlnToUpdateLogs env ERR_MSG_PREPARE;; mret (Some e)
          | None =>
              match entry with
              | None => mret None
              | Some kh =>
                  failure ← os_WriteFile env (path_Join [dir; TMP_FILE_KNOWN_HOSTS])
                              (toKnownHostsFileContent kh);
                  match failure with
                  | Some e => PrintlnToUpdateLogs env ERR_MSG_PREPARE;; mret (Some e)
                  | None => mret None
                  end
              end
          end
      end
  end.

Definition auth_done (a : Auth) : M (option error) := mret None.

(** [toTransport] of the SSH auth, with the directory [prepare] remembered; the
    method of [NoAuth] is never called, since [clone] tests the name first. *)
Definition toTransport (entry : option KnownHost) (prepDir : string) : M (result TransportAuth) :=
  content ← os_ReadFileM env (path_Join [prepDir; TMP_FILE_SSH_CERT]);
  let parsed := match content with
    | Err e => Err e
    | Ok pem => match env_parseKey env pem with Some e => Err e | None => Ok pem end
    end in
  match parsed with
  | Err e => PrintlnToUpdateLogs env ERR_MSG_INVALID_KEY;; mret (Err e)
  | Ok pem =>
      mret (Ok (mkTransportAuth pem (SkipHostKeyValidation cfg)
        match entry with
        | Some kh => if decide (key kh = "") then [] else [key kh]
        | None => []
        end))
  end.

(** ** git.go *)

Definition runGit (call : GitCall) : M (string * option error) :=
  t ← gets trace;
  modify (λ w, emit (EvGit call) (set_files (env_gitFiles env t call (files w)) w));;
  mret (env_git env t call).

Definition authClone (a : Auth) (entry : option KnownHost) (prepDir dir url : string)
    : M (option error) :=
  gitAuth ← toTransport entry prepDir;
  match gitAuth with
  | Err e => PrintlnToLocalAndUpdateLogs env ERR_MSG_AUTH_PREP;; mret (Some e)
  | Ok gitAuth =>
      r ← runGit (GitClone url dir (Some gitAuth));
      match r.2 with
      | None => mret None
      | Some err =>
          PrintlnToLocalAndUpdateLogs env
            (if errors_Is (isErr ErrResolveNoExtraKnownHost) err then ERR_MSG_KNOWN_HOST_NONE_PROVIDED
             else if errors_Is (isErr ErrResolveGeneric) err then ERR_MSG_KNOWN_HOSTS_NO_MATCH
             else "Failed to 'git clone' " +:+ url +:+ " with authentication.");;
          mret (Some err)
      end
  end.

Definition noAuthClone (dir url : string) : M (option error) :=
  PrintlnToLocalAndUpdateLogs env "attempting to cloning remote repository without authentication.";;
  r ← runGit (GitClone url dir None);
  match r.2 with
  | None => mret None
  | Some err =>
      PrintlnToLocalAndUpdateLogs env
        ("Failed to 'git clone' " +:+ url +:+ " without authentication.");;
      mret (Some err)
  end.

Definition git_clone (a : Auth) (prepDir url targetdir : string) : M (option error) :=
  match a with
  | NoAuth => noAuthClone targetdir url
  | SshAuth entry _ => authClone a entry prepDir targetdir url
  end.

(** The first of the revisions that resolves, else the last error. *)
Fixpoint resolveFirst (revisions : list string) (lastErr : error) : M (result string) :=
  match revisions with
  | [] => mret (Err lastErr)
  | rev :: revisions =>
      r ← runGit (GitResolve rev);
      match r.2 with
      | None => mret (Ok r.1)
      | Some e => resolveFirst revisions e
      end
  end.

Definition checkoutRef (refName : string) : M (option error) :=
  PrintlnToLocalAndUpdateLogs env ("checking out ref " +:+ refName);;
  head ← runGit GitHead;
  match head.2 with
  | Some err =>
      PrintlnToLocalAndUpdateLogs env (Error err +:+
        "Failed to 'git checkout' ref " +:+ refName +:+ ". Failed to get HEAD.");;
      mret (Some err)
  | None =>
      worktree ← runGit GitWorktree;
      match worktree.2 with
      | Some err =>
          PrintlnToLocalAndUpdateLogs env
            ("Failed to 'git checkout' ref " +:+ refName +:+ ". Failed to fetch worktree.");;
          mret (Some err)
      | None =>
          hash ← resolveFirst ["refs/remotes/origin/" +:+ refName; "refs/tags/" +:+ refName; refName]
                   (errNew "");
          match hash with
          | Err err =>
              PrintlnToLocalAndUpdateLogs env
                ("Failed to 'git checkout' ref " +:+ refName +:+ ". Failed to resolve revision to hash.");;
              mret (Some err)
          | Ok hash =>
              if decide (head.1 = hash) then
                PrintlnToLocalAndUpdateLogs env
                  ("Skipping 'git checkout' ref " +:+ refName +:+
                   ". Already on target ref (git hash: " +:+ hash +:+ ").");;
                mret None
              else
                r ← runGit (GitCheckout hash);
                match r.2 with
                | Some err =>
                    PrintlnToLocalAndUpdateLogs env
                      ("Failed to 'git checkout' ref " +:+ refName +:+ ". Failed to checkout ref.");;
                    mret (Some err)
                | None => mret None
                end
          end
      end
  end.

(** The move of one file of the walk, its directory's creation first. *)
Fixpoint moveFiles (src dst : string) (rels : list string) : M (option error) :=
  match rels with
  | [] => mret None
  | rel :: rels =>
      let path := path_Join [src; rel] in
      let destPath := path_Join [dst; rel] in
      mkdirErr ← osFails env "mkdirall" destPath;
      renameErr ← osFails env "rename" destPath;
      match mkdirErr, renameErr with
      | Some e, _ => mret (Some e)
      | None, Some e => mret (Some e)
      | None, None =>
          modify (λ w, set_files
            match files w !! path with
            | Some c => <[destPath := c]> (delete path (files w))
            | None => files w
            end w);;
          moveFiles src dst rels
      end
  end.

Definition moveDirContent (src dst : string) : M (option error) :=
  failure ← osFails env "walk" src;
  match failure with
  | Some e => mret (Some e)
  | None => rels ← gets (λ w, (filesBelow (files w) src).*1); moveFiles src dst rels
  end.

Definition azureCloneCommand (a : Auth) (dir url tmpDir : string) : string :=
  match a with
  | NoAuth => "GIT_SSH_COMMAND=" +:+ DQ +:+ "ssh -o StrictHostKeyChecking=no" +:+ DQ
  | SshAuth _ _ =>
      "GIT_SSH_COMMAND=" +:+ DQ +:+ "ssh -i " +:+ path_Join [dir; TMP_FILE_SSH_CERT] +:+
      " -o StrictHostKeyChecking=no" +:+ DQ
  end +:+ " git clone " +:+ url +:+ " " +:+ tmpDir +:+ LF.

(** The third case of the switch on the auth type cannot be built here: an
    [Auth] has one of the two names. *)
Definition azureClone (a : Auth) (dir url : string) : M (option error) :=
  let tmpDir := path_Join [dir; TEMP_CLONE_DIR_PATH] in
  r ← runGit (GitBash (azureCloneCommand a dir url tmpDir));
  match r.2 with
  | None => mret None
  | Some err =>
      PrintlnToLocalAndUpdateLogs env ("Git clone error: " +:+ Error err);;
      PrintlnToLocalAndUpdateLogs env ("Git clone output: " +:+ r.1);;
      PrintlnToLocalAndUpdateLogs env
        ("Failed to 'git clone' " +:+ url +:+ " with authentication.");;
      mret (Some err)
  end.

Definition azureCheckoutRef (dir ref : string) : M (option error) :=
  r ← runGit (GitBash ("git checkout " +:+ ref +:+ LF));
  mret r.2.

(** ** gitsource.go *)

(** From the clone to the end of the checkout. *)
Definition cloneAndCheckout (g : GitSource) (dir tmpDir : string) : M (option error) :=
  if Contains (gs_url g) AZURE_DEVOPS_DOMAIN then
    failure ← azureClone (gs_auth g) dir (gs_url g);
    match failure, gs_refName g with
    | Some e, _ => mret (Some e)
    | None, Some ref => azureCheckoutRef tmpDir ref
    | None, None => mret None
    end
  else
    failure ← git_clone (gs_auth g) dir (gs_url g) tmpDir;
    match failure, gs_refName g with
    | Some e, _ => mret (Some e)
    | None, Some ref => checkoutRef ref
    | None, None => mret None
    end.

(** From the clean-up of the authentication on. *)
Definition moveSources (g : GitSource) (dir tmpDir : string) : M (option error) :=
  auth_done (gs_auth g);;
  PrintlnToLocalAndUpdateLogs env MSG_CLONE_SUCCESS;;
  let sourceDir := match gs_path g with Some p => path_Join [tmpDir; p] | None => tmpDir end in
  stat ← os_Stat env sourceDir;
  match stat with
  | Some _ =>
      match gs_path g with
      | None => panic "nil pointer dereference"
      | Some p =>
          PrintlnToUpdateLogs env ("The specified path '" +:+ p +:+
            "' does not exist, please check repository configuration.");;
          mret (Some (errNew "specified path does not exist"))
      end
  | None =>
      failure ← moveDirContent sourceDir dir;
      match failure with
      | None => PrintlnToLocalAndUpdateLogs env MSG_FILES_AQUISITTION_SUCCESS;; mret None
      | Some e => mret (Some e)
      end
  end.

Definition sourceMessage (g : GitSource) : string :=
  let fromStr := match gs_path g with
    | Some p => gs_url g +:+ "/" +:+ TrimLeftChar slash p
    | None => gs_url g
    end in
  "Attempt to copy sources from " +:+ fromStr +:+ " " +:+
  (if SkipHostKeyValidation cfg then "(insecure)" else "").

Definition CopyToTargetDir (g : GitSource) (dir : string) : M (option error) :=
  PrintlnToLocalAndUpdateLogs env (sourceMessage g);;
  failure ← auth_prepare (gs_auth g) dir;
  match failure with
  | Some e => mret (Some e)
  | None =>
      let tmpDir := path_Join [dir; TEMP_CLONE_DIR_PATH] in
      failure ← os_Mkdir env tmpDir;
      match failure with
      | Some e => mret (Some e)
      | None =>
          failure ← cloneAndCheckout g dir tmpDir;
          result ← match failure with
                   | Some e => mret (Some e)
                   | None => moveSources g dir tmpDir
                   end;
          os_RemoveAll env tmpDir;;
          mret result
      end
  end.

(** ** Frames *)

Lemma sameDirs_resolveFirst revisions e : Keeps sameDirs (resolveFirst revisions e).
Proof. revert e. induction revisions; intros e; simpl; unfold runGit; keeps_dirs. Qed.
#[local] Hint Resolve sameDirs_resolveFirst : dirs.

Lemma sameDirs_cloneAndCheckout g dir tmpDir : Keeps sameDirs (cloneAndCheckout g dir tmpDir).
Proof.
  unfold cloneAndCheckout, azureClone, azureCheckoutRef, git_clone, noAuthClone, authClone,
    toTransport, checkoutRef, os_ReadFileM, runGit, osFails, ask. keeps_dirs.
Qed.

Section Quiet.
Context {policy : PanicPolicy}.

(** The key of an SSH source only panics as the policy allows. *)
Definition keySafe (a : Auth) : Prop :=
  ∀ entry certStr, a = SshAuth entry certStr → unwrapCert certStr = None → lets_panic decryptPanic.

Lemma Quiet_auth_prepare a dir : keySafe a → Quiet (auth_prepare a dir).
Proof.
  intros Ha. unfold auth_prepare. destruct a as [|entry certStr]; [quiet|].
  specialize (Ha entry certStr eq_refl). destruct (unwrapCert certStr) as [[]|]; [quiet..|].
  by apply Quiet_panic, Ha.
Qed.

Lemma Quiet_runGit call : Quiet (runGit call).
Proof.
  apply Quiet_bind; [apply Quiet_gets|]. intros t.
  apply Quiet_bind; [|intros; apply Quiet_ret]. by apply (Quiet_modify_emit _ (EvGit call)).
Qed.
#[local] Hint Resolve Quiet_runGit : quiet.

Lemma Quiet_git_clone a prepDir url dir : Quiet (git_clone a prepDir url dir).
Proof. unfold git_clone, noAuthClone, authClone, toTransport. quiet. Qed.

Lemma Quiet_resolveFirst revisions e : Quiet (resolveFirst revisions e).
Proof. revert e. induction revisions; intros e; simpl; quiet. Qed.
#[local] Hint Resolve Quiet_git_clone Quiet_resolveFirst : quiet.

Lemma Quiet_checkoutRef ref : Quiet (checkoutRef ref).
Proof. unfold checkoutRef. quiet. Qed.

Lemma Quiet_moveFiles src dst rels : Quiet (moveFiles src dst rels).
Proof. induction rels; simpl; quiet. Qed.
#[local] Hint Resolve Quiet_checkoutRef Quiet_moveFiles : quiet.

Lemma Quiet_moveDirContent src dst : Quiet (moveDirContent src dst).
Proof. unfold moveDirContent. quiet. Qed.

Lemma Quiet_cloneAndCheckout g dir tmpDir : Quiet (cloneAndCheckout g dir tmpDir).
Proof. unfold cloneAndCheckout, azureClone, azureCheckoutRef. quiet. Qed.

(** Looking at the clone only fails as the policy allows: [CopyToTargetDir]
    relies on it when no path inside the repository is configured. *)
Definition cloneSafe (g : GitSource) (dir : string) : Prop :=
  gs_path g = None → ∀ t e, env_osErr env t "stat" (path_Join [dir; TEMP_CLONE_DIR_PATH]) = Some e →
    lets_panic "nil pointer dereference".

Lemma Quiet_moveSources g dir tmpDir w :
  (gs_path g = None → tmpDir ∈ dirs w ∧
     ∀ t e, env_osErr env t "stat" tmpDir = Some e → lets_panic "nil pointer dereference") →
  LogOk w → wp (moveSources g dir tmpDir) w (λ _ w', LogOk w' ∧ evolves w w').
Proof.
  intros Hg Hw. unfold moveSources. apply wp_bind, wp_ret, wp_bind.
  eapply wp_mono; [apply wp_Quiet_dirs; [apply Quiet_PrintlnToUpdateLogs|keeps_dirs|done]|].
  intros _ w1 (Hw1 & E1 & Hd).
  assert (∀ m : M (option error), Quiet m → wp m w1 (λ _ w', LogOk w' ∧ evolves w w')) as Hm.
  { intros m Hm. by apply wp_Quiet_from. }
  destruct (gs_path g) as [p|] eqn:Hp.
  - apply Hm. quiet. all: apply Quiet_moveDirContent.
  - destruct (Hg eq_refl) as [Hin Hst]. unfold os_Stat.
    apply wp_bind, wp_bind, wp_gets, wp_bind, wp_gets, wp_ret.
    destruct (env_osErr env (trace w1) "stat" tmpDir) as [e|] eqn:He; [apply wp_panic; by eapply Hst|].
    unfold pathExists. rewrite Hd, (bool_decide_eq_true_2 _ Hin), orb_true_r.
    apply Hm. quiet. all: apply Quiet_moveDirContent.
Qed.

Lemma Quiet_CopyToTargetDir g dir :
  cloneSafe g dir → keySafe (gs_auth g) → Quiet (CopyToTargetDir g dir).
Proof.
  intros Hg Hk. unfold CopyToTargetDir.
  apply Quiet_bind; [apply Quiet_PrintlnToUpdateLogs|]. intros _.
  apply Quiet_bind; [by apply Quiet_auth_prepare|]. intros [e|]; [apply Quiet_ret|].
  set (tmpDir := path_Join [dir; TEMP_CLONE_DIR_PATH]).
  intros w Hw. unfold os_Mkdir.
  apply wp_bind, wp_bind, wp_gets, wp_bind, wp_gets.
  destruct (env_osErr env _ _ _); [by apply wp_ret|]. destruct (pathExists _ _); [by apply wp_ret|].
  apply wp_bind, wp_modify, wp_ret. set (w1 := set_dirs _ w).
  assert (LogOk w1 ∧ evolves w w1) as [Hw1 E1].
  { destruct Hw as [Hs Hp]. split; [by split|].
    split; simpl; try done; [constructor|exists ""; by rewrite string_app_nil_r]. }
  apply wp_bind. eapply wp_mono; [apply wp_Quiet_dirs;
    [apply Quiet_cloneAndCheckout|apply sameDirs_cloneAndCheckout|done]|].
  intros a w2 (Hw2 & E2 & Hd). apply wp_bind.
  assert (wp match a with Some e => mret (Some e) | None => moveSources g dir tmpDir end w2
    (λ _ w', LogOk w' ∧ evolves w2 w')) as Hms.
  { destruct a; [by apply wp_ret|]. apply Quiet_moveSources; [|done].
    intros Hp. split; [rewrite Hd; set_solver|]. intros t e. by apply Hg. }
  eapply wp_mono; [exact Hms|]. intros r w3 [Hw3 E3].
  apply wp_Quiet_from; [quiet|by do 2 (etrans; [eassumption|])|done].
Qed.

End Quiet.

Section Emits.
Context (C : event → Prop) {HL : AllowsLog C} {HF : AllowsFile C} {HG : AllowsGit C}.

Lemma Emits_runGit call : Emits C (runGit call).
Proof.
  apply Keeps_bind; [apply _|apply Keeps_gets, _|]. intros t.
  apply Keeps_bind; [apply _| |intros; apply Keeps_ret, _].
  apply (Emits_modify_emit _ _ (EvGit call)); [apply allows_git|done].
Qed.
#[local] Hint Resolve Emits_runGit : emits.

Lemma Emits_resolveFirst revisions e : Emits C (resolveFirst revisions e).
Proof. revert e. induction revisions; intros e; simpl; emits. Qed.
#[local] Hint Resolve Emits_resolveFirst : emits.

Lemma Emits_moveFiles src dst rels : Emits C (moveFiles src dst rels).
Proof.
  induction rels as [|rel rels IH]; simpl; emits.
  by apply Emits_modify_same.
Qed.
#[local] Hint Resolve Emits_moveFiles : emits.

Lemma Emits_CopyToTargetDir g dir : Emits C (CopyToTargetDir g dir).
Proof.
  unfold CopyToTargetDir, auth_prepare, cloneAndCheckout, moveSources, moveDirContent, azureClone,
    azureCheckoutRef, git_clone, noAuthClone, authClone, toTransport, checkoutRef, auth_done. emits.
Qed.
End Emits.
End GitSource.
