(* ===== verification/TfEnv.v ===== *)
(** * TfEnv: the environment of tofu and of the pre-run script

    Models [cleanSystemEnv], [buildTfEnv] and [encodeVarValueForEnv] of
    tf-block-runner/tfrun/tfcmd.go, and the environment assembly of
    scriptcmd.go: which variables of the runner's own process, of the building
    block's inputs and of the run reach a subprocess. *)

From S2P Require Import Prelude GoPath Status TfConfig Run RunM Example Frame GitSource.

Definition MeshStackRunTokenBasicUser := "x".
Definition TfVarEnvPrefix := "TF_VAR_".

(** The keys [cleanSystemEnv] copies, in its two loops. *)
Definition systemKeys : list string :=
  ["HOME"; "PATH"; "PWD"; "TMPDIR"; "TMP"; "TEMP"] ++
  ["SSH_KNOWN_HOSTS"; "NIX_CONFIG"; "MESHSTACK_ENDPOINT"; "MESHSTACK_SKIP_VERSION_CHECK";
   "CUSTOM_CA_CERTS_PATH"; "TF_LOG"; "TF_LOG_CORE"; "TF_LOG_PROVIDER"; "TF_LOG_PATH";
   "CHECKPOINT_DISABLE"; "TF_IN_AUTOMATION"].

Definition cleanSystemEnv (lookupEnv : string → option string) : gmap string string :=
  foldl (λ m key, match lookupEnv key with Some v => <[key := v]> m | None => m end) ∅ systemKeys.

(** Whether [buildTfEnv] exports a variable. *)
Definition exported (varName : string) (variable : InputVariable) : bool :=
  var_env variable && negb (HasPrefix varName TfVarEnvPrefix).

Section TfEnv.
Context (env : Env) (cfg : TfRunnerConfig) (info : RunContextInfo) (params : TfCmdParams).

Definition encodeVarValueForEnv (value : any) (t : DataType) : result string :=
  if decide (t = DATA_TYPE_MULTISELECT) then env_jsonMarshal env value
  else Ok (Sprint (env_fmtFloat env) value).

Definition gitSshCommandEnv : string :=
  "ssh -i '" +:+ path_Join [workingDirectory info; TMP_FILE_SSH_CERT] +:+ "'" +:+
  (if SkipHostKeyValidation cfg then " -o StrictHostKeyChecking=no" else "").

(** The first part: the SSH command of an SSH-authenticated source. *)
Definition gitEnv (m : gmap string string) : gmap string string :=
  if decide (auth_name (gs_auth (source params)) = AUTH_TYPE_SSH)
  then <["GIT_SSH_COMMAND" := gitSshCommandEnv]> m else m.

(** The loop over the input variables. *)
Fixpoint varsEnv (l : list (string * InputVariable)) (m : gmap string string)
    : M (result (gmap string string)) :=
  match l with
  | [] => mret (Ok m)
  | (varName, variable) :: l =>
      if exported varName variable then
        match decryptIfSensitive (env_fmtFloat env) (env_crypto env) variable with
        | None => panic decryptPanic
        | Some (Err err) =>
            PrintlnToUpdateLogs env ("Failed to decrypt input '" +:+ varName +:+ "': " +:+ Error err);;
            mret (Err (errNew ("input decryption failed for '" +:+ varName +:+ "'")))
        | Some (Ok val) =>
            match encodeVarValueForEnv val (var_Type variable) with
            | Err err => mret (Err err)
            | Ok encodedValue => varsEnv l (<[varName := encodedValue]> m)
            end
        end
      else varsEnv l m
  end.

(** The last part: the credentials of the meshStack state backend. *)
Definition tokenEnv (m : gmap string string) : gmap string string :=
  if useMeshBackendFallback info && nonEmpty (runToken info)
  then <["TF_HTTP_PASSWORD" := runToken info]>
         (<["TF_HTTP_USERNAME" := MeshStackRunTokenBasicUser]> m)
  else m.

Definition buildTfEnv : M (result (gmap string string)) :=
  order ← ask (λ t, env_varOrder env t (vars params));
  m ← varsEnv order (gitEnv (cleanSystemEnv (env_lookupEnv env)));
  mret match m with Ok m => Ok (tokenEnv m) | Err e => Err e end.

(** ** Properties *)

(** Go's [range] over a map visits every entry once, in any order. *)
Definition rangesOverVars : Prop :=
  ∀ t, env_varOrder env t (vars params) ≡ₚ map_to_list (vars params).

Section Quiet.
Context {policy : PanicPolicy}.

(** A decryption only panics as the policy allows. *)
Definition decryptSafe (v : InputVariable) : Prop :=
  decryptIfSensitive (env_fmtFloat env) (env_crypto env) v = None → lets_panic decryptPanic.
Definition varsSafe : Prop := map_Forall (λ _ v, decryptSafe v) (vars params).

Lemma Quiet_varsEnv l m : Forall (λ kv, decryptSafe kv.2) l → Quiet (varsEnv l m).
Proof.
  intros Hl. revert m. induction Hl as [|[k v] l Hv Hl IH]; intros m; simpl in *; [apply Quiet_ret|].
  destruct (exported k v); [|auto]. unfold decryptSafe in Hv.
  destruct (decryptIfSensitive _ _ v) as [[val|e]|]; [|quiet|by apply Quiet_panic, Hv].
  destruct (encodeVarValueForEnv val (var_Type v)); [auto|apply Quiet_ret].
Qed.

Lemma varsSafe_order t :
  rangesOverVars → varsSafe → Forall (λ kv, decryptSafe kv.2) (env_varOrder env t (vars params)).
Proof.
  intros Hr Hs. rewrite (Hr t). apply map_Forall_to_list in Hs.
  eapply Forall_impl; [|exact Hs]. by intros [k v].
Qed.

Lemma Quiet_buildTfEnv : rangesOverVars → varsSafe → Quiet buildTfEnv.
Proof.
  intros Hr Hs w Hw. apply wp_bind, wp_gets. revert w Hw.
  intros w Hw. apply wp_bind. eapply wp_mono; [apply Quiet_varsEnv; [by apply varsSafe_order|done]|].
  intros r w' H. by apply wp_ret.
Qed.
End Quiet.

Lemma Emits_buildTfEnv C `{!AllowsLog C} : Emits C buildTfEnv.
Proof.
  apply Emits_bind; [apply Emits_ask|]. intros l. apply Emits_bind; [|intros; apply Emits_ret].
  generalize (gitEnv (cleanSystemEnv (env_lookupEnv env))).
  induction l as [|[k v] l IH]; intros m; simpl; emits.
Qed.

(** What an exported variable contributes. *)
Definition exportedValue (varName : string) (v : InputVariable) : option string :=
  if exported varName v then
    match decryptIfSensitive (env_fmtFloat env) (env_crypto env) v with
    | Some (Ok val) =>
        match encodeVarValueForEnv val (var_Type v) with Ok s => Some s | Err _ => None end
    | _ => None
    end
  else None.

(** The whole environment, key by key: the credentials of the state backend
    win over the inputs, the inputs over GIT_SSH_COMMAND, and that over the
    few variables of the runner's own process. *)
Definition envSpec (k : string) : option string :=
  if decide (useMeshBackendFallback info = true ∧ runToken info ≠ "" ∧ k = "TF_HTTP_PASSWORD")
  then Some (runToken info)
  else if decide (useMeshBackendFallback info = true ∧ runToken info ≠ "" ∧ k = "TF_HTTP_USERNAME")
  then Some MeshStackRunTokenBasicUser
  else match vars params !! k ≫= exportedValue k with
  | Some s => Some s
  | None =>
      if decide (auth_name (gs_auth (source params)) = AUTH_TYPE_SSH ∧ k = "GIT_SSH_COMMAND")
      then Some gitSshCommandEnv
      else if decide (k ∈ systemKeys) then env_lookupEnv env k else None
  end.

Lemma foldl_lookupEnv (f : string → option string) (l : list string) (m : gmap string string) k :
  foldl (λ m key, match f key with Some v => <[key := v]> m | None => m end) m l !! k =
  (if decide (k ∈ l) then match f k with Some v => Some v | None => m !! k end else m !! k).
Proof.
  revert m. induction l as [|x l IH]; intros m; simpl; [done|]. rewrite IH.
  destruct (decide (k = x)) as [->|Hne].
  - rewrite (decide_True (P := x ∈ x :: l)) by set_solver.
    destruct (f x) eqn:Hf; [rewrite lookup_insert_eq|]; by case_decide.
  - destruct (decide (k ∈ l)).
    + rewrite (decide_True (P := k ∈ x :: l)) by set_solver.
      destruct (f k), (f x); try rewrite lookup_insert_ne by done; done.
    + rewrite (decide_False (P := k ∈ x :: l)) by set_solver.
      destruct (f x); [by rewrite lookup_insert_ne|done].
Qed.

Lemma cleanSystemEnv_lookup (f : string → option string) k :
  cleanSystemEnv f !! k = if decide (k ∈ systemKeys) then f k else None.
Proof.
  unfold cleanSystemEnv. rewrite foldl_lookupEnv, lookup_empty. case_decide; [by destruct (f k)|done].
Qed.

Lemma varsEnv_lookup l m w m' w' :
  NoDup l.*1 → varsEnv l m w = (Done (Ok m'), w') →
  ∀ k, m' !! k = match (list_to_map l : gmap string InputVariable) !! k ≫= exportedValue k with
                 | Some s => Some s
                 | None => m !! k
                 end.
Proof.
  revert m w. induction l as [|[x v] l IH]; intros m w Hnd Hr k; [simpl in *; unfold mret, M_ret in Hr; simplify_eq; by rewrite lookup_empty|].
  apply list.NoDup_cons in Hnd as [Hx Hnd]. simpl in Hr |- *.
  assert (∀ k', k' = x → (list_to_map l : gmap string InputVariable) !! k' = None) as Hnone.
  { intros k' ->. by apply not_elem_of_list_to_map. }
  destruct (exported x v) eqn:He.
  - destruct (decryptIfSensitive _ _ v) as [[val|e]|] eqn:Hdec; [..|done].
    + destruct (encodeVarValueForEnv val (var_Type v)) as [s|e] eqn:Henc; [|done].
      rewrite (IH _ _ Hnd Hr k). destruct (decide (k = x)) as [->|Hne].
      * rewrite (Hnone x eq_refl), !lookup_insert_eq. simpl. unfold exportedValue. by rewrite He, Hdec, Henc.
      * by rewrite !lookup_insert_ne.
    + exfalso. unfold mbind, M_bind in Hr. by destruct (PrintlnToUpdateLogs _ _ _) as [[] ?].
  - rewrite (IH _ _ Hnd Hr k). destruct (decide (k = x)) as [->|Hne].
    + rewrite (Hnone x eq_refl), lookup_insert_eq. simpl. unfold exportedValue. by rewrite He.
    + by rewrite lookup_insert_ne.
Qed.

(** C32. The environment of tofu is exactly the specified one: nothing of the
    runner's own process reaches a subprocess except the whitelisted keys,
    whatever the order in which Go ranges over the inputs. *)
Theorem buildTfEnv_whitelist (w w' : World) (m : gmap string string)
    (Hrange : rangesOverVars) (Hrun : buildTfEnv w = (Done (Ok m), w')) :
  ∀ k, m !! k = envSpec k.
Proof.
  apply M_bind_Done in Hrun as (l & w1 & [<- <-]%M_ret_Done & Hrun).
  apply M_bind_Done in Hrun as (r & w2 & Hrun & [Hm ->]%M_ret_Done).
  destruct r as [m1|e]; simplify_eq. intros k.
  set (l := env_varOrder env (trace w) (vars params)) in *.
  assert (l ≡ₚ map_to_list (vars params)) as Hl by apply Hrange.
  assert (NoDup l.*1) as Hnd by (rewrite Hl; apply NoDup_fst_map_to_list).
  assert ((list_to_map l : gmap string InputVariable) = vars params) as Hmap.
  { rewrite (list_to_map_proper _ _ Hnd Hl). apply list_to_map_to_list. }
  pose proof (varsEnv_lookup _ _ _ _ _ Hnd Hrun k) as Hk. rewrite Hmap in Hk.
  assert (gitEnv (cleanSystemEnv (env_lookupEnv env)) !! k =
    if decide (auth_name (gs_auth (source params)) = AUTH_TYPE_SSH ∧ k = "GIT_SSH_COMMAND")
    then Some gitSshCommandEnv
    else if decide (k ∈ systemKeys) then env_lookupEnv env k else None) as Hg.
  { unfold gitEnv. rewrite <-cleanSystemEnv_lookup.
    repeat case_decide; try tauto.
    - destruct_and?. subst k. by rewrite lookup_insert_eq.
    - rewrite lookup_insert_ne; [done|]. intros <-. tauto. }
  rewrite Hg in Hk. unfold tokenEnv, envSpec. rewrite <-Hk.
  assert (nonEmpty (runToken info) = true ↔ runToken info ≠ "") as Ht by apply nonEmpty_true.
  destruct (useMeshBackendFallback info), (nonEmpty (runToken info)); simpl.
  2-4: repeat case_decide; naive_solver.
  rewrite !lookup_insert. repeat case_decide; naive_solver.
Qed.
End TfEnv.

(** The input and the state backend's credentials get through, a variable of
    the runner's process that is not on the list does not. *)
Lemma buildTfEnv_whitelist_witness
    (run := buildTfEnv exampleEnv exampleCfg exampleInfo (exampleParams "DETECT" "" "") exampleWorld) :
  ∃ m, run.1 = Done (Ok m) ∧
       m !! "TOKEN" = Some "t" ∧ m !! "HOME" = Some "/home/tofu" ∧
       m !! "TF_HTTP_PASSWORD" = Some "token" ∧ m !! "region" = None ∧ m !! "RUNNER_API_USERNAME" = None.
Proof.
  assert (∃ m, run.1 = Done (Ok m)) as [m Hm] by (vm_compute; eauto).
  exists m. split; [exact Hm|].
  assert (rangesOverVars exampleEnv (exampleParams "DETECT" "" "")) as Hrange by (intros t; reflexivity).
  assert (run = (Done (Ok m), run.2)) as Hrun by (rewrite <-Hm; apply surjective_pairing).
  clear Hm. generalize dependent (run.2). intros w' Hrun.
  pose proof (buildTfEnv_whitelist exampleEnv exampleCfg exampleInfo (exampleParams "DETECT" "" "")
    exampleWorld w' m Hrange Hrun) as H.
  rewrite !H. repeat split; vm_compute; reflexivity.
Defined.

#[export] Hint Resolve Emits_buildTfEnv : emits.
