(* ===== verification/Script.v ===== *)
(** * Script: running the pre-run script

    Models tf-block-runner/tfrun/scriptcmd.go: writing the script and the file
    for the user message, decoding the run JSON for its standard input, its
    environment with the tofu binary first on the PATH, and reading back the
    exit code and the user message. *)

From S2P Require Import Prelude GoPath Base64 Status TfConfig Run RunM Frame GitSource TfEnv.

Record ScriptParams := mkScriptParams {
  sp_Name : string;
  sp_Script : string;
  sp_RunMode : string;
  sp_WorkDir : string;
  sp_TerraformBinDir : string;
  sp_RunJsonBase64 : string;
  sp_ExtraEnv : gmap string string;
}.

Record ScriptResult := mkScriptResult {
  sr_UserMessage : string;
  sr_SystemMessage : string;
  sr_ExitCode : Z;
}.

Definition noScriptResult : ScriptResult := mkScriptResult "" "" 0.

(** ** The environment *)

Definition pathKeyPrefix := "PATH=".
Definition pathSeparator := ":".

(** One round of the loop over [environ]: the entry it leaves, the search path
    that later entries get, and whether it was a PATH entry. *)
Fixpoint prependLoop (environ paths : list string) (pathFound : bool)
    : list string * list string * bool :=
  match environ with
  | [] => ([], paths, pathFound)
  | envKeyValue :: environ =>
      match CutPrefix envKeyValue pathKeyPrefix with
      | Some after =>
          let paths := if decide (after = "") then paths else paths ++ [after] in
          let '(rest, paths', found) := prependLoop environ paths true in
          ((pathKeyPrefix +:+ Join paths pathSeparator) :: rest, paths', found)
      | None =>
          let '(rest, paths', found) := prependLoop environ paths pathFound in
          (envKeyValue :: rest, paths', found)
      end
  end.

Definition prependToPathEnvironmentVariable (environ paths : list string) : list string :=
  let paths := filter (λ p, TrimSpace p ≠ "") paths in
  if decide (paths = []) then environ
  else
    let '(environ, paths, pathFound) := prependLoop environ paths false in
    if pathFound then environ
    else environ ++ [pathKeyPrefix +:+ Join paths pathSeparator].

Definition renderVar (kv : string * string) : string := kv.1 +:+ "=" +:+ kv.2.

Definition extractExitCode (runErr : option error) : Z :=
  match runErr with
  | None => 0
  | Some e => match errors_As isExitError e with Some code => code | None => -1 end
  end.

Section Script.
Context (env : Env).

Definition mergedEnv (userMsgPath : string) (extraEnv : gmap string string) : gmap string string :=
  <["MESHSTACK_USER_MESSAGE" := userMsgPath]> (extraEnv ∪ cleanSystemEnv (env_lookupEnv env)).

Definition buildScriptEnvironmentVariables (terraformBinDir userMsgPath : string)
    (extraEnv : gmap string string) : M (list string) :=
  order ← ask (λ t, env_envOrder env t (mergedEnv userMsgPath extraEnv));
  mret (prependToPathEnvironmentVariable (renderVar <$> order) [terraformBinDir]).

(** ** The steps of RunScript *)

Definition writeScriptFile (wd name script : string) : M (result string) :=
  let scriptPath := path_Join [wd; "meshstack-" +:+ name +:+ ".sh"] in
  failure ← os_WriteFile env scriptPath (ReplaceAll script (CR +:+ LF) LF);
  mret match failure with
  | Some e => Err (errWrap ("failed to write " +:+ name +:+ " script: ") e "")
  | None => Ok scriptPath
  end.

Definition createUserMsgFile (wd : string) : M (result string) :=
  failure ← osFails env "createtemp" wd;
  name ← ask (λ t, env_tempName env t wd);
  match failure with
  | Some e => mret (Err (errWrap "failed to create user message temp file: " e ""))
  | None =>
      modify (λ w, emit (EvFile name "") (set_files (<[name := ""]> (files w)) w));;
      mret (Ok name)
  end.

Definition decodeRunJSON (base64Json : string) : result string :=
  if decide (base64Json = "") then Ok ""
  else wrapErr "could not decode run JSON: " (DecodeString base64Json) "".

Definition scriptArgs (scriptPath : string) (args : list string) : list string :=
  ["bash"; "--noprofile"; "--norc"; "-e"; "-o"; "pipefail"; scriptPath] ++ args.

(** The command [buildScriptCmd] builds, run by [CombinedOutput]. *)
Definition runScriptCmd (args environ : list string) (stdin : string) : M (string * option error) :=
  t ← gets trace;
  modify (λ w, emit (EvScript args environ stdin)
                 (set_files (env_scriptFiles env t args (files w)) w));;
  mret (env_script env t args).

Definition readUserMsgFile (filePath : string) : M string :=
  content ← os_ReadFileM env filePath;
  mret match content with Ok c => TrimSpace c | Err _ => "" end.

(** Everything that runs before the deferred removal of the message file. *)
Definition RunScript_body (params : ScriptParams) (scriptPath userMsgPath : string)
    : M (ScriptResult * option error) :=
  match decodeRunJSON (sp_RunJsonBase64 params) with
  | Err e => mret (noScriptResult, Some e)
  | Ok runJSON =>
      environ ← buildScriptEnvironmentVariables (sp_TerraformBinDir params) userMsgPath
                  (sp_ExtraEnv params);
      out ← runScriptCmd (scriptArgs scriptPath [sp_RunMode params]) environ runJSON;
      let runErr := out.2 in
      let exitCode := extractExitCode runErr in
      userMsg ← readUserMsgFile userMsgPath;
      let result := mkScriptResult userMsg out.1 exitCode in
      mret (result, match runErr with
        | Some e => Some (errWrap (sp_Name params +:+ " script failed with exit code " +:+
                                   pretty exitCode +:+ ": ") e "")
        | None => None
        end)
  end.

Definition RunScript (params : ScriptParams) : M (ScriptResult * option error) :=
  written ← writeScriptFile (sp_WorkDir params) (sp_Name params) (sp_Script params);
  match written with
  | Err e => mret (noScriptResult, Some e)
  | Ok scriptPath =>
      created ← createUserMsgFile (sp_WorkDir params);
      match created with
      | Err e => mret (noScriptResult, Some e)
      | Ok userMsgPath =>
          r ← RunScript_body params scriptPath userMsgPath;
          modify (λ w, set_files (delete userMsgPath (files w)) w);;
          mret r
      end
  end.

(** ** Frames *)

Lemma Quiet_RunScript {policy : PanicPolicy} params : Quiet (RunScript params).
Proof.
  unfold RunScript, RunScript_body, writeScriptFile, createUserMsgFile, runScriptCmd,
    readUserMsgFile, buildScriptEnvironmentVariables. quiet.
  1-2: eapply Quiet_modify_emit; [|intros w; split_and!; reflexivity]; done.
Qed.

Lemma Emits_RunScript (C : event → Prop) `{!AllowsLog C} `{!AllowsFile C} params :
  (∀ args environ stdin, C (EvScript args environ stdin)) → Emits C (RunScript params).
Proof.
  intros HC. unfold RunScript, RunScript_body, writeScriptFile, createUserMsgFile, runScriptCmd,
    readUserMsgFile, buildScriptEnvironmentVariables. emits.
  - eapply Emits_modify_emit; [|intros w; reflexivity]. apply allows_file.
  - eapply Emits_modify_emit; [|intros w; reflexivity]. apply HC.
  - by apply Emits_modify_same.
Qed.
End Script.

(** ** Properties *)

Lemma CutPrefix_renderVar k v :
  hasChar (ascii_of_nat 61) k = false →
  CutPrefix (renderVar (k, v)) pathKeyPrefix = if decide (k = "PATH") then Some v else None.
Proof.
  intros Hk. unfold renderVar; simpl. case_decide as Hp.
  - subst k. by apply CutPrefix_Some.
  - destruct (CutPrefix _ _) as [r|] eqn:Hc; [|done]. exfalso. apply CutPrefix_Some in Hc.
    apply Hp. change ("=" +:+ v) with (String (ascii_of_nat 61) v) in Hc.
    change (pathKeyPrefix +:+ r) with ("PATH" +:+ String (ascii_of_nat 61) r) in Hc.
    by apply split_at_char_inj in Hc as [-> _].
Qed.

(** A variable that is not the search path, under a name it can be told from. *)
Definition plainVar (kv : string * string) : Prop :=
  hasChar (ascii_of_nat 61) kv.1 = false ∧ kv.1 ≠ "PATH".

Lemma prependLoop_app_no_path l environ paths found :
  Forall plainVar l →
  prependLoop ((renderVar <$> l) ++ environ) paths found =
  (let '(rest, paths', found') := prependLoop environ paths found in
   ((renderVar <$> l) ++ rest, paths', found')).
Proof.
  intros Hl. induction Hl as [|[k v] l [Hk Hp] Hl IH].
  - simpl. by destruct (prependLoop environ paths found) as [[??]?].
  - cbn [fmap list_fmap prependLoop app]. rewrite CutPrefix_renderVar, IH, decide_False by done.
    by destruct (prependLoop environ paths found) as [[??]?].
Qed.

Lemma prependLoop_no_path l paths found :
  Forall plainVar l → prependLoop (renderVar <$> l) paths found = (renderVar <$> l, paths, found).
Proof.
  intros Hl. rewrite <-(app_nil_r (renderVar <$> l)) at 1. rewrite prependLoop_app_no_path by done.
  simpl. by rewrite app_nil_r.
Qed.

(** The search path the script gets. *)
Definition scriptPATH (dir : string) (inherited : option string) : string :=
  match inherited with
  | Some p => if decide (p = "") then dir else dir +:+ pathSeparator +:+ p
  | None => dir
  end.

(** The script sees the given variables unchanged, in some order, except
    for PATH, which starts with the directory of the tofu binary and goes on
    with the inherited search path, when there is one. *)
Theorem script_environment (m : gmap string string) (order : list (string * string)) (dir : string)
    (Horder : order ≡ₚ map_to_list m) (Hdir : TrimSpace dir ≠ "")
    (Hkeys : map_Forall (λ k _, hasChar (ascii_of_nat 61) k = false) m) :
  prependToPathEnvironmentVariable (renderVar <$> order) [dir] ≡ₚ
  renderVar <$> map_to_list (<["PATH" := scriptPATH dir (m !! "PATH")]> m).
Proof.
  unfold prependToPathEnvironmentVariable.
  replace (filter (λ p, TrimSpace p ≠ "") [dir]) with [dir]
    by (by rewrite filter_cons_True, filter_nil).
  rewrite decide_False by done.
  set (rest := map_to_list (delete "PATH" m)).
  assert (∀ new, map_to_list (<["PATH" := new]> m) ≡ₚ ("PATH", new) :: rest) as Hnew.
  { intros new. rewrite <-insert_delete_eq. apply map_to_list_insert, lookup_delete_eq. }
  assert (∀ l, l ≡ₚ rest → Forall plainVar l) as Hplain.
  { intros l ->. apply list.Forall_forall. intros [k v] Hin.
    apply elem_of_map_to_list, lookup_delete_Some in Hin as [Hne Hk].
    split; [by eapply Hkeys|]. simpl. congruence. }
  rewrite Hnew, fmap_cons. destruct (m !! "PATH") as [p|] eqn:HP; cbn [scriptPATH].
  - assert (order ≡ₚ ("PATH", p) :: rest) as Hp.
    { rewrite Horder, <-Hnew. by rewrite insert_id. }
    assert (("PATH", p) ∈ order) as (l1 & l2 & ->)%list_elem_of_split by (rewrite Hp; set_solver).
    assert (l1 ++ l2 ≡ₚ rest) as Hl.
    { apply (Permutation_cons_inv (a := ("PATH", p))). etrans; [apply Permutation_middle|exact Hp]. }
    pose proof (Hplain _ Hl) as [Hp1 Hp2]%Forall_app.
    rewrite fmap_app, prependLoop_app_no_path by done.
    rewrite fmap_cons; cbn [prependLoop]. rewrite CutPrefix_renderVar, decide_True by done.
    rewrite prependLoop_no_path by done. cbn beta iota zeta.
    etrans; [symmetry; apply Permutation_middle|].
    rewrite <-fmap_app, Hl. by destruct (decide (p = "")).
  - assert (order ≡ₚ rest) as Hl.
    { rewrite Horder. unfold rest. by rewrite delete_id. }
    rewrite prependLoop_no_path by (by apply Hplain). cbn beta iota zeta.
    by rewrite <-Permutation_cons_append, Hl.
Qed.

Lemma script_environment_witness (m : gmap string string := {["PATH" := "/bin"; "HOME" := "/h"]}) :
  prependToPathEnvironmentVariable (renderVar <$> map_to_list m) ["/tofu"] ≡ₚ
  renderVar <$> map_to_list (<["PATH" := "/tofu:/bin"]> m).
Proof.
  apply (script_environment m (map_to_list m) "/tofu"); [done|vm_compute; discriminate|].
  intros k v. unfold m. rewrite lookup_insert_Some, lookup_singleton_Some.
  by intros [[<- _]|[_ [<- _]]].
Defined.
