(* ===== verification/TfVars.v ===== *)
(** * TfVars: handing the inputs to tofu as files

    Models [saveInputFiles], [vars] and [extractContentFromDataUrl] of
    tf-block-runner/tfrun/tfcmd.go: file inputs decoded from data URLs into the
    working directory, and all other inputs written to a tfvars file together
    with the variables meshStack provides. *)

From S2P Require Import Prelude GoPath Base64 Hcl VarsFile Status TfConfig Run RunM Example Frame GitSource TfEnv.

(** ** Data URLs *)

Definition base64Marker := ";base64,".

(** The shortest text before [base64Marker], without a line break: what
    [(.*?);base64,] matches at the start of [s]. *)
Fixpoint untilMarker (s : string) : option string :=
  if HasPrefix s base64Marker then Some ""
  else match s with
  | "" => None
  | String c s => if decide (c = ascii_of_nat 10) then None else String c <$> untilMarker s
  end.

(** [FindStringSubmatch] of [data:(.*?);base64,]: the leftmost match. *)
Fixpoint findDataUrl (s : string) : option string :=
  match CutPrefix s "data:" ≫= untilMarker with
  | Some mime => Some ("data:" +:+ mime +:+ base64Marker)
  | None => match s with "" => None | String _ s => findDataUrl s end
  end.

Definition extractContentFromDataUrl (dataUrl : string) : result string :=
  match findDataUrl dataUrl with
  | None => Err (errNew "no data content found in DataURL")
  | Some match0 => DecodeString (sdrop (String.length match0) dataUrl)
  end.

Lemma untilMarker_app mime rest :
  Contains mime base64Marker = false → hasChar (ascii_of_nat 10) mime = false →
  untilMarker (mime +:+ base64Marker +:+ rest) = Some mime.
Proof.
  induction mime as [|c mime IH]; intros Hc Hlf.
  - assert (HasPrefix (base64Marker +:+ rest) base64Marker = true) as Hp by (apply HasPrefix_spec; eauto).
    simpl in *. by rewrite Hp.
  - cbn [Contains] in Hc. apply orb_false_iff in Hc as [Hp Hc].
    cbn [hasChar] in Hlf. apply orb_false_iff in Hlf as [Hc10%bool_decide_eq_false Hlf].
    rewrite string_app_cons. cbn [untilMarker]. rewrite decide_False, IH by done.
    destruct (HasPrefix _ base64Marker) eqn:Hq; [|done]. exfalso.
    apply (HasPrefix_app_inv (String c mime) (base64Marker +:+ rest)) in Hq
      as [Hq|(q & Hq & Hne & Hr)]; [unfold HasPrefix in Hq; congruence|].
    (* the marker would hold a second semicolon *)
    destruct q as [|d q]; [done|].
    assert (d = ascii_of_nat 59) as ->.
    { unfold HasPrefix in Hr. simpl in Hr. by destruct (ascii_dec d _) as [->|]. }
    rewrite string_app_cons in Hq. injection Hq as _ Hq.
    assert (hasChar (ascii_of_nat 59) (mime +:+ String (ascii_of_nat 59) q) = true) as Hx.
    { rewrite hasChar_app. simpl. by rewrite orb_true_r. }
    rewrite <-Hq in Hx. done.
Qed.

(** A file input reaches the disk with the bytes it was uploaded with: the
    content of a base64 data URL, of whatever media type, decodes to what was
    encoded. *)
Theorem extractContentFromDataUrl_roundtrip (mime content : string)
    (Hmime : Contains mime base64Marker = false) (Hline : hasChar (ascii_of_nat 10) mime = false) :
  extractContentFromDataUrl ("data:" +:+ mime +:+ base64Marker +:+ EncodeToString content) = Ok content.
Proof.
  unfold extractContentFromDataUrl.
  assert (findDataUrl ("data:" +:+ mime +:+ base64Marker +:+ EncodeToString content)
    = Some ("data:" +:+ mime +:+ base64Marker)) as ->.
  { set (rest := mime +:+ base64Marker +:+ EncodeToString content).
    assert (CutPrefix ("data:" +:+ rest) "data:" = Some rest) as Hc by by apply CutPrefix_Some.
    assert (untilMarker rest = Some mime) as Hu by by apply untilMarker_app.
    assert (∀ s m, CutPrefix s "data:" = Some rest → untilMarker rest = Some m →
      findDataUrl s = Some ("data:" +:+ m +:+ base64Marker)) as Hf.
    { intros s m Hs Hm. destruct s; cbn [findDataUrl]; rewrite Hs; simpl; by rewrite Hm. }
    by apply Hf. }
  rewrite !string_app_assoc, sdrop_app. apply decode_encode.
Qed.

Lemma extractContentFromDataUrl_roundtrip_witness :
  extractContentFromDataUrl ("data:" +:+ "text/plain;charset=utf-8" +:+ base64Marker +:+ EncodeToString "hi")
    = Ok "hi".
Proof. by apply extractContentFromDataUrl_roundtrip. Defined.

(** The match is not anchored, yet its length is cut off the front: behind
    other text, the wrong bytes are decoded. *)
Example extractContentFromDataUrl_unanchored :
  extractContentFromDataUrl ("ab data:;base64," +:+ EncodeToString "hello!")
    ≠ extractContentFromDataUrl ("data:;base64," +:+ EncodeToString "hello!") ∧
  is_Some (findDataUrl ("ab data:;base64," +:+ EncodeToString "hello!")).
Proof. split; [by vm_compute|]. vm_compute. eauto. Qed.

(** ** The operations *)

Definition meshStackVarsFileName := "meshStack_run_vars.tf".
Definition tfvarsFilename := "aaaaaa_meshstack-e48f8924-a6c0-4ff0-9528-ff3c1f6f94d8.auto.tfvars".

Section TfVars.
Context (env : Env) (lib : HclLib) (info : RunContextInfo) (params : TfCmdParams).

Definition fileProblem (msg : string) (err : error) : M (option error) :=
  PrintlnToLocalAndUpdateLogs env msg;; mret (Some err).

(** Decoding and writing one file input, once its path was looked at. *)
Definition writeInputFile (k : string) (v : InputVariable) (vPath : string) : M (option error) :=
  match decryptIfSensitive (env_fmtFloat env) (env_crypto env) v with
  | None => panic decryptPanic
  | Some (Err err) =>
      PrintlnToUpdateLogs env ("Failed to decrypt file input '" +:+ k +:+ "': " +:+ Error err);;
      mret (Some (errNew ("file input decryption failed for '" +:+ k +:+ "'")))
  | Some (Ok value) =>
      match extractContentFromDataUrl (Sprint (env_fmtFloat env) value) with
      | Err err => fileProblem "Unable to decode file content from DataURL" err
      | Ok fileContent =>
          failure ← os_WriteFile env vPath fileContent;
          match failure with
          | Some err => fileProblem "Unable to write variable file" err
          | None => mret None
          end
      end
  end.

(** The body of the loop for a variable of type FILE. *)
Definition saveInputFile (k : string) (v : InputVariable) : M (option error) :=
  if var_env v then
    let msg := "variable '" +:+ k +:+ "' with type FILE cannot be marked as environment var" in
    fileProblem msg (errNew msg)
  else
    let vPath := path_Join [workingDirectory info; k] in
    stat ← os_Stat env vPath;
    match stat with
    | Some err =>
        if errors_Is isNotExist err then writeInputFile k v vPath
        else fileProblem ("Could not access file: " +:+ k) err
    | None =>
        PrintlnToLocalAndUpdateLogs env ("A file with the name '" +:+ k +:+
          "' already exists in the working directory and will be overwritten by a file input.");;
        writeInputFile k v vPath
    end.

Fixpoint saveInputFiles_loop (l : list (string * InputVariable)) (savedFiles : Z)
    : M (Z * option error) :=
  match l with
  | [] => mret (savedFiles, None)
  | (k, v) :: l =>
      if decide (var_Type v = DATA_TYPE_FILE) then
        failure ← saveInputFile k v;
        match failure with
        | Some err => mret (savedFiles, Some err)
        | None => saveInputFiles_loop l (savedFiles + 1)
        end
      else saveInputFiles_loop l savedFiles
  end.

Definition saveInputFiles : M (Z * option error) :=
  order ← ask (λ t, env_varOrder env t (vars params));
  saveInputFiles_loop order 0.

(** ** The tfvars file *)

(** The name under which a variable goes to the tfvars file; [None] skips it:
    file inputs, plain environment variables, and TF_VAR_ ones that another
    input overrides. *)
Definition tfvarsName (varName : string) (variable : InputVariable) : option string :=
  if decide (var_Type variable = DATA_TYPE_FILE) then None
  else if var_env variable && HasPrefix varName TfVarEnvPrefix then
    let varNameTrimmed := TrimPrefix varName TfVarEnvPrefix in
    match vars params !! varNameTrimmed with
    | Some _ => None
    | None => Some varNameTrimmed
    end
  else if var_env variable then None
  else Some varName.

Definition logDiags (varName : string) (diags : list Diagnostic) : M unit :=
  foldr (λ diag k,
    PrintlnToUpdateLogs env ("While adding variable '" +:+ varName +:+ "': " +:+
      diag_Summary diag +:+ ": " +:+ diag_Detail diag);; k) (mret tt) diags.

(** A call that cannot end overflows the stack. *)
Definition orOverflow {A} (r : option A) : M A :=
  match r with Some a => mret a | None => panic "stack overflow" end.

Definition addVar := AddVariable lib (env_jsonMarshal env) (env_fmtFloat env) addFuel.

Definition stringLikeTypes : list DataType := [DATA_TYPE_STRING; DATA_TYPE_SINGLESELECT].

(** Adds one variable under the name [tfvarsName] gave. *)
Definition addInput (existing : gmap string string) (f : VarsFile lib) (varName : string)
    (variable : InputVariable) : M (result (VarsFile lib)) :=
  match decryptIfSensitive (env_fmtFloat env) (env_crypto env) variable with
  | None => panic decryptPanic
  | Some (Err err) =>
      PrintlnToUpdateLogs env ("Failed to decrypt input '" +:+ varName +:+ "': " +:+ Error err);;
      mret (Err (errNew ("input decryption failed for '" +:+ varName +:+ "'")))
  | Some (Ok decryptedValue) =>
      let encode := negb (bool_decide (var_Type variable ∈ stringLikeTypes)) &&
                    bool_decide (existing !! varName = Some "string") in
      r ← orOverflow
        (if decide (var_Type variable = DATA_TYPE_CODE ∨ var_Type variable = DATA_TYPE_LIST)
         then AddRawVariable lib addVar f varName (Sprint (env_fmtFloat env) decryptedValue) encode
         else addVar f varName decryptedValue encode);
      logDiags varName r.2;;
      mret (Ok r.1)
  end.

Fixpoint addInputs (existing : gmap string string) (l : list (string * InputVariable))
    (f : VarsFile lib) : M (result (VarsFile lib)) :=
  match l with
  | [] => mret (Ok f)
  | (varName, variable) :: l =>
      match tfvarsName varName variable with
      | None => addInputs existing l f
      | Some varName =>
          r ← addInput existing f varName variable;
          match r with
          | Err e => mret (Err e)
          | Ok f => addInputs existing l f
          end
      end
  end.

(** The variables meshStack provides: name, value, and whether it is bound to
    the run. *)
Definition meshStackVars : list (string * string * bool) :=
  [("meshstack_building_block_id", bbId info, false);
   ("meshstack_building_block_run_b64", runJsonBase64 info, true);
   ("meshstack_building_block_run_id", runId info, true)].

Definition includeRunScopedVars : bool :=
  bool_decide (runMode params ≠ "DETECT") && bool_decide (artifactUrl params = "").

Definition variableBlock (name : string) (runScoped : bool) : WItem (Cty lib) :=
  WBlock "variable" [name]
    (WTraversal "type" "string" ::
     if runScoped then [WAttr "nullable" (BoolVal lib true); WAttr "default" (NullString lib)]
     else [WAttr "nullable" (BoolVal lib false)]).

Fixpoint addMeshStackVars (existing : gmap string string) (l : list (string * string * bool))
    (f : VarsFile lib) (decls : list (WItem (Cty lib)))
    : M (VarsFile lib * list (WItem (Cty lib))) :=
  match l with
  | [] => mret (f, decls)
  | (name, value, runScoped) :: l =>
      r ← (if negb runScoped || includeRunScopedVars
           then orOverflow (addVar f name (anyStr value) false)
           else mret (f, []));
      let f := r.1 in
      if HasErrors r.2 then logDiags name r.2;; addMeshStackVars existing l f decls
      else match existing !! name with
      | Some _ => addMeshStackVars existing l f decls
      | None => addMeshStackVars existing l f (decls ++ [variableBlock name runScoped])
      end
  end.

Definition writeDeclarations (decls : list (WItem (Cty lib))) : M (option error) :=
  let content := hclBytes lib decls in
  if decide (content = "") then mret None
  else
    let path := path_Join [workingDirectory info; meshStackVarsFileName] in
    stat ← os_Stat env path;
    match stat with
    | Some e =>
        if errors_Is isNotExist e then
          failure ← os_WriteFile env path content;
          mret match failure with
          | Some e => Some (errWrap "failed to write meshStack_run_vars.tf: " e "")
          | None => None
          end
        else mret None
    | None => mret None
    end.

Definition writeVarsFile (f : VarsFile lib) : M (option error) :=
  failure ← os_WriteFile env (path_Join [workingDirectory info; tfvarsFilename])
              (VarsFile_Bytes lib f);
  match failure with
  | Some e =>
      PrintlnToLocalAndUpdateLogs env ("Unable to write " +:+ tfvarsFilename +:+ " file");;
      mret (Some (errWrap ("failed to write " +:+ tfvarsFilename +:+ ": ") e ""))
  | None => mret None
  end.

Definition vars_cmd : M (option error) :=
  t ← gets trace;
  fs ← gets files;
  let '(existing, diags) := ParseVariableInputs lib (env_osErr env t) fs (workingDirectory info) in
  existing ← (if HasErrors diags then
      PrintlnToUpdateLogs env ("Failed to parse Terraform config for variable inputs: " +:+
        diagsError lib diags);;
      mret ∅
    else mret existing);
  r ← addInputs existing (SortedByKeys (vars params)) (NewEmptyVarsFile lib);
  match r with
  | Err e => mret (Some e)
  | Ok f =>
      r ← addMeshStackVars existing meshStackVars f [];
      failure ← writeDeclarations r.2;
      match failure with
      | Some e => mret (Some e)
      | None => writeVarsFile r.1
      end
  end.

(** ** Frames *)

Section Quiet.
Context {policy : PanicPolicy}.

Lemma Quiet_fileProblem msg err : Quiet (fileProblem msg err).
Proof. unfold fileProblem. quiet. Qed.
#[local] Hint Resolve Quiet_fileProblem : quiet.

Lemma Quiet_writeInputFile k v p :
  decryptSafe env v → Quiet (writeInputFile k v p).
Proof.
  intros Hv. unfold writeInputFile, decryptSafe in *.
  destruct (decryptIfSensitive _ _ v) as [[val|e]|]; [quiet..|by apply Quiet_panic, Hv].
Qed.

Lemma Quiet_saveInputFiles_loop l n : Forall (λ kv, decryptSafe env kv.2) l → Quiet (saveInputFiles_loop l n).
Proof.
  intros Hl. revert n. induction Hl as [|[k v] l Hv Hl IH]; intros n; simpl; [quiet|].
  destruct (decide _); [|auto]. pose proof (λ p, Quiet_writeInputFile k v p Hv) as Hw.
  unfold saveInputFile. quiet.
Qed.

Lemma Quiet_saveInputFiles :
  rangesOverVars env params → varsSafe env params → Quiet saveInputFiles.
Proof.
  intros Hr Hs w Hw. apply wp_bind, wp_gets. apply Quiet_saveInputFiles_loop; [|done].
  by apply varsSafe_order.
Qed.

Lemma Quiet_logDiags n diags : Quiet (logDiags n diags).
Proof. induction diags; simpl; quiet. Qed.
#[local] Hint Resolve Quiet_logDiags : quiet.

Lemma Quiet_addInputs existing l f :
  stringsConvert lib → Forall (λ kv, decryptSafe env kv.2) l → Quiet (addInputs existing l f).
Proof.
  intros Hstr Hl. revert f. induction Hl as [|[k v] l Hv Hl IH]; intros f; simpl; [quiet|].
  destruct (tfvarsName k v) as [n|]; [|auto]. simpl in Hv. unfold addInput, decryptSafe in *.
  destruct (decryptIfSensitive _ _ v) as [[val|e]|]; [|quiet|by apply Quiet_bind; [apply Quiet_panic, Hv|intros []; quiet]].
  match goal with |- context [orOverflow (if decide ?P then AddRawVariable _ _ _ _ ?raw ?enc else _)] =>
    set (b := decide P); set (encode := enc);
    destruct (AddVariable_outcome lib (env_jsonMarshal env) (env_fmtFloat env) f n val encode Hstr)
      as (f1 & d1 & E1 & _);
    destruct (AddRawVariable_sets lib (env_jsonMarshal env) (env_fmtFloat env) 3 f n raw encode Hstr)
      as (v2 & d2 & E2) end.
  fold addFuel in E2.
  fold addVar in E1, E2. rewrite E1, E2. destruct b; simpl; quiet.
Qed.

Lemma Quiet_addMeshStackVars existing l f decls :
  stringsConvert lib → Quiet (addMeshStackVars existing l f decls).
Proof.
  intros Hstr. revert f decls. induction l as [|[[n v] rs] l IH]; intros f decls; simpl; [quiet|].
  destruct (AddVariable_string lib (env_jsonMarshal env) (env_fmtFloat env) 3 f n v Hstr) as [cv E].
  fold addFuel in E. fold addVar in E. rewrite E. quiet.
Qed.

Lemma Quiet_vars_cmd : stringsConvert lib → varsSafe env params → Quiet vars_cmd.
Proof.
  intros Hstr Hs. unfold vars_cmd, writeDeclarations, writeVarsFile.
  assert (Forall (λ kv, decryptSafe env kv.2) (SortedByKeys (vars params))) as Hd.
  { rewrite SortedByKeys_perm. apply map_Forall_to_list in Hs.
    eapply Forall_impl; [|exact Hs]. by intros [k v]. }
  pose proof (λ e f, Quiet_addInputs e _ f Hstr Hd) as H1.
  pose proof (λ e f d, Quiet_addMeshStackVars e meshStackVars f d Hstr) as H2. quiet.
Qed.

End Quiet.

Section Emits.
Context (C : event → Prop) {HL : AllowsLog C} {HF : AllowsFile C}.

Lemma Emits_saveInputFiles : Emits C saveInputFiles.
Proof.
  apply Emits_bind; [apply Emits_ask|]. intros l. generalize 0%Z.
  induction l as [|[k v] l IH]; intros n; simpl;
    unfold saveInputFile, writeInputFile, fileProblem; emits.
Qed.

Lemma Emits_logDiags n diags : Emits C (logDiags n diags).
Proof. induction diags; simpl; emits. Qed.

Lemma Emits_orOverflow {A} (r : option A) : Emits C (orOverflow r).
Proof. unfold orOverflow. emits. Qed.
#[local] Hint Resolve Emits_logDiags Emits_orOverflow : emits.

Lemma Emits_addInputs existing l f : Emits C (addInputs existing l f).
Proof. revert f. induction l as [|[k v] l IH]; intros f; simpl; unfold addInput; emits. Qed.

Lemma Emits_addMeshStackVars existing l f decls : Emits C (addMeshStackVars existing l f decls).
Proof. revert f decls. induction l as [|[[n v] rs] l IH]; intros f decls; simpl; emits. Qed.
#[local] Hint Resolve Emits_addInputs Emits_addMeshStackVars : emits.

Lemma Emits_vars_cmd : Emits C vars_cmd.
Proof. unfold vars_cmd, writeDeclarations, writeVarsFile. emits. Qed.
End Emits.

(** ** Properties *)

(** The inputs that belong in the tfvars file, each with its name there: those
    that are neither files nor environment variables under their own, and an
    environment variable TF_VAR_<n> as [n], unless an input is called [n]. *)
Inductive TfvarsInput : string → InputVariable → string → Prop :=
  | TfvarsInput_plain k v :
      vars params !! k = Some v → var_Type v ≠ DATA_TYPE_FILE → var_env v = false → TfvarsInput k v k
  | TfvarsInput_env n v :
      vars params !! ("TF_VAR_" +:+ n) = Some v → var_Type v ≠ DATA_TYPE_FILE → var_env v = true →
      vars params !! n = None → TfvarsInput ("TF_VAR_" +:+ n) v n.

Lemma TrimPrefix_env n : TrimPrefix (TfVarEnvPrefix +:+ n) TfVarEnvPrefix = n.
Proof.
  unfold TrimPrefix. assert (CutPrefix (TfVarEnvPrefix +:+ n) TfVarEnvPrefix = Some n) as -> by by apply CutPrefix_Some.
  done.
Qed.

Lemma tfvarsName_TfvarsInput k v n :
  vars params !! k = Some v → tfvarsName k v = Some n ↔ TfvarsInput k v n.
Proof.
  intros Hk. unfold tfvarsName. split.
  - case_decide; [done|]. destruct (var_env v) eqn:He; simpl.
    + destruct (HasPrefix k TfVarEnvPrefix) eqn:Hp; [|done]. apply HasPrefix_spec in Hp as [n' ->].
      rewrite TrimPrefix_env. destruct (vars params !! n') eqn:Hn; [done|]. intros [= <-].
      by apply TfvarsInput_env.
    + intros [= <-]. by apply TfvarsInput_plain.
  - intros [k' v' _ Ht He|n' v' _ Ht He Hn]; rewrite decide_False by done; rewrite He; cbn [andb]; [done|].
    assert (HasPrefix (TfVarEnvPrefix +:+ n') TfVarEnvPrefix = true) as Hp by (apply HasPrefix_spec; eauto).
    change "TF_VAR_" with TfVarEnvPrefix. by rewrite Hp, TrimPrefix_env, Hn.
Qed.

Lemma TfvarsInput_unique k1 v1 k2 v2 n : TfvarsInput k1 v1 n → TfvarsInput k2 v2 n → k1 = k2 ∧ v1 = v2.
Proof. intros [] Hi; inversion Hi; simplify_eq; done. Qed.

Lemma TfvarsInput_input k v n : TfvarsInput k v n → vars params !! k = Some v.
Proof. by intros []. Qed.

(** The value an input gets in the file, from its decrypted value and the type
    the configuration declares for it: CODE and LIST inputs are expressions;
    an input that is no text is encoded where a string is declared. *)
Definition InputValue (declared : option string) (v : InputVariable) (value : any) (r : option (Cty lib)) : Prop :=
  let encode := bool_decide (var_Type v ≠ DATA_TYPE_STRING ∧ var_Type v ≠ DATA_TYPE_SINGLESELECT ∧
                             declared = Some "string") in
  if decide (var_Type v = DATA_TYPE_CODE ∨ var_Type v = DATA_TYPE_LIST)
  then RawValue lib (Sprint (env_fmtFloat env) value) encode r
  else AnyValue lib (env_jsonMarshal env) (env_fmtFloat env) value encode r.

Definition names (f : VarsFile lib) : list string := f.*1.

Lemma NoDup_setTo (f : VarsFile lib) n r : NoDup (names f) → NoDup (names (setTo lib f n r)).
Proof.
  destruct r as [v|]; [|done]. unfold names. simpl. induction f as [|[m w] f IH]; simpl; intros Hnd.
  { apply NoDup_singleton. }
  apply list.NoDup_cons in Hnd as [Hm Hnd]. case_decide as Hc; simpl; [by apply list.NoDup_cons|].
  apply list.NoDup_cons. split; [|by apply IH]. clear IH Hnd. induction f as [|[m' w'] f IH]; simpl in *.
  { set_solver. }
  case_decide; simpl; set_solver.
Qed.

Lemma orOverflow_Done {A} (r : option A) w a w' :
  orOverflow r w = (Done a, w') → r = Some a ∧ w' = w.
Proof. destruct r; simpl; unfold mret, M_ret; intros; by simplify_eq. Qed.

(** An input sets its own name only, to the value it is to have. *)
Lemma addInput_Done existing f n v w f' w' :
  stringsConvert lib → addInput existing f n v w = (Done (Ok f'), w') →
  ∃ value r, decryptIfSensitive (env_fmtFloat env) (env_crypto env) v = Some (Ok value) ∧
    InputValue (existing !! n) v value r ∧ f' = setTo lib f n r.
Proof.
  intros Hstr Hr. unfold addInput in Hr.
  destruct (decryptIfSensitive _ _ v) as [[val|e]|]; [| |done].
  2: { apply M_bind_Done in Hr as (u & w2 & _ & Hr). by apply M_ret_Done in Hr as [? _]. }
  apply M_bind_Done in Hr as ([f1 ds] & w1 & [Hadd ->]%orOverflow_Done & Hr).
  apply M_bind_Done in Hr as (u & w2 & _ & Hr). apply M_ret_Done in Hr as [Hf ->]. simplify_eq/=.
  exists val. unfold InputValue. 
  assert (negb (bool_decide (var_Type v ∈ stringLikeTypes)) && bool_decide (existing !! n = Some "string") =
    bool_decide (var_Type v ≠ DATA_TYPE_STRING ∧ var_Type v ≠ DATA_TYPE_SINGLESELECT ∧
      existing !! n = Some "string")) as He.
  { apply eq_bool_prop_intro. rewrite andb_True, negb_True, !bool_decide_spec. unfold stringLikeTypes. set_solver. }
  rewrite He in Hadd. clear He. cbv zeta. revert Hadd. generalize (bool_decide (var_Type v ≠ DATA_TYPE_STRING ∧
    var_Type v ≠ DATA_TYPE_SINGLESELECT ∧ existing !! n = Some "string")) as encode. intros encode Hadd.
  destruct (decide (var_Type v = DATA_TYPE_CODE ∨ var_Type v = DATA_TYPE_LIST)).
  - destruct (AddRawVariable_written lib (env_jsonMarshal env) (env_fmtFloat env) 3 f n
      (Sprint (env_fmtFloat env) val) encode Hstr) as (r & ds' & E & Hv).
    fold addFuel in E. fold addVar in E. rewrite E in Hadd. simplify_eq. by exists r.
  - destruct (AddVariable_written lib (env_jsonMarshal env) (env_fmtFloat env) f n val encode Hstr)
      as (r & ds' & E & Hv).
    fold addVar in E. rewrite E in Hadd. simplify_eq. by exists r.
Qed.

(** All inputs of a list: each under its own name, and nothing else. *)
Lemma addInputs_Done existing l f w f' w' :
  stringsConvert lib → NoDup l.*1 →
  (∀ k v, (k, v) ∈ l → vars params !! k = Some v) →
  addInputs existing l f w = (Done (Ok f'), w') →
  (NoDup (names f) → NoDup (names f')) ∧
  (∀ k v n, (k, v) ∈ l → TfvarsInput k v n → value_of lib f n = None →
     ∃ value, decryptIfSensitive (env_fmtFloat env) (env_crypto env) v = Some (Ok value) ∧
       InputValue (existing !! n) v value (value_of lib f' n)) ∧
  (∀ n, (∀ k v, (k, v) ∈ l → ¬ TfvarsInput k v n) → value_of lib f' n = value_of lib f n).
Proof.
  intros Hstr. revert f w. induction l as [|[k v] l IH]; intros f w Hnd Hl Hr; simpl in Hr.
  { apply M_ret_Done in Hr as [? _]. simplify_eq. split_and!; [done|set_solver|done]. }
  cbn in Hnd. apply list.NoDup_cons in Hnd as [Hk Hnd].
  assert (vars params !! k = Some v) as Hkv by (apply Hl; set_solver).
  assert (∀ k v, (k, v) ∈ l → vars params !! k = Some v) as Hl' by (intros; apply Hl; set_solver).
  destruct (tfvarsName k v) as [m|] eqn:Hm.
  - apply (tfvarsName_TfvarsInput _ _ _ Hkv) in Hm.
    apply M_bind_Done in Hr as ([f1|e] & w1 & Hadd & Hr); [|by apply M_ret_Done in Hr as [? _]].
    destruct (addInput_Done _ _ _ _ _ _ _ Hstr Hadd) as (value & r & Hdec & Hv & ->).
    destruct (IH _ _ Hnd Hl' Hr) as (H1 & H2 & H3).
    assert (∀ k' v', (k', v') ∈ l → ¬ TfvarsInput k' v' m) as Hother.
    { intros k' v' Hin Hi. destruct (TfvarsInput_unique _ _ _ _ _ Hm Hi) as [<- <-]. apply Hk.
      apply list_elem_of_fmap. by exists (k, v). }
    split_and!.
    + intros Hn. by apply H1, NoDup_setTo.
    + intros k' v' n [[= -> ->]|Hin]%elem_of_cons Hi Hn.
      * assert (n = m) as -> by (inversion Hi; inversion Hm; simplify_eq; congruence || done).
        exists value. split; [done|]. rewrite (H3 _ Hother), value_of_setTo, decide_True by done. done.
      * apply (H2 k'); [done..|]. assert (n ≠ m) by (intros ->; by eapply Hother).
        destruct r; simpl; [|done]. by rewrite value_of_Set, decide_False.
    + intros n Hn. rewrite H3 by set_solver. assert (n ≠ m) by (intros ->; eapply Hn; [by left|done]).
      destruct r; simpl; [|done]. by rewrite value_of_Set, decide_False.
  - destruct (IH _ _ Hnd Hl' Hr) as (H1 & H2 & H3). split_and!; [done| |].
    + intros k' v' n [[= -> ->]|Hin]%elem_of_cons Hi Hn; [|by apply (H2 k')].
      apply (tfvarsName_TfvarsInput _ _ _ Hkv) in Hi. congruence.
    + intros n Hn. apply H3. set_solver.
Qed.

(** The variables of meshStack that end up in the file, with their values. *)
Definition written (l : list (string * string * bool)) : list (string * string) :=
  omap (λ '(n, v, rs), if negb rs || includeRunScopedVars then Some (n, v) else None) l.

Lemma addMeshStackVars_spec existing l f decls w f' decls' w' :
  stringsConvert lib → NoDup (l.*1.*1) →
  addMeshStackVars existing l f decls w = (Done (f', decls'), w') →
  (NoDup (names f) → NoDup (names f')) ∧
  (∀ n v, (n, v) ∈ written l → value_of lib f' n = ctyOf lib (anyStr v)) ∧
  (∀ n, n ∉ (written l).*1 → value_of lib f' n = value_of lib f n).
Proof.
  intros Hstr. revert f decls w. induction l as [|[[n v] rs] l IH]; intros f decls w Hnd Hr; simpl in Hr.
  - apply M_ret_Done in Hr as [? _]. simplify_eq. split_and!; [done|set_solver|done].
  - cbn in Hnd. apply list.NoDup_cons in Hnd as [Hn Hnd].
    assert (∀ n' v', (n', v') ∈ written l → n' ∈ l.*1.*1) as Hsub.
    { intros n' v' ([[m u] b] & Hin & Hm)%list_elem_of_omap. case_match; simplify_eq.
      apply list_elem_of_fmap. exists (n', v'). split; [done|]. apply list_elem_of_fmap. by exists (n', v', b). }
    destruct (AddVariable_ctyOf lib (env_jsonMarshal env) (env_fmtFloat env) 3 f n v Hstr)
      as (cv & Hcv & E). fold addFuel in E. fold addVar in E. rewrite E in Hr.
    cbn [written omap list_omap]. fold written.
    change (list_omap _ _ _ l) with (written l).
    destruct (negb rs || includeRunScopedVars).
    + apply M_bind_Done in Hr as ([f1 ds] & w1 & [Hf ->]%orOverflow_Done & Hr). simplify_eq/=.
      assert (∃ d2, addMeshStackVars existing l (SetAttributeValue lib f n cv) d2 w = (Done (f', decls'), w'))
        as [d2 Hr'] by (destruct (existing !! n); eauto).
      apply IH in Hr' as (H1 & H2 & H3); [|done]. split_and!.
      * intros Hf. apply H1. by apply (NoDup_setTo f n (Some cv)).
      * intros n' v' [[= -> ->]|?]%elem_of_cons; [|by apply H2].
        rewrite H3, value_of_Set, decide_True; [done..|].
        intros ([? u] & -> & Hu)%list_elem_of_fmap. by apply Hn, (Hsub _ u).
      * intros n' Hn'. rewrite H3, value_of_Set, decide_False by set_solver. done.
    + apply M_bind_Done in Hr as ([f1 ds] & w1 & [Hf ->]%M_ret_Done & Hr). simplify_eq/=.
      assert (∃ d2, addMeshStackVars existing l f1 d2 w1 = (Done (f', decls'), w'))
        as [d2 Hr'] by (destruct (existing !! n); eauto).
      by apply IH in Hr'.
Qed.

Lemma writeVarsFile_Done f w w' :
  writeVarsFile f w = (Done None, w') →
  files w' !! path_Join [workingDirectory info; tfvarsFilename] = Some (VarsFile_Bytes lib f).
Proof.
  intros (r & w1 & Hw & Hr)%M_bind_Done. destruct r as [e|].
  - apply M_bind_Done in Hr as (? & ? & _ & [? _]%M_ret_Done). done.
  - apply M_ret_Done in Hr as [_ ->].
    apply M_bind_Done in Hw as (fail & w2 & _ & Hw). destruct fail as [e|].
    + apply M_bind_Done in Hw as (? & ? & _ & Hw).
      apply M_bind_Done in Hw as (? & ? & _ & [? _]%M_ret_Done). done.
    + apply M_bind_Done in Hw as (? & w3 & Hm & [_ ->]%M_ret_Done).
      injection Hm as <- <-. simpl. apply lookup_insert_eq.
Qed.

(** The type the configuration in the working directory declares for a
    variable; none is known when it cannot be parsed. *)
Definition declaredType (w : World) (n : string) : option string :=
  let '(existing, diags) := ParseVariableInputs lib (env_osErr env (trace w)) (files w) (workingDirectory info) in
  if HasErrors diags then None else existing !! n.

(** What meshStack itself provides: the building block, and the run except
    when planning for a dry run or replaying a saved plan. *)
Inductive Provided : string → string → Prop :=
  | Provided_block : Provided "meshstack_building_block_id" (bbId info)
  | Provided_payload :
      runMode params ≠ "DETECT" → artifactUrl params = "" →
      Provided "meshstack_building_block_run_b64" (runJsonBase64 info)
  | Provided_run :
      runMode params ≠ "DETECT" → artifactUrl params = "" →
      Provided "meshstack_building_block_run_id" (runId info).

(** What the file says of the name [n]. *)
Inductive Content (w : World) (n : string) : option (Cty lib) → Prop :=
  | Content_provided value : Provided n value → Content w n (ctyOf lib (anyStr value))
  | Content_input k v value r :
      (∀ value, ¬ Provided n value) → TfvarsInput k v n →
      decryptIfSensitive (env_fmtFloat env) (env_crypto env) v = Some (Ok value) →
      InputValue (declaredType w n) v value r → Content w n r
  | Content_none : (∀ value, ¬ Provided n value) → (∀ k v, ¬ TfvarsInput k v n) → Content w n None.

Lemma written_Provided n value : (n, value) ∈ written meshStackVars ↔ Provided n value.
Proof.
  unfold written, meshStackVars, includeRunScopedVars. cbn [omap list_omap negb orb].
  destruct (bool_decide_reflect (runMode params ≠ "DETECT")), (bool_decide_reflect (artifactUrl params = ""));
    simpl; rewrite ?elem_of_cons, ?elem_of_nil; split; intros Hp.
  all: try (destruct Hp as [[= -> ->]|Hp]; [by constructor|]).
  all: try (destruct Hp as [[= -> ->]|Hp]; [by constructor|]).
  all: try (destruct Hp as [[= -> ->]|Hp]; [by constructor|]).
  all: try done.
  all: destruct Hp; auto; done.
Qed.

Lemma TfvarsInput_decide n : (∃ k v, TfvarsInput k v n) ∨ ∀ k v, ¬ TfvarsInput k v n.
Proof.
  destruct (decide (Exists (λ kv, tfvarsName kv.1 kv.2 = Some n) (map_to_list (vars params)))) as [He|He].
  - apply list.Exists_exists in He as ([k v] & Hin%elem_of_map_to_list & Hn).
    left. exists k, v. by apply tfvarsName_TfvarsInput.
  - right. intros k v Hi. pose proof (TfvarsInput_input _ _ _ Hi) as Hk. apply He, list.Exists_exists.
    exists (k, v). split; [by apply elem_of_map_to_list|]. by apply tfvarsName_TfvarsInput.
Qed.

(** C33. When [vars] succeeds, the tfvars file holds exactly the inputs that
    belong in it and what meshStack provides, each name once. A name that
    meshStack provides (the building block id always, the deprecated
    run-scoped variables on a fresh apply or destroy only) has meshStack's
    value; any other name of an input has the decrypted value of that input,
    typed or encoded as its data type and the declared variable ask for, or
    none if that value does not convert; and nothing else is there, no file
    input and no plain environment variable. *)
Theorem vars_tfvars_file (w w' : World)
    (Hstr : stringsConvert lib) (Hrun : vars_cmd w = (Done None, w')) :
  ∃ f, files w' !! path_Join [workingDirectory info; tfvarsFilename] = Some (VarsFile_Bytes lib f) ∧
    NoDup (names f) ∧ ∀ n, Content w n (value_of lib f n).
Proof.
  unfold vars_cmd in Hrun. apply M_bind_Done in Hrun as (t & w1 & [= <- <-] & Hrun).
  apply M_bind_Done in Hrun as (fs & w2 & [= <- <-] & Hrun).
  assert (∀ n, declaredType w n = (let '(existing, diags) := ParseVariableInputs lib (env_osErr env (trace w))
    (files w) (workingDirectory info) in if HasErrors diags then ∅ else existing) !! n) as Hdecl.
  { intros n. unfold declaredType. destruct (ParseVariableInputs _ _ _ _) as [existing diags]. by case_match. }
  destruct (ParseVariableInputs _ _ _ _) as [existing diags].
  apply M_bind_Done in Hrun as (ex & w3 & Hex & Hrun).
  assert (ex = if HasErrors diags then ∅ else existing) as ->.
  { destruct (HasErrors diags); [|by apply M_ret_Done in Hex as [-> _]].
    apply M_bind_Done in Hex as (? & ? & _ & Hex). by apply M_ret_Done in Hex as [-> _]. }
  apply M_bind_Done in Hrun as ([f|e] & w4 & Hadd & Hrun); [|by apply M_ret_Done in Hrun as [? _]].
  apply M_bind_Done in Hrun as ([f' decls] & w5 & Hmesh & Hrun).
  apply M_bind_Done in Hrun as (fail & w6 & _ & Hrun). destruct fail; [by apply M_ret_Done in Hrun as [? _]|].
  exists f'. split; [by eapply writeVarsFile_Done|].
  apply addMeshStackVars_spec in Hmesh as (M1 & M2 & M3); [|done|apply (bool_decide_unpack _); vm_compute; exact I].
  apply addInputs_Done in Hadd as (I1 & I2 & I3); [|done|rewrite SortedByKeys_perm; apply NoDup_fst_map_to_list|by intros ?? ?%elem_of_SortedByKeys].
  split; [apply M1, I1; constructor|]. intros n.
  destruct (decide (n ∈ (written meshStackVars).*1)) as [Hw|Hw].
  { apply list_elem_of_fmap in Hw as ([n' value] & Hn' & Hw). simpl in Hn'. subst n'. rewrite (M2 _ _ Hw).
    by apply Content_provided, written_Provided. }
  rewrite (M3 _ Hw). assert (∀ value, ¬ Provided n value) as Hp.
  { intros value Hp%written_Provided. apply Hw, list_elem_of_fmap. by exists (n, value). }
  destruct (TfvarsInput_decide n) as [(k & v & Hi)|Hn].
  - destruct (I2 k v n) as (value & Hdec & Hv); [by apply elem_of_SortedByKeys, (TfvarsInput_input _ _ n)|done..|].
    rewrite <-Hdecl in Hv. by eapply Content_input.
  - rewrite I3 by auto. by apply Content_none.
Qed.
End TfVars.

Lemma exampleLib_stringsConvert : stringsConvert exampleLib.
Proof. intros s. by exists tt, (DQ +:+ s +:+ DQ). Defined.

Lemma vars_tfvars_file_witness
    (run := vars_cmd exampleEnv exampleLib exampleInfo (exampleParams "DETECT" "" "") exampleWorld) :
  run.1 = Done None ∧
  ∃ f, files run.2 !! "/wd/aaaaaa_meshstack-e48f8924-a6c0-4ff0-9528-ff3c1f6f94d8.auto.tfvars"
       = Some (VarsFile_Bytes exampleLib f) ∧
    Content exampleEnv exampleLib exampleInfo (exampleParams "DETECT" "" "") exampleWorld "region"
      (value_of exampleLib f "region").
Proof.
  split; [vm_compute; reflexivity|].
  destruct (vars_tfvars_file exampleEnv exampleLib exampleInfo (exampleParams "DETECT" "" "")
    exampleWorld run.2 exampleLib_stringsConvert ltac:(vm_compute; reflexivity)) as (f & Hf & _ & Hc).
  exists f. split; [exact Hf|apply Hc].
Defined.
