(* ===== verification/TfBinaries.v ===== *)
(** * TfBinaries: which binary runs a Terraform version

    Models tf-block-runner/tfrun/tfbinaries.go without its test mode: making
    the installation directory at the start, reusing an installed binary, or installing Terraform up to version 1.5.5 and
    OpenTofu above. Version comparison, the downloads and the operating system
    are the environment's. The mutex is held for the whole call, and the model
    runs one call at a time. *)

From S2P Require Import Prelude GoPath Status TfConfig Run RunM Example Frame.

Definition terraformBinary := "terraform".
Definition maxTFVersion := "1.5.5".

(** ** The installation directory *)

(** [mkdirAll] is [os.MkdirAll]'s answer. Of the struct only the directory
    matters; a failure leaves no binaries. *)
Definition prepareInstallDir (mkdirAll : string → option error) (dir : string) : option error := mkdirAll dir.

Definition NewTfBin (mkdirAll : string → option error) (parentInstallDir : string) : result string :=
  match prepareInstallDir mkdirAll parentInstallDir with
  | Some err => Err err
  | None => Ok parentInstallDir
  end.

(** ** The binary of a version *)

Section TfBinaries.
Context (env : Env) (installDir : string).

Definition expectedExecPath (ver : string) : string := path_Join [installDir; ver; terraformBinary].

(** Runs [k] unless the operation fails. *)
Definition unlessFails {A} (op path : string) (k : M (result A)) : M (result A) :=
  failure ← osFails env op path;
  match failure with Some e => mret (Err e) | None => k end.

(** [tfexec.NewTerraform]. *)
Definition NewTerraform (execPath : string) : M (result unit) :=
  unlessFails "newterraform" execPath (mret (Ok tt)).

Definition installTofuBinaries (ver dir : string) : M (result unit) :=
  unlessFails "tofudl" ver (
    modify (emit (EvInstall "tofu" ver));;
    unlessFails "download" ver (
      failure ← os_WriteFile env (path_Join [dir; terraformBinary]) "tofu";
      match failure with
      | Some e => mret (Err e)
      | None => unlessFails "symlink" (path_Join [dir; "tofu"]) (mret (Ok tt))
      end)).

(** [releases.ExactVersion.Install]. *)
Definition installTerraform (ver execPath : string) : M (result unit) :=
  modify (emit (EvInstall "terraform" ver));;
  unlessFails "install" ver (
    modify (λ w, set_files (<[execPath := "terraform"]> (files w)) w);; mret (Ok tt)).

Definition GetTF (ver : string) : M (result unit) :=
  let execPath := expectedExecPath ver in
  statErr ← osFails env "stat" execPath;
  present ← gets (λ w, bool_decide (is_Some (files w !! execPath)));
  if bool_decide (statErr = None) && (present : bool) then NewTerraform execPath
  else
    let versionInstallPath := path_Join [installDir; ver] in
    removed ← os_RemoveAll env versionInstallPath;
    match removed with
    | Some e => mret (Err e)
    | None =>
        unlessFails "mkdirall" versionInstallPath (
          match env_versionCompare env ver maxTFVersion with
          | None => panic "malformed version"
          | Some c =>
              installed ← match c with
                | Gt => installTofuBinaries ver versionInstallPath
                | _ => installTerraform ver execPath
                end;
              match installed with
              | Err e => mret (Err e)
              | Ok _ => NewTerraform execPath
              end
          end)
    end.

Lemma Quiet_GetTF {policy : PanicPolicy} ver :
  (env_versionCompare env ver maxTFVersion = None → lets_panic "malformed version") → Quiet (GetTF ver).
Proof.
  intros Hv. unfold GetTF, NewTerraform, installTofuBinaries, installTerraform, unlessFails.
  assert (∀ p v, Quiet (modify (emit (EvInstall p v)))) as Hi by (intros; by apply Quiet_emit).
  destruct (env_versionCompare env ver maxTFVersion) as [c|]; [quiet|].
  assert (Quiet (panic (A := result unit) "malformed version")) as Hp by by apply Quiet_panic, Hv. quiet.
Qed.

Lemma Emits_GetTF C `{!AllowsLog C} `{!AllowsFile C} ver :
  (∀ p v, C (EvInstall p v)) → Emits C (GetTF ver).
Proof.
  intros HC.
  assert (∀ p v, Emits C (modify (emit (EvInstall p v)))) as Hi.
  { intros. by apply (Emits_modify_emit _ _ (EvInstall p v)). }
  unfold GetTF, NewTerraform, installTofuBinaries, installTerraform, unlessFails. emits.
  all: by apply Emits_modify_same.
Qed.

(** ** Properties *)

Definition onDisk (ver : string) (w : World) : Prop :=
  env_osErr env (trace w) "stat" (expectedExecPath ver) = None ∧
  is_Some (files w !! expectedExecPath ver).

(** Terraform up to 1.5.5, OpenTofu above. *)
Definition product (ver : string) : string :=
  match env_versionCompare env ver maxTFVersion with Some Gt => "tofu" | _ => "terraform" end.

Definition installsOnly (ver : string) (ev : event) : Prop :=
  match ev with EvInstall p v => p = product ver ∧ v = ver | _ => True end.

Lemma installsOnly_log ver : AllowsLog (installsOnly ver).
Proof. by split. Qed.
Lemma installsOnly_file ver : AllowsFile (installsOnly ver).
Proof. done. Qed.

Lemma GetTF_onDisk ver w : onDisk ver w → GetTF ver w = NewTerraform (expectedExecPath ver) w.
Proof.
  intros [Hs Hf]. unfold GetTF, mbind at 1 2, M_bind at 1 2, osFails at 1, ask, gets.
  by rewrite Hs, !bool_decide_eq_true_2.
Qed.

Lemma Total_GetTF ver : env_versionCompare env ver maxTFVersion ≠ None → Total (GetTF ver).
Proof.
  unfold GetTF, NewTerraform, installTofuBinaries, installTerraform, unlessFails, os_RemoveAll,
    os_WriteFile, osFails, ask.
  destruct (env_versionCompare env ver maxTFVersion) as [c|]; [|done]. intros _. total.
Qed.

Lemma installs_GetTF ver w : extends (λ ev _, installsOnly ver ev) (trace w) (trace (GetTF ver w).2).
Proof.
  pose proof (installsOnly_log ver). pose proof (installsOnly_file ver).
  assert (Emits (installsOnly ver) (modify (emit (EvInstall (product ver) ver)))) as Hi.
  { by apply (Emits_modify_emit _ _ (EvInstall (product ver) ver)). }
  assert (Emits (installsOnly ver) (GetTF ver)) as Hm; [|apply Hm].
  unfold GetTF, NewTerraform, installTofuBinaries, installTerraform, unlessFails.
  unfold product in Hi.
  destruct (env_versionCompare env ver maxTFVersion) as [[]|]; emits.
  all: by apply Emits_modify_same.
Qed.

(** A version that is on disk is used without installing anything; for
    another version nothing but that version is installed, as Terraform up to
    1.5.5 and as OpenTofu above. The call panics, in place of failing the run,
    only when it has to install a version that does not parse. *)
Theorem GetTF_product (ver : string) (w : World) :
  (onDisk ver w → trace (GetTF ver w).2 = trace w ∧ files (GetTF ver w).2 = files w) ∧
  extends (λ ev _, installsOnly ver ev) (trace w) (trace (GetTF ver w).2) ∧
  (∀ msg, (GetTF ver w).1 = Panicked msg →
     ¬ onDisk ver w ∧ env_versionCompare env ver maxTFVersion = None).
Proof.
  assert (onDisk ver w → ∃ r, GetTF ver w = (Done r, w)) as Hd.
  { intros H. rewrite (GetTF_onDisk ver w H).
    unfold NewTerraform, unlessFails, mbind, M_bind, osFails, ask, gets. simpl.
    destruct (env_osErr _ _ _ _); eauto. }
  split_and!.
  - intros [r ->]%Hd. done.
  - apply installs_GetTF.
  - intros msg Hp. split; [intros [r Hr]%Hd; by rewrite Hr in Hp|].
    destruct (env_versionCompare env ver maxTFVersion) eqn:Hv; [|done].
    destruct (Total_GetTF ver ltac:(by rewrite Hv) w) as [a Ha]. congruence.
Qed.
End TfBinaries.
