(* ===== verification/TfCmd.v ===== *)
(** * TfCmd: what all Terraform commands share

    Models the rest of tf-block-runner/tfrun/tfcmd.go: the moves of the step
    pointer, failing the run, init with the generated meshStack backend,
    workspaces, outputs and the pre-run script. Deadlines put on the context of
    a tofu call show only in the error of the call, which can be any. *)

From S2P Require Import Prelude GoPath Base64 Hcl VarsFile Status MeshDtos TfConfig Run RunM Example Frame GitSource TfEnv Script TfVars TfBinaries.

Definition defaultStateFilename := "terraform.tfstate".
Definition HINT_INIT_FAILED := "Check provider and / or backend config".
Definition stateLockTimeout := "5m".
Definition EP_State (baseUrl workspace buildingBlock : string) : string :=
  baseUrl +:+ "/api/terraform/state/workspace/" +:+ workspace +:+ "/buildingBlock/" +:+ buildingBlock.

Section TfCmd.
Context (env : Env) (lib : HclLib) (cfg : TfRunnerConfig) (info : RunContextInfo)
  (params : TfCmdParams) (installDir : string).

(** ** Steps *)

Definition modifyStatus (f : RunStatus → RunStatus) : M unit :=
  modify (λ w, set_runStatus (f (runStatus w)) w).

Definition firstStepM : M unit := modifyStatus (λ r, (firstStep r).1).

Definition setCurrentStepStatus (status : ExecutionStatus) : M unit :=
  modifyStatus (updateCurrentStep (set_step_Status status)).

Definition nextStepM : M unit :=
  if asyncRun info then mret tt
  else
    modifyStatus (updateCurrentStep (set_step_Status SUCCEEDED));;
    status ← gets runStatus;
    let '(status, err) := nextStep status in
    modifyStatus (λ _, status);;
    match err with
    | Some _ => mret tt
    | None =>
        modifyStatus (updateCurrentStep (set_step_Status IN_PROGRESS));;
        size ← gets logSize;
        modifyStatus (updateCurrentStep (set_step_LogStartIdx size))
    end.

Definition setRunStatus (e : ExecutionStatus) : M unit := modifyStatus (set_Status e).

Definition startRun : M unit :=
  firstStepM;; setRunStatus IN_PROGRESS;; commitStatus.

Definition advanceStep (userMessage : option string) : M unit :=
  setCurrentStepMessage env userMessage;; nextStepM;; commitStatus.

Definition completeRun (userMessage : option string) : M unit :=
  setCurrentStepMessage env userMessage;;
  setCurrentStepStatus SUCCEEDED;;
  setRunStatus SUCCEEDED;;
  commitStatus.

(** ** Failing *)

Definition failureText (err : error) : string :=
  let msgText := Error err in
  if HasPrefix msgText "exit status "
  then "command failed (" +:+ msgText +:+ ") — check the step logs above for error details."
  else msgText.

Definition timeoutText : string :=
  "execution step stopped, because it exceeded the configured timeout of " +:+
  pretty (TfCommandTimeoutMins cfg) +:+ " minutes".

(** The text of a context that has ended, logged when there is one. *)
Definition ctxText (msgText : string) : M string :=
  first ← ask (env_ctxErr env);
  match first with
  | Some DeadlineExceeded => PrintlnToUpdateLogs env timeoutText;; mret timeoutText
  | _ =>
      second ← ask (env_ctxErr env);
      match second with
      | Some (Canceled cause) =>
          let msgText := "execution step cancelled: " +:+ Error cause in
          PrintlnToUpdateLogs env msgText;; mret msgText
      | _ => mret msgText
      end
  end.

Definition failWithUserMsg (err : error) (overrideUserMsg : option string) : M unit :=
  modifyStatus failRunAndNotFinishedSteps;;
  status ← gets runStatus;
  userMsg ← match currentStepStatus status with
    | None => mret None
    | Some _ =>
        let msgText := failureText err in
        PrintlnToUpdateLogs env msgText;;
        msgText ← ctxText msgText;
        mret match overrideUserMsg with Some m => Some m | None => Some msgText end
    end;
  setCurrentStepMessage env userMsg;;
  commitStatus.

Definition fail_ (err : error) : M unit := failWithUserMsg err None.

(** ** Sources and init *)

Definition createFreshCommandWd : M (option error) :=
  CopyToTargetDir env cfg (source params) (workingDirectory info).

Definition detectBackend : M (result bool) :=
  t ← gets trace;
  fs ← gets files;
  let '(found, file, diags) := FindBackendConfig lib (env_osErr env t) fs (workingDirectory info) in
  if HasErrors diags
  then mret (Err (errNew ("errors while detecting backend config: " +:+ diagsError lib diags)))
  else if (found : bool) then
    PrintlnToLocalAndUpdateLogs env ("Found a backend config in " +:+ file);; mret (Ok true)
  else mret (Ok false).

(** The generated configuration: no credentials in it. *)
Definition backendConfig (url : string) : list (WItem (Cty lib)) :=
  let attr name value := WAttr name (StringVal lib value) in
  [WBlock "terraform" []
     [WBlock "backend" ["http"]
        (attr "address" url ::
         if decide (tfStateLockUrl info = "") then []
         else [attr "lock_address" (tfStateLockUrl info); attr "lock_method" "POST";
               attr "unlock_address" (tfStateLockUrl info); attr "unlock_method" "DELETE"])]].

Definition backendUrl : string :=
  EP_State (cmpOr (meshstackBaseUrl info) (api_Url (RunApiBackend cfg)))
    (workspaceIdentifier info) (bbId info).

Definition backendFileName (now : Z) : string := "meshStack_httpbackend-" +:+ pretty now +:+ ".tf".

Definition createMeshStackHttpBackendFile : M (option error) :=
  root ← osFails env "openroot" (workingDirectory info);
  match root with
  | Some e => mret (Some e)
  | None =>
      now ← ask (env_nowUnix env);
      let path := path_Join [workingDirectory info; backendFileName now] in
      stat ← os_Stat env path;
      match stat with
      | Some e =>
          if errors_Is isNotExist e then
            if decide (runToken info = "") then
              mret (Some (errNew "cannot configure meshStack HTTP backend: runToken is empty — the run object did not include an ephemeral token"))
            else os_WriteFile env path (hclBytes lib (backendConfig backendUrl))
          else mret (Some (errNew ("a file with the name '" +:+ backendFileName now +:+
                 "' already exists in the working directory")))
      | None => mret (Some (errNew ("a file with the name '" +:+ backendFileName now +:+
                 "' already exists in the working directory")))
      end
  end.

(** [time.Sleep(1000)]: a thousand nanoseconds. *)
Definition plainInit (migrateState : bool) : M (option error) :=
  err ← runTf env (TfInit true migrateState);
  match err with
  | None => mret None
  | Some _ =>
      modify (emit (EvSleep 1000));;
      runTf env (TfInit true migrateState)
  end.

Definition init : M (option error) :=
  if useMeshBackendFallback info then
    exists_ ← detectBackend;
    match exists_ with
    | Err e => mret (Some e)
    | Ok true =>
        PrintlnToLocalAndUpdateLogs env "Using existing backend.";;
        plainInit false
    | Ok false =>
        PrintlnToLocalAndUpdateLogs env
          "Detected no backend. Generating meshStack http backend for init.";;
        created ← createMeshStackHttpBackendFile;
        match created with
        | Some e => mret (Some e)
        | None => modify (set_useWorkspaces false);; plainInit false
        end
    end
  else plainInit false.

(** ** Workspaces *)

(** The loop over the available workspaces. *)
Fixpoint selectFrom (available : list string) : M (result string) :=
  match available with
  | [] => mret (Ok "")
  | ws :: available =>
      if HasSuffix ws (buildingBlockId params) then
        err ← runTf env (TfWorkspaceSelect ws);
        match err with
        | Some _ => mret (Ok "")
        | None => mret (Ok (buildingBlockId params))
        end
      else selectFrom available
  end.

Definition selectWorkspace : M (result string) :=
  t ← gets trace;
  err ← runTf env TfWorkspaceList;
  match err with
  | Some e => mret (Err e)
  | None =>
      let '(available, current) := env_tfWorkspaces env t in
      if HasSuffix current (buildingBlockId params) then mret (Ok current)
      else selectFrom available
  end.

Definition useWorkspaceIfNeeded : M (option error) :=
  needed ← gets useWorkspaces;
  if (needed : bool) then
    workspace ← selectWorkspace;
    match workspace with
    | Err e => mret (Some e)
    | Ok workspace =>
        if decide (workspace = "")
        then runTf env (TfWorkspaceNew (suggestedWorkspace params) stateLockTimeout)
        else mret None
    end
  else mret None.

Definition deleteWorkspaceIfNeeded : M unit :=
  needed ← gets useWorkspaces;
  if (needed : bool) then
    selected ← selectWorkspace;
    let workspace := match selected with Ok w => w | Err _ => "" end in
    err ← runTf env (TfWorkspaceSelect "default");
    match err with
    | Some _ => mret tt
    | None =>
        runTf env (TfWorkspaceDelete workspace true stateLockTimeout);; mret tt
    end
  else mret tt.

(** ** Outputs *)

Definition assignOutput : M unit := modify set_callback.

Definition matchOutputType (om : OutputMeta) : DataType :=
  match env_jsonUnmarshal env (om_Type om) with
  | Some (anyList (_ :: _)) => DATA_TYPE_CODE
  | Some (anyStr str) =>
      if decide (str = "number") then DATA_TYPE_INTEGER
      else if decide (str = "bool") then DATA_TYPE_BOOLEAN
      else if decide (str = "string") then DATA_TYPE_STRING
      else DATA_TYPE_CODE
  | _ => DATA_TYPE_CODE
  end.

Definition parseOutput (v : OutputMeta) : option TfOutput :=
  match om_Value v with
  | None => None
  | Some raw =>
      let outputType := matchOutputType v in
      Some (mkTfOutput
        (if decide (outputType = DATA_TYPE_CODE ∨ outputType = DATA_TYPE_MULTISELECT)
         then anyStr (env_jsonIndent env raw) else anyRaw raw)
        outputType (om_Sensitive v))
  end.

Definition collectOutput (output : gmap string OutputMeta) : M unit :=
  modifyStatus (updateCurrentStep (set_step_Outputs (omap parseOutput output))).

(** ** The pre-run script *)

Definition runPreRunScript (extraEnv : gmap string string) : M (option string * option error) :=
  match preRunScript params with
  | None =>
      PrintlnToLocalAndUpdateLogs env "No pre-run script configured, skipping.";; mret (None, None)
  | Some script =>
      if decide (TrimSpace script = "") then
        PrintlnToLocalAndUpdateLogs env "No pre-run script configured, skipping.";; mret (None, None)
      else
        r ← RunScript env (mkScriptParams "pre-run" script (runMode params) (workingDirectory info)
               (path_Join [installDir; tfVersion params]) (runJsonBase64 info) extraEnv);
        let result := r.1 in
        let runErr := r.2 in
        (if decide (sr_UserMessage result ≠ "" ∧ runErr ≠ None)
         then PrintlnToLocalAndUpdateLogs env (sr_UserMessage result) else mret tt);;
        (if decide (sr_SystemMessage result = "") then mret tt
         else PrintlnToLocalAndUpdateLogs env (sr_SystemMessage result));;
        PrintlnToLocalAndUpdateLogs env
          ("pre-run script exited with code " +:+ pretty (sr_ExitCode result));;
        mret (if decide (sr_UserMessage result = "") then None else Some (sr_UserMessage result),
              runErr)
  end.
End TfCmd.
