(* ===== verification/TfCommands.v ===== *)
(** * TfCommands: apply, plan and destroy

    Models tf-block-runner/tfrun/tfapply.go, tfplan.go and tfdestroy.go: the
    steps each command registers, and its run from the first status to the
    last. *)

From S2P Require Import Prelude GoPath Base64 Hcl VarsFile Status MeshDtos TfConfig Run RunM Example Frame GitSource TfEnv Script TfVars TfBinaries TfCmd.

(** ** The steps *)

Definition newStep (name displayName : string) : StepStatus :=
  mkStepStatus name displayName PENDING ∅ None None 0.

Definition triggerSteps : list StepStatus := [newStep StepTrigger "Prepare Run"].

Definition commonSteps : list StepStatus :=
  [newStep StepSources "Prepare Run and download Sources";
   newStep StepInput "Initialize Inputs";
   newStep StepInitTf "Initialize Terraform and select Workspace";
   newStep StepPreRunScript "Execute Pre-Run Script"].

Definition outputStep : StepStatus := newStep StepOutput "Collect Outputs and clean up".

Definition installSteps (steps : list StepStatus) : M unit :=
  modifyStatus (λ r, set_CurrentStepIndex 0 (set_Steps steps r)).

Section TfCommands.
Context (env : Env) (lib : HclLib) (cfg : TfRunnerConfig) (info : RunContextInfo)
  (params : TfCmdParams) (installDir : string).

Definition applySteps : list StepStatus :=
  if asyncRun info then triggerSteps
  else commonSteps ++ [newStep StepExecuteTf "Run Terraform Apply"; outputStep].
Definition planSteps : list StepStatus :=
  if asyncRun info then triggerSteps
  else commonSteps ++ [newStep StepExecuteTf "Run Terraform Plan"].
Definition destroySteps : list StepStatus :=
  if asyncRun info then triggerSteps
  else commonSteps ++ [newStep StepExecuteTf "Run Terraform Destroy"; outputStep].

(** The receivers' [initRunSteps] methods. *)
Definition TfApply_initRunSteps : M unit := installSteps applySteps.
Definition TfPlan_initRunSteps : M unit := installSteps planSteps.
Definition TfDestroy_initRunSteps : M unit := installSteps destroySteps.

(** ** Control flow *)

(** [if err := m; err != nil { tfcmd.fail(err); return }; k]. *)
Definition orFail (m : M (option error)) (k : M unit) : M unit :=
  err ← m; match err with Some e => fail_ env cfg e | None => k end.

(** [x, err := m; if err != nil { tfcmd.fail(err); return }; k x]. *)
Definition orFailWith {A} (m : M (result A)) (k : A → M unit) : M unit :=
  r ← m; match r with Err e => fail_ env cfg e | Ok a => k a end.

(** The run of the pre-run script, whose user message a failure reports. *)
Definition orFailScript (tfEnv : gmap string string) (k : M unit) : M unit :=
  r ← runPreRunScript env info params installDir tfEnv;
  match r.2 with
  | Some err => failWithUserMsg env cfg err r.1
  | None => advanceStep env info r.1;; k
  end.

Definition SetEnv (tfEnv : gmap string string) : M (option error) :=
  t ← gets trace;
  modify (emit (EvTf (TfSetEnv tfEnv)));;
  mret (env_tfErr env t (TfSetEnv tfEnv)).

Definition TfOutput_ : M (result (gmap string OutputMeta)) :=
  t ← gets trace;
  err ← runTf env TfOutputs;
  mret match err with Some e => Err e | None => Ok (env_tfOutputs env t) end.

(** ** Apply *)

(** [runApi.DownloadPredecessorArtifact] into the open plan file. *)
Definition DownloadPredecessorArtifact (url planFile : string) : M (option error) :=
  t ← gets trace;
  let '(bytes, err) := env_download env t url in
  modify (λ w, emit (EvDownload url bytes (bool_decide (err = None)))
                 (set_files (<[planFile := bytes]> (files w)) w));;
  mret err.

Definition applyPredecessorPlan : M (option error) :=
  PrintlnToLocalAndUpdateLogs env
    "Using the provided plan artifact from the dry-run; applying it verbatim instead of re-planning.";;
  let planFile := artifactFilePath info in
  opened ← osFails env "open" planFile;
  match opened with
  | Some e =>
      mret (Some (errWrap ("failed to create predecessor plan artifact file " +:+ planFile +:+ ": ") e ""))
  | None =>
      modify (λ w, set_files (<[planFile := ""]> (files w)) w);;
      downloaded ← DownloadPredecessorArtifact (artifactUrl params) planFile;
      match downloaded with
      | Some e =>
          mret (Some (errWrap "failed to download the previewed terraform plan for this approval: " e
            ". The dry-run that produced this plan must be re-run before the change can be applied"))
      | None =>
          closed ← osFails env "close" planFile;
          match closed with
          | Some e =>
              mret (Some (errWrap ("failed to write predecessor plan artifact to " +:+ planFile +:+ ": ") e ""))
          | None =>
              applied ← runTf env (TfApply (Some planFile) stateLockTimeout);
              match applied with
              | Some e =>
                  mret (Some (errWrap "applying the previewed terraform plan failed: " e
                    (". The previewed plan is no longer valid — the underlying state, configuration, or providers " +:+
                     "changed since the dry-run. Please re-run the dry-run to produce and approve a fresh plan")))
              | None => mret None
              end
          end
      end
  end.

(** The plan of the predecessor, or a fresh apply when none is linked. *)
Definition applyAny : M (option error) :=
  if decide (artifactUrl params ≠ "") then applyPredecessorPlan
  else
    PrintlnToLocalAndUpdateLogs env
      "No plan artifact linked to this run; running a fresh terraform apply.";;
    runTf env (TfApply None stateLockTimeout).

Definition TfApply_execute : M unit :=
  startRun;;
  orFail (createFreshCommandWd env cfg info params) (
  orFailWith (GetTF env installDir (tfVersion params)) (λ _,
  orFailWith (buildTfEnv env cfg info params) (λ tfEnv,
  orFail (SetEnv tfEnv) (
  assignOutput;;
  advanceStep env info None;;
  orFail (r ← saveInputFiles env info params; mret r.2) (
  orFail (vars_cmd env lib info params) (
  advanceStep env info None;;
  orFail (init env lib cfg info) (
  orFail (useWorkspaceIfNeeded env params) (
  advanceStep env info None;;
  orFailScript tfEnv (
  orFail applyAny (
  advanceStep env info None;;
  orFailWith TfOutput_ (λ output,
  collectOutput env output;;
  completeRun env None))))))))))).

(** ** Plan *)

Definition UploadArtifact (url planData : string) : M (option error) :=
  t ← gets trace;
  let err := env_upload env t url planData in
  modify (emit (EvUpload url planData (bool_decide (err = None))));;
  mret err.

(** Init as plan and destroy run it: with a hint when it fails. *)
Definition initWithHint : M (option error) :=
  err ← init env lib cfg info;
  match err with
  | Some e => PrintlnToLocalAndUpdateLogs env HINT_INIT_FAILED;; mret (Some e)
  | None => mret None
  end.

(** From the plan of tofu to the end of the run. *)
Definition planAndUpload : M unit :=
  let planFile := artifactFilePath info in
  t ← gets trace;
  orFail (runTf env (TfPlan planFile stateLockTimeout)) (
  modifyStatus (set_ChangesDetected (Some (env_tfChanged env t)));;
  let uploadUrl := artifactUploadUrl params in
  if decide (uploadUrl = "") then
    fail_ env cfg (errNew "no artifact upload URL provided for DETECT run; cannot persist plan for a follow-up APPLY")
  else
    planData ← os_ReadFileM env planFile;
    match planData with
    | Err e => fail_ env cfg (errWrap "failed to read plan artifact: " e "")
    | Ok planData =>
        uploaded ← UploadArtifact uploadUrl planData;
        match uploaded with
        | Some e => fail_ env cfg (errWrap "failed to upload artifact: " e "")
        | None => completeRun env None
        end
    end).

Definition TfPlan_execute : M unit :=
  startRun;;
  orFail (createFreshCommandWd env cfg info params) (
  orFailWith (GetTF env installDir (tfVersion params)) (λ _,
  orFailWith (buildTfEnv env cfg info params) (λ tfEnv,
  orFail (SetEnv tfEnv) (
  assignOutput;;
  advanceStep env info None;;
  orFail (r ← saveInputFiles env info params; mret r.2) (
  orFail (vars_cmd env lib info params) (
  advanceStep env info None;;
  orFail initWithHint (
  orFail (useWorkspaceIfNeeded env params) (
  advanceStep env info None;;
  orFailScript tfEnv planAndUpload)))))))).

(** ** Destroy *)

Definition suppressForgetErrorsMinVersion := "1.12.0".

(** [destroyOptions]: the directory argument that carries the flag. *)
Definition destroyOptions (tfVersion : string) : option string :=
  match env_versionCompare env tfVersion suppressForgetErrorsMinVersion with
  | None | Some Lt => None
  | Some _ => Some "-suppress-forget-errors"
  end.

Definition TfDestroy_execute : M unit :=
  startRun;;
  orFail (createFreshCommandWd env cfg info params) (
  orFailWith (GetTF env installDir (tfVersion params)) (λ _,
  orFailWith (buildTfEnv env cfg info params) (λ tfEnv,
  orFail (SetEnv tfEnv) (
  assignOutput;;
  advanceStep env info None;;
  orFail (r ← saveInputFiles env info params; mret r.2) (
  orFail (vars_cmd env lib info params) (
  advanceStep env info None;;
  orFail initWithHint (
  orFail (useWorkspaceIfNeeded env params) (
  advanceStep env info None;;
  orFailScript tfEnv (
  orFail (if asyncRun info then runTf env (TfApply None stateLockTimeout) else mret None) (
  orFail (runTf env (TfDestroy stateLockTimeout (destroyOptions (tfVersion params)))) (
  advanceStep env info None;;
  orFailWith TfOutput_ (λ output,
  collectOutput env output;;
  deleteWorkspaceIfNeeded env params;;
  completeRun env None)))))))))))).

(** ** The interface [TfCmd] (tfcmd.go), as the workers use it *)

Inductive TfCommand := ApplyCommand | PlanCommand | DestroyCommand.

Definition initRunSteps (c : TfCommand) : M unit :=
  match c with
  | ApplyCommand => TfApply_initRunSteps
  | PlanCommand => TfPlan_initRunSteps
  | DestroyCommand => TfDestroy_initRunSteps
  end.

Definition execute (c : TfCommand) : M unit :=
  match c with
  | ApplyCommand => TfApply_execute
  | PlanCommand => TfPlan_execute
  | DestroyCommand => TfDestroy_execute
  end.
End TfCommands.
