(* ===== verification/TfFrames.v ===== *)
(** * TfFrames: what the parts of a Terraform command leave alone

    The frames of the operations of TfCmd.v and TfCommands.v between two moves
    of the step pointer: they are quiet, and they add only the events that
    prepare a run, so that the calls that change infrastructure can be told
    from the rest of a trace. [CommandLaws] is what a command relies on,
    [CrashCause] why it may panic. *)

From S2P Require Import Prelude GoPath Base64 Hcl VarsFile Status MeshDtos TfConfig Run RunM Example Frame GitSource TfEnv Script TfVars TfBinaries TfCmd TfCommands.

(** Every event but the calls that plan, apply or destroy, delete a workspace,
    use a plan file or move artifacts. *)
Definition prepEvent (ev : event) : bool :=
  match ev with
  | EvTf (TfPlan _ _) | EvTf (TfApply _ _) | EvTf (TfDestroy _ _)
  | EvTf (TfWorkspaceDelete _ _ _) | EvDownload _ _ _ | EvUpload _ _ _
  | EvPlanFile _ _ => false
  | _ => true
  end.

(** Those of them that do not change the workspace either. *)
Definition calmEvent (ev : event) : bool :=
  match ev with
  | EvTf (TfWorkspaceNew _ _) | EvTf (TfWorkspaceSelect _) => false
  | _ => prepEvent ev
  end.

Lemma calm_prepEvent ev : calmEvent ev = true → prepEvent ev = true.
Proof. by destruct ev as [| |[]| | | | | | | |]. Qed.

(** What a tofu call prints and thereby publishes, and the plan file that is
    seen at its start and its end. *)
Definition printedEvent (ev : event) : bool :=
  match ev with EvLog _ | EvPublish _ => true | _ => false end.
Definition outputEvent (ev : event) : bool :=
  match ev with EvPlanFile _ _ => true | _ => printedEvent ev end.
#[export] Instance printed_log : AllowsLog (λ ev, printedEvent ev = true).
Proof. by split. Qed.
#[export] Instance output_log : AllowsLog (λ ev, outputEvent ev = true).
Proof. by split. Qed.

Lemma extends_Emits C {A} (m : M A) w :
  Emits C m → ∃ evs, trace (m w).2 = evs ++ trace w ∧ Forall C evs.
Proof.
  intros Hm. specialize (Hm w). unfold grows in Hm. induction Hm as [|ev tr _ [evs [-> HC]] Hev]; [by exists []|].
  exists (ev :: evs). split; [done|by constructor].
Qed.

(** A tofu call: its event, the plan file that it reads, what it prints, and
    the plan file that it wrote. *)
Lemma runTf_grows env (P : event → list event → Prop) call w :
  (∀ ev past, printedEvent ev = true → P ev past) → P (EvTf call) (trace w) →
  (∀ p, planRead call = Some p → P (EvPlanFile p (files w !! p)) (EvTf call :: trace w)) →
  (∀ p c evs, planRead call = None → planWritten call = Some p → Forall (λ ev, printedEvent ev = true) evs →
     P (EvPlanFile p c) (evs ++ EvTf call :: trace w)) →
  grows P w (runTf env call w).2.
Proof.
  intros Hout Htf Hread Hwritten. unfold runTf, mbind, M_bind, gets, modify, notePlan. simpl.
  set (w1 := match planRead call with
    | Some p => emit (EvPlanFile p (files w !! p)) (emit (EvTf call) w)
    | None => emit (EvTf call) w end).
  assert (grows P w w1 ∧ (planRead call = None → trace w1 = EvTf call :: trace w)) as [Hg1 Ht1].
  { unfold w1, grows. destruct (planRead call) as [p|] eqn:Hp; (split; [|done]).
    - apply extends_cons; [apply extends_cons; [apply extends_nil|exact Htf]|by apply Hread].
    - apply extends_cons; [apply extends_nil|exact Htf]. }
  assert (Emits (λ ev, printedEvent ev = true) (writeChunks env (env_tfOutput env (trace w) call))) as He by emits.
  destruct (extends_Emits _ _ w1 He) as (evs & Ht2 & Hevs).
  assert (grows P w1 (writeChunks env (env_tfOutput env (trace w) call) w1).2) as Hg2.
  { eapply Keeps_grows_of_Emits; [|exact He]. exact Hout. }
  destruct (writeChunks _ _ w1) as [[[]|msg] w2]; simpl in *; [|etrans; [exact Hg1|exact Hg2]].
  etrans; [etrans; [exact Hg1|exact Hg2]|]. unfold grows.
  destruct (planWritten call) as [p|] eqn:Hp; [|constructor]. simpl. constructor; [constructor|].
  rewrite Ht2, Ht1 by (by destruct call). apply Hwritten; [by destruct call|done|done].
Qed.

(** A tofu call: its event, then only output, then its error. *)
Lemma runTf_extends env call w :
  extends (λ ev _, outputEvent ev = true) (EvTf call :: trace w) (trace (runTf env call w).2).
Proof.
  unfold runTf, mbind at 1, M_bind at 1, gets. cbv beta iota.
  assert (Emits (λ ev, outputEvent ev = true) (notePlan (planRead call);; writeChunks env (env_tfOutput env (trace w) call);;
    modify (λ w2, set_files (env_tfFiles env (trace w) call (files w2)) w2);; notePlan (planWritten call);;
    mret (env_tfErr env (trace w) call))) as Hk.
  { apply Emits_bind; [by apply Emits_notePlan|]. intros _.
    emits; [by apply Emits_modify_same|by apply Emits_notePlan]. }
  apply (Hk (emit (EvTf call) w)).
Qed.

Lemma runTf_Done env call w r w' :
  runTf env call w = (Done r, w') → r = env_tfErr env (trace w) call.
Proof.
  unfold runTf. rewrite M_bind_Done. intros (t & w0 & [= <- <-] & H).
  apply M_bind_Done in H as (? & w1 & _ & H). apply M_bind_Done in H as (? & w2 & _ & H).
  apply M_bind_Done in H as (? & w3 & _ & H). apply M_bind_Done in H as (? & w4 & _ & H).
  apply M_bind_Done in H as (? & w5 & _ & H). by apply M_ret_Done in H as [<- _].
Qed.

#[export] Instance prep_log : AllowsLog (λ ev, prepEvent ev = true).
Proof. by split. Qed.
#[export] Instance calm_log : AllowsLog (λ ev, calmEvent ev = true).
Proof. by split. Qed.
#[export] Instance calm_file : AllowsFile (λ ev, calmEvent ev = true).
Proof. by intros p c. Qed.
#[export] Instance calm_git : AllowsGit (λ ev, calmEvent ev = true).
Proof. by intros call. Qed.

Section TfFrames.
Context (env : Env) (lib : HclLib) (cfg : TfRunnerConfig) (info : RunContextInfo)
  (params : TfCmdParams) (installDir : string).

(** Documented behaviour of what a command calls: ranging over the inputs
    visits each of them, and cty has a value for every text. *)
Record CommandLaws : Prop := {
  laws_range : rangesOverVars env params;
  laws_strings : stringsConvert lib;
}.

(** Why a command may panic: its version is not one that go-version parses
    (and not installed yet), the decryption of an input or of the SSH key
    panics, as it does without a key, or the clone that was just made cannot be
    looked at when its path is not configured. *)
Inductive CrashCause : string → Prop :=
| crash_version :
    env_versionCompare env (tfVersion params) maxTFVersion = None → CrashCause "malformed version"
| crash_input k v :
    vars params !! k = Some v → decryptIfSensitive (env_fmtFloat env) (env_crypto env) v = None →
    CrashCause decryptPanic
| crash_key entry certStr :
    gs_auth (source params) = SshAuth entry certStr → unwrapCert env certStr = None →
    CrashCause decryptPanic
| crash_clone t e :
    gs_path (source params) = None →
    env_osErr env t "stat" (path_Join [workingDirectory info; TEMP_CLONE_DIR_PATH]) = Some e →
    CrashCause "nil pointer dereference".

(** What the frames ask for: the laws, and a policy that lets these panics
    pass. *)
Record CommandReady {policy : PanicPolicy} : Prop := {
  ready_laws : CommandLaws;
  ready_crash msg : CrashCause msg → lets_panic msg;
}.

Lemma CommandReady_crash : CommandLaws → CommandReady (policy := CrashCause).
Proof. by split. Qed.
Lemma CommandReady_any : CommandLaws → CommandReady (policy := λ _, True).
Proof. by split. Qed.

(** ** Quiet *)

Section Quiet.
Context {policy : PanicPolicy} (Hready : CommandReady).

Lemma Quiet_createFreshCommandWd : Quiet (createFreshCommandWd env cfg info params).
Proof.
  apply Quiet_CopyToTargetDir.
  - intros Hp t' e He. by eapply Hready, crash_clone.
  - intros entry certStr Ha Hu. by eapply Hready, crash_key.
Qed.

Lemma Quiet_GetTF_ready : Quiet (GetTF env installDir (tfVersion params)).
Proof. apply Quiet_GetTF. intros Hv. by apply Hready, crash_version. Qed.

Lemma ready_vars : varsSafe env params.
Proof. intros k v Hk Hd. by eapply Hready, crash_input. Qed.

Lemma Quiet_buildTfEnv_ready : Quiet (buildTfEnv env cfg info params).
Proof. apply Quiet_buildTfEnv; [apply Hready|apply ready_vars]. Qed.

Lemma Quiet_SetEnv tfEnv : Quiet (SetEnv env tfEnv).
Proof.
  apply Quiet_bind; [apply Quiet_gets|]. intros t.
  apply Quiet_bind; [by apply Quiet_emit|]. intros. apply Quiet_ret.
Qed.

Lemma Quiet_saveInputFiles_ready : Quiet (r ← saveInputFiles env info params; mret r.2).
Proof. apply Quiet_bind; [apply Quiet_saveInputFiles; [apply Hready|apply ready_vars]|]. intros. apply Quiet_ret. Qed.

Lemma Quiet_vars_ready : Quiet (vars_cmd env lib info params).
Proof. apply Quiet_vars_cmd; [apply Hready|apply ready_vars]. Qed.

Lemma Quiet_set_useWorkspaces b : Quiet (modify (set_useWorkspaces b)).
Proof. by apply Quiet_modify_same. Qed.
Lemma Quiet_EvSleep n : Quiet (modify (emit (EvSleep n))).
Proof. by apply Quiet_emit. Qed.
#[local] Hint Resolve Quiet_set_useWorkspaces Quiet_EvSleep : quiet.

Lemma Quiet_init : Quiet (init env lib cfg info).
Proof.
  unfold init, plainInit, detectBackend, createMeshStackHttpBackendFile. quiet.
Qed.

Lemma Quiet_initWithHint : Quiet (initWithHint env lib cfg info).
Proof. apply Quiet_bind; [apply Quiet_init|]. intros []; quiet. Qed.

Lemma Quiet_selectFrom l : Quiet (selectFrom env params l).
Proof. induction l; simpl; quiet. Qed.

Lemma Quiet_selectWorkspace : Quiet (selectWorkspace env params).
Proof.
  apply Quiet_bind; [apply Quiet_gets|]. intros t.
  apply Quiet_bind; [apply Quiet_runTf|]. intros [e|]; [apply Quiet_ret|].
  destruct (env_tfWorkspaces env t) as [avail cur]. destruct (HasSuffix _ _); [apply Quiet_ret|].
  apply Quiet_selectFrom.
Qed.
#[local] Hint Resolve Quiet_selectWorkspace : quiet.

Lemma Quiet_useWorkspaceIfNeeded : Quiet (useWorkspaceIfNeeded env params).
Proof. unfold useWorkspaceIfNeeded. quiet. Qed.

Lemma Quiet_deleteWorkspaceIfNeeded : Quiet (deleteWorkspaceIfNeeded env params).
Proof. unfold deleteWorkspaceIfNeeded. quiet. Qed.

Lemma Quiet_runPreRunScript tfEnv : Quiet (runPreRunScript env info params installDir tfEnv).
Proof. unfold runPreRunScript. pose proof (Quiet_RunScript env). quiet. Qed.

Lemma Quiet_assignOutput : Quiet assignOutput.
Proof. by apply Quiet_modify_same. Qed.

Lemma Quiet_TfOutput : Quiet (TfOutput_ env).
Proof. unfold TfOutput_. quiet. Qed.

Lemma Quiet_collectOutput output : Quiet (collectOutput env output).
Proof. by apply Quiet_updateCurrentStep. Qed.

Lemma Quiet_applyAny : Quiet (applyAny env info params).
Proof.
  unfold applyAny, applyPredecessorPlan. case_decide; [|quiet].
  apply Quiet_bind; [quiet|]. intros _. apply Quiet_bind; [quiet|]. intros [e|]; [quiet|].
  apply Quiet_bind; [quiet|]. intros _. apply Quiet_bind; [|intros [e|]; quiet].
  unfold DownloadPredecessorArtifact. apply Quiet_bind; [quiet|]. intros t.
  destruct (env_download env t (artifactUrl params)) as [bytes err].
  apply Quiet_bind; [|quiet]. by eapply Quiet_modify_emit; [|intros w; split_and!; reflexivity].
Qed.

Lemma Quiet_UploadArtifact url data : Quiet (UploadArtifact env url data).
Proof.
  unfold UploadArtifact. apply Quiet_bind; [quiet|]. intros t.
  apply Quiet_bind; [by apply Quiet_emit|quiet].
Qed.
End Quiet.

(** ** Preparing events *)

#[local] Abbreviation prep := (λ ev, prepEvent ev = true).
#[local] Abbreviation calm := (λ ev, calmEvent ev = true).

Lemma prep_of_calm {A} (m : M A) : Emits calm m → Emits prep m.
Proof. apply Emits_mono, calm_prepEvent. Qed.

Lemma calm_createFreshCommandWd : Emits calm (createFreshCommandWd env cfg info params).
Proof. apply Emits_CopyToTargetDir; apply _. Qed.

Lemma calm_GetTF : Emits calm (GetTF env installDir (tfVersion params)).
Proof. apply Emits_GetTF; try apply _. done. Qed.

Lemma calm_SetEnv tfEnv : Emits calm (SetEnv env tfEnv).
Proof.
  apply Emits_bind; [apply Emits_gets|]. intros t.
  apply Emits_bind; [by eapply (Emits_modify_emit _ _ (EvTf (TfSetEnv tfEnv)))|]. intros. apply Emits_ret.
Qed.

Lemma calm_saveInputFiles : Emits calm (r ← saveInputFiles env info params; mret r.2).
Proof. apply Emits_bind; [apply Emits_saveInputFiles; apply _|]. intros. apply Emits_ret. Qed.

Lemma calm_vars : Emits calm (vars_cmd env lib info params).
Proof. apply Emits_vars_cmd; apply _. Qed.

Lemma prep_runTf call : prepEvent (EvTf call) = true → Emits prep (runTf env call).
Proof. intros Hc. apply (Emits_runTf env prep); [done|]. by destruct call as [| | | | | | | | |]; intros ? ? []. Qed.
Lemma calm_runTf call : calmEvent (EvTf call) = true → Emits calm (runTf env call).
Proof. intros Hc. apply (Emits_runTf env calm); [done|]. by destruct call as [| | | | | | | | |]; intros ? ? []. Qed.
Lemma calm_EvSleep n : Emits calm (modify (emit (EvSleep n))).
Proof. by eapply (Emits_modify_emit _ _ (EvSleep n)). Qed.
Lemma calm_set_useWorkspaces b : Emits calm (modify (set_useWorkspaces b)).
Proof. by apply Emits_modify_same. Qed.
#[local] Hint Resolve prep_runTf calm_runTf calm_EvSleep calm_set_useWorkspaces : emits.
#[local] Hint Extern 1 (prepEvent _ = true) => reflexivity : emits.
#[local] Hint Extern 1 (calmEvent _ = true) => reflexivity : emits.

Lemma calm_init : Emits calm (init env lib cfg info).
Proof.
  unfold init, plainInit, detectBackend, createMeshStackHttpBackendFile. emits.
Qed.

Lemma calm_initWithHint : Emits calm (initWithHint env lib cfg info).
Proof. apply Emits_bind; [apply calm_init|]. intros []; emits. Qed.

Lemma prep_selectFrom l : Emits prep (selectFrom env params l).
Proof. induction l; simpl; emits. Qed.

Lemma prep_selectWorkspace : Emits prep (selectWorkspace env params).
Proof.
  apply Emits_bind; [apply Emits_gets|]. intros t.
  apply Emits_bind; [by apply prep_runTf|]. intros [e|]; [apply Emits_ret|].
  destruct (env_tfWorkspaces env t) as [avail cur]. destruct (HasSuffix _ _); [apply Emits_ret|].
  apply prep_selectFrom.
Qed.
#[local] Hint Resolve prep_selectWorkspace : emits.

Lemma prep_useWorkspaceIfNeeded : Emits prep (useWorkspaceIfNeeded env params).
Proof. unfold useWorkspaceIfNeeded. emits. Qed.

Lemma calm_runPreRunScript tfEnv : Emits calm (runPreRunScript env info params installDir tfEnv).
Proof.
  unfold runPreRunScript.
  assert (∀ p, Emits calm (RunScript env p)) as Hs.
  { intros p. apply Emits_RunScript; try apply _. done. }
  emits.
Qed.

Lemma calm_TfOutput : Emits calm (TfOutput_ env).
Proof. unfold TfOutput_. emits. Qed.

Lemma calm_modifyStatus f : Emits calm (modifyStatus f).
Proof. by apply Emits_modify_same. Qed.
Lemma calm_assignOutput : Emits calm assignOutput.
Proof. by apply Emits_modify_same. Qed.
Lemma calm_collectOutput output : Emits calm (collectOutput env output).
Proof. apply calm_modifyStatus. Qed.
#[local] Hint Resolve calm_modifyStatus : emits.

Lemma calm_startRun : Emits calm startRun.
Proof. unfold startRun, firstStepM, setRunStatus. emits. Qed.

Lemma calm_advanceStep m : Emits calm (advanceStep env info m).
Proof.
  unfold advanceStep, nextStepM. emits.
Qed.

Lemma calm_completeRun m : Emits calm (completeRun env m).
Proof. unfold completeRun, setCurrentStepStatus, setRunStatus. emits. Qed.

Lemma calm_failWithUserMsg e m : Emits calm (failWithUserMsg env cfg e m).
Proof. unfold failWithUserMsg, ctxText. emits. Qed.

Lemma calm_fail e : Emits calm (fail_ env cfg e).
Proof. apply calm_failWithUserMsg. Qed.

(** ** Control flow *)

Context (P : event → list event → Prop).
Hypothesis HP : ∀ ev past, prepEvent ev = true → P ev past.

Lemma grows_prep {A} (m : M A) : Emits prep m → Keeps (grows P) m.
Proof. apply Keeps_grows_of_Emits, HP. Qed.
Lemma grows_calm {A} (m : M A) : Emits calm m → Keeps (grows P) m.
Proof. intros. by apply grows_prep, prep_of_calm. Qed.

Lemma grows_bind {A B} (m : M A) (k : A → M B) :
  Keeps (grows P) m → (∀ a, Keeps (grows P) (k a)) → Keeps (grows P) (m ≫= k).
Proof. apply Keeps_bind, _. Qed.

Lemma grows_orFail m k :
  Keeps (grows P) m → Keeps (grows P) k → Keeps (grows P) (orFail env cfg m k).
Proof.
  intros Hm Hk. apply grows_bind; [done|]. intros [e|]; [|done]. apply grows_calm, calm_fail.
Qed.

Lemma grows_orFailWith {A} (m : M (result A)) k :
  Keeps (grows P) m → (∀ a, Keeps (grows P) (k a)) → Keeps (grows P) (orFailWith env cfg m k).
Proof.
  intros Hm Hk. apply grows_bind; [done|]. intros [a|e]; [done|]. apply grows_calm, calm_fail.
Qed.

Lemma grows_orFailScript tfEnv k :
  Keeps (grows P) k → Keeps (grows P) (orFailScript env cfg info params installDir tfEnv k).
Proof.
  intros Hk. apply grows_bind; [apply grows_calm, calm_runPreRunScript|].
  intros [m [e|]]; [apply grows_calm, calm_failWithUserMsg|].
  apply grows_bind; [apply grows_calm, calm_advanceStep|done].
Qed.
End TfFrames.

Create HintDb prep discriminated.
#[export] Hint Resolve prep_of_calm calm_createFreshCommandWd calm_GetTF calm_SetEnv calm_saveInputFiles
  calm_vars calm_init calm_initWithHint prep_useWorkspaceIfNeeded calm_runPreRunScript calm_TfOutput
  calm_modifyStatus calm_assignOutput calm_collectOutput calm_startRun calm_advanceStep
  calm_completeRun calm_fail : prep.
#[export] Hint Extern 1 (Emits _ (buildTfEnv _ _ _ _)) => apply Emits_buildTfEnv; apply _ : prep.

(** Walks through a command; what is left are the operations whose events are
    not all preparing. [HP] allows those that are. *)
Ltac grows_walk P HP :=
  repeat first
    [ solve [apply (grows_prep P HP); auto with prep nocore]
    | match goal with
      | |- Keeps _ (orFail _ _ _ _) => apply (grows_orFail _ _ P HP)
      | |- Keeps _ (orFailWith _ _ _ _) => apply (grows_orFailWith _ _ P HP)
      | |- Keeps _ (orFailScript _ _ _ _ _ _ _) => apply (grows_orFailScript _ _ _ _ _ P HP)
      | |- Keeps _ (mbind _ _) => apply grows_bind
      | |- ∀ _, Keeps _ _ => intros ?
      end ].
