(* ===== verification/TfRun.v ===== *)
(** * TfRun: the life of a run

    The contract of the Terraform commands: which statuses a command publishes
    from its start to its end, that it ends in a published terminal status or
    in a panic that the policy lets pass, and that the system messages of the steps partition the update
    log. The proofs follow the commands step by step with the frames of
    TfFrames.v. *)

From S2P Require Import Prelude GoPath Base64 Hcl VarsFile Status MeshDtos TfConfig Run RunM Example Frame GitSource TfEnv Script TfVars TfBinaries TfCmd TfCommands TfFrames.

(** ** The shapes of a status *)

Definition statuses (r : RunStatus) : list ExecutionStatus := step_Status <$> Steps r.

(** While step [k] of [n] runs. The first step stays PENDING: [startRun] does
    not mark it. *)
Definition runningStatuses (n k : nat) : list ExecutionStatus :=
  replicate k SUCCEEDED ++ (if decide (k = 0) then PENDING else IN_PROGRESS) ::
  replicate (n - S k) PENDING.

Record Running (n k : nat) (r : RunStatus) : Prop := {
  run_lt : k < n;
  run_Status : Status r = IN_PROGRESS;
  run_index : CurrentStepIndex r = Z.of_nat k;
  run_steps : statuses r = runningStatuses n k;
}.

Record Succeeded (n : nat) (r : RunStatus) : Prop := {
  suc_Status : Status r = SUCCEEDED;
  suc_steps : statuses r = replicate n SUCCEEDED;
}.

(** Failed in step [k]: the steps before it succeeded, it and the later ones
    failed, and the later ones say why. *)
Record FailedAt (n k : nat) (r : RunStatus) : Prop := {
  fail_lt : k < n;
  fail_Status : Status r = FAILED;
  fail_index : CurrentStepIndex r = Z.of_nat k;
  fail_steps : statuses r = replicate k SUCCEEDED ++ replicate (n - k) FAILED;
  fail_messages : ∀ i s, k < i → Steps r !! i = Some s → step_SystemMessage s = Some abortedMessage;
}.

Lemma length_runningStatuses n k : k < n → length (runningStatuses n k) = n.
Proof. intros. unfold runningStatuses. rewrite length_app, length_cons, !length_replicate. lia. Qed.

Lemma Running_length n k r : Running n k r → length (Steps r) = n.
Proof.
  intros [Hlt _ _ Hs]. apply (f_equal length) in Hs.
  rewrite length_runningStatuses in Hs by done. unfold statuses in Hs. by rewrite length_fmap in Hs.
Qed.

Lemma Running_currentIdx n k r : Running n k r → currentIdx r = Some k.
Proof. intros Hr. apply currentIdx_Some. rewrite (Running_length n k r Hr). destruct Hr; lia. Qed.

Lemma skeleton_statuses r r' : skeleton r = skeleton r' → statuses r = statuses r'.
Proof.
  intros (_ & _ & _ & _ & Hs)%skeleton_inv. unfold statuses.
  change step_Status with ((λ t : string * string * ExecutionStatus * Z, t.1.2) ∘ stepSkeleton).
  by rewrite !list_fmap_compose, Hs.
Qed.

Lemma skeleton_Running n k r r' : skeleton r' = skeleton r → Running n k r → Running n k r'.
Proof.
  intros Hs [? ? ? ?]. pose proof (skeleton_statuses _ _ Hs).
  apply skeleton_inv in Hs as (_ & ? & ? & _). split; congruence.
Qed.

(** Changes of the current step's status. *)
Lemma statuses_updateCurrentStep r st i :
  currentIdx r = Some i →
  statuses (updateCurrentStep (set_step_Status st) r) = <[i := st]> (statuses r).
Proof.
  intros Hi. unfold updateCurrentStep, statuses. rewrite Hi. simpl.
  apply list_eq. intros j. rewrite list_lookup_fmap. destruct (decide (i = j)) as [->|Hne].
  - rewrite list_lookup_alter, decide_True by done.
    apply currentIdx_lookup in Hi as [s Hs]. rewrite Hs, list_lookup_insert_eq; [done|].
    rewrite length_fmap. by eapply lookup_lt_Some.
  - by rewrite list_lookup_alter_ne, list_lookup_insert_ne, list_lookup_fmap.
Qed.

Lemma runningStatuses_succeed n k :
  k < n → <[k := SUCCEEDED]> (runningStatuses n k) = replicate (S k) SUCCEEDED ++ replicate (n - S k) PENDING.
Proof.
  intros Hk. unfold runningStatuses. rewrite (replicate_S_end k), <-app_assoc.
  rewrite insert_app_r_alt by (by rewrite length_replicate).
  by rewrite length_replicate, Nat.sub_diag.
Qed.

Lemma runningStatuses_advance n k :
  S k < n → <[S k := IN_PROGRESS]> (<[k := SUCCEEDED]> (runningStatuses n k)) = runningStatuses n (S k).
Proof.
  intros Hk. rewrite runningStatuses_succeed by lia. unfold runningStatuses.
  rewrite insert_app_r_alt by (by rewrite length_replicate).
  rewrite length_replicate, Nat.sub_diag.
  replace (n - S k) with (S (n - S (S k))) by lia. done.
Qed.

(** ** What has been published *)

(** The published statuses go through the steps in order; [base] is the trace
    when the command starts. *)
Inductive progress (n : nat) (base : list event) : nat → list event → Prop :=
| progress_start : progress n base 0 base
| progress_publish j k t s :
    progress n base j t → j ≤ k → Running n k s → progress n base k (EvPublish s :: t)
| progress_other k t ev :
    (∀ s, ev ≠ EvPublish s) → progress n base k t → progress n base k (ev :: t).

Lemma progress_extends n base k t t' r :
  Running n k r → extends (λ ev _, quietEvent r ev) t t' → (∃ j, j ≤ k ∧ progress n base j t) →
  ∃ j, j ≤ k ∧ progress n base j t'.
Proof.
  intros Hr Hx Hp. induction Hx as [|ev tr Hx IH Hev]; [done|].
  destruct IH as (j & Hj & Hpr). destruct ev as [|s| | | | | | | | |]; simpl in Hev;
    try (exists j; split; [done|]; by constructor).
  exists k. split; [done|]. econstructor; [exact Hpr|done|]. by eapply skeleton_Running.
Qed.

(** ** The messages of the steps *)

Definition start (r : RunStatus) (i : nat) : option Z := step_LogStartIdx <$> Steps r !! i.

(** Step [i] reports the part of the log between its start and [e]. *)
Definition reports (w : World) (i : nat) (e : Z) : Prop :=
  ∃ s logs, Steps (runStatus w) !! i = Some s ∧ step_SystemMessage s = Some logs ∧
    sslice (logFile w) (step_LogStartIdx s) e = Some logs.

Section Life.
Context {policy : PanicPolicy} (env : Env) (info : RunContextInfo).

Definition readable : Prop := ∀ t, env_logReadFails env t = false.

(** The steps before [k] have reported consecutive parts of the log, from its
    beginning to the start of step [k]. *)
Record Partition (k : nat) (w : World) : Prop := {
  part_first : start (runStatus w) 0 = Some 0%Z;
  part_reports : readable → ∀ i e, i < k → start (runStatus w) (S i) = Some e → reports w i e;
}.

(** The invariant while step [k] of [n] runs. *)
Record Inv (n : nat) (base : list event) (k : nat) (w : World) : Prop := {
  inv_log : LogOk w;
  inv_running : Running n k (runStatus w);
  inv_partition : Partition k w;
  inv_progress : ∃ j, j ≤ k ∧ progress n base j (trace w);
}.

Lemma start_skeleton r r' i : skeleton r' = skeleton r → start r' i = start r i.
Proof.
  intros (_ & _ & _ & _ & Hs)%skeleton_inv. unfold start.
  change step_LogStartIdx with ((λ t : string * string * ExecutionStatus * Z, t.2) ∘ stepSkeleton).
  by rewrite <-!list_lookup_fmap, !list_fmap_compose, Hs.
Qed.

Lemma reports_evolves n k w w' i e :
  Running n k (runStatus w) → LogOk w → evolves w w' → i < k → start (runStatus w) (S i) = Some e →
  reports w i e → reports w' i e.
Proof.
  intros Hr Hw [Es Eo _ [more El] _] Hi He (s & logs & Hs & Hm & Hl).
  exists s, logs. rewrite Eo by (rewrite (Running_currentIdx _ _ _ Hr); intros [=]; lia).
  split_and!; [done..|]. rewrite El, sslice_app_l; [done|].
  unfold start in He. destruct (Steps (runStatus w) !! S i) as [s'|] eqn:Hs'; [|done].
  simplify_eq/=. destruct Hw as [? Hst].
  pose proof (Forall_lookup_1 _ _ _ _ Hst Hs'). simpl in *. lia.
Qed.

Lemma Inv_evolves n base k w w' : Inv n base k w → LogOk w' → evolves w w' → Inv n base k w'.
Proof.
  intros [Hl Hr [Hf Hp] Hpr] Hl' E. destruct (E) as [Es Eo Et _ _]. split; [done| | |].
  - by eapply skeleton_Running.
  - split; [by rewrite (start_skeleton _ _ _ Es)|].
    intros Hread i e Hi He. rewrite (start_skeleton _ _ _ Es) in He.
    eapply reports_evolves; eauto.
  - by eapply progress_extends.
Qed.

Lemma wp_quiet {A} n base k (m : M A) w Q :
  Quiet m → Inv n base k w → (∀ a w', Inv n base k w' → Q a w') → wp m w Q.
Proof.
  intros Hm Hw HQ. eapply wp_mono; [apply Hm, Hw|]. intros a w' [Hl E]. apply HQ.
  by eapply Inv_evolves.
Qed.

(** Taking the messages of the current step reports the log up to its end. *)
Lemma wp_setCurrentStepMessage msg k w :
  LogOk w → currentIdx (runStatus w) = Some k →
  wp (setCurrentStepMessage env msg) w (λ _ w', LogOk w' ∧ evolves w w' ∧ trace w' = trace w ∧
    logSize w' = logSize w ∧ logFile w' = logFile w ∧ files w' = files w ∧
    (readable → reports w' k (logSize w))).
Proof.
  intros Hw Hk. unfold setCurrentStepMessage. apply wp_bind, wp_gets.
  destruct (currentIdx_lookup _ _ Hk) as [cur Hcur].
  assert (currentStepStatus (runStatus w) = Some cur) as Hc by (unfold currentStepStatus; by rewrite Hk).
  rewrite Hc.
  set (w1 := match msg with
    | Some _ => set_runStatus (updateCurrentStep (set_step_UserMessage msg) (runStatus w)) w
    | None => w end).
  assert (LogOk w1 ∧ evolves w w1 ∧ trace w1 = trace w ∧ logSize w1 = logSize w ∧ logFile w1 = logFile w ∧
    files w1 = files w) as (Hw1 & E1 & Ht1 & Hz1 & Hf1 & Hfs1).
  { unfold w1. destruct msg; [|done].
    split_and!; [by apply LogOk_updateCurrentStep|by apply evolves_updateCurrentStep|done..]. }
  apply wp_bind, wp_modify. fold w1. apply wp_bind, wp_gets, wp_bind.
  assert (0 ≤ step_LogStartIdx cur ≤ logSize w1)%Z as Hb.
  { rewrite Hz1. apply (currentStepStatus_start _ _ (λ s, 0 ≤ step_LogStartIdx s ≤ logSize w)%Z Hc), Hw. }
  unfold fileContentOrEmpty. apply wp_bind, wp_gets.
  assert (currentIdx (runStatus w1) = Some k) as Hk1.
  { by rewrite (skeleton_currentIdx _ _ (ev_skeleton _ _ E1)). }
  assert (∀ logs, (readable → sslice (logFile w1) (step_LogStartIdx cur) (logSize w1) = Some logs) →
    let w' := set_runStatus (updateCurrentStep (set_step_SystemMessage (Some logs)) (runStatus w1)) w1 in
    LogOk w' ∧ evolves w w' ∧ trace w' = trace w ∧ logSize w' = logSize w ∧ logFile w' = logFile w ∧
    files w' = files w ∧ (readable → reports w' k (logSize w))) as Hfinish.
  { intros logs Hlogs w'. split_and!; [by apply LogOk_updateCurrentStep|
      etrans; [exact E1|by apply evolves_updateCurrentStep]|done..|].
    intros Hread. destruct (currentIdx_lookup _ _ Hk1) as [s1 Hs1].
    exists (set_step_SystemMessage (Some logs) s1), logs. split_and!; [|done|].
    - unfold w', updateCurrentStep. simpl. rewrite Hk1. simpl.
      by rewrite list_lookup_alter, decide_True, Hs1.
    - simpl. rewrite <-Hz1.
      assert (start (runStatus w1) k = start (runStatus w) k) as Hst
        by (apply start_skeleton, E1).
      unfold start in Hst. rewrite Hs1, Hcur in Hst. simplify_eq/=. rewrite Hst. by apply Hlogs. }
  destruct (env_logReadFails env (trace w1)) eqn:Hread.
  - apply wp_ret, wp_modify, Hfinish. intros Hr. by rewrite Hr in Hread.
  - apply wp_bind, wp_gets.
    destruct (sslice_is_Some (logFile w1) (step_LogStartIdx cur) (logSize w1)) as [logs Hlogs];
      [lia|by apply Hw1|]. rewrite Hlogs. apply wp_ret, wp_modify, Hfinish. by intros _.
Qed.

(** ** The moves of the step pointer *)

(** The step after [k]: an asynchronous run has one step only. *)
Definition next (k : nat) : nat := if asyncRun info then k else S k.

(** The status after a move: step [k] succeeded, the next one runs from the
    end of the log. *)
Definition advanced (k : nat) (size : Z) (r : RunStatus) : RunStatus :=
  set_CurrentStepIndex (CurrentStepIndex r + 1)
    (set_Steps (alter (λ s, set_step_LogStartIdx size (set_step_Status IN_PROGRESS s)) (S k)
                 (alter (set_step_Status SUCCEEDED) k (Steps r))) r).

Lemma updateCurrentStep_Some f r i :
  currentIdx r = Some i → updateCurrentStep f r = set_Steps (alter f i (Steps r)) r.
Proof. unfold updateCurrentStep. by intros ->. Qed.

Lemma nextStepM_run k w :
  asyncRun info = false → currentIdx (runStatus w) = Some k → S k < length (Steps (runStatus w)) →
  nextStepM info w = (Done tt, set_runStatus (advanced k (logSize w) (runStatus w)) w).
Proof.
  intros Ha Hk Hlen. pose proof Hk as [Hi _]%currentIdx_Some.
  unfold nextStepM. rewrite Ha.
  unfold modifyStatus, modify, gets, mbind, M_bind, mret, M_ret. cbn [fst snd].
  cbn [runStatus set_runStatus logSize]. rewrite (updateCurrentStep_Some _ _ k) by done.
  unfold nextStep. cbn [Steps CurrentStepIndex set_Steps].
  rewrite length_alter, decide_True by lia. cbn [fst snd runStatus set_runStatus logSize].
  rewrite (updateCurrentStep_Some (set_step_Status IN_PROGRESS) _ (S k))
    by (apply currentIdx_Some; simpl; rewrite length_alter; lia).
  rewrite (updateCurrentStep_Some _ _ (S k))
    by (apply currentIdx_Some; simpl; rewrite !length_alter; lia).
  unfold advanced, set_Steps, set_CurrentStepIndex, set_runStatus. cbn.
  by rewrite list_alter_alter_eq.
Qed.

Lemma advanced_lookup_other k size r i :
  i ≠ k → i ≠ S k → Steps (advanced k size r) !! i = Steps r !! i.
Proof. intros. simpl. by rewrite !list_lookup_alter_ne. Qed.

Lemma advanced_lookup_done k size r :
  Steps (advanced k size r) !! k = set_step_Status SUCCEEDED <$> Steps r !! k.
Proof. simpl. by rewrite list_lookup_alter_ne, list_lookup_alter, decide_True by lia. Qed.

Lemma advanced_lookup_next k size r :
  Steps (advanced k size r) !! S k =
  (λ s, set_step_LogStartIdx size (set_step_Status IN_PROGRESS s)) <$> Steps r !! S k.
Proof. simpl. by rewrite list_lookup_alter, decide_True, list_lookup_alter_ne by lia. Qed.

Lemma advanced_Running n k size r :
  S k < n → Running n k r → Running n (S k) (advanced k size r).
Proof.
  intros Hk Hr. pose proof (Running_length _ _ _ Hr) as Hlen. destruct Hr as [_ Hs Hi Hst].
  split; [done|done|simpl; lia|].
  rewrite <-runningStatuses_advance, <-Hst by done.
  apply list_eq. intros i. unfold statuses. rewrite list_lookup_fmap.
  destruct (decide (i = S k)) as [->|Hn1].
  { rewrite advanced_lookup_next, list_lookup_insert_eq by (rewrite length_insert, length_fmap; lia).
    destruct (lookup_lt_is_Some_2 (Steps r) (S k)) as [s ->]; [lia|done]. }
  rewrite list_lookup_insert_ne by done. destruct (decide (i = k)) as [->|Hn2].
  { rewrite advanced_lookup_done, list_lookup_insert_eq by (rewrite length_fmap; lia).
    destruct (lookup_lt_is_Some_2 (Steps r) k) as [s ->]; [lia|done]. }
  by rewrite list_lookup_insert_ne, advanced_lookup_other, list_lookup_fmap.
Qed.

Lemma advanced_start n k size r i :
  Running n k r → S k < n → start (advanced k size r) i = if decide (i = S k) then Some size else start r i.
Proof.
  intros Hr Hk. pose proof (Running_length _ _ _ Hr). unfold start. case_decide as Hi.
  - subst i. rewrite advanced_lookup_next.
    destruct (lookup_lt_is_Some_2 (Steps r) (S k)) as [s ->]; [lia|done].
  - destruct (decide (i = k)) as [->|].
    + rewrite advanced_lookup_done. by destruct (Steps r !! k).
    + by rewrite advanced_lookup_other.
Qed.

Lemma advanced_LogOk k w :
  LogOk w → LogOk (set_runStatus (advanced k (logSize w) (runStatus w)) w).
Proof.
  intros [Hz Hst]. split; [done|]. simpl.
  apply Forall_alter; [apply Forall_alter; [done|]|]; simpl; [|lia].
  by intros.
Qed.

Lemma advanced_Partition n k w :
  Running n k (runStatus w) → S k < n → Partition k w → (readable → reports w k (logSize w)) →
  Partition (S k) (set_runStatus (advanced k (logSize w) (runStatus w)) w).
Proof.
  intros Hr Hk [Hf Hp] Hlast. split; simpl.
  - rewrite (advanced_start n) by done. by rewrite decide_False.
  - intros Hread i e Hi. rewrite (advanced_start n) by done. unfold reports; cbn [runStatus set_runStatus].
    case_decide as Hik.
    + intros [= <-]. assert (i = k) as -> by lia. rewrite advanced_lookup_done.
      destruct (Hlast Hread) as (s & logs & Hs & Hm & Hl). rewrite Hs. by exists (set_step_Status SUCCEEDED s), logs.
    + intros He. rewrite advanced_lookup_other by lia. apply Hp; [done|lia|done].
Qed.

Lemma wp_advanceStep n base k msg w Q :
  Inv n base k w → next k < n →
  (∀ w', Inv n base (next k) w' → Q tt w') → wp (advanceStep env info msg) w Q.
Proof.
  intros Hinv Hn HQ. unfold advanceStep. apply wp_bind.
  eapply wp_mono; [apply (wp_setCurrentStepMessage msg k);
    [apply Hinv|eapply Running_currentIdx, Hinv]|].
  intros _ w1 (Hl1 & E1 & Ht1 & Hz1 & Hf1 & Hfs1 & Hrep).
  assert (Inv n base k w1) as [_ Hr1 Hp1 (j & Hj & Hpr1)] by (by eapply Inv_evolves).
  apply wp_bind. unfold next in *. destruct (asyncRun info) eqn:Ha.
  - unfold nextStepM. rewrite Ha. apply wp_ret, wp_modify, HQ.
    split; simpl; [by destruct Hl1|done|by destruct Hp1|].
    exists k. split; [done|]. by econstructor.
  - unfold wp. rewrite (nextStepM_run k); [|done|by eapply Running_currentIdx|
      by rewrite (Running_length _ _ _ Hr1)].
    apply wp_modify, HQ. rewrite <-Hz1 in Hrep.
    destruct (advanced_LogOk k w1 Hl1), (advanced_Partition n k w1 Hr1 Hn Hp1 Hrep).
    split; simpl; [by split|by apply advanced_Running|by split|].
    exists (S k). split; [done|]. econstructor; [exact Hpr1|lia|by apply advanced_Running].
Qed.

(** ** The end of a run *)

(** The system messages of the steps put together are the update log. *)
Definition messagesAreLog (w : World) : Prop :=
  ∃ msgs, step_SystemMessage <$> Steps (runStatus w) = Some <$> msgs ∧
    sslice (logFile w) 0 (logSize w) = Some (foldr (λ m rest, m +:+ rest) "" msgs).

Record Ended (n : nat) (base : list event) (w : World) : Prop := {
  end_outcome : Succeeded n (runStatus w) ∨ ∃ k, FailedAt n k (runStatus w);
  end_reported : reportStatus w = runStatus w;
  end_trace : ∃ k evs t, trace w = EvPublish (runStatus w) :: evs ++ t ∧
    progress n base k t ∧ Forall (quietEvent (runStatus w)) evs;
  end_messages : readable → Succeeded n (runStatus w) → messagesAreLog w;
}.

Lemma failStep_statuses k l :
  (λ s, step_Status s) <$> imap (failStep (Z.of_nat k)) l =
  take k (step_Status <$> l) ++ replicate (length l - k) FAILED.
Proof.
  apply list_eq. intros i. rewrite list_lookup_fmap, list_lookup_imap.
  destruct (decide (i < k)) as [Hi|Hi].
  - destruct (l !! i) as [s|] eqn:Hs; simpl.
    + rewrite lookup_app_l by (rewrite length_take, length_fmap; apply lookup_lt_Some in Hs; lia).
      rewrite lookup_take_lt, list_lookup_fmap, Hs by lia. simpl. unfold failStep.
      by rewrite !decide_False by lia.
    + apply lookup_ge_None in Hs. symmetry. apply lookup_ge_None.
      rewrite length_app, length_take, length_fmap, length_replicate. lia.
  - rewrite lookup_app_r by (rewrite length_take, length_fmap; lia).
    rewrite length_take, length_fmap. destruct (l !! i) as [s|] eqn:Hs; simpl.
    + apply lookup_lt_Some in Hs. rewrite lookup_replicate_2 by lia. unfold failStep.
      repeat case_decide; (done || lia).
    + apply lookup_ge_None in Hs. symmetry. apply lookup_replicate_None. lia.
Qed.

Lemma failRun_FailedAt n k r : Running n k r → FailedAt n k (failRunAndNotFinishedSteps r).
Proof.
  intros Hr. pose proof (Running_length _ _ _ Hr) as Hlen. destruct Hr as [Hlt _ Hi Hs].
  split; [done|done|done| |].
  - unfold statuses. simpl. rewrite Hi, failStep_statuses, Hlen. fold (statuses r). rewrite Hs.
    unfold runningStatuses. by rewrite take_app_length' by (by rewrite length_replicate).
  - intros i s Hk. simpl. rewrite Hi, list_lookup_imap. intros Hl.
    destruct (Steps r !! i) as [s0|]; simplify_eq/=. unfold failStep.
    by rewrite !decide_True by lia.
Qed.

Lemma failRun_LogOk w :
  LogOk w → LogOk (set_runStatus (failRunAndNotFinishedSteps (runStatus w)) w).
Proof.
  intros [Hz Hst]. split; [done|]. simpl. apply list.Forall_lookup. intros i s.
  rewrite list_lookup_imap. destruct (Steps (runStatus w) !! i) as [s0|] eqn:Hs; [|done].
  intros [= <-]. pose proof (Forall_lookup_1 _ _ _ _ Hst Hs). unfold failStep. by repeat case_decide.
Qed.

Lemma FailedAt_evolves n k w w' :
  evolves w w' → FailedAt n k (runStatus w) → FailedAt n k (runStatus w').
Proof.
  intros [Es Eo _ _ _] [Hlt Hst Hi Hs Hm]. pose proof (skeleton_statuses _ _ Es) as Hss.
  pose proof (skeleton_inv _ _ Es) as (_ & ? & ? & _). split; [done|congruence..|].
  intros i s Hk Hl. apply (Hm i); [done|]. rewrite <-Hl. symmetry. apply Eo.
  intros [? _]%currentIdx_Some. lia.
Qed.

Lemma extends_quiet_app r t t' :
  extends (λ ev _, quietEvent r ev) t t' → ∃ evs, t' = evs ++ t ∧ Forall (quietEvent r) evs.
Proof.
  induction 1 as [|ev tr _ (evs & -> & HF) Hev]; [by exists []|].
  exists (ev :: evs). split; [done|]. by constructor.
Qed.

Lemma Quiet_ctxText cfg m : Quiet (ctxText env cfg m).
Proof. unfold ctxText. quiet. Qed.

(** Failing from any step ends the run as failed there. *)
Lemma wp_failWithUserMsg cfg n base k e m w :
  Inv n base k w →
  wp (failWithUserMsg env cfg e m) w (λ _ w', Ended n base w' ∧ Status (runStatus w') = FAILED).
Proof.
  intros [Hl Hr _ (j & _ & Hpr)]. unfold failWithUserMsg, modifyStatus.
  apply wp_bind, wp_modify. set (w1 := set_runStatus _ w).
  assert (LogOk w1) as Hl1 by by apply failRun_LogOk.
  assert (FailedAt n k (runStatus w1)) as Hf1 by by apply failRun_FailedAt.
  apply wp_bind, wp_gets, wp_bind.
  eapply wp_mono; [apply (wp_Quiet_from _ w1); [|done|exact Hl1]|].
  { pose proof (Quiet_ctxText cfg). quiet. }
  intros msg w2 [Hl2 E2]. apply wp_bind.
  eapply wp_mono; [apply (wp_Quiet_from _ w1 w2); [apply Quiet_setCurrentStepMessage|done..]|].
  intros _ w3 [Hl3 E3]. apply wp_modify.
  pose proof (FailedAt_evolves _ _ _ _ E3 Hf1) as Hf3.
  destruct (extends_quiet_app _ _ _ (ev_trace _ _ E3)) as (evs & Ht3 & Hq).
  split; [|apply Hf3]. split; simpl; [right; by exists k|done| |].
  - exists j, evs, (trace w1). split_and!; [by rewrite Ht3|done|].
    eapply Forall_impl; [|exact Hq]. intros []; simpl; try done. intros ->. symmetry. apply E3.
  - intros _ [Hs _]. destruct Hf3 as [_ Hs' _ _ _]. simpl in Hs. congruence.
Qed.

Lemma messages_join log e l s0 :
  l !! 0 = Some s0 →
  (∀ i s, l !! i = Some s → ∃ m, step_SystemMessage s = Some m ∧
     sslice log (step_LogStartIdx s) (default e (step_LogStartIdx <$> l !! S i)) = Some m) →
  ∃ msgs, step_SystemMessage <$> l = Some <$> msgs ∧
    sslice log (step_LogStartIdx s0) e = Some (foldr (λ m rest, m +:+ rest) "" msgs).
Proof.
  revert s0. induction l as [|s l IH]; intros s0 H0 Hl; [done|].
  injection H0 as ->. destruct (Hl 0 s0 eq_refl) as (m & Hm & Hs). simpl in Hs.
  destruct l as [|s1 l].
  - exists [m]. split; [simpl; by rewrite Hm|]. simpl. rewrite string_app_nil_r. exact Hs.
  - destruct (IH s1 eq_refl) as (msgs & Hmsgs & Hrest).
    { intros i s Hi. apply (Hl (S i) s Hi). }
    exists (m :: msgs). split; [|by eapply sslice_join].
    rewrite fmap_cons, Hm, Hmsgs. done.
Qed.

Lemma Succeeded_messages n k w :
  S k = n → length (Steps (runStatus w)) = n → Partition k w → readable →
  reports w k (logSize w) → messagesAreLog w.
Proof.
  intros Hk Hlen [Hf Hp] Hread Hlast. unfold start in Hf.
  destruct (Steps (runStatus w) !! 0) as [s0|] eqn:H0; [|done]. simplify_eq/=.
  destruct (messages_join (logFile w) (logSize w) (Steps (runStatus w)) s0 H0) as (msgs & Hm & Hs).
  - intros i s Hi. pose proof (lookup_lt_Some _ _ _ Hi).
    destruct (Steps (runStatus w) !! S i) as [s'|] eqn:HS; simpl.
    + destruct (Hp Hread i (step_LogStartIdx s')) as (s'' & logs & ? & ? & ?).
      * apply lookup_lt_Some in HS. lia.
      * unfold start. by rewrite HS.
      * simplify_eq. by exists logs.
    + apply lookup_ge_None in HS. assert (i = k) as -> by lia.
      destruct Hlast as (s'' & logs & ? & ? & ?). simplify_eq. by exists logs.
  - exists msgs. split; [done|]. by rewrite <-Hf.
Qed.

(** Completing the last step ends the run as succeeded, with one more
    published status and nothing else changed. *)
Lemma wp_completeRun n base k msg w :
  S k = n → Inv n base k w →
  wp (completeRun env msg) w (λ _ w', Ended n base w' ∧ Status (runStatus w') = SUCCEEDED ∧
    trace w' = EvPublish (runStatus w') :: trace w ∧ files w' = files w ∧
    ChangesDetected (runStatus w') = ChangesDetected (runStatus w)).
Proof.
  intros Hk Hinv. unfold completeRun. apply wp_bind.
  eapply wp_mono; [apply (wp_setCurrentStepMessage msg k);
    [apply Hinv|eapply Running_currentIdx, Hinv]|].
  intros _ w1 (Hl1 & E1 & Ht1 & Hz1 & Hf1 & Hfs1 & Hrep).
  assert (Inv n base k w1) as [_ Hr1 Hp1 (j & Hj & Hpr1)] by (by eapply Inv_evolves).
  unfold setCurrentStepStatus, setRunStatus, modifyStatus.
  apply wp_bind, wp_modify, wp_bind, wp_modify, wp_modify. simpl.
  pose proof (Running_currentIdx _ _ _ Hr1) as Hk1. pose proof (Running_length _ _ _ Hr1) as Hlen.
  rewrite !(updateCurrentStep_Some _ _ k) by done.
  assert (statuses (set_Steps (alter (set_step_Status SUCCEEDED) k (Steps (runStatus w1))) (runStatus w1))
    = replicate n SUCCEEDED) as Hss.
  { rewrite <-(updateCurrentStep_Some _ _ k Hk1), (statuses_updateCurrentStep _ _ k), (run_steps _ _ _ Hr1) by done.
    rewrite runningStatuses_succeed by (destruct Hr1; lia). by rewrite Hk, Nat.sub_diag, app_nil_r. }
  split_and!; [|done|simpl; by rewrite Ht1|done|].
  - split; simpl; [left; split; [done|exact Hss]|done| |].
    + exists j, [], (trace w1). by split_and!.
    + intros Hread _.
      set (w' := set_runStatus (set_Steps (alter (set_step_Status SUCCEEDED) k (Steps (runStatus w1)))
        (runStatus w1)) w1).
      assert (∀ i e, reports w1 i e → reports w' i e) as Hrp.
      { intros i e (s & logs & Hs & Hm & Hl). unfold reports, w'. simpl.
        destruct (decide (k = i)) as [->|Hne].
        - exists (set_step_Status SUCCEEDED s), logs.
          by rewrite list_lookup_alter, decide_True, Hs.
        - exists s, logs. by rewrite list_lookup_alter_ne. }
      assert (∀ i, start (runStatus w') i = start (runStatus w1) i) as Hstart.
      { intros i. unfold start, w'. simpl. destruct (decide (k = i)) as [->|Hne].
        - rewrite list_lookup_alter, decide_True by done. by destruct (Steps (runStatus w1) !! i).
        - by rewrite list_lookup_alter_ne. }
      apply (Succeeded_messages n k w'); [done|simpl; by rewrite length_alter| |done|].
      * destruct Hp1 as [Hf Hp]. split; [by rewrite Hstart|].
        intros _ i e Hi He. rewrite Hstart in He. apply Hrp. by apply Hp.
      * apply Hrp. unfold w'. simpl. rewrite Hz1. by apply Hrep.
  - simpl. by pose proof (skeleton_inv _ _ (ev_skeleton _ _ E1)) as (_ & _ & _ & -> & _).
Qed.

(** The status right after [initRunSteps]: new steps, none started. *)
Record Fresh (n : nat) (w : World) : Prop := {
  fresh_size : (0 ≤ logSize w ≤ slen (logFile w))%Z;
  fresh_pos : 0 < n;
  fresh_steps : statuses (runStatus w) = replicate n PENDING;
  fresh_starts : Forall (λ s, step_LogStartIdx s = 0%Z) (Steps (runStatus w));
}.

Lemma wp_startRun n w Q :
  Fresh n w → (∀ w', Inv n (trace w) 0 w' → ChangesDetected (runStatus w') = ChangesDetected (runStatus w) →
    Q tt w') → wp startRun w Q.
Proof.
  intros [Hz Hn Hs Hst] HQ. unfold startRun, firstStepM, setRunStatus, modifyStatus.
  assert (length (Steps (runStatus w)) = n) as Hlen.
  { unfold statuses in Hs. apply (f_equal length) in Hs. by rewrite length_fmap, length_replicate in Hs. }
  apply wp_bind, wp_modify, wp_bind, wp_modify, wp_modify.
  unfold firstStep. rewrite decide_False by lia. simpl.
  assert (Running n 0 (set_Status IN_PROGRESS (set_CurrentStepIndex 0 (runStatus w)))) as Hr.
  { split; [done|done|done|]. unfold statuses in *. simpl. rewrite Hs. unfold runningStatuses.
    destruct n as [|n]; [lia|]. simpl. by rewrite Nat.sub_0_r. }
  apply HQ; [|done]. split; [|exact Hr| |].
  - split; [done|]. simpl. eapply Forall_impl; [|exact Hst]. simpl. lia.
  - split; simpl; [|lia]. unfold start. simpl.
    destruct (lookup_lt_is_Some_2 (Steps (runStatus w)) 0) as [s Hs0]; [lia|].
    rewrite Hs0. simpl. by rewrite (Forall_lookup_1 _ _ _ _ Hst Hs0).
  - exists 0. split; [done|]. simpl. econstructor; [constructor|done|exact Hr].
Qed.
End Life.

Section Commands.
Context {policy : PanicPolicy} (env : Env) (lib : HclLib) (cfg : TfRunnerConfig) (info : RunContextInfo)
  (params : TfCmdParams) (installDir : string).
Context (Hready : CommandReady env lib info params).
Context (n : nat) (base : list event) (Q : unit → World → Prop).
Context (HQ : ∀ w', Ended env n base w' → Status (runStatus w') = FAILED → Q tt w').

Lemma wp_failWith e m k w : Inv env n base k w → wp (failWithUserMsg env cfg e m) w Q.
Proof.
  intros Hw. eapply wp_mono; [exact (wp_failWithUserMsg env cfg n base k e m w Hw)|].
  intros [] w' [? ?]. auto.
Qed.

Lemma wp_fail e k w : Inv env n base k w → wp (fail_ env cfg e) w Q.
Proof. apply wp_failWith. Qed.

Lemma wp_orFail m K k w :
  Quiet m → Inv env n base k w → (∀ w', Inv env n base k w' → wp K w' Q) → wp (orFail env cfg m K) w Q.
Proof.
  intros Hm Hw HK. apply wp_bind. eapply wp_quiet; [exact Hm|exact Hw|].
  intros [e|] w' Hw'; cbv beta iota; [exact (wp_fail e k w' Hw')|auto].
Qed.

Lemma wp_orFailWith {A} (m : M (result A)) K k w :
  Quiet m → Inv env n base k w → (∀ a w', Inv env n base k w' → wp (K a) w' Q) →
  wp (orFailWith env cfg m K) w Q.
Proof.
  intros Hm Hw HK. apply wp_bind. eapply wp_quiet; [exact Hm|exact Hw|].
  intros [a|e] w' Hw'; cbv beta iota; [auto|exact (wp_fail e k w' Hw')].
Qed.

Lemma wp_then {A} (m : M A) (K : M unit) k w :
  Quiet m → Inv env n base k w → (∀ w', Inv env n base k w' → wp K w' Q) → wp (m;; K) w Q.
Proof. intros Hm Hw HK. apply wp_bind. eapply wp_quiet; eauto. Qed.

Lemma wp_advance msg K k w :
  Inv env n base k w → next info k < n → (∀ w', Inv env n base (next info k) w' → wp K w' Q) →
  wp (advanceStep env info msg;; K) w Q.
Proof. intros Hw Hk HK. apply wp_bind. eapply wp_advanceStep; eauto. Qed.

Lemma wp_orFailScript tfEnv K k w :
  Inv env n base k w → next info k < n → (∀ w', Inv env n base (next info k) w' → wp K w' Q) →
  wp (orFailScript env cfg info params installDir tfEnv K) w Q.
Proof.
  intros Hw Hk HK. apply wp_bind. eapply wp_quiet; [apply Quiet_runPreRunScript|exact Hw|].
  intros [m [e|]] w' Hw'; cbn [fst snd]; [exact (wp_failWith e m k w' Hw')|by eapply wp_advance].
Qed.

(** From the sources to the end of the vars: the part all commands share. *)
Lemma wp_prepare (K : gmap string string → M unit) w :
  Inv env n base 0 w → next info 0 < n → next info (next info 0) < n →
  (∀ tfEnv w', Inv env n base (next info (next info 0)) w' → wp (K tfEnv) w' Q) →
  wp (orFail env cfg (createFreshCommandWd env cfg info params) (
    orFailWith env cfg (GetTF env installDir (tfVersion params)) (λ _,
    orFailWith env cfg (buildTfEnv env cfg info params) (λ tfEnv,
    orFail env cfg (SetEnv env tfEnv) (
    assignOutput;;
    advanceStep env info None;;
    orFail env cfg (r ← saveInputFiles env info params; mret r.2) (
    orFail env cfg (vars_cmd env lib info params) (
    advanceStep env info None;; K tfEnv))))))) w Q.
Proof.
  intros Hw Hn1 Hn2 HK.
  eapply wp_orFail; [by eapply Quiet_createFreshCommandWd|exact Hw|]. clear w Hw. intros w Hw.
  eapply wp_orFailWith; [by eapply Quiet_GetTF_ready|exact Hw|]. clear w Hw. intros _ w Hw.
  eapply wp_orFailWith; [by eapply Quiet_buildTfEnv_ready|exact Hw|]. clear w Hw. intros tfEnv w Hw.
  eapply wp_orFail; [by eapply Quiet_SetEnv|exact Hw|]. clear w Hw. intros w Hw.
  eapply wp_then; [apply Quiet_assignOutput|exact Hw|]. clear w Hw. intros w Hw.
  eapply wp_advance; [exact Hw|done|]. clear w Hw. intros w Hw.
  eapply wp_orFail; [by eapply Quiet_saveInputFiles_ready|exact Hw|]. clear w Hw. intros w Hw.
  eapply wp_orFail; [by eapply Quiet_vars_ready|exact Hw|]. clear w Hw. intros w Hw.
  eapply wp_advance; [exact Hw|done|]. auto.
Qed.

(** From the init to the start of the execution step. *)
Lemma wp_initialise initOp tfEnv (K : M unit) k w :
  Quiet initOp → Inv env n base k w → next info k < n → next info (next info k) < n →
  (∀ w', Inv env n base (next info (next info k)) w' → wp K w' Q) →
  wp (orFail env cfg initOp (
    orFail env cfg (useWorkspaceIfNeeded env params) (
    advanceStep env info None;;
    orFailScript env cfg info params installDir tfEnv K))) w Q.
Proof.
  intros Hinit Hw Hn1 Hn2 HK.
  eapply wp_orFail; [exact Hinit|exact Hw|]. clear w Hw. intros w Hw.
  eapply wp_orFail; [apply Quiet_useWorkspaceIfNeeded|exact Hw|]. clear w Hw. intros w Hw.
  eapply wp_advance; [exact Hw|done|]. clear w Hw. intros w Hw.
  eapply wp_orFailScript; [exact Hw|done|auto].
Qed.
End Commands.

(** ** The commands *)

Section Execute.
Context (env : Env) (lib : HclLib) (cfg : TfRunnerConfig) (info : RunContextInfo)
  (params : TfCmdParams) (installDir : string).
Context {policy : PanicPolicy} (Hready : CommandReady env lib info params).

Definition stepCount (c : TfCommand) : nat :=
  if asyncRun info then 1 else match c with PlanCommand => 5 | _ => 6 end.

(** The steps that a command has gone through when it comes to its last act. *)
Definition lastStep (c : TfCommand) : nat :=
  if asyncRun info then 0 else match c with PlanCommand => 4 | _ => 5 end.

Ltac steps := unfold stepCount, lastStep, next in *; destruct (asyncRun info); lia.

(** What a plan that succeeded leaves behind: the plan of tofu, made with the
    trace [t] behind it, then nothing but log lines until its bytes were
    uploaded, and that upload directly before the terminal status. *)
Definition planUploaded (w : World) : Prop :=
  ∃ t mid data,
    trace w = EvPublish (runStatus w) :: EvUpload (artifactUploadUrl params) data true ::
      mid ++ EvTf (TfPlan (artifactFilePath info) stateLockTimeout) :: t ∧
    artifactUploadUrl params ≠ "" ∧
    env_tfErr env t (TfPlan (artifactFilePath info) stateLockTimeout) = None ∧
    files w !! artifactFilePath info = Some data ∧
    ChangesDetected (runStatus w) = Some (env_tfChanged env t).

Lemma wp_runTf_trace call w :
  LogOk w → wp (runTf env call) w (λ r w', LogOk w' ∧ evolves w w' ∧
    r = env_tfErr env (trace w) call ∧ ∃ evs, trace w' = evs ++ EvTf call :: trace w).
Proof.
  intros Hw. unfold runTf. apply wp_bind, wp_gets, wp_bind, wp_modify.
  assert (Quiet (modify (emit (EvTf call)))) as Hq by by apply Quiet_emit.
  specialize (Hq w Hw) as [Hw1 E1]. set (w1 := emit (EvTf call) w) in *.
  assert (Quiet (notePlan (planRead call);; writeChunks env (env_tfOutput env (trace w) call);;
    modify (λ w2, set_files (env_tfFiles env (trace w) call (files w2)) w2);; notePlan (planWritten call))) as Hr
    by (pose proof Quiet_notePlan; quiet).
  specialize (Hr w1 Hw1). unfold wp, mbind, M_bind in *. cbv beta iota in *.
  destruct (notePlan (planRead call) w1) as [[[]|] w2]; [|done].
  destruct (writeChunks _ _ w2) as [[[]|] w3]; [|done]. cbn [modify] in *.
  destruct (notePlan (planWritten call) _) as [[[]|] w4]; [|done]. destruct Hr as [Hw4 E4].
  split_and!; [done|by etrans|done|].
  destruct (extends_app _ _ _ (ev_trace _ _ E4)) as [evs Hevs]. exists evs. exact Hevs.
Qed.

Lemma Inv_ChangesDetected n base k b w :
  Inv env n base k w → Inv env n base k (set_runStatus (set_ChangesDetected b (runStatus w)) w).
Proof.
  intros [[? ?] [? ? ? ?] [? ?] ?]. split; [by split|by split| |done]. split; [done|]. done.
Qed.

Lemma wp_planAndUpload n base Q w :
  (∀ w', Ended env n base w' → Status (runStatus w') = FAILED → Q tt w') →
  (∀ w', Ended env n base w' → planUploaded w' → Q tt w') →
  Inv env n base (n - 1) w → 0 < n → wp (planAndUpload env cfg info params) w Q.
Proof.
  intros HQf HQs Hw Hn. unfold planAndUpload. apply wp_bind, wp_gets.
  set (t := trace w). set (call := TfPlan (artifactFilePath info) stateLockTimeout).
  unfold orFail. apply wp_bind. eapply wp_mono; [apply wp_runTf_trace, Hw|].
  intros r w1 (Hl1 & E1 & -> & mid & Hmid). fold t in Hmid |- *.
  assert (Inv env n base (n - 1) w1) as Hw1 by by eapply Inv_evolves.
  destruct (env_tfErr env t call) eqn:Hplan; [exact (wp_fail env cfg n base Q HQf _ _ _ Hw1)|].
  unfold modifyStatus. apply wp_bind, wp_modify.
  apply (Inv_ChangesDetected _ _ _ (Some (env_tfChanged env t))) in Hw1.
  set (w2 := set_runStatus _ w1) in *.
  case_decide as Hurl; [exact (wp_fail env cfg n base Q HQf _ _ _ Hw1)|].
  apply wp_bind. unfold os_ReadFileM, osFails, ask.
  apply wp_bind, wp_gets, wp_bind, wp_gets, wp_ret.
  destruct (env_osErr _ _ _ _); [exact (wp_fail env cfg n base Q HQf _ _ _ Hw1)|].
  destruct (files w2 !! artifactFilePath info) as [data|] eqn:Hdata;
    [|exact (wp_fail env cfg n base Q HQf _ _ _ Hw1)].
  unfold UploadArtifact. apply wp_bind, wp_bind, wp_gets, wp_bind, wp_modify, wp_ret.
  set (ok := bool_decide _). set (w3 := emit _ w2).
  assert (Inv env n base (n - 1) w3) as Hw3.
  { eapply Inv_evolves; [exact Hw1| |].
    - apply (Quiet_emit (EvUpload (artifactUploadUrl params) data ok)); [done|apply Hw1].
    - apply (Quiet_emit (EvUpload (artifactUploadUrl params) data ok)); [done|apply Hw1]. }
  destruct (env_upload _ _ _ _) eqn:Hup; [exact (wp_fail env cfg n base Q HQf _ _ _ Hw3)|].
  eapply wp_mono; [apply (wp_completeRun env n base (n - 1)); [lia|exact Hw3]|].
  intros [] w4 (Hend & Hst & Ht4 & Hfs4 & Hch4). apply HQs; [done|].
  exists t, mid, data. rewrite Ht4, Hfs4, Hch4. split_and!; [|done..].
  unfold w3, ok. simpl. by rewrite Hmid.
Qed.

Lemma wp_TfPlan w :
  Fresh (stepCount PlanCommand) w →
  wp (TfPlan_execute env lib cfg info params installDir) w (λ _ w',
    Ended env (stepCount PlanCommand) (trace w) w' ∧
    (Status (runStatus w') = SUCCEEDED → planUploaded w')).
Proof.
  intros Hf. unfold TfPlan_execute. apply wp_bind. eapply wp_startRun; [exact Hf|].
  intros w0 Hw _. cbv beta. set (base := trace w) in *. clearbody base. clear w Hf. revert w0 Hw.
  set (Q := λ (_ : unit) w', Ended env (stepCount PlanCommand) base w' ∧
    (Status (runStatus w') = SUCCEEDED → planUploaded w')).
  assert (∀ w', Ended env (stepCount PlanCommand) base w' → Status (runStatus w') = FAILED → Q tt w')
    as HQ by (unfold Q; naive_solver congruence).
  intros w Hw. fold Q.
  eapply (wp_prepare env lib cfg info params installDir Hready _ base Q HQ (λ tfEnv, _)); [exact Hw|steps..|].
  clear w Hw. intros tfEnv w Hw.
  eapply (wp_initialise env cfg info params installDir _ base Q HQ); [apply Quiet_initWithHint|exact Hw|steps..|].
  clear w Hw. intros w Hw.
  apply (wp_planAndUpload (stepCount PlanCommand) base); [exact HQ|unfold Q; naive_solver| |steps].
  replace (stepCount PlanCommand - 1) with (next info (next info (next info (next info 0)))) by steps.
  done.
Qed.

Lemma Fresh_initRunSteps c w :
  (0 ≤ logSize w ≤ slen (logFile w))%Z →
  ∃ w', initRunSteps info c w = (Done tt, w') ∧ Fresh (stepCount c) w' ∧ trace w' = trace w ∧
    logFile w' = logFile w ∧ logSize w' = logSize w.
Proof.
  intros Hz. unfold initRunSteps, TfApply_initRunSteps, TfPlan_initRunSteps, TfDestroy_initRunSteps,
    installSteps, modifyStatus, modify, applySteps, planSteps, destroySteps, stepCount.
  destruct c; (eexists; split; [reflexivity|]; split; [|done]);
    destruct (asyncRun info); (split; [done|lia|done|repeat constructor]).
Qed.
End Execute.
