(* ===== verification/TfSuccess.v ===== *)
(** * TfSuccess: what a succeeded run has done

    A status that says SUCCEEDED is only worth something when tofu did what
    the run asked for. This file follows the commands of TfCommands.v once
    more, with the calls of tofu that succeeded on the way. *)

From S2P Require Import Prelude GoPath Base64 Hcl VarsFile Status MeshDtos TfConfig Run RunM Example Frame GitSource TfEnv Script TfVars TfBinaries TfCmd TfCommands TfFrames TfRun.

Section Success.
Context (env : Env) (lib : HclLib) (cfg : TfRunnerConfig) (info : RunContextInfo)
  (params : TfCmdParams) (installDir : string).

(** ** Calls that succeeded *)

(** The trace of [w] goes on from [t]. *)
Definition since (t : list event) (w : World) : Prop := ∃ evs, trace w = evs ++ t.

(** tofu was called, with [t] behind it, and reported no error. *)
Definition succeededAt (call : TfCall) (t : list event) (w : World) : Prop :=
  since (EvTf call :: t) w ∧ env_tfErr env t call = None.
Definition did (call : TfCall) (w : World) : Prop := ∃ t, succeededAt call t w.

Lemma since_extends P t w w' : extends P (trace w) (trace w') → since t w → since t w'.
Proof. intros [evs Ht]%extends_app [evs' Ht']. exists (evs ++ evs'). by rewrite Ht, Ht', <-app_assoc. Qed.

Lemma did_extends P call w w' : extends P (trace w) (trace w') → did call w → did call w'.
Proof. intros Hx (t & Ht & He). exists t. split; [by eapply since_extends|done]. Qed.

Lemma runTf_succeeded call w w' :
  runTf env call w = (Done None, w') → succeededAt call (trace w) w'.
Proof.
  intros Hr. split; [|by apply runTf_Done in Hr].
  pose proof (runTf_extends env call w) as Hx. rewrite Hr in Hx. apply extends_app in Hx. exact Hx.
Qed.

Lemma runTf_did call w w' : runTf env call w = (Done None, w') → did call w'.
Proof. intros Hr%runTf_succeeded. by exists (trace w). Qed.

(** The apply of a run: of the downloaded plan, or a fresh one. *)
Definition applyCall : TfCall :=
  TfApply (if decide (artifactUrl params = "") then None else Some (artifactFilePath info)) stateLockTimeout.

Lemma applyAny_did w w' : applyAny env info params w = (Done None, w') → did applyCall w'.
Proof.
  unfold applyAny, applyCall. destruct (decide (artifactUrl params = "")) as [->|Hurl].
  - rewrite decide_False by tauto. intros (u & w1 & _ & H)%M_bind_Done. by apply runTf_did in H.
  - rewrite decide_True by done. unfold applyPredecessorPlan.
    intros (u & w1 & _ & H)%M_bind_Done. apply M_bind_Done in H as ([e|] & w2 & _ & H); [by apply M_ret_Done in H as [? _]|].
    apply M_bind_Done in H as (u1 & w3 & _ & H). apply M_bind_Done in H as ([e|] & w4 & _ & H); [by apply M_ret_Done in H as [? _]|].
    apply M_bind_Done in H as ([e|] & w5 & _ & H); [by apply M_ret_Done in H as [? _]|].
    apply M_bind_Done in H as ([e|] & w6 & Hr & H); [by apply M_ret_Done in H as [? _]|].
    apply M_ret_Done in H as [_ <-]. by apply runTf_did in Hr.
Qed.

Lemma TfOutput_succeeded w w' output :
  TfOutput_ env w = (Done (Ok output), w') → ∃ t, succeededAt TfOutputs t w' ∧ output = env_tfOutputs env t.
Proof.
  unfold TfOutput_. intros (t & w1 & [= <- <-] & H)%M_bind_Done.
  apply M_bind_Done in H as ([e|] & w2 & Hr & H); apply M_ret_Done in H as [[= <-] <-].
  exists (trace w). split; [by apply runTf_succeeded|done].
Qed.

(** ** Outputs *)

Definition outputsOf (w : World) : list (gmap string TfOutput) := step_Outputs <$> Steps (runStatus w).

(** Only [collectOutput] changes the outputs of a step. *)
Definition sameOutputs (w w' : World) : Prop := outputsOf w' = outputsOf w.
#[local] Instance sameOutputs_preorder : PreOrder sameOutputs.
Proof. split; [done|]. intros x y z Hxy Hyz. unfold sameOutputs in *. congruence. Qed.

Lemma sameOutputs_update f w :
  (∀ s, step_Outputs (f s) = step_Outputs s) →
  sameOutputs w (set_runStatus (updateCurrentStep f (runStatus w)) w).
Proof.
  intros Hf. unfold sameOutputs, outputsOf, updateCurrentStep. simpl.
  destruct (currentIdx (runStatus w)) as [i|]; [|done]. simpl. apply list_eq. intros j.
  rewrite !list_lookup_fmap. destruct (decide (i = j)) as [->|Hne].
  - rewrite list_lookup_alter, decide_True by done. destruct (Steps (runStatus w) !! j); simpl; by rewrite ?Hf.
  - by rewrite list_lookup_alter_ne.
Qed.

Lemma completeRun_outputs msg : Keeps sameOutputs (completeRun env msg).
Proof.
  unfold completeRun, setCurrentStepMessage, setCurrentStepStatus, setRunStatus, commitStatus, publishStatus, modifyStatus.
  repeat first
    [ apply Keeps_bind; [apply _|..] | apply Keeps_gets, _ | apply Keeps_ret, _
    | apply Keeps_modify; intros w; first [reflexivity|by apply sameOutputs_update|destruct msg; [by apply sameOutputs_update|reflexivity]]
    | match goal with
      | |- ∀ _, Keeps _ _ => intros ?
      | |- Keeps _ (match ?x with _ => _ end) => destruct x
      | |- Keeps _ (fileContentOrEmpty _ _ _) => unfold fileContentOrEmpty, ask
      | |- Keeps _ (panic _) => apply Keeps_panic, _
      end ].
Qed.

Lemma collectOutput_outputs output w k :
  currentIdx (runStatus w) = Some k →
  outputsOf (collectOutput env output w).2 !! k = Some (omap (parseOutput env) output).
Proof.
  intros Hk. unfold outputsOf, collectOutput, modifyStatus, modify, updateCurrentStep. simpl. rewrite Hk. simpl.
  rewrite list_lookup_fmap, list_lookup_alter, decide_True by done.
  by destruct (currentIdx_lookup _ _ Hk) as [s ->].
Qed.
(** ** The ends of the commands *)

Context {policy : PanicPolicy} (Hready : CommandReady env lib info params).

(** What a command did that succeeded. After an apply the outputs that tofu
    then reported are those of the last step. *)
Definition achieved (c : TfCommand) (w : World) : Prop :=
  match c with
  | ApplyCommand => did applyCall w ∧ ∃ t, succeededAt TfOutputs t w ∧
      outputsOf w !! lastStep info c = Some (omap (parseOutput env) (env_tfOutputs env t))
  | PlanCommand => did (TfPlan (artifactFilePath info) stateLockTimeout) w
  | DestroyCommand => did (TfDestroy stateLockTimeout (destroyOptions env (tfVersion params))) w
  end.

Definition endsWell (c : TfCommand) (base : list event) (w : World) : Prop :=
  Ended env (stepCount info c) base w ∧ (Status (runStatus w) = SUCCEEDED → achieved c w).

Section Tail.
Context (n : nat) (base : list event) (Q : unit → World → Prop).
Context (HQ : ∀ w', Ended env n base w' → Status (runStatus w') = FAILED → Q tt w').

(** An operation between the steps, whose result is known to come from it. *)
Lemma wp_quiet_from {A} k (m : M A) w Q' :
  Quiet m → Inv env n base k w →
  (∀ a w', m w = (Done a, w') → Inv env n base k w' → (∀ call, did call w → did call w') → Q' a w') → wp m w Q'.
Proof.
  intros Hm Hw HQ'. pose proof (Hm w (inv_log _ _ _ _ _ Hw)) as Hwp. unfold wp in *.
  destruct (m w) as [[a|msg] w'] eqn:Hr; [|done]. destruct Hwp as [Hl E]. apply HQ'; [done|by eapply Inv_evolves|].
  intros call. eapply did_extends, E.
Qed.

Lemma wp_orFail_from k m K w :
  Quiet m → Inv env n base k w →
  (∀ w', m w = (Done None, w') → Inv env n base k w' → (∀ call, did call w → did call w') → wp K w' Q) →
  wp (orFail env cfg m K) w Q.
Proof.
  intros Hm Hw HK. apply wp_bind. eapply wp_quiet_from; [exact Hm|exact Hw|].
  intros [e|] w' Hr Hw' Hd; [exact (wp_fail env cfg n base Q HQ _ _ _ Hw')|auto].
Qed.

Lemma wp_orFailWith_from {A} k (m : M (result A)) K w :
  Quiet m → Inv env n base k w →
  (∀ a w', m w = (Done (Ok a), w') → Inv env n base k w' → (∀ call, did call w → did call w') → wp (K a) w' Q) →
  wp (orFailWith env cfg m K) w Q.
Proof.
  intros Hm Hw HK. apply wp_bind. eapply wp_quiet_from; [exact Hm|exact Hw|].
  intros [a|e] w' Hr Hw' Hd; [auto|exact (wp_fail env cfg n base Q HQ _ _ _ Hw')].
Qed.

Lemma wp_advance_from k msg K w :
  Inv env n base k w → next info k < n →
  (∀ w', Inv env n base (next info k) w' → (∀ call, did call w → did call w') → wp K w' Q) →
  wp (advanceStep env info msg;; K) w Q.
Proof.
  intros Hw Hk HK. apply wp_bind. pose proof (calm_advanceStep env info msg w) as Hx.
  pose proof (wp_advanceStep env info n base k msg w (λ _ w', Inv env n base (next info k) w') Hw Hk) as Hwp.
  unfold wp in *. destruct (advanceStep env info msg w) as [[[]|m] w']; [|by apply Hwp].
  apply HK; [by apply Hwp|]. intros call. by eapply did_extends.
Qed.
End Tail.
Ltac steps := unfold stepCount, lastStep, next in *; destruct (asyncRun info); lia.

Lemma wp_apply_succeeds w :
  Fresh (stepCount info ApplyCommand) w →
  wp (TfApply_execute env lib cfg info params installDir) w (λ _, endsWell ApplyCommand (trace w)).
Proof.
  intros Hf. unfold TfApply_execute. apply wp_bind. eapply wp_startRun; [exact Hf|].
  intros w0 Hw _. cbv beta. set (base := trace w) in *. clearbody base. clear w Hf. revert w0 Hw.
  set (Q := λ (_ : unit), endsWell ApplyCommand base).
  assert (∀ w', Ended env (stepCount info ApplyCommand) base w' → Status (runStatus w') = FAILED → Q tt w')
    as HQ by (unfold Q, endsWell; naive_solver congruence).
  intros w Hw.
  eapply (wp_prepare env lib cfg info params installDir Hready _ base Q HQ (λ tfEnv, _)); [exact Hw|steps..|].
  clear w Hw. intros tfEnv w Hw.
  eapply (wp_initialise env cfg info params installDir _ base Q HQ); [apply Quiet_init|exact Hw|steps..|].
  clear w Hw. intros w Hw.
  eapply (wp_orFail_from _ base Q HQ); [apply Quiet_applyAny|exact Hw|].
  clear Hw. intros w1 Ha%applyAny_did Hw _.
  eapply (wp_advance_from _ base Q); [exact Hw|steps|]. clear Hw. intros w2 Hw Hd. specialize (Hd _ Ha). clear Ha.
  eapply (wp_orFailWith_from _ base Q HQ); [apply Quiet_TfOutput|exact Hw|].
  clear Hw. intros output w3 (t & [Ht He] & ->)%TfOutput_succeeded Hw Hd'.
  specialize (Hd' _ Hd). clear Hd.
  apply wp_bind. eapply wp_quiet_from; [apply Quiet_collectOutput|exact Hw|].
  intros [] w4 Hc Hw4 _.
  pose proof (collectOutput_outputs (env_tfOutputs env t) w3 _ (Running_currentIdx _ _ _ (inv_running _ _ _ _ _ Hw))) as Ho.
  assert (trace w4 = trace w3) as Ht4 by (unfold collectOutput, modifyStatus, modify in Hc; by injection Hc as <-).
  rewrite Hc in Ho. cbn [snd] in Ho.
  pose proof (completeRun_outputs None w4) as Hsame.
  unshelve epose proof (wp_completeRun env (stepCount info ApplyCommand) base _ None w4 _ Hw4) as Hwp; [steps|].
  unfold wp in *. destruct (completeRun env None w4) as [[[]|m] w5]; [|done].
  destruct Hwp as (Hend & _ & Ht5 & _). split; [exact Hend|]. intros _.
  assert (extends (λ _ _, True) (trace w3) (trace w5)) as Hx by (rewrite Ht5, Ht4; repeat constructor).
  split; [by eapply did_extends|]. exists t. split; [split; [by eapply since_extends|done]|].
  simpl in Hsame. unfold sameOutputs in Hsame. rewrite Hsame, <-Ho. f_equal. unfold lastStep, next. by destruct (asyncRun info).
Qed.
Lemma wp_destroy_succeeds w :
  Fresh (stepCount info DestroyCommand) w →
  wp (TfDestroy_execute env lib cfg info params installDir) w (λ _, endsWell DestroyCommand (trace w)).
Proof.
  intros Hf. unfold TfDestroy_execute. apply wp_bind. eapply wp_startRun; [exact Hf|].
  intros w0 Hw _. cbv beta. set (base := trace w) in *. clearbody base. clear w Hf. revert w0 Hw.
  set (Q := λ (_ : unit), endsWell DestroyCommand base).
  assert (∀ w', Ended env (stepCount info DestroyCommand) base w' → Status (runStatus w') = FAILED → Q tt w')
    as HQ by (unfold Q, endsWell; naive_solver congruence).
  intros w Hw.
  eapply (wp_prepare env lib cfg info params installDir Hready _ base Q HQ (λ tfEnv, _)); [exact Hw|steps..|].
  clear w Hw. intros tfEnv w Hw.
  eapply (wp_initialise env cfg info params installDir _ base Q HQ); [apply Quiet_initWithHint|exact Hw|steps..|].
  clear w Hw. intros w Hw.
  eapply (wp_orFail_from _ base Q HQ); [destruct (asyncRun info); [apply Quiet_runTf|apply Quiet_ret]|exact Hw|].
  clear Hw. intros w1 _ Hw _.
  eapply (wp_orFail_from _ base Q HQ); [apply Quiet_runTf|exact Hw|].
  clear Hw. intros w2 Hd%runTf_did Hw _.
  eapply (wp_advance_from _ base Q); [exact Hw|steps|]. clear Hw. intros w3 Hw Hk. apply Hk in Hd. clear Hk.
  eapply (wp_orFailWith_from _ base Q HQ); [apply Quiet_TfOutput|exact Hw|].
  clear Hw. intros output w4 _ Hw Hk. apply Hk in Hd. clear Hk.
  apply wp_bind. eapply wp_quiet_from; [apply Quiet_collectOutput|exact Hw|].
  clear Hw. intros _ w5 _ Hw Hk. apply Hk in Hd. clear Hk.
  apply wp_bind. eapply wp_quiet_from; [apply Quiet_deleteWorkspaceIfNeeded|exact Hw|].
  clear Hw. intros _ w6 _ Hw Hk. apply Hk in Hd. clear Hk.
  eapply wp_mono; [eapply wp_completeRun; [|exact Hw]; steps|]. intros [] w7 (Hend & _ & Ht & _).
  split; [exact Hend|]. intros _. simpl. eapply (did_extends (λ _ _, True)); [|exact Hd]. rewrite Ht. repeat constructor.
Qed.

Lemma wp_succeeds c w :
  Fresh (stepCount info c) w → wp (execute env lib cfg info params installDir c) w (λ _, endsWell c (trace w)).
Proof.
  destruct c; [apply wp_apply_succeeds| |apply wp_destroy_succeeds].
  intros Hf. eapply wp_mono; [by apply (wp_TfPlan env lib cfg info params installDir Hready)|].
  intros [] w' [Hend Hup]. split; [exact Hend|]. intros Hok.
  destruct (Hup Hok) as (t & mid & data & Ht & _ & He & _). exists t. split; [|exact He].
  exists (EvPublish (runStatus w') :: EvUpload (artifactUploadUrl params) data true :: mid). exact Ht.
Qed.

Lemma wp_execute c w :
  Fresh (stepCount info c) w →
  wp (execute env lib cfg info params installDir c) w (λ _ w', Ended env (stepCount info c) (trace w) w').
Proof. intros Hf. eapply wp_mono; [by apply wp_succeeds|]. by intros _ w' [? _]. Qed.
End Success.
