(* ===== verification/TfContract.v ===== *)
(** * TfContract: what the Terraform commands promise

    The contract of [TfCmd], on the definitions of TfCommands.v: a command ends
    in a published terminal status unless it panics for a cause of
    [CrashCause], its published statuses go through the steps in order, its
    messages are the log, a plan that succeeds was uploaded, and an apply
    linked to a predecessor only ever applies the downloaded plan. *)

From S2P Require Import Prelude GoPath Base64 Hcl VarsFile Status MeshDtos TfConfig Run RunM Example Frame GitSource TfEnv Script TfVars TfBinaries TfCmd TfCommands TfFrames TfRun TfSuccess.

Lemma exampleLaws mode artifact upload tfErr :
  CommandLaws (exampleEnvWith tfErr) exampleLib (exampleParams mode artifact upload).
Proof. split; [by intros t|apply exampleLib_stringsConvert]. Qed.

Section Contract.
Context (env : Env) (lib : HclLib) (cfg : TfRunnerConfig) (info : RunContextInfo)
  (params : TfCmdParams) (installDir : string).

(** A worker's use of a command. *)
Definition runCommand (c : TfCommand) : M unit :=
  initRunSteps info c;; execute env lib cfg info params installDir c.

Lemma wp_runCommand {policy : PanicPolicy} c w :
  CommandReady env lib info params → (0 ≤ logSize w ≤ slen (logFile w))%Z →
  wp (runCommand c) w (λ _ w', Ended env (stepCount info c) (trace w) w').
Proof.
  intros Hr Hz. apply wp_bind.
  destruct (Fresh_initRunSteps info c w Hz) as (w1 & Hi & Hf & Ht & _).
  unfold wp at 1. rewrite Hi, <-Ht. by apply wp_execute.
Qed.

(** A command that did not panic, whatever would have let it. *)
Lemma runCommand_Ended c w w' :
  CommandLaws env lib params → (0 ≤ logSize w ≤ slen (logFile w))%Z → runCommand c w = (Done tt, w') →
  Ended env (stepCount info c) (trace w) w'.
Proof.
  intros Hl Hz. apply (wp_done (policy := λ _, True) _ _ (λ _ w', Ended env (stepCount info c) (trace w) w')).
  apply wp_runCommand; [by apply CommandReady_any|done].
Qed.

(** C1. A command ends, and ends with its final status published: either every
    step succeeded, or there is a step it failed in, with the steps before it
    succeeded and the later ones failed and marked as aborted. So the observer
    finds a terminal status to report. It only panics, and then reports
    nothing, for a cause that [CrashCause] names: a version that is not one, a
    decryption that panics, or a clone that cannot be looked at. *)
Theorem execute_ends (c : TfCommand) (w : World)
    (Hlaws : CommandLaws env lib params) (Hlog : (0 ≤ logSize w ≤ slen (logFile w))%Z) :
  (∃ w', runCommand c w = (Done tt, w') ∧
     isTerminalState (Status (reportStatus w')) = true ∧ reportStatus w' = runStatus w' ∧
     (Succeeded (stepCount info c) (runStatus w') ∨
      ∃ k, FailedAt (stepCount info c) k (runStatus w'))) ∨
  ∃ msg w', runCommand c w = (Panicked msg, w') ∧ CrashCause env info params msg.
Proof.
  destruct (wp_ends (policy := CrashCause env info params) _ _ _
    (wp_runCommand c w (CommandReady_crash env lib info params Hlaws) Hlog)) as [([] & w' & Hw' & [Ho Hr _ _])|Hcrash];
    [left|right; exact Hcrash].
  exists w'. split_and!; [done| |done|done].
  apply isTerminalState_spec. rewrite Hr. destruct Ho as [[-> _]|[k [_ -> _ _ _]]]; auto.
Qed.

(** C5. The statuses a command publishes go through the steps in order: each
    reports one step running, those before it succeeded and those after it
    pending, and no publication goes back to an earlier step; after the first
    status that is not IN_PROGRESS every publication shows the final one. *)
Theorem execute_progress (c : TfCommand) (w w' : World)
    (Hlaws : CommandLaws env lib params) (Hlog : (0 ≤ logSize w ≤ slen (logFile w))%Z)
    (Hrun : runCommand c w = (Done tt, w')) :
  ∃ k evs t, trace w' = EvPublish (runStatus w') :: evs ++ t ∧
    progress (stepCount info c) (trace w) k t ∧
    Forall (λ ev, ∀ s, ev = EvPublish s → skeleton s = skeleton (runStatus w')) evs.
Proof.
  destruct (runCommand_Ended c w w' Hlaws Hlog Hrun) as [_ _ (k & evs & t & Ht & Hp & Hq) _]. exists k, evs, t. split_and!; [done..|].
  eapply Forall_impl; [|exact Hq]. by intros ev Hev s ->.
Qed.

(** C16. When a command succeeds, the system messages of its steps are
    consecutive parts of the update log that together make up all of it:
    nothing that tofu, git or the script printed is lost or shown twice. *)
Theorem execute_messages (c : TfCommand) (w w' : World)
    (Hlaws : CommandLaws env lib params) (Hlog : (0 ≤ logSize w ≤ slen (logFile w))%Z)
    (Hread : readable env) (Hrun : runCommand c w = (Done tt, w'))
    (Hok : Status (runStatus w') = SUCCEEDED) :
  messagesAreLog w'.
Proof.
  destruct (runCommand_Ended c w w' Hlaws Hlog Hrun) as [[Hs|[k Hf]] _ _ Hm]; [by apply Hm|]. destruct Hf. congruence.
Qed.

(** C3. A plan run reports SUCCEEDED only after the plan that tofu made was
    read back and uploaded in full, as the last thing before the terminal
    status, and it reports whether tofu found changes: a follow-up apply always
    finds the bytes of the previewed plan. *)
Theorem plan_uploads_before_success (w w' : World)
    (Hlaws : CommandLaws env lib params) (Hlog : (0 ≤ logSize w ≤ slen (logFile w))%Z)
    (Hrun : runCommand PlanCommand w = (Done tt, w'))
    (Hok : Status (runStatus w') = SUCCEEDED) :
  planUploaded env info params w'.
Proof.
  destruct (Fresh_initRunSteps info PlanCommand w Hlog) as (w1 & Hi & Hf & _).
  unfold runCommand in Hrun. apply M_bind_Done in Hrun as ([] & w2 & Hi' & Hrun).
  rewrite Hi in Hi'. simplify_eq.
  pose proof (wp_TfPlan env lib cfg info params installDir (CommandReady_any env lib info params Hlaws) w2 Hf) as Hwp.
  simpl in Hrun. by apply (wp_done _ _ _ _ _ Hwp Hrun).
Qed.

(** ** Safety: which calls change infrastructure *)

(** What an apply may do, given the events before it. A plan file that tofu
    applies holds, when tofu reads it, the bytes that were just downloaded. *)
Definition applyAllowed (ev : event) (past : list event) : Prop :=
  match ev with
  | EvTf (TfApply plan _) =>
      (artifactUrl params = "" ∧ plan = None) ∨
      (artifactUrl params ≠ "" ∧ plan = Some (artifactFilePath info) ∧
       ∃ bytes past', past = EvDownload (artifactUrl params) bytes true :: past')
  | EvPlanFile path content =>
      ∃ bytes past', path = artifactFilePath info ∧ content = Some bytes ∧
        past = EvTf (TfApply (Some path) stateLockTimeout) :: EvDownload (artifactUrl params) bytes true :: past'
  | EvTf (TfPlan _ _) | EvTf (TfDestroy _ _) | EvTf (TfWorkspaceDelete _ _ _) | EvUpload _ _ _ => False
  | _ => True
  end.

Lemma applyAllowed_prep ev past : prepEvent ev = true → applyAllowed ev past.
Proof. by destruct ev as [| |[]| | | | | | | |]. Qed.

Lemma printed_prepEvent ev : printedEvent ev = true → prepEvent ev = true.
Proof. by destruct ev. Qed.

(** A call that has to do with no plan file. *)
Lemma grows_runTf (P : event → list event → Prop) call w :
  (∀ ev past, prepEvent ev = true → P ev past) → P (EvTf call) (trace w) →
  planRead call = None → planWritten call = None → grows P w (runTf env call w).2.
Proof.
  intros HP Hc Hr Hw. apply runTf_grows; [intros; by apply HP, printed_prepEvent|done|congruence|congruence].
Qed.

Lemma grows_applyAny : Keeps (grows applyAllowed) (applyAny env info params).
Proof.
  unfold applyAny. case_decide as Hurl.
  - unfold applyPredecessorPlan.
    apply grows_bind; [apply (grows_prep applyAllowed applyAllowed_prep); emits|]. intros _.
    apply grows_bind; [apply (grows_prep applyAllowed applyAllowed_prep); emits|].
    intros [e|]; [apply Keeps_ret, _|].
    apply grows_bind; [apply (grows_prep applyAllowed applyAllowed_prep); by apply Emits_modify_same|].
    intros _ w. unfold DownloadPredecessorArtifact, mbind, M_bind, gets, modify. cbn beta iota.
    destruct (env_download env (trace w) (artifactUrl params)) as [bytes err].
    cbn beta iota. set (w1 := emit _ _).
    assert (grows applyAllowed w w1) as Hg1.
    { apply extends_cons; [apply extends_nil|]. done. }
    change (mret (M := M) err w1) with (Done err, w1). cbn beta iota.
    destruct err as [e|]; [exact Hg1|].
    unfold osFails, ask, gets. cbn beta iota.
    destruct (env_osErr _ _ _ _); [exact Hg1|].
    etrans; [exact Hg1|].
    assert (grows applyAllowed w1 (runTf env (TfApply (Some (artifactFilePath info)) stateLockTimeout) w1).2) as Hg2.
    { apply runTf_grows; [intros; by apply applyAllowed_prep, printed_prepEvent| | |done].
      - right. split_and!; [done..|]. by exists bytes, (trace w).
      - intros p [= <-]. exists bytes, (trace w). split_and!; [done| |done].
        unfold w1. simpl. apply lookup_insert_eq. }
    destruct (runTf _ _ w1) as [[[e|]|] w2]; exact Hg2.
  - apply grows_bind; [apply (grows_prep applyAllowed applyAllowed_prep); emits|].
    intros _ w. apply grows_runTf; [apply applyAllowed_prep| |done|done]. left. split; [|done].
    destruct (decide (artifactUrl params = "")); [done|tauto].
Qed.

(** C2. An apply never plans, destroys or deletes a workspace. When the run is
    linked to a predecessor, tofu is given nothing but the run's plan file,
    directly after the predecessor's artifact was downloaded in full, and what
    it finds in that file are exactly the downloaded bytes; a fresh apply
    happens only when no predecessor is linked. So a change that was previewed
    is never replaced by another one. *)
Theorem apply_only_previewed_plan (w : World) :
  extends applyAllowed (trace w)
    (trace (TfApply_execute env lib cfg info params installDir w).2).
Proof.
  assert (Keeps (grows applyAllowed) (TfApply_execute env lib cfg info params installDir)) as Hk;
    [|apply Hk].
  unfold TfApply_execute. grows_walk applyAllowed applyAllowed_prep. apply grows_applyAny.
Qed.

(** What a plan may do: plan into the plan file of the run, and upload to the
    URL of the run what tofu's plan left in that file. *)
Definition planAllowed (ev : event) (past : list event) : Prop :=
  match ev with
  | EvTf (TfApply _ _) | EvTf (TfDestroy _ _) | EvTf (TfWorkspaceDelete _ _ _) | EvDownload _ _ _ => False
  | EvTf (TfPlan out _) => out = artifactFilePath info
  | EvPlanFile path _ =>
      ∃ printed past', past = printed ++ EvTf (TfPlan path stateLockTimeout) :: past' ∧
        Forall (λ ev, printedEvent ev = true) printed
  | EvUpload url data _ =>
      url = artifactUploadUrl params ∧ url ≠ "" ∧
      ∃ past', past = EvPlanFile (artifactFilePath info) (Some data) :: past'
  | _ => True
  end.

Lemma planAllowed_prep ev past : prepEvent ev = true → planAllowed ev past.
Proof. by destruct ev as [| |[]| | | | | | | |]. Qed.

Lemma keeps_runTf (P : event → list event → Prop) call :
  (∀ ev past, prepEvent ev = true → P ev past) → (∀ past, P (EvTf call) past) →
  planRead call = None → planWritten call = None → Keeps (grows P) (runTf env call).
Proof. intros HP Hc Hr Hw w. by apply grows_runTf. Qed.

(** What a plan that came back left in its file is the last thing noted. *)
Lemma runTf_planned out lock w r w' :
  runTf env (TfPlan out lock) w = (Done r, w') →
  ∃ past, trace w' = EvPlanFile out (files w' !! out) :: past.
Proof.
  unfold runTf. rewrite M_bind_Done. intros (t & w0 & _ & H).
  do 4 apply M_bind_Done in H as (? & ? & _ & H).
  apply M_bind_Done in H as ([] & w5 & [= <-] & H). apply M_ret_Done in H as [_ <-].
  by eexists.
Qed.

Lemma grows_planAndUpload : Keeps (grows planAllowed) (planAndUpload env cfg info params).
Proof.
  unfold planAndUpload. apply grows_bind; [apply Keeps_gets, _|]. intros t w.
  set (call := TfPlan (artifactFilePath info) stateLockTimeout).
  assert (grows planAllowed w (runTf env call w).2) as Hg.
  { apply runTf_grows; [intros; by apply planAllowed_prep, printed_prepEvent|done|done|].
    intros p c evs _ [= <-] Hevs. by exists evs, (trace w). }
  unfold orFail, mbind at 1, M_bind at 1. destruct (runTf env call w) as [[r|msg] w1] eqn:Hrun; [|exact Hg].
  destruct (runTf_planned _ _ _ _ _ Hrun) as [past Ht]. etrans; [exact Hg|]. clear Hg Hrun.
  destruct r as [e|]; [by apply (grows_calm planAllowed planAllowed_prep), calm_fail|].
  unfold mbind at 1, M_bind at 1, modifyStatus, modify.
  set (w2 := set_runStatus _ w1).
  assert (trace w2 = trace w1) as Ht2 by done. assert (files w2 = files w1) as Hf2 by done.
  clearbody w2. rewrite <-Ht2, <-Hf2 in Ht. assert (grows planAllowed w1 w2) as Hg by (unfold grows; rewrite Ht2; constructor).
  etrans; [exact Hg|]. clear Hg Ht2 Hf2.
  case_decide as Hurl; [by apply (grows_calm planAllowed planAllowed_prep), calm_fail|].
  unfold os_ReadFileM, osFails, ask, mbind, M_bind, gets, mret, M_ret.
  destruct (env_osErr _ _ _ _); [by apply (grows_calm planAllowed planAllowed_prep), calm_fail|].
  destruct (files w2 !! artifactFilePath info) as [data|] eqn:Hdata;
    [|by apply (grows_calm planAllowed planAllowed_prep), calm_fail].
  unfold UploadArtifact, mbind, M_bind, gets, modify, mret, M_ret.
  set (w3 := emit _ w2).
  assert (grows planAllowed w2 w3) as Hg.
  { apply extends_cons; [apply extends_nil|]. split_and!; [done|done|]. by exists past. }
  etrans; [exact Hg|]. destruct (env_upload _ _ _ _).
  - by apply (grows_calm planAllowed planAllowed_prep), calm_fail.
  - by apply (grows_calm planAllowed planAllowed_prep), calm_completeRun.
Qed.

(** C17. A dry run changes nothing: it never applies, destroys or deletes a
    workspace and downloads nothing, it plans into the plan file of the run,
    and what it uploads, to the upload URL of the run and nowhere else, is what
    that plan left in the file. *)
Theorem plan_changes_nothing (w : World) :
  extends planAllowed (trace w) (trace (TfPlan_execute env lib cfg info params installDir w).2).
Proof.
  assert (Keeps (grows planAllowed) (TfPlan_execute env lib cfg info params installDir)) as Hk;
    [|apply Hk].
  unfold TfPlan_execute. grows_walk planAllowed planAllowed_prep. apply grows_planAndUpload.
Qed.

(** What a destroy may do: apply only in an asynchronous run, and destroy with
    the flag that its version knows. *)
Definition destroyAllowed (ev : event) (past : list event) : Prop :=
  match ev with
  | EvTf (TfApply plan _) => asyncRun info = true ∧ plan = None
  | EvTf (TfDestroy _ dir) => dir = destroyOptions env (tfVersion params)
  | EvTf (TfPlan _ _) | EvDownload _ _ _ | EvUpload _ _ _ | EvPlanFile _ _ => False
  | _ => True
  end.

Lemma destroyAllowed_prep ev past : prepEvent ev = true → destroyAllowed ev past.
Proof. by destruct ev as [| |[]| | | | | | | |]. Qed.

Lemma destroy_allowed (w : World) :
  extends destroyAllowed (trace w) (trace (TfDestroy_execute env lib cfg info params installDir w).2).
Proof.
  assert (Keeps (grows destroyAllowed) (TfDestroy_execute env lib cfg info params installDir)) as Hk;
    [|apply Hk].
  unfold TfDestroy_execute. grows_walk destroyAllowed destroyAllowed_prep.
  - destruct (asyncRun info) eqn:Ha; [|apply Keeps_ret, _].
    by apply (keeps_runTf _ _ destroyAllowed_prep).
  - by apply (keeps_runTf _ _ destroyAllowed_prep).
  - unfold deleteWorkspaceIfNeeded.
    apply grows_bind; [apply Keeps_gets, _|]. intros []; [|apply Keeps_ret, _].
    apply grows_bind; [apply (grows_prep _ destroyAllowed_prep), prep_selectWorkspace|]. intros r.
    apply grows_bind; [by apply (keeps_runTf _ _ destroyAllowed_prep)|]. intros [e|]; [apply Keeps_ret, _|].
    apply grows_bind; [by apply (keeps_runTf _ _ destroyAllowed_prep)|]. intros _. apply Keeps_ret, _.
Qed.
End Contract.

(** ** Witnesses *)

Definition exampleRun (c : TfCommand) (mode upload : string) : outcome unit * World :=
  runCommand exampleEnv exampleLib exampleCfg exampleInfo (exampleParams mode "" upload) "/install" c
    exampleWorld.

Lemma exampleLog : (0 ≤ logSize exampleWorld ≤ slen (logFile exampleWorld))%Z.
Proof. done. Defined.

(** An apply that succeeds. *)
Lemma execute_ends_witness :
  ∃ w', exampleRun ApplyCommand "APPLY" "" = (Done tt, w') ∧
    isTerminalState (Status (reportStatus w')) = true.
Proof.
  destruct (execute_ends exampleEnv exampleLib exampleCfg exampleInfo (exampleParams "APPLY" "" "")
    "/install" ApplyCommand exampleWorld (exampleLaws _ _ _ _) exampleLog) as [(w' & Hrun & Ht & _)|(msg & w' & Hrun & _)].
  - exists w'. exact (conj Hrun Ht).
  - exfalso. apply (f_equal fst) in Hrun. vm_compute in Hrun. discriminate Hrun.
Defined.

Lemma execute_progress_witness :
  ∃ k evs t, trace (exampleRun DestroyCommand "DESTROY" "").2 =
    EvPublish (runStatus (exampleRun DestroyCommand "DESTROY" "").2) :: evs ++ t ∧ progress 6 [] k t.
Proof.
  destruct (execute_progress exampleEnv exampleLib exampleCfg exampleInfo (exampleParams "DESTROY" "" "")
    "/install" DestroyCommand exampleWorld (exampleRun DestroyCommand "DESTROY" "").2
    (exampleLaws _ _ _ _) exampleLog ltac:(vm_compute; reflexivity)) as (k & evs & t & Ht & Hp & _).
  exists k, evs, t. exact (conj Ht Hp).
Defined.

Lemma execute_messages_witness :
  Status (runStatus (exampleRun ApplyCommand "APPLY" "").2) = SUCCEEDED ∧
  messagesAreLog (exampleRun ApplyCommand "APPLY" "").2.
Proof.
  split; [vm_compute; reflexivity|].
  apply (execute_messages exampleEnv exampleLib exampleCfg exampleInfo (exampleParams "APPLY" "" "")
    "/install" ApplyCommand exampleWorld); [apply exampleLaws|apply exampleLog|done|
    vm_compute; reflexivity|vm_compute; reflexivity].
Defined.

Lemma plan_uploads_before_success_witness :
  Status (runStatus (exampleRun PlanCommand "DETECT" "http://up").2) = SUCCEEDED ∧
  planUploaded exampleEnv exampleInfo (exampleParams "DETECT" "" "http://up")
    (exampleRun PlanCommand "DETECT" "http://up").2.
Proof.
  split; [vm_compute; reflexivity|].
  apply (plan_uploads_before_success exampleEnv exampleLib exampleCfg exampleInfo
    (exampleParams "DETECT" "" "http://up") "/install" exampleWorld); [apply exampleLaws|
    apply exampleLog|vm_compute; reflexivity|vm_compute; reflexivity].
Defined.
