(* ===== verification/Dtos.v ===== *)
(** * Dtos: run objects and status updates at the boundary of the Terraform runner

    Models tf-block-runner/tfrun/dtos.go: the conversion of a fetched run into
    the run a worker executes, in its polling and its single-run variant, and
    of the runner's status into the update meshStack receives. JSON's text
    format and the clock are arguments. *)

From S2P Require Import Prelude Base64 Status MeshDtos Run.

(** ** The source of a run *)

Definition knownHostsToInternal (dto : option KnownHostDTO) : option KnownHost :=
  match dto with
  | None => None
  | Some dto => Some (mkKnownHost (kh_Host dto) (kh_KeyType dto) (kh_KeyValue dto))
  end.

Definition terraformImplAuthMethod (impl : TerraformImplementation) : result Auth :=
  match tfi_SshPrivateKey impl with
  | None => Ok NoAuth
  | Some key => Ok (SshAuth (knownHostsToInternal (tfi_KnownHost impl)) key)
  end.

Definition terraformImplToGitSource (impl : TerraformImplementation) : result GitSource :=
  auth ← terraformImplAuthMethod impl;
  Ok (mkGitSource (tfi_RepositoryUrl impl) (tfi_RepositoryPath impl) (tfi_RefName impl) auth).

(** ** The inputs *)

Definition toInternalVariable (v : BuildingBlockInputSpecDTO) : InputVariable :=
  mkVariable (input_Value v) (input_Env v) (input_Type v) (input_IsSensitive v).

Definition toInternalVariableMap (m : list BuildingBlockInputSpecDTO) : gmap string InputVariable :=
  foldl (λ r v, <[input_Key v := toInternalVariable v]> r) ∅ m.

(** The loop of [ToInternalWithoutDecryption]: already decrypted, so not sensitive. *)
Definition decryptedVariable (input : BuildingBlockInputSpecDTO) : InputVariable :=
  mkVariable (input_Value input) (input_Env input) (input_Type input) false.

Definition decryptedVariableMap (m : list BuildingBlockInputSpecDTO) : gmap string InputVariable :=
  foldl (λ vars input, <[input_Key input := decryptedVariable input]> vars) ∅ m.

(** ** The run *)

Section Dtos.
(* json.Unmarshal of the implementation, json.Marshal of the run *)
Context (unmarshalImpl : string → result TerraformImplementation)
  (marshalRun : RunDetailsDTO → result string).

(** The [&Run{...}] of both conversions, which differ in [Vars] only;
    [RequestedAt] is never read. *)
Definition runLiteral (dto : RunDetailsDTO) (impl : TerraformImplementation) (source : GitSource)
    (behavior : Behavior) (encoded : string) (vars : gmap string InputVariable) : Run :=
  let bb := spec_BuildingBlock (run_Spec dto) in
  {| r_Id := run_Uuid dto;
     r_TerraformVersion := tfi_TerraformVersion impl;
     r_Behavior := behavior;
     r_WorkspaceIdentifier := Some (bb_WorkspaceIdentifier (bb_Spec bb));
     r_ProjectIdentifier := Some (bb_ProjectIdentifier (bb_Spec bb));
     r_FullPlatformIdentifier := Some (bb_FullPlatformIdentifier (bb_Spec bb));
     r_BuildingBlockId := bb_Uuid bb;
     r_BuildingBlockName := bb_DisplayName (bb_Spec bb);
     r_IsAsync := tfi_Async impl;
     r_Vars := vars;
     r_RunJsonBase64 := encoded;
     r_Source := source;
     r_UseMeshBackendFallback := tfi_UseMeshHttpBackendFallback impl;
     r_PreRunScript := tfi_PreRunScript impl;
     r_RunToken := spec_RunToken (run_Spec dto);
     r_MeshstackBaseUrl := Href (MeshstackBaseUrlLink (run_Links dto));
     r_ArtifactUrl := Href (ArtifactLink (run_Links dto));
     r_ArtifactUploadUrl := Href (ArtifactUploadLink (run_Links dto));
     r_TfStateLockUrl := Href (TfStateLockLink (run_Links dto)) |}.

Definition runDTOToInternal (dto : RunDetailsDTO) : result Run :=
  match DetermineBehavior (spec_Behavior (run_Spec dto)) with
  | (_, Some err) => Err err
  | (behavior, None) =>
      impl ← unmarshalImpl (def_Implementation (def_Spec (spec_Definition (run_Spec dto))));
      source ← terraformImplToGitSource impl;
      jsonBytes ← marshalRun dto;
      Ok (runLiteral dto impl source behavior (EncodeToString jsonBytes)
            (toInternalVariableMap (bb_Inputs (bb_Spec (spec_BuildingBlock (run_Spec dto))))))
  end.

Definition ToInternalWithoutDecryption (dto : RunDetailsDTO) : result Run :=
  match DetermineBehavior (spec_Behavior (run_Spec dto)) with
  | (_, Some err) => Err err
  | (behavior, None) =>
      impl ← unmarshalImpl (def_Implementation (def_Spec (spec_Definition (run_Spec dto))));
      source ← terraformImplToGitSource impl;
      jsonBytes ← marshalRun dto;
      Ok (runLiteral dto impl source behavior (EncodeToString jsonBytes)
            (decryptedVariableMap (bb_Inputs (bb_Spec (spec_BuildingBlock (run_Spec dto))))))
  end.
End Dtos.

(** ** Status updates *)

Definition toOutputDTO (v : TfOutput) : OutputDTO :=
  mkOutputDTO (out_Value v) (out_Type v) (out_Sensitive v).

Definition toStepUpdate (s : StepStatus) : StepStatusUpdateDTO :=
  mkStepUpdate (step_Name s) (step_DisplayName s) (Some (ExecutionStatus_str (step_Status s)))
    (step_UserMessage s) (step_SystemMessage s) (toOutputDTO <$> step_Outputs s).

(** [RunStatus.toExternal]; [now] is [time.Now()], the nil slice is []. *)
Definition toExternal (runnerUuid : string) (now : Z) (status : RunStatus)
    : result RunStatusUpdateDTO :=
  Ok (mkRunStatusUpdate (RunId status) runnerUuid RunTypeTerraform
        (Some (ExecutionStatus_str (Status status))) now (Summary status)
        (map toStepUpdate (Steps status)) (ChangesDetected status)).

(** ** Properties *)

(** The map of a list of inputs holds, for each key, its last input. *)
Lemma foldl_insert_lookup {A} (f : BuildingBlockInputSpecDTO → A) l (m : gmap string A) k :
  foldl (λ r v, <[input_Key v := f v]> r) m l !! k =
  match list.list_find (λ v, input_Key v = k) (reverse l) with
  | Some (_, v) => Some (f v)
  | None => m !! k
  end.
Proof.
  induction l as [|v l IH] using rev_ind; [done|].
  rewrite foldl_app, reverse_app. simpl. case_decide as Hk.
  - subst. by rewrite lookup_insert_eq.
  - rewrite lookup_insert_ne, IH by done. by destruct (list_find _ _) as [[]|].
Qed.

Definition asDecrypted (v : InputVariable) : InputVariable :=
  mkVariable (var_value v) (var_env v) (var_Type v) false.

Lemma decryptedVariableMap_fmap m :
  decryptedVariableMap m = asDecrypted <$> toInternalVariableMap m.
Proof.
  apply map_eq. intros k. unfold decryptedVariableMap, toInternalVariableMap.
  rewrite lookup_fmap, !foldl_insert_lookup. by destruct (list_find _ _) as [[]|].
Qed.

Definition set_Vars (v : gmap string InputVariable) (r : Run) : Run :=
  mkRun (r_Id r) (r_TerraformVersion r) (r_Behavior r) (r_WorkspaceIdentifier r)
    (r_ProjectIdentifier r) (r_FullPlatformIdentifier r) (r_BuildingBlockId r)
    (r_BuildingBlockName r) (r_IsAsync r) v (r_RunJsonBase64 r) (r_Source r)
    (r_UseMeshBackendFallback r) (r_PreRunScript r) (r_RunToken r) (r_MeshstackBaseUrl r)
    (r_ArtifactUrl r) (r_ArtifactUploadUrl r) (r_TfStateLockUrl r).

(** What a worker relies on: the behaviour is a command's, the workspace is
    named, and the run object travels in base64. *)
Definition runnable (json : string) (run : Run) : Prop :=
  r_Behavior run ∈ behaviors ∧ is_Some (r_WorkspaceIdentifier run) ∧
  DecodeString (r_RunJsonBase64 run) = Ok json.

Lemma DetermineBehavior_ok str b : DetermineBehavior str = (b, None) → b ∈ behaviors.
Proof. unfold DetermineBehavior, behaviors; simpl. repeat case_decide; intros; simplify_eq; set_solver. Qed.

Section Properties.
Context (unmarshalImpl : string → result TerraformImplementation)
  (marshalRun : RunDetailsDTO → result string).

Lemma runDTOToInternal_runnable dto run :
  runDTOToInternal unmarshalImpl marshalRun dto = Ok run →
  ∃ json, marshalRun dto = Ok json ∧ runnable json run ∧ r_Id run = run_Uuid dto ∧
    r_RunToken run = spec_RunToken (run_Spec dto).
Proof.
  unfold runDTOToInternal. destruct (DetermineBehavior _) as [b [e|]] eqn:Hb; [done|].
  destruct (unmarshalImpl _) as [impl|]; [simpl|done].
  unfold terraformImplToGitSource, terraformImplAuthMethod.
  destruct (marshalRun dto) as [json|] eqn:Hj; [|by destruct (tfi_SshPrivateKey impl)].
  intros Hr. exists json. apply DetermineBehavior_ok in Hb.
  destruct (tfi_SshPrivateKey impl); simpl in Hr; simplify_eq/=;
    by (split_and!; [|split_and!; [|eexists|apply decode_encode]|..]).
Qed.

Lemma conversions_eq dto :
  ToInternalWithoutDecryption unmarshalImpl marshalRun dto =
  (λ run, set_Vars (asDecrypted <$> r_Vars run) run) <$> runDTOToInternal unmarshalImpl marshalRun dto.
Proof.
  unfold ToInternalWithoutDecryption, runDTOToInternal.
  destruct (DetermineBehavior _) as [b [e|]]; [done|].
  destruct (unmarshalImpl _) as [impl|]; [simpl|done].
  destruct (terraformImplToGitSource impl) as [source|]; [simpl|done].
  destruct (marshalRun dto); [|done]. simpl. by rewrite decryptedVariableMap_fmap.
Qed.

(** A run executed from its decrypted object is the polled run with every
    input marked as plain: both conversions fail together, with the same
    error, and agree on everything else. So a single run never consults the
    crypto instance, which is nil there, for an input. *)
Theorem conversions_agree (dto : RunDetailsDTO) :
  match runDTOToInternal unmarshalImpl marshalRun dto,
        ToInternalWithoutDecryption unmarshalImpl marshalRun dto with
  | Ok polled, Ok single =>
      single = set_Vars (asDecrypted <$> r_Vars polled) polled ∧
      ∀ k v fmt_float crypto, r_Vars single !! k = Some v →
        decryptIfSensitive fmt_float crypto v = Some (Ok (var_value v))
  | Err e, Err e' => e = e'
  | _, _ => False
  end.
Proof.
  rewrite conversions_eq. destruct (runDTOToInternal _ _ dto) as [run|]; [|done].
  split; [done|]. intros k v f c Hv. simpl in Hv.
  rewrite lookup_fmap in Hv. destruct (r_Vars run !! k); by simplify_eq/=.
Qed.
End Properties.

(** What a status update shows of a step: all but where its log starts. *)
Definition shownStep (s : StepStatus) : StepStatus := set_step_LogStartIdx 0 s.

#[global] Instance ExecutionStatus_str_inj : Inj (=) (=) ExecutionStatus_str.
Proof. by intros [] []. Qed.
#[global] Instance toOutputDTO_inj : Inj (=) (=) toOutputDTO.
Proof. intros [] [] ?. by simplify_eq/=. Qed.

Lemma toStepUpdate_shown s1 s2 : toStepUpdate s1 = toStepUpdate s2 ↔ shownStep s1 = shownStep s2.
Proof.
  split; destruct s1, s2; intros H; unfold shownStep, toStepUpdate in *; by simplify_eq/=.
Qed.

Lemma map_eq_iff {A B C} (f : A → B) (g : A → C) (Hfg : ∀ x y, f x = f y ↔ g x = g y) l1 l2 :
  map f l1 = map f l2 ↔ map g l1 = map g l2.
Proof.
  revert l2. induction l1 as [|x l1 IH]; intros [|y l2]; simpl; try naive_solver.
  split; intros [= ?%Hfg ?%IH]; congruence.
Qed.

(** A status update loses nothing that meshStack shows: two statuses with
    the same update agree on the run, its status, summary and detected changes,
    and step by step on everything but the log positions. *)
Theorem toExternal_faithful (runnerUuid : string) (now : Z) (s1 s2 : RunStatus) :
  toExternal runnerUuid now s1 = toExternal runnerUuid now s2 ↔
  RunId s1 = RunId s2 ∧ Status s1 = Status s2 ∧ Summary s1 = Summary s2 ∧
  ChangesDetected s1 = ChangesDetected s2 ∧
  map shownStep (Steps s1) = map shownStep (Steps s2).
Proof.
  unfold toExternal. rewrite <-(map_eq_iff toStepUpdate shownStep) by apply toStepUpdate_shown. split.
  - intros [=]. split_and!; try done. by apply (inj ExecutionStatus_str).
  - intros (-> & -> & -> & -> & ->). done.
Qed.
