(* ===== verification/RunApi.v ===== *)
(** * RunApi: the run API as the Terraform runner uses it

    Models tf-block-runner/tfrun/runapi.go: the client that fetches a run with
    the runner's own credentials, switches to the run's token for everything
    about that run, and switches back. The [meshapi.Client] and every client
    made for a fetch share the auth pointer, so the auth is the one piece of
    state of the API. JSON's text format and the clock are arguments. *)

From S2P Require Import Prelude Base64 Status MeshDtos MeshAuth MeshClient TfConfig Run Dtos.

(** ** The auth that follows the run *)

Record runApiAuth := mkRunApiAuth {
  auth_runToken : option string;
  baseAuth : option ConfiguredAuth;
}.

#[export] Instance runApiAuth_AuthHeader : AuthProvider runApiAuth := λ env a,
  match auth_runToken a with
  | Some t =>
      if decide (t ≠ "") then ("Bearer " +:+ t, a)
      else match baseAuth a with
           | Some b => let '(h, b) := AuthHeader env b in (h, mkRunApiAuth (Some t) (Some b))
           | None => ("", a)
           end
  | None =>
      match baseAuth a with
      | Some b => let '(h, b) := AuthHeader env b in (h, mkRunApiAuth None (Some b))
      | None => ("", a)
      end
  end.

(** ** The client *)

Record RunApiClient := mkRunApiClient {
  api_rid : string;
  api_baseURL : string;
  api_auth : runApiAuth;
}.

(** JSON, as the client uses it. *)
Record RunJson := mkRunJson {
  json_parseRunDetails : string → result RunDetailsDTO;
  json_unmarshalImpl : string → result TerraformImplementation;
  json_marshalRun : RunDetailsDTO → result string;
  json_marshalRegistration : RegistrationDTO → result string;
  json_marshalUpdate : RunStatusUpdateDTO → result string;
  (* the [abort] field of the response to an update *)
  json_unmarshalAbort : string → result bool;
}.

Section RunApi.
Context (cfg : TfRunnerConfig) (meta : ClientMetadata) (json : RunJson) (env : HttpEnv).

Definition NewRunApi : RunApiClient :=
  mkRunApiClient (RunnerUuid cfg) (api_Url (RunApiBackend cfg))
    (mkRunApiAuth None (NewAuthProvider (RunApiBackend cfg))).

Definition set_api_auth (a : runApiAuth) (api : RunApiClient) : RunApiClient :=
  mkRunApiClient (api_rid api) (api_baseURL api) a.

Definition SetRunToken (token : string) (api : RunApiClient) : RunApiClient :=
  set_api_auth (mkRunApiAuth (Some token) (baseAuth (api_auth api))) api.
Definition ClearRunToken (api : RunApiClient) : RunApiClient :=
  set_api_auth (mkRunApiAuth None (baseAuth (api_auth api))) api.

(** A [meshapi.Client] on the shared auth, and the API after it was used. *)
Definition clientFor (nodeID : string) (api : RunApiClient) : Client runApiAuth :=
  mkClient (api_baseURL api) nodeID (api_auth api).
Definition after {A} (r : A * Client runApiAuth) (api : RunApiClient) : A * RunApiClient :=
  (r.1, set_api_auth (cl_auth r.2) api).

Definition DownloadPredecessorArtifact (url : string) (w : string → string * option error)
    (api : RunApiClient) : (string * option error) * RunApiClient :=
  after (DownloadArtifact meta env (clientFor (api_rid api) api) url w) api.

Definition api_UploadArtifact (url artifact : string) (api : RunApiClient)
    : option error * RunApiClient :=
  after (MeshClient.UploadArtifact meta env (clientFor (api_rid api) api) url artifact) api.

Definition FetchRunDetails (nodePostfix : string) (api : RunApiClient)
    : result Run * RunApiClient :=
  let requester := api_rid api +:+ "-" +:+ nodePostfix in
  let '(r, api) := after (FetchRun meta env (json_parseRunDetails json)
                            (clientFor requester api) (RunnerUuid cfg)) api in
  match r with
  | Err err => (Err err, api)
  | Ok (dto, _) =>
      let api := SetRunToken (spec_RunToken (run_Spec dto)) api in
      (runDTOToInternal (json_unmarshalImpl json) (json_marshalRun json) dto, api)
  end.

Definition registrationOf (runStatus : RunStatus) : RegistrationDTO :=
  mkRegistration (RunnerUuid cfg)
    (map (λ s, mkStepRegistration (step_Name s) (step_DisplayName s) None) (Steps runStatus)).

Definition Register (runStatus : RunStatus) (api : RunApiClient) : option error * RunApiClient :=
  after (RegisterSource meta env (json_marshalRegistration json)
           (clientFor (api_rid api) api) (RunId runStatus) (registrationOf runStatus)) api.

Definition UpdateState (now : Z) (status : RunStatus) (api : RunApiClient)
    : result bool * RunApiClient :=
  match toExternal (RunnerUuid cfg) now status with
  | Err err => (Err err, api)
  | Ok dto =>
      let '(data, api) := after (PatchStatus meta env (json_marshalUpdate json)
        (clientFor (api_rid api) api) (RunId status) (RunnerUuid cfg) dto) api in
      (match data with Err err => Err err | Ok data => json_unmarshalAbort json data end, api)
  end.
End RunApi.

(** ** Which credentials a request carries *)

(** Environments that answer alike whatever is sent with the given header. *)
Definition sameFor (header : string) (env env' : HttpEnv) : Prop :=
  (∀ req, req_Header req !! "Authorization" = Some header → http_Do env req = http_Do env' req) ∧
  ∀ url, http_NewRequestErr env url = http_NewRequestErr env' url.

(** [f] only ever sends requests with the given header, and learns from no
    other. *)
Definition sendsOnly {A} (header : string) (f : HttpEnv → A) : Prop :=
  ∀ env env', sameFor header env env' → f env = f env'.

Section Credentials.
Context {A : Type} `{AuthProvider A} (meta : ClientMetadata).

(** [a] hands out the same header whatever the environment. *)
Definition fixedHeader (a : A) (header : string) : Prop :=
  ∀ env, AuthHeader env a = (header, a).

Lemma exchange_sameFor env env' a header base node method url body own :
  fixedHeader a header →
  (∀ hs, own hs !! "Authorization" = hs !! "Authorization") →
  sameFor header env env' →
  exchange meta env (mkClient base node a) method url body own =
  exchange meta env' (mkClient base node a) method url body own.
Proof.
  intros Ha Hown [Hdo Hurl]. unfold exchange, setHeaders. simpl.
  rewrite (Hurl url), !Ha. destruct (http_NewRequestErr env' url); [done|].
  rewrite Hdo; [done|]. simpl. rewrite Hown.
  rewrite !lookup_insert_ne by done. apply lookup_insert_eq.
Qed.

Lemma downloadHeaders_auth hs : downloadHeaders hs !! "Authorization" = hs !! "Authorization".
Proof. unfold downloadHeaders. by rewrite lookup_delete_ne, lookup_insert_ne. Qed.
Lemma uploadHeaders_auth hs : uploadHeaders hs !! "Authorization" = hs !! "Authorization".
Proof. unfold uploadHeaders. by rewrite !lookup_insert_ne. Qed.
End Credentials.

(** ** Properties *)

Section Properties.
Context (cfg : TfRunnerConfig) (meta : ClientMetadata) (json : RunJson).

Lemma fixedHeader_token t b : t ≠ "" → fixedHeader (mkRunApiAuth (Some t) b) ("Bearer " +:+ t).
Proof. intros Ht env. unfold AuthHeader, runApiAuth_AuthHeader. simpl. by rewrite decide_True. Qed.

Ltac sends := let env := fresh in let env' := fresh in let H := fresh in
  intros env env' H; unfold clientFor, SetRunToken, set_api_auth; cbn [api_auth api_baseURL api_rid];
  erewrite (exchange_sameFor meta env env') by
    first [apply fixedHeader_token; eassumption|apply downloadHeaders_auth|
           apply uploadHeaders_auth|exact H|done];
  done.

Lemma sendsOnly_FetchRunDetails t api postfix :
  t ≠ "" →
  sendsOnly ("Bearer " +:+ t) (λ env, FetchRunDetails cfg meta json env postfix (SetRunToken t api)).
Proof. intros Ht. unfold FetchRunDetails, after, FetchRun. sends. Qed.

(** Everything that is done for a run is sent with the run's own token
    and nothing else: registering, updating the status, downloading the plan
    of a predecessor and uploading one. The runner's own credentials are kept
    for the next fetch. *)
Theorem run_requests_use_token (t : string) (api : RunApiClient) (Ht : t ≠ "") :
  let api := SetRunToken t api in
  (∀ status, sendsOnly ("Bearer " +:+ t) (λ env, Register cfg meta json env status api)) ∧
  (∀ now status, sendsOnly ("Bearer " +:+ t) (λ env, UpdateState cfg meta json env now status api)) ∧
  (∀ url w, sendsOnly ("Bearer " +:+ t) (λ env, DownloadPredecessorArtifact meta env url w api)) ∧
  (∀ url data, sendsOnly ("Bearer " +:+ t) (λ env, api_UploadArtifact meta env url data api)) ∧
  baseAuth (api_auth (ClearRunToken api)) = baseAuth (api_auth api).
Proof.
  intros api'. subst api'. split_and!; [intros status|intros now status|intros url w|intros url data|done].
  - unfold Register, after, RegisterSource, RegisterSourceAt.
    destruct (json_marshalRegistration json _); [|done]. sends.
  - unfold UpdateState, toExternal, after, PatchStatus, PatchStatusAt.
    destruct (json_marshalUpdate json _); [|done]. sends.
  - unfold DownloadPredecessorArtifact, after, DownloadArtifact. sends.
  - unfold api_UploadArtifact, after, MeshClient.UploadArtifact. sends.
Qed.

Lemma FetchRunDetails_Ok env postfix api run api' :
  FetchRunDetails cfg meta json env postfix api = (Ok run, api') →
  ∃ dto json_, json_marshalRun json dto = Ok json_ ∧ runnable json_ run ∧
    r_Id run = run_Uuid dto ∧
    ∃ api0, api' = SetRunToken (r_RunToken run) api0.
Proof.
  unfold FetchRunDetails. destruct (after _ api) as [[[dto raw]|e] api0]; [|done]. intros [= Hr <-].
  apply runDTOToInternal_runnable in Hr as (j & Hj & Hrun & Hid & Ht).
  exists dto, j. rewrite <-Ht. eauto.
Qed.

(** When a fetched run cannot be converted, its token stays behind: the
    error reaches the worker, which does not clear it, and the next fetch is
    sent with the token of that run instead of the runner's credentials. *)
Theorem failed_conversion_keeps_token (env : HttpEnv) (postfix : string) (api : RunApiClient)
    (dto : RunDetailsDTO) (raw : string) (c : Client runApiAuth) (e : error)
    (Hfetch : FetchRun meta env (json_parseRunDetails json)
                (clientFor (api_rid api +:+ "-" +:+ postfix) api) (RunnerUuid cfg) = (Ok (dto, raw), c))
    (Htoken : spec_RunToken (run_Spec dto) ≠ "")
    (Hconv : runDTOToInternal (json_unmarshalImpl json) (json_marshalRun json) dto = Err e) :
  ∃ api', FetchRunDetails cfg meta json env postfix api = (Err e, api') ∧
    sendsOnly ("Bearer " +:+ spec_RunToken (run_Spec dto))
      (λ env, FetchRunDetails cfg meta json env postfix api').
Proof.
  unfold FetchRunDetails at 1, after at 1. rewrite Hfetch. simpl. rewrite Hconv.
  eexists. split; [done|]. by apply sendsOnly_FetchRunDetails.
Qed.

(** A refused update keeps the HTTP status where [errors.As] finds it. *)
Lemma UpdateState_refused env now status api body resp
    (Hm : json_marshalUpdate json (mkRunStatusUpdate (RunId status) (RunnerUuid cfg) RunTypeTerraform
            (Some (ExecutionStatus_str (Status status))) now (Summary status)
            (map toStepUpdate (Steps status)) (ChangesDetected status)) = Ok body)
    (url := EPRunSourceUpdate (api_baseURL api) (RunId status) (RunnerUuid cfg))
    (Hurl : http_NewRequestErr env url = None)
    (Hdo : ∀ hs, http_Do env (mkRequest "PATCH" url hs body) = Ok resp)
    (Hcode : not2xx (resp_StatusCode resp) = true) :
  ∃ e, (UpdateState cfg meta json env now status api).1 = Err e ∧
       errors_As isStatusError e = Some (resp_StatusCode resp).
Proof.
  destruct (PatchStatusAt_status meta env (json_marshalUpdate json) (clientFor (api_rid api) api)
    url _ body resp Hm Hurl Hdo Hcode) as (e & He & Has).
  exists e. unfold UpdateState, toExternal, after, PatchStatus. simpl. fold url. by rewrite He.
Qed.
End Properties.

(** ** A run to evaluate the API on *)

Definition exampleLink (href : string) : LinkDTO := mkLinkDTO href false.

Definition exampleRunDto (behavior : string) : RunDetailsDTO := {|
  run_ApiVersion := "v1"; run_Kind := "meshBuildingBlockRun"; run_Uuid := "run-1";
  run_Spec := mkRunSpec 1 behavior
    (mkBB "bb-1" (mkBBDetails "Block" "ws" "p" "aws" [mkInput "region" (anyStr "eu") "STRING" true false] []))
    (mkDefinition "def-1" (mkDefinitionDetails "ws" 1 "{}")) "run-token" None;
  run_Status := "IN_PROGRESS";
  run_Links := mkLinksDTO (exampleLink "") (exampleLink "") (exampleLink "") (exampleLink "http://mesh")
    (exampleLink "") (exampleLink "http://upload") (exampleLink "") |}.

Definition exampleImpl : TerraformImplementation :=
  mkTerraformImpl "TERRAFORM" "1.9.0" "https://git/repo" None (Some "main") None None false true None.

Definition exampleJson (behavior : string) : RunJson := {|
  json_parseRunDetails _ := Ok (exampleRunDto behavior);
  json_unmarshalImpl _ := Ok exampleImpl;
  json_marshalRun _ := Ok "{}";
  json_marshalRegistration _ := Ok "{}";
  json_marshalUpdate _ := Ok "{}";
  json_unmarshalAbort t := Ok (bool_decide (t = "abort")) |}.

Definition exampleApiCfg : TfRunnerConfig :=
  mkTfRunnerConfig 30 "/work" "/install" (mkRunApiConfig "http://mesh" "u" "p" "" "")
    false "" "" 5 5 "runner-1".

Lemma run_requests_use_token_witness :
  sendsOnly "Bearer run-token" (λ env,
    UpdateState exampleApiCfg defaultMetadata (exampleJson "APPLY") env 0
      (mkRunStatus "run-1" IN_PROGRESS [] 0 None None) (SetRunToken "run-token" (NewRunApi exampleApiCfg))).
Proof.
  apply (run_requests_use_token exampleApiCfg defaultMetadata (exampleJson "APPLY") "run-token"
    (NewRunApi exampleApiCfg)). done.
Defined.

(** An unknown behaviour is an error of the conversion. *)
Lemma failed_conversion_keeps_token_witness :
  ∃ e api', FetchRunDetails exampleApiCfg defaultMetadata (exampleJson "REPAIR")
      (exampleHttp (mkResponse 200 "{}" None)) "worker-1" (NewRunApi exampleApiCfg) = (Err e, api') ∧
    sendsOnly "Bearer run-token" (λ env,
      FetchRunDetails exampleApiCfg defaultMetadata (exampleJson "REPAIR") env "worker-1" api').
Proof.
  eexists. eapply (failed_conversion_keeps_token exampleApiCfg defaultMetadata (exampleJson "REPAIR")
    _ _ _ (exampleRunDto "REPAIR")); [vm_compute; reflexivity|done|vm_compute; reflexivity].
Defined.

(** ** The interface *)

(** runapi.go: the [RunApi] interface the workers are written against, with
    the token the implementation currently sends as an observer. *)
Class RunApi (A : Type) := {
  api_FetchRunDetails : string → A → result Run * A;
  api_UpdateState : RunStatus → A → result bool * A;
  api_Register : RunStatus → A → option error * A;
  api_SetRunToken : string → A → A;
  api_ClearRunToken : A → A;
  api_token : A → option string;
}.

(** What the interface promises: only a fetch, [SetRunToken] and
    [ClearRunToken] change the token, and a fetched run can be executed. *)
Class RunApiLaws (A : Type) `{RunApi A} := {
  fetch_token postfix a run a' :
    api_FetchRunDetails postfix a = (Ok run, a') → api_token a' = Some (r_RunToken run);
  fetch_runnable postfix a run a' :
    api_FetchRunDetails postfix a = (Ok run, a') → ∃ json, runnable json run;
  update_token status a : api_token (api_UpdateState status a).2 = api_token a;
  register_token status a : api_token (api_Register status a).2 = api_token a;
  set_token t a : api_token (api_SetRunToken t a) = Some t;
  clear_token a : api_token (api_ClearRunToken a) = None;
}.

(** The client against a world that changes from call to call. *)
Record LiveApi := mkLiveApi {
  live_now : nat;
  live_env : nat → HttpEnv;
  live_client : RunApiClient;
}.

Section Live.
Context (cfg : TfRunnerConfig) (meta : ClientMetadata) (json : RunJson).

Definition live_call {R} (f : HttpEnv → RunApiClient → R * RunApiClient) (a : LiveApi) : R * LiveApi :=
  let '(r, c) := f (live_env a (live_now a)) (live_client a) in
  (r, mkLiveApi (S (live_now a)) (live_env a) c).

Definition live_set (f : RunApiClient → RunApiClient) (a : LiveApi) : LiveApi :=
  mkLiveApi (live_now a) (live_env a) (f (live_client a)).

Definition LiveApi_RunApi : RunApi LiveApi := {|
  api_FetchRunDetails postfix := live_call (λ env, FetchRunDetails cfg meta json env postfix);
  api_UpdateState status := live_call (λ env, UpdateState cfg meta json env (http_Now env) status);
  api_Register status := live_call (λ env, Register cfg meta json env status);
  api_SetRunToken t := live_set (SetRunToken t);
  api_ClearRunToken := live_set ClearRunToken;
  api_token a := auth_runToken (api_auth (live_client a));
|}.

Lemma AuthHeader_runToken env a : auth_runToken (AuthHeader env a).2 = auth_runToken a.
Proof.
  destruct a as [[t|] [b|]]; unfold AuthHeader, runApiAuth_AuthHeader; simpl; try case_decide;
    try destruct (AuthHeader env b); done.
Qed.

Lemma exchange_runToken env c method url body own :
  auth_runToken (cl_auth (exchange meta env c method url body own).2) = auth_runToken (cl_auth c).
Proof.
  unfold exchange, setHeaders. destruct (http_NewRequestErr env url); [done|].
  pose proof (AuthHeader_runToken env (cl_auth c)) as Ha. by destruct (AuthHeader env (cl_auth c)).
Qed.

Lemma UpdateState_runToken env now status api :
  auth_runToken (api_auth (UpdateState cfg meta json env now status api).2) = auth_runToken (api_auth api).
Proof.
  unfold UpdateState, toExternal, after, PatchStatus, PatchStatusAt.
  destruct (json_marshalUpdate json _); [|done].
  etrans; [|exact (exchange_runToken env (clientFor (api_rid api) api) "PATCH" (EPRunSourceUpdate
    (cl_baseURL (clientFor (api_rid api) api)) (RunId status) (RunnerUuid cfg)) a id)].
  by destruct (exchange _ _ _ _ _ _ _).
Qed.

Lemma Register_runToken env status api :
  auth_runToken (api_auth (Register cfg meta json env status api).2) = auth_runToken (api_auth api).
Proof.
  unfold Register, after, RegisterSource, RegisterSourceAt.
  destruct (json_marshalRegistration json _); [|done].
  etrans; [|exact (exchange_runToken env (clientFor (api_rid api) api) "POST" (EPRunSourceRegistration
    (cl_baseURL (clientFor (api_rid api) api)) (RunId status)) a id)].
  by destruct (exchange _ _ _ _ _ _ _).
Qed.

#[export] Instance LiveApi_RunApiLaws : @RunApiLaws LiveApi LiveApi_RunApi.
Proof.
  split; cbn [api_FetchRunDetails api_UpdateState api_Register api_SetRunToken api_ClearRunToken
    api_token LiveApi_RunApi]; try done; unfold live_call.
  - intros postfix a run a'. destruct (FetchRunDetails _ _ _ _ _ _) as [r c] eqn:Hf. intros [= -> <-].
    by apply FetchRunDetails_Ok in Hf as (dto & j & _ & _ & _ & api0 & ->).
  - intros postfix a run a'. destruct (FetchRunDetails _ _ _ _ _ _) as [r c] eqn:Hf. intros [= -> <-].
    apply FetchRunDetails_Ok in Hf as (dto & j & _ & Hr & _). by exists j.
  - intros status a. pose proof (UpdateState_runToken (live_env a (live_now a))
      (http_Now (live_env a (live_now a))) status (live_client a)) as Hu.
    by destruct (UpdateState _ _ _ _ _ _ _).
  - intros status a. pose proof (Register_runToken (live_env a (live_now a)) status (live_client a)) as Hr.
    by destruct (Register _ _ _ _ _ _).
Qed.
End Live.
