(* ===== verification/StatusUpdate.v ===== *)
(** * StatusUpdate: updates that must arrive

    Models tf-block-runner/tfrun/statusupdate.go: which failures of a status
    update are worth a retry, and the update that is repeated until meshStack
    takes it, refuses it for good, or the time is up. [backoff.Retry] is an
    argument, with its documented behaviour as a hypothesis. *)

From S2P Require Import Prelude Status Run MeshAuth RunApi.

Definition statusRequestTimeout : Z := 30 * Second.

Record retrySchedule := mkRetrySchedule {
  initialDelay : Z;
  maxDelay : Z;
  attemptTimeout : Z;
  giveUpAfter : Z;
}.

Definition finalStatusRetry : retrySchedule :=
  mkRetrySchedule Second (30 * Second) statusRequestTimeout (10 * Minute).

Definition StatusLocked : Z := 423.
Definition StatusBadGateway : Z := 502.
Definition StatusServiceUnavailable : Z := 503.
Definition StatusGatewayTimeout : Z := 504.

Definition isTransient (err : error) : bool :=
  match errors_As isStatusError err with
  | Some status =>
      bool_decide (status ∈ [StatusLocked; StatusBadGateway; StatusServiceUnavailable; StatusGatewayTimeout])
  | None => errors_Is isURLError err
  end.

Definition isClientError (err : error) : bool :=
  match errors_As isStatusError err with
  | Some status => bool_decide (400 ≤ status)%Z && bool_decide (status < 500)%Z
  | None => false
  end.

(** ** [backoff.Retry] *)

(** What an operation tells [Retry] on failure: [backoff.Permanent(err)] or
    any other error. *)
Inductive opError := Permanent (e : error) | Retryable (e : error).

(** The documented behaviour: the operation is repeated until it succeeds,
    fails permanently, or fails once the context is over, whose cause is then
    the result. *)
Inductive Retries {S : Type} (op : S → option opError * S) (cause : error)
    : S → option error * S → Prop :=
| Retries_ok s s' : op s = (None, s') → Retries op cause s (None, s')
| Retries_permanent s e s' :
    op s = (Some (Permanent e), s') → Retries op cause s (Some e, s')
| Retries_over s e s' :
    op s = (Some (Retryable e), s') → Retries op cause s (Some cause, s')
| Retries_again s e s' r :
    op s = (Some (Retryable e), s') → Retries op cause s' r → Retries op cause s r.

(** [Retry schedule cause op]: [backoff.Retry] with the options of
    [updateStateWithRetry] and a context that ends with [cause]. *)
Definition RetryOp := ∀ S : Type,
  retrySchedule → error → (S → option opError * S) → S → option error * S.

Definition RetriesAsDocumented (Retry : RetryOp) : Prop :=
  ∀ S schedule cause (op : S → option opError * S) s,
    Retries op cause s (Retry S schedule cause op s).

(** ** The operations *)

Section StatusUpdate.
Context {A : Type} `{RunApi A}.
Context (Retry : RetryOp) (fmtDuration : Z → string).

(** The deadline of a single request shows as an error of the request. *)
Definition updateStateWithin (status : RunStatus) (api : A) : result bool * A :=
  api_UpdateState status api.

Definition rejectedRetry : string :=
  "meshfed rejected a retry, so an earlier attempt may have delivered the status: ".

(** The operation that is retried; its state is the API and [retried]. *)
Definition updateAttempt (status : RunStatus) (s : A * bool) : option opError * (A * bool) :=
  let '(api, retried) := s in
  let '(r, api) := updateStateWithin status api in
  match r with
  | Ok _ => (None, (api, retried))
  | Err err =>
      if isTransient err then (Some (Retryable err), (api, true))
      else if retried && isClientError err
      then (Some (Permanent (errWrap rejectedRetry err "")), (api, retried))
      else (Some (Permanent err), (api, retried))
  end.

Definition giveUpCause (schedule : retrySchedule) : error :=
  errWrap ("meshfed did not take the status within " +:+ fmtDuration (giveUpAfter schedule) +:+ ": ")
    (errNew "context deadline exceeded") "".

Definition updateStateWithRetry (status : RunStatus) (schedule : retrySchedule) (api : A)
    : option error * A :=
  let '(r, (api, _)) :=
    Retry _ schedule (giveUpCause schedule) (updateAttempt status) (api, false) in
  (r, api).

(** ** Properties *)

(** The answers a sequence of attempts to send a status gets. *)
Inductive Attempts (status : RunStatus) : A → list (result bool) → A → Prop :=
| Attempts_nil a : Attempts status a [] a
| Attempts_cons a r a' rs a'' :
    api_UpdateState status a = (r, a') → Attempts status a' rs a'' →
    Attempts status a (r :: rs) a''.

Definition transientAnswer (r : result bool) : Prop :=
  match r with Ok _ => False | Err e => isTransient e = true end.

(** What the last answer makes of the update, after [n] earlier ones. *)
Definition outcomeOf (schedule : retrySchedule) (n : nat) (last : result bool) : option error :=
  match last with
  | Ok _ => None
  | Err e =>
      if isTransient e then Some (giveUpCause schedule)
      else if bool_decide (n ≠ 0) && isClientError e then Some (errWrap rejectedRetry e "")
      else Some e
  end.

Lemma Retries_Attempts schedule status api retried r s' :
  Retries (updateAttempt status) (giveUpCause schedule) (api, retried) (r, s') →
  ∃ rs last, Attempts status api (rs ++ [last]) s'.1 ∧ Forall transientAnswer rs ∧
    r = outcomeOf schedule (if retried then S (length rs) else length rs) last.
Proof.
  remember (api, retried) as s eqn:Hs. remember (r, s') as res eqn:Hres. intros HR.
  revert api retried Hs r s' Hres.
  induction HR as [s s1 Hop|s e s1 Hop|s e s1 Hop|s e s1 res Hop HR IH];
    intros api retried -> r s' Hres; unfold updateAttempt, updateStateWithin in Hop;
    destruct (api_UpdateState status api) as [[b|err] api1] eqn:Hu; simplify_eq/=.
  all: try (destruct (isTransient err) eqn:Ht; [|destruct (retried && isClientError err) eqn:Hc]);
    simplify_eq/=.
  - exists [], (Ok b). split_and!; [repeat econstructor; eassumption|constructor|done].
  - exists [], (Err err). apply andb_true_iff in Hc as [-> Hc].
    split_and!; [repeat econstructor; eassumption|constructor|]. simpl. by rewrite Ht, Hc.
  - exists [], (Err e). split_and!; [repeat econstructor; eassumption|constructor|].
    simpl. rewrite Ht. destruct retried; [|done]. simpl in *. by rewrite Hc.
  - exists [], (Err e). split_and!; [repeat econstructor; eassumption|constructor|].
    simpl. by rewrite Ht.
  - destruct (IH api1 true eq_refl r s' eq_refl) as (rs & last & Ha & Hf & ->).
    exists (Err e :: rs), last. split_and!; [by econstructor|by constructor|].
    by destruct retried.
Qed.

(** C26. The update is sent again only after transient failures, and for as
    long as the retry schedule lasts: it succeeds exactly when its last
    attempt was taken, so a status that meshStack took is never sent again; a
    refusal (a 500 included) ends it at once with the refusal's error, which
    says so when an earlier attempt may have been delivered. *)
Theorem updateStateWithRetry_attempts (Hretry : RetriesAsDocumented Retry)
    (status : RunStatus) (schedule : retrySchedule) (api : A) :
  ∃ rs last, Forall transientAnswer rs ∧
    Attempts status api (rs ++ [last]) (updateStateWithRetry status schedule api).2 ∧
    (updateStateWithRetry status schedule api).1 = outcomeOf schedule (length rs) last.
Proof.
  unfold updateStateWithRetry.
  pose proof (Hretry _ schedule (giveUpCause schedule) (updateAttempt status) (api, false)) as HR.
  destruct (Retry _ _ _ _ _) as [r [api' retried]].
  apply Retries_Attempts in HR as (rs & last & Ha & Hf & ->). by exists rs, last.
Qed.

Lemma updateStateWithRetry_token `{!RunApiLaws A} (Hretry : RetriesAsDocumented Retry) status schedule api :
  api_token (updateStateWithRetry status schedule api).2 = api_token api.
Proof.
  unfold updateStateWithRetry.
  pose proof (Hretry _ schedule (giveUpCause schedule) (updateAttempt status) (api, false)) as HR.
  destruct (Retry _ _ _ _ _) as [r [api' retried]].
  apply Retries_Attempts in HR as (rs & last & Ha & _). revert Ha. simpl. generalize (rs ++ [last]).
  intros l. induction 1 as [|a r' a' l a'' Hu _ IH]; [done|].
  rewrite IH. rewrite <-(update_token status a), Hu. done.
Qed.
End StatusUpdate.

(** ** A concrete [Retry] and API *)

(** At most [n] repetitions. *)
Fixpoint retryN (n : nat) {S : Type} (cause : error) (op : S → option opError * S) (s : S)
    : option error * S :=
  match op s with
  | (None, s) => (None, s)
  | (Some (Permanent e), s) => (Some e, s)
  | (Some (Retryable e), s) =>
      match n with 0 => (Some cause, s) | Datatypes.S n => retryN n cause op s end
  end.

Definition exampleRetry : RetryOp := λ S _ cause op s, retryN 5 cause op s.

Lemma retryN_Retries n {S} cause (op : S → option opError * S) s :
  Retries op cause s (retryN n cause op s).
Proof.
  revert s. induction n as [|n IH]; intros s; simpl; destruct (op s) as [[[e|e]|] s'] eqn:Ho;
    by eauto using Retries_ok, Retries_permanent, Retries_over, Retries_again.
Qed.

(** An API that gives the answers of a list to status updates, then accepts. *)
Record ScriptedApi := mkScripted {
  scr_updates : list (result bool);
  scr_sent : list RunStatus;
  scr_register : option error;
  scr_fetch : result Run;
  scr_token : option string;
}.

#[export] Instance ScriptedApi_RunApi : RunApi ScriptedApi := {|
  api_FetchRunDetails _ a :=
    (scr_fetch a, match scr_fetch a with
                  | Ok run => mkScripted (scr_updates a) (scr_sent a) (scr_register a) (scr_fetch a)
                                (Some (r_RunToken run))
                  | Err _ => a end);
  api_UpdateState status a :=
    (default (Ok false) (head (scr_updates a)),
     mkScripted (tail (scr_updates a)) (status :: scr_sent a) (scr_register a) (scr_fetch a) (scr_token a));
  api_Register _ a := (scr_register a, a);
  api_SetRunToken t a :=
    mkScripted (scr_updates a) (scr_sent a) (scr_register a) (scr_fetch a) (Some t);
  api_ClearRunToken a :=
    mkScripted (scr_updates a) (scr_sent a) (scr_register a) (scr_fetch a) None;
  api_token := scr_token;
|}.

(** Two failures while meshfed restarts, then the status is taken. *)
Lemma updateStateWithRetry_attempts_witness
    (status := mkRunStatus "run-1" SUCCEEDED [] 0 None None)
    (api := mkScripted [Err (errStatus 503); Err (errURL "patch" (errNew "EOF")); Ok false] [] None
              (Err (errStatus 404)) None)
    (sent := updateStateWithRetry exampleRetry (λ _, "10m0s") status finalStatusRetry api) :
  sent.1 = None ∧ length (scr_sent sent.2) = 3 ∧
  ∃ rs last, Forall transientAnswer rs ∧ Attempts status api (rs ++ [last]) sent.2.
Proof.
  split; [vm_compute; reflexivity|]. split; [vm_compute; reflexivity|].
  destruct (updateStateWithRetry_attempts exampleRetry (λ _, "10m0s")
    (λ S schedule cause op s, retryN_Retries 5 cause op s) status finalStatusRetry api)
    as (rs & last & Hf & Ha & _).
  exists rs, last. split; [exact Hf|exact Ha].
Defined.
