(* ===== verification/Worker.v ===== *)
(** * Worker: executing a run while its status is observed

    Models the execution of one run in tf-block-runner/tfrun/worker.go and runcontextinfo.go's
    [initRunContextInfo]: the work routine that registers the run and executes
    its command, the observer routine that reports the status while the
    command runs and at its end, and the temporary directory around both.

    The two goroutines share the reported status (under its mutex), the run
    API, and the channel on which the work routine signals its end. The work
    routine is the state transformer of RunM.v; what the observer can see of
    it is the sequence of values it gives the reported status, so the
    interleavings of both are the steps of a relation over that sequence. *)

From S2P Require Import Prelude GoPath Base64 Hcl VarsFile Status MeshDtos MeshAuth MeshClient TfConfig Run RunM Example Frame GitSource TfEnv Script TfVars TfBinaries TfCmd TfCommands TfFrames TfRun TfSuccess TfContract Dtos RunApi StatusUpdate.

(** ** runcontextinfo.go *)

Definition initialStatus (run : Run) : RunStatus :=
  mkRunStatus (r_Id run) IN_PROGRESS [] (-1) None None.

(** [None] is the panic on a nil workspace identifier. The result's status is
    both [runStatus] and [reportStatus]. *)
Definition initRunContextInfo (run : Run) (wd : string) : option (RunContextInfo * RunStatus) :=
  match r_WorkspaceIdentifier run with
  | None => None
  | Some workspace =>
      Some ({| runId := r_Id run;
               bbId := r_BuildingBlockId run;
               workspaceIdentifier := workspace;
               runJsonBase64 := r_RunJsonBase64 run;
               asyncRun := r_IsAsync run;
               useMeshBackendFallback := r_UseMeshBackendFallback run;
               workingDirectory := wd;
               artifactFilePath := path_Join [wd; "plan.tfplan"];
               runToken := r_RunToken run;
               meshstackBaseUrl := r_MeshstackBaseUrl run;
               tfStateLockUrl := r_TfStateLockUrl run |}, initialStatus run)
  end.

(** The state a command starts in; the update log is a new file. *)
Definition startWorld (run : Run) (fs : gmap string string) (ds : gset string) : World :=
  mkWorld (initialStatus run) (initialStatus run) "" 0 false true fs ds [].

(** ** The work routine *)

Definition runParams (run : Run) (mode : string) : TfCmdParams := {|
  buildingBlockId := r_BuildingBlockId run;
  tfVersion := r_TerraformVersion run;
  suggestedWorkspace := toWorkspaceStr run;
  vars := r_Vars run;
  source := r_Source run;
  preRunScript := r_PreRunScript run;
  runMode := mode;
  artifactUrl := r_ArtifactUrl run;
  artifactUploadUrl := r_ArtifactUploadUrl run |}.

Definition commandOf (b : Behavior) : option TfCommand :=
  match b with
  | APPLY => Some ApplyCommand
  | DETECT => Some PlanCommand
  | DESTROY => Some DestroyCommand
  | UNKNOWN_BEHAVIOR => None
  end.

Section WorkRoutine.
Context (env : Env) (lib : HclLib) (cfg : TfRunnerConfig) (installDir : string).
(* the answer to the registration, given the events so far *)
Context (register : list event → RunStatus → option error).

(** The fatal exit of [str()] on an unknown behaviour comes before the nil
    command could be used. *)
Definition workRoutine (run : Run) (info : RunContextInfo) : M unit :=
  match Behavior_str (r_Behavior run), commandOf (r_Behavior run) with
  | Some mode, Some tfCommand =>
      initRunSteps info tfCommand;;
      status ← gets runStatus;
      err ← ask (λ t, register t status);
      match err with
      | Some _ => reportFailed
      | None => execute env lib cfg info (runParams run mode) installDir tfCommand
      end
  | _, _ => panic "This is a developer error, behavior is not known."
  end.
End WorkRoutine.

(** The values the reported status takes while the work routine runs, oldest
    first; the last one is the value it is left with. *)
Definition publications : list event → list RunStatus :=
  omap (λ ev, match ev with EvPublish s => Some s | _ => None end).
Definition reportsOf (w : World) : list RunStatus :=
  reverse (publications (trace w)) ++ [reportStatus w].

(** ** The observer routine *)

Inductive ObserverPhase :=
| Idle                       (* in the select *)
| Sending (status : RunStatus)
| Finished (final : RunStatus) (err : option error).

Record Execution (A : Type) := mkExecution {
  ex_todo : list RunStatus;        (* values the work routine has yet to report *)
  ex_reported : RunStatus;
  ex_ticks : list RunStatus;       (* the updates sent on ticks, newest first *)
  ex_api : A;
  ex_abortRequested : bool;
  ex_phase : ObserverPhase;
}.
Arguments mkExecution {A}.
Arguments ex_todo {A}.
Arguments ex_reported {A}.
Arguments ex_ticks {A}.
Arguments ex_api {A}.
Arguments ex_abortRequested {A}.
Arguments ex_phase {A}.

Section Observer.
Context {A : Type} `{RunApi A}.
Context (Retry : RetryOp) (fmtDuration : Z → string).

(** The status [sendFinalStatus] sends. *)
Definition finalStatus (run : Run) (abortRequested : bool) (status : RunStatus) : RunStatus :=
  if abortRequested then set_Status ABORTED status
  else if r_IsAsync run && bool_decide (Status status = SUCCEEDED)
  then set_Status IN_PROGRESS status
  else status.

Definition sendFinalStatus (run : Run) (abortRequested : bool) (retry : retrySchedule) (reported : RunStatus)
    (api : A) : RunStatus * option error * A :=
  let status := finalStatus run abortRequested reported in
  let '(err, api) := updateStateWithRetry Retry fmtDuration status retry api in
  (status, err, api).

Definition sendInitFail (run : Run) (api : A) : option error * A :=
  updateStateWithRetry Retry fmtDuration
    (mkRunStatus (r_Id run) FAILED [] 0 (Some "Something went wrong while starting the run.") None)
    finalStatusRetry api.

(** One step of the execution. A tick on a terminal status does nothing, so
    it is no step; the work routine uses the API as well, within its contract. *)
Inductive step (run : Run) : Execution A → Execution A → Prop :=
| step_report s todo reported ticks api abort ph :
    (∀ final err, ph ≠ Finished final err) →
    step run (mkExecution (s :: todo) reported ticks api abort ph)
      (mkExecution todo s ticks api abort ph)
| step_useApi todo reported ticks api api' abort ph :
    todo ≠ [] → api_token api' = api_token api → (∀ final err, ph ≠ Finished final err) →
    step run (mkExecution todo reported ticks api abort ph)
      (mkExecution todo reported ticks api' abort ph)
| step_tick todo reported ticks api abort :
    isTerminalState (Status reported) = false →
    step run (mkExecution todo reported ticks api abort Idle)
      (mkExecution todo reported (reported :: ticks) api abort (Sending reported))
| step_answer todo reported ticks api abort s r api' :
    updateStateWithin s api = (r, api') →
    step run (mkExecution todo reported ticks api abort (Sending s))
      (mkExecution todo reported ticks api' (abort || bool_decide (r = Ok true)) Idle)
| step_done reported ticks api abort final err api' :
    sendFinalStatus run abort finalStatusRetry reported api = (final, err, api') →
    step run (mkExecution [] reported ticks api abort Idle)
      (mkExecution [] reported ticks api' abort (Finished final err)).

(** What the observer starts with. *)
Definition startExecution (reports : list RunStatus) (status : RunStatus) (api : A) : Execution A :=
  mkExecution reports status [] api false Idle.

Definition finished (e : Execution A) : Prop := ∃ final err, ex_phase e = Finished final err.

Definition executes (run : Run) (reports : list RunStatus) (api : A) (e : Execution A) : Prop :=
  rtc (step run) (startExecution reports (initialStatus run) api) e.
End Observer.

(** ** The observer's updates *)

Definition running (s : RunStatus) : Prop := isTerminalState (Status s) = false.
#[export] Instance running_dec s : Decision (running s) := decide (_ = false).

Section Invariant.
Context {A : Type} `{RunApi A}.
Context (Retry : RetryOp) (fmtDuration : Z → string).
Context (run : Run) (reports : list RunStatus) (api0 : A).
Context (R : relation RunStatus) `{!PreOrder R}.
(* the statuses the work routine reports while the run is running are in order *)
Context (Hsorted : StronglySorted R (filter running (initialStatus run :: reports))).

Record ExecutionInv (e : Execution A) : Prop := {
  inv_reported : ∃ past, reports = past ++ ex_todo e ∧
    list.last (initialStatus run :: past) = Some (ex_reported e) ∧
    Forall (λ s, s ∈ initialStatus run :: past ∧ running s) (ex_ticks e);
  inv_ticks : StronglySorted (flip R) (ex_ticks e);
  inv_final final err :
    ex_phase e = Finished final err →
    ex_todo e = [] ∧ final = finalStatus run (ex_abortRequested e) (ex_reported e);
  inv_token : RunApiLaws A → RetriesAsDocumented Retry → api_token (ex_api e) = api_token api0;
}.

Lemma ordered_last past todo reported s :
  reports = past ++ todo → list.last (initialStatus run :: past) = Some reported →
  s ∈ initialStatus run :: past → running s → running reported → R s reported.
Proof.
  intros -> [l Hl]%last_Some Hs Hrs Hrr.
  assert (initialStatus run :: past ++ todo = l ++ reported :: todo) as E.
  { change (initialStatus run :: past ++ todo) with ((initialStatus run :: past) ++ todo).
    by rewrite Hl, <-app_assoc. }
  rewrite E, list.filter_app, list.filter_cons_True in Hsorted by done. rewrite Hl in Hs.
  apply elem_of_app in Hs as [Hs|Hs%list_elem_of_singleton]; [|by subst].
  eapply StronglySorted_app_1_elem_of; [exact Hsorted| |by left].
  by apply list_elem_of_filter.
Qed.

Lemma ExecutionInv_start : ExecutionInv (startExecution reports (initialStatus run) api0).
Proof. split; simpl; [|constructor|done|done]. exists []. split_and!; [done|done|constructor]. Qed.

Lemma ExecutionInv_step e e' : step Retry fmtDuration run e e' → ExecutionInv e → ExecutionInv e'.
Proof.
  intros Hstep [(past & Hp & Hl & Hf) Ht Hfin Htok].
  destruct Hstep; simpl in *; split; simpl; try done.
  - exists (past ++ [s]). split_and!; [by rewrite <-app_assoc| |].
    + by rewrite app_comm_cons, last_snoc.
    + eapply Forall_impl; [|exact Hf]. intros s' [? ?]. rewrite app_comm_cons. set_solver.
  - intros final err ->. by destruct (H0 final err).
  - by exists past.
  - intros ? ?. rewrite H1. auto.
  - exists past. split_and!; [done..|]. constructor; [|done]. split; [|done].
    by apply last_Some_elem_of.
  - constructor; [done|]. eapply Forall_impl; [|exact Hf]. intros s' [Hs Hr]. simpl.
    by eapply ordered_last.
  - by exists past.
  - intros HL HR. rewrite <-(Htok HL HR). unfold updateStateWithin in H0.
    by rewrite <-(update_token s api), H0.
  - by exists past.
  - intros final' err' [= <- <-]. split; [done|]. unfold sendFinalStatus in H0.
    destruct (updateStateWithRetry _ _ _ _ _). congruence.
  - intros HL HR. rewrite <-(Htok HL HR). unfold sendFinalStatus in H0.
    pose proof (updateStateWithRetry_token Retry fmtDuration HR (finalStatus run abort reported)
      finalStatusRetry api) as Hu.
    destruct (updateStateWithRetry _ _ _ _ _). simpl in Hu. congruence.
Qed.

Lemma ExecutionInv_executes e : executes Retry fmtDuration run reports api0 e → ExecutionInv e.
Proof.
  unfold executes. generalize ExecutionInv_start.
  intros Hi Hr. induction Hr as [|e1 e2 e3 Hs _ IH]; [done|]. by apply IH, (ExecutionInv_step e1).
Qed.

(** Nothing keeps the execution from ending. *)
Lemma execution_finishes e : ExecutionInv e → ∃ e', rtc (step Retry fmtDuration run) e e' ∧ finished e'.
Proof.
  destruct e as [todo reported ticks api abort ph]. revert reported.
  induction todo as [|s todo IH]; intros reported Hi.
  - assert (∀ api abort, ∃ e', rtc (step Retry fmtDuration run)
      (mkExecution [] reported ticks api abort Idle) e' ∧ finished e') as Hidle.
    { intros api' abort'. destruct (sendFinalStatus Retry fmtDuration run abort' finalStatusRetry reported api')
        as [[final err] api''] eqn:Hs.
      eexists. split; [eapply rtc_once, step_done, Hs|]. by eexists _, _. }
    destruct ph as [|s|final err]; [apply Hidle| |eexists; split; [reflexivity|by eexists _, _]].
    destruct (updateStateWithin s api) as [r api'] eqn:Hu.
    destruct (Hidle api' (abort || bool_decide (r = Ok true))) as (e' & Hr & Hf).
    exists e'. split; [|done]. eapply rtc_l; [by eapply step_answer|done].
  - assert (∀ final err, ph ≠ Finished final err) as Hph.
    { intros final err ->. by destruct (inv_final _ Hi _ _ eq_refl). }
    assert (step Retry fmtDuration run (mkExecution (s :: todo) reported ticks api abort ph)
      (mkExecution todo s ticks api abort ph)) as Hs by by constructor.
    destruct (IH s) as (e' & Hr & Hf); [by eapply ExecutionInv_step|].
    exists e'. split; [|done]. by eapply rtc_l.
Qed.
End Invariant.

(** ** What the work routine reports *)

Definition stepOrder : relation RunStatus := λ s1 s2, (CurrentStepIndex s1 ≤ CurrentStepIndex s2)%Z.
#[export] Instance stepOrder_preorder : PreOrder stepOrder.
Proof. split; [intros s|intros s1 s2 s3]; unfold stepOrder; lia. Qed.

(** Newest first, the statuses published while running go back in the steps. *)
Lemma progress_publications n k t :
  progress n [] k t →
  StronglySorted (flip stepOrder) (publications t) ∧
  Forall (λ s, ∃ j, j ≤ k ∧ Running n j s) (publications t).
Proof.
  induction 1 as [|j k t s Hp [IHs IHf] Hjk Hr|k t ev Hev Hp [IHs IHf]].
  - split; constructor.
  - cbn [publications omap list_omap]. split; constructor; eauto.
    + eapply Forall_impl; [|exact IHf]. intros s' (i & Hi & Hs').
      unfold flip, stepOrder. rewrite (run_index _ _ _ Hr), (run_index _ _ _ Hs'). lia.
    + eapply Forall_impl; [|exact IHf]. intros s' (i & Hi & Hs'). exists i. split; [lia|done].
  - destruct ev; try done. by destruct (Hev status).
Qed.

Lemma publications_app t1 t2 : publications (t1 ++ t2) = publications t1 ++ publications t2.
Proof. apply omap_app. Qed.

Lemma quiet_publications final evs :
  ¬ running final → Forall (quietEvent final) evs → Forall (λ s, ¬ running s) (publications evs).
Proof.
  intros Hfin. induction 1 as [|ev evs Hq _ IH]; [constructor|].
  destruct ev; try exact IH. cbn. constructor; [|exact IH].
  simpl in Hq. apply skeleton_inv in Hq as (_ & Hst & _). unfold running in *. congruence.
Qed.

Section Reports.
Context (env : Env) (lib : HclLib) (cfg : TfRunnerConfig) (installDir : string).
Context (register : list event → RunStatus → option error).
Context (run : Run) (fs : gmap string string) (ds : gset string).
Context (info : RunContextInfo) (mode : string) (c : TfCommand).
Context (Hmode : Behavior_str (r_Behavior run) = Some mode) (Hc : commandOf (r_Behavior run) = Some c).
Context (Hlaws : CommandLaws env lib (runParams run mode)).

(** What the work routine leaves: a refused run is only marked as failed, a
    registered one ends as its command does. *)
Definition worked (w : World) : Prop :=
  (publications (trace w) = [] ∧ reportStatus w = set_Status FAILED (initialStatus run)) ∨
  endsWell env info (runParams run mode) c [] w.

Lemma wp_workRoutine {policy : PanicPolicy} :
  CommandReady env lib info (runParams run mode) →
  wp (workRoutine env lib cfg installDir register run info) (startWorld run fs ds) (λ _ w, worked w).
Proof.
  intros Hready. unfold workRoutine. rewrite Hmode, Hc.
  destruct (Fresh_initRunSteps info c (startWorld run fs ds)) as (w1 & Hi & Hf & Ht & _); [by split|].
  apply wp_bind. unfold wp at 1. rewrite Hi. apply wp_bind, wp_gets, wp_bind, wp_gets.
  destruct (register _ _).
  - apply wp_modify. left. simpl. rewrite Ht. split; [done|]. f_equal.
    clear -Hi. unfold initRunSteps, TfApply_initRunSteps, TfPlan_initRunSteps, TfDestroy_initRunSteps,
      installSteps, modifyStatus, modify in Hi. by destruct c; simplify_eq/=.
  - eapply wp_mono; [by apply wp_succeeds|]. intros u w Hw. right. by rewrite Ht in Hw.
Qed.

(** How it ends: done, or with a panic of its command. *)
Lemma workRoutine_ends :
  (∃ w, workRoutine env lib cfg installDir register run info (startWorld run fs ds) = (Done tt, w) ∧ worked w) ∨
  ∃ msg w, workRoutine env lib cfg installDir register run info (startWorld run fs ds) = (Panicked msg, w) ∧
    CrashCause env info (runParams run mode) msg.
Proof.
  destruct (wp_ends _ _ _ (wp_workRoutine (CommandReady_crash env lib info _ Hlaws))) as [([] & w & Hw & Hworked)|Hp];
    [left; by exists w|right; exact Hp].
Qed.

Lemma workRoutine_worked w :
  workRoutine env lib cfg installDir register run info (startWorld run fs ds) = (Done tt, w) → worked w.
Proof. apply (wp_done _ _ (λ _, worked) _ _ (wp_workRoutine (CommandReady_any env lib info _ Hlaws))). Qed.

Lemma worked_terminal w : worked w → ¬ running (reportStatus w).
Proof.
  unfold running. intros [[_ ->]|[[Ho -> _ _] _]]; [done|].
  destruct Ho as [[-> _]|[k [_ -> _ _ _]]]; done.
Qed.

Lemma worked_outcome w :
  worked w → (Status (reportStatus w) = SUCCEEDED ∨ Status (reportStatus w) = FAILED) ∧
  (Status (reportStatus w) = SUCCEEDED →
     achieved env info (runParams run mode) c w ∧ Steps (reportStatus w) = Steps (runStatus w)).
Proof.
  intros [[_ ->]|[[Ho -> _ _] Hach]]; [by split; [right|]|]. split; [|auto].
  destruct Ho as [[? _]|[k [_ ? _ _ _]]]; auto.
Qed.

Lemma reports_sorted w :
  worked w → StronglySorted stepOrder (filter running (initialStatus run :: reportsOf w)).
Proof.
  intros Hw. pose proof (worked_terminal w Hw) as Hlast. unfold reportsOf.
  rewrite list.filter_cons_True, list.filter_app by done.
  rewrite (filter_none running [reportStatus w]) by by repeat constructor.
  rewrite app_nil_r. destruct Hw as [[-> _]|[[_ Hrep (k & evs & t & -> & Hp & Hq) _] _]].
  { repeat constructor. }
  rewrite Hrep in Hlast. apply progress_publications in Hp as [Hs Hf].
  change (publications (EvPublish (runStatus w) :: evs ++ t))
    with ([runStatus w] ++ publications (evs ++ t)). rewrite publications_app.
  rewrite !reverse_app, !list.filter_app.
  rewrite (filter_none running (reverse (publications evs))) by (by apply Forall_reverse, (quiet_publications (runStatus w))).
  rewrite (filter_none running (reverse [runStatus w])) by by repeat constructor.
  rewrite !app_nil_r. constructor.
  - apply StronglySorted_filter, (StronglySorted_reverse (flip stepOrder)), Hs.
  - apply Forall_filter, Forall_reverse. eapply Forall_impl; [|exact Hf].
    intros s (j & _ & Hr). unfold stepOrder. rewrite (run_index _ _ _ Hr). simpl. lia.
Qed.

(** ** Properties *)

Context {A : Type} `{RunApi A} (Retry : RetryOp) (fmtDuration : Z → string) (api : A).

Lemma executes_Inv w e :
  worked w → executes Retry fmtDuration run (reportsOf w) api e →
  ExecutionInv Retry run (reportsOf w) api stepOrder e.
Proof. intros Hw. eapply ExecutionInv_executes; [apply _|by apply reports_sorted]. Qed.

Lemma finished_reported w e final err :
  worked w → executes Retry fmtDuration run (reportsOf w) api e → ex_phase e = Finished final err →
  final = finalStatus run (ex_abortRequested e) (reportStatus w).
Proof.
  intros Hw He Hph. destruct (executes_Inv w e Hw He) as [(past & Hp & Hl & _) _ Hfin _].
  destruct (Hfin _ _ Hph) as [Htodo ->]. f_equal. rewrite Htodo, app_nil_r in Hp. subst past.
  unfold reportsOf in Hl. rewrite app_comm_cons, last_snoc in Hl. by simplify_eq.
Qed.

(** C12. However the two routines of a worker interleave, and whatever meshStack
    answers, the execution of a run can always go on to its end, and its end is
    reported as it was: the last update says ABORTED when an abort was
    requested, FAILED when the registration was refused or a step failed, and
    else that the run succeeded, which for an asynchronous run means it goes
    on elsewhere. It only says so when the tofu call that the run is about
    came back without an error, and after an apply the last step has the
    outputs that tofu reported then. The other case is a panic of the command,
    for a cause that [CrashCause] names. *)
Theorem final_status_reported :
  (∃ w, workRoutine env lib cfg installDir register run info (startWorld run fs ds) = (Done tt, w) ∧
  ∀ e, executes Retry fmtDuration run (reportsOf w) api e →
    (∃ e', rtc (step Retry fmtDuration run) e e' ∧ finished e') ∧
    ∀ final err, ex_phase e = Finished final err →
      Steps final = Steps (reportStatus w) ∧
      Status final = (if ex_abortRequested e then ABORTED
                      else if bool_decide (Status (reportStatus w) = FAILED) then FAILED
                      else if r_IsAsync run then IN_PROGRESS else SUCCEEDED) ∧
      (Status final = SUCCEEDED ∨ Status final = IN_PROGRESS →
         achieved env info (runParams run mode) c w ∧ Steps final = Steps (runStatus w))) ∨
  ∃ msg w, workRoutine env lib cfg installDir register run info (startWorld run fs ds) = (Panicked msg, w) ∧
    CrashCause env info (runParams run mode) msg.
Proof.
  destruct workRoutine_ends as [(w & Hw & Hworked)|Hp]; [left|right; exact Hp]. exists w. split; [done|].
  intros e He. split.
  { eapply (execution_finishes Retry fmtDuration run (reportsOf w) api stepOrder); [by apply reports_sorted|by apply executes_Inv]. }
  intros final err Hph. rewrite (finished_reported w e final err) by done.
  destruct (worked_outcome w Hworked) as [Hst Hach]. unfold finalStatus.
  destruct (ex_abortRequested e); [split_and!; [done..|intros []; done]|].
  destruct Hst as [Hst|Hst]; rewrite Hst; simpl; destruct (r_IsAsync run); simpl; rewrite ?Hst;
    split_and!; try done; auto; intros []; done.
Qed.

(** C27. The updates sent on the ticks of the observer are statuses the run
    really had, none of them terminal, so the final update is the only final
    one, and none goes back to an earlier step than one sent before. *)
Theorem updates_in_order (w : World) (e : Execution A)
    (Hwork : workRoutine env lib cfg installDir register run info (startWorld run fs ds) = (Done tt, w))
    (He : executes Retry fmtDuration run (reportsOf w) api e) :
  Forall (λ s, s ∈ initialStatus run :: reportsOf w ∧ isTerminalState (Status s) = false) (ex_ticks e) ∧
  StronglySorted (λ newer older, (CurrentStepIndex older ≤ CurrentStepIndex newer)%Z) (ex_ticks e).
Proof.
  destruct (executes_Inv w e (workRoutine_worked w Hwork) He) as [(past & Hp & _ & Hf) Ht _ _]. split; [|exact Ht].
  eapply Forall_impl; [|exact Hf]. intros s [Hs Hr]. split; [|exact Hr].
  rewrite Hp, app_comm_cons. set_solver.
Qed.
End Reports.

(** ** The execution of one run *)

(** What the worker's host answers when it prepares a run: the temporary
    directory, its [logs] directory, the log file, and the files around. *)
Record Host := mkHost {
  host_mkdirTemp : result string;
  host_mkdirLogs : option error;
  host_openLog : option error;
  host_files : gmap string string;
}.

Section TfExecution.
Context (env : Env) (lib : HclLib) (cfg : TfRunnerConfig) (installDir : string).
Context {A : Type} `{RunApi A} (Retry : RetryOp) (fmtDuration : Z → string).

Definition registerWith (api : A) (_ : list event) (status : RunStatus) : option error :=
  (api_Register status api).1.

(** [tfExecution] on an API and the worker's temporary directories; [None] is
    a crash of the process. The directory is only removed by a deferred call
    that comes after the creation of [logs]. *)
Inductive tfExecution (h : Host) (run : Run) :
    A → gset string → option (option error * A * gset string) → Prop :=
| tfExecution_noTemp e api tmp r api' :
    host_mkdirTemp h = Err e → sendInitFail Retry fmtDuration run api = (r, api') →
    tfExecution h run api tmp
      (Some (Some (errWrap "failed to create temp directory: " e ""), api', tmp))
| tfExecution_noLogs wd e api tmp r api' :
    host_mkdirTemp h = Ok wd → host_mkdirLogs h = Some e →
    sendInitFail Retry fmtDuration run api = (r, api') →
    tfExecution h run api tmp
      (Some (Some (errWrap "failed to create logs directory: " e ""), api', {[wd]} ∪ tmp))
| tfExecution_noContext wd api tmp :
    host_mkdirTemp h = Ok wd → host_mkdirLogs h = None → initRunContextInfo run wd = None →
    tfExecution h run api tmp None
| tfExecution_nilLog wd e api tmp :
    host_mkdirTemp h = Ok wd → host_mkdirLogs h = None → host_openLog h = Some e →
    tfExecution h run api tmp None
| tfExecution_panic wd api tmp info st msg w :
    host_mkdirTemp h = Ok wd → host_mkdirLogs h = None → host_openLog h = None →
    initRunContextInfo run wd = Some (info, st) →
    workRoutine env lib cfg installDir (registerWith api) run info
      (startWorld run (host_files h) {[wd; wd +:+ "/logs"]}) = (Panicked msg, w) →
    tfExecution h run api tmp None
| tfExecution_ran wd api tmp info st w e :
    host_mkdirTemp h = Ok wd → host_mkdirLogs h = None → host_openLog h = None →
    initRunContextInfo run wd = Some (info, st) →
    workRoutine env lib cfg installDir (registerWith api) run info
      (startWorld run (host_files h) {[wd; wd +:+ "/logs"]}) = (Done tt, w) →
    executes Retry fmtDuration run (reportsOf w) api e → finished e →
    tfExecution h run api tmp (Some (None, ex_api e, tmp)).

Context (h : Host) (run : Run).
Context (Hlaws : ∀ mode, CommandLaws env lib (runParams run mode)).

(** Why the process may crash in a run, with its temporary directory: the log
    that could not be opened is used all the same, the run has no workspace or
    no known behaviour, or its command panics. *)
Inductive RunCrash (wd : string) : Prop :=
| crash_log e : host_openLog h = Some e → RunCrash wd
| crash_workspace : r_WorkspaceIdentifier run = None → RunCrash wd
| crash_behavior : commandOf (r_Behavior run) = None → RunCrash wd
| crash_command info st mode msg :
    initRunContextInfo run wd = Some (info, st) → Behavior_str (r_Behavior run) = Some mode →
    CrashCause env info (runParams run mode) msg → RunCrash wd.

Lemma behavior_known : commandOf (r_Behavior run) = None ∨
  ∃ c mode, commandOf (r_Behavior run) = Some c ∧ Behavior_str (r_Behavior run) = Some mode.
Proof. destruct (r_Behavior run); [right; by eexists _, _..|by left]. Qed.

Lemma initial_status wd info st : initRunContextInfo run wd = Some (info, st) → st = initialStatus run.
Proof. unfold initRunContextInfo. destruct (r_WorkspaceIdentifier run); congruence. Qed.

Lemma tfExecution_exists api tmp : ∃ o, tfExecution h run api tmp o.
Proof.
  destruct (sendInitFail Retry fmtDuration run api) as [r api'] eqn:Hs.
  destruct (host_mkdirTemp h) as [wd|e] eqn:Hwd; [|eexists; by eapply tfExecution_noTemp].
  destruct (host_mkdirLogs h) as [e|] eqn:Hl; [eexists; by eapply tfExecution_noLogs|].
  destruct (host_openLog h) as [e|] eqn:Hlog; [eexists; by eapply tfExecution_nilLog|].
  destruct (initRunContextInfo run wd) as [[info st]|] eqn:Hi; [|eexists; by eapply tfExecution_noContext].
  destruct behavior_known as [Hb|(c & mode & Hc & Hmode)].
  { eexists. eapply tfExecution_panic; [done..|]. unfold workRoutine. rewrite Hb.
    by destruct (Behavior_str (r_Behavior run)). }
  destruct (workRoutine_ends env lib cfg installDir (registerWith api) run (host_files h) {[wd; wd +:+ "/logs"]}
    info mode c Hmode Hc (Hlaws mode)) as [(w & Hw & Hworked)|(msg & w & Hw & _)];
    [|eexists; by eapply tfExecution_panic].
  assert (StronglySorted stepOrder (filter running (initialStatus run :: reportsOf w))) as Hsorted
    by by eapply (reports_sorted env (registerWith api)).
  destruct (execution_finishes Retry fmtDuration run (reportsOf w) api stepOrder Hsorted
    (startExecution (reportsOf w) (initialStatus run) api)) as (e & He & Hf); [apply ExecutionInv_start|].
  eexists. by eapply tfExecution_ran.
Qed.

(** What is left of the worker by an outcome. *)
Definition outcomeKept (api : A) (tmp : gset string) (o : option (option error * A * gset string)) : Prop :=
  match o with
  | Some (_, api', tmp') => api_token api' = api_token api ∧
      (tmp' = tmp ∨ ∃ wd e, host_mkdirTemp h = Ok wd ∧ host_mkdirLogs h = Some e ∧ tmp' = {[wd]} ∪ tmp)
  | None => ∃ wd, host_mkdirTemp h = Ok wd ∧ host_mkdirLogs h = None ∧ RunCrash wd
  end.

Lemma tfExecution_kept `{!RunApiLaws A} (Hretry : RetriesAsDocumented Retry) (api : A) (tmp : gset string) o :
  tfExecution h run api tmp o → outcomeKept api tmp o.
Proof.
  assert (∀ s a a' r, updateStateWithRetry Retry fmtDuration s finalStatusRetry a = (r, a') →
    api_token a' = api_token a) as Htok.
  { intros s a a' r Hs. by rewrite <-(updateStateWithRetry_token Retry fmtDuration Hretry s finalStatusRetry a), Hs. }
  intros Ho. destruct Ho as [e api tmp r api' He Hs|wd e api tmp r api' Hwd He Hs|
    wd api tmp Hwd Hl Hn|wd e api tmp Hwd Hl He|wd api tmp info st msg w Hwd Hl _ Hi Hw|
    wd api tmp info st w e Hwd _ _ Hi Hw He Hf]; simpl.
  - split; [by eapply Htok|by left].
  - split; [by eapply Htok|]. right. by exists wd, e.
  - exists wd. split_and!; [done..|]. apply crash_workspace. unfold initRunContextInfo in Hn.
    by destruct (r_WorkspaceIdentifier run).
  - exists wd. split_and!; [done..|]. by eapply crash_log.
  - exists wd. split_and!; [done..|]. destruct behavior_known as [Hb|(c & mode & Hc & Hmode)]; [by apply crash_behavior|].
    destruct (workRoutine_ends env lib cfg installDir (registerWith api) run (host_files h) {[wd; wd +:+ "/logs"]}
      info mode c Hmode Hc (Hlaws mode)) as [(w' & Hw' & _)|(msg' & w' & Hw' & Hcause)]; [congruence|].
    by eapply crash_command.
  - split; [|by left]. destruct behavior_known as [Hb|(c & mode & Hc & Hmode)].
    { unfold workRoutine in Hw. rewrite Hb in Hw. by destruct (Behavior_str (r_Behavior run)). }
    assert (ExecutionInv Retry run (reportsOf w) api stepOrder e) as [_ _ _ HT].
    { eapply (executes_Inv env (registerWith api)); [|exact He].
      eapply (workRoutine_worked env lib cfg installDir _ run _ _ info mode c Hmode Hc (Hlaws mode)). exact Hw. }
    by apply HT.
Qed.

(** The crash of a log that cannot be opened, or of a run without a
    workspace, is certain. *)
Lemma tfExecution_crashes wd api tmp o :
  host_mkdirTemp h = Ok wd → host_mkdirLogs h = None → is_Some (host_openLog h) ∨ r_WorkspaceIdentifier run = None →
  tfExecution h run api tmp o → o = None.
Proof.
  intros Hwd Hl Hcrash Ho. destruct Ho; try congruence.
  destruct Hcrash as [[? ?]|Hw]; [congruence|].
  match goal with Hi : initRunContextInfo run _ = Some _ |- _ => unfold initRunContextInfo in Hi; by rewrite Hw in Hi end.
Qed.

End TfExecution.

(** ** A run to evaluate the worker on *)

Definition blockRun (b : Behavior) : Run := {|
  r_Id := "run-1"; r_TerraformVersion := "1.9.0"; r_Behavior := b;
  r_WorkspaceIdentifier := Some "ws"; r_ProjectIdentifier := Some "p";
  r_FullPlatformIdentifier := Some "aws"; r_BuildingBlockId := "bb-1"; r_BuildingBlockName := "Block";
  r_IsAsync := false; r_Vars := vars (exampleParams "" "" ""); r_RunJsonBase64 := "e30=";
  r_Source := source (exampleParams "" "" ""); r_UseMeshBackendFallback := true; r_PreRunScript := None;
  r_RunToken := "run-token"; r_MeshstackBaseUrl := ""; r_ArtifactUrl := "";
  r_ArtifactUploadUrl := "http://upload"; r_TfStateLockUrl := "" |}.

Lemma blockRunLaws b mode : CommandLaws exampleEnv exampleLib (runParams (blockRun b) mode).
Proof. destruct (exampleLaws "" "" "" (λ _, None)) as [H1 H2]. split; [exact H1|exact H2]. Qed.

Definition exampleExecInfo : RunContextInfo :=
  match initRunContextInfo (blockRun APPLY) "/wd" with Some (info, _) => info | None => exampleInfo end.
Definition exampleApi (updates : list (result bool)) : ScriptedApi :=
  mkScripted updates [] None (Err (errStatus 404)) (Some "run-token").
Definition exampleWork : outcome unit * World :=
  workRoutine exampleEnv exampleLib exampleCfg "/install" (λ _ _, None) (blockRun APPLY)
    exampleExecInfo (startWorld (blockRun APPLY) ∅ ∅).

Lemma final_status_reported_witness :
  ∃ w e' final err, exampleWork = (Done tt, w) ∧
    executes exampleRetry (λ _, "") (blockRun APPLY) (reportsOf w) (exampleApi []) e' ∧
    ex_phase e' = Finished final err ∧
    (Status final = SUCCEEDED → achieved exampleEnv exampleExecInfo (runParams (blockRun APPLY) "APPLY") ApplyCommand w).
Proof.
  destruct (final_status_reported exampleEnv exampleLib exampleCfg "/install" (λ _ _, None)
    (blockRun APPLY) ∅ ∅ exampleExecInfo "APPLY" ApplyCommand eq_refl eq_refl
    (blockRunLaws APPLY "APPLY") exampleRetry (λ _, "") (exampleApi []))
    as [(w & Hw & He)|(msg & w & Hw & _)].
  2: { exfalso. apply (f_equal fst) in Hw. vm_compute in Hw. discriminate Hw. }
  destruct (He _ (rtc_refl _ _)) as [(e' & Hr & final & err & Hf) _]. exists w, e', final, err.
  destruct (He e' Hr) as [_ Hend]. destruct (Hend final err Hf) as (_ & _ & Hach).
  split; [exact Hw|]. split; [exact Hr|]. split; [exact Hf|]. intros Hs. exact (proj1 (Hach (or_introl Hs))).
Defined.

(** An observer that has reported the run once, before anything happened. *)
Lemma updates_in_order_witness :
  ∃ w e, executes exampleRetry (λ _, "") (blockRun APPLY) (reportsOf w) (exampleApi []) e ∧
    ex_ticks e = [initialStatus (blockRun APPLY)] ∧
    Forall (λ s, s ∈ initialStatus (blockRun APPLY) :: reportsOf w ∧
                 isTerminalState (Status s) = false) (ex_ticks e).
Proof.
  assert (exampleWork = (Done tt, exampleWork.2)) as Hw.
  { assert (exampleWork.1 = Done tt) as H by (vm_compute; reflexivity). rewrite <-H. apply surjective_pairing. }
  revert Hw. generalize (exampleWork.2). intros w Hw. exists w.
  assert (executes exampleRetry (λ _, "") (blockRun APPLY) (reportsOf w) (exampleApi [])
    (mkExecution (reportsOf w) (initialStatus (blockRun APPLY)) [initialStatus (blockRun APPLY)]
       (exampleApi []) false (Sending (initialStatus (blockRun APPLY))))) as He
    by (apply rtc_once, step_tick; reflexivity).
  eexists. split; [exact He|]. split; [reflexivity|].
  exact (proj1 (updates_in_order exampleEnv exampleLib exampleCfg "/install" (λ _ _, None)
    (blockRun APPLY) ∅ ∅ exampleExecInfo "APPLY" ApplyCommand eq_refl eq_refl
    (blockRunLaws APPLY "APPLY") exampleRetry (λ _, "") (exampleApi []) w _ Hw He)).
Defined.

Definition exampleHost : Host := mkHost (Ok "/wd") None None ∅.
Definition exampleLive : LiveApi :=
  mkLiveApi 0 (λ _, exampleHttp (mkResponse 200 "{}" None)) (SetRunToken "run-token" (NewRunApi exampleApiCfg)).

(** With the log a run of a worker ends; without it the worker crashes. *)
Definition loglessHost : Host := mkHost (Ok "/wd") None (Some (errNew "disk full")) ∅.

