(* ===== verification/SingleRun.v ===== *)
(** * SingleRun: one run from a file

    Models tf-block-runner/tfrun/singlerunworker.go: the execution of a run
    that the run-controller has already decrypted, as a Kubernetes job does
    it. The file repeats the polling worker's routines; so does the model,
    and the two are proved to be the same. What Worker.v says of the status
    values, the interleavings and the host is used here as it is there. *)

From S2P Require Import Prelude GoPath Base64 Hcl VarsFile Status MeshDtos MeshAuth MeshClient TfConfig Run RunM Example Frame GitSource TfEnv Script TfVars TfBinaries TfCmd TfCommands TfFrames TfRun TfContract Dtos RunApi StatusUpdate Worker.

(** ** The worker *)

(** The binaries are those of the installation directory. *)
Record SingleRunWorker (A : Type) := mkSingleRunWorker {
  srw_workerDir : string;
  srw_timeout : Z;
  srw_runApi : A;
  srw_statusUpdateInterval : Z;
  srw_statusRequestTimeout : Z;
  srw_finalStatusRetry : retrySchedule;
}.
Arguments mkSingleRunWorker {A}.
Arguments srw_workerDir {A}.
Arguments srw_timeout {A}.
Arguments srw_runApi {A}.
Arguments srw_statusUpdateInterval {A}.
Arguments srw_statusRequestTimeout {A}.
Arguments srw_finalStatusRetry {A}.

Section SingleRun.
Context (env : Env) (lib : HclLib) (cfg : TfRunnerConfig) (installDir : string).
Context {A : Type} `{RunApi A} (Retry : RetryOp) (fmtDuration : Z → string).
(* json.Unmarshal of the run object; the conversions' JSON *)
Context (unmarshalRun : string → result RunDetailsDTO)
  (unmarshalImpl : string → result TerraformImplementation)
  (marshalRun : RunDetailsDTO → result string).
(* the API that NewRunApi makes *)
Context (newRunApi : A).

Definition NewSingleRunWorker (workerDir : string) (timeoutMins : Z) : SingleRunWorker A := {|
  srw_workerDir := workerDir;
  srw_timeout := wrap64 (Minute * timeoutMins);
  srw_runApi := newRunApi;
  srw_statusUpdateInterval := Second * 10;
  srw_statusRequestTimeout := statusRequestTimeout;
  srw_finalStatusRetry := finalStatusRetry |}.

Definition NewSingleRunWorkerWithApi (workerDir : string) (timeoutMins : Z) (api : A) : SingleRunWorker A := {|
  srw_workerDir := workerDir;
  srw_timeout := wrap64 (Minute * timeoutMins);
  srw_runApi := api;
  srw_statusUpdateInterval := Second * 10;
  srw_statusRequestTimeout := statusRequestTimeout;
  srw_finalStatusRetry := finalStatusRetry |}.

(** ** Its two routines *)

(** [workRoutine]; [register] is [w.runApi]'s answer to the registration. *)
Definition single_workRoutine (register : list event → RunStatus → option error) (run : Run)
    (info : RunContextInfo) : M unit :=
  match Behavior_str (r_Behavior run) with
  | None => panic "This is a developer error, behavior is not known."
  | Some mode =>
      let params := {|
        buildingBlockId := r_BuildingBlockId run;
        tfVersion := r_TerraformVersion run;
        suggestedWorkspace := toWorkspaceStr run;
        vars := r_Vars run;
        source := r_Source run;
        preRunScript := r_PreRunScript run;
        runMode := mode;
        artifactUrl := r_ArtifactUrl run;
        artifactUploadUrl := r_ArtifactUploadUrl run |} in
      match (match r_Behavior run with
             | APPLY => Some ApplyCommand
             | DETECT => Some PlanCommand
             | DESTROY => Some DestroyCommand
             | UNKNOWN_BEHAVIOR => None
             end) with
      | None => panic "invalid memory address or nil pointer dereference"
      | Some tfCommand =>
          initRunSteps info tfCommand;;
          status ← gets runStatus;
          err ← ask (λ t, register t status);
          match err with
          | Some _ => reportFailed
          | None => execute env lib cfg info params installDir tfCommand
          end
      end
  end.

(** [observerRoutine] next to the work routine, as in Worker.v: what the work
    routine has yet to report, and one step of either. *)
Inductive single_step (w : SingleRunWorker A) (run : Run) : Execution A → Execution A → Prop :=
| single_report s todo reported ticks api abort ph :
    (∀ final err, ph ≠ Finished final err) →
    single_step w run (mkExecution (s :: todo) reported ticks api abort ph)
      (mkExecution todo s ticks api abort ph)
| single_useApi todo reported ticks api api' abort ph :
    todo ≠ [] → api_token api' = api_token api → (∀ final err, ph ≠ Finished final err) →
    single_step w run (mkExecution todo reported ticks api abort ph)
      (mkExecution todo reported ticks api' abort ph)
| single_tick todo reported ticks api abort :
    isTerminalState (Status reported) = false →
    single_step w run (mkExecution todo reported ticks api abort Idle)
      (mkExecution todo reported (reported :: ticks) api abort (Sending reported))
| single_answered todo reported ticks api abort status r api' :
    updateStateWithin status api = (r, api') →
    single_step w run (mkExecution todo reported ticks api abort (Sending status))
      (mkExecution todo reported ticks api'
         (match r with Ok true => if abort then abort else true | _ => abort end) Idle)
| single_done reported ticks api abort final err api' :
    sendFinalStatus Retry fmtDuration run abort (srw_finalStatusRetry w) reported api = (final, err, api') →
    single_step w run (mkExecution [] reported ticks api abort Idle)
      (mkExecution [] reported ticks api' abort (Finished final err)).

Definition single_sendInitFail (w : SingleRunWorker A) (run : Run) (api : A) : option error * A :=
  let summary := "Something went wrong while starting the run." in
  updateStateWithRetry Retry fmtDuration (mkRunStatus (r_Id run) FAILED [] 0 (Some summary) None)
    (srw_finalStatusRetry w) api.

(** ** The execution of a run *)

(** [SingleRunWorker.ExecuteRun]; [mkdirAll] is the failure of the first
    [os.MkdirAll], the rest of the host and the outcome are as in Worker.v. *)
Inductive ExecuteRun (w : SingleRunWorker A) (mkdirAll : option error) (h : Host) (run : Run) (tmp : gset string) :
    option (option error * A * gset string) → Prop :=
| ExecuteRun_noDir e :
    mkdirAll = Some e →
    ExecuteRun w mkdirAll h run tmp
      (Some (Some (errWrap "failed to create working directory: " e ""), srw_runApi w, tmp))
| ExecuteRun_noTemp e r api' :
    mkdirAll = None → host_mkdirTemp h = Err e → single_sendInitFail w run (srw_runApi w) = (r, api') →
    ExecuteRun w mkdirAll h run tmp (Some (Some (errWrap "failed to create temp directory: " e ""), api', tmp))
| ExecuteRun_noLogs cmdDir e r api' :
    mkdirAll = None → host_mkdirTemp h = Ok cmdDir → host_mkdirLogs h = Some e →
    single_sendInitFail w run (srw_runApi w) = (r, api') →
    ExecuteRun w mkdirAll h run tmp
      (Some (Some (errWrap "failed to create logs directory: " e ""), api', {[cmdDir]} ∪ tmp))
| ExecuteRun_noContext cmdDir :
    mkdirAll = None → host_mkdirTemp h = Ok cmdDir → host_mkdirLogs h = None →
    initRunContextInfo run cmdDir = None → ExecuteRun w mkdirAll h run tmp None
| ExecuteRun_nilLog cmdDir e :
    mkdirAll = None → host_mkdirTemp h = Ok cmdDir → host_mkdirLogs h = None → host_openLog h = Some e →
    ExecuteRun w mkdirAll h run tmp None
| ExecuteRun_panic cmdDir info st msg world :
    mkdirAll = None → host_mkdirTemp h = Ok cmdDir → host_mkdirLogs h = None → host_openLog h = None →
    initRunContextInfo run cmdDir = Some (info, st) →
    single_workRoutine (registerWith (srw_runApi w)) run info
      (startWorld run (host_files h) {[cmdDir; cmdDir +:+ "/logs"]}) = (Panicked msg, world) →
    ExecuteRun w mkdirAll h run tmp None
| ExecuteRun_finished cmdDir info st world e :
    mkdirAll = None → host_mkdirTemp h = Ok cmdDir → host_mkdirLogs h = None → host_openLog h = None →
    initRunContextInfo run cmdDir = Some (info, st) →
    single_workRoutine (registerWith (srw_runApi w)) run info
      (startWorld run (host_files h) {[cmdDir; cmdDir +:+ "/logs"]}) = (Done tt, world) →
    rtc (single_step w run) (startExecution (reportsOf world) st (srw_runApi w)) e → finished e →
    ExecuteRun w mkdirAll h run tmp (Some (None, ex_api e, tmp)).

Inductive ExecuteDecryptedRun (mkdirAll : option error) (h : Host) (runJson : string) (tmp : gset string) :
    option (option error * A * gset string) → Prop :=
| ExecuteDecryptedRun_unparsable e :
    unmarshalRun runJson = Err e →
    ExecuteDecryptedRun mkdirAll h runJson tmp
      (Some (Some (errWrap "parse run JSON: " e ""), newRunApi, tmp))
| ExecuteDecryptedRun_unconvertible dto e :
    unmarshalRun runJson = Ok dto →
    ToInternalWithoutDecryption unmarshalImpl marshalRun dto = Err e →
    ExecuteDecryptedRun mkdirAll h runJson tmp
      (Some (Some (errWrap "convert run details: " e ""), newRunApi, tmp))
| ExecuteDecryptedRun_executes dto run o :
    unmarshalRun runJson = Ok dto →
    ToInternalWithoutDecryption unmarshalImpl marshalRun dto = Ok run →
    ExecuteRun
      (NewSingleRunWorkerWithApi (TfParentWorkingDir cfg) (TfCommandTimeoutMins cfg)
         (api_SetRunToken (spec_RunToken (run_Spec dto)) newRunApi))
      mkdirAll h run tmp o →
    ExecuteDecryptedRun mkdirAll h runJson tmp o.

(** ** The same as the polling worker *)

Lemma single_workRoutine_polled register run info w :
  single_workRoutine register run info w = workRoutine env lib cfg installDir register run info w.
Proof. unfold single_workRoutine, workRoutine, commandOf, runParams. by destruct (r_Behavior run). Qed.

Lemma single_step_polled w run e e' :
  srw_finalStatusRetry w = finalStatusRetry → single_step w run e e' ↔ step Retry fmtDuration run e e'.
Proof.
  intros Hw. split; (intros []; [by constructor|by constructor|by constructor| |constructor; congruence]).
  - assert (match r with Ok true => if abort then abort else true | _ => abort end = abort || bool_decide (r = Ok true))
      as -> by (destruct r as [[]|], abort; try done). by constructor.
  - assert (abort || bool_decide (r = Ok true) = match r with Ok true => if abort then abort else true | _ => abort end)
      as -> by (destruct r as [[]|], abort; try done). by constructor.
Qed.

Lemma single_steps_polled w run e e' :
  srw_finalStatusRetry w = finalStatusRetry → rtc (single_step w run) e e' ↔ rtc (step Retry fmtDuration run) e e'.
Proof.
  intros Hw. split; apply rtc_subrel; intros e1 e2; by rewrite single_step_polled.
Qed.

Lemma ExecuteRun_executes w h run tmp o :
  srw_finalStatusRetry w = finalStatusRetry →
  ExecuteRun w None h run tmp o ↔
  tfExecution env lib cfg installDir Retry fmtDuration h run (srw_runApi w) tmp o.
Proof.
  intros Hw. assert (∀ api, single_sendInitFail w run api = sendInitFail Retry fmtDuration run api) as Hfail.
  { intros api. unfold single_sendInitFail. by rewrite Hw. }
  assert (∀ cmdDir info st, initRunContextInfo run cmdDir = Some (info, st) → st = initialStatus run) as Hst.
  { unfold initRunContextInfo. intros cmdDir info st. destruct (r_WorkspaceIdentifier run); congruence. }
  split; intros Hex.
  - destruct Hex; try done.
    + eapply tfExecution_noTemp; [done|]. by rewrite <-Hfail.
    + eapply tfExecution_noLogs; [done..|]. by rewrite <-Hfail.
    + by eapply tfExecution_noContext.
    + by eapply tfExecution_nilLog.
    + eapply tfExecution_panic; [done..|]. by rewrite <-single_workRoutine_polled.
    + eapply tfExecution_ran; [done..|by rewrite <-single_workRoutine_polled| |done].
      unfold executes. erewrite <-(Hst _ _ _), <-single_steps_polled by done. done.
  - remember (srw_runApi w) as api eqn:Hapi. destruct Hex; subst.
    + eapply ExecuteRun_noTemp; [done..|]. by rewrite Hfail.
    + eapply ExecuteRun_noLogs; [done..|]. by rewrite Hfail.
    + by eapply ExecuteRun_noContext.
    + by eapply ExecuteRun_nilLog.
    + eapply ExecuteRun_panic; [done..|]. by rewrite single_workRoutine_polled.
    + eapply ExecuteRun_finished; [done..|by rewrite single_workRoutine_polled| |done].
      rewrite single_steps_polled by done. by erewrite (Hst _ _ _).
Qed.

(** ** Properties *)

Lemma converted_plain dto run k v :
  ToInternalWithoutDecryption unmarshalImpl marshalRun dto = Ok run →
  r_Vars run !! k = Some v → var_isSensitive v = false.
Proof.
  rewrite conversions_eq. destruct (runDTOToInternal _ _ dto) as [polled|]; [|done].
  intros [= <-]. simpl. rewrite lookup_fmap. destruct (r_Vars polled !! k); intros; by simplify_eq/=.
Qed.

Lemma converted_runnable dto run :
  ToInternalWithoutDecryption unmarshalImpl marshalRun dto = Ok run →
  r_Behavior run ∈ behaviors ∧ is_Some (r_WorkspaceIdentifier run).
Proof.
  rewrite conversions_eq. destruct (runDTOToInternal _ _ dto) as [polled|] eqn:Hp; [|done].
  apply runDTOToInternal_runnable in Hp as (json & _ & (Hb & Hw & _) & _). by intros [= <-].
Qed.

(** What the outside grants: Go ranges over maps, cty represents texts, and
    the process has no private key (main.go makes a crypto instance for a
    polling process only). *)
Record HostLaws : Prop := {
  hl_range : ∀ t m, env_varOrder env t m ≡ₚ map_to_list m;
  hl_strings : stringsConvert lib;
  hl_nokey : env_crypto env = None;
}.

(** Why a single run may crash its process, with its temporary directory: the
    log file could not be opened, the version is not one, or the clone cannot
    be looked at. *)
Inductive SingleCrash (h : Host) (run : Run) (wd : string) : Prop :=
| single_log e : host_openLog h = Some e → SingleCrash h run wd
| single_version : env_versionCompare env (r_TerraformVersion run) maxTFVersion = None → SingleCrash h run wd
| single_clone t e :
    gs_path (r_Source run) = None → env_osErr env t "stat" (path_Join [wd; TEMP_CLONE_DIR_PATH]) = Some e →
    SingleCrash h run wd.

(** The inputs of a converted run are plain, and its key is not decrypted, so
    no decryption can panic. *)
Lemma converted_crash (Hh : HostLaws) h dto run wd :
  ToInternalWithoutDecryption unmarshalImpl marshalRun dto = Ok run →
  RunCrash env h run wd → SingleCrash h run wd.
Proof.
  intros Hr [e He|Hw|Hb|info st mode msg Hi Hm Hcause]; [by eapply single_log|..].
  - apply converted_runnable in Hr as [_ [ws Hws]]. congruence.
  - apply converted_runnable in Hr as [Hk _]. unfold behaviors in Hk.
    destruct (r_Behavior run); [done..|]. set_solver.
  - assert (workingDirectory info = wd) as Hwd.
    { unfold initRunContextInfo in Hi. destruct (r_WorkspaceIdentifier run); [by injection Hi as <- _|done]. }
    destruct Hcause as [Hv|k v Hk Hd|entry cert Ha Hu|t e Hp He].
    + by apply single_version.
    + unfold decryptIfSensitive in Hd. by rewrite (converted_plain _ _ _ _ Hr Hk) in Hd.
    + unfold unwrapCert in Hu. by rewrite (hl_nokey Hh) in Hu.
    + rewrite Hwd in He. by eapply single_clone.
Qed.

Lemma converted_executes `{!RunApiLaws A} (Hretry : RetriesAsDocumented Retry) (Hh : HostLaws) h dto run api tmp :
  ToInternalWithoutDecryption unmarshalImpl marshalRun dto = Ok run →
  (∃ o, tfExecution env lib cfg installDir Retry fmtDuration h run api tmp o) ∧
  ∀ o, tfExecution env lib cfg installDir Retry fmtDuration h run api tmp o →
    match o with
    | Some (_, api', _) => api_token api' = api_token api
    | None => ∃ wd, host_mkdirTemp h = Ok wd ∧ host_mkdirLogs h = None ∧ SingleCrash h run wd
    end.
Proof.
  intros Hr. assert (∀ mode, CommandLaws env lib (runParams run mode)) as Hlaws.
  { intros mode. split; [intros t; apply Hh|apply Hh]. }
  split; [by apply tfExecution_exists|]. intros o Ho.
  apply (tfExecution_kept env lib cfg installDir Retry fmtDuration h run Hlaws Hretry) in Ho.
  destruct o as [[[err api'] tmp']|]; [by destruct Ho as [? _]|].
  destruct Ho as (wd & Hwd & Hl & Hcrash). exists wd. split_and!; [done..|]. by eapply converted_crash.
Qed.

(** How a run that is handed over as [runJson] ends. *)
Definition singleEnds (mkdirAll : option error) (h : Host) (runJson : string)
    (o : option (option error * A * gset string)) : Prop :=
  match o with
  | Some (err, api', _) =>
      match unmarshalRun runJson with
      | Err _ => is_Some err
      | Ok dto =>
          api_token api' = Some (spec_RunToken (run_Spec dto)) ∨
          is_Some err ∧ ∃ e, ToInternalWithoutDecryption unmarshalImpl marshalRun dto = Err e
      end
  | None => ∃ dto run wd, unmarshalRun runJson = Ok dto ∧
      ToInternalWithoutDecryption unmarshalImpl marshalRun dto = Ok run ∧ mkdirAll = None ∧
      host_mkdirTemp h = Ok wd ∧ host_mkdirLogs h = None ∧ SingleCrash h run wd
  end.

(** C22. A run is executed in a job exactly as a polling runner executes it:
    singlerunworker.go repeats worker.go, and for every run, API and host both
    have the same outcomes, crashes and interleavings included, once the job
    has its working directory. Without it nothing is done or reported. *)
Theorem single_worker_as_polled (workerDir : string) (timeoutMins : Z) (api : A)
    (mkdirAll : option error) (h : Host) (run : Run) (tmp : gset string) (o : option (option error * A * gset string)) :
  ExecuteRun (NewSingleRunWorkerWithApi workerDir timeoutMins api) mkdirAll h run tmp o ↔
  match mkdirAll with
  | None => tfExecution env lib cfg installDir Retry fmtDuration h run api tmp o
  | Some e => o = Some (Some (errWrap "failed to create working directory: " e ""), api, tmp)
  end.
Proof.
  destruct mkdirAll as [e|]; [|by apply ExecuteRun_executes].
  split; [intros He; inversion He; by simplify_eq|]. intros ->. by apply (ExecuteRun_noDir (NewSingleRunWorkerWithApi _ _ _)).
Qed.

(** A single run always has an outcome. A run object that does not parse or
    convert is returned as an error; any other one is reported under the token
    it holds, which the API still has at the end. It crashes for the causes of
    [SingleCrash] only. *)
Lemma single_run_ends `{!RunApiLaws A} (Hretry : RetriesAsDocumented Retry) (Hh : HostLaws)
    (mkdirAll : option error) (h : Host) (runJson : string) (tmp : gset string) :
  (∃ o, ExecuteDecryptedRun mkdirAll h runJson tmp o) ∧
  ∀ o, ExecuteDecryptedRun mkdirAll h runJson tmp o → singleEnds mkdirAll h runJson o.
Proof.
  pose proof (converted_executes Hretry Hh h) as Hexec. unfold singleEnds. split.
  - destruct (unmarshalRun runJson) as [dto|e] eqn:Hu; [|eexists; by eapply ExecuteDecryptedRun_unparsable].
    destruct (ToInternalWithoutDecryption unmarshalImpl marshalRun dto) as [run|e] eqn:Hr;
      [|eexists; by eapply ExecuteDecryptedRun_unconvertible].
    destruct mkdirAll as [e|].
    { eexists. eapply ExecuteDecryptedRun_executes; [done..|]. by apply ExecuteRun_noDir. }
    destruct (Hexec dto run (api_SetRunToken (spec_RunToken (run_Spec dto)) newRunApi) tmp Hr) as [[o Ho] _].
    exists o. eapply ExecuteDecryptedRun_executes; [done..|]. by apply ExecuteRun_executes.
  - intros o [e He|dto e Hu He|dto run o' Hu Hr He]; [by rewrite He|rewrite Hu; right; split; [done|by exists e]|].
    rewrite Hu. destruct mkdirAll as [e|].
    { inversion He; simplify_eq. left. apply set_token. }
    apply ExecuteRun_executes in He; [|done]. apply (proj2 (Hexec _ _ _ _ Hr)) in He.
    destruct o' as [[[err api'] tmp']|]; [left; rewrite He; apply set_token|].
    destruct He as (wd & ? & ? & ?). by exists dto, run, wd.
Qed.

(** A log file that cannot be opened is a crash. *)
Lemma single_run_crashes mkdirAll h runJson tmp dto run wd e :
  unmarshalRun runJson = Ok dto → ToInternalWithoutDecryption unmarshalImpl marshalRun dto = Ok run →
  mkdirAll = None → host_mkdirTemp h = Ok wd → host_mkdirLogs h = None → host_openLog h = Some e →
  ∀ o, ExecuteDecryptedRun mkdirAll h runJson tmp o → o = None.
Proof.
  intros Hu Hr -> Hwd Hl He o [e' He'|dto' e' Hu' He'|dto' run' o' Hu' Hr' Hex]; [congruence..|].
  apply ExecuteRun_executes in Hex; [|done].
  eapply (tfExecution_crashes env lib cfg installDir Retry fmtDuration h run' wd _ _ o' Hwd Hl); [by left; rewrite He|exact Hex].
Qed.
End SingleRun.

(** ** A run file to evaluate it on *)

Lemma exampleHostLaws : HostLaws exampleEnv exampleLib.
Proof. split; [intros t m; reflexivity|apply exampleLib_stringsConvert|done]. Qed.

Example single_run_reported :
  let json := exampleJson "APPLY" in
  let inst := LiveApi_RunApi exampleApiCfg defaultMetadata json in
  ∃ o, ExecuteDecryptedRun (H := inst) exampleEnv exampleLib exampleCfg "/install" exampleRetry
    (λ _, "10m0s") (json_parseRunDetails json) (json_unmarshalImpl json) (json_marshalRun json)
    exampleLive None exampleHost "{}" ∅ (Some o).
Proof.
  intros json inst.
  destruct (single_run_ends (H := inst) exampleEnv exampleLib exampleCfg "/install" exampleRetry
    (λ _, "10m0s") (json_parseRunDetails json) (json_unmarshalImpl json) (json_marshalRun json)
    exampleLive (RunApiLaws0 := LiveApi_RunApiLaws exampleApiCfg defaultMetadata json)
    (λ S schedule cause op s, retryN_Retries 5 cause op s) exampleHostLaws
    None exampleHost "{}" ∅) as [[o Ho] Hall].
  destruct o as [o|]; [by exists o|]. destruct (Hall None Ho) as (dto & run & wd & _ & _ & _ & _ & _ & [e He|Hv|t e _ He]); done.
Qed.
