(* ===== verification/Manager.v ===== *)
(** * Manager: handing work to the worker

    Models tf-block-runner/tfrun/manager.go and the loop of worker.go: the
    manager, the goroutines that hand out tokens after a delay, and the worker
    that turns each token into a fetched and executed run, over two channels
    of capacity one and the shutdown channel. The goroutines are the steps of
    a relation, and the whole is proved to be one token going round. *)

From S2P Require Import Prelude GoPath Base64 Hcl VarsFile Status MeshDtos MeshAuth MeshClient TfConfig Run RunM Example Frame TfCmd TfCommands Dtos RunApi StatusUpdate Worker.

Inductive workerToken := work | done_ | norun | failed | stop | stopped.

#[export] Instance workerToken_eq_dec : EqDecision workerToken.
Proof. solve_decision. Defined.

Definition FAILED_WORKER_DELAY : Z := 60 * Second.
Definition NORUN_WORKER_DELAY : Z := 10 * Second.

(** ** worker.go *)

Definition chunkedError : string :=
  "transport connection broken: too many transfer encodings: [" +:+
  DQ +:+ "chunked" +:+ DQ +:+ " " +:+ DQ +:+ "chunked" +:+ DQ +:+ "]".

(** The token [handleFetchRunError] sends; the type assertion looks at the
    error itself, not at what it wraps. *)
Definition handleFetchRunError (err : error) : workerToken :=
  match err with
  | errStatus status =>
      if decide (status = 404%Z) then norun
      else if decide (status = 409%Z) then norun
      else failed
  | _ => if Contains (Error err) chunkedError then norun else failed
  end.

Section Work.
Context (env : Env) (lib : HclLib) (cfg : TfRunnerConfig) (installDir : string).
Context {A : Type} `{RunApi A} (Retry : RetryOp) (fmtDuration : Z → string).
Context (workerNumber : nat).

(** The case [work] of the loop: what happens to the API and the temporary
    directories, and the token that is sent back. A crash sends none. *)
Inductive workItem (api : A) (tmp : gset string) : workerToken → A → gset string → Prop :=
| workItem_noRun err api' :
    api_FetchRunDetails ("worker-" +:+ pretty workerNumber) api = (Err err, api') →
    workItem api tmp (handleFetchRunError err) api' tmp
| workItem_run h run api1 err api2 tmp' :
    api_FetchRunDetails ("worker-" +:+ pretty workerNumber) api = (Ok run, api1) →
    tfExecution env lib cfg installDir Retry fmtDuration h run api1 tmp (Some (err, api2, tmp')) →
    workItem api tmp done_ (api_ClearRunToken api2) tmp'.
End Work.

(** ** The goroutines *)

Inductive WorkerPhase :=
| Receiving                      (* <-w.workerIn *)
| Working
| Reporting (t : workerToken)    (* w.workerOut <- t *)
| Exited.

#[export] Instance WorkerPhase_eq_dec : EqDecision WorkerPhase.
Proof. solve_decision. Defined.

(** A call of [handoutWorkerToken]. *)
Inductive Handout := Waiting (delay : Z) | Handing (t : workerToken).

Record RunManager := mkRunManager {
  workerIn : list workerToken;
  managerIn : list workerToken;
  shutdown : bool;
  handouts : list Handout;
  workerPhase : WorkerPhase;
  stoppedWorkers : nat;
  handle : bool;                 (* the loop of handleWorkers *)
  started : nat;                 (* the work items the worker took *)
}.

(** After [run] has put the first token and started the worker. *)
Definition startManager : RunManager := mkRunManager [work] [] false [] Receiving 0 true 0.

(** What the manager does with a token it received: the goroutine it starts. *)
Definition handoutFor (t : workerToken) : list Handout :=
  match t with
  | done_ => [Waiting 0]
  | norun => [Waiting NORUN_WORKER_DELAY]
  | failed => [Waiting FAILED_WORKER_DELAY]
  | _ => []
  end.

(** The outcomes a work item can have. *)
Definition itemToken (t : workerToken) : Prop := t = done_ ∨ t = norun ∨ t = failed.

Inductive mstep : RunManager → RunManager → Prop :=
(* the worker *)
| m_work mi sd hs sw h n :
    mstep (mkRunManager [work] mi sd hs Receiving sw h n)
          (mkRunManager [] mi sd hs Working sw h (S n))
| m_stop mi sd hs sw h n :
    mstep (mkRunManager [stop] mi sd hs Receiving sw h n)
          (mkRunManager [] mi sd hs (Reporting stopped) sw h n)
| m_item wi mi sd hs sw h n t :
    itemToken t →
    mstep (mkRunManager wi mi sd hs Working sw h n)
          (mkRunManager wi mi sd hs (Reporting t) sw h n)
| m_report wi sd hs t sw h n :
    mstep (mkRunManager wi [] sd hs (Reporting t) sw h n)
          (mkRunManager wi [t] sd hs (if decide (t = stopped) then Exited else Receiving) sw h n)
(* the manager *)
| m_receive wi sd hs ph sw n t :
    t ≠ stopped →
    mstep (mkRunManager wi [t] sd hs ph sw true n)
          (mkRunManager wi [] sd (handoutFor t ++ hs) ph sw true n)
| m_receiveStopped wi sd hs ph sw n :
    mstep (mkRunManager wi [stopped] sd hs ph sw true n)
          (mkRunManager wi [] sd hs ph (S sw) (negb (bool_decide (S sw = 1))) n)
(* a handout: the second select, after the timer or the shutdown woke it *)
| m_handout wi mi sd hs1 d hs2 ph sw h n :
    mstep (mkRunManager wi mi sd (hs1 ++ Waiting d :: hs2) ph sw h n)
          (mkRunManager wi mi sd (hs1 ++ Handing (if sd then stop else work) :: hs2) ph sw h n)
| m_hand mi sd hs1 t hs2 ph sw h n :
    mstep (mkRunManager [] mi sd (hs1 ++ Handing t :: hs2) ph sw h n)
          (mkRunManager [t] mi sd (hs1 ++ hs2) ph sw h n)
(* Stop, which closes the channel once *)
| m_shutdown wi mi hs ph sw h n :
    mstep (mkRunManager wi mi false hs ph sw h n) (mkRunManager wi mi true hs ph sw h n).

(** ** The specification: one token going round *)

Inductive Place :=
| InWorkerIn (t : workerToken)
| AtWorker
| AtReport (t : workerToken)
| InManagerIn (t : workerToken)
| AtTimer (delay : Z)
| AtHandout (t : workerToken)
| Ended.

Record Ring := mkRing { place : Place; down : bool; items : nat }.

Definition placed (p : Place) (sd : bool) (n : nat) : RunManager :=
  match p with
  | InWorkerIn t => mkRunManager [t] [] sd [] Receiving 0 true n
  | AtWorker => mkRunManager [] [] sd [] Working 0 true n
  | AtReport t => mkRunManager [] [] sd [] (Reporting t) 0 true n
  | InManagerIn t => mkRunManager [] [t] sd [] (if decide (t = stopped) then Exited else Receiving) 0 true n
  | AtTimer d => mkRunManager [] [] sd [Waiting d] Receiving 0 true n
  | AtHandout t => mkRunManager [] [] sd [Handing t] Receiving 0 true n
  | Ended => mkRunManager [] [] sd [] Exited 1 false n
  end.

(** The state of the goroutines that a ring stands for. *)
Definition represents (r : Ring) : RunManager := placed (place r) (down r) (items r).

Inductive ring_step : Ring → Ring → Prop :=
| r_work sd n : ring_step (mkRing (InWorkerIn work) sd n) (mkRing AtWorker sd (S n))
| r_stop n : ring_step (mkRing (InWorkerIn stop) true n) (mkRing (AtReport stopped) true n)
| r_item sd n t : itemToken t → ring_step (mkRing AtWorker sd n) (mkRing (AtReport t) sd n)
| r_report sd n t : ring_step (mkRing (AtReport t) sd n) (mkRing (InManagerIn t) sd n)
| r_receive sd n t d :
    handoutFor t = [Waiting d] → ring_step (mkRing (InManagerIn t) sd n) (mkRing (AtTimer d) sd n)
| r_stopped n : ring_step (mkRing (InManagerIn stopped) true n) (mkRing Ended true n)
| r_handout sd n d :
    ring_step (mkRing (AtTimer d) sd n) (mkRing (AtHandout (if sd then stop else work)) sd n)
| r_hand sd n t : ring_step (mkRing (AtHandout t) sd n) (mkRing (InWorkerIn t) sd n)
| r_shutdown p n : ring_step (mkRing p false n) (mkRing p true n).

(** Which token can be where. *)
Definition wellPlaced (r : Ring) : Prop :=
  match place r with
  | InWorkerIn t | AtHandout t => t = work ∨ (t = stop ∧ down r = true)
  | AtReport t | InManagerIn t => itemToken t ∨ (t = stopped ∧ down r = true)
  | AtWorker | AtTimer _ => True
  | Ended => down r = true
  end.

(** ** Properties *)

Lemma handleFetchRunError_token err : itemToken (handleFetchRunError err).
Proof. unfold handleFetchRunError, itemToken. repeat (case_match || case_decide); auto. Qed.

(** The worker polls again soon when meshStack has no run for it (404), when
    another runner was faster (409), and after the proxy's broken chunked
    response; every other failure of a fetch makes it wait a minute. Whatever
    it did, it answers the token, and after a run it has dropped the run's
    token, so that the next fetch uses the runner's credentials. *)
Theorem workItem_answers {A} `{RunApiLaws A} env lib cfg installDir Retry fmtDuration n
    (api api' : A) (tmp tmp' : gset string) (t : workerToken)
    (Hitem : workItem env lib cfg installDir Retry fmtDuration n api tmp t api' tmp') :
  itemToken t ∧ (t = done_ → api_token api' = None) ∧
  ∀ err, (api_FetchRunDetails ("worker-" +:+ pretty n) api).1 = Err err →
    handoutFor t = [Waiting (if decide (err = errStatus 404 ∨ err = errStatus 409 ∨
                                (isStatusError err = None ∧ Contains (Error err) chunkedError = true))
                             then NORUN_WORKER_DELAY else FAILED_WORKER_DELAY)].
Proof.
  destruct Hitem as [err api' Hf|h run api1 err api2 tmp' Hf He].
  - split_and!; [apply handleFetchRunError_token| |].
    + unfold handleFetchRunError. intros. repeat (case_match || case_decide); done.
    + rewrite Hf. intros ? [= <-]. unfold handleFetchRunError.
      destruct err; repeat case_decide; try destruct (Contains _ _) eqn:Hc; naive_solver.
  - rewrite Hf. split_and!; [by left|by intros; apply clear_token|done].
Qed.

Lemma placed_receiving t : t ≠ stopped → (if decide (t = stopped) then Exited else Receiving) = Receiving.
Proof. intros. by rewrite decide_False. Qed.

Lemma singleton_app {B} (l1 l2 : list B) x y : [x] = l1 ++ y :: l2 → l1 = [] ∧ x = y ∧ l2 = [].
Proof. destruct l1 as [|z l1]; intros [= -> H]; [done|]. by destruct l1. Qed.

Lemma ring_step_wellPlaced r r' : wellPlaced r → ring_step r r' → wellPlaced r'.
Proof.
  unfold wellPlaced. intros Hw Hs. destruct Hs; simpl in *; try done.
  - by right.
  - by left.
  - destruct sd; [by right|by left].
  - destruct p; try done; destruct Hw as [?|[_ ?]]; by auto.
Qed.

(** The steps of the goroutines are the steps of the ring. *)
Lemma mstep_ring r m : wellPlaced r → mstep (represents r) m → ∃ r', ring_step r r' ∧ m = represents r'.
Proof.
  destruct r as [p sd n]. unfold wellPlaced, represents, itemToken. simpl.
  intros Hw Hs. destruct p as [t| |t|t|d|t|]; simpl in *; inversion Hs; subst; clear Hs;
    repeat match goal with H : _ = (if decide _ then _ else _) |- _ => case_decide; try discriminate H end;
    repeat match goal with
      | H : _ ++ _ :: _ = [] |- _ => by apply list.app_nil in H as [_ ?]
      | H : _ ++ _ :: _ = [_] |- _ => symmetry in H; apply singleton_app in H as (-> & ? & ->); simplify_eq
      end; simplify_eq/=;
    try (eexists; split; [by constructor|done]).
  - destruct Hw as [?|[_ ->]]; [done|]. eexists; split; [by constructor|done].
  - unfold handoutFor. destruct Hw as [[->|[->| ->]]|[-> _]]; [..|done];
      (eexists; split; [by constructor|done]).
  - destruct Hw as [[?|[?|?]]|[_ ->]]; [done..|]. eexists; split; [by constructor|done].
Qed.

Lemma ring_mstep r r' : wellPlaced r → ring_step r r' → mstep (represents r) (represents r').
Proof.
  unfold wellPlaced, represents. intros Hw Hs.
  destruct Hs as [sd n|n|sd n t Ht|sd n t|sd n t d Hd|n|sd n d|sd n t|p n]; simpl in *; try by constructor.
  - by destruct t; simplify_eq/=; apply m_receive.
  - apply (m_handout [] [] sd [] d []).
  - apply (m_hand [] sd [] t []).
  - destruct p; apply m_shutdown.
Qed.

Definition startRing : Ring := mkRing (InWorkerIn work) false 0.

Lemma reachable_ring m :
  rtc mstep startManager m → ∃ r, rtc ring_step startRing r ∧ wellPlaced r ∧ m = represents r.
Proof.
  intros Hr. apply rtc_ind_r with (P := λ m, ∃ r, rtc ring_step startRing r ∧ wellPlaced r ∧ m = represents r)
    in Hr; [done|exists startRing; split_and!; [done|by left|done]|].
  clear. intros m m' _ Hs (r & Hr & Hw & ->).
  destruct (mstep_ring r m' Hw Hs) as (r' & Hs' & ->).
  exists r'. split_and!; [by eapply rtc_r|by eapply ring_step_wellPlaced|done].
Qed.

(** The manager only ends when it was told to, behind its worker. *)
Lemma ended_stopped m :
  rtc mstep startManager m → handle m = false → shutdown m = true ∧ workerPhase m = Exited.
Proof.
  intros (r & _ & Hw & ->)%reachable_ring. unfold wellPlaced in Hw.
  destruct r as [p sd n]. by destruct p.
Qed.

(** C13. The manager, its handouts and the worker implement a single token going
    round: every state they can reach is the state of a ring with its token at
    one place, and the steps are the same in both directions. So the worker
    executes one run at a time, there is never more than one handout, and
    every channel has room for what is sent on it. *)
Theorem manager_refines_ring (m : RunManager) (Hm : rtc mstep startManager m) :
  ∃ r, rtc ring_step startRing r ∧ m = represents r ∧
    length (workerIn m) + length (managerIn m) + length (handouts m) ≤ 1 ∧
    (∀ m', mstep m m' → ∃ r', ring_step r r' ∧ m' = represents r') ∧
    (∀ r', ring_step r r' → mstep m (represents r')).
Proof.
  destruct (reachable_ring m Hm) as (r & Hr & Hw & ->). exists r. split_and!; [done|done| | |].
  - destruct r as [p sd n]. unfold represents. by destruct p; simpl; lia.
  - intros m' Hs. by apply mstep_ring.
  - intros r' Hs. by apply ring_mstep.
Qed.

(** ** Shutdown *)

(** How far the token is from the end, once the manager is to stop. *)
Definition rank (r : Ring) : nat :=
  match place r with
  | Ended => 0
  | InManagerIn t => if decide (t = stopped) then 1 else 6
  | AtReport t => if decide (t = stopped) then 2 else 7
  | InWorkerIn t => if decide (t = stop) then 3 else 9
  | AtHandout t => if decide (t = stop) then 4 else 10
  | AtTimer _ => 5
  | AtWorker => 8
  end.

Lemma ring_step_rank r r' :
  ring_step r r' → down r = true → down r' = true ∧ rank r' < rank r ∧
    items r' ≤ items r + (if decide (rank r = 9) then 1 else 0).
Proof.
  intros Hs Hd. unfold rank.
  destruct Hs as [sd n|n|sd n t Ht|sd n t|sd n t d Hd'|n|sd n d|sd n t|p n]; simpl in *; subst.
  all: try (repeat case_decide; simplify_eq/=; split_and!; try done; lia).
Qed.

Lemma ring_bounded k r r' :
  nsteps ring_step k r r' → down r = true →
  down r' = true ∧ k + rank r' ≤ rank r ∧ items r' ≤ items r + (if decide (9 ≤ rank r) then 1 else 0).
Proof.
  induction 1 as [r|k r1 r2 r3 Hs _ IH]; intros Hd; [split_and!; [done|lia|lia]|].
  destruct (ring_step_rank _ _ Hs Hd) as (Hd2 & Hr & Hi). destruct (IH Hd2) as (Hd3 & Hr3 & Hi3).
  split_and!; [done|lia|]. repeat case_decide; lia.
Qed.

Lemma nsteps_ring k r m :
  wellPlaced r → nsteps mstep k (represents r) m → ∃ r', nsteps ring_step k r r' ∧ wellPlaced r' ∧ m = represents r'.
Proof.
  intros Hw Hn. remember (represents r) as m0 eqn:E. revert r Hw E.
  induction Hn as [m0|k m0 m1 m2 Hs _ IH]; intros r Hw ->; [exists r; by split_and!; [constructor|..]|].
  destruct (mstep_ring r m1 Hw Hs) as (r1 & Hs1 & ->).
  destruct (IH r1 (ring_step_wellPlaced _ _ Hw Hs1) eq_refl) as (r2 & Hn & Hw2 & ->).
  exists r2. split_and!; [by econstructor|done|done].
Qed.

Lemma ring_progress r : wellPlaced r → place r ≠ Ended → ∃ r', ring_step r r' ∧ down r' = down r.
Proof.
  destruct r as [p sd n]. unfold wellPlaced, itemToken. simpl. intros Hw Hp. destruct p as [t| |t|t|d|t|]; simpl in *.
  - destruct Hw as [->|[-> ->]]; (eexists; split; [by constructor|done]).
  - eexists. split; [apply (r_item _ _ done_); by left|done].
  - eexists. split; [by constructor|done].
  - destruct Hw as [[->|[->| ->]]|[-> ->]]; (eexists; split; [by constructor|done]).
  - eexists. split; [by constructor|done].
  - eexists. split; [by constructor|done].
  - done.
Qed.

(** After [Stop] the manager ends: whatever happens next, there are at
    most ten more steps, at most one more run is taken, and when no step is
    left the worker has exited and the loop of the manager is over. *)
Theorem stop_ends_manager (m : RunManager) (Hm : rtc mstep startManager m) (Hdown : shutdown m = true) :
  (∀ k m', nsteps mstep k m m' → k ≤ 10 ∧ started m' ≤ started m + 1) ∧
  ∀ m', rtc mstep m m' → (∀ m'', ¬ mstep m' m'') →
    handle m' = false ∧ workerPhase m' = Exited ∧ stoppedWorkers m' = 1.
Proof.
  destruct (reachable_ring m Hm) as (r & _ & Hw & ->).
  assert (down r = true) as Hd by (destruct r as [[] ??]; exact Hdown).
  split.
  - intros k m' Hn. destruct (nsteps_ring k r m' Hw Hn) as (r' & Hn' & _ & ->).
    destruct (ring_bounded _ _ _ Hn' Hd) as (_ & Hk & Hi).
    assert (∀ r, started (represents r) = items r) as Hst by by intros [[] ??].
    assert (rank r ≤ 10) by (unfold rank; repeat (case_match || case_decide); lia).
    rewrite !Hst. case_decide; lia.
  - intros m' [k Hn]%rtc_nsteps Hstuck. destruct (nsteps_ring k r m' Hw Hn) as (r' & _ & Hw' & ->).
    destruct (decide (rank r' = 0)) as [H0|H0].
    + destruct r' as [[]]; unfold rank in H0; simpl in *; try case_decide; try done.
    + destruct (ring_progress r' Hw') as (r'' & Hs & _).
      { intros Hp. apply H0. unfold rank. by rewrite Hp. }
      by destruct (Hstuck (represents r'')); apply ring_mstep.
Qed.

(** C25. Until it is told to stop, the manager keeps polling: it never ends, the
    worker never exits, and there is always a next step. *)
Theorem manager_keeps_polling (m : RunManager) (Hm : rtc mstep startManager m) (Hup : shutdown m = false) :
  handle m = true ∧ workerPhase m ≠ Exited ∧ ∃ m', mstep m m' ∧ shutdown m' = false.
Proof.
  destruct (reachable_ring m Hm) as (r & _ & Hw & ->).
  assert (down r = false) as Hd by (destruct r as [[] ??]; exact Hup).
  assert (place r ≠ Ended) as Hp by (intros Hp; unfold wellPlaced in Hw; rewrite Hp in Hw; congruence).
  split_and!.
  - by destruct r as [[] ??].
  - destruct r as [p sd n]. unfold wellPlaced, itemToken in Hw. simpl in *. subst.
    destruct p; simpl; try done. rewrite decide_False; [done|]. naive_solver.
  - destruct (ring_progress r Hw Hp) as (r' & Hs & Hd'). exists (represents r'). split; [by apply ring_mstep|].
    destruct r' as [[] ??]; simpl in *; congruence.
Qed.

(** ** Witnesses *)

(** meshStack has no run. *)
Lemma workItem_answers_witness :
  let inst := LiveApi_RunApi exampleApiCfg defaultMetadata (exampleJson "APPLY") in
  let api := mkLiveApi 0 (λ _, exampleHttp (mkResponse 404 "" None)) (NewRunApi exampleApiCfg) in
  ∃ api', workItem (H := inst) exampleEnv exampleLib exampleCfg "/install" exampleRetry (λ _, "") 1 api ∅
    norun api' ∅ ∧ itemToken norun.
Proof.
  intros inst api.
  set (api' := (api_FetchRunDetails (RunApi := inst) "worker-1" api).2).
  assert (workItem (H := inst) exampleEnv exampleLib exampleCfg "/install" exampleRetry (λ _, "") 1 api ∅
    norun api' ∅) as Hitem.
  { apply (workItem_noRun (H := inst) exampleEnv exampleLib exampleCfg "/install" exampleRetry (λ _, "") 1
      api ∅ (errStatus 404) api'). vm_compute. reflexivity. }
  exists api'. split; [exact Hitem|].
  exact (proj1 (workItem_answers (H := inst)
    (H0 := LiveApi_RunApiLaws exampleApiCfg defaultMetadata (exampleJson "APPLY"))
    exampleEnv exampleLib exampleCfg "/install" exampleRetry (λ _, "") 1 api api' ∅ ∅ norun Hitem)).
Defined.

Lemma manager_refines_ring_witness :
  ∃ r, rtc ring_step startRing r ∧ startManager = represents r.
Proof.
  destruct (manager_refines_ring startManager (rtc_refl _ _)) as (r & Hr & Hm & _).
  exists r. exact (conj Hr Hm).
Defined.

Lemma stop_ends_manager_witness :
  ∃ m, mstep startManager m ∧ shutdown m = true ∧
    ∀ k m', nsteps mstep k m m' → k ≤ 10 ∧ started m' ≤ started m + 1.
Proof.
  exists (mkRunManager [work] [] true [] Receiving 0 true 0).
  split; [apply m_shutdown|]. split; [reflexivity|].
  exact (proj1 (stop_ends_manager (mkRunManager [work] [] true [] Receiving 0 true 0)
    (rtc_once _ _ (m_shutdown _ _ _ _ _ _ _)) eq_refl)).
Defined.

Lemma manager_keeps_polling_witness : ∃ m', mstep startManager m' ∧ shutdown m' = false.
Proof. exact (proj2 (proj2 (manager_keeps_polling startManager (rtc_refl _ _) eq_refl))). Defined.
