(* ===== verification/Crypto.v ===== *)
(** * Crypto: the hybrid encryption of secrets

    Models go-meshapi-client/crypto: how keys are read and paired
    (meshcertbasedcrypto.go), the envelope of an encrypted secret (a fresh
    symmetric key under RSA-OAEP, then the data), and the framing of the
    symmetric part (meshsymmetriccrypto.go: the length of the IV, the IV, the
    AES-GCM ciphertext). The primitives, PEM and X.509 are arguments; bytes
    are strings. *)

From S2P Require Import Prelude Base64.

Definition RSK_LENGTH : Z := 16.
Definition IV_LENGTH : Z := 12.
Definition INT_LENGTH_IN_BYTES : Z := 4.

(** [rsa.PublicKey] and [rsa.PrivateKey]; a private key embeds its public
    key, its secret part is opaque. *)
Record PublicKey := mkPublicKey { pub_N : Z; pub_E : Z }.
Record RsaPrivateKey := mkRsaPrivateKey { priv_PublicKey : PublicKey; priv_secret : string }.

(** [PublicKey.Size]: the bytes of the modulus. *)
Definition key_Size (k : PublicKey) : Z := (Z.log2 (pub_N k) + 8) / 8.

Record CryptoLib := mkCryptoLib {
  (* pem.Decode: the type and the bytes of the first block, and the rest *)
  pem_Decode : string → option (string * string * string);
  (* x509: a parsed certificate's or key's RSA key, None for another kind *)
  x509_ParseCertificate : string → result (option PublicKey);
  x509_ParsePKCS1PrivateKey : string → result RsaPrivateKey;
  x509_ParsePKCS8PrivateKey : string → result (option RsaPrivateKey);
  rsa_Validate : RsaPrivateKey → option error;
  (* OAEP with SHA-1; the first argument is the random seed *)
  rsa_EncryptOAEP : string → PublicKey → string → result string;
  rsa_DecryptOAEP : RsaPrivateKey → string → result string;
  (* aes.NewCipher's complaint about a key, and the GCM on it *)
  aes_NewCipher : string → option error;
  gcm_Seal : string → string → string → string;
  gcm_Open : string → string → string → result string;
}.

(** The outer option of a result is [None] for a panic. *)
Abbreviation may_panic A := (option (result A)).

(** ** meshsymmetriccrypto.go *)

(** [binary.BigEndian] on 32 bits. *)
Definition PutUint32 (v : N) : string :=
  String (ascii_of_N (v / 16777216 mod 256)) (String (ascii_of_N (v / 65536 mod 256))
    (String (ascii_of_N (v / 256 mod 256)) (String (ascii_of_N (v mod 256)) ""))).

Fixpoint bigEndian (acc : N) (s : string) : N :=
  match s with
  | "" => acc
  | String c s => bigEndian (acc * 256 + N_of_ascii c) s
  end.
Definition Uint32 (s : string) : N := bigEndian 0 s.

Section Crypto.
Context (lib : CryptoLib).

(** The [cipher.AEAD] of a [MeshSymmetricCrypto], by its key. *)
Record MeshSymmetricCrypto := mkSymmetric { aesgcm : string }.

Definition NewSymmetricCrypto (secret : string) : result MeshSymmetricCrypto :=
  match aes_NewCipher lib secret with
  | Some err => Err err
  | None => Ok (mkSymmetric secret)
  end.

(** [random]: what [rand.Reader.Read(iv)] yields. The error that is returned
    for a short read may be nil. *)
Definition EncryptSymmetric (c : MeshSymmetricCrypto) (random : string * option error)
    (plainText : string) : result string :=
  let '(iv, err) := random in
  if decide (slen iv ≠ IV_LENGTH ∨ err ≠ None)
  then match err with Some e => Err e | None => Ok "" end
  else Ok (PutUint32 (Z.to_N IV_LENGTH) +:+ iv +:+ gcm_Seal lib (aesgcm c) iv plainText).

(** [Open] panics on a nonce of the wrong size. *)
Definition AEAD_Open (c : MeshSymmetricCrypto) (nonce ciphertext : string) : may_panic string :=
  if decide (slen nonce = IV_LENGTH) then Some (gcm_Open lib (aesgcm c) nonce ciphertext) else None.

Definition DecryptSymmetric (c : MeshSymmetricCrypto) (cipherText : string) : may_panic string :=
  lenBytes ← sslice cipherText 0 INT_LENGTH_IN_BYTES;
  let ivLen := Z.of_N (Uint32 lenBytes) in
  ivBytes ← sslice cipherText INT_LENGTH_IN_BYTES (INT_LENGTH_IN_BYTES + ivLen);
  rest ← sslice cipherText (INT_LENGTH_IN_BYTES + ivLen) (slen cipherText);
  AEAD_Open c ivBytes rest.

(** ** meshcertbasedcrypto.go *)

Record MeshCertBasedCrypto := mkCertBased {
  publicKey : option PublicKey;
  privateKey : option RsaPrivateKey;
}.

Definition EncryptMeshCertBased (c : MeshCertBasedCrypto) (random randomIv : string * option error)
    (seed plaintext : string) : may_panic string :=
  let '(rsk, err) := random in
  if decide (slen rsk ≠ RSK_LENGTH ∨ err ≠ None)
  then Some match err with Some e => Err e | None => Ok "" end
  else
    match NewSymmetricCrypto rsk with
    | Err err => Some (Err err)
    | Ok symmetricCrypto =>
        match EncryptSymmetric symmetricCrypto randomIv plaintext with
        | Err err => Some (Err err)
        | Ok data =>
            pub ← publicKey c;
            Some (encryptedRSK ← rsa_EncryptOAEP lib seed pub rsk;
                  Ok (EncodeToString (encryptedRSK +:+ data)))
        end
    end.

Definition DecryptMeshCertBased (c : MeshCertBasedCrypto) (encrypted : string) : may_panic string :=
  match privateKey c with
  | None => Some (Err (errNew "cannot decrypt sensitive input as private key is missing"))
  | Some key =>
      match DecodeString encrypted with
      | Err err => Some (Err err)
      | Ok cipherBytes =>
          let encryptedRSKLen := key_Size (priv_PublicKey key) in
          if decide (slen cipherBytes < encryptedRSKLen)%Z
          then Some (Err (errNew "encrypted value empty or too short"))
          else
            encryptedRSK ← sslice cipherBytes 0 encryptedRSKLen;
            symEncrResult ← sslice cipherBytes encryptedRSKLen (slen cipherBytes);
            match rsa_DecryptOAEP lib key encryptedRSK with
            | Err err => Some (Err err)
            | Ok RSK =>
                match NewSymmetricCrypto RSK with
                | Err err => Some (Err err)
                | Ok symmetricCrypto => DecryptSymmetric symmetricCrypto symEncrResult
                end
            end
      end
  end.

(** ** Keys *)

(** The CERTIFICATE blocks of a PEM text; each block takes at least a byte,
    which is what the fuel counts. *)
Fixpoint certificateBlocks (fuel : nat) (keyStr : string) : list string :=
  match fuel with
  | 0 => []
  | S fuel =>
      match pem_Decode lib keyStr with
      | None => []
      | Some (type, bytes, rest) =>
          if decide (type = "CERTIFICATE") then bytes :: certificateBlocks fuel rest
          else certificateBlocks fuel rest
      end
  end.

(** The first certificate that parses; its key must be an RSA key. *)
Fixpoint firstCertificate (blocks : list string) : may_panic PublicKey :=
  match blocks with
  | [] => Some (Err (errNew "no public key block found"))
  | block :: blocks =>
      match x509_ParseCertificate lib block with
      | Err _ => firstCertificate blocks
      | Ok None => None
      | Ok (Some key) => Some (Ok key)
      end
  end.

Definition readRSAPublicKeyFromString (keyStr : string) : may_panic PublicKey :=
  firstCertificate (certificateBlocks (S (String.length keyStr)) keyStr).

Definition readRSAPrivateKey (pemContent : string) : result RsaPrivateKey :=
  match pem_Decode lib pemContent with
  | None => Err (errNew "no valid PEM block found")
  | Some (_, bytes, _) =>
      match x509_ParsePKCS1PrivateKey lib bytes with
      | Ok pk => Ok pk
      | Err _ =>
          match x509_ParsePKCS8PrivateKey lib bytes with
          | Err err => Err err
          | Ok None => Err (errNew "private key is not an RSA key")
          | Ok (Some rsaKey) => Ok rsaKey
          end
      end
  end.

Definition validateKeyPair (public : PublicKey) (private : RsaPrivateKey) : option error :=
  match rsa_Validate lib private with
  | Some err => Some (errNew ("invalid private key: " +:+ Error err))
  | None =>
      if decide (pub_E public ≠ pub_E (priv_PublicKey private))
      then Some (errNew "public key and private key do not match: public exponent mismatch")
      else if decide (pub_N public ≠ pub_N (priv_PublicKey private))
      then Some (errNew "public key and private key do not match: modulus mismatch")
      else None
  end.

(** On an error the instance that comes with it has no private key. *)
Definition NewCertBasedDecryptor (privateKeyContent : string) : MeshCertBasedCrypto * option error :=
  match readRSAPrivateKey privateKeyContent with
  | Ok key => (mkCertBased None (Some key), None)
  | Err err => (mkCertBased None None, Some err)
  end.

Definition NewCertBasedDecryptorWithValidation (privateKeyContent publicKeyContent : string)
    : may_panic MeshCertBasedCrypto :=
  match readRSAPrivateKey privateKeyContent with
  | Err err => Some (Err err)
  | Ok privKey =>
      pub ← readRSAPublicKeyFromString publicKeyContent;
      match pub with
      | Err err => Some (Err err)
      | Ok pubKey =>
          match validateKeyPair pubKey privKey with
          | Some err => Some (Err err)
          | None => Some (Ok (mkCertBased (Some pubKey) (Some privKey)))
          end
      end
  end.

(** [privateKeyFile] is what reading the file of that name yields. The first
    error is the public key's or the pair's, the second the private key's. *)
Definition NewCertBasedCrypto (privateKeyFile : result string) (public : string)
    : option (MeshCertBasedCrypto * option error * option error) :=
  let privKey := match privateKeyFile with Err err => Err err | Ok pem => readRSAPrivateKey pem end in
  pubKey ← readRSAPublicKeyFromString public;
  Some match pubKey, privKey with
  | Ok pub, Ok priv => (mkCertBased (Some pub) (Some priv), validateKeyPair pub priv, None)
  | Ok pub, Err e => (mkCertBased (Some pub) None, None, Some e)
  | Err e, Ok priv => (mkCertBased None (Some priv), Some e, None)
  | Err e, Err e' => (mkCertBased None None, Some e, Some e')
  end.

(** ** Properties *)

Lemma sslice_prefix s1 s2 : sslice (s1 +:+ s2) 0 (slen s1) = Some s1.
Proof.
  rewrite sslice_app_l by lia. pose proof (slen_nonneg s1). unfold sslice.
  rewrite decide_True by lia. f_equal. rewrite Z.sub_0_r. unfold slen. rewrite Nat2Z.id. change (Z.to_nat 0) with 0.
  clear. induction s1 as [|c s IH]; [done|]. simpl in *. by rewrite IH.
Qed.

Lemma sslice_suffix s1 s2 : sslice (s1 +:+ s2) (slen s1) (slen (s1 +:+ s2)) = Some s2.
Proof.
  pose proof (slen_nonneg s2). pose proof (slen_nonneg s1). rewrite slen_app. unfold sslice. rewrite slen_app.
  rewrite decide_True by lia. f_equal. replace (slen s1 + slen s2 - slen s1)%Z with (slen s2) by lia.
  unfold slen. rewrite !Nat2Z.id. clear.
  induction s1 as [|c s1 IH]; [|exact IH].
  change ("" +:+ s2) with s2. simpl. induction s2 as [|c s2 IH]; [done|]. simpl. by rewrite IH.
Qed.

Lemma sslice_middle s1 s2 s3 : sslice (s1 +:+ s2 +:+ s3) (slen s1) (slen s1 + slen s2) = Some s2.
Proof.
  rewrite string_app_assoc, sslice_app_l by (rewrite slen_app; lia).
  rewrite <-(slen_app s1 s2). apply sslice_suffix.
Qed.

Lemma DecryptSymmetric_framed c iv data :
  slen iv = IV_LENGTH →
  DecryptSymmetric c (PutUint32 (Z.to_N IV_LENGTH) +:+ iv +:+ data) = Some (gcm_Open lib (aesgcm c) iv data).
Proof.
  intros Hiv. unfold DecryptSymmetric. set (P := PutUint32 (Z.to_N IV_LENGTH)).
  assert (INT_LENGTH_IN_BYTES = slen P) as -> by reflexivity.
  rewrite sslice_prefix. cbn [mbind option_bind]. cbv zeta.
  assert (Z.of_N (Uint32 P) = slen iv) as -> by (rewrite Hiv; reflexivity).
  rewrite sslice_middle. cbn [mbind option_bind].
  rewrite <-(slen_app P iv), string_app_assoc, sslice_suffix. cbn [mbind option_bind].
  unfold AEAD_Open. by rewrite decide_True.
Qed.

Lemma length_substring n m s :
  n + m ≤ String.length s → String.length (String.substring n m s) = m.
Proof.
  revert n m. induction s as [|c s IH]; intros [|n] [|m] Hl; simpl in *; try lia; try done.
  - f_equal. apply (IH 0). lia.
  - apply IH. lia.
  - apply (IH n (S m)). lia.
Qed.

(** C30. Decrypting the symmetric part panics, instead of returning an error, on
    every text that is shorter than its framing or declares an IV of another
    length than 12. *)
Theorem DecryptSymmetric_panics_iff (c : MeshSymmetricCrypto) (cipherText : string) :
  DecryptSymmetric c cipherText = None ↔
  (slen cipherText < INT_LENGTH_IN_BYTES + IV_LENGTH)%Z ∨
  ∃ lenBytes, sslice cipherText 0 INT_LENGTH_IN_BYTES = Some lenBytes ∧
    Z.of_N (Uint32 lenBytes) ≠ IV_LENGTH.
Proof.
  unfold DecryptSymmetric, AEAD_Open, INT_LENGTH_IN_BYTES, IV_LENGTH.
  pose proof (slen_nonneg cipherText).
  destruct (sslice cipherText 0 4) as [lenBytes|] eqn:Hl; cbn [mbind option_bind].
  2: { unfold sslice in Hl. case_decide; [done|]. split; [left; lia|done]. }
  set (n := Z.of_N (Uint32 lenBytes)). assert (0 ≤ n)%Z by (unfold n; lia).
  destruct (sslice cipherText 4 (4 + n)) as [iv|] eqn:Hiv; cbn [mbind option_bind].
  2: { unfold sslice in Hiv. case_decide; [done|]. split; [|done]. intros _.
       destruct (decide (n = 12%Z)) as [E|E]; [left; rewrite E in *; lia|right; by exists lenBytes]. }
  assert (4 + n ≤ slen cipherText)%Z as Hle by (unfold sslice in Hiv; case_decide; [lia|done]).
  assert (slen iv = n) as Hivn.
  { unfold sslice in Hiv. case_decide; [|done]. injection Hiv as <-. unfold slen in *.
    rewrite length_substring by lia. lia. }
  destruct (sslice cipherText (4 + n) (slen cipherText)) as [rest|] eqn:Hr; cbn [mbind option_bind].
  2: { unfold sslice in Hr. case_decide; [done|lia]. }
  rewrite Hivn. case_decide as Hn; split; try done.
  - intros [?|(lb & [= <-] & Hne)]; [lia|]. by destruct Hne.
  - intros _. right. by exists lenBytes.
Qed.

(** Documented behaviour of the primitives: OAEP with the matching private key
    undoes OAEP, and a ciphertext is as long as the modulus; GCM opens what it
    sealed; AES takes a key of 16 bytes. *)
Record CryptoLaws : Prop := {
  law_oaep seed key msg ct :
    rsa_Validate lib key = None → rsa_EncryptOAEP lib seed (priv_PublicKey key) msg = Ok ct →
    slen ct = key_Size (priv_PublicKey key) ∧ rsa_DecryptOAEP lib key ct = Ok msg;
  law_gcm key iv msg :
    slen iv = IV_LENGTH → gcm_Open lib key iv (gcm_Seal lib key iv msg) = Ok msg;
}.

Lemma validateKeyPair_None pub key :
  validateKeyPair pub key = None → rsa_Validate lib key = None ∧ priv_PublicKey key = pub.
Proof.
  unfold validateKeyPair. destruct (rsa_Validate lib key); [done|]. repeat case_decide; try done.
  intros _. split; [done|]. destruct pub, (priv_PublicKey key); simpl in *. f_equal; naive_solver.
Qed.

(** C29. A key pair that the run-controller accepts belongs together: whatever
    is encrypted for the configured certificate (with any symmetric key, IV
    and seed) is decrypted with the configured private key, to the same
    plaintext and without a panic. *)
Theorem validated_roundtrip (Hlaws : CryptoLaws) (privateKeyContent publicKeyContent : string)
    (c : MeshCertBasedCrypto) (rsk iv seed plaintext encrypted : string)
    (Hnew : NewCertBasedDecryptorWithValidation privateKeyContent publicKeyContent = Some (Ok c))
    (Hrsk : slen rsk = RSK_LENGTH) (Hiv : slen iv = IV_LENGTH)
    (Henc : EncryptMeshCertBased c (rsk, None) (iv, None) seed plaintext = Some (Ok encrypted)) :
  DecryptMeshCertBased c encrypted = Some (Ok plaintext).
Proof.
  unfold NewCertBasedDecryptorWithValidation in Hnew.
  destruct (readRSAPrivateKey _) as [key|]; [|done].
  destruct (readRSAPublicKeyFromString _) as [[pub|]|]; [|done..]. simpl in Hnew.
  destruct (validateKeyPair pub key) eqn:Hv; [done|]. injection Hnew as <-.
  apply validateKeyPair_None in Hv as [Hval <-].
  unfold EncryptMeshCertBased in Henc. rewrite decide_False in Henc by naive_solver.
  destruct (NewSymmetricCrypto rsk) as [sym|] eqn:Hsym; [|done].
  unfold EncryptSymmetric in Henc. rewrite decide_False in Henc by naive_solver. simpl in Henc.
  destruct (rsa_EncryptOAEP lib seed _ rsk) as [ct|] eqn:Hoaep; [|done]. injection Henc as <-.
  apply (law_oaep Hlaws) in Hoaep as [Hlen Hdec]; [|done].
  unfold DecryptMeshCertBased. simpl. rewrite decode_encode, <-Hlen.
  assert (∀ s, ¬ (slen (ct +:+ s) < slen ct)%Z) as Hshort
    by (intros s; rewrite slen_app; pose proof (slen_nonneg s); lia).
  rewrite decide_False by apply Hshort.
  rewrite sslice_prefix, sslice_suffix. simpl. rewrite Hdec, Hsym.
  rewrite DecryptSymmetric_framed by done. by rewrite (law_gcm Hlaws).
Qed.
End Crypto.

(** ** A concrete library *)

Definition exampleKey : RsaPrivateKey := mkRsaPrivateKey (mkPublicKey (2 ^ 127) 65537) "secret".

(** Its primitives only frame: a message of the size of the key is its own
    ciphertext. *)
Definition exampleCrypto : CryptoLib := {|
  pem_Decode s := if decide (s = "") then None else Some ("CERTIFICATE", s, "");
  x509_ParseCertificate _ := Ok (Some (priv_PublicKey exampleKey));
  x509_ParsePKCS1PrivateKey _ := Ok exampleKey;
  x509_ParsePKCS8PrivateKey _ := Err (errNew "not PKCS8");
  rsa_Validate _ := None;
  rsa_EncryptOAEP _ pub msg :=
    if decide (slen msg = key_Size pub) then Ok msg else Err (errNew "message too long");
  rsa_DecryptOAEP _ ct := Ok ct;
  aes_NewCipher key := if decide (slen key = 16%Z) then None else Some (errNew "invalid key size");
  gcm_Seal _ _ p := p;
  gcm_Open _ _ c := Ok c |}.

Lemma exampleCrypto_laws : CryptoLaws exampleCrypto.
Proof.
  split; simpl; [|done]. intros seed key msg ct _. case_decide; [|done]. by intros [= <-].
Qed.

Lemma validated_roundtrip_witness :
  ∃ c e, NewCertBasedDecryptorWithValidation exampleCrypto "key" "cert" = Some (Ok c) ∧
    EncryptMeshCertBased exampleCrypto c ("0123456789abcdef", None) ("0123456789ab", None) "seed" "secret!"
      = Some (Ok e) ∧
    DecryptMeshCertBased exampleCrypto c e = Some (Ok "secret!").
Proof.
  eexists _, _. split; [vm_compute; reflexivity|]. split; [vm_compute; reflexivity|].
  eapply (validated_roundtrip exampleCrypto exampleCrypto_laws "key" "cert" _
    "0123456789abcdef" "0123456789ab" "seed"); vm_compute; reflexivity.
Defined.
