(* ===== verification/Decryption.v ===== *)
(** * Decryption: the run-controller reveals a run's secrets

    Models run-controller/controller/decryption.go: the run's JSON is decoded
    and parsed, every sensitive text input and the secret of the run's
    implementation are decrypted with the controller's key, and the result is
    encoded again for the runner. JSON is a record of functions, the
    primitives are Crypto.v's. *)

From S2P Require Import Prelude Base64 MeshDtos Crypto.

(** [encoding/json] on the values decryption.go moves. *)
Record DecryptionJson := mkDecryptionJson {
  dj_ParseRunDetails : string → result RunDetailsDTO;
  dj_MarshalRun : RunDetailsDTO → result string;
  dj_Type : string → result string;
  dj_Terraform : string → result TerraformImplementation;
  dj_MarshalTerraform : TerraformImplementation → result string;
  dj_Github : string → result GithubImplementation;
  dj_MarshalGithub : GithubImplementation → result string;
  dj_Gitlab : string → result GitlabImplementation;
  dj_MarshalGitlab : GitlabImplementation → result string;
  dj_Azure : string → result AzureDevOpsImplementation;
  dj_MarshalAzure : AzureDevOpsImplementation → result string;
}.

(** ** Assignments into the run *)

Definition set_input_Value (v : any) (i : BuildingBlockInputSpecDTO) : BuildingBlockInputSpecDTO :=
  mkInput (input_Key i) v (input_Type i) (input_IsSensitive i) (input_Env i).

Definition set_def_Implementation (v : string) (d : DefinitionSpecDTO) : DefinitionSpecDTO :=
  mkDefinition (def_Uuid d)
    (mkDefinitionDetails (def_WorkspaceIdentifier (def_Spec d)) (def_Version (def_Spec d)) v).

Definition set_bb_Inputs (v : list BuildingBlockInputSpecDTO) (b : BuildingBlockSpecDTO)
    : BuildingBlockSpecDTO :=
  let s := bb_Spec b in
  mkBB (bb_Uuid b) (mkBBDetails (bb_DisplayName s) (bb_WorkspaceIdentifier s)
    (bb_ProjectIdentifier s) (bb_FullPlatformIdentifier s) v (bb_ParentBuildingBlocks s)).

(** A run with these inputs and this implementation, all else as it was. *)
Definition set_run_secrets (inputs : list BuildingBlockInputSpecDTO) (impl : string)
    (dto : RunDetailsDTO) : RunDetailsDTO :=
  let s := run_Spec dto in
  mkRunDetails (run_ApiVersion dto) (run_Kind dto) (run_Uuid dto)
    (mkRunSpec (spec_RunNumber s) (spec_Behavior s)
      (set_bb_Inputs inputs (spec_BuildingBlock s))
      (set_def_Implementation impl (spec_Definition s)) (spec_RunToken s) (spec_Trigger s))
    (run_Status dto) (run_Links dto).

Definition run_Inputs (dto : RunDetailsDTO) : list BuildingBlockInputSpecDTO :=
  bb_Inputs (bb_Spec (spec_BuildingBlock (run_Spec dto))).
Definition run_Implementation (dto : RunDetailsDTO) : string :=
  def_Implementation (def_Spec (spec_Definition (run_Spec dto))).

Definition set_tfi_SshPrivateKey (v : option string) (i : TerraformImplementation)
    : TerraformImplementation :=
  mkTerraformImpl (tfi_Type i) (tfi_TerraformVersion i) (tfi_RepositoryUrl i) (tfi_RepositoryPath i)
    (tfi_RefName i) v (tfi_KnownHost i) (tfi_Async i) (tfi_UseMeshHttpBackendFallback i)
    (tfi_PreRunScript i).
Definition set_ghi_AppPem (v : string) (i : GithubImplementation) : GithubImplementation :=
  mkGithubImpl (ghi_Type i) (ghi_GithubBaseUrl i) (ghi_Owner i) (ghi_AppId i) v (ghi_Repository i)
    (ghi_Branch i) (ghi_ApplyWorkflow i) (ghi_DestroyWorkflow i) (ghi_Async i)
    (ghi_OmitRunObjectInput i).
Definition set_gli_PipelineTriggerToken (v : string) (i : GitlabImplementation)
    : GitlabImplementation :=
  mkGitlabImpl (gli_Type i) (gli_GitlabBaseUrl i) (gli_ProjectId i) (gli_RefName i) v.
Definition set_azi_PersonalAccessToken (v : string) (i : AzureDevOpsImplementation)
    : AzureDevOpsImplementation :=
  mkAzureImpl (azi_Type i) (azi_AzureDevOpsBaseUrl i) (azi_Organization i) (azi_Project i)
    (azi_PipelineId i) v (azi_Async i) (azi_RefName i).

(** ** decryption.go *)

(** [x, err := r; if err != nil { return err }], of a call that may panic. *)
Definition andThen {A B} (r : may_panic A) (f : A → may_panic B) : may_panic B :=
  match r with Some (Ok a) => f a | Some (Err e) => Some (Err e) | None => None end.
Notation "x ⇐ r ; k" := (andThen r (λ x, k))
  (at level 20, r at level 100, k at level 200, right associativity) : go_scope.
#[local] Open Scope go_scope.

Section Decryption.
Context (lib : CryptoLib) (json : DecryptionJson) (cryptoInstance : MeshCertBasedCrypto).

(** [cryptoInstance.DecryptMeshCertBased] with the error wrapped. *)
Definition decryptOr (what value : string) : may_panic string :=
  option_map (λ r, wrapErr ("failed to decrypt " +:+ what +:+ ": ") r "")
    (DecryptMeshCertBased lib cryptoInstance value).

(** The text of an input that is decrypted: the loop's three conditions. *)
Definition encryptedText (input : BuildingBlockInputSpecDTO) : option string :=
  match input_IsSensitive input, input_Value input with
  | true, anyStr strValue => if decide (strValue = "") then None else Some strValue
  | _, _ => None
  end.

Definition decryptInput (input : BuildingBlockInputSpecDTO) : may_panic BuildingBlockInputSpecDTO :=
  match encryptedText input with
  | None => Some (Ok input)
  | Some strValue =>
      decryptedValue ⇐ decryptOr ("sensitive input '" +:+ input_Key input +:+ "'") strValue;
      Some (Ok (set_input_Value (anyStr decryptedValue) input))
  end.

Fixpoint decryptInputs (inputs : list BuildingBlockInputSpecDTO)
    : may_panic (list BuildingBlockInputSpecDTO) :=
  match inputs with
  | [] => Some (Ok [])
  | input :: inputs =>
      input ⇐ decryptInput input;
      inputs ⇐ decryptInputs inputs;
      Some (Ok (input :: inputs))
  end.

(** A secret that may be absent, which is the empty text. *)
Definition decryptSecret (what secret : string) : may_panic string :=
  if decide (secret = "") then Some (Ok "") else decryptOr what secret.

(** One case of the switch. *)
Definition decryptImpl {I} (name : string) (unmarshal : string → result I)
    (decrypt : I → may_panic I) (marshal : I → result string) (implRaw : string) : may_panic string :=
  impl ⇐ Some (wrapErr ("failed to parse " +:+ name +:+ " implementation: ") (unmarshal implRaw) "");
  impl ⇐ decrypt impl;
  Some (wrapErr ("failed to marshal " +:+ name +:+ " implementation: ") (marshal impl) "").

Definition decryptTerraform (impl : TerraformImplementation) : may_panic TerraformImplementation :=
  match tfi_SshPrivateKey impl with
  | Some key =>
      if decide (key = "") then Some (Ok impl)
      else
        decryptedKey ⇐ decryptOr "SSH private key" key;
        Some (Ok (set_tfi_SshPrivateKey (Some decryptedKey) impl))
  | None => Some (Ok impl)
  end.
Definition decryptGithub (impl : GithubImplementation) : may_panic GithubImplementation :=
  pem ⇐ decryptSecret "GitHub appPem" (ghi_AppPem impl); Some (Ok (set_ghi_AppPem pem impl)).
Definition decryptGitlab (impl : GitlabImplementation) : may_panic GitlabImplementation :=
  token ⇐ decryptSecret "GitLab pipeline trigger token" (gli_PipelineTriggerToken impl);
  Some (Ok (set_gli_PipelineTriggerToken token impl)).
Definition decryptAzure (impl : AzureDevOpsImplementation) : may_panic AzureDevOpsImplementation :=
  pat ⇐ decryptSecret "Azure DevOps personal access token" (azi_PersonalAccessToken impl);
  Some (Ok (set_azi_PersonalAccessToken pat impl)).

Definition decryptImplementation (implType : ImplementationType) (implRaw : string) : may_panic string :=
  if decide (implType = ImplTypeTerraform) then
    decryptImpl "Terraform" (dj_Terraform json) decryptTerraform (dj_MarshalTerraform json) implRaw
  else if decide (implType = ImplTypeGitHubWorkflow) then
    decryptImpl "GitHub" (dj_Github json) decryptGithub (dj_MarshalGithub json) implRaw
  else if decide (implType = ImplTypeGitLabCICD) then
    decryptImpl "GitLab" (dj_Gitlab json) decryptGitlab (dj_MarshalGitlab json) implRaw
  else if decide (implType = ImplTypeAzureDevOps) then
    decryptImpl "Azure DevOps" (dj_Azure json) decryptAzure (dj_MarshalAzure json) implRaw
  else if decide (implType = ImplTypeManual) then Some (Ok implRaw)
  else Some (Err (errNew ("unsupported implementation type: " +:+ implType))).

Definition decryptRunDetails (runJsonBase64 : string) : may_panic string :=
  runJsonBytes ⇐ Some (wrapErr "failed to decode base64 run JSON: " (DecodeString runJsonBase64) "");
  runDetails ⇐ Some (wrapErr "failed to parse run JSON: " (dj_ParseRunDetails json runJsonBytes) "");
  inputs ⇐ decryptInputs (run_Inputs runDetails);
  implType ⇐ Some (wrapErr "failed to get implementation type: "
    (GetImplementationType (dj_Type json) (def_Spec (spec_Definition (run_Spec runDetails)))) "");
  implementation ⇐ decryptImplementation implType (run_Implementation runDetails);
  decryptedJsonBytes ⇐ Some (wrapErr "failed to marshal decrypted run JSON: "
    (dj_MarshalRun json (set_run_secrets inputs implementation runDetails)) "");
  Some (Ok (EncodeToString decryptedJsonBytes)).

(** ** What a revealed run is *)

Definition Reveals (secret plain : string) : Prop :=
  DecryptMeshCertBased lib cryptoInstance secret = Some (Ok plain).

(** Every sensitive text is replaced by its plaintext; other inputs stay. *)
Definition InputRevealed (input input' : BuildingBlockInputSpecDTO) : Prop :=
  match encryptedText input with
  | None => input' = input
  | Some secret => ∃ plain, Reveals secret plain ∧ input' = set_input_Value (anyStr plain) input
  end.

Definition SecretRevealed (secret secret' : string) : Prop :=
  (secret = "" ∧ secret' = "") ∨ (secret ≠ "" ∧ Reveals secret secret').

(** The implementation is written anew with its one secret revealed. *)
Inductive ImplRevealed : ImplementationType → string → string → Prop :=
  | Terraform_without_key raw impl raw' :
      dj_Terraform json raw = Ok impl → default "" (tfi_SshPrivateKey impl) = "" →
      dj_MarshalTerraform json impl = Ok raw' → ImplRevealed ImplTypeTerraform raw raw'
  | Terraform_with_key raw impl key key' raw' :
      dj_Terraform json raw = Ok impl → tfi_SshPrivateKey impl = Some key → key ≠ "" → Reveals key key' →
      dj_MarshalTerraform json (set_tfi_SshPrivateKey (Some key') impl) = Ok raw' →
      ImplRevealed ImplTypeTerraform raw raw'
  | Github_pem raw impl pem' raw' :
      dj_Github json raw = Ok impl → SecretRevealed (ghi_AppPem impl) pem' →
      dj_MarshalGithub json (set_ghi_AppPem pem' impl) = Ok raw' →
      ImplRevealed ImplTypeGitHubWorkflow raw raw'
  | Gitlab_token raw impl token' raw' :
      dj_Gitlab json raw = Ok impl → SecretRevealed (gli_PipelineTriggerToken impl) token' →
      dj_MarshalGitlab json (set_gli_PipelineTriggerToken token' impl) = Ok raw' →
      ImplRevealed ImplTypeGitLabCICD raw raw'
  | Azure_token raw impl pat' raw' :
      dj_Azure json raw = Ok impl → SecretRevealed (azi_PersonalAccessToken impl) pat' →
      dj_MarshalAzure json (set_azi_PersonalAccessToken pat' impl) = Ok raw' →
      ImplRevealed ImplTypeAzureDevOps raw raw'
  | Manual_nothing raw : ImplRevealed ImplTypeManual raw raw.

(** ** Properties *)

Lemma bind_Ok {X Y} (f : X → may_panic Y) (r : may_panic X) y :
  andThen r f = Some (Ok y) ↔ ∃ x, r = Some (Ok x) ∧ f x = Some (Ok y).
Proof.
  destruct r as [[x|e]|]; simpl; [|by split; [|intros (? & ? & ?)]..].
  split; [by exists x|]. by intros (? & [= <-] & ?).
Qed.

Lemma wrapErr_Ok {X} pre (r : result X) post x : wrapErr pre r post = Ok x ↔ r = Ok x.
Proof. by destruct r. Qed.

Lemma lift_Ok {X} pre (r : result X) post x : Some (wrapErr pre r post) = Some (Ok x) ↔ r = Ok x.
Proof. destruct r; simpl; split; congruence. Qed.

Lemma decryptOr_Ok what secret plain : decryptOr what secret = Some (Ok plain) ↔ Reveals secret plain.
Proof.
  unfold decryptOr, Reveals. destruct (DecryptMeshCertBased _ _ _) as [[p|e]|]; simpl; naive_solver.
Qed.

Lemma decryptSecret_Ok what secret plain :
  decryptSecret what secret = Some (Ok plain) ↔ SecretRevealed secret plain.
Proof. unfold decryptSecret, SecretRevealed. case_decide; rewrite ?decryptOr_Ok; naive_solver. Qed.

Lemma decryptInput_Ok input input' : decryptInput input = Some (Ok input') ↔ InputRevealed input input'.
Proof.
  unfold decryptInput, InputRevealed. destruct (encryptedText input); [|naive_solver].
  rewrite bind_Ok. setoid_rewrite decryptOr_Ok. naive_solver.
Qed.

Lemma decryptInputs_Ok inputs inputs' :
  decryptInputs inputs = Some (Ok inputs') ↔ Forall2 InputRevealed inputs inputs'.
Proof.
  revert inputs'. induction inputs as [|i rest IH]; intros inputs'; simpl.
  - split; [by intros [= <-]|]. intros ->%Forall2_nil_inv_l. done.
  - rewrite bind_Ok. setoid_rewrite bind_Ok. setoid_rewrite decryptInput_Ok. setoid_rewrite IH. split.
    + intros (i' & Hi & rest' & Hrest & [= <-]). by constructor.
    + intros (i' & rest' & Hi & Hrest & ->)%Forall2_cons_inv_l. eauto.
Qed.

Lemma decryptImpl_Ok {I} name (unmarshal : string → result I) decrypt marshal raw raw' :
  decryptImpl name unmarshal decrypt marshal raw = Some (Ok raw') ↔
  ∃ i i', unmarshal raw = Ok i ∧ decrypt i = Some (Ok i') ∧ marshal i' = Ok raw'.
Proof.
  unfold decryptImpl. rewrite bind_Ok. setoid_rewrite lift_Ok. setoid_rewrite bind_Ok. setoid_rewrite lift_Ok.
  naive_solver.
Qed.

Lemma decryptTerraform_Ok impl impl' :
  decryptTerraform impl = Some (Ok impl') ↔
  (default "" (tfi_SshPrivateKey impl) = "" ∧ impl' = impl) ∨
  ∃ key key', tfi_SshPrivateKey impl = Some key ∧ key ≠ "" ∧ Reveals key key' ∧
    impl' = set_tfi_SshPrivateKey (Some key') impl.
Proof.
  unfold decryptTerraform. destruct (tfi_SshPrivateKey impl) as [key|]; simpl; [|naive_solver].
  case_decide; [naive_solver|]. rewrite bind_Ok. setoid_rewrite decryptOr_Ok. naive_solver.
Qed.

Lemma decryptImplementation_Ok type raw raw' :
  decryptImplementation type raw = Some (Ok raw') ↔ ImplRevealed type raw raw'.
Proof.
  unfold decryptImplementation. split.
  - repeat case_decide; subst; rewrite ?decryptImpl_Ok.
    + intros (i & i' & Hi & [[? ->]|(k & k' & ? & ? & ? & ->)]%decryptTerraform_Ok & Hm);
        [by eapply Terraform_without_key|by eapply Terraform_with_key].
    + intros (i & i' & Hi & (p & Hp%decryptSecret_Ok & [= <-])%bind_Ok & Hm). by eapply Github_pem.
    + intros (i & i' & Hi & (p & Hp%decryptSecret_Ok & [= <-])%bind_Ok & Hm). by eapply Gitlab_token.
    + intros (i & i' & Hi & (p & Hp%decryptSecret_Ok & [= <-])%bind_Ok & Hm). by eapply Azure_token.
    + intros [= <-]. constructor.
    + done.
  - intros []; repeat (rewrite decide_False by done); rewrite ?decide_True by done; rewrite ?decryptImpl_Ok.
    + eexists _, _. split_and!; [done| |done]. apply decryptTerraform_Ok. by left.
    + eexists _, _. split_and!; [done| |done]. apply decryptTerraform_Ok. right. by eexists _, _.
    + eexists _, _. split_and!; [done| |done]. apply bind_Ok. eexists. by rewrite decryptSecret_Ok.
    + eexists _, _. split_and!; [done| |done]. apply bind_Ok. eexists. by rewrite decryptSecret_Ok.
    + eexists _, _. split_and!; [done| |done]. apply bind_Ok. eexists. by rewrite decryptSecret_Ok.
    + done.
Qed.

Lemma decryptRunDetails_Ok (runJsonBase64 decrypted : string) :
  decryptRunDetails runJsonBase64 = Some (Ok decrypted) ↔
  ∃ bytes dto inputs implType impl text,
    DecodeString runJsonBase64 = Ok bytes ∧ dj_ParseRunDetails json bytes = Ok dto ∧
    Forall2 InputRevealed (run_Inputs dto) inputs ∧
    dj_Type json (run_Implementation dto) = Ok implType ∧
    ImplRevealed implType (run_Implementation dto) impl ∧
    dj_MarshalRun json (set_run_secrets inputs impl dto) = Ok text ∧
    decrypted = EncodeToString text.
Proof.
  unfold decryptRunDetails. repeat (setoid_rewrite bind_Ok). setoid_rewrite lift_Ok.
  setoid_rewrite decryptInputs_Ok. setoid_rewrite decryptImplementation_Ok.
  unfold GetImplementationType. setoid_rewrite wrapErr_Ok. fold (run_Implementation).
  split.
  - intros (? & ? & ? & ? & ? & ? & ? & ? & ? & ? & ? & ? & [= <-]). by eexists _, _, _, _, _, _.
  - intros (? & ? & ? & ? & ? & ? & ? & ? & ? & ? & ? & ? & ->). eexists. split; [done|].
    eexists. split; [done|]. eexists. split; [done|]. eexists. split; [done|]. eexists. split; [done|].
    by eexists.
Qed.

End Decryption.
