(* ===== verification/ControllerConfig.v ===== *)
(** * ControllerConfig: the configuration of the run-controller

    Models run-controller/controller/config.go: the configuration file, the
    environment variables on top of it, the defaults and the validation. The
    operating system, the YAML parser, [url.Parse] and the order in which Go
    ranges over a map are arguments; [logger.Fatalf] is the error. Log lines
    are left out. *)

From S2P Require Import Prelude MeshDtos MeshAuth TfConfig.

Definition WifIssuer := string.
Definition WifIssuerKubernetes : WifIssuer := "kubernetes".
Definition WifIssuerKeycloak : WifIssuer := "keycloak".
Definition WifIssuerOff : WifIssuer := "off".

Record KeycloakWifConfig := mkKeycloakWifConfig {
  kc_Url : string; kc_Realm : string; kc_ClientId : string; kc_ClientSecret : string;
  kc_TokenLifetimeMinutes : Z;
}.

Record WorkloadIdentityFederationConfig := mkWifConfig {
  wifc_Issuer : WifIssuer; wifc_Keycloak : option KeycloakWifConfig;
}.

Record ApiConfig := mkApiConfig {
  capi_Url : string; capi_Username : string; capi_Password : string;
  capi_ClientId : string; capi_ClientSecret : string;
}.

Record CryptoConfig := mkCryptoConfig { crypto_PublicKey : string; crypto_PrivateKey : string }.

Record TolerationConfig := mkToleration {
  tol_Key : string; tol_Operator : string; tol_Value : string; tol_Effect : string;
  tol_Seconds : option Z;
}.

(** The pointers of an [ExtraVolume], of which the first that is set counts. *)
Record ExtraVolume := mkExtraVolume {
  ev_Name : string; ev_ConfigMap : option string; ev_Secret : option string; ev_EmptyDir : option string;
}.
Record ExtraVolumeMount := mkExtraVolumeMount {
  evm_Name : string; evm_MountPath : string; evm_ReadOnly : bool;
}.

Record ResourceSpec := mkResourceSpec { rs_Cpu : string; rs_Memory : string }.
Record ResourcesConfig := mkResources { res_Requests : ResourceSpec; res_Limits : ResourceSpec }.

Record JobSpecTemplate := mkJobSpec {
  js_Image : string;
  js_Command : list string;
  js_Args : list string;
  js_Env : gmap string string;
  js_Resources : ResourcesConfig;
  js_ExtraVolumes : list ExtraVolume;
  js_ExtraVolumeMounts : list ExtraVolumeMount;
}.

Record ControllerConfig := mkControllerConfig {
  cc_Namespace : string;
  cc_ImagePullSecrets : list string;
  cc_PollingIntervalSeconds : Z;
  cc_MaxConcurrentJobs : Z;
  cc_Api : ApiConfig;
  cc_Uuid : string;
  cc_OwnedByWorkspace : string;
  cc_DisplayName : string;
  cc_Crypto : CryptoConfig;
  cc_Tolerations : list TolerationConfig;
  cc_NodeSelector : gmap string string;
  cc_Implementations : gmap string JobSpecTemplate;
  cc_WorkloadIdentityFederation : WorkloadIdentityFederationConfig;
}.

Definition set_cc_MaxConcurrentJobs (v : Z) (c : ControllerConfig) : ControllerConfig :=
  mkControllerConfig (cc_Namespace c) (cc_ImagePullSecrets c) (cc_PollingIntervalSeconds c) v (cc_Api c)
    (cc_Uuid c) (cc_OwnedByWorkspace c) (cc_DisplayName c) (cc_Crypto c) (cc_Tolerations c)
    (cc_NodeSelector c) (cc_Implementations c) (cc_WorkloadIdentityFederation c).
Definition set_cc_Api (v : ApiConfig) (c : ControllerConfig) : ControllerConfig :=
  mkControllerConfig (cc_Namespace c) (cc_ImagePullSecrets c) (cc_PollingIntervalSeconds c)
    (cc_MaxConcurrentJobs c) v (cc_Uuid c) (cc_OwnedByWorkspace c) (cc_DisplayName c) (cc_Crypto c)
    (cc_Tolerations c) (cc_NodeSelector c) (cc_Implementations c) (cc_WorkloadIdentityFederation c).
Definition set_cc_Wif (v : WorkloadIdentityFederationConfig) (c : ControllerConfig) : ControllerConfig :=
  mkControllerConfig (cc_Namespace c) (cc_ImagePullSecrets c) (cc_PollingIntervalSeconds c)
    (cc_MaxConcurrentJobs c) (cc_Api c) (cc_Uuid c) (cc_OwnedByWorkspace c) (cc_DisplayName c)
    (cc_Crypto c) (cc_Tolerations c) (cc_NodeSelector c) (cc_Implementations c) v.

(** ** Derived values *)

Definition wif_issuer (c : WorkloadIdentityFederationConfig) : WifIssuer :=
  cmpOr (wifc_Issuer c) WifIssuerKubernetes.

Definition keycloak_issuer (c : KeycloakWifConfig) : string := kc_Url c +:+ "/realms/" +:+ kc_Realm c.

Definition Api_NewAuthProvider (fallbackURL : string) (c : ApiConfig) : ConfiguredAuth :=
  let url := cmpOr (capi_Url c) fallbackURL in
  if nonEmpty (capi_ClientId c) && nonEmpty (capi_ClientSecret c)
  then ApiKeyProvider (NewApiKeyAuth url (capi_ClientId c) (capi_ClientSecret c))
  else BasicProvider (mkBasicAuth (capi_Username c) (capi_Password c)).

Definition isValidHandlerImplementationType (implType : string) : bool :=
  bool_decide (implType ∈ [RunnerTypeTerraform; RunnerTypeGitHubWorkflow; RunnerTypeGitLabPipeline;
    RunnerTypeAzureDevOpsPipeline; RunnerTypeManual]).

(** ** Reading *)

Definition c_defaultConfigFile := "runner-config.yml".
Definition c_envConfigFile := "RUNCONTROLLER_CONFIG_FILE".
Definition c_envApiUrl := "RUNNER_API_URL".
Definition c_envApiClientId := "RUNNER_API_CLIENT_ID".
Definition c_envApiClientSecret := "RUNNER_API_CLIENT_SECRET".
Definition DefaultMaxConcurrentJobs : Z := 20.
Definition DefaultWifTokenLifetimeMinutes : Z := 90.

Section ControllerConfig.
Context (os : OS) (yamlUnmarshal : string → result ControllerConfig).
(* url.Parse: the scheme and the host *)
Context (url_Parse : string → result (string * string)).
Context (rangeOrder : gmap string JobSpecTemplate → list (string * JobSpecTemplate)).

Definition applyApiKeyEnvOverrides (config : ControllerConfig) : ControllerConfig :=
  let a := cc_Api config in
  set_cc_Api (mkApiConfig (capi_Url a) (capi_Username a) (capi_Password a)
    (override os c_envApiClientId (capi_ClientId a))
    (override os c_envApiClientSecret (capi_ClientSecret a))) config.

Definition applyKeycloakWifDefaults (config : option KeycloakWifConfig) : option KeycloakWifConfig :=
  match config with
  | None => None
  | Some k => Some (mkKeycloakWifConfig (TrimSuffix (kc_Url k) "/") (kc_Realm k) (kc_ClientId k)
      (kc_ClientSecret k)
      (if decide (kc_TokenLifetimeMinutes k = 0%Z) then DefaultWifTokenLifetimeMinutes
       else kc_TokenLifetimeMinutes k))
  end.

Definition validateKeycloakWif (config : KeycloakWifConfig) : option error :=
  if match url_Parse (kc_Url config) with
     | Ok (scheme, host) => negb (bool_decide (scheme = "https")) || bool_decide (host = "")
     | Err _ => true
     end
  then Some (errNew "workloadIdentityFederation.keycloak.url must be an https URL")
  else if decide (kc_Realm config = "")
  then Some (errNew "workloadIdentityFederation.keycloak.realm is required")
  else if decide (kc_ClientId config = "" ∨ kc_ClientSecret config = "")
  then Some (errNew "workloadIdentityFederation.keycloak.clientId and clientSecret are required")
  else if decide (kc_TokenLifetimeMinutes config < 0)%Z
  then Some (errNew "workloadIdentityFederation.keycloak.tokenLifetimeMinutes must be positive")
  else None.

Definition validateApiAuth (c : ApiConfig) (context : string) : option error :=
  let hasCompleteApiKeyAuth := nonEmpty (capi_ClientId c) && nonEmpty (capi_ClientSecret c) in
  let hasCompleteBasicAuth := nonEmpty (capi_Username c) && nonEmpty (capi_Password c) in
  if hasCompleteApiKeyAuth || hasCompleteBasicAuth then None
  else if nonEmpty (capi_ClientId c) || nonEmpty (capi_ClientSecret c) then
    Some (errNew (context +:+ (if decide (capi_ClientId c = "") then ".clientId" else ".clientSecret") +:+
                  " is required when using API key auth"))
  else if nonEmpty (capi_Username c) || nonEmpty (capi_Password c) then
    Some (errNew (context +:+ (if decide (capi_Username c = "") then ".username" else ".password") +:+
                  " is required when using Basic auth"))
  else Some (errNew (context +:+ ": no authentication configured; set either username/password " +:+
                     "(Basic auth) or clientId/clientSecret (API key auth)")).

Definition validateWorkloadIdentityFederation (config : WorkloadIdentityFederationConfig) : option error :=
  let issuer := wif_issuer config in
  if decide (issuer = WifIssuerKeycloak) then
    match wifc_Keycloak config with
    | None => Some (errNew "workloadIdentityFederation.keycloak is required with issuer keycloak")
    | Some k => validateKeycloakWif k
    end
  else if decide (issuer = WifIssuerKubernetes ∨ issuer = WifIssuerOff) then
    match wifc_Keycloak config with
    | Some _ => Some (errNew ("workloadIdentityFederation.keycloak is only valid with issuer keycloak, not " +:+ issuer))
    | None => None
    end
  else Some (errNew "workloadIdentityFederation.issuer must be kubernetes, keycloak or off").

(** The body of the loop over the implementations. *)
Definition validateImplementation (key : string) (spec : JobSpecTemplate) : option error :=
  if isValidHandlerImplementationType key then
    if decide (js_Image spec = "")
    then Some (errNew ("implementations." +:+ key +:+ ".image is required"))
    else None
  else Some (errNew ("implementations key '" +:+ key +:+ "' is invalid; valid values are: TERRAFORM, " +:+
                     "GITHUB_WORKFLOW, GITLAB_PIPELINE, AZURE_DEVOPS_PIPELINE, MANUAL")).

(** The first error of a sequence of checks. *)
Fixpoint firstError (checks : list (option error)) : option error :=
  match checks with
  | [] => None
  | Some e :: _ => Some e
  | None :: checks => firstError checks
  end.

Definition required (name value : string) : option error :=
  if decide (value = "") then Some (errNew (name +:+ " is required")) else None.

Definition validateConfig (config : ControllerConfig) : option error :=
  firstError
    ([ required "api.url" (capi_Url (cc_Api config));
       validateApiAuth (cc_Api config) "api";
       required "uuid" (cc_Uuid config);
       required "ownedByWorkspace" (cc_OwnedByWorkspace config);
       required "displayName" (cc_DisplayName config);
       required "crypto.publicKey" (crypto_PublicKey (cc_Crypto config));
       required "crypto.privateKey" (crypto_PrivateKey (cc_Crypto config));
       required "namespace" (cc_Namespace config);
       if decide (cc_Implementations config = ∅)
       then Some (errNew "at least one implementation handler must be configured under 'implementations'")
       else None ] ++
     map (λ kv, validateImplementation kv.1 kv.2) (rangeOrder (cc_Implementations config)) ++
     [ validateWorkloadIdentityFederation (cc_WorkloadIdentityFederation config) ]).

Definition ReadInYmlConfig (file : string) : result ControllerConfig :=
  fileData ← os_ReadFile os file;
  yamlUnmarshal fileData.

(** What is done to the configuration between reading and validating it. *)
Definition completeConfig (config : ControllerConfig) : ControllerConfig :=
  let config :=
    if decide (cc_MaxConcurrentJobs config = 0%Z)
    then set_cc_MaxConcurrentJobs DefaultMaxConcurrentJobs config else config in
  let a := cc_Api config in
  let config := set_cc_Api (mkApiConfig (cmpOr (os_Getenv os c_envApiUrl) (capi_Url a)) (capi_Username a)
    (capi_Password a) (capi_ClientId a) (capi_ClientSecret a)) config in
  let config := applyApiKeyEnvOverrides config in
  let wif := cc_WorkloadIdentityFederation config in
  set_cc_Wif (mkWifConfig (wifc_Issuer wif) (applyKeycloakWifDefaults (wifc_Keycloak wif))) config.

Definition ReadConfig : result ControllerConfig :=
  let configPath := cmpOr (os_Getenv os c_envConfigFile) c_defaultConfigFile in
  config ← wrapErr ("Failed to read config file " +:+ configPath +:+ ": ") (ReadInYmlConfig configPath) "";
  let config := completeConfig config in
  match validateConfig config with
  | Some err => Err (errWrap "Invalid configuration: " err "")
  | None => Ok config
  end.

(** ** What a valid configuration is *)

(** The authentication provider has a credential to send. *)
Definition providesCredentials (a : ConfiguredAuth) : Prop :=
  match a with
  | ApiKeyProvider a => aka_baseURL a ≠ "" ∧ aka_clientId a ≠ "" ∧ aka_clientSecret a ≠ ""
  | BasicProvider a => Username a ≠ "" ∧ Password a ≠ ""
  end.

Definition ValidKeycloak (k : KeycloakWifConfig) : Prop :=
  (∃ host, url_Parse (kc_Url k) = Ok ("https", host) ∧ host ≠ "") ∧
  kc_Realm k ≠ "" ∧ kc_ClientId k ≠ "" ∧ kc_ClientSecret k ≠ "" ∧ (0 ≤ kc_TokenLifetimeMinutes k)%Z.

(** Keycloak is configured exactly when it is the issuer. *)
Definition ValidWif (c : WorkloadIdentityFederationConfig) : Prop :=
  (wif_issuer c = WifIssuerKeycloak ∧ ∃ k, wifc_Keycloak c = Some k ∧ ValidKeycloak k) ∨
  ((wif_issuer c = WifIssuerKubernetes ∨ wif_issuer c = WifIssuerOff) ∧ wifc_Keycloak c = None).

Record ValidConfig (c : ControllerConfig) : Prop := {
  valid_url : capi_Url (cc_Api c) ≠ "";
  valid_auth : providesCredentials (Api_NewAuthProvider "" (cc_Api c));
  valid_names : Forall (λ s, s ≠ "") [cc_Uuid c; cc_OwnedByWorkspace c; cc_DisplayName c; cc_Namespace c];
  valid_crypto : crypto_PublicKey (cc_Crypto c) ≠ "" ∧ crypto_PrivateKey (cc_Crypto c) ≠ "";
  valid_implementations :
    cc_Implementations c ≠ ∅ ∧
    ∀ key spec, cc_Implementations c !! key = Some spec →
      isValidHandlerImplementationType key = true ∧ js_Image spec ≠ "";
  valid_wif : ValidWif (cc_WorkloadIdentityFederation c);
}.

(** ** Properties *)

Lemma firstError_None checks : firstError checks = None ↔ Forall (λ o, o = None) checks.
Proof.
  induction checks as [|[e|] checks IH]; simpl; [by split|split; [done|by inversion 1]|].
  rewrite IH, list.Forall_cons. naive_solver.
Qed.

Lemma required_None name value : required name value = None ↔ value ≠ "".
Proof. unfold required. case_decide; naive_solver. Qed.

Lemma validateApiAuth_None c context :
  capi_Url c ≠ "" → validateApiAuth c context = None ↔ providesCredentials (Api_NewAuthProvider "" c).
Proof.
  intros Hurl. unfold validateApiAuth, Api_NewAuthProvider.
  assert (cmpOr (capi_Url c) "" = capi_Url c) as -> by (unfold cmpOr; by rewrite decide_False).
  destruct (nonEmpty (capi_ClientId c)) eqn:H1, (nonEmpty (capi_ClientSecret c)) eqn:H2,
    (nonEmpty (capi_Username c)) eqn:H3, (nonEmpty (capi_Password c)) eqn:H4; simpl;
    unfold nonEmpty in *; rewrite ?bool_decide_eq_true, ?bool_decide_eq_false in *; naive_solver.
Qed.

Lemma validateKeycloakWif_None k : validateKeycloakWif k = None ↔ ValidKeycloak k.
Proof.
  unfold validateKeycloakWif, ValidKeycloak. destruct (url_Parse (kc_Url k)) as [[scheme host]|e]; [|naive_solver].
  case_bool_decide; simpl; [|naive_solver]. case_bool_decide; [naive_solver|].
  repeat case_decide; naive_solver lia.
Qed.

Lemma validateWif_None c : validateWorkloadIdentityFederation c = None ↔ ValidWif c.
Proof.
  unfold validateWorkloadIdentityFederation, ValidWif. case_decide as Hk.
  - rewrite Hk. destruct (wifc_Keycloak c) as [k|].
    + rewrite validateKeycloakWif_None. naive_solver.
    + naive_solver.
  - case_decide; [|naive_solver]. destruct (wifc_Keycloak c); naive_solver.
Qed.

Lemma validateImplementation_None key spec :
  validateImplementation key spec = None ↔ isValidHandlerImplementationType key = true ∧ js_Image spec ≠ "".
Proof. unfold validateImplementation. case_match; [case_decide; naive_solver|naive_solver]. Qed.

Lemma validateConfig_None c :
  (∀ m, rangeOrder m ≡ₚ map_to_list m) → validateConfig c = None ↔ ValidConfig c.
Proof.
  intros Hrange. unfold validateConfig. rewrite firstError_None, !Forall_app, Forall_map, Hrange.
  rewrite !list.Forall_cons, !required_None, validateWif_None.
  assert (∀ e, (if decide (cc_Implementations c = ∅) then Some e else None) = None ↔ cc_Implementations c ≠ ∅) as ->
    by (intros; case_decide; naive_solver).
  assert (Forall (λ kv, validateImplementation kv.1 kv.2 = None) (map_to_list (cc_Implementations c)) ↔
    ∀ key spec, cc_Implementations c !! key = Some spec →
      isValidHandlerImplementationType key = true ∧ js_Image spec ≠ "") as Himpl.
  { rewrite list.Forall_forall. setoid_rewrite <-validateImplementation_None. split.
    - intros H key spec Hks. apply (H (key, spec)). by apply elem_of_map_to_list.
    - intros H [key spec] Hks%elem_of_map_to_list. by apply H. }
  unfold compose. rewrite Himpl. split.
  - intros ((Hurl & Ha & Hu & Ho & Hd & Hp & Hq & Hn & Hi & _) & Hk & Hw & _).
    rewrite validateApiAuth_None in Ha by done. split; [done|done| |done|done|done]. by repeat constructor.
  - intros [Hurl Ha Hn Hc Hi Hw]. rewrite validateApiAuth_None by done.
    rewrite !list.Forall_cons in Hn. naive_solver.
Qed.

Lemma completeConfig_jobs c : cc_MaxConcurrentJobs (completeConfig c) ≠ 0%Z.
Proof. unfold completeConfig. simpl. case_decide; simpl; [done|done]. Qed.

Lemma completeConfig_lifetime c k :
  wifc_Keycloak (cc_WorkloadIdentityFederation (completeConfig c)) = Some k → kc_TokenLifetimeMinutes k ≠ 0%Z.
Proof.
  unfold completeConfig. simpl. case_decide; simpl; unfold applyKeycloakWifDefaults;
    (case_match; [|done]); intros [= <-]; simpl; case_decide; done.
Qed.

(** C35. The configurations the controller starts with are exactly the
    complete ones: it has an API URL and a credential for it, its names and
    keys, only handlers for known runner types and each with an image, and
    Keycloak's settings exactly when Keycloak issues the tokens (over https,
    with a positive lifetime); the number of concurrent jobs is never zero,
    which would stop all runs. *)
Theorem ReadConfig_valid (Hrange : ∀ m, rangeOrder m ≡ₚ map_to_list m) (path fileData : string)
    (config : ControllerConfig)
    (Hpath : path = cmpOr (os_Getenv os c_envConfigFile) c_defaultConfigFile)
    (Hfile : os_ReadFile os path = Ok fileData) (Hyaml : yamlUnmarshal fileData = Ok config) :
  match ReadConfig with
  | Ok c => c = completeConfig config ∧ ValidConfig c ∧ cc_MaxConcurrentJobs c ≠ 0%Z ∧
      ∀ k, wifc_Keycloak (cc_WorkloadIdentityFederation c) = Some k → (0 < kc_TokenLifetimeMinutes k)%Z
  | Err _ => ¬ ValidConfig (completeConfig config)
  end.
Proof.
  unfold ReadConfig, ReadInYmlConfig. rewrite <-Hpath, Hfile. simpl. rewrite Hyaml. simpl.
  pose proof (validateConfig_None (completeConfig config) Hrange) as Hv.
  destruct (validateConfig _) as [e|]; [naive_solver|]. destruct Hv as [Hv _]. specialize (Hv eq_refl).
  split_and!; [done|done|apply completeConfig_jobs|].
  intros k Hk. pose proof (completeConfig_lifetime _ _ Hk).
  destruct (valid_wif _ Hv) as [(_ & k' & Hk' & _ & _ & _ & _ & Hl)|[_ Hn]]; [|congruence].
  rewrite Hk in Hk'. simplify_eq. lia.
Qed.
End ControllerConfig.

(** ** A configuration *)

Definition exampleJobSpec : JobSpecTemplate :=
  mkJobSpec "runner:1" [] [] ∅ (mkResources (mkResourceSpec "" "") (mkResourceSpec "" "")) [] [].

Definition exampleConfig : ControllerConfig :=
  mkControllerConfig "runs" [] 0 0 (mkApiConfig "http://mesh" "user" "pw" "" "") "uuid" "ws" "Runner"
    (mkCryptoConfig "pub" "priv") [] ∅ {[ RunnerTypeTerraform := exampleJobSpec ]}
    (mkWifConfig WifIssuerKeycloak (Some (mkKeycloakWifConfig "https://kc/" "r" "id" "s" 0))).

Lemma ReadConfig_valid_witness :
  let os := mkOS (λ _, None) (λ _, Ok "yaml") in
  let parse := λ _, Ok ("https", "kc") in
  ∃ c, ReadConfig os (λ _, Ok exampleConfig) parse map_to_list = Ok c ∧
    ValidConfig parse c ∧ cc_MaxConcurrentJobs c = 20%Z.
Proof.
  intros os parse.
  pose proof (ReadConfig_valid os (λ _, Ok exampleConfig) parse map_to_list (λ _, reflexivity _)
    "runner-config.yml" "yaml" exampleConfig eq_refl eq_refl eq_refl) as H.
  destruct (ReadConfig os _ parse map_to_list) as [c|e] eqn:Hr; [|vm_compute in Hr; discriminate Hr].
  exists c. split; [done|]. split; [apply H|]. destruct H as [-> _]. vm_compute. reflexivity.
Defined.
