(* ===== verification/Metrics.v ===== *)
(** * Metrics: what the run-controller counts

    Models run-controller/controller/metrics.go: the collectors that
    [NewMetricsCollector] registers, with their names, help texts and labels.
    An increment or observation of one of them is an event or a result of the
    component that makes it (Kubernetes.v, ControllerApi.v, Registration.v,
    Controller.v); Prometheus itself is not modelled. *)

From S2P Require Import Prelude.

Definition ErrorTypeFetchAPI : string := "api_error".
Definition ErrorTypeJobCreation : string := "job_creation_error".
Definition ErrorTypeRunTooLarge : string := "run_too_large".
Definition ErrorTypeServiceAccountCreation : string := "creation_error".
Definition ErrorTypeRegistrationMarshal : string := "marshal_error".
Definition ErrorTypeRegistrationPut : string := "put_error".

Inductive CollectorKind := CounterVec | HistogramVec | Counter | Gauge.

#[export] Instance CollectorKind_eq_dec : EqDecision CollectorKind.
Proof. solve_decision. Defined.

(** A collector as it is registered: its options and its label names. The
    histograms have the default buckets. *)
Record Collector := mkCollector {
  col_Kind : CollectorKind;
  col_Name : string;
  col_Help : string;
  col_Labels : list string;
}.

Record MetricsCollector := mkMetricsCollector {
  runsFetchErrors : Collector;
  runsFetchDuration : Collector;
  jobsCreatedTotal : Collector;
  jobCreationErrors : Collector;
  jobCreationDuration : Collector;
  jobsAtCapacitySkips : Collector;
  serviceAccountsCreatedTotal : Collector;
  serviceAccountCreationErrors : Collector;
  decryptionErrors : Collector;
  wifTokensIssuedTotal : Collector;
  wifTokenErrors : Collector;
  runnerRegistrationSuccess : Collector;
  runnerRegistrationErrors : Collector;
  controllerLoopIterations : Collector;
  activeRunners : Collector;
}.

Definition NewMetricsCollector : MetricsCollector := {|
  runsFetchErrors := mkCollector CounterVec "run_controller_runs_fetch_errors_total"
    "Total number of errors while fetching building block runs" ["controller_uuid"; "error_type"];
  runsFetchDuration := mkCollector HistogramVec "run_controller_runs_fetch_duration_seconds"
    "Duration of run fetch operations in seconds" ["controller_uuid"];
  jobsCreatedTotal := mkCollector CounterVec "run_controller_jobs_created_total"
    "Total number of Kubernetes jobs created for building block runs" ["controller_uuid"];
  jobCreationErrors := mkCollector CounterVec "run_controller_job_creation_errors_total"
    "Total number of errors while creating Kubernetes jobs" ["controller_uuid"; "error_type"];
  jobCreationDuration := mkCollector HistogramVec "run_controller_job_creation_duration_seconds"
    "Duration of Kubernetes job creation operations in seconds" ["controller_uuid"];
  jobsAtCapacitySkips := mkCollector CounterVec "run_controller_jobs_at_capacity_skips_total"
    "Total number of polling cycles skipped because the controller was at its max concurrent jobs limit"
    ["controller_uuid"];
  serviceAccountsCreatedTotal := mkCollector CounterVec "run_controller_service_accounts_created_total"
    "Total number of Kubernetes service accounts created for workload identity" ["controller_uuid"];
  serviceAccountCreationErrors := mkCollector CounterVec "run_controller_service_account_creation_errors_total"
    "Total number of errors while creating Kubernetes service accounts" ["controller_uuid"; "error_type"];
  decryptionErrors := mkCollector CounterVec "run_controller_decryption_errors_total"
    "Total number of errors while decrypting run details" ["controller_uuid"];
  wifTokensIssuedTotal := mkCollector CounterVec "run_controller_wif_tokens_issued_total"
    "Total number of runs that got the meshStack workload identity token" ["controller_uuid"];
  wifTokenErrors := mkCollector CounterVec "run_controller_wif_token_errors_total"
    "Total number of runs that started without the meshStack workload identity token because issuing it failed"
    ["controller_uuid"];
  runnerRegistrationSuccess := mkCollector CounterVec "run_controller_runner_registration_success_total"
    "Total number of successful runner registrations on startup" ["controller_uuid"];
  runnerRegistrationErrors := mkCollector CounterVec "run_controller_runner_registration_errors_total"
    "Total number of runner registration errors on startup" ["controller_uuid"; "error_type"];
  controllerLoopIterations := mkCollector Counter "run_controller_loop_iterations_total"
    "Total number of controller polling loop iterations" [];
  activeRunners := mkCollector Gauge "run_controller_active_runners"
    "Number of active runners configured in the controller" [] |}.

Definition collectors (m : MetricsCollector) : list Collector :=
  [runsFetchErrors m; runsFetchDuration m; jobsCreatedTotal m; jobCreationErrors m; jobCreationDuration m;
   jobsAtCapacitySkips m; serviceAccountsCreatedTotal m; serviceAccountCreationErrors m; decryptionErrors m;
   wifTokensIssuedTotal m; wifTokenErrors m; runnerRegistrationSuccess m; runnerRegistrationErrors m;
   controllerLoopIterations m; activeRunners m].

#[export] Instance Collector_eq_dec : EqDecision Collector.
Proof. solve_decision. Defined.

(** Registering two collectors under one name panics: none is registered twice. *)
Lemma collectors_distinct : NoDup (col_Name <$> collectors NewMetricsCollector).
Proof. apply (bool_decide_unpack _). by vm_compute. Qed.

(** A collector is used with the label values [values]; another number of
    them than it has labels would panic. *)
Definition fits (c : Collector) (values : list string) : Prop := length values = length (col_Labels c).

(** One increment or observation: the collector with its label values. *)
Abbreviation Measurement := (Collector * list string)%type.
