(* ===== verification/Registration.v ===== *)
(** * Registration: how the run-controller presents itself to meshStack

    Models run-controller/controller/dtos.go and registration.go: the runner
    object it registers, the workload identity it announces, the subject of a
    run's token, and the PUT request. HTTP and JSON are arguments, the
    measurements a result, and log lines are left out. *)

From S2P Require Import Prelude GoPath MeshDtos MeshAuth TfConfig ControllerConfig Metrics.

(** ** dtos.go *)

Definition BuildRunnerRegistrationDTO (AppConfig : ControllerConfig) (wif : option WifDTO)
    : MeshBuildingBlockRunnerDTO :=
  {| rdto_ApiVersion := "v1-preview";
     rdto_Kind := "meshBuildingBlockRunner";
     rdto_Uuid := cc_Uuid AppConfig;
     rdto_OwnedByWorkspace := cc_OwnedByWorkspace AppConfig;
     rdto_DisplayName := cc_DisplayName AppConfig;
     rdto_PublicKey := crypto_PublicKey (cc_Crypto AppConfig);
     rdto_ImplementationType := RunnerTypeAll;
     rdto_WorkloadIdentityFederation := wif |}.

Definition serviceAccountNameTemplate : string :=
  "workspace.{{ workspaceIdentifier }}.buildingblockdefinition.{{ buildingBlockDefinitionUuid }}".
Definition keycloakSubjectTemplate : string :=
  "bbd:{{ workspaceIdentifier }}:{{ buildingBlockDefinitionUuid }}".

Definition subjectPairs (runInfo : RunInfo) : list (string * string) :=
  [("{{ workspaceIdentifier }}", info_BuildingBlockDefinitionWorkspace runInfo);
   ("{{ buildingBlockDefinitionUuid }}", info_BuildingBlockDefinitionUuid runInfo)].

Definition renderSubjectTemplate (template : string) (runInfo : RunInfo) : string :=
  Replacer_Replace (subjectPairs runInfo) template.

(** ** wiftoken.go and keycloakwif: the constants the registration names *)

Definition wifTokenMountPath : string := "/var/run/secrets/workload-identity/meshstack".
Definition wifTokenSecretKey : string := "token".
Definition wifTokenPath : string := wifTokenMountPath +:+ "/" +:+ wifTokenSecretKey.
Definition Audience : string := "external-platform".

Definition kubernetesWif (namespace oidcIssuer : string) : option WifDTO :=
  if decide (oidcIssuer = "") then None
  else Some {|
    wif_Issuer := oidcIssuer;
    wif_SubjectTemplate := "system:serviceaccount:" +:+ namespace +:+ ":" +:+ serviceAccountNameTemplate;
    wif_Gcp := Some (mkCloudWif ("gcp-workload-identity-provider:" +:+ namespace)
                       "/var/run/secrets/workload-identity/gcp/token");
    wif_Aws := Some (mkCloudWif ("aws-workload-identity-provider:" +:+ namespace)
                       "/var/run/secrets/workload-identity/aws/token");
    wif_Azure := Some (mkCloudWif "api://AzureADTokenExchange"
                         "/var/run/secrets/workload-identity/azure/token") |}.

Definition keycloakWif (issuer : string) : WifDTO := {|
  wif_Issuer := issuer;
  wif_SubjectTemplate := keycloakSubjectTemplate;
  wif_Gcp := Some (mkCloudWif Audience wifTokenPath);
  wif_Aws := Some (mkCloudWif Audience wifTokenPath);
  wif_Azure := Some (mkCloudWif Audience wifTokenPath) |}.

(** The outer [None] is the nil dereference of [config.Keycloak], which a
    validated configuration excludes. *)
Definition registeredWif (config : WorkloadIdentityFederationConfig) (namespace discoveredIssuer : string)
    : option (option WifDTO) :=
  if decide (wif_issuer config = WifIssuerKubernetes) then Some (kubernetesWif namespace discoveredIssuer)
  else if decide (wif_issuer config = WifIssuerKeycloak) then
    k ← wifc_Keycloak config; Some (Some (keycloakWif (keycloak_issuer k)))
  else Some None.

(** ** registration.go *)

Definition MeshBuildingBlockRunner_MediaType_V1Preview : string :=
  "application/vnd.meshcloud.api.meshbuildingblockrunner.v1-preview.hal+json".
Definition EP_RunnerWithUuid (url uuid : string) : string :=
  url +:+ "/api/meshobjects/meshbuildingblockrunners/" +:+ uuid.

Record RegistrationApiClient := mkRegistrationApi {
  regapi_url : string;
  regapi_auth : ConfiguredAuth;
  regapi_wif : option WifDTO;
}.

Definition NewRegistrationApi (AppConfig : ControllerConfig) (DiscoveredOidcIssuer : string)
    : option RegistrationApiClient :=
  let api := cc_Api AppConfig in
  wif ← registeredWif (cc_WorkloadIdentityFederation AppConfig) (cc_Namespace AppConfig) DiscoveredOidcIssuer;
  Some (mkRegistrationApi (capi_Url api) (Api_NewAuthProvider (capi_Url api) api) wif).

Section Registration.
Context (AppConfig : ControllerConfig) (env : HttpEnv)
  (marshal : MeshBuildingBlockRunnerDTO → result string).

(** The headers of registration.go's [setHeaders]. *)
Definition registrationHeaders (a : ConfiguredAuth) : gmap string string * ConfiguredAuth :=
  let '(auth, a) := AuthHeader env a in
  (<["Accept" := MeshBuildingBlockRunner_MediaType_V1Preview]>
   (<["Content-Type" := MeshBuildingBlockRunner_MediaType_V1Preview]> {[ "Authorization" := auth ]}), a).

(** The status code and the error of the pair are both used by the caller. *)
Definition putController (api : RegistrationApiClient) (jsonBody : string)
    : (Z * option error) * RegistrationApiClient :=
  let url := EP_RunnerWithUuid (regapi_url api) (cc_Uuid AppConfig) in
  match http_NewRequestErr env url with
  | Some err => ((0%Z, Some (errWrap "failed to create PUT request: " err "")), api)
  | None =>
      let '(headers, auth) := registrationHeaders (regapi_auth api) in
      let api := mkRegistrationApi (regapi_url api) auth (regapi_wif api) in
      (match http_Do env (mkRequest "PUT" url headers jsonBody) with
       | Err err => (0%Z, Some (errWrap "failed to execute PUT request: " err ""))
       | Ok resp =>
           if decide (resp_StatusCode resp = StatusNotFound) then (StatusNotFound, None)
           else if decide (resp_StatusCode resp ≠ StatusOK)
           then (resp_StatusCode resp, Some (errNew ("PUT failed with status " +:+
                   pretty (resp_StatusCode resp) +:+ ": " +:+ resp_Body resp)))
           else (resp_StatusCode resp, None)
       end, api)
  end.

(** With the measurements it makes. *)
Definition api_RegisterController (api : RegistrationApiClient)
    : option error * RegistrationApiClient * list Measurement :=
  let metrics := NewMetricsCollector in
  match marshal (BuildRunnerRegistrationDTO AppConfig (regapi_wif api)) with
  | Err err =>
      (Some (errWrap "failed to marshal runner registration: " err ""), api,
       [(runnerRegistrationErrors metrics, [cc_Uuid AppConfig; ErrorTypeRegistrationMarshal])])
  | Ok jsonBody =>
      let '((statusCode, err), api) := putController api jsonBody in
      match err with
      | Some err =>
          (Some err, api, [(runnerRegistrationErrors metrics, [cc_Uuid AppConfig; ErrorTypeRegistrationPut])])
      | None =>
           if decide (statusCode = StatusNotFound)
           then (Some (errNew ("controller " +:+ cc_Uuid AppConfig +:+ " not found in meshfed — create it " +:+
                  "via the meshStack UI or API before starting the run-controller")), api, [])
           else (None, api, [(runnerRegistrationSuccess metrics, [cc_Uuid AppConfig])])
      end
  end.

Definition RegisterController (DiscoveredOidcIssuer : string) : option (option error * list Measurement) :=
  api ← NewRegistrationApi AppConfig DiscoveredOidcIssuer;
  let '(err, _, measured) := api_RegisterController api in
  Some (match err with
        | Some err => Some (errWrap "controller registration failed: " err "")
        | None => None
        end, measured).

(** ** Properties *)

(** The metrics say that a registration worked exactly when it did; they say
    nothing of one for a controller that meshStack does not know. *)
Lemma api_RegisterController_ok api err api' measured :
  api_RegisterController api = (err, api', measured) →
  (err = None ↔ measured = [(runnerRegistrationSuccess NewMetricsCollector, [cc_Uuid AppConfig])]) ∧
  (err = None → ∃ body headers resp, marshal (BuildRunnerRegistrationDTO AppConfig (regapi_wif api)) = Ok body ∧
     http_Do env (mkRequest "PUT" (EP_RunnerWithUuid (regapi_url api) (cc_Uuid AppConfig)) headers body) = Ok resp ∧
     resp_StatusCode resp = StatusOK).
Proof.
  unfold api_RegisterController, putController. destruct (marshal _) as [body|e]; [|by intros [= <- _ <-]].
  destruct (http_NewRequestErr env _); [by intros [= <- _ <-]|]. destruct (registrationHeaders _) as [hs auth].
  destruct (http_Do env _) as [resp|e] eqn:Hdo; simpl; [|by intros [= <- _ <-]].
  case_decide as Hn; simpl; [intros [= <- _ <-]; done|].
  case_decide as Hs; simpl; [by intros [= <- _ <-]|]. rewrite decide_False by done. intros [= <- _ <-].
  split; [done|]. intros _. exists body, hs, resp. by split_and!.
Qed.
End Registration.

(** Text without braces stays as it is. *)
Lemma Replacer_go_plain pairs p s n :
  Forall (λ kv : string * string, ∃ r, kv.1 = String "{" r) pairs → hasChar "{" p = false →
  Replacer_go (String.length p + n) pairs (p +:+ s) = p +:+ Replacer_go n pairs s.
Proof.
  intros Hpairs. revert s. induction p as [|c p IH]; intros s Hp; [done|].
  simpl in Hp. apply orb_false_iff in Hp as [Hc%bool_decide_eq_false Hp].
  rewrite string_app_cons. simpl.
  destruct (list_find _ pairs) as [[i [old new]]|] eqn:Hf.
  - apply list_find_Some in Hf as (Hi & Hpre & _). rewrite list.Forall_forall in Hpairs.
    destruct (Hpairs (old, new)) as [r Hr]; [by eapply list_elem_of_lookup_2|]. simpl in *. subst old.
    by destruct (ascii_dec "{" c) as [<-|].
  - by rewrite IH, string_app_cons.
Qed.

Lemma subjectPairs_braces info : Forall (λ kv : string * string, ∃ r, kv.1 = String "{" r) (subjectPairs info).
Proof. repeat constructor; eexists; reflexivity. Qed.

Lemma renderSubjectTemplate_prefix p template info :
  hasChar "{" p = false →
  renderSubjectTemplate (p +:+ template) info = p +:+ renderSubjectTemplate template info.
Proof.
  intros Hp. unfold renderSubjectTemplate, Replacer_Replace. rewrite length_string_app.
  by apply Replacer_go_plain; [apply subjectPairs_braces|].
Qed.

Lemma serviceAccountName_eq info :
  renderSubjectTemplate serviceAccountNameTemplate info =
  "workspace." +:+ info_BuildingBlockDefinitionWorkspace info +:+ ".buildingblockdefinition." +:+
  info_BuildingBlockDefinitionUuid info +:+ "".
Proof. reflexivity. Qed.

Lemma keycloakSubject_eq info :
  renderSubjectTemplate keycloakSubjectTemplate info =
  "bbd:" +:+ info_BuildingBlockDefinitionWorkspace info +:+ ":" +:+ info_BuildingBlockDefinitionUuid info +:+ "".
Proof. reflexivity. Qed.

(** The definition a run belongs to. *)
Definition sameDefinition (i1 i2 : RunInfo) : Prop :=
  info_BuildingBlockDefinitionWorkspace i1 = info_BuildingBlockDefinitionWorkspace i2 ∧
  info_BuildingBlockDefinitionUuid i1 = info_BuildingBlockDefinitionUuid i2.

(** The subject claim of the tokens a run's job gets: Kubernetes derives it
    from the job's service account, Keycloak is told it. *)
Definition tokenSubject (config : WorkloadIdentityFederationConfig) (namespace : string) (info : RunInfo) : string :=
  if decide (wif_issuer config = WifIssuerKeycloak)
  then renderSubjectTemplate keycloakSubjectTemplate info
  else "system:serviceaccount:" +:+ namespace +:+ ":" +:+ renderSubjectTemplate serviceAccountNameTemplate info.

Lemma service_account_inj (ns : string) i1 i2 :
  hasChar "." (info_BuildingBlockDefinitionWorkspace i1) = false →
  hasChar "." (info_BuildingBlockDefinitionWorkspace i2) = false →
  renderSubjectTemplate serviceAccountNameTemplate i1 = renderSubjectTemplate serviceAccountNameTemplate i2 →
  sameDefinition i1 i2.
Proof.
  rewrite !serviceAccountName_eq, !string_app_nil_r. intros H1 H2 He%string_app_inj.
  change (".buildingblockdefinition." +:+ ?x) with (String "." ("buildingblockdefinition." +:+ x)) in He.
  apply split_at_char_inj in He as [? ?%string_app_inj]; [|done..]. by split.
Qed.

Lemma keycloak_subject_inj i1 i2 :
  hasChar ":" (info_BuildingBlockDefinitionWorkspace i1) = false →
  hasChar ":" (info_BuildingBlockDefinitionWorkspace i2) = false →
  renderSubjectTemplate keycloakSubjectTemplate i1 = renderSubjectTemplate keycloakSubjectTemplate i2 →
  sameDefinition i1 i2.
Proof.
  rewrite !keycloakSubject_eq, !string_app_nil_r. intros H1 H2 He%string_app_inj.
  change (":" +:+ ?x) with (String ":" x) in He. apply split_at_char_inj in He as [? ?]; [|done..]. by split.
Qed.

(** A cloud that trusts the identity the controller registered for a
    building block definition trusts the tokens of that definition's runs and
    no others: the registered template renders to the very subject a run's
    tokens carry, and runs with the same subject belong to the same
    definition of the same workspace. *)
Theorem registered_subject_identifies (config : WorkloadIdentityFederationConfig)
    (namespace discoveredIssuer : string) (wif : WifDTO) (i1 i2 : RunInfo)
    (Hwif : registeredWif config namespace discoveredIssuer = Some (Some wif))
    (Hns : hasChar "{" namespace = false)
    (H1 : hasChar "." (info_BuildingBlockDefinitionWorkspace i1) || hasChar ":" (info_BuildingBlockDefinitionWorkspace i1) = false)
    (H2 : hasChar "." (info_BuildingBlockDefinitionWorkspace i2) || hasChar ":" (info_BuildingBlockDefinitionWorkspace i2) = false) :
  renderSubjectTemplate (wif_SubjectTemplate wif) i1 = tokenSubject config namespace i1 ∧
  (renderSubjectTemplate (wif_SubjectTemplate wif) i1 = renderSubjectTemplate (wif_SubjectTemplate wif) i2 ↔
   sameDefinition i1 i2).
Proof.
  apply orb_false_iff in H1 as [H1 H1'], H2 as [H2 H2'].
  assert (∀ t, sameDefinition i1 i2 → renderSubjectTemplate t i1 = renderSubjectTemplate t i2) as Hsame.
  { intros t [Hw Hd]. unfold renderSubjectTemplate, subjectPairs. by rewrite Hw, Hd. }
  unfold registeredWif in Hwif. unfold tokenSubject. case_decide as Hk.
  - rewrite Hk, decide_False by done. injection Hwif as Hwif.
    unfold kubernetesWif in Hwif. case_decide; [done|]. simplify_eq. simpl.
    assert (∀ i, renderSubjectTemplate ("system:serviceaccount:" +:+ namespace +:+ ":" +:+ serviceAccountNameTemplate) i =
      "system:serviceaccount:" +:+ namespace +:+ ":" +:+ renderSubjectTemplate serviceAccountNameTemplate i) as Hr.
    { intros i. rewrite (renderSubjectTemplate_prefix "system:serviceaccount:") by reflexivity.
      rewrite (renderSubjectTemplate_prefix namespace) by exact Hns.
      rewrite (renderSubjectTemplate_prefix ":") by reflexivity. reflexivity. }
    split; [apply Hr|]. split; [|apply Hsame].
    rewrite !Hr. intros He%string_app_inj%string_app_inj%string_app_inj. by apply (service_account_inj namespace).
  - case_decide; [|done]. destruct (wifc_Keycloak config) as [k|]; [|done]. injection Hwif as <-.
    split; [done|]. split; [|apply Hsame]. by apply keycloak_subject_inj.
Qed.

Definition exampleRunInfo (definition : string) : RunInfo := mkRunInfo "run-1" "ws" definition "owner".

Lemma registered_subject_identifies_witness :
  let config := mkWifConfig "" None in
  ∃ wif, registeredWif config "runs" "https://oidc" = Some (Some wif) ∧
    renderSubjectTemplate (wif_SubjectTemplate wif) (exampleRunInfo "d1") =
      "system:serviceaccount:runs:workspace.owner.buildingblockdefinition.d1" ∧
    renderSubjectTemplate (wif_SubjectTemplate wif) (exampleRunInfo "d1") ≠
      renderSubjectTemplate (wif_SubjectTemplate wif) (exampleRunInfo "d2").
Proof.
  intros config. eexists. split; [reflexivity|]. split; [vm_compute; reflexivity|].
  intros He.
  assert (sameDefinition (exampleRunInfo "d1") (exampleRunInfo "d2")) as [_ Hd]; [|discriminate Hd].
  refine (proj1 (proj2 (registered_subject_identifies config "runs" "https://oidc" _ _ _ _ _ _ _)) He);
    vm_compute; reflexivity.
Defined.
