(* ===== verification/ControllerApi.v ===== *)
(** * ControllerApi: the run API as the run-controller uses it

    Models run-controller/controller/runapi.go: a client is made for every
    request, with the controller's own credentials. The interface the
    controller is written against is a class with the one law it relies on:
    the text of a fetched run is the text its object was parsed from. JSON is
    a record of functions, and log lines are left out. The interface leaves the
    measurements out, since nothing depends on them. *)

From S2P Require Import Prelude Base64 MeshDtos MeshAuth MeshClient TfConfig ControllerConfig Metrics Registration.

Definition requesterPrefix : string := "run-controller".
Definition wifTokenStepId : string := "meshstack-wif-token".

Record ControllerJson := mkControllerJson {
  cj_ParseRunDetails : string → result RunDetailsDTO;
  cj_MarshalRegistration : RegistrationDTO → result string;
  cj_MarshalUpdate : StatusUpdateDTO → result string;
}.

Section ControllerApi.
Context (AppConfig : ControllerConfig) (meta : ClientMetadata) (json : ControllerJson) (env : HttpEnv).

(** [newApi] takes the URL from the configuration. *)
Definition api_url : string := capi_Url (cc_Api AppConfig).

Definition newMeshClient (nodeID : string) : Client ConfiguredAuth :=
  mkClient api_url nodeID (Api_NewAuthProvider api_url (cc_Api AppConfig)).

Definition requester : string := requesterPrefix +:+ "-" +:+ cc_Uuid AppConfig.

(** With the measurements of the fetch, the deferred one last. *)
Definition FetchRunDetails (nodePostfix : string) : result (string * RunDetailsDTO) * list Measurement :=
  let metrics := NewMetricsCollector in
  let duration := (runsFetchDuration metrics, [cc_Uuid AppConfig]) in
  let fetchError := (runsFetchErrors metrics, [cc_Uuid AppConfig; ErrorTypeFetchAPI]) in
  let client := newMeshClient (requesterPrefix +:+ "-" +:+ nodePostfix) in
  match (FetchRun meta env (cj_ParseRunDetails json) client (cc_Uuid AppConfig)).1 with
  | Err err =>
      (Err err, match err with
                | errStatus status => if decide (status ≠ StatusNotFound) then [fetchError; duration] else [duration]
                | _ => [fetchError; duration]
                end)
  | Ok (dto, rawBytes) => (Ok (EncodeToString rawBytes, dto), [duration])
  end.

Definition api_RegisterSource (runId : string) : option error :=
  let registration := mkRegistration (cc_Uuid AppConfig)
    [mkStepRegistration "validation" "Validation" None] in
  match (RegisterSource meta env (cj_MarshalRegistration json) (newMeshClient requester) runId registration).1 with
  | Some err => Some (errWrap "register source failed: " err "")
  | None => None
  end.

Definition UpdateRunStatus (runId status summary stepMessage : string) : option error :=
  let dto := mkStatusUpdate (Some status) (Some summary)
    [mkStepUpdate "validation" "Validation" (Some status) (Some stepMessage) (Some stepMessage) ∅] in
  match (PatchStatus meta env (cj_MarshalUpdate json) (newMeshClient requester) runId (cc_Uuid AppConfig) dto).1 with
  | Err err => Some (errWrap "update status failed: " err "")
  | Ok _ => None
  end.

Definition wifMessage : string :=
  "meshStack could not issue the workload identity token for this run." +:+ LF +:+ LF +:+
  "The run continues without " +:+ wifTokenPath +:+
  ". Steps that use this file to sign in to a cloud will fail.".

(** Registration and update see [env] and [env'], one after the other. *)
Definition ReportWifTokenMissing (env' : HttpEnv) (runId : string) : option error :=
  let sourceId := cc_Uuid AppConfig +:+ "-wif-token" in
  let client := newMeshClient requester in
  let registration := mkRegistration sourceId
    [mkStepRegistration wifTokenStepId "meshStack workload identity token" None] in
  let '(err, client) := RegisterSourceAt meta env (cj_MarshalRegistration json) client
    (EPRunSourceRegistration api_url runId) registration in
  match err with
  | Some err => Some (errWrap "register source: " err "")
  | None =>
      let update := mkStatusUpdate None None
        [mkStepUpdate wifTokenStepId "meshStack workload identity token" (Some "FAILED") None
           (Some wifMessage) ∅] in
      match (PatchStatus meta env' (cj_MarshalUpdate json) client runId sourceId update).1 with
      | Err err => Some (errWrap "update status: " err "")
      | Ok _ => None
      end
  end.

(** ** What a fetch guarantees *)

Lemma FetchRun_parsed {A} `{AuthProvider A} parse (c : Client A) uuid dto raw :
  (FetchRun meta env parse c uuid).1 = Ok (dto, raw) → parse raw = Ok dto ∧ run_Uuid dto ≠ "".
Proof.
  unfold FetchRun. destruct (exchange _ _ _ _ _ _ _) as [[[resp|e]|e] c']; [|done..]. simpl.
  case_decide; [done|]. destruct (resp_BodyErr resp); [done|].
  destruct (parse (resp_Body resp)) as [d|e] eqn:Hp; [|done]. case_decide; [done|]. by intros [= -> <-].
Qed.

Lemma FetchRunDetails_text postfix b64 dto :
  (FetchRunDetails postfix).1 = Ok (b64, dto) →
  ∃ raw, DecodeString b64 = Ok raw ∧ cj_ParseRunDetails json raw = Ok dto.
Proof.
  unfold FetchRunDetails. destruct (FetchRun _ _ _ _ _).1 as [[d raw]|e] eqn:Hf; [|done].
  intros [= <- <-]. apply FetchRun_parsed in Hf as [Hp _]. exists raw. by rewrite decode_encode.
Qed.

(** A poll that found no run is no error of the fetch. *)
Lemma FetchRunDetails_counted postfix :
  let '(r, measured) := FetchRunDetails postfix in
  (runsFetchErrors NewMetricsCollector, [cc_Uuid AppConfig; ErrorTypeFetchAPI]) ∈ measured ↔
  ∃ err, r = Err err ∧ err ≠ errStatus StatusNotFound.
Proof.
  unfold FetchRunDetails. destruct (FetchRun _ _ _ _ _).1 as [[d raw]|e].
  - rewrite list_elem_of_singleton. split; [|by intros (? & ? & _)]. intros H. by injection H.
  - assert ((∃ err, @Err (string * RunDetailsDTO) e = Err err ∧ err ≠ errStatus StatusNotFound) ↔ e ≠ errStatus StatusNotFound)
      as Hex by (split; [by intros (? & [= <-] & ?)|by exists e]).
    rewrite Hex. destruct e; try (split; [done|by left]).
    case_decide as Hs; simpl; [split; [congruence|by left]|]. rewrite list_elem_of_singleton.
    split; [intros H; by injection H|congruence].
Qed.
End ControllerApi.

(** ** The interface *)

Class ControllerRunApi (A : Type) := {
  ctl_FetchRunDetails : string → A → result (string * RunDetailsDTO) * A;
  ctl_RegisterSource : string → A → option error * A;
  ctl_UpdateRunStatus : string → string → string → string → A → option error * A;
}.

Class ControllerRunApiLaws (parse : string → result RunDetailsDTO) (A : Type) `{ControllerRunApi A} :=
  fetched_text postfix a b64 dto a' :
    ctl_FetchRunDetails postfix a = (Ok (b64, dto), a') →
    ∃ raw, DecodeString b64 = Ok raw ∧ parse raw = Ok dto.

(** The client against a world that changes from call to call. *)
Record LiveControllerApi := mkLiveControllerApi { lc_now : nat; lc_env : nat → HttpEnv }.

Section Live.
Context (AppConfig : ControllerConfig) (meta : ClientMetadata) (json : ControllerJson).

Definition lc_call {R} (f : HttpEnv → R) (a : LiveControllerApi) : R * LiveControllerApi :=
  (f (lc_env a (lc_now a)), mkLiveControllerApi (S (lc_now a)) (lc_env a)).

Definition LiveControllerApi_RunApi : ControllerRunApi LiveControllerApi := {|
  ctl_FetchRunDetails postfix := lc_call (λ env, (FetchRunDetails AppConfig meta json env postfix).1);
  ctl_RegisterSource runId := lc_call (λ env, api_RegisterSource AppConfig meta json env runId);
  ctl_UpdateRunStatus runId status summary stepMessage :=
    lc_call (λ env, UpdateRunStatus AppConfig meta json env runId status summary stepMessage);
|}.

#[export] Instance LiveControllerApi_Laws :
  @ControllerRunApiLaws (cj_ParseRunDetails json) LiveControllerApi LiveControllerApi_RunApi.
Proof. intros postfix a b64 dto a' [= Hf _]. by eapply FetchRunDetails_text. Qed.
End Live.
