(* ===== verification/Controller.v ===== *)
(** * Controller: claiming runs and handing them to runners

    Models run-controller/controller/controller.go and the [Dispatcher]
    interface of run-controller/build/dispatcher.go: how many runs a polling
    cycle may claim, and what happens to each of them. The run API and the
    dispatcher are classes; a dispatcher may panic, and so may decryption.
    The measurements of the loop are part of its results; log lines are left
    out. *)

From S2P Require Import Prelude Base64 MeshDtos Crypto Decryption ControllerConfig Metrics ControllerApi.

(** ** build/dispatcher.go *)

(** The outer [None] of [dispatch] is a panic. *)
Class Dispatcher (D : Type) := {
  dispatch : RunDetailsDTO → string → string → D → option (option error * D);
  countActive : D → result Z * D;
}.

(** What the capacity check relies on: no more runs are active than were
    counted, only a dispatch that succeeds adds one, and runs may end at any
    time. *)
Class DispatcherLaws (D : Type) `{Dispatcher D} := {
  active : D → Z;
  active_nonneg d : (0 ≤ active d)%Z;
  count_mono d : (active (countActive d).2 ≤ active d)%Z;
  count_bound d n d' : countActive d = (Ok n, d') → (active d' ≤ n)%Z;
  dispatch_bound run json type d err d' :
    dispatch run json type d = Some (err, d') →
    (active d' ≤ active d + match err with Some _ => 0 | None => 1 end)%Z;
}.

(** ** controller.go *)

Inductive processResult := runProcessed | noRunAvailable | processFailed.

#[export] Instance processResult_eq_dec : EqDecision processResult.
Proof. solve_decision. Defined.

Definition maxDrainPerCycleUnlimited : Z := 10.

Definition tooLargeMessage : string :=
  "Run data is too large to be passed to the runner. The run data exceeds the Kubernetes secret size " +:+
  "limit of 1MiB. Please reduce the size of the building block inputs.".

Definition dispatchFailureMessage (err : error) : string :=
  match errors_As isNoHandlerError err with
  | Some _ => Error err
  | None =>
      match errors_As isRunTooLargeError err with
      | Some _ => tooLargeMessage
      | None => "Failed to dispatch run: " +:+ Error err
      end
  end.

Definition isNoRunError (err : error) : bool :=
  match errors_As isStatusError err with
  | Some status => bool_decide (status = 404%Z)
  | None => false
  end.

(** The polling interval of [Run], in seconds. *)
Definition pollingInterval (AppConfig : ControllerConfig) : Z :=
  if decide (0 < cc_PollingIntervalSeconds AppConfig)%Z then cc_PollingIntervalSeconds AppConfig else 10.

Section Controller.
Context (AppConfig : ControllerConfig) (lib : CryptoLib) (json : DecryptionJson) (crypto : MeshCertBasedCrypto).
Context {A D : Type} `{ControllerRunApi A} `{Dispatcher D}.

Definition reportRunFailure (runId errorMessage : string) (a : A) : A :=
  match ctl_RegisterSource runId a with
  | (Some _, a) => a
  | (None, a) => (ctl_UpdateRunStatus runId "FAILED" errorMessage errorMessage a).2
  end.

Definition processNextRun (a : A) (d : D) : option (processResult * list Measurement * A * D) :=
  match ctl_FetchRunDetails (cc_Uuid AppConfig) a with
  | (Err _, a) => Some (noRunAvailable, [], a, d)
  | (Ok (runJsonBase64, runDetails), a) =>
      let runId := run_Uuid runDetails in
      decrypted ← decryptRunDetails lib json crypto runJsonBase64;
      match decrypted with
      | Err _ => Some (processFailed, [(decryptionErrors NewMetricsCollector, [cc_Uuid AppConfig])], a, d)
      | Ok decryptedRunJsonBase64 =>
          match GetImplementationType (dj_Type json) (def_Spec (spec_Definition (run_Spec runDetails))) with
          | Err err =>
              Some (processFailed, [],
                reportRunFailure runId ("Failed to determine implementation type: " +:+ Error err) a, d)
          | Ok implType =>
              dispatched ← dispatch runDetails decryptedRunJsonBase64 (ToRunnerType implType) d;
              match dispatched with
              | (Some err, d) => Some (processFailed, [], reportRunFailure runId (dispatchFailureMessage err) a, d)
              | (None, d) => Some (runProcessed, [], a, d)
              end
          end
      end
  end.

Definition availableCapacity (d : D) : Z * D :=
  let maxJobs := cc_MaxConcurrentJobs AppConfig in
  if decide (maxJobs < 0)%Z then (maxDrainPerCycleUnlimited, d)
  else
    match countActive d with
    | (Err _, d) => (0%Z, d)
    | (Ok active, d) => (Z.max (maxJobs - active) 0, d)
    end.

(** The loop of [drainRuns], for the iterations from [dispatched] on;
    [cancelled i] is what [ctx.Err()] says before iteration [i]. The results
    of the iterations are returned for the theorems. *)
Fixpoint drainLoop (cancelled : nat → bool) (dispatched remaining : nat) (a : A) (d : D)
    : option (list processResult * list Measurement * A * D) :=
  match remaining with
  | 0 => Some ([], [], a, d)
  | S remaining =>
      if cancelled dispatched then Some ([], [], a, d)
      else
        '(r, measured, a, d) ← processNextRun a d;
        if decide (r = runProcessed) then
          '(rs, measured', a, d) ← drainLoop cancelled (S dispatched) remaining a d;
          Some (r :: rs, measured ++ measured', a, d)
        else Some ([r], measured, a, d)
  end.

Definition drainRuns (cancelled : nat → bool) (a : A) (d : D)
    : option (list processResult * list Measurement * A * D) :=
  let (capacity, d) := availableCapacity d in
  if decide (capacity ≤ 0)%Z then Some ([], [(jobsAtCapacitySkips NewMetricsCollector, [cc_Uuid AppConfig])], a, d)
  else drainLoop cancelled 0 (Z.to_nat capacity) a d.

(** What [Run]'s [select] receives, one after the other: a tick, with the
    shutdown that may come during its cycle, or the shutdown. *)
Inductive CycleEvent := Tick (cancelled : nat → bool) | Shutdown.

Fixpoint Run (events : list CycleEvent) (a : A) (d : D) : option (list Measurement * A * D) :=
  match events with
  | [] | Shutdown :: _ => Some ([], a, d)
  | Tick cancelled :: events =>
      '(_, measured, a, d) ← drainRuns cancelled a d;
      '(measured', a, d) ← Run events a d;
      Some ((controllerLoopIterations NewMetricsCollector, []) :: measured ++ measured', a, d)
  end.
End Controller.

(** [NewController]: [log.Fatalf] is the error; the gauge is left out. *)
Definition NewController_crypto (lib : CryptoLib) (AppConfig : ControllerConfig) : may_panic MeshCertBasedCrypto :=
  option_map (λ r, wrapErr ("Failed to initialize crypto for controller " +:+ cc_Uuid AppConfig +:+ ": ") r "")
    (NewCertBasedDecryptorWithValidation lib (crypto_PrivateKey (cc_Crypto AppConfig))
       (crypto_PublicKey (cc_Crypto AppConfig))).

(** ** Properties *)

Section Properties.
Context (AppConfig : ControllerConfig) (lib : CryptoLib) (json : DecryptionJson) (crypto : MeshCertBasedCrypto).
Context {A D : Type} `{ControllerRunApi A} `{Dispatcher D}.

(** What became of the report of a failure, from the answers of meshStack: the
    status FAILED with the message was taken from the registered controller,
    or nothing was reported, since meshStack refused the registration or,
    after it, the status. *)
Inductive Report (runId message : string) (a : A) : bool → A → Prop :=
  | Report_made a1 a' :
      ctl_RegisterSource runId a = (None, a1) →
      ctl_UpdateRunStatus runId "FAILED" message message a1 = (None, a') → Report runId message a true a'
  | Report_unregistered err a' :
      ctl_RegisterSource runId a = (Some err, a') → Report runId message a false a'
  | Report_refused a1 err a' :
      ctl_RegisterSource runId a = (None, a1) →
      ctl_UpdateRunStatus runId "FAILED" message message a1 = (Some err, a') → Report runId message a false a'.

Lemma reportRunFailure_report runId message a :
  ∃ told, Report runId message a told (reportRunFailure runId message a).
Proof.
  unfold reportRunFailure. destruct (ctl_RegisterSource runId a) as [[e|] a1] eqn:Hr.
  { exists false. by eapply Report_unregistered. }
  destruct (ctl_UpdateRunStatus _ _ _ _ a1) as [[e|] a2] eqn:Hu.
  - exists false. by eapply Report_refused.
  - exists true. by eapply Report_made.
Qed.

(** A run that could be decrypted has an implementation type, so the branch
    that reports a missing one is never taken. *)
Lemma decrypted_type b64 decrypted raw dto :
  DecodeString b64 = Ok raw → dj_ParseRunDetails json raw = Ok dto →
  decryptRunDetails lib json crypto b64 = Some (Ok decrypted) →
  ∃ implType, GetImplementationType (dj_Type json) (def_Spec (spec_Definition (run_Spec dto))) = Ok implType.
Proof.
  intros Hd Hp. unfold decryptRunDetails. rewrite Hd. simpl. rewrite Hp. simpl.
  destruct (decryptInputs _ _ _) as [[inputs|]|]; simpl; [|done..].
  destruct (GetImplementationType _ _) as [t|]; simpl; [by exists t|done].
Qed.

(** What became of the run of one call of [processNextRun]. A run that was not
    dispatched is [Outcome_failed] if the user is told and [Outcome_silent] or
    [Outcome_undecryptable] if not. *)
Inductive Outcome (a : A) (d : D) : processResult → list Measurement → A → D → Prop :=
  | Outcome_none err a' :
      ctl_FetchRunDetails (cc_Uuid AppConfig) a = (Err err, a') → Outcome a d noRunAvailable [] a' d
  | Outcome_dispatched b64 dto a' decrypted implType d' :
      ctl_FetchRunDetails (cc_Uuid AppConfig) a = (Ok (b64, dto), a') →
      decryptRunDetails lib json crypto b64 = Some (Ok decrypted) →
      GetImplementationType (dj_Type json) (def_Spec (spec_Definition (run_Spec dto))) = Ok implType →
      dispatch dto decrypted (ToRunnerType implType) d = Some (None, d') →
      Outcome a d runProcessed [] a' d'
  | Outcome_failed b64 dto a1 decrypted implType err d' a' :
      ctl_FetchRunDetails (cc_Uuid AppConfig) a = (Ok (b64, dto), a1) →
      decryptRunDetails lib json crypto b64 = Some (Ok decrypted) →
      GetImplementationType (dj_Type json) (def_Spec (spec_Definition (run_Spec dto))) = Ok implType →
      dispatch dto decrypted (ToRunnerType implType) d = Some (Some err, d') →
      Report (run_Uuid dto) (dispatchFailureMessage err) a1 true a' →
      Outcome a d processFailed [] a' d'
  | Outcome_silent b64 dto a1 decrypted implType err d' a' :
      ctl_FetchRunDetails (cc_Uuid AppConfig) a = (Ok (b64, dto), a1) →
      decryptRunDetails lib json crypto b64 = Some (Ok decrypted) →
      GetImplementationType (dj_Type json) (def_Spec (spec_Definition (run_Spec dto))) = Ok implType →
      dispatch dto decrypted (ToRunnerType implType) d = Some (Some err, d') →
      Report (run_Uuid dto) (dispatchFailureMessage err) a1 false a' →
      Outcome a d processFailed [] a' d'
  | Outcome_undecryptable b64 dto a' err :
      ctl_FetchRunDetails (cc_Uuid AppConfig) a = (Ok (b64, dto), a') →
      decryptRunDetails lib json crypto b64 = Some (Err err) →
      Outcome a d processFailed [(decryptionErrors NewMetricsCollector, [cc_Uuid AppConfig])] a' d.


(** ** Capacity *)

Definition claimed (rs : list processResult) : nat :=
  length (filter (λ r, r ≠ noRunAvailable) rs).

Lemma claimed_le rs : claimed rs ≤ length rs.
Proof. apply length_filter. Qed.

Context `{!DispatcherLaws D}.

Lemma processNextRun_active a d r ms a' d' :
  processNextRun AppConfig lib json crypto a d = Some (r, ms, a', d') →
  (active d' ≤ active d + (if decide (r = runProcessed) then 1 else 0))%Z.
Proof.
  unfold processNextRun. destruct (ctl_FetchRunDetails _ a) as [[[b64 dto]|err] a1].
  2: { intros [= <- _ _ <-]. simpl. lia. }
  destruct (decryptRunDetails _ _ _ _) as [[decrypted|err]|]; simpl; [| |done].
  2: { intros [= <- _ _ <-]. simpl. lia. }
  destruct (GetImplementationType _ _) as [t|err]; [|intros [= <- _ _ <-]; simpl; lia].
  destruct (dispatch dto decrypted _ d) as [[err d1]|] eqn:Hdisp; simpl; [|done].
  apply dispatch_bound in Hdisp. by destruct err; intros [= <- _ _ <-]; simpl.
Qed.

Record Drained (cancelled : nat → bool) (dispatched remaining : nat) (d : D)
    (rs : list processResult) (d' : D) : Prop := {
  drained_length : length rs ≤ remaining;
  drained_active : (active d' ≤ active d + Z.of_nat (length rs))%Z;
  drained_init : ∀ i, S i < length rs → rs !! i = Some runProcessed;
  drained_cancel : ∀ i, dispatched ≤ i → cancelled i = true → length rs ≤ i - dispatched;
  drained_stop : length rs < remaining →
    cancelled (dispatched + length rs) = true ∨ ∃ rs1 r, rs = rs1 ++ [r] ∧ r ≠ runProcessed;
}.

Lemma drainLoop_drained cancelled dispatched remaining a d rs ms a' d' :
  drainLoop AppConfig lib json crypto cancelled dispatched remaining a d = Some (rs, ms, a', d') →
  Drained cancelled dispatched remaining d rs d'.
Proof.
  revert dispatched a d rs ms a' d'. induction remaining as [|n IH]; intros dispatched a d rs ms a' d'; simpl.
  { intros [= <- _ _ <-]. split; simpl; lia. }
  destruct (cancelled dispatched) eqn:Hc.
  { intros [= <- _ _ <-]. split; simpl; [lia..|]. intros _. left. by rewrite Nat.add_0_r. }
  destruct (processNextRun _ _ _ _ a d) as [[[[r ms1] a1] d1]|] eqn:Hp; simpl; [|done].
  apply processNextRun_active in Hp. case_decide as Hr.
  - destruct (drainLoop _ _ _ _ _ _ _ a1 d1) as [[[[rs1 ms2] a2] d2]|] eqn:Hl; simpl; [|done].
    intros [= <- _ _ <-]. apply IH in Hl as [Hlen Hact Hinit Hcan Hstop]. split; simpl; [lia|lia| | |].
    + intros [|i] Hi; [by rewrite Hr|]. apply Hinit. lia.
    + intros i Hi Hci. destruct (decide (i = dispatched)) as [->|]; [congruence|].
      specialize (Hcan i ltac:(lia) Hci). lia.
    + intros Hlt. rewrite Nat.add_succ_r. destruct Hstop as [Hs|(rs2 & r' & -> & Hne)]; [lia|by left|right].
      by exists (r :: rs2), r'.
  - intros [= <- _ _ <-]. split; simpl; [lia|lia|lia| |by right; exists [], r].
    intros i Hi Hci. destruct (decide (i = dispatched)) as [->|]; [congruence|lia].
Qed.

(** The runs there is room for, by the count of the active ones that a cycle
    starts with: none when they cannot be counted, ten when there is no limit. *)
Definition roomSeen (d : D) : nat :=
  if decide (cc_MaxConcurrentJobs AppConfig < 0)%Z then 10
  else match (countActive d).1 with
       | Ok n => Z.to_nat (cc_MaxConcurrentJobs AppConfig - n)
       | Err _ => 0
       end.

(** A cycle either claims nothing for want of room or runs the loop. *)
Lemma drainRuns_cases cancelled a d rs ms a' d' :
  drainRuns AppConfig lib json crypto cancelled a d = Some (rs, ms, a', d') →
  (rs = [] ∧ ms = [(jobsAtCapacitySkips NewMetricsCollector, [cc_Uuid AppConfig])] ∧
     roomSeen d = 0 ∧ d' = (countActive d).2) ∨
  ∃ d1, drainLoop AppConfig lib json crypto cancelled 0 (roomSeen d) a d1 = Some (rs, ms, a', d') ∧
    0 < roomSeen d ∧
    ((0 ≤ cc_MaxConcurrentJobs AppConfig)%Z →
       d1 = (countActive d).2 ∧ (active d1 + Z.of_nat (roomSeen d) ≤ cc_MaxConcurrentJobs AppConfig)%Z).
Proof.
  unfold drainRuns, availableCapacity, roomSeen. case_decide as Hmax.
  - rewrite decide_False by (vm_compute; congruence). intros Hl. right. exists d. split_and!; [exact Hl|lia|lia].
  - destruct (countActive d) as [[n|e] d1] eqn:Hcount; simpl.
    + pose proof (count_bound _ _ _ Hcount). pose proof (active_nonneg d1).
      case_decide; [intros [= <- <- _ <-]; left; split_and!; [done..|lia|done]|]. intros Hl. right. exists d1.
      replace (Z.to_nat (cc_MaxConcurrentJobs AppConfig - n))
        with (Z.to_nat ((cc_MaxConcurrentJobs AppConfig - n) `max` 0)) by lia.
      split_and!; [exact Hl|lia|intros _; split; [done|lia]].
    + intros [= <- <- _ <-]. by left.
Qed.

(** ** What is kept from cycle to cycle *)

(** A relation that relates the state before to the one after each count and
    each dispatch for which there is room is kept by the whole of [Run]. *)
Section Kept.
Context (R : D → D → Prop) `{!PreOrder R}.
Context (Hmax : (0 ≤ cc_MaxConcurrentJobs AppConfig)%Z).
Context (Hcount : ∀ d, (active d ≤ cc_MaxConcurrentJobs AppConfig)%Z → R d (countActive d).2).
Context (Hdispatch : ∀ run json type d err d', dispatch run json type d = Some (err, d') →
  (active d + match err with Some _ => 0 | None => 1 end ≤ cc_MaxConcurrentJobs AppConfig)%Z → R d d').

Lemma processNextRun_kept a d r ms a' d' :
  processNextRun AppConfig lib json crypto a d = Some (r, ms, a', d') →
  (active d + 1 ≤ cc_MaxConcurrentJobs AppConfig)%Z → R d d'.
Proof.
  unfold processNextRun. intros Hp Hroom. destruct (ctl_FetchRunDetails _ a) as [[[b64 dto]|err] a1]; [|by simplify_eq].
  destruct (decryptRunDetails _ _ _ _) as [[decrypted|err]|]; simpl in Hp; [|by simplify_eq|done].
  destruct (GetImplementationType _ _) as [t|err]; [|by simplify_eq].
  destruct (dispatch dto decrypted _ d) as [[err d1]|] eqn:Hd; simpl in Hp; [|done].
  assert (R d d1) by (eapply Hdispatch; [done|]; destruct err; lia). by destruct err; simplify_eq.
Qed.

Lemma drainLoop_kept cancelled dispatched remaining a d rs ms a' d' :
  drainLoop AppConfig lib json crypto cancelled dispatched remaining a d = Some (rs, ms, a', d') →
  (active d + Z.of_nat remaining ≤ cc_MaxConcurrentJobs AppConfig)%Z → R d d'.
Proof.
  revert dispatched a d rs ms a' d'. induction remaining as [|n IH]; intros dispatched a d rs ms a' d'; simpl.
  { by intros [= _ _ _ <-]. }
  destruct (cancelled dispatched); [by intros [= _ _ _ <-]|].
  destruct (processNextRun _ _ _ _ a d) as [[[[r ms1] a1] d1]|] eqn:Hp; simpl; [|done]. intros Hl Hroom.
  transitivity d1; [eapply processNextRun_kept; [done|lia]|]. apply processNextRun_active in Hp.
  case_decide; [|by simplify_eq].
  destruct (drainLoop _ _ _ _ _ _ _ a1 d1) as [[[[rs1 ms2] a2] d2]|] eqn:Hl1; simpl in Hl; simplify_eq.
  eapply IH; [done|]. lia.
Qed.

Lemma drainRuns_kept cancelled a d rs ms a' d' :
  drainRuns AppConfig lib json crypto cancelled a d = Some (rs, ms, a', d') →
  (active d ≤ cc_MaxConcurrentJobs AppConfig)%Z → R d d'.
Proof.
  intros [(_ & _ & _ & ->)|(d1 & Hl & _ & Hc)]%drainRuns_cases Hd; [by apply Hcount|].
  destruct (Hc Hmax) as [-> ?]. transitivity (countActive d).2; [by apply Hcount|].
  eapply drainLoop_kept; [done|lia].
Qed.
End Kept.

Lemma drainRuns_active cancelled a d rs ms a' d' :
  drainRuns AppConfig lib json crypto cancelled a d = Some (rs, ms, a', d') →
  (0 ≤ cc_MaxConcurrentJobs AppConfig)%Z → (active d ≤ cc_MaxConcurrentJobs AppConfig)%Z →
  (active d' ≤ cc_MaxConcurrentJobs AppConfig)%Z.
Proof.
  intros [(_ & _ & _ & ->)|(d1 & [Hl Ha _ _ _]%drainLoop_drained & _ & Hc)]%drainRuns_cases Hmax Hd.
  - pose proof (count_mono d). lia.
  - destruct (Hc Hmax). lia.
Qed.

Lemma Run_kept (R : D → D → Prop) `{!PreOrder R} events a d ms a' d' :
  (0 ≤ cc_MaxConcurrentJobs AppConfig)%Z →
  (∀ d, (active d ≤ cc_MaxConcurrentJobs AppConfig)%Z → R d (countActive d).2) →
  (∀ run json type d err d', dispatch run json type d = Some (err, d') →
    (active d + match err with Some _ => 0 | None => 1 end ≤ cc_MaxConcurrentJobs AppConfig)%Z → R d d') →
  Run AppConfig lib json crypto events a d = Some (ms, a', d') →
  (active d ≤ cc_MaxConcurrentJobs AppConfig)%Z → R d d'.
Proof.
  intros Hmax Hcount Hdispatch Hr. revert a d ms Hr.
  induction events as [|[cancelled|] events IH]; intros a d ms Hr Hd; simpl in Hr; [by simplify_eq| |by simplify_eq].
  destruct (drainRuns _ _ _ _ cancelled a d) as [[[[rs ms1] a1] d1]|] eqn:Hdr; [|done]. simpl in Hr.
  destruct (Run _ _ _ _ events a1 d1) as [[[ms2 a2] d2]|] eqn:Hr2; [|done]. simpl in Hr. simplify_eq.
  transitivity d1; [by eapply drainRuns_kept|]. eapply IH; [exact Hr2|]. by eapply drainRuns_active.
Qed.

(** Besides the skipped cycles only undecryptable runs are counted here. *)
Lemma drainLoop_measured cancelled dispatched remaining a d rs ms a' d' :
  drainLoop AppConfig lib json crypto cancelled dispatched remaining a d = Some (rs, ms, a', d') →
  Forall (λ m, m.1 = decryptionErrors NewMetricsCollector) ms.
Proof.
  revert dispatched a d rs ms a' d'. induction remaining as [|n IH]; intros dispatched a d rs ms a' d'; simpl.
  { by intros [= _ <- _ _]. }
  destruct (cancelled dispatched); [by intros [= _ <- _ _]|].
  destruct (processNextRun _ _ _ _ a d) as [[[[r ms1] a1] d1]|] eqn:Hp; simpl; [|done]. intros Hl.
  assert (Forall (λ m, m.1 = decryptionErrors NewMetricsCollector) ms1) as H1.
  { unfold processNextRun in Hp. destruct (ctl_FetchRunDetails _ a) as [[[b64 dto]|err] a2]; [|by simplify_eq].
    destruct (decryptRunDetails _ _ _ _) as [[decrypted|err]|]; simpl in Hp; [|simplify_eq; by constructor|done].
    destruct (GetImplementationType _ _); [|by simplify_eq].
    destruct (dispatch _ _ _ d) as [[[err|] d2]|]; by simplify_eq/=. }
  case_decide; [|by simplify_eq].
  destruct (drainLoop _ _ _ _ _ _ _ a1 d1) as [[[[rs1 ms2] a2] d2]|] eqn:Hl1; simpl in Hl; simplify_eq.
  apply Forall_app. split; [done|]. by eapply IH.
Qed.

Lemma drainRuns_skips cancelled a d rs ms a' d' :
  drainRuns AppConfig lib json crypto cancelled a d = Some (rs, ms, a', d') →
  (jobsAtCapacitySkips NewMetricsCollector, [cc_Uuid AppConfig]) ∈ ms ↔ roomSeen d = 0.
Proof.
  intros [(_ & -> & ? & _)|(d1 & Hm%drainLoop_measured & ? & _)]%drainRuns_cases; split; [done|by left| |lia].
  intros Hin. rewrite list.Forall_forall in Hm. by apply Hm in Hin.
Qed.

(** C11. The controller never has more runs active than it may. A polling
    cycle claims at most as many runs as the count it starts with leaves room
    for: the limit less the active ones, ten when there is no limit, none when
    they cannot be counted. It stops after the first run that it could not
    place or when there is none, claims no further one once it is told to shut
    down, and stops short of the room it saw for no other reason. A cycle is
    counted as skipped at capacity exactly when it saw no room, be it because
    the active runs could not be counted. *)
Theorem drainRuns_within_capacity (cancelled : nat → bool) (a a' : A) (d d' : D) (rs : list processResult)
    (measured : list Measurement)
    (Hdrain : drainRuns AppConfig lib json crypto cancelled a d = Some (rs, measured, a', d')) :
  ((0 ≤ cc_MaxConcurrentJobs AppConfig)%Z → (active d ≤ cc_MaxConcurrentJobs AppConfig)%Z →
     (active d' ≤ cc_MaxConcurrentJobs AppConfig)%Z) ∧
  claimed rs ≤ roomSeen d ∧
  (∀ i, S i < length rs → rs !! i = Some runProcessed) ∧
  (∀ i, cancelled i = true → claimed rs ≤ i) ∧
  (length rs < roomSeen d → cancelled (length rs) = true ∨ ∃ rs1 r, rs = rs1 ++ [r] ∧ r ≠ runProcessed) ∧
  ((jobsAtCapacitySkips NewMetricsCollector, [cc_Uuid AppConfig]) ∈ measured ↔ roomSeen d = 0).
Proof.
  pose proof (claimed_le rs) as Hcl. pose proof (drainRuns_skips _ _ _ _ _ _ _ Hdrain) as Hskip.
  split; [by eapply drainRuns_active|].
  apply drainRuns_cases in Hdrain as [(-> & _ & Hroom & _)|(d1 & [Hl _ Hi Hc Hs]%drainLoop_drained & _)].
  - rewrite Hroom in Hskip |- *. unfold claimed. simpl. split_and!; [lia|intros; lia|intros; lia|lia|done].
  - split_and!; [lia|done| |done|done]. intros i Hci. specialize (Hc i ltac:(lia) Hci). lia.
Qed.
End Properties.

(** ** A controller to evaluate *)

Definition exampleManualRun : RunDetailsDTO :=
  let link := mkLinkDTO "" false in
  mkRunDetails "v1" "meshBuildingBlockRun" "run-1"
    (mkRunSpec 1 "APPLY" (mkBB "bb-1" (mkBBDetails "Block" "ws" "p" "" [] []))
       (mkDefinition "def-1" (mkDefinitionDetails "owner" 1 "MANUAL")) "token" None)
    "IN_PROGRESS" (mkLinksDTO link link link link link link link).

Definition exampleDecryptionJson : DecryptionJson :=
  let no {X} := λ _ : string, Err (errNew "unused") : result X in
  mkDecryptionJson (λ _, Ok exampleManualRun) (λ _, Ok "{}") (λ s, Ok s)
    no (λ _, Ok "{}") no (λ _, Ok "{}") no (λ _, Ok "{}") no (λ _, Ok "{}").

(** meshStack with a number of runs to hand out. *)
#[export] Instance WaitingRuns : ControllerRunApi nat := {|
  ctl_FetchRunDetails _ n :=
    match n with
    | 0 => (Err (errStatus 404), 0)
    | S n => (Ok (EncodeToString "run", exampleManualRun), n)
    end;
  ctl_RegisterSource _ n := (None, n);
  ctl_UpdateRunStatus _ _ _ _ n := (None, n);
|}.

#[export] Instance WaitingRuns_Laws : ControllerRunApiLaws (dj_ParseRunDetails exampleDecryptionJson) nat.
Proof.
  intros postfix [|n] b64 dto a'; simpl; [done|]. intros [= <- <- <-].
  exists "run". split; [vm_compute; reflexivity|done].
Qed.

(** A dispatcher whose runs never end. *)
Record Slots := mkSlots { used : nat }.
#[export] Instance Slots_Dispatcher : Dispatcher Slots := {|
  dispatch _ _ _ s := Some (None, mkSlots (S (used s)));
  countActive s := (Ok (Z.of_nat (used s)), s);
|}.
#[export] Instance Slots_Laws : DispatcherLaws Slots.
Proof.
  refine {| active s := Z.of_nat (used s) |}; simpl; intros.
  - lia.
  - lia.
  - by simplify_eq.
  - simplify_eq. simpl. lia.
Defined.

Definition exampleController : ControllerConfig := set_cc_MaxConcurrentJobs 3 exampleConfig.


Lemma drainRuns_within_capacity_witness :
  ∃ rs ms a d, drainRuns exampleController exampleCrypto exampleDecryptionJson (mkCertBased None None)
      (λ _, false) 5 (mkSlots 1) = Some (rs, ms, a, d) ∧
    rs = [runProcessed; runProcessed] ∧ (active d ≤ 3)%Z ∧ claimed rs ≤ roomSeen exampleController (mkSlots 1).
Proof.
  eexists _, _, _, _. split; [vm_compute; reflexivity|]. split; [reflexivity|].
  refine ((λ H, conj (proj1 H _ _) (proj1 (proj2 H))) (drainRuns_within_capacity exampleController exampleCrypto
    exampleDecryptionJson (mkCertBased None None) (λ _, false) 5 _ (mkSlots 1) _ _ _ _));
    [done..|vm_compute; reflexivity].
Defined.
