(* ===== verification/InProcess.v ===== *)
(** * InProcess: running the runs inside the controller

    Models run-controller/inprocess/dispatcher.go: one goroutine per
    dispatched run, an atomic counter of the active runs, and a wait group.
    The goroutines are a step relation; whether a run ends with an error, with
    a panic of its goroutine or well makes no difference here, since both are
    only logged. (A panic of the work routine, which singlerunworker.go starts
    as a goroutine of its own, is not recovered and ends the process: it is no
    step.) The dispatcher discharges the capacity laws of Controller.v. *)

From S2P Require Import Prelude Base64 MeshDtos TfConfig Crypto Decryption ControllerConfig ControllerApi Controller.

(** ** NewDispatcher *)

Inductive Executor := ExecuteTerraform | ExecuteManual.

Definition executors : gmap RunnerImplementationType Executor :=
  {[ RunnerTypeTerraform := ExecuteTerraform; RunnerTypeManual := ExecuteManual ]}.

(** The configuration the Terraform runner gets: no credentials, since every
    run brings its own token. *)
Definition inprocessTfConfig (runnerUuid apiUrl : string) : TfRunnerConfig := {|
  TfCommandTimeoutMins := 60;
  TfParentWorkingDir := "/tmp/runner/wd";
  TfInstallDir := "/tmp/runner/tfbin";
  RunApiBackend := mkRunApiConfig apiUrl "" "" "" "";
  SkipHostKeyValidation := false;
  PrivateKey := "";
  PrivateKeyFile := "";
  WsTimeoutMins := 5;
  InitTimeoutMins := 3;
  RunnerUuid := runnerUuid |}.

(** ** The dispatcher *)

(** Where a goroutine is: in the run, behind it (its panic recovered), behind
    the deferred [active.Add(-1)]. Then the wait group lets it go. *)
Inductive RunPhase := Executing | Unwound | Counted.

(** A goroutine: its run, what executes it, and the text that it executes. *)
Definition Goroutine : Type := string * Executor * string.

Record InProcess := mkInProcess {
  ip_active : Z;
  ip_runs : list (Goroutine * RunPhase);
}.

Definition NewInProcess : InProcess := mkInProcess 0 [].

Definition ip_Dispatch (run : RunDetailsDTO) (decryptedRunJsonBase64 runnerType : string) (d : InProcess)
    : option error * InProcess :=
  match executors !! runnerType with
  | None => (Some (errNoHandler runnerType), d)
  | Some execute =>
      match DecodeString decryptedRunJsonBase64 with
      | Err err => (Some err, d)
      | Ok runJson =>
          (None, mkInProcess (ip_active d + 1) (ip_runs d ++ [((run_Uuid run, execute, runJson), Executing)]))
      end
  end.

Definition ip_CountActive (d : InProcess) : Z := ip_active d.

(** [Wait] returns when the wait group is empty. *)
Definition ip_Waited (d : InProcess) : Prop := ip_runs d = [].

(** The steps of the goroutines, in any order. *)
Inductive ip_step : InProcess → InProcess → Prop :=
  | step_ends active l1 run l2 :
      ip_step (mkInProcess active (l1 ++ (run, Executing) :: l2))
              (mkInProcess active (l1 ++ (run, Unwound) :: l2))
  | step_counts active l1 run l2 :
      ip_step (mkInProcess active (l1 ++ (run, Unwound) :: l2))
              (mkInProcess (active - 1) (l1 ++ (run, Counted) :: l2))
  | step_done active l1 run l2 :
      ip_step (mkInProcess active (l1 ++ (run, Counted) :: l2)) (mkInProcess active (l1 ++ l2)).

(** A goroutine's step, or a dispatch by the controller. *)
Inductive ip_event : InProcess → InProcess → Prop :=
  | event_step d d' : ip_step d d' → ip_event d d'
  | event_dispatch run json type d : ip_event d (ip_Dispatch run json type d).2.

(** ** Properties *)

Definition uncounted (r : Goroutine * RunPhase) : Prop := r.2 ≠ Counted.
#[export] Instance uncounted_dec r : Decision (uncounted r).
Proof. unfold uncounted. destruct r as [? []]; [left; done|left; done|right; intros []; done]. Defined.

Definition liveRuns (d : InProcess) : nat := length (filter uncounted (ip_runs d)).

Definition ip_Inv (d : InProcess) : Prop := ip_active d = Z.of_nat (liveRuns d).

Lemma liveRuns_split active l1 r l2 :
  liveRuns (mkInProcess active (l1 ++ r :: l2)) =
  liveRuns (mkInProcess active (l1 ++ l2)) + (if decide (uncounted r) then 1 else 0).
Proof.
  unfold liveRuns. simpl. rewrite !list.filter_app, !length_app, list.filter_cons.
  case_decide; simpl; lia.
Qed.

Lemma ip_step_Inv d d' : ip_step d d' → ip_Inv d → ip_Inv d' ∧ liveRuns d' ≤ liveRuns d.
Proof.
  unfold ip_Inv. intros []; rewrite !liveRuns_split; unfold liveRuns; simpl; lia.
Qed.

Lemma ip_steps_Inv d d' : rtc ip_step d d' → ip_Inv d → ip_Inv d' ∧ liveRuns d' ≤ liveRuns d.
Proof.
  induction 1 as [|d d1 d' Hs _ IH]; [done|]. intros Hd. destruct (ip_step_Inv _ _ Hs Hd) as [H1 ?].
  destruct (IH H1). split; [done|lia].
Qed.

(** The goroutines work on what they were started with. *)
Lemma ip_steps_goroutines d d' g :
  rtc ip_step d d' → g ∈ (ip_runs d').*1 → g ∈ (ip_runs d).*1.
Proof.
  induction 1 as [|d d1 d' Hs _ IH]; [done|]. intros Hg%IH. revert Hg.
  destruct Hs; simpl; rewrite !fmap_app, ?fmap_cons; set_solver.
Qed.

Lemma ip_Dispatch_Inv run json type d : ip_Inv d → ip_Inv (ip_Dispatch run json type d).2.
Proof.
  unfold ip_Inv, ip_Dispatch. intros Hd. destruct (executors !! type); [|done].
  destruct (DecodeString json); [|done]. simpl. rewrite Hd. unfold liveRuns. simpl.
  rewrite list.filter_app, length_app. simpl. lia.
Qed.

Lemma ip_events_Inv d : rtc ip_event NewInProcess d → ip_Inv d.
Proof.
  intros H. remember NewInProcess as d0 eqn:E. assert (ip_Inv d0) as Hd0 by by rewrite E. clear E.
  induction H as [|d d1 d' Hs _ IH]; [done|]. apply IH.
  destruct Hs as [d d1 Hs|]; [by apply (ip_step_Inv d d1)|by apply ip_Dispatch_Inv].
Qed.

(** How many steps the goroutines still take. *)
Definition stepsLeft (d : InProcess) : nat :=
  sum_list_with (λ r, match r.2 with Executing => 3 | Unwound => 2 | Counted => 1 end) (ip_runs d).

Lemma ip_step_stepsLeft d d' : ip_step d d' → S (stepsLeft d') = stepsLeft d.
Proof. unfold stepsLeft. intros []; simpl; rewrite !sum_list_with_app; simpl; lia. Qed.

Lemma ip_step_possible d : ¬ ip_Waited d → ∃ d', ip_step d d'.
Proof.
  destruct d as [active runs]. unfold ip_Waited. simpl. intros Hr.
  destruct runs as [|[run []] runs]; [done|..]; eexists;
    [apply (step_ends _ [])|apply (step_counts _ [])|apply (step_done _ [])].
Qed.

(** [Wait] can always return. *)
Lemma ip_Wait_returns d : ∃ d', rtc ip_step d d' ∧ ip_Waited d'.
Proof.
  remember (stepsLeft d) as n eqn:Hn. revert d Hn. induction n as [|n IH]; intros d Hn.
  - exists d. split; [done|]. unfold stepsLeft, ip_Waited in *. by destruct (ip_runs d) as [|[r []] l].
  - destruct (ip_step_possible d) as [d1 Hs].
    { intros Hw. unfold stepsLeft in Hn. by rewrite Hw in Hn. }
    destruct (IH d1) as (d' & ? & ?); [apply ip_step_stepsLeft in Hs; lia|].
    exists d'. split; [by eapply rtc_l|done].
Qed.

(** C36. The counter the capacity check reads is, at every moment, the number
    of dispatched runs that have not ended; and once nothing is dispatched
    any more, [Wait] returns after exactly as many steps as the goroutines
    have left, with no run left behind, however they interleave and whether
    they end well, with an error or with a panic. *)
Theorem inprocess_counts_runs (d : InProcess) (Hd : rtc ip_event NewInProcess d) :
  ip_CountActive d = Z.of_nat (liveRuns d) ∧
  (∀ n d', nsteps ip_step n d d' → n ≤ stepsLeft d ∧ (n = stepsLeft d ↔ ip_Waited d')) ∧
  (∀ d', rtc ip_step d d' → ip_Waited d' → ip_CountActive d' = 0%Z) ∧
  (∀ d', rtc ip_step d d' → ¬ ip_Waited d' → ∃ d'', ip_step d' d'').
Proof.
  pose proof (ip_events_Inv d Hd) as Hi. split_and!; [done| | |].
  - clear Hi Hd. intros n d' Hn. assert (n + stepsLeft d' = stepsLeft d) as Hl.
    { induction Hn as [|n d d1 d' Hs _ IH]; [done|]. apply ip_step_stepsLeft in Hs. lia. }
    assert (stepsLeft d' = 0 ↔ ip_Waited d') as Hz; [|rewrite <-Hz; lia].
    unfold stepsLeft, ip_Waited. destruct (ip_runs d') as [|[r []] l]; simpl; [done|..]; split; try done; lia.
  - intros d' Hs Hw. destruct (ip_steps_Inv _ _ Hs Hi) as [Hi' _]. unfold ip_CountActive. rewrite Hi'.
    unfold liveRuns. by rewrite Hw.
  - intros d' _. apply ip_step_possible.
Qed.

Lemma inprocess_counts_runs_witness :
  let d := (ip_Dispatch exampleManualRun (EncodeToString "{}") "MANUAL" NewInProcess).2 in
  rtc ip_event NewInProcess d ∧ ip_CountActive d = 1%Z ∧ ip_CountActive d = Z.of_nat (liveRuns d).
Proof.
  intros d. assert (rtc ip_event NewInProcess d) as Hd by (apply rtc_once; constructor).
  split; [exact Hd|]. split; [vm_compute; reflexivity|].
  exact (proj1 (inprocess_counts_runs d Hd)).
Defined.

(** ** The interface *)

(** The dispatcher with the goroutines' progress between the controller's
    calls: any number of their steps. *)
Record LiveInProcess := mkLiveInProcess {
  li_state : InProcess;
  li_now : nat;
  li_progress : nat → InProcess → InProcess;
  li_inv : ip_Inv li_state;
  li_steps : ∀ n d, rtc ip_step d (li_progress n d);
}.

Definition li_next (d : LiveInProcess) (s : InProcess) (Hs : ip_Inv s) : LiveInProcess :=
  mkLiveInProcess (li_progress d (li_now d) s) (S (li_now d)) (li_progress d)
    (proj1 (ip_steps_Inv _ _ (li_steps d (li_now d) s) Hs)) (li_steps d).

#[export] Instance LiveInProcess_Dispatcher : Dispatcher LiveInProcess := {|
  dispatch run json type d :=
    Some ((ip_Dispatch run json type (li_state d)).1,
          li_next d _ (ip_Dispatch_Inv run json type _ (li_inv d)));
  countActive d := (Ok (ip_CountActive (li_state d)), li_next d _ (li_inv d));
|}.

Lemma li_next_live d s Hs : liveRuns (li_state (li_next d s Hs)) ≤ liveRuns s.
Proof. exact (proj2 (ip_steps_Inv _ _ (li_steps d (li_now d) s) Hs)). Qed.

Lemma ip_Dispatch_live run json type d :
  liveRuns (ip_Dispatch run json type d).2 =
  liveRuns d + match (ip_Dispatch run json type d).1 with Some _ => 0 | None => 1 end.
Proof.
  unfold ip_Dispatch. destruct (executors !! type); [|simpl; lia]. destruct (DecodeString json); [|simpl; lia].
  unfold liveRuns. simpl. rewrite list.filter_app, length_app. done.
Qed.

#[export] Instance LiveInProcess_Laws : DispatcherLaws LiveInProcess.
Proof.
  refine {| active d := Z.of_nat (liveRuns (li_state d)) |}; simpl.
  - intros d. lia.
  - intros d. pose proof (li_next_live d _ (li_inv d)) as H. simpl in H. lia.
  - intros d n d' [= <- <-]. pose proof (li_next_live d _ (li_inv d)) as H. simpl in *.
    unfold ip_CountActive. rewrite (li_inv d). lia.
  - intros run json type d err d' [= <- <-].
    pose proof (li_next_live d _ (ip_Dispatch_Inv run json type _ (li_inv d))) as H. simpl in *.
    rewrite ip_Dispatch_live in H. destruct (ip_Dispatch run json type (li_state d)).1; lia.
Qed.
