(* ===== verification/Kubernetes.v ===== *)
(** * Kubernetes: one Kubernetes job per run

    Models run-controller/controller/kubernetes.go, wiftoken.go and the
    Kubernetes dispatcher of dispatcher.go: the job with its pod, the secrets
    with the run and its workload identity token, what is taken back when the
    job cannot be created, and the count of active jobs. The API server, the
    token issuer and the warning about a missing token answer as the
    environment says; every request and its answer is an event of the trace.
    Kubernetes objects have the fields the program sets. A measurement is an
    event as well; contexts and log lines are left out. *)

From S2P Require Import Prelude Base64 Trace MeshDtos ControllerConfig Registration ControllerApi Controller Metrics.

(** ** Kubernetes objects *)

Inductive VolumeSource :=
  | NoSource
  | SecretVolume (secretName : string)
  | ConfigMapVolume (name : string)
  | EmptyDirVolume (sizeLimit : option string)
  | ProjectedToken (audience : string) (expirationSeconds : Z) (path : string).
Record Volume := mkVolume { vol_Name : string; vol_Source : VolumeSource }.
Record VolumeMount := mkVolumeMount { vm_Name : string; vm_MountPath : string; vm_ReadOnly : bool }.

Record ResourceRequirements := mkRequirements {
  req_Requests : gmap string string; req_Limits : gmap string string;
}.

Record SecurityContext := mkSecurityContext {
  sc_AllowPrivilegeEscalation : bool;
  sc_RunAsNonRoot : bool;
  sc_SeccompProfile : string;
  sc_DropCapabilities : list string;
}.

Record Container := mkContainer {
  con_Name : string;
  con_Image : string;
  con_Command : list string;
  con_Args : list string;
  con_ImagePullPolicy : string;
  con_Env : list (string * string);
  con_VolumeMounts : list VolumeMount;
  con_Resources : ResourceRequirements;
  con_SecurityContext : SecurityContext;
}.

Record Toleration := mkPodToleration {
  pt_Key : string; pt_Operator : string; pt_Value : string; pt_Effect : string; pt_TolerationSeconds : option Z;
}.

Record PodSpec := mkPodSpec {
  pod_Labels : gmap string string;
  pod_RestartPolicy : string;
  pod_ServiceAccountName : string;
  pod_ImagePullSecrets : list string;
  pod_Tolerations : list Toleration;
  pod_NodeSelector : gmap string string;
  pod_Volumes : list Volume;
  pod_EnableServiceLinks : bool;
  pod_AutomountServiceAccountToken : bool;
  pod_Containers : list Container;
}.

Record Job := mkJob {
  job_Name : string;
  job_Namespace : string;
  job_Labels : gmap string string;
  job_BackoffLimit : Z;
  job_TTLSecondsAfterFinished : Z;
  job_Pod : PodSpec;
}.

(** What the server returns of a job it created, and of the jobs it lists. *)
Record CreatedJob := mkCreatedJob { cj_Name : string; cj_UID : string }.
Record JobCondition := mkJobCondition { jc_Type : string; jc_Status : string }.

Record OwnerReference := mkOwnerReference {
  or_APIVersion : string; or_Kind : string; or_Name : string; or_UID : string;
  or_BlockOwnerDeletion : bool; or_Controller : bool;
}.

(** A secret with a [GenerateName] gets its name from the server. *)
Record Secret := mkSecret {
  sec_Name : string;
  sec_GenerateName : string;
  sec_Labels : gmap string string;
  sec_Data : gmap string string;
  sec_OwnerReferences : list OwnerReference;
}.
Definition set_sec_OwnerReferences (v : list OwnerReference) (s : Secret) : Secret :=
  mkSecret (sec_Name s) (sec_GenerateName s) (sec_Labels s) (sec_Data s) v.

(** ** The environment *)

Inductive KubeEvent :=
  | EvGetJob (name : string) (err : option error)
  | EvCreateJob (job : Job) (r : result CreatedJob)
  | EvListJobs (selector : string) (r : result (list (list JobCondition)))
  | EvGetServiceAccount (name : string) (err : option error)
  | EvCreateServiceAccount (name : string) (labels : gmap string string) (err : option error)
  | EvGetSecret (name : string) (r : result Secret)
  | EvCreateSecret (secret : Secret) (r : result string)
  | EvUpdateSecret (secret : Secret) (err : option error)
  | EvDeleteSecret (name : string) (err : option error)
  | EvIssueToken (runUuid subject : string) (r : result string)
  | EvReportWifTokenMissing (runUuid : string) (err : option error)
  | EvMetric (collector : Collector) (labelValues : list string).

Abbreviation KubeTrace := (list KubeEvent).

Record KubeEnv := mkKubeEnv {
  kube_GetJob : KubeTrace → string → option error;
  kube_CreateJob : KubeTrace → Job → result CreatedJob;
  kube_ListJobs : KubeTrace → string → result (list (list JobCondition));
  kube_GetServiceAccount : KubeTrace → string → option error;
  kube_CreateServiceAccount : KubeTrace → string → option error;
  kube_GetSecret : KubeTrace → string → result Secret;
  (* the created secret's name *)
  kube_CreateSecret : KubeTrace → Secret → result string;
  kube_UpdateSecret : KubeTrace → Secret → option error;
  kube_DeleteSecret : KubeTrace → string → option error;
  kube_Issue : KubeTrace → string → string → result string;
  kube_ReportWifTokenMissing : KubeTrace → string → option error;
  (* apierrors.IsNotFound, resource.ParseQuantity, the order of a map range *)
  kube_IsNotFound : error → bool;
  kube_ParseQuantity : string → result string;
  kube_envOrder : gmap string string → list (string * string);
}.

Abbreviation K := (Trace.K KubeEvent).

(** ** Constants *)

Definition MaxKubernetesSecretSize : Z := 1048576.
Definition SecretMetadataOverhead : Z := 10 * 1024.
Definition EffectiveMaxRunJsonSize : Z := MaxKubernetesSecretSize - SecretMetadataOverhead.

Definition DefaultCpuRequest : string := "100m".
Definition DefaultCpuLimit : string := "".
Definition DefaultMemoryRequest : string := "256Mi".
Definition DefaultMemoryLimit : string := "1Gi".

Definition wifTokenVolumeName : string := "meshstack-wif-token".
Definition runJsonFilePath : string := "/var/run/secrets/meshstack/run.json".

Section Kubernetes.
Context (AppConfig : ControllerConfig) (env : KubeEnv).

(** [k.wifTokens] is set for the Keycloak issuer only. *)
Definition wifTokens : bool :=
  bool_decide (wif_issuer (cc_WorkloadIdentityFederation AppConfig) = WifIssuerKeycloak).

(** ** Building the job *)

(** [base64.StdEncoding.DecodedLen]. *)
Definition DecodedLen (n : Z) : Z := n / 4 * 3.
Definition estimateRunJsonSize (runJsonBase64 : string) : Z := DecodedLen (slen runJsonBase64).

(** [resource.MustParse]. *)
Definition MustParse (s : string) : option string :=
  match kube_ParseQuantity env s with Ok q => Some q | Err _ => None end.

Definition buildResourceRequirements (config : ResourcesConfig) : option ResourceRequirements :=
  let cpuRequest := cmpOr (rs_Cpu (res_Requests config)) DefaultCpuRequest in
  let cpuLimit := cmpOr (rs_Cpu (res_Limits config)) DefaultCpuLimit in
  let memoryRequest := cmpOr (rs_Memory (res_Requests config)) DefaultMemoryRequest in
  let memoryLimit := cmpOr (rs_Memory (res_Limits config)) DefaultMemoryLimit in
  cpu ← MustParse cpuRequest;
  memory ← MustParse memoryRequest;
  limit ← MustParse memoryLimit;
  if decide (cpuLimit = "") then
    Some (mkRequirements (<["cpu" := cpu]> {[ "memory" := memory ]}) {[ "memory" := limit ]})
  else
    cpuLimit ← MustParse cpuLimit;
    Some (mkRequirements (<["cpu" := cpu]> {[ "memory" := memory ]})
      (<["cpu" := cpuLimit]> {[ "memory" := limit ]})).

Definition extraVolume (extraVol : ExtraVolume) : Volume :=
  mkVolume (ev_Name extraVol)
    match ev_ConfigMap extraVol, ev_Secret extraVol, ev_EmptyDir extraVol with
    | Some name, _, _ => ConfigMapVolume name
    | None, Some secretName, _ => SecretVolume secretName
    | None, None, Some sizeLimit =>
        EmptyDirVolume
          (if decide (sizeLimit = "") then None
           else match kube_ParseQuantity env sizeLimit with Ok q => Some q | Err _ => None end)
    | None, None, None => NoSource
    end.

Definition createVolumes (jobSpec : JobSpecTemplate) (runJsonSecretName : string) (wifVolumes : list Volume)
    : list Volume :=
  [mkVolume "run-json" (SecretVolume runJsonSecretName)] ++ wifVolumes ++
  map extraVolume (js_ExtraVolumes jobSpec).

Definition createVolumeMounts (jobSpec : JobSpecTemplate) (wifVolumeMounts : list VolumeMount) : list VolumeMount :=
  [mkVolumeMount "run-json" "/var/run/secrets/meshstack" true] ++ wifVolumeMounts ++
  map (λ m, mkVolumeMount (evm_Name m) (evm_MountPath m) (evm_ReadOnly m)) (js_ExtraVolumeMounts jobSpec).

Definition projectedTokens (namespace : string) : list (string * string) :=
  [("azure", "api://AzureADTokenExchange");
   ("gcp", "gcp-workload-identity-provider:" +:+ namespace);
   ("aws", "aws-workload-identity-provider:" +:+ namespace)].

Definition wifTokenVolumes (namespace tokenSecretName : string) : list Volume * list VolumeMount :=
  let issuer := wif_issuer (cc_WorkloadIdentityFederation AppConfig) in
  if decide (issuer = WifIssuerKeycloak) then
    if decide (tokenSecretName = "") then ([], [])
    else ([mkVolume wifTokenVolumeName (SecretVolume tokenSecretName)],
          [mkVolumeMount wifTokenVolumeName wifTokenMountPath true])
  else if decide (issuer = WifIssuerKubernetes) then
    (map (λ token, mkVolume ("service-account-token-" +:+ token.1) (ProjectedToken token.2 7200 "token"))
       (projectedTokens namespace),
     map (λ token, mkVolumeMount ("service-account-token-" +:+ token.1)
                     ("/var/run/secrets/workload-identity/" +:+ token.1) true) (projectedTokens namespace))
  else ([], []).

Definition buildEnvVars (jobSpec : JobSpecTemplate) : list (string * string) :=
  [("RUN_JSON_FILE_PATH", runJsonFilePath); ("RUNNER_UUID", cc_Uuid AppConfig);
   ("RUNNER_API_URL", capi_Url (cc_Api AppConfig))] ++ kube_envOrder env (js_Env jobSpec).

(** Nil and empty slices mean the same to Kubernetes. *)
Definition buildTolerations (configs : list TolerationConfig) : list Toleration :=
  map (λ c, mkPodToleration (tol_Key c) (tol_Operator c) (tol_Value c) (tol_Effect c) (tol_Seconds c)) configs.
Definition buildImagePullSecrets : list string := map id (cc_ImagePullSecrets AppConfig).
Definition buildCommand (jobSpec : JobSpecTemplate) : list string :=
  if decide (0 < length (js_Command jobSpec)) then js_Command jobSpec else [].
Definition buildArgs (jobSpec : JobSpecTemplate) : list string :=
  if decide (0 < length (js_Args jobSpec)) then js_Args jobSpec else [].

(** The labels of a run's objects; those of the job and its pod say more. *)
Definition runLabels (runID : string) : gmap string string :=
  <["app.kubernetes.io/name" := "runner"]>
  (<["meshcloud.io/run-id" := runID]> {[ "meshcloud.io/runner-id" := cc_Uuid AppConfig ]}).
Definition jobLabels (runID implType : string) : gmap string string :=
  <["meshcloud.io/runner-type" := implType]> (runLabels runID).

Definition runnerSecurityContext : SecurityContext := mkSecurityContext false true "RuntimeDefault" ["ALL"].

(** The [batchv1.Job] literal; [None] when a quantity does not parse. *)
Definition buildJob (runInfo : RunInfo) (implType : string) (jobSpec : JobSpecTemplate)
    (jobName serviceAccountName runJsonSecretName wifTokenSecretName : string) : option Job :=
  let namespace := cc_Namespace AppConfig in
  let '(wifVolumes, wifVolumeMounts) := wifTokenVolumes namespace wifTokenSecretName in
  resources ← buildResourceRequirements (js_Resources jobSpec);
  let labels := jobLabels (info_Uuid runInfo) implType in
  Some {|
    job_Name := jobName;
    job_Namespace := namespace;
    job_Labels := labels;
    job_BackoffLimit := 1;
    job_TTLSecondsAfterFinished := 120;
    job_Pod := {|
      pod_Labels := labels;
      pod_RestartPolicy := "Never";
      pod_ServiceAccountName := serviceAccountName;
      pod_ImagePullSecrets := buildImagePullSecrets;
      pod_Tolerations := buildTolerations (cc_Tolerations AppConfig);
      pod_NodeSelector := cc_NodeSelector AppConfig;
      pod_Volumes := createVolumes jobSpec runJsonSecretName wifVolumes;
      pod_EnableServiceLinks := false;
      pod_AutomountServiceAccountToken := false;
      pod_Containers := [ {|
        con_Name := "runner";
        con_Image := js_Image jobSpec;
        con_Command := buildCommand jobSpec;
        con_Args := buildArgs jobSpec;
        con_ImagePullPolicy := "IfNotPresent";
        con_Env := buildEnvVars jobSpec;
        con_VolumeMounts := createVolumeMounts jobSpec wifVolumeMounts;
        con_Resources := resources;
        con_SecurityContext := runnerSecurityContext |} ] |} |}.

(** ** Requests *)

Definition getJob (name : string) : K (option error) :=
  request (λ t, kube_GetJob env t name) (EvGetJob name).
Definition createJob (job : Job) : K (result CreatedJob) :=
  request (λ t, kube_CreateJob env t job) (EvCreateJob job).
Definition getServiceAccount (name : string) : K (option error) :=
  request (λ t, kube_GetServiceAccount env t name) (EvGetServiceAccount name).
Definition createServiceAccountObject (name : string) (labels : gmap string string) : K (option error) :=
  request (λ t, kube_CreateServiceAccount env t name) (EvCreateServiceAccount name labels).
Definition getSecret (name : string) : K (result Secret) :=
  request (λ t, kube_GetSecret env t name) (EvGetSecret name).
Definition createSecret (secret : Secret) : K (result string) :=
  request (λ t, kube_CreateSecret env t secret) (EvCreateSecret secret).
Definition updateSecret (secret : Secret) : K (option error) :=
  request (λ t, kube_UpdateSecret env t secret) (EvUpdateSecret secret).
Definition deleteSecret (name : string) : K (option error) :=
  request (λ t, kube_DeleteSecret env t name) (EvDeleteSecret name).

(** ** Operations *)

Definition metrics : MetricsCollector := NewMetricsCollector.

(** [WithLabelValues(...)] with [Inc] or [Observe]. *)
Definition measure (c : Collector) (labelValues : list string) : K unit :=
  request (λ _, tt) (λ _, EvMetric c labelValues).
Definition jobCreationError (errorType : string) : K unit :=
  measure (jobCreationErrors metrics) [cc_Uuid AppConfig; errorType].

Definition createServiceAccount (name runID : string) : K (option error) :=
  err ← getServiceAccount name;
  match err with
  | None => mret None
  | Some _ =>
      err ← createServiceAccountObject name (runLabels runID);
      match err with
      | Some err =>
          measure (serviceAccountCreationErrors metrics) [cc_Uuid AppConfig; ErrorTypeServiceAccountCreation];;
          mret (Some (errWrap "failed to create service account: " err ""))
      | None => measure (serviceAccountsCreatedTotal metrics) [cc_Uuid AppConfig];; mret None
      end
  end.

Definition runJsonSecret (secretName runID runJsonBytes : string) : Secret :=
  mkSecret secretName "" (runLabels runID) {[ "run.json" := runJsonBytes ]} [].

Definition createRunJsonSecret (secretName runJsonBase64 runID : string) : K (option error) :=
  match DecodeString runJsonBase64 with
  | Err err => mret (Some (errWrap "failed to decode run json base64: " err ""))
  | Ok runJsonBytes =>
      existing ← getSecret secretName;
      match existing with
      | Ok _ => mret None
      | Err err =>
          if kube_IsNotFound env err then
            r ← createSecret (runJsonSecret secretName runID runJsonBytes);
            mret match r with
            | Err err => Some (errWrap "failed to create secret: " err "")
            | Ok _ => None
            end
          else mret (Some (errWrap ("failed to check if secret " +:+ secretName +:+ " exists: ") err ""))
      end
  end.

Definition tokenSecret (runID token : string) : Secret :=
  mkSecret "" ("wif-token-" +:+ runID +:+ "-") (runLabels runID) {[ wifTokenSecretKey := token ]} [].

Definition createTokenSecret (runID token : string) : K (result string) :=
  r ← createSecret (tokenSecret runID token);
  mret (wrapErr "failed to create secret: " r "").

(** The name of the token's secret, or the empty text: a run without a token
    still starts. *)
Definition createWifTokenSecret (runInfo : RunInfo) (implType : string) : K string :=
  if negb wifTokens || negb (bool_decide (implType = RunnerTypeTerraform)) then mret ""
  else
    let runUuid := info_Uuid runInfo in
    let subject := renderSubjectTemplate keycloakSubjectTemplate runInfo in
    token ← request (λ t, kube_Issue env t runUuid subject) (EvIssueToken runUuid subject);
    secretName ← match token with
      | Ok token => createTokenSecret runUuid token
      | Err err => mret (Err err)
      end;
    match secretName with
    | Ok secretName => measure (wifTokensIssuedTotal metrics) [cc_Uuid AppConfig];; mret secretName
    | Err _ =>
        measure (wifTokenErrors metrics) [cc_Uuid AppConfig];;
        _ ← request (λ t, kube_ReportWifTokenMissing env t runUuid) (EvReportWifTokenMissing runUuid);
        mret ""
    end.

Definition ownerReference (job : CreatedJob) : OwnerReference :=
  mkOwnerReference "batch/v1" "Job" (cj_Name job) (cj_UID job) true true.

Definition setSecretOwnerReference (secretName : string) (job : CreatedJob) : K (option error) :=
  secret ← getSecret secretName;
  match secret with
  | Err err => mret (Some (errWrap "failed to get secret for owner reference update: " err ""))
  | Ok secret =>
      err ← updateSecret (set_sec_OwnerReferences [ownerReference job] secret);
      mret match err with
      | Some err => Some (errWrap "failed to update secret with owner reference: " err "")
      | None => None
      end
  end.

(** The loop over the secrets; its errors are warnings. *)
Fixpoint ownSecrets (names : list string) (job : CreatedJob) : K unit :=
  match names with
  | [] => mret tt
  | name :: names => _ ← setSecretOwnerReference name job; ownSecrets names job
  end.

(** The secrets of a run's job: its data, and its token if it has one. *)
Definition runSecrets (runJsonSecretName wifTokenSecretName : string) : list string :=
  runJsonSecretName :: (if decide (wifTokenSecretName = "") then [] else [wifTokenSecretName]).

Fixpoint deleteSecrets (names : list string) : K unit :=
  match names with
  | [] => mret tt
  | name :: names => _ ← deleteSecret name; deleteSecrets names
  end.

Definition jobNameOf (runInfo : RunInfo) : string := "runner-" +:+ info_Uuid runInfo.
Definition runJsonSecretNameOf (runInfo : RunInfo) : string := "run-json-" +:+ info_Uuid runInfo.

(** From the literal of the job on, with the run's secrets created. *)
Definition placeJob (runInfo : RunInfo) (implType : string) (jobSpec : JobSpecTemplate)
    (serviceAccountName wifTokenSecretName : string) : K (option error) :=
  let runJsonSecretName := runJsonSecretNameOf runInfo in
  let secrets := runSecrets runJsonSecretName wifTokenSecretName in
  job ← orPanic (buildJob runInfo implType jobSpec (jobNameOf runInfo) serviceAccountName runJsonSecretName
                   wifTokenSecretName);
  created ← createJob job;
  match created with
  | Err err =>
      jobCreationError ErrorTypeJobCreation;; deleteSecrets secrets;;
      mret (Some (errWrap "failed to create job: " err ""))
  | Ok createdJob =>
      ownSecrets secrets createdJob;;
      measure (jobsCreatedTotal metrics) [cc_Uuid AppConfig];; mret None
  end.

(** [defer] of an observation: it is made on a panic as well. *)
Definition deferMeasure {A} (c : Collector) (labelValues : list string) (m : K A) : K A := λ t,
  let '(r, t) := m t in (r, (measure c labelValues t).2).

(** The body, without the measurement of its duration. *)
Definition tryCreateRunnerJob (runInfo : RunInfo) (runJsonBase64 implType : string) (jobSpec : JobSpecTemplate)
    : K (option error) :=
  missing ← getJob (jobNameOf runInfo);
  match missing with
  | None => mret None
  | Some _ =>
      let runJsonSize := estimateRunJsonSize runJsonBase64 in
      if decide (EffectiveMaxRunJsonSize < runJsonSize)%Z
      then
        jobCreationError ErrorTypeRunTooLarge;;
        mret (Some (errRunTooLarge (info_Uuid runInfo) runJsonSize EffectiveMaxRunJsonSize))
      else
        let serviceAccountName := renderSubjectTemplate serviceAccountNameTemplate runInfo in
        err ← createServiceAccount serviceAccountName (info_Uuid runInfo);
        match err with
        | Some err =>
            jobCreationError ErrorTypeJobCreation;;
            mret (Some (errWrap "failed to create service account: " err ""))
        | None =>
            err ← createRunJsonSecret (runJsonSecretNameOf runInfo) runJsonBase64 (info_Uuid runInfo);
            match err with
            | Some err =>
                jobCreationError ErrorTypeJobCreation;;
                mret (Some (errWrap "failed to create run json secret: " err ""))
            | None =>
                wifTokenSecretName ← createWifTokenSecret runInfo implType;
                placeJob runInfo implType jobSpec serviceAccountName wifTokenSecretName
            end
        end
  end.

Definition CreateRunnerJob (runInfo : RunInfo) (runJsonBase64 implType : string) (jobSpec : JobSpecTemplate)
    : K (option error) :=
  deferMeasure (jobCreationDuration metrics) [cc_Uuid AppConfig]
    (tryCreateRunnerJob runInfo runJsonBase64 implType jobSpec).

Definition isJobFinished (conditions : list JobCondition) : bool :=
  existsb (λ c, (bool_decide (jc_Type c = "Complete") || bool_decide (jc_Type c = "Failed")) &&
                bool_decide (jc_Status c = "True")) conditions.

Definition CountActiveJobs : K (result Z) :=
  let selector := "meshcloud.io/runner-id=" +:+ cc_Uuid AppConfig in
  jobs ← request (λ t, kube_ListJobs env t selector) (EvListJobs selector);
  mret match jobs with
  | Err err => Err (errWrap "failed to list jobs for capacity check: " err "")
  | Ok jobs => Ok (Z.of_nat (length (filter (λ cs, isJobFinished cs = false) jobs)))
  end.

(** ** dispatcher.go *)

Definition kubernetesDispatch (run : RunDetailsDTO) (decryptedRunJsonBase64 runnerType : string)
    : K (option error) :=
  match cc_Implementations AppConfig !! runnerType with
  | None => mret (Some (errNoHandler runnerType))
  | Some jobSpec => CreateRunnerJob (GetRunInfo run) decryptedRunJsonBase64 runnerType jobSpec
  end.

(** The dispatcher's state is what happened in the cluster so far. *)
Definition KubernetesDispatcher : Dispatcher KubeTrace := {|
  dispatch run json type t :=
    match kubernetesDispatch run json type t with
    | (Some err, t) => Some (err, t)
    | (None, _) => None
    end;
  countActive t :=
    match CountActiveJobs t with
    | (Some n, t) => (n, t)
    | (None, t) => (Ok 0%Z, t)
    end;
|}.

(** ** The OIDC issuer of the cluster *)

(** [get] is the GET of /.well-known/openid-configuration, [unmarshal] its
    issuer. *)
Definition fetchOIDCIssuer (get : result string) (unmarshal : string → result string) : result string :=
  body ← wrapErr "failed to fetch OIDC configuration: " get "";
  issuer ← wrapErr "failed to parse OIDC configuration: " (unmarshal body) "";
  if decide (issuer = "") then Err (errNew "OIDC configuration does not contain an issuer") else Ok issuer.

Definition discoverOIDCIssuer (get : result string) (unmarshal : string → result string) : string :=
  match fetchOIDCIssuer get unmarshal with Err _ => "" | Ok issuer => issuer end.
End Kubernetes.

(** ** What is left in the cluster *)

(** The name of a secret that was created. *)
Definition createdName (s : Secret) (name : string) : string :=
  if decide (sec_Name s = "") then name else sec_Name s.

(** The secrets that were created and not deleted, on top of [acc]; a delete
    that fails leaves its secret where it is. *)
Fixpoint secretsLeft (acc : list string) (t : KubeTrace) : list string :=
  match t with
  | [] => acc
  | EvCreateSecret s (Ok name) :: t => secretsLeft (createdName s name :: acc) t
  | EvDeleteSecret name None :: t => secretsLeft (filter (λ n, n ≠ name) acc) t
  | _ :: t => secretsLeft acc t
  end.

Lemma secretsLeft_app acc t1 t2 : secretsLeft acc (t1 ++ t2) = secretsLeft (secretsLeft acc t1) t2.
Proof. revert acc. induction t1 as [|[] t1 IH]; intros acc; simpl; try case_match; auto. Qed.

Definition jobsCreated (t : KubeTrace) : list (Job * CreatedJob) :=
  omap (λ e, match e with EvCreateJob job (Ok created) => Some (job, created) | _ => None end) t.

Lemma jobsCreated_app t1 t2 : jobsCreated (t1 ++ t2) = jobsCreated t1 ++ jobsCreated t2.
Proof. apply omap_app. Qed.

(** Every secret with a run's data has that name and the text that was handed
    over, and fits. *)
Definition runDataFits (name b64 : string) (e : KubeEvent) : Prop :=
  match e with
  | EvCreateSecret s _ => ∀ data, sec_Data s !! "run.json" = Some data →
      sec_Name s = name ∧ DecodeString b64 = Ok data ∧ (slen data ≤ EffectiveMaxRunJsonSize)%Z
  | _ => True
  end.

(** What was asked of the cluster: everything but the measurements. *)
Definition requests (es : KubeTrace) : KubeTrace :=
  omap (λ e, match e with EvMetric _ _ => None | e => Some e end) es.

(** The secret got the job as its owner, so that it goes with the job. *)
Definition owned (job : CreatedJob) (es : KubeTrace) (name : string) : Prop :=
  ∃ secret, EvGetSecret name (Ok secret) ∈ es ∧
    EvUpdateSecret (set_sec_OwnerReferences [ownerReference job] secret) None ∈ es.

(** The server refused to hand the secret out or to take it back with its owner. *)
Definition ownerRefused (job : CreatedJob) (es : KubeTrace) (name : string) : Prop :=
  (∃ err, EvGetSecret name (Err err) ∈ es) ∨
  ∃ secret err, EvGetSecret name (Ok secret) ∈ es ∧
    EvUpdateSecret (set_sec_OwnerReferences [ownerReference job] secret) (Some err) ∈ es.

Definition ownedUnlessRefused (job : CreatedJob) (es : KubeTrace) (name : string) : Prop :=
  owned job es name ∨ ownerRefused job es name.

Section Properties.
Context (AppConfig : ControllerConfig) (env : KubeEnv).
(* a created object has a name *)
Context (Hnames : ∀ t s name, kube_CreateSecret env t s = Ok name → name ≠ "").

(* the dispatched run: its text and what is known of it *)
Context (b64 : string) (runInfo : RunInfo).

(** No job is created and no secret touched. *)
Definition quiet (es : KubeTrace) : Prop :=
  jobsCreated es = [] ∧ (∀ acc, secretsLeft acc es = acc) ∧ Forall (runDataFits (runJsonSecretNameOf runInfo) b64) es.

Lemma quiet_nil : quiet [].
Proof. repeat split. constructor. Qed.
Lemma quiet_app es1 es2 : quiet es1 → quiet es2 → quiet (es1 ++ es2).
Proof.
  intros (H1 & H2 & H3) (H4 & H5 & H6). split_and!.
  - by rewrite jobsCreated_app, H1, H4.
  - intros acc. by rewrite secretsLeft_app, H2, H5.
  - by apply Forall_app.
Qed.

(** Goes through a list of events, of which few are about secrets. *)
Ltac each_event := repeat apply Forall_cons_2; try apply Forall_nil_2; try done.

(** A measurement in front adds its event. *)
Lemma adds_measure {B} c ls (k : K B) (R : B → KubeTrace → Prop) :
  adds k (λ b es, R b (EvMetric c ls :: es)) → adds (measure c ls;; k) R.
Proof.
  intros Hk. eapply adds_bind; [by apply (adds_request _ _ (λ _ es, es = [EvMetric c ls]))|].
  by intros _ es ->.
Qed.
Lemma returns_measure {B} c ls (k : K B) (R : B → KubeTrace → Prop) :
  returns k (λ b es, R b (EvMetric c ls :: es)) → returns (measure c ls;; k) R.
Proof.
  intros Hk. eapply returns_bind; [by apply (returns_request _ _ (λ _ es, es = [EvMetric c ls]))|].
  by intros _ es ->.
Qed.
Lemma ends_measure {B} c ls (k : K B) (R : option B → KubeTrace → Prop) :
  ends k (λ b es, R b (EvMetric c ls :: es)) → ends (measure c ls;; k) R.
Proof.
  intros Hk. eapply ends_bind; [by apply (returns_request _ _ (λ _ es, es = [EvMetric c ls]))|].
  by intros _ es ->.
Qed.

(** No secret with a run's data is created, and none is deleted. *)
Definition noData (es : KubeTrace) : Prop :=
  ∀ secret r, EvCreateSecret secret r ∈ es → sec_Data secret !! "run.json" = None.
Definition deletesNothing (es : KubeTrace) : Prop := ∀ name err, EvDeleteSecret name err ∉ es.

Lemma deletesNothing_app es1 es2 : deletesNothing es1 → deletesNothing es2 → deletesNothing (es1 ++ es2).
Proof. unfold deletesNothing. set_solver. Qed.

Lemma returns_createServiceAccount name runID :
  returns (createServiceAccount AppConfig env name runID) (λ _ es, quiet es ∧ noData es ∧ deletesNothing es).
Proof.
  unfold createServiceAccount. eapply returns_bind.
  { by apply (returns_request _ _ (λ r es, es = [EvGetServiceAccount name r])). }
  intros err es ->. destruct err.
  - eapply returns_bind.
    { by apply (returns_request _ _ (λ r es, es = [EvCreateServiceAccount name (runLabels AppConfig runID) r])). }
    intros err es ->. destruct err; apply returns_measure, returns_ret;
      (split_and!; [repeat split; repeat constructor|unfold noData; set_solver|unfold deletesNothing; set_solver]).
  - apply returns_ret.
    split_and!; [repeat split; repeat constructor|unfold noData; set_solver|unfold deletesNothing; set_solver].
Qed.

(** Decoding never yields more than the estimate. *)
Lemma decodeQuads_quads n : ∀ s bytes, String.length s ≤ n → decodeQuads s = Some bytes →
  ∃ k, String.length s = 4 * k ∧ String.length bytes ≤ 3 * k.
Proof.
  induction n as [|n IH]; intros s bytes Hn Hd.
  { destruct s; [|simpl in Hn; lia]. simplify_eq/=. by exists 0. }
  destruct s as [|a [|b [|c [|d s]]]]; [simplify_eq/=; by exists 0|done..|].
  cbn [decodeQuads] in Hd. repeat (case_match || simplify_option_eq); simplify_eq.
  1,2: exists 1; destruct_and?; subst; simpl; lia.
  match goal with H : decodeQuads _ = Some _ |- _ => apply IH in H as (k & Hs & Hb); [|simpl in Hn; lia] end.
  exists (S k). simpl. lia.
Qed.

Lemma length_stripNewlines s : String.length (stripNewlines s) ≤ String.length s.
Proof. induction s as [|c s IH]; simpl; [lia|]. case_decide; simpl; lia. Qed.

Lemma estimate_bound bytes : DecodeString b64 = Ok bytes → (slen bytes ≤ estimateRunJsonSize b64)%Z.
Proof.
  unfold DecodeString, estimateRunJsonSize, DecodedLen, slen. intros Hd.
  destruct (decodeQuads (stripNewlines b64)) as [bs|] eqn:Hq; [|done]. injection Hd as ->.
  apply (decodeQuads_quads _ _ _ (Nat.le_refl _)) in Hq as (k & Hl & Hb).
  pose proof (length_stripNewlines b64). assert (Z.of_nat k ≤ Z.of_nat (String.length b64) / 4)%Z; [|lia].
  apply Z.div_le_lower_bound; lia.
Qed.

(** The run's data is in the cluster under its name: this dispatch put it
    there, or found a secret of that name, which it leaves as it is. *)
Definition dataCreated (es : KubeTrace) : Prop :=
  ∃ data name, DecodeString b64 = Ok data ∧
    EvCreateSecret (runJsonSecret AppConfig (runJsonSecretNameOf runInfo) (info_Uuid runInfo) data) (Ok name) ∈ es.
Definition dataFound (es : KubeTrace) : Prop :=
  (∃ secret, EvGetSecret (runJsonSecretNameOf runInfo) (Ok secret) ∈ es) ∧ noData es.
Definition dataPlaced (es : KubeTrace) : Prop := dataCreated es ∨ dataFound es.

Lemma returns_createRunJsonSecret :
  let name := runJsonSecretNameOf runInfo in
  (estimateRunJsonSize b64 ≤ EffectiveMaxRunJsonSize)%Z →
  returns (createRunJsonSecret AppConfig env name b64 (info_Uuid runInfo))
    (λ err es, jobsCreated es = [] ∧ Forall (runDataFits (runJsonSecretNameOf runInfo) b64) es ∧ deletesNothing es ∧
       match err with
       | Some _ => ∀ acc, secretsLeft acc es = acc
       | None => dataPlaced es ∧ ∀ acc, secretsLeft acc es = acc ∨ secretsLeft acc es = name :: acc
       end).
Proof.
  intros name Hsize. unfold createRunJsonSecret. destruct (DecodeString b64) as [bytes|e] eqn:Hd.
  2: { apply returns_ret. split_and!; [done|constructor|by intros ? ? ?%not_elem_of_nil|done]. }
  eapply returns_bind. { by apply (returns_request _ _ (λ r es, es = [EvGetSecret name r])). }
  intros r es ->. destruct r as [s|e].
  { apply returns_ret. split_and!; [done|repeat constructor|intros ? ?; set_solver| |by left].
    right. split; [exists s; set_solver|unfold noData; set_solver]. }
  destruct (kube_IsNotFound env e).
  2: { apply returns_ret. split_and!; [done|repeat constructor|intros ? ?; set_solver|done]. }
  eapply returns_bind.
  { by apply (returns_request _ _ (λ r es, es = [EvCreateSecret (runJsonSecret AppConfig name (info_Uuid runInfo) bytes) r])). }
  intros r es ->. apply returns_ret. split_and!; [by destruct r| |intros ? ?; set_solver|].
  - each_event. simpl. intros data. rewrite lookup_singleton_eq. intros [= <-].
    pose proof (estimate_bound _ Hd). split_and!; [done|done|lia].
  - destruct r as [n|]; [|done]. split; [|intros acc; by right]. left. exists bytes, n. split; [done|]. set_solver.
Qed.

(** The token of a run's secret is the run's own, for the registered subject. *)
Definition mintedToken (name : string) (es : KubeTrace) : Prop :=
  ∃ token, EvIssueToken (info_Uuid runInfo) (renderSubjectTemplate keycloakSubjectTemplate runInfo) (Ok token) ∈ es ∧
    EvCreateSecret (tokenSecret AppConfig (info_Uuid runInfo) token) (Ok name) ∈ es.

Lemma returns_createWifTokenSecret type :
  returns (createWifTokenSecret AppConfig env runInfo type)
    (λ name es, jobsCreated es = [] ∧ noData es ∧ deletesNothing es ∧
       (if decide (name = "") then ∀ acc, secretsLeft acc es = acc
        else (∀ acc, secretsLeft acc es = name :: acc) ∧ mintedToken name es)).
Proof.
  unfold createWifTokenSecret. case_match.
  { apply returns_ret. split_and!; [done|by intros ? ? ?%not_elem_of_nil|by intros ? ? ?%not_elem_of_nil|done]. }
  eapply returns_bind. { by apply (returns_request _ _ (λ r es, es = [EvIssueToken (info_Uuid runInfo)
    (renderSubjectTemplate keycloakSubjectTemplate runInfo) r])). }
  intros token es ->. eapply (returns_bind _ _ (λ name es', noData es' ∧ deletesNothing es' ∧ match name with
    | Ok name => ∃ t, token = Ok t ∧ name ≠ "" ∧
        es' = [EvCreateSecret (tokenSecret AppConfig (info_Uuid runInfo) t) (Ok name)]
    | Err _ => jobsCreated es' = [] ∧ ∀ acc, secretsLeft acc es' = acc end)).
  { destruct token as [t|e];
      [|apply returns_ret; split_and!; [by intros ? ? ?%not_elem_of_nil|by intros ? ? ?%not_elem_of_nil|done|done]].
    unfold createTokenSecret. eapply returns_bind.
    { apply (returns_request _ _ (λ r es, es = [EvCreateSecret (tokenSecret AppConfig (info_Uuid runInfo) t) r] ∧
        ∀ n, r = Ok n → n ≠ "")). intros u. split; [done|]. intros n. apply Hnames. }
    intros r es [-> Hn]. apply returns_ret. split_and!.
    { intros secret r' [= -> _]%list_elem_of_singleton. simpl. by rewrite lookup_singleton_ne. }
    { intros ? ?. set_solver. }
    destruct r as [n|e]; simpl; [exists t; eauto|done]. }
  intros name es (Hd & Hn & Hname). destruct name as [name|e].
  - destruct Hname as (t & -> & Hne & ->). apply returns_measure, returns_ret.
    split_and!; [done|unfold noData in *; set_solver|unfold deletesNothing in *; set_solver|].
    rewrite decide_False by done. split; [done|]. exists t. split; [left|right; left].
  - destruct Hname as (Hj & Hl). apply returns_measure. eapply returns_bind.
    { by apply (returns_request _ _ (λ r es, es = [EvReportWifTokenMissing (info_Uuid runInfo) r])). }
    intros r es' ->. apply returns_ret. rewrite app_nil_r. split_and!.
    + by rewrite !jobsCreated_app, Hj.
    + unfold noData in *. set_solver.
    + unfold deletesNothing in *. set_solver.
    + simpl. intros acc. by rewrite secretsLeft_app, Hl.
Qed.

(** Of the secrets it is asked to delete, those are left that the server did
    not delete. *)
Lemma returns_deleteSecrets names :
  returns (deleteSecrets env names)
    (λ _ es, jobsCreated es = [] ∧ noData es ∧
       ∀ acc name, name ∈ secretsLeft acc es →
         name ∈ acc ∧ (name ∈ names → ∃ err, EvDeleteSecret name (Some err) ∈ es)).
Proof.
  induction names as [|name names IH]; simpl.
  { apply returns_ret. split_and!; [done|by intros ? ? ?%not_elem_of_nil|]. intros acc n Hn. split; [done|by intros ?%not_elem_of_nil]. }
  eapply returns_bind. { by apply (returns_request _ _ (λ r es, es = [EvDeleteSecret name r])). }
  intros r es ->. eapply returns_weaken; [exact IH|]. intros _ es (Hj & Hd & Hl). split_and!.
  - by rewrite jobsCreated_app, Hj.
  - unfold noData in *. set_solver.
  - intros acc n Hn. destruct r as [err|]; simpl in Hn; apply Hl in Hn as [Hin Hfailed].
    + split; [done|]. intros [->|Hn]%elem_of_cons; [exists err; left|].
      destruct (Hfailed Hn) as [err' ?]. exists err'. by right.
    + apply list_elem_of_filter in Hin as [Hne Hin]. split; [done|]. intros [->|Hn]%elem_of_cons; [done|].
      destruct (Hfailed Hn) as [err' ?]. exists err'. by right.
Qed.

Lemma owned_mono job es es' name :
  es ⊆ es' → ownedUnlessRefused job es name → ownedUnlessRefused job es' name.
Proof. unfold ownedUnlessRefused, owned, ownerRefused. set_solver. Qed.

Lemma returns_ownSecrets names job :
  returns (ownSecrets env names job) (λ _ es, quiet es ∧ noData es ∧ Forall (ownedUnlessRefused job es) names).
Proof.
  induction names as [|name names IH]; simpl.
  { apply returns_ret. split_and!; [apply quiet_nil|by intros ? ? ?%not_elem_of_nil|constructor]. }
  eapply (returns_bind _ _ (λ _ es, quiet es ∧ noData es ∧ ownedUnlessRefused job es name)).
  { unfold setSecretOwnerReference. eapply returns_bind.
    { by apply (returns_request _ _ (λ r es, es = [EvGetSecret name r])). }
    intros r es ->. destruct r as [s|e].
    - eapply returns_bind.
      { by apply (returns_request _ _ (λ r es, es = [EvUpdateSecret (set_sec_OwnerReferences [ownerReference job] s) r])). }
      intros r es ->. apply returns_ret. split_and!; [repeat split; repeat constructor|unfold noData; set_solver|].
      destruct r as [err|]; [right; right; exists s, err|left; exists s]; split; [left|right; left|left|right; left].
    - apply returns_ret. split_and!; [repeat split; repeat constructor|unfold noData; set_solver|].
      right. left. exists e. left. }
  intros _ es (Hq & Hd & Ho). eapply returns_weaken; [exact IH|]. intros _ es' (Hq' & Hd' & Ho'). split_and!.
  - by apply quiet_app.
  - unfold noData in *. set_solver.
  - constructor; [eapply owned_mono; [|exact Ho]; set_solver|].
    eapply Forall_impl; [|exact Ho']. intros n. apply owned_mono. set_solver.
Qed.

Lemma noData_fits es : noData es → Forall (runDataFits (runJsonSecretNameOf runInfo) b64) es.
Proof.
  intros Hd. apply list.Forall_forall. intros [] Hin; try done. simpl. intros data.
  by rewrite (Hd _ _ Hin).
Qed.

Lemma buildJob_panics type spec name sa secret token :
  buildJob AppConfig env runInfo type spec name sa secret token = None →
  buildResourceRequirements env (js_Resources spec) = None.
Proof.
  unfold buildJob. destruct (wifTokenVolumes _ _ _). by destruct (buildResourceRequirements _ _).
Qed.

(** What placing the job does, with the secrets created. *)
Definition Placed (type : string) (spec : JobSpecTemplate) (sa token : string)
    (r : option (option error)) (es : KubeTrace) : Prop :=
  let secrets := runSecrets (runJsonSecretNameOf runInfo) token in
  Forall (runDataFits (runJsonSecretNameOf runInfo) b64) es ∧
  match r with
  | None => es = [] ∧ buildResourceRequirements env (js_Resources spec) = None
  | Some (Some _) => jobsCreated es = [] ∧
      ∀ acc name, name ∈ secretsLeft acc es →
        name ∈ acc ∧ (name ∈ secrets → ∃ err, EvDeleteSecret name (Some err) ∈ es)
  | Some None => (∀ acc, secretsLeft acc es = acc) ∧
      ∃ job created post, es = EvCreateJob job (Ok created) :: post ∧ jobsCreated post = [] ∧
        Forall (ownedUnlessRefused created post) secrets ∧
        buildJob AppConfig env runInfo type spec (jobNameOf runInfo) sa (runJsonSecretNameOf runInfo) token
          = Some job
  end.

Lemma ends_placeJob type spec sa token :
  ends (placeJob AppConfig env runInfo type spec sa token) (Placed type spec sa token).
Proof.
  unfold placeJob. set (secrets := runSecrets (runJsonSecretNameOf runInfo) token).
  apply ends_orPanic.
  { intros Hn%buildJob_panics. split; [constructor|done]. }
  intros job Hjob. eapply ends_bind.
  { by apply (returns_request _ _ (λ r es, es = [EvCreateJob job r])). }
  intros r es ->. destruct r as [created|e].
  - eapply ends_bind; [apply (returns_ownSecrets secrets created)|].
    intros _ es ((Hj & Hl & Hf) & Hd & Ho). apply ends_measure, ends_ret. split_and!.
    + apply noData_fits. unfold noData in *. set_solver.
    + intros acc. simpl. by rewrite secretsLeft_app, Hl.
    + exists job, created, (es ++ [EvMetric (jobsCreatedTotal metrics) [cc_Uuid AppConfig]]). split_and!; [done| | |done].
      * by rewrite jobsCreated_app, Hj.
      * eapply Forall_impl; [|exact Ho]. intros n. apply owned_mono. set_solver.
  - apply ends_measure. eapply ends_bind; [apply (returns_deleteSecrets secrets)|].
    intros _ es (Hj & Hd & Hl). apply ends_ret. rewrite app_nil_r. split_and!.
    + apply noData_fits. unfold noData in *. set_solver.
    + done.
    + intros acc n Hn. simpl in Hn. apply Hl in Hn as [? Hf]. split; [done|]. intros Hin.
      destruct (Hf Hin) as [err ?]. exists err. set_solver.
Qed.

(** What [CreateRunnerJob] did to the cluster when it panicked, returned an
    error or returned none. *)
Definition JobOutcome (type : string) (spec : JobSpecTemplate)
    (r : option (option error)) (es : KubeTrace) : Prop :=
  Forall (runDataFits (runJsonSecretNameOf runInfo) b64) es ∧
  match r with
  | None =>
      buildResourceRequirements env (js_Resources spec) = None ∧
      jobsCreated es = [] ∧ dataPlaced es ∧ deletesNothing es
  | Some (Some err) =>
      jobsCreated es = [] ∧
      (∀ name, name ∈ secretsLeft [] es → ∃ err, EvDeleteSecret name (Some err) ∈ es) ∧
      ((EffectiveMaxRunJsonSize < estimateRunJsonSize b64)%Z → err =
         errRunTooLarge (info_Uuid runInfo) (estimateRunJsonSize b64) EffectiveMaxRunJsonSize ∧
         ∃ err, requests es = [EvGetJob (jobNameOf runInfo) (Some err)])
  | Some None =>
      requests es = [EvGetJob (jobNameOf runInfo) None] ∨
      (estimateRunJsonSize b64 ≤ EffectiveMaxRunJsonSize)%Z ∧
      ∃ pre job created post token,
        es = pre ++ EvCreateJob job (Ok created) :: post ∧ jobsCreated pre = [] ∧ jobsCreated post = [] ∧
        buildJob AppConfig env runInfo type spec (jobNameOf runInfo)
          (renderSubjectTemplate serviceAccountNameTemplate runInfo) (runJsonSecretNameOf runInfo) token = Some job ∧
        dataPlaced pre ∧ (token ≠ "" → mintedToken token pre) ∧
        secretsLeft [] es ⊆ runSecrets (runJsonSecretNameOf runInfo) token ∧
        Forall (ownedUnlessRefused created post) (runSecrets (runJsonSecretNameOf runInfo) token)
  end.

(** A failure that created no secret. *)
Lemma JobOutcome_failed type spec err es :
  quiet es → (estimateRunJsonSize b64 ≤ EffectiveMaxRunJsonSize)%Z → JobOutcome type spec (Some (Some err)) es.
Proof.
  intros (Hj & Hl & Hf) Hs. split; [done|]. split_and!; [done| |intros; lia].
  rewrite Hl. by intros ? ?%not_elem_of_nil.
Qed.

Lemma mintedToken_mono name es es' : es ⊆ es' → mintedToken name es → mintedToken name es'.
Proof. intros Hs (t & H1 & H2). exists t. auto. Qed.

(** What comes before and after does not touch the run's data. *)
Lemma dataPlaced_around es0 es es' : noData es0 → noData es' → dataPlaced es → dataPlaced (es0 ++ es ++ es').
Proof.
  intros H0 H' [(data & n & Hd & Hin)|[[s Hs] Hn]]; [left; exists data, n; set_solver|].
  right. split; [exists s; set_solver|]. unfold noData in *. set_solver.
Qed.

(** The secrets are there: [es0] came before, [es1] made the run's secret if
    there was none, then comes the token's. *)
Lemma ends_place_secrets type spec es0 es1 :
  quiet es0 → noData es0 → deletesNothing es0 → jobsCreated es1 = [] →
  Forall (runDataFits (runJsonSecretNameOf runInfo) b64) es1 → deletesNothing es1 → dataPlaced es1 →
  (∀ acc, secretsLeft acc es1 = acc ∨ secretsLeft acc es1 = runJsonSecretNameOf runInfo :: acc) →
  (estimateRunJsonSize b64 ≤ EffectiveMaxRunJsonSize)%Z →
  ends (wifTokenSecretName ← createWifTokenSecret AppConfig env runInfo type;
        placeJob AppConfig env runInfo type spec (renderSubjectTemplate serviceAccountNameTemplate runInfo) wifTokenSecretName)
    (λ r es, JobOutcome type spec r (es0 ++ es1 ++ es)).
Proof.
  intros (Hj0 & Hl0 & Hf0) Hd0 Hn0 Hj1 Hf1 Hn1 Hdata Hl1 Hsize. eapply ends_bind; [apply returns_createWifTokenSecret|].
  intros token es2 (Hj2 & Hd2 & Hn2 & Ht). set (secrets := runSecrets (runJsonSecretNameOf runInfo) token).
  set (pre := es0 ++ es1 ++ es2).
  assert (jobsCreated pre = []) as Hjp by (unfold pre; by rewrite !jobsCreated_app, Hj0, Hj1, Hj2).
  assert (secretsLeft [] pre ⊆ secrets) as Hleft.
  { unfold pre. rewrite !secretsLeft_app, Hl0. unfold secrets, runSecrets. case_decide as Htok.
    - rewrite Ht. destruct (Hl1 []) as [-> | ->]; set_solver.
    - destruct Ht as [-> _]. destruct (Hl1 []) as [-> | ->]; set_solver. }
  assert (dataPlaced pre) as Hdp by by apply dataPlaced_around.
  assert (Forall (runDataFits (runJsonSecretNameOf runInfo) b64) pre) as Hfp
    by (unfold pre; repeat (apply Forall_app; split); [done..|by apply noData_fits]).
  eapply ends_weaken; [apply (ends_placeJob type spec _ token)|]. intros r es3 [Hf3 Hr].
  replace (es0 ++ es1 ++ es2 ++ es3) with (pre ++ es3) by (unfold pre; by rewrite <-!app_assoc).
  split; [by apply Forall_app|]. destruct r as [[err|]|].
  - destruct Hr as [Hj3 Hl3]. split_and!; [by rewrite jobsCreated_app, Hjp, Hj3| |intros; lia].
    intros n. rewrite secretsLeft_app. intros [Hin Hdel]%Hl3. destruct (Hdel (Hleft _ Hin)) as [err' ?].
    exists err'. set_solver.
  - destruct Hr as [Hl3 (job & created & post & -> & Hjpost & Ho & Hb)]. right. split; [done|].
    exists pre, job, created, post, token. split_and!; [done..| |by rewrite secretsLeft_app, Hl3|done].
    intros Hne. rewrite decide_False in Ht by done. destruct Ht as [_ Hm].
    eapply mintedToken_mono; [|exact Hm]. set_solver.
  - destruct Hr as [-> Hreq]. rewrite app_nil_r. split_and!; [done..|]. unfold pre. by repeat apply deletesNothing_app.
Qed.

Lemma ends_tryCreateRunnerJob type spec :
  ends (tryCreateRunnerJob AppConfig env runInfo b64 type spec) (JobOutcome type spec).
Proof.
  unfold tryCreateRunnerJob. eapply ends_bind.
  { by apply (returns_request _ _ (λ r es, es = [EvGetJob (jobNameOf runInfo) r])). }
  intros missing es ->. destruct missing as [e|].
  2: { apply ends_ret. split; [repeat constructor|]. by left. }
  case_decide as Hsize.
  { apply ends_measure, ends_ret. split; [each_event|]. split_and!; [done|by intros ? ?%not_elem_of_nil|].
    intros _. split; [done|by exists e]. }
  eapply ends_bind; [apply returns_createServiceAccount|]. intros err es0 (Hq0 & Hd0 & Hn0).
  set (es0' := [EvGetJob (jobNameOf runInfo) (Some e)] ++ es0).
  assert (quiet es0') as Hq by (apply quiet_app; [repeat split; repeat constructor|done]).
  assert (noData es0') as Hd by (unfold es0', noData in *; set_solver).
  assert (deletesNothing es0') as Hn by (unfold es0', deletesNothing in *; set_solver).
  destruct err as [err|].
  { apply ends_measure, ends_ret. rewrite app_assoc. apply JobOutcome_failed; [|lia].
    apply quiet_app; [done|repeat split; repeat constructor]. }
  eapply ends_bind; [apply returns_createRunJsonSecret; lia|].
  intros err es1 (Hj1 & Hf1 & Hn1 & Hl1). destruct err as [err|].
  - apply ends_measure, ends_ret. rewrite app_assoc. apply JobOutcome_failed; [|lia]. apply quiet_app; [done|].
    split_and!; [by rewrite jobsCreated_app, Hj1| |by apply Forall_app; split; [|repeat constructor]].
    intros acc. by rewrite secretsLeft_app, Hl1.
  - destruct Hl1 as [Hdata Hl1].
    eapply ends_weaken; [eapply (ends_place_secrets type spec _ es1 Hq Hd Hn Hj1 Hf1 Hn1 Hdata Hl1); lia|].
    intros r es2 Hout. cbv beta in Hout. unfold es0' in Hout. rewrite <-app_assoc in Hout. exact Hout.
Qed.

Lemma ends_deferMeasure {A} c ls (m : K A) (Q : option A → KubeTrace → Prop) :
  ends m (λ a es, Q a (es ++ [EvMetric c ls])) → ends (deferMeasure c ls m) Q.
Proof.
  intros Hm t. destruct (Hm t) as (es & Ht & HQ). unfold deferMeasure, measure, request.
  destruct (m t) as [r t1]; simpl in *. exists (es ++ [EvMetric c ls]). subst t1. by rewrite app_assoc.
Qed.

Lemma adds_deferMeasure {A} c ls (m : K A) (Q : A → KubeTrace → Prop) :
  adds m (λ a es, Q a (es ++ [EvMetric c ls])) → adds (deferMeasure c ls m) Q.
Proof.
  intros Hm. apply (ends_deferMeasure c ls m (λ r es, ∀ a, r = Some a → Q a es)).
  intros t. destruct (Hm t) as (es & Ht & HQ). exists es. split; [done|exact HQ].
Qed.

Lemma requests_app es1 es2 : requests (es1 ++ es2) = requests es1 ++ requests es2.
Proof. apply omap_app. Qed.

Lemma JobOutcome_measured type spec r es c ls :
  JobOutcome type spec r es → JobOutcome type spec r (es ++ [EvMetric c ls]).
Proof.
  intros [Hf H]. assert (jobsCreated (es ++ [EvMetric c ls]) = jobsCreated es) as Hj
    by (by rewrite jobsCreated_app, app_nil_r).
  assert (secretsLeft [] (es ++ [EvMetric c ls]) = secretsLeft [] es) as Hl by (by rewrite secretsLeft_app).
  assert (requests (es ++ [EvMetric c ls]) = requests es) as Hr by (by rewrite requests_app, app_nil_r).
  split; [by apply Forall_app; split; [|repeat constructor]|]. rewrite Hj. destruct r as [[err|]|].
  - rewrite Hl, Hr. destruct H as (? & Hdel & ?). split_and!; [done| |done].
    intros n Hn. destruct (Hdel n Hn) as [e ?]. exists e. set_solver.
  - rewrite Hl, Hr. destruct H as [H|(Hs & pre & job & created & post & token & -> & H1 & H2 & H3 & H4 & H5 & H6 & H7)];
      [by left|right]. split; [done|].
    exists pre, job, created, (post ++ [EvMetric c ls]), token. split_and!; [by rewrite <-app_assoc|done| |done..|].
    + by rewrite jobsCreated_app, H2.
    + eapply Forall_impl; [|exact H7]. intros n. apply owned_mono. set_solver.
  - destruct H as (? & ? & Hdata & ?). split_and!; [done..| |].
    + rewrite <-(app_nil_l (es ++ _)). apply dataPlaced_around; [unfold noData; set_solver..|done].
    + apply deletesNothing_app; [done|]. intros ? ?. set_solver.
Qed.

Lemma ends_CreateRunnerJob type spec :
  ends (CreateRunnerJob AppConfig env runInfo b64 type spec) (JobOutcome type spec).
Proof.
  apply ends_deferMeasure. eapply ends_weaken; [apply ends_tryCreateRunnerJob|].
  intros r es. apply JobOutcome_measured.
Qed.

End Properties.

(** A quantity that does not parse makes the dispatch panic, and nothing
    validates the quantities of the configuration. *)
Lemma buildResourceRequirements_panics env config :
  buildResourceRequirements env config = None ↔
  MustParse env (cmpOr (rs_Cpu (res_Requests config)) DefaultCpuRequest) = None ∨
  MustParse env (cmpOr (rs_Memory (res_Requests config)) DefaultMemoryRequest) = None ∨
  MustParse env (cmpOr (rs_Memory (res_Limits config)) DefaultMemoryLimit) = None ∨
  (rs_Cpu (res_Limits config) ≠ "" ∧ MustParse env (rs_Cpu (res_Limits config)) = None).
Proof.
  unfold buildResourceRequirements. unfold DefaultCpuLimit.
  assert (cmpOr (rs_Cpu (res_Limits config)) "" = rs_Cpu (res_Limits config)) as ->
    by (unfold cmpOr; case_decide; congruence).
  destruct (MustParse env (cmpOr _ DefaultCpuRequest)); simpl; [|naive_solver].
  destruct (MustParse env (cmpOr _ DefaultMemoryRequest)); simpl; [|naive_solver].
  destruct (MustParse env (cmpOr _ DefaultMemoryLimit)); simpl; [|naive_solver].
  case_decide; [naive_solver|]. destruct (MustParse env (rs_Cpu _)); simpl; naive_solver.
Qed.

(** ** A cluster, whose jobs never end *)

Definition exampleCluster (createJob : result CreatedJob) : KubeEnv := {|
  kube_GetJob _ _ := Some (errNew "not found");
  kube_CreateJob _ _ := createJob;
  kube_ListJobs t _ := Ok (replicate (length (jobsCreated t)) []);
  kube_GetServiceAccount _ _ := None;
  kube_CreateServiceAccount _ _ := None;
  kube_GetSecret t name :=
    if existsb (λ e, match e with EvCreateSecret _ _ => true | _ => false end) t
    then Ok (mkSecret name "" ∅ ∅ []) else Err (errNew "not found");
  kube_CreateSecret _ s := Ok (if decide (sec_Name s = "") then sec_GenerateName s +:+ "x7" else sec_Name s);
  kube_UpdateSecret _ _ := None;
  kube_DeleteSecret _ _ := None;
  kube_Issue _ _ _ := Ok "jwt";
  kube_ReportWifTokenMissing _ _ := None;
  kube_IsNotFound _ := true;
  kube_ParseQuantity q := Ok q;
  kube_envOrder := map_to_list |}.

