(* ===== verification/KubeMetrics.v ===== *)
(** * KubeMetrics: the metrics of a dispatch account for what it did

    Proves of the increments in run-controller/controller/kubernetes.go and
    wiftoken.go (modelled in Kubernetes.v, with the collectors of Metrics.v)
    that they count what happened in the cluster, each thing once. *)

From S2P Require Import Prelude Base64 Trace MeshDtos ControllerConfig Registration ControllerApi Controller Metrics Kubernetes.

(** What a dispatch leaves on record, in order: its measurements, and the
    warnings it gives meshStack about a run that starts without a token. *)
Inductive Entry := Measured (m : Measurement) | Warned (runUuid : string).

Definition recorded (es : KubeTrace) : list Entry :=
  omap (λ e, match e with
             | EvMetric c ls => Some (Measured (c, ls))
             | EvReportWifTokenMissing runUuid _ => Some (Warned runUuid)
             | _ => None
             end) es.
Definition metered (es : KubeTrace) : list Measurement :=
  omap (λ e, match e with Measured m => Some m | Warned _ => None end) (recorded es).

Section KubeMetrics.
Context (AppConfig : ControllerConfig) (env : KubeEnv) (runInfo : RunInfo).

#[local] Abbreviation uuid := (cc_Uuid AppConfig).

(** What an answer is to be recorded as. A secret without a fixed name is a
    token's; a token that could not be issued or not be stored is an error, of
    which meshStack is told. *)
Definition countsAs (e : KubeEvent) : list Entry :=
  match e with
  | EvCreateJob _ (Ok _) => [Measured (jobsCreatedTotal metrics, [uuid])]
  | EvCreateServiceAccount _ _ None => [Measured (serviceAccountsCreatedTotal metrics, [uuid])]
  | EvCreateServiceAccount _ _ (Some _) =>
      [Measured (serviceAccountCreationErrors metrics, [uuid; ErrorTypeServiceAccountCreation])]
  | EvIssueToken _ _ (Err _) => [Measured (wifTokenErrors metrics, [uuid]); Warned (info_Uuid runInfo)]
  | EvCreateSecret s r =>
      if decide (sec_Name s = "") then
        match r with
        | Ok _ => [Measured (wifTokensIssuedTotal metrics, [uuid])]
        | Err _ => [Measured (wifTokenErrors metrics, [uuid]); Warned (info_Uuid runInfo)]
        end
      else []
  | _ => []
  end.

(** The error type a failed dispatch is counted under. *)
Definition failures (err : option error) : list Entry :=
  match err with
  | None => []
  | Some (errRunTooLarge _ _ _) => [Measured (jobCreationErrors metrics, [uuid; ErrorTypeRunTooLarge])]
  | Some _ => [Measured (jobCreationErrors metrics, [uuid; ErrorTypeJobCreation])]
  end.

Definition accounted (es : KubeTrace) : Prop := recorded es = es ≫= countsAs.

Lemma recorded_app es1 es2 : recorded (es1 ++ es2) = recorded es1 ++ recorded es2.
Proof. apply omap_app. Qed.
Lemma countsAs_app (es1 es2 : KubeTrace) : (es1 ++ es2) ≫= countsAs = (es1 ≫= countsAs) ++ (es2 ≫= countsAs).
Proof. apply bind_app. Qed.
Lemma recorded_metric c ls es : recorded (EvMetric c ls :: es) = Measured (c, ls) :: recorded es.
Proof. done. Qed.
Lemma countsAs_metric c ls (es : KubeTrace) : (EvMetric c ls :: es) ≫= countsAs = es ≫= countsAs.
Proof. done. Qed.
Lemma accounted_app es1 es2 : accounted es1 → accounted es2 → accounted (es1 ++ es2).
Proof. unfold accounted. intros H1 H2. by rewrite recorded_app, countsAs_app, H1, H2. Qed.

Lemma counts_createServiceAccount name runID :
  adds (createServiceAccount AppConfig env name runID) (λ _ es, accounted es).
Proof.
  unfold createServiceAccount. eapply adds_bind.
  { by apply (adds_request _ _ (λ r es, es = [EvGetServiceAccount name r])). }
  intros err es ->. destruct err; [|by apply adds_ret]. eapply adds_bind.
  { by apply (adds_request _ _ (λ r es, es = [EvCreateServiceAccount name (runLabels AppConfig runID) r])). }
  intros err es ->. by destruct err; apply adds_measure, adds_ret.
Qed.

Lemma counts_createRunJsonSecret name b64 runID :
  name ≠ "" → adds (createRunJsonSecret AppConfig env name b64 runID) (λ _ es, accounted es).
Proof.
  intros Hname. unfold createRunJsonSecret. destruct (DecodeString b64) as [bytes|e]; [|by apply adds_ret].
  eapply adds_bind. { by apply (adds_request _ _ (λ r es, es = [EvGetSecret name r])). }
  intros r es ->. destruct r as [s|e]; [by apply adds_ret|].
  destruct (kube_IsNotFound env e); [|by apply adds_ret]. eapply adds_bind.
  { by apply (adds_request _ _ (λ r es, es = [EvCreateSecret (runJsonSecret AppConfig name runID bytes) r])). }
  intros r es ->. apply adds_ret. unfold accounted. simpl. by rewrite decide_False.
Qed.

Lemma counts_createWifTokenSecret type :
  adds (createWifTokenSecret AppConfig env runInfo type) (λ _ es, accounted es).
Proof.
  unfold createWifTokenSecret. case_match; [by apply adds_ret|].
  eapply (adds_bind _ _ (λ r es, es = [EvIssueToken (info_Uuid runInfo)
    (renderSubjectTemplate keycloakSubjectTemplate runInfo) r])); [by apply adds_request|].
  intros token es ->. eapply (adds_bind _ _ (λ name es', recorded es' = [] ∧
    ([EvIssueToken (info_Uuid runInfo) (renderSubjectTemplate keycloakSubjectTemplate runInfo) token] ++ es') ≫= countsAs =
    match name with
    | Ok _ => [Measured (wifTokensIssuedTotal metrics, [uuid])]
    | Err _ => [Measured (wifTokenErrors metrics, [uuid]); Warned (info_Uuid runInfo)] end)).
  { destruct token as [t|e]; [|by apply adds_ret]. unfold createTokenSecret. eapply adds_bind.
    { by apply (adds_request _ _ (λ r es, es = [EvCreateSecret (tokenSecret AppConfig (info_Uuid runInfo) t) r])). }
    intros r es ->. apply adds_ret. by destruct r. }
  intros name es [Hm Hc]. unfold accounted. destruct name as [name|e].
  - apply adds_measure, adds_ret. rewrite app_assoc, recorded_app, countsAs_app, Hc, recorded_app, Hm. done.
  - apply adds_measure. eapply adds_bind.
    { by apply (adds_request _ _ (λ r es, es = [EvReportWifTokenMissing (info_Uuid runInfo) r])). }
    intros r es' ->. apply adds_ret. rewrite app_assoc, recorded_app, countsAs_app, Hc, recorded_app, Hm. done.
Qed.

(** Requests about secrets and owners count as nothing. *)
Definition uncounted (es : KubeTrace) : Prop := recorded es = [] ∧ es ≫= countsAs = [].

Lemma uncounted_app es1 es2 : uncounted es1 → uncounted es2 → uncounted (es1 ++ es2).
Proof.
  intros [H1 H2] [H3 H4]. unfold uncounted. by rewrite recorded_app, countsAs_app, H1, H2, H3, H4.
Qed.

Lemma counts_deleteSecrets names : adds (deleteSecrets env names) (λ _ es, uncounted es).
Proof.
  induction names as [|name names IH]; simpl; [by apply adds_ret|]. eapply adds_bind.
  { by apply (adds_request _ _ (λ r es, es = [EvDeleteSecret name r])). }
  intros r es ->. eapply adds_weaken; [exact IH|]. intros ? es ?. by apply uncounted_app.
Qed.

Lemma counts_ownSecrets names job : adds (ownSecrets env names job) (λ _ es, uncounted es).
Proof.
  induction names as [|name names IH]; simpl; [by apply adds_ret|].
  eapply (adds_bind _ _ (λ _ es, uncounted es)).
  { unfold setSecretOwnerReference. eapply adds_bind.
    { by apply (adds_request _ _ (λ r es, es = [EvGetSecret name r])). }
    intros r es ->. destruct r as [s|e]; [|by apply adds_ret]. eapply adds_bind.
    { by apply (adds_request _ _ (λ r es, es = [EvUpdateSecret (set_sec_OwnerReferences [ownerReference job] s) r])). }
    intros r es ->. by apply adds_ret. }
  intros ? es ?. eapply adds_weaken; [exact IH|]. intros ? es' ?. by apply uncounted_app.
Qed.

(** What a part of the dispatch that ends with [err] has counted. *)
Definition Counted (err : option error) (es : KubeTrace) : Prop :=
  recorded es = (es ≫= countsAs) ++ failures err.

Lemma Counted_app err es1 es2 : accounted es1 → Counted err es2 → Counted err (es1 ++ es2).
Proof. unfold accounted, Counted. intros H1 H2. by rewrite recorded_app, countsAs_app, H1, H2, app_assoc. Qed.

Lemma counts_placeJob type spec sa token :
  adds (placeJob AppConfig env runInfo type spec sa token) Counted.
Proof.
  unfold placeJob. eapply adds_bind; [by apply (adds_orPanic _ (λ _ es, es = []))|].
  intros job es ->. eapply adds_bind. { by apply (adds_request _ _ (λ r es, es = [EvCreateJob job r])). }
  intros r es ->. unfold Counted. destruct r as [created|e].
  - eapply adds_bind; [apply counts_ownSecrets|]. intros _ es [Hm Hc]. apply adds_measure, adds_ret.
    rewrite app_nil_r, !recorded_app, !countsAs_app, Hm, Hc. done.
  - apply adds_measure. eapply adds_bind; [apply counts_deleteSecrets|]. intros _ es [Hm Hc]. apply adds_ret.
    rewrite app_nil_l, app_nil_r, recorded_app, countsAs_app.
    by rewrite recorded_metric, countsAs_metric, Hm, Hc.
Qed.

Lemma counts_tryCreateRunnerJob b64 type spec :
  adds (tryCreateRunnerJob AppConfig env runInfo b64 type spec) Counted.
Proof.
  unfold tryCreateRunnerJob. eapply adds_bind.
  { by apply (adds_request _ _ (λ r es, es = [EvGetJob (jobNameOf runInfo) r])). }
  intros missing es ->. destruct missing as [e|]; [|by apply adds_ret].
  case_decide as Hsize; [by apply adds_measure, adds_ret|].
  assert (accounted [EvGetJob (jobNameOf runInfo) (Some e)]) as H0 by done.
  eapply adds_bind; [apply counts_createServiceAccount|]. intros err es1 H1.
  destruct err as [err|]; [by apply adds_measure, adds_ret; repeat apply Counted_app|].
  eapply adds_bind; [by apply counts_createRunJsonSecret|]. intros err es2 H2.
  destruct err as [err|]; [by apply adds_measure, adds_ret; repeat apply Counted_app|].
  eapply adds_bind; [apply counts_createWifTokenSecret|]. intros token es3 H3.
  eapply adds_weaken; [apply counts_placeJob|]. intros err es4 H4. by repeat apply Counted_app.
Qed.

(** Every measurement is one of a registered collector, with its labels. *)
Definition wellLabelled (m : Measurement) : Prop :=
  m.1 ∈ collectors metrics ∧ fits m.1 m.2.
Definition wellFormed (e : Entry) : Prop :=
  match e with Measured m => wellLabelled m | Warned runUuid => runUuid = info_Uuid runInfo end.

Lemma wellLabelled_used ls :
  Forall wellLabelled
    [(jobsCreatedTotal metrics, [uuid]); (serviceAccountsCreatedTotal metrics, [uuid]);
     (serviceAccountCreationErrors metrics, [uuid; ls]); (wifTokensIssuedTotal metrics, [uuid]);
     (wifTokenErrors metrics, [uuid]); (jobCreationErrors metrics, [uuid; ls]);
     (jobCreationDuration metrics, [uuid])].
Proof.
  repeat apply Forall_cons_2; [..|apply Forall_nil_2]; (split; [apply (bool_decide_unpack _); by vm_compute|done]).
Qed.

Lemma countsAs_wellFormed es : Forall wellFormed (es ≫= countsAs).
Proof.
  apply Forall_bind, list.Forall_forall. intros e _.
  pose proof (wellLabelled_used ErrorTypeServiceAccountCreation) as Hu. rewrite !list.Forall_cons in Hu.
  unfold compose, countsAs.
  repeat case_match; repeat first [apply Forall_nil_2|apply Forall_cons_2; [simpl; tauto|]].
Qed.

Lemma failures_wellFormed err : Forall wellFormed (failures err).
Proof.
  pose proof (wellLabelled_used ErrorTypeRunTooLarge) as H1. pose proof (wellLabelled_used ErrorTypeJobCreation) as H2.
  rewrite !list.Forall_cons in H1, H2. unfold failures.
  repeat case_match; first [apply Forall_nil_2|apply Forall_cons_2; [simpl; tauto|apply Forall_nil_2]].
Qed.

Lemma wellFormed_metered es : Forall wellFormed (recorded es) → Forall wellLabelled (metered es).
Proof.
  unfold metered. induction 1 as [|[m|u] l Hm _ IH]; [constructor| |exact IH]. by constructor.
Qed.

(** C31. What a dispatch that does not panic records is exactly what it did, in the order in which
    it did it: one measurement for every job, service account and token that
    was created and for every service account and token that could not be,
    with a warning to meshStack for every run whose token could not be issued
    or stored; then one error of the right type if the dispatch failed, and
    last its duration. Every measurement names a registered collector and
    gives each of its labels a value, without which it would panic. *)
Theorem CreateRunnerJob_counted (b64 type : string) (spec : JobSpecTemplate)
    (t t' : KubeTrace) (err : option error)
    (Hrun : CreateRunnerJob AppConfig env runInfo b64 type spec t = (Some err, t')) :
  ∃ es, t' = t ++ es ∧
    recorded es = (es ≫= countsAs) ++ failures err ++ [Measured (jobCreationDuration metrics, [uuid])] ∧
    Forall wellLabelled (metered es).
Proof.
  destruct (adds_run (CreateRunnerJob AppConfig env runInfo b64 type spec)
    (λ err es, recorded es = (es ≫= countsAs) ++ failures err ++ [Measured (jobCreationDuration metrics, [uuid])])
    t err t') as (es & -> & Hes); [|done|].
  { apply adds_deferMeasure. eapply adds_weaken; [apply counts_tryCreateRunnerJob|].
    intros err' es H. by rewrite recorded_app, countsAs_app, H, app_nil_r, <-app_assoc. }
  exists es. split_and!; [done|done|]. apply wellFormed_metered. rewrite Hes.
  apply Forall_app; split; [apply countsAs_wellFormed|].
  apply Forall_app; split; [apply failures_wellFormed|].
  pose proof (wellLabelled_used "") as Hu. rewrite !list.Forall_cons in Hu. constructor; [simpl; tauto|constructor].
Qed.
End KubeMetrics.

(** A token that cannot be issued: the run starts without it. *)
Definition tokenlessCluster : KubeEnv :=
  let env := exampleCluster (Ok (mkCreatedJob "runner-run-1" "uid")) in
  mkKubeEnv (kube_GetJob env) (kube_CreateJob env) (kube_ListJobs env) (kube_GetServiceAccount env)
    (kube_CreateServiceAccount env) (kube_GetSecret env) (kube_CreateSecret env) (kube_UpdateSecret env)
    (kube_DeleteSecret env) (λ _ _ _, Err (errNew "401")) (kube_ReportWifTokenMissing env)
    (kube_IsNotFound env) (kube_ParseQuantity env) (kube_envOrder env).

Lemma CreateRunnerJob_counted_witness :
  ∃ t', CreateRunnerJob exampleConfig tokenlessCluster (exampleRunInfo "d1") (EncodeToString "{}") "TERRAFORM" exampleJobSpec []
      = (Some None, t') ∧
    recorded t' = [Measured (wifTokenErrors metrics, ["uuid"]); Warned "run-1";
                   Measured (jobsCreatedTotal metrics, ["uuid"]); Measured (jobCreationDuration metrics, ["uuid"])] ∧
    ∃ es, t' = [] ++ es ∧
      recorded es = (es ≫= countsAs exampleConfig (exampleRunInfo "d1")) ++
        failures exampleConfig None ++ [Measured (jobCreationDuration metrics, [cc_Uuid exampleConfig])] ∧
      Forall wellLabelled (metered es).
Proof.
  eexists. split; [vm_compute; reflexivity|]. split; [vm_compute; reflexivity|].
  apply (CreateRunnerJob_counted exampleConfig tokenlessCluster (exampleRunInfo "d1") (EncodeToString "{}") "TERRAFORM" exampleJobSpec).
  vm_compute; reflexivity.
Defined.
