(* ===== verification/GoUrl.v ===== *)
(** * GoUrl: net/url's PathEscape and base64.RawURLEncoding

    The two text encodings the run-controller's Keycloak client and the manual
    runner use from Go's standard library. *)

From S2P Require Import Prelude Base64.

(** ** [url.PathEscape] *)

Definition isAlnum (c : ascii) : bool :=
  let n := N_of_ascii c in
  bool_decide (97 ≤ n ∧ n ≤ 122)%N || bool_decide (65 ≤ n ∧ n ≤ 90)%N || bool_decide (48 ≤ n ∧ n ≤ 57)%N.

(** What stays as it is in a path segment. *)
Definition pathUnescaped (c : ascii) : bool := isAlnum c || hasChar c "-_.~$&+:=@".

Definition hexDigit (n : N) : ascii := default "0"%char (String.get (N.to_nat n) "0123456789ABCDEF").

Fixpoint PathEscape (s : string) : string :=
  match s with
  | "" => ""
  | String c s =>
      if pathUnescaped c then String c (PathEscape s)
      else String "%" (String (hexDigit (N_of_ascii c / 16)) (String (hexDigit (N_of_ascii c mod 16))
             (PathEscape s)))
  end.

Lemma hexDigit_plain n d : (n < 16)%N → isAlnum d = false → hexDigit n ≠ d.
Proof.
  intros Hn Hd <-. revert Hd. destruct n as [|p]; [done|].
  do 4 (destruct p as [p|p|]; try done; try lia).
Qed.

(** A segment stays a segment: no separator of a URL survives. *)
Lemma PathEscape_segment s c :
  isAlnum c = false → hasChar c "-_.~$&+:=@%" = false → hasChar c (PathEscape s) = false.
Proof.
  intros Ha Hc. induction s as [|d s IH]; [done|]. simpl. unfold pathUnescaped.
  destruct (isAlnum d || hasChar d "-_.~$&+:=@") eqn:Hd; simpl.
  - rewrite IH, orb_false_r. apply bool_decide_eq_false. intros ->. rewrite Ha in Hd. simpl in Hd.
    simpl in Hc. repeat case_bool_decide; simpl in *; congruence.
  - rewrite IH, orb_false_r. pose proof (byte_lt d).
    rewrite !bool_decide_false; [done|..].
    + apply hexDigit_plain; [apply N.mod_lt; lia|done].
    + apply hexDigit_plain; [apply N.Div0.div_lt_upper_bound; lia|done].
    + intros <-. simpl in Hc. done.
Qed.

(** ** [base64.RawURLEncoding]: no padding, [-] and [_] for [+] and [/] *)

Fixpoint mapString (f : ascii → ascii) (s : string) : string :=
  match s with "" => "" | String c s => String (f c) (mapString f s) end.

Definition toUrlChar (c : ascii) : ascii :=
  if decide (c = "+"%char) then "-"%char else if decide (c = "/"%char) then "_"%char else c.
Definition fromUrlChar (c : ascii) : ascii :=
  if decide (c = "-"%char) then "+"%char else if decide (c = "_"%char) then "/"%char else c.

Fixpoint dropPadding (s : string) : string :=
  match s with
  | "" => ""
  | String c s => if decide (c = padChar) then dropPadding s else String c (dropPadding s)
  end.

Definition RawURL_EncodeToString (s : string) : string := mapString toUrlChar (dropPadding (EncodeToString s)).

(** The padding that brings a text to a multiple of four. *)
Definition paddingOf (n : nat) : string :=
  match n mod 4 with 2 => String padChar (String padChar "") | 3 => String padChar "" | _ => "" end.

Definition RawURL_DecodeString (s : string) : result string :=
  let t := stripNewlines s in
  if hasChar "+" t || hasChar "/" t || hasChar padChar t then Err (errNew "illegal base64 data")
  else match decodeQuads (mapString fromUrlChar t +:+ paddingOf (String.length t)) with
       | Some bytes => Ok bytes
       | None => Err (errNew "illegal base64 data")
       end.

Example RawURL_roundtrip_1 : RawURL_DecodeString (RawURL_EncodeToString "{>?~}") = Ok "{>?~}".
Proof. vm_compute. reflexivity. Qed.
Example RawURL_text : RawURL_EncodeToString (chr 251 +:+ chr 255) = "-_8".
Proof. vm_compute. reflexivity. Qed.
Example PathEscape_text : PathEscape "my realm/a?b" = "my%20realm%2Fa%3Fb".
Proof. vm_compute. reflexivity. Qed.
