(* ===== verification/Float64.v ===== *)
(** * Float64: whole numbers in a float64

    The subtraction of two [float64]s that are whole numbers from 0 to 2^53 is
    exact, as IEEE 754 demands; proved here of the operations of [SpecFloat],
    for the timestamps that keycloakwif/claims.go reads out of JSON. *)

From S2P Require Import Prelude.

(** [M * 2^e] is the whole number [z]. *)
Definition scaled (M e z : Z) : Prop := ((0 ≤ e ∧ z = M * 2 ^ e) ∨ (e < 0 ∧ M = z * 2 ^ (- e)))%Z.

(** The float is the whole number [z]. *)
Definition isInt (f : spec_float) (z : Z) : Prop :=
  match f with
  | S754_zero _ => z = 0%Z
  | S754_finite s m e => scaled (cond_Zopp s (Z.pos m)) e z
  | _ => False
  end.

(** A [float64] truncated towards zero. *)
Definition truncate (f : spec_float) : option Z :=
  match f with
  | S754_zero _ => Some 0%Z
  | S754_finite sgn m e =>
      let v := if decide (0 ≤ e)%Z then (Z.pos m * 2 ^ e)%Z else (Z.pos m / 2 ^ (- e))%Z in
      Some (if sgn then (- v)%Z else v)
  | _ => None
  end.

Lemma truncate_isInt f z : isInt f z → truncate f = Some z.
Proof.
  destruct f as [| | |s m e]; simpl; [by intros ->|done..|]. intros [[He ->]|[He Hm]].
  - rewrite decide_True by done. destruct s; simpl; f_equal; lia.
  - rewrite decide_False by lia. assert (0 < 2 ^ (- e))%Z by (apply Z.pow_pos_nonneg; lia).
    f_equal. destruct s; simpl in Hm; [|rewrite Hm; by apply Z.div_mul; lia].
    replace (Z.pos m) with ((- z) * 2 ^ (- e))%Z by lia. rewrite Z.div_mul by lia. lia.
Qed.

Lemma isInt_dec f : (∃ z, isInt f z) ∨ ¬ ∃ z, isInt f z.
Proof.
  destruct (truncate f) as [z|] eqn:Ht.
  - assert (Decision (isInt f z)) by (destruct f; simpl; unfold scaled; apply _).
    destruct (decide (isInt f z)) as [?|Hn]; [left; by exists z|right].
    intros [z' Hz']. pose proof (truncate_isInt _ _ Hz'). congruence.
  - right. intros [z Hz%truncate_isInt]. congruence.
Qed.

Lemma isInt_unique f x y : isInt f x → isInt f y → x = y.
Proof. intros Hx%truncate_isInt Hy%truncate_isInt. congruence. Qed.

(** ** Mantissas *)

Lemma digits2_bounds p : (2 ^ (Z.pos (digits2_pos p) - 1) ≤ Z.pos p < 2 ^ Z.pos (digits2_pos p))%Z.
Proof.
  induction p as [p IH|p IH|]; cbn [digits2_pos]; [| |done].
  all: rewrite Pos2Z.inj_succ; unfold Z.succ; rewrite Z.add_simpl_r.
  all: rewrite Z.pow_add_r by lia; replace (Z.pos (digits2_pos p)) with (Z.pos (digits2_pos p) - 1 + 1)%Z at 1 by lia.
  all: rewrite Z.pow_add_r by lia; lia.
Qed.

Lemma digits2_unique p k : (2 ^ (k - 1) ≤ Z.pos p < 2 ^ k)%Z → (0 < k)%Z → Z.pos (digits2_pos p) = k.
Proof.
  intros [Hl Hu] Hk. pose proof (digits2_bounds p) as [Hl' Hu'].
  assert (2 ^ (k - 1) < 2 ^ Z.pos (digits2_pos p))%Z as H1%Z.pow_lt_mono_r_iff by lia; [|lia..].
  assert (2 ^ (Z.pos (digits2_pos p) - 1) < 2 ^ k)%Z as H2%Z.pow_lt_mono_r_iff by lia; lia.
Qed.

Lemma digits2_scale q m k : (0 ≤ k)%Z → Z.pos m = (Z.pos q * 2 ^ k)%Z →
  Z.pos (digits2_pos m) = (Z.pos (digits2_pos q) + k)%Z.
Proof.
  intros Hk Hm. apply digits2_unique; [|lia]. rewrite Hm. pose proof (digits2_bounds q) as [Hl Hu].
  assert (0 < 2 ^ k)%Z by (apply Z.pow_pos_nonneg; lia).
  replace (Z.pos (digits2_pos q) + k - 1)%Z with (Z.pos (digits2_pos q) - 1 + k)%Z by lia.
  rewrite !Z.pow_add_r by lia. nia.
Qed.

Lemma iter_xO p d : Z.pos (Pos.iter xO p d) = (Z.pos p * 2 ^ Z.pos d)%Z.
Proof.
  induction d as [|d IH] using Pos.peano_ind; [simpl; lia|].
  rewrite Pos.iter_succ, Pos2Z.inj_succ, Z.pow_succ_r by lia. lia.
Qed.

Lemma shl_align_spec m e e' : (e' ≤ e)%Z → Z.pos (shl_align m e e').1 = (Z.pos m * 2 ^ (e - e'))%Z ∧ (shl_align m e e').2 = e'.
Proof.
  intros He. unfold shl_align. destruct (e' - e)%Z as [|d|d] eqn:Hd; [|lia|].
  - replace (e - e')%Z with 0%Z by lia. simpl. lia.
  - simpl. rewrite iter_xO. split; [|done]. do 2 f_equal. lia.
Qed.

Lemma shl_align_up m e e' : (e ≤ e')%Z → shl_align m e e' = (m, e).
Proof. intros He. unfold shl_align. by destruct (e' - e)%Z eqn:Hd; [| |lia]. Qed.

Lemma shr_exact p m : (0 < m)%Z →
  SpecFloat.iter_pos shr_1 p (Build_shr_record (m * 2 ^ Z.pos p) false false) = Build_shr_record m false false.
Proof.
  assert (∀ m, (0 < m)%Z → shr_1 (Build_shr_record (m * 2) false false) = Build_shr_record m false false) as H1.
  { intros [|k|k] Hk; [lia| |lia]. by rewrite Z.mul_comm. }
  revert m. induction p as [p IH|p IH|]; intros m Hm; cbn [SpecFloat.iter_pos].
  - replace (m * 2 ^ Z.pos p~1)%Z with (m * 2 ^ Z.pos p * 2 ^ Z.pos p * 2)%Z.
    2: { replace (Z.pos p~1) with (Z.pos p + Z.pos p + 1)%Z by lia. rewrite !Z.pow_add_r by lia. lia. }
    assert (0 < 2 ^ Z.pos p)%Z by (apply Z.pow_pos_nonneg; lia). rewrite H1 by nia. rewrite IH by nia. by apply IH.
  - replace (m * 2 ^ Z.pos p~0)%Z with (m * 2 ^ Z.pos p * 2 ^ Z.pos p)%Z.
    2: { replace (Z.pos p~0) with (Z.pos p + Z.pos p)%Z by lia. rewrite !Z.pow_add_r by lia. lia. }
    assert (0 < 2 ^ Z.pos p)%Z by (apply Z.pow_pos_nonneg; lia). rewrite IH by nia. by apply IH.
  - by apply H1.
Qed.

(** ** Rounding *)

(** A whole number below 2^53 keeps its value: the mantissa is brought to 53
    bits and no bit is lost. *)
Lemma binary_round_exact s m e q : (Z.pos q < 2 ^ 53)%Z → scaled (Z.pos m) e (Z.pos q) →
  let d := Z.pos (digits2_pos q) in
  ∃ m0, binary_round 53 1024 s m e = S754_finite s m0 (d - 53) ∧ Z.pos m0 = (Z.pos q * 2 ^ (53 - d))%Z.
Proof.
  intros Hq Hm d. pose proof (digits2_bounds q) as [Hl _]. fold d in Hl.
  assert (2 ^ (d - 1) < 2 ^ 53)%Z as Hd%Z.pow_lt_mono_r_iff by lia; [|lia..].
  assert (Z.pos (digits2_pos m) + e = d)%Z as Hdm.
  { destruct Hm as [[He Hv]|[He Hv]]; [by rewrite <-(digits2_scale m q e)|].
    rewrite (digits2_scale q m (- e)) by (done || lia). unfold d. lia. }
  assert (fexp 53 1024 d = d - 53)%Z as Hf by (unfold fexp, emin; lia).
  assert (0 < 2 ^ (53 - d))%Z as Hp by (apply Z.pow_pos_nonneg; lia).
  assert (∃ m0, Z.pos m0 = (Z.pos q * 2 ^ (53 - d))%Z) as [m0 Hm0].
  { destruct (Z.pos q * 2 ^ (53 - d))%Z as [|m0|] eqn:E; [nia| |nia]. by exists m0. }
  exists m0. split; [|done].
  assert (Z.pos (digits2_pos m0) + (d - 53) = d)%Z as Hd0.
  { rewrite (digits2_scale q m0 (53 - d)) by (done || lia). unfold d. lia. }
  unfold binary_round. rewrite Hdm, Hf.
  assert (∃ mz ez, shl_align m e (d - 53) = (mz, ez) ∧ Z.pos (digits2_pos mz) + ez = d ∧ ez ≤ d - 53 ∧
    Z.pos mz = Z.pos m0 * 2 ^ (d - 53 - ez))%Z as (mz & ez & -> & Hdz & Hez & Hmz).
  { destruct (Z.le_gt_cases (d - 53) e) as [Hle|Hgt].
    - destruct (shl_align_spec m e (d - 53) Hle) as [H1 H2]. destruct (shl_align m e (d - 53)) as [mz ez].
      simpl in H1, H2. subst ez.
      assert (Z.pos mz = Z.pos m0) as Hz.
      { rewrite H1, Hm0. destruct Hm as [[He ->]|[He ->]]; rewrite <-Z.mul_assoc, <-Z.pow_add_r by lia;
          do 2 f_equal; lia. }
      exists mz, (d - 53)%Z. split; [done|]. injection Hz as ->. rewrite Z.sub_diag. simpl. lia.
    - rewrite shl_align_up by lia. exists m, e. split; [done|]. split; [done|]. split; [lia|].
      destruct Hm as [[He Hv]|[He ->]]; [lia|]. rewrite Hm0, <-Z.mul_assoc, <-Z.pow_add_r by lia. do 2 f_equal. lia. }
  unfold binary_round_aux, shr_fexp. cbn [Zdigits2 shr_record_of_loc]. rewrite Hdz, Hf, Hmz.
  assert (shr (Build_shr_record (Z.pos m0 * 2 ^ (d - 53 - ez)) false false) ez (d - 53 - ez) =
    (Build_shr_record (Z.pos m0) false false, (d - 53)%Z)) as ->.
  { unfold shr. destruct (d - 53 - ez)%Z as [|n|] eqn:Hn; [|by rewrite shr_exact by lia; f_equal; lia|lia].
    rewrite Z.mul_1_r. f_equal. lia. }
  cbn [shr_m loc_of_shr_record round_nearest_even Zdigits2 shr_record_of_loc]. rewrite Hd0, Hf, Z.sub_diag.
  cbn [shr shr_m]. rewrite (proj2 (Z.leb_le _ _)) by lia. done.
Qed.

Lemma binary_normalize_exact M e z : (Z.abs z < 2 ^ 53)%Z → scaled M e z →
  isInt (binary_normalize 53 1024 M e false) z.
Proof.
  intros Hz HM. destruct M as [|m|m]; simpl.
  - destruct HM as [[_ ->]|[He H0]]; [lia|]. pose proof (Z.pow_pos_nonneg 2 (- e)). nia.
  - destruct z as [|q|q].
    1,3: exfalso; destruct HM as [[He H0]|[He H0]];
      [pose proof (Z.pow_pos_nonneg 2 e); nia|pose proof (Z.pow_pos_nonneg 2 (- e)); nia].
    destruct (binary_round_exact false m e q Hz HM) as (m0 & -> & Hm0). simpl.
    pose proof (digits2_bounds q) as [Hl _].
    assert (2 ^ (Z.pos (digits2_pos q) - 1) < 2 ^ 53)%Z as Hd%Z.pow_lt_mono_r_iff by lia; [|lia..].
    rewrite Hm0. unfold scaled. destruct (Z.eq_dec (Z.pos (digits2_pos q)) 53%Z) as [->|]; [left; lia|right].
    split; [lia|]. do 2 f_equal. lia.
  - destruct z as [|q|q].
    1,2: exfalso; destruct HM as [[He H0]|[He H0]];
      [pose proof (Z.pow_pos_nonneg 2 e); nia|pose proof (Z.pow_pos_nonneg 2 (- e)); nia].
    assert (scaled (Z.pos m) e (Z.pos q)) as HM' by (destruct HM; [left|right]; lia).
    destruct (binary_round_exact true m e q Hz HM') as (m0 & -> & Hm0). simpl.
    pose proof (digits2_bounds q) as [Hl _].
    assert (2 ^ (Z.pos (digits2_pos q) - 1) < 2 ^ 53)%Z as Hd%Z.pow_lt_mono_r_iff by lia; [|lia..].
    change (Z.neg m0) with (- Z.pos m0)%Z. rewrite Hm0. unfold scaled.
    destruct (Z.eq_dec (Z.pos (digits2_pos q)) 53%Z) as [->|]; [left; lia|right].
    split; [lia|]. rewrite <-Z.mul_opp_l. do 2 f_equal. lia.
Qed.

(** ** The difference *)

Lemma scaled_align s m e e' z : (e' ≤ e)%Z → scaled (cond_Zopp s (Z.pos m)) e z →
  scaled (cond_Zopp s (Z.pos (shl_align m e e').1)) e' z.
Proof.
  intros He Hm. destruct (shl_align_spec m e e' He) as [-> _].
  assert (cond_Zopp s (Z.pos m * 2 ^ (e - e')) = cond_Zopp s (Z.pos m) * 2 ^ (e - e'))%Z as ->
    by (destruct s; simpl; lia).
  revert Hm. generalize (cond_Zopp s (Z.pos m)). intros M Hm. destruct (Z.le_gt_cases 0 e') as [H0|H0].
  - left. split; [done|]. destruct Hm as [[_ ->]|]; [|lia]. rewrite <-Z.mul_assoc, <-Z.pow_add_r by lia.
    do 2 f_equal. lia.
  - right. split; [done|]. destruct Hm as [[Hp ->]|[Hn ->]]; rewrite <-Z.mul_assoc, <-Z.pow_add_r by lia;
      do 2 f_equal; lia.
Qed.

Lemma SFsub_isInt f g x y : isInt f x → isInt g y → (Z.abs (x - y) < 2 ^ 53)%Z →
  isInt (SFsub 53 1024 f g) (x - y).
Proof.
  intros Hf Hg Hxy. destruct f as [sf| | |sf mf ef], g as [sg| | |sg mg eg]; simpl in Hf, Hg; try done.
  - subst. by destruct sf, sg.
  - subst. simpl. destruct Hg as [[? ->]|[? Hg]]; [left|right]; split; try done; destruct sg; simpl in *; lia.
  - subst. simpl. by rewrite Z.sub_0_r.
  - simpl. apply binary_normalize_exact; [done|].
    apply (scaled_align _ _ _ (Z.min ef eg)) in Hf; [|lia]. apply (scaled_align _ _ _ (Z.min ef eg)) in Hg; [|lia].
    destruct Hf as [[? ->]|[? ->]], Hg as [[? ->]|[? ->]]; [left; lia|lia|lia|right; lia].
Qed.
