(* ===== verification/KeycloakClaims.v ===== *)
(** * KeycloakClaims: which tokens the issuer hands out

    Models run-controller/keycloakwif/claims.go: a token is a JWT whose
    payload has no claim but the expected ones, with the expected values, and
    about the expected lifetime. The signature is not looked at: the token
    comes from Keycloak itself. JSON, the texts of floats, durations and quoted
    strings, and the order of a map range are arguments. *)

From S2P Require Import Prelude Base64 GoUrl Registration Float64.

Definition allowedClaims : list string :=
  ["iss"; "sub"; "aud"; "azp"; "exp"; "iat"; "nbf"; "jti"; "typ"; "scope"].

Definition lifetimeTolerance : Z := 2 * Minute.

(** [strings.Split(s, c)] for one character. *)
Fixpoint SplitChar (c : ascii) (s : string) : list string :=
  match s with
  | "" => [""]
  | String d s =>
      if decide (d = c) then "" :: SplitChar c s
      else match SplitChar c s with
           | [] => [String d ""]
           | p :: ps => String d p :: ps
           end
  end.

Section Claims.
Context (parseClaims : string → result (gmap string any)).
Context (rangeOrder : gmap string any → list (string * any)).
Context (fmt_float : spec_float → string) (fmt_duration : Z → string) (quote : string → string).
(* what the processor makes of a float that is no int64 *)
Context (outOfRange : spec_float → Z).

(** [int64(f)]. *)
Definition toInt64 (f : spec_float) : Z :=
  match truncate f with
  | Some z => if decide (-(2^63) ≤ z ∧ z < 2^63)%Z then z else outOfRange f
  | None => outOfRange f
  end.

(** [time.Duration(exp-iat) * time.Second]. *)
Definition issuedFor (exp iat : spec_float) : Z := wrap64 (toInt64 (SFsub 53 1024 exp iat) * Second).

Definition isOnlyAudience (aud : any) : bool :=
  match aud with
  | anyStr s => bool_decide (s = Audience)
  | anyList [anyStr s] => bool_decide (s = Audience)
  | _ => false
  end.

(** A claim of the map; a missing one is nil. *)
Definition claim (claims : gmap string any) (name : string) : any := default anyNil (claims !! name).

(** [claims[name] != value] on interface values. *)
Definition claimIs (claims : gmap string any) (name value : string) : bool :=
  match claim claims name with anyStr s => bool_decide (s = value) | _ => false end.

Definition wrongClaim (claims : gmap string any) (name want : string) : error :=
  errNew ("token " +:+ name +:+ " is " +:+ Sprint fmt_float (claim claims name) +:+ ", want " +:+ want).

(** The loop over the claims: the first one that is not allowed. *)
Definition unexpectedClaim (claims : gmap string any) : option string :=
  option_map (λ x, x.2.1) (list_find (λ kv : string * any, kv.1 ∉ allowedClaims) (rangeOrder claims)).

Definition checkLifetime (claims : gmap string any) (lifetime : Z) : option error :=
  match claim claims "exp" with
  | anyFloat exp =>
      match claim claims "iat" with
      | anyFloat iat =>
          let issued := issuedFor exp iat in
          if decide (issued < wrap64 (lifetime - lifetimeTolerance) ∨
                     wrap64 (lifetime + lifetimeTolerance) < issued)%Z
          then Some (errNew ("token lifetime is " +:+ fmt_duration issued +:+ ", want " +:+ fmt_duration lifetime))
          else None
      | _ => Some (errNew "token has no iat claim")
      end
  | _ => Some (errNew "token has no exp claim")
  end.

Definition checkClaims (token issuer subject : string) (lifetime : Z) : option error :=
  match SplitChar "." token with
  | [_; payload; _] =>
      match RawURL_DecodeString payload with
      | Err _ => Some (errNew "token payload is not base64url")
      | Ok payload =>
          match parseClaims payload with
          | Err _ => Some (errNew "token payload is not a JSON object")
          | Ok claims =>
              match unexpectedClaim claims with
              | Some c => Some (errNew ("token has the unexpected claim " +:+ quote c))
              | None =>
                  if negb (claimIs claims "iss" issuer) then Some (wrongClaim claims "iss" issuer)
                  else if negb (claimIs claims "sub" subject) then Some (wrongClaim claims "sub" subject)
                  else if negb (claimIs claims "azp" Audience) then Some (wrongClaim claims "azp" Audience)
                  else if negb (isOnlyAudience (claim claims "aud")) then Some (wrongClaim claims "aud" Audience)
                  else checkLifetime claims lifetime
              end
          end
      end
  | _ => Some (errNew "token is not a JWT")
  end.

(** ** The tokens that pass *)

(** A time of so many seconds is the lifetime asked for, give or take two
    minutes, on a counter of nanoseconds that wraps at 64 bits: the durations
    that lie a multiple of 2^64 ns (584 years) from it are not told apart. *)
Definition withinTolerance (lifetime seconds : Z) : Prop :=
  ∃ k, (lifetime - 2 * Minute ≤ seconds * Second - k * 2 ^ 64 ≤ lifetime + 2 * Minute)%Z.

(** A timestamp in whole seconds since 1970. *)
Definition timestamp (f : spec_float) (x : Z) : Prop := isInt f x ∧ (0 ≤ x < 2 ^ 53)%Z.

(** The lifetime of a token: the difference of its timestamps. For numbers
    that are none, it is the difference of the floats, in whole seconds. *)
Inductive Lifetime (lifetime : Z) (exp iat : spec_float) : Prop :=
  | Lifetime_timestamps x i :
      timestamp exp x → timestamp iat i → withinTolerance lifetime (x - i) → Lifetime lifetime exp iat
  | Lifetime_other :
      (∀ x i, timestamp exp x → ¬ timestamp iat i) →
      withinTolerance lifetime (toInt64 (SFsub 53 1024 exp iat)) → Lifetime lifetime exp iat.

(** The payload of a token that passes, claim by claim, *)
Record AskedClaims (issuer subject : string) (claims : gmap string any) : Prop := {
  valid_names : ∀ name, is_Some (claims !! name) → name ∈ allowedClaims;
  valid_iss : claims !! "iss" = Some (anyStr issuer);
  valid_sub : claims !! "sub" = Some (anyStr subject);
  valid_azp : claims !! "azp" = Some (anyStr Audience);
  valid_aud : claims !! "aud" = Some (anyStr Audience) ∨ claims !! "aud" = Some (anyList [anyStr Audience]);
}.

(** and with its lifetime. *)
Record ValidClaims (issuer subject : string) (lifetime : Z) (claims : gmap string any) : Prop := {
  valid_asked : AskedClaims issuer subject claims;
  valid_lifetime : ∃ exp iat, claims !! "exp" = Some (anyFloat exp) ∧ claims !! "iat" = Some (anyFloat iat) ∧
    Lifetime lifetime exp iat;
}.

Lemma claimIs_true claims name value : claimIs claims name value = true ↔ claims !! name = Some (anyStr value).
Proof.
  unfold claimIs, claim. destruct (claims !! name) as [[]|]; simpl; rewrite ?bool_decide_eq_true; split; congruence.
Qed.

Lemma isOnlyAudience_true claims :
  isOnlyAudience (claim claims "aud") = true ↔
  claims !! "aud" = Some (anyStr Audience) ∨ claims !! "aud" = Some (anyList [anyStr Audience]).
Proof.
  unfold isOnlyAudience, claim. destruct (claims !! "aud") as [[| | | | |[|[| | | |s| |] []]|]|]; simpl;
    rewrite ?bool_decide_eq_true;
    (split; [intros; first [left; congruence|right; congruence|congruence]|intros [?|?]; congruence]).
Qed.

Lemma wrap64_within a b z :
  (-(2^63) ≤ a)%Z → (b < 2^63)%Z → (a ≤ wrap64 z ≤ b)%Z ↔ ∃ k, (a ≤ z - k * 2^64 ≤ b)%Z.
Proof.
  intros Ha Hb. unfold wrap64. split.
  - intros Hz. exists ((z + 2^63) / 2^64)%Z. pose proof (Z.div_mod (z + 2^63) (2^64)). lia.
  - intros [k Hk]. replace ((z + 2^63) `mod` 2^64)%Z with (z - k * 2^64 + 2^63)%Z; [lia|].
    apply (Z.mod_unique _ _ k); lia.
Qed.

Lemma timestamps_toInt64 exp iat x i :
  timestamp exp x → timestamp iat i → toInt64 (SFsub 53 1024 exp iat) = (x - i)%Z.
Proof.
  intros [Hx ?] [Hi ?]. unfold toInt64.
  rewrite (truncate_isInt _ (x - i)) by (apply SFsub_isInt; [done..|lia]). by rewrite decide_True by lia.
Qed.

Context (Hrange : ∀ m, rangeOrder m ≡ₚ map_to_list m).

Lemma unexpectedClaim_None claims :
  unexpectedClaim claims = None ↔ ∀ name, is_Some (claims !! name) → name ∈ allowedClaims.
Proof.
  unfold unexpectedClaim. destruct (list_find _ (rangeOrder claims)) as [[i [k v]]|] eqn:Hf; simpl.
  - apply list_find_Some in Hf as (Hi & Hk & _). split; [done|]. intros Hall. destruct Hk. apply Hall.
    apply list_elem_of_lookup_2 in Hi. rewrite Hrange in Hi. apply elem_of_map_to_list in Hi. simpl. by exists v.
  - apply list_find_None in Hf. split; [|done]. intros _ name [v Hv].
    rewrite list.Forall_forall in Hf. destruct (decide (name ∈ allowedClaims)) as [?|Hn]; [done|].
    exfalso. apply (Hf (name, v)); [|done]. rewrite Hrange. by apply elem_of_map_to_list.
Qed.

Lemma checkClaims_None (token issuer subject : string) (lifetime : Z) :
  checkClaims token issuer subject lifetime = None ↔
  ∃ header payload signature json claims,
    SplitChar "." token = [header; payload; signature] ∧ RawURL_DecodeString payload = Ok json ∧
    parseClaims json = Ok claims ∧ AskedClaims issuer subject claims ∧ checkLifetime claims lifetime = None.
Proof.
  unfold checkClaims.
  destruct (SplitChar "." token) as [|h [|p [|s []]]];
    try (split; [done|intros (? & ? & ? & ? & ? & ? & ? & ? & ? & ?); congruence]).
  destruct (RawURL_DecodeString p) as [json|] eqn:Hp;
    [|split; [done|intros (? & ? & ? & ? & ? & ? & ? & ? & ? & ?); congruence]].
  destruct (parseClaims json) as [claims|] eqn:Hc;
    [|split; [done|intros (? & ? & ? & ? & ? & ? & ? & ? & ? & ?); congruence]].
  transitivity (AskedClaims issuer subject claims ∧ checkLifetime claims lifetime = None).
  2: { split; [intros [??]; by exists h, p, s, json, claims|]. 
       intros (? & ? & ? & ? & claims' & ? & ? & ? & ? & ?). by replace claims with claims' by congruence. }
  transitivity (unexpectedClaim claims = None ∧ claimIs claims "iss" issuer = true ∧
    claimIs claims "sub" subject = true ∧ claimIs claims "azp" Audience = true ∧
    isOnlyAudience (claim claims "aud") = true ∧ checkLifetime claims lifetime = None).
  { destruct (unexpectedClaim claims), (claimIs claims "iss" issuer), (claimIs claims "sub" subject),
      (claimIs claims "azp" Audience), (isOnlyAudience (claim claims "aud")); simpl; intuition congruence. }
  rewrite unexpectedClaim_None, !claimIs_true, isOnlyAudience_true.
  split; [by intros (? & ? & ? & ? & ? & ?)|by intros [[] ?]].
Qed.

(** A lifetime that leaves room for the tolerance in a [time.Duration]. *)
Context (lifetime : Z) (Hlife : (0 < lifetime < 2^63 - 2 * Minute)%Z).

Lemma issuedFor_Lifetime exp iat :
  (wrap64 (lifetime - lifetimeTolerance) ≤ issuedFor exp iat ≤ wrap64 (lifetime + lifetimeTolerance))%Z ↔
  Lifetime lifetime exp iat.
Proof.
  change lifetimeTolerance with (2 * Minute)%Z. assert (0 < 2 * Minute < 2^62)%Z by done.
  rewrite !wrap64_id by (unfold in_int64; lia). unfold issuedFor. rewrite wrap64_within by lia. split.
  - intros Hw. destruct (isInt_dec exp) as [[x Hx]|Hn], (isInt_dec iat) as [[i Hi]|Hn'].
    1: destruct (decide (0 ≤ x < 2^53 ∧ 0 ≤ i < 2^53)%Z) as [[??]|Hn].
    1: { eapply (Lifetime_timestamps _ _ _ x i); [done..|]. by rewrite <-(timestamps_toInt64 exp iat). }
    all: apply Lifetime_other; [|done]; intros y j [Hy ?] [Hj ?].
    1: rewrite (isInt_unique _ _ _ Hx Hy), (isInt_unique _ _ _ Hi Hj) in Hn.
    all: naive_solver.
  - intros [x i Hx Hi Hw|_ Hw]; [|done]. by rewrite (timestamps_toInt64 _ _ _ _ Hx Hi).
Qed.

Lemma checkLifetime_None claims :
  checkLifetime claims lifetime = None ↔
  ∃ exp iat, claims !! "exp" = Some (anyFloat exp) ∧ claims !! "iat" = Some (anyFloat iat) ∧ Lifetime lifetime exp iat.
Proof.
  setoid_rewrite <-issuedFor_Lifetime.
  unfold checkLifetime, claim. destruct (claims !! "exp") as [[]|]; simpl; try naive_solver.
  destruct (claims !! "iat") as [[]|]; simpl; try naive_solver. case_decide.
  - split; [done|]. intros (e & i & [= <-] & [= <-] & ?). lia.
  - split; [|done]. intros _. eexists _, _. split_and!; [done..|lia|lia].
Qed.

(** C37. A token passes exactly when it is a JWT whose payload has only the
    expected claims: the issuer, the subject and the one audience asked for,
    and a lifetime, the difference of exp and iat, within two minutes of the
    configured one up to multiples of 2^64 nanoseconds, for a configured one
    that is positive and, with the tolerance, a duration. For timestamps in whole
    seconds below 2^53 that is the difference of the integers; for any other
    numbers it is the float64 difference cut to whole seconds. *)
Theorem checkClaims_accepts (token issuer subject : string) :
  checkClaims token issuer subject lifetime = None ↔
  ∃ header payload signature json claims,
    SplitChar "." token = [header; payload; signature] ∧ RawURL_DecodeString payload = Ok json ∧
    parseClaims json = Ok claims ∧ ValidClaims issuer subject lifetime claims.
Proof.
  rewrite checkClaims_None. setoid_rewrite checkLifetime_None.
  split; [intros (h & p & s & json & claims & ? & ? & ? & ? & ?)|intros (h & p & s & json & claims & ? & ? & ? & [? ?])];
    by exists h, p, s, json, claims.
Qed.
End Claims.

(** ** Tokens to check *)

(** An integral float, with the 53 bits the kernel's operations expect. *)
Definition floatOfZ (z : Z) : spec_float := binary_normalize 53 1024 z 0 false.

Definition exampleClaims (exp iat : Z) : gmap string any :=
  list_to_map [("iss", anyStr "https://kc/realms/r"); ("sub", anyStr "bbd:ws:d1"); ("azp", anyStr Audience);
    ("aud", anyList [anyStr Audience]); ("exp", anyFloat (floatOfZ exp)); ("iat", anyFloat (floatOfZ iat))].

Definition checkExample (exp iat : Z) : option error :=
  checkClaims (λ _, Ok (exampleClaims exp iat)) map_to_list (λ _, "") (λ _, "") (λ s, s) (λ _, 0%Z)
    "e30.e30.c2ln" "https://kc/realms/r" "bbd:ws:d1" (90 * Minute).

Example checkClaims_90_minutes : checkExample 1700005400 1700000000 = None.
Proof. vm_compute. reflexivity. Qed.
Example checkClaims_3_minutes_short : is_Some (checkExample 1700005220 1700000000).
Proof. vm_compute. eexists. reflexivity. Qed.
(** 584 years and 90 minutes also pass: the duration overflows. *)
Example checkClaims_584_years : checkExample (1700005400 + 18446744073) 1700000000 = None.
Proof. vm_compute. reflexivity. Qed.

Lemma checkClaims_accepts_witness :
  ∃ claims, ValidClaims (λ _, 0%Z) "https://kc/realms/r" "bbd:ws:d1" (90 * Minute) claims.
Proof.
  assert (checkExample 1700005400 1700000000 = None) as H by (vm_compute; reflexivity).
  unfold checkExample in H. apply checkClaims_accepts in H; [|intros m; reflexivity|vm_compute; auto].
  destruct H as (? & ? & ? & ? & claims & _ & _ & _ & Hv). exists claims. exact Hv.
Defined.
