(* ===== verification/Keycloak.v ===== *)
(** * Keycloak: a workload identity token for a run

    Models run-controller/keycloakwif/issuer.go: the login with its cached
    admin token, the client that is created for one token, the token itself,
    and the removal of the client whatever happened in between. Keycloak
    answers as the environment says; every exchange is an event. JSON, the
    randomness and the texts [fmt] prints are arguments; contexts and log
    lines are left out. *)

From S2P Require Import Prelude Base64 GoUrl Trace Registration KeycloakClaims.

Definition clientIdPrefix : string := "bb-run-".
Definition adminTokenExpiryMargin : Z := 30 * Second.

Record Config := mkConfig {
  kcc_Url : string; kcc_Realm : string; kcc_Issuer : string;
  kcc_ClientId : string; kcc_ClientSecret : string; kcc_TokenLifetime : Z;
}.

(** The part of an [Issuer] that changes. *)
Record Issuer := mkIssuer { adminToken : string; adminTokenExpiry : Z }.
Definition NewIssuer : Issuer := mkIssuer "" 0.

(** ** Exchanges *)

Inductive KcBody :=
  | NoBody
  | Form (values : list (string * string))
  | Representation (c : any).

Record KcRequest := mkKcRequest {
  kq_Method : string; kq_Url : string; kq_Authorization : option string; kq_Body : KcBody;
}.
Record KcResponse := mkKcResponse { kr_StatusCode : Z; kr_Location : string; kr_Body : string }.

Definition KcEvent : Type := KcRequest * result KcResponse.
Abbreviation KcTrace := (list KcEvent).
Abbreviation KC := (Trace.K KcEvent).

Record KcEnv := mkKcEnv {
  (* http.NewRequest's check of the URL, and http.Client.Do *)
  kc_NewRequestErr : string → option error;
  kc_Do : KcTrace → KcRequest → result KcResponse;
  kc_Now : KcTrace → Z;
  (* rand.Read of so many bytes *)
  kc_Random : KcTrace → nat → nat → result string;
  (* JSON: a token response, the ids of scopes, the error fields *)
  kc_decodeToken : string → result (string * Z);
  kc_decodeScopes : string → result (list string);
  kc_decodeError : string → string * string * string;
  (* what checking a token's claims depends on *)
  kc_parseClaims : string → result (gmap string any);
  kc_rangeOrder : gmap string any → list (string * any);
  kc_fmt_float : spec_float → string;
  kc_fmt_duration : Z → string;
  kc_quote : string → string;
  kc_outOfRange : spec_float → Z;
}.

Section Keycloak.
Context (config : Config) (env : KcEnv).

(** [i.http.Do], when [http.NewRequest] made a request of it. *)
Definition exchange (req : KcRequest) : KC (result KcResponse) :=
  match kc_NewRequestErr env (kq_Url req) with
  | Some err => mret (Err err)
  | None => request (λ t, kc_Do env t req) (λ r, (req, r))
  end.

Definition keycloakError (resp : KcResponse) (action : string) : error :=
  let '(e, description, message) := kc_decodeError env (kr_Body resp) in
  let detail := TrimSpace (Join [e; description; message] " ") in
  let base := action +:+ ": Keycloak returned HTTP " +:+ pretty (kr_StatusCode resp) in
  errNew (if decide (detail = "") then base else base +:+ ": " +:+ detail).

Definition adminUrl (path : string) : string :=
  kcc_Url config +:+ "/admin/realms/" +:+ PathEscape (kcc_Realm config) +:+ path.
Definition tokenUrl : string :=
  kcc_Url config +:+ "/realms/" +:+ PathEscape (kcc_Realm config) +:+ "/protocol/openid-connect/token".

Definition send (token method target : string) (body : KcBody) : KC (result KcResponse) :=
  exchange (mkKcRequest method target (Some ("Bearer " +:+ token)) body).

(** With [decode] for the response when the caller wants one. *)
Definition adminRequest {R} (token method path : string) (decode : string → result R) : KC (result R) :=
  resp ← send token method (adminUrl path) NoBody;
  mret match resp with
  | Err err => Err err
  | Ok resp =>
      if decide (kr_StatusCode resp < 200 ∨ 300 ≤ kr_StatusCode resp)%Z
      then Err (keycloakError resp (method +:+ " " +:+ default "" (head (SplitChar "?" path))))
      else decode (kr_Body resp)
  end.
Definition noResult (_ : string) : result unit := Ok tt.

(** ** Tokens *)

Definition requestToken (clientId clientSecret : string) : KC (result (string * Z)) :=
  resp ← exchange (mkKcRequest "POST" tokenUrl None
    (Form [("client_id", clientId); ("client_secret", clientSecret); ("grant_type", "client_credentials")]));
  mret match resp with
  | Err err => Err err
  | Ok resp =>
      if decide (kr_StatusCode resp ≠ 200%Z) then Err (keycloakError resp "token request")
      else
        match kc_decodeToken env (kr_Body resp) with
        | Err err => Err (errWrap "token response: " err "")
        | Ok token =>
            if decide (token.1 = "") then Err (errNew "token response has no access_token") else Ok token
        end
  end.

Definition adminAccessToken (i : Issuer) : KC (result string * Issuer) :=
  now ← observe (kc_Now env);
  if decide (adminToken i ≠ "" ∧ (now < adminTokenExpiry i)%Z) then mret (Ok (adminToken i), i)
  else
    token ← requestToken (kcc_ClientId config) (kcc_ClientSecret config);
    match token with
    | Err err => mret (Err (errWrap "admin login: " err ""), i)
    | Ok (accessToken, expiresIn) =>
        now ← observe (kc_Now env);
        let i := mkIssuer accessToken (now + wrap64 (wrap64 (expiresIn * Second) - adminTokenExpiryMargin)) in
        mret (Ok accessToken, i)
    end.

Definition clientCredentialsToken (clientId clientSecret : string) : KC (result string) :=
  token ← requestToken clientId clientSecret;
  mret match token with
  | Err err => Err (errWrap ("token for client " +:+ clientId +:+ ": ") err "")
  | Ok (accessToken, _) => Ok accessToken
  end.

(** ** Clients *)

(** [location[strings.LastIndex(location, "/")+1:]]. *)
Fixpoint lastSegment (s : string) : string :=
  match s with
  | "" => ""
  | String c s' =>
      if hasChar "/" s' then lastSegment s' else if decide (c = "/"%char) then s' else s
  end.

Definition hardcodedClaimMapper (claim value : string) : any := anyMap [
  ("name", anyStr claim);
  ("protocol", anyStr "openid-connect");
  ("protocolMapper", anyStr "oidc-hardcoded-claim-mapper");
  ("config", anyMap [
    ("claim.name", anyStr claim);
    ("claim.value", anyStr value);
    ("jsonType.label", anyStr "String");
    ("access.token.claim", anyStr "true");
    ("id.token.claim", anyStr "false");
    ("userinfo.token.claim", anyStr "false");
    ("introspection.token.claim", anyStr "false")])].

(** What [json.Marshal] gets; a float of seconds is cut to an integer. *)
Definition representation (clientId clientSecret subject : string) : any := anyMap [
  ("clientId", anyStr clientId);
  ("enabled", anyBool true);
  ("protocol", anyStr "openid-connect");
  ("publicClient", anyBool false);
  ("clientAuthenticatorType", anyStr "client-secret");
  ("secret", anyStr clientSecret);
  ("standardFlowEnabled", anyBool false);
  ("implicitFlowEnabled", anyBool false);
  ("directAccessGrantsEnabled", anyBool false);
  ("serviceAccountsEnabled", anyBool true);
  ("fullScopeAllowed", anyBool false);
  ("defaultClientScopes", anyList []);
  ("optionalClientScopes", anyList []);
  ("attributes", anyMap [
    ("access.token.lifespan", anyStr (pretty (Z.quot (kcc_TokenLifetime config) Second)));
    ("client.use.lightweight.access.token.enabled", anyStr "false")]);
  ("protocolMappers", anyList [
    hardcodedClaimMapper "sub" subject;
    hardcodedClaimMapper "azp" Audience;
    anyMap [
      ("name", anyStr "aud");
      ("protocol", anyStr "openid-connect");
      ("protocolMapper", anyStr "oidc-audience-mapper");
      ("config", anyMap [
        ("included.custom.audience", anyStr Audience);
        ("access.token.claim", anyStr "true");
        ("id.token.claim", anyStr "false");
        ("introspection.token.claim", anyStr "false")])]])].

Definition createClient (token clientId clientSecret subject : string) : KC (result string) :=
  resp ← send token "POST" (adminUrl "/clients") (Representation (representation clientId clientSecret subject));
  mret match resp with
  | Err err => Err err
  | Ok resp =>
      if decide (kr_StatusCode resp ≠ 201%Z) then Err (keycloakError resp ("create client " +:+ clientId))
      else
        let id := lastSegment (kr_Location resp) in
        if decide (id = "") then Err (errNew ("create client " +:+ clientId +:+ ": Keycloak returned no Location header"))
        else Ok id
  end.

Definition clientPath (id : string) : string := "/clients/" +:+ PathEscape id.

Fixpoint removeScopes (token path : string) (scopes : list string) : KC (option error) :=
  match scopes with
  | [] => mret None
  | scope :: scopes =>
      r ← adminRequest token "DELETE" (path +:+ "/" +:+ PathEscape scope) noResult;
      match r with Err err => mret (Some err) | Ok _ => removeScopes token path scopes end
  end.

Fixpoint removeClientScopesOf (token id : string) (kinds : list string) : KC (option error) :=
  match kinds with
  | [] => mret None
  | kind :: kinds =>
      let path := clientPath id +:+ "/" +:+ kind in
      scopes ← adminRequest token "GET" path (kc_decodeScopes env);
      match scopes with
      | Err err => mret (Some err)
      | Ok scopes =>
          err ← removeScopes token path scopes;
          match err with Some err => mret (Some err) | None => removeClientScopesOf token id kinds end
      end
  end.
Definition removeClientScopes (token id : string) : KC (option error) :=
  removeClientScopesOf token id ["default-client-scopes"; "optional-client-scopes"].

Definition deleteClientIgnoringCancel (token id : string) : KC unit :=
  _ ← adminRequest token "DELETE" (clientPath id) noResult;
  mret tt.

(** [randomString], the [n]-th of a call of [Issue]. *)
Definition randomString (n bytes : nat) : KC (result string) :=
  random ← observe (λ t, kc_Random env t n bytes);
  mret match random with Err err => Err err | Ok random => Ok (RawURL_EncodeToString random) end.

(** [checkClaims], on what this issuer was configured with. *)
Definition checkToken (token subject : string) : option error :=
  checkClaims (kc_parseClaims env) (kc_rangeOrder env) (kc_fmt_float env) (kc_fmt_duration env)
    (kc_quote env) (kc_outOfRange env) token (kcc_Issuer config) subject (kcc_TokenLifetime config).

(** ** Issue *)

(** With the client created: from the deferred removal on. *)
Definition issueFor (token id clientId clientSecret subject : string) : KC (result string) :=
  r ← (err ← removeClientScopes token id;
       match err with
       | Some err => mret (Err err)
       | None =>
           issued ← clientCredentialsToken clientId clientSecret;
           mret match issued with
           | Err err => Err err
           | Ok issued =>
               match checkToken issued subject with
               | Some err => Err err
               | None => Ok issued
               end
           end
       end);
  deleteClientIgnoringCancel token id;;
  mret r.

Definition Issue (runUuid subject : string) (i : Issuer) : KC (result string * Issuer) :=
  '(token, i) ← adminAccessToken i;
  match token with
  | Err err => mret (Err err, i)
  | Ok token =>
      suffix ← randomString 0 4;
      match suffix with
      | Err err => mret (Err err, i)
      | Ok suffix =>
          let clientId := clientIdPrefix +:+ runUuid +:+ "-" +:+ suffix in
          clientSecret ← randomString 1 32;
          match clientSecret with
          | Err err => mret (Err err, i)
          | Ok clientSecret =>
              id ← createClient token clientId clientSecret subject;
              match id with
              | Err err => mret (Err err, i)
              | Ok id => r ← issueFor token id clientId clientSecret subject; mret (r, i)
              end
          end
      end
  end.

(** ** What a call adds to the trace *)

Definition isCreate (e : KcEvent) : Prop :=
  kq_Method e.1 = "POST" ∧ kq_Url e.1 = adminUrl "/clients".

(** Keycloak created a client and named it [id] in the Location of its
    answer; [id] is empty when it gave none. *)
Definition created (e : KcEvent) (id : string) : Prop :=
  isCreate e ∧ ∃ resp, e.2 = Ok resp ∧ kr_StatusCode resp = 201%Z ∧ lastSegment (kr_Location resp) = id.

(** The request that removes it, as the admin [token]. *)
Definition removal (token id : string) : KcRequest :=
  mkKcRequest "DELETE" (adminUrl (clientPath id)) (Some ("Bearer " +:+ token)) NoBody.

Definition creation (token clientId clientSecret subject : string) : KcRequest :=
  mkKcRequest "POST" (adminUrl "/clients") (Some ("Bearer " +:+ token))
    (Representation (representation clientId clientSecret subject)).

Definition tokenRequest (clientId clientSecret : string) : KcRequest :=
  mkKcRequest "POST" tokenUrl None
    (Form [("client_id", clientId); ("client_secret", clientSecret); ("grant_type", "client_credentials")]).

Definition tokenGranted (e : KcEvent) (clientId clientSecret token : string) : Prop :=
  e.1 = tokenRequest clientId clientSecret ∧
  ∃ resp expiresIn, e.2 = Ok resp ∧ kr_StatusCode resp = 200%Z ∧
    kc_decodeToken env (kr_Body resp) = Ok (token, expiresIn) ∧ token ≠ "".

(** Nothing but tokens and scopes: no client comes of it. *)
Definition harmless (es : KcTrace) : Prop := Forall (λ e, ¬ isCreate e) es.

Lemma tokenUrl_adminUrl path : tokenUrl ≠ adminUrl path.
Proof.
  unfold tokenUrl, adminUrl. intros H. by apply (inj (String.append (kcc_Url config))) in H.
Qed.

Lemma harmless_token e clientId clientSecret : e.1 = tokenRequest clientId clientSecret → ¬ isCreate e.
Proof. intros H [_ Hu]. rewrite H in Hu. by apply (tokenUrl_adminUrl "/clients"). Qed.

Lemma returns_exchange req :
  returns (exchange req) (λ r es,
    (kc_NewRequestErr env (kq_Url req) = None ∧ es = [(req, r)]) ∨
    (∃ err, kc_NewRequestErr env (kq_Url req) = Some err ∧ r = Err err ∧ es = [])).
Proof.
  unfold exchange. destruct (kc_NewRequestErr env (kq_Url req)) as [err|].
  - apply returns_ret. right. by exists err.
  - apply returns_request. auto.
Qed.

Lemma returns_adminRequest {R} token method path (decode : string → result R) :
  returns (adminRequest token method path decode) (λ _ es,
    es = [] ∧ is_Some (kc_NewRequestErr env (adminUrl path)) ∨
    ∃ a, es = [(mkKcRequest method (adminUrl path) (Some ("Bearer " +:+ token)) NoBody, a)]).
Proof.
  unfold adminRequest, send. eapply returns_bind; [apply returns_exchange|].
  intros resp es Hes. apply returns_ret. rewrite app_nil_r.
  destruct Hes as [[_ ->]|(err & He & _ & ->)]; [right; by eexists|left; by eauto].
Qed.

Lemma adminRequest_harmless {R} token method path (decode : string → result R) :
  method ≠ "POST" → returns (adminRequest token method path decode) (λ _ es, harmless es).
Proof.
  intros Hm. eapply returns_weaken; [apply returns_adminRequest|].
  intros _ es [[-> _]|[a ->]]; repeat constructor. by intros [].
Qed.

Lemma removeScopes_harmless token path scopes :
  returns (removeScopes token path scopes) (λ _ es, harmless es).
Proof.
  induction scopes as [|scope scopes IH]; simpl; [by apply returns_ret; constructor|].
  eapply returns_bind; [by apply adminRequest_harmless|]. intros r es Hes.
  destruct r; [|by apply returns_ret; rewrite app_nil_r].
  eapply returns_weaken; [exact IH|]. intros. by apply Forall_app.
Qed.

Lemma removeClientScopesOf_harmless token id kinds :
  returns (removeClientScopesOf token id kinds) (λ _ es, harmless es).
Proof.
  induction kinds as [|kind kinds IH]; simpl; [by apply returns_ret; constructor|].
  eapply returns_bind; [by apply adminRequest_harmless|]. intros r es Hes.
  destruct r; [|by apply returns_ret; rewrite app_nil_r].
  eapply returns_bind; [apply removeScopes_harmless|]. intros err es1 Hes1.
  assert (harmless (es ++ es1)) by by apply Forall_app.
  destruct err; [by apply returns_ret; rewrite app_nil_r, ?app_nil_r|].
  eapply returns_weaken; [exact IH|]. intros. rewrite app_assoc. by apply Forall_app.
Qed.

Lemma returns_requestToken clientId clientSecret :
  returns (requestToken clientId clientSecret) (λ r es,
    harmless es ∧ ∀ token expiresIn, r = Ok (token, expiresIn) →
      ∃ e, es = [e] ∧ tokenGranted e clientId clientSecret token).
Proof.
  unfold requestToken. eapply returns_bind; [apply returns_exchange|].
  intros resp es Hes. apply returns_ret. rewrite app_nil_r.
  destruct Hes as [[_ ->]|(err & _ & -> & ->)]; [|by split; [constructor|]].
  split; [repeat constructor; by apply (harmless_token _ clientId clientSecret)|].
  intros token expiresIn. destruct resp as [rsp|err]; [|done].
  case_decide as Hs; [done|]. destruct (kc_decodeToken env (kr_Body rsp)) as [[tok exp]|] eqn:Hd; [|done].
  simpl. case_decide as Hne; [done|]. intros [= <- <-]. eexists. split; [done|].
  split; [done|]. exists rsp, exp. by split_and!.
Qed.

Lemma returns_clientCredentialsToken clientId clientSecret :
  returns (clientCredentialsToken clientId clientSecret) (λ r es,
    harmless es ∧ ∀ issued, r = Ok issued → ∃ e, es = [e] ∧ tokenGranted e clientId clientSecret issued).
Proof.
  unfold clientCredentialsToken. eapply returns_bind; [apply returns_requestToken|].
  intros r es [Hh Hg]. apply returns_ret. rewrite app_nil_r. split; [done|].
  destruct r as [[]|]; [|done]. intros issued [= <-]. by eapply Hg.
Qed.

Lemma returns_adminAccessToken i :
  returns (adminAccessToken i) (λ '(r, i') es,
    harmless es ∧ ∀ token, r = Ok token → adminToken i' = token ∧ token ≠ "").
Proof.
  unfold adminAccessToken. eapply returns_bind; [by apply (returns_observe _ (λ _ es, es = []))|].
  intros now ? ->. case_decide as Hc.
  { apply returns_ret. split; [constructor|]. intros ? [= <-]. naive_solver. }
  eapply returns_bind; [apply returns_requestToken|]. intros r es [Hh Hg].
  destruct r as [[accessToken expiresIn]|]; [|by apply returns_ret; rewrite app_nil_r; split].
  eapply returns_bind; [by apply (returns_observe _ (λ _ es, es = []))|].
  intros now' ? ->. apply returns_ret. rewrite !app_nil_r. split; [done|]. intros ? [= <-].
  destruct (Hg _ _ eq_refl) as (e & _ & _ & ? & ? & _ & _ & _ & ?). done.
Qed.

Lemma returns_createClient token clientId clientSecret subject :
  returns (createClient token clientId clientSecret subject) (λ r es,
    (∀ es1 e es2 id, es = es1 ++ e :: es2 → created e id →
       es2 = [] ∧ (id ≠ "" → r = Ok id) ∧ (id = "" → ∃ err, r = Err err)) ∧
    ∀ id, r = Ok id → kc_NewRequestErr env (adminUrl "/clients") = None ∧ id ≠ "" ∧
      ∃ e, es = [e] ∧ e.1 = creation token clientId clientSecret subject ∧ created e id).
Proof.
  unfold createClient, send. eapply returns_bind; [apply returns_exchange|].
  intros resp es Hes. apply returns_ret. rewrite app_nil_r.
  destruct Hes as [[Hn ->]|(err & _ & -> & ->)].
  2: { split; [|done]. by intros [|? []] e es2 id. }
  split.
  - intros [|e1 [|? ?]] e es2 id [= <- <-] (_ & r & Hr & H201 & <-); simpl in Hr. subst resp.
    rewrite decide_False by (intros []; done). split; [done|].
    split; intros Hid; [by rewrite decide_False by done|rewrite decide_True by done; by eexists].
  - intros id Hid. split; [exact Hn|]. destruct resp as [r|]; [|done]. repeat case_decide; simplify_eq.
    split; [done|]. eexists. split; [done|]. split; [done|]. split; [done|]. exists r. split; [done|].
    split; [lia|done].
Qed.

(** A path that [url.PathEscape] made appends to a URL that parses. *)
Context (Hescape : ∀ id,
  kc_NewRequestErr env (adminUrl "/clients") = None → kc_NewRequestErr env (adminUrl (clientPath id)) = None).

Lemma returns_delete token id :
  kc_NewRequestErr env (adminUrl "/clients") = None →
  returns (deleteClientIgnoringCancel token id) (λ _ es, ∃ a, es = [(removal token id, a)]).
Proof.
  intros Hn. eapply returns_bind; [apply returns_adminRequest|].
  intros _ es [[_ [err He]]|[a ->]]; [by rewrite Hescape in He|]. apply returns_ret. by exists a.
Qed.

Lemma returns_issueFor token id clientId clientSecret subject :
  kc_NewRequestErr env (adminUrl "/clients") = None →
  returns (issueFor token id clientId clientSecret subject) (λ r es,
    ∃ es' a, es = es' ++ [(removal token id, a)] ∧ harmless es' ∧
      ∀ issued, r = Ok issued → checkToken issued subject = None ∧
        ∃ scopes got, es' = scopes ++ [got] ∧ tokenGranted got clientId clientSecret issued).
Proof.
  intros Hn. unfold issueFor. eapply returns_bind with (Q := λ r es, harmless es ∧
      ∀ issued, r = Ok issued → checkToken issued subject = None ∧
        ∃ scopes got, es = scopes ++ [got] ∧ tokenGranted got clientId clientSecret issued).
  - eapply returns_bind; [apply removeClientScopesOf_harmless|]. intros err es Hes.
    destruct err as [err|]; [by apply returns_ret; rewrite app_nil_r|].
    eapply returns_bind; [apply returns_clientCredentialsToken|].
    intros r es1 [Hh Hg]. apply returns_ret. rewrite app_nil_r. split; [by apply Forall_app|].
    intros issued. destruct r as [issued'|]; [|done].
    destruct (checkToken issued' subject) eqn:Hc; [done|]. intros [= ->]. split; [done|].
    destruct (Hg _ eq_refl) as (e & -> & He). by exists es, e.
  - intros r es [Hh Hg]. eapply returns_bind; [by apply returns_delete|].
    intros _ es1 [a ->]. apply returns_ret. rewrite app_nil_r. by exists es, a.
Qed.

(** The exchanges of one call. Whenever Keycloak created a client, what follows
    ends with the request for its removal if Keycloak named it; if not, nothing
    follows at all, and the call fails. A token comes out of a call that created
    one client and was granted the token for it. *)
Definition IssueTrace (runUuid subject : string) (i' : Issuer) (r : result string) (es : KcTrace) : Prop :=
  (∀ es1 e es2 id, es = es1 ++ e :: es2 → created e id →
     (id ≠ "" → ∃ es3 a, es2 = es3 ++ [(removal (adminToken i') id, a)]) ∧
     (id = "" → es2 = [] ∧ ∃ err, r = Err err)) ∧
  ∀ token, r = Ok token → checkToken token subject = None ∧
    ∃ login e scopes got a id suffix clientSecret,
      let clientId := clientIdPrefix +:+ runUuid +:+ "-" +:+ suffix in
      es = login ++ e :: scopes ++ [got; (removal (adminToken i') id, a)] ∧
      e.1 = creation (adminToken i') clientId clientSecret subject ∧ created e id ∧ id ≠ "" ∧
      tokenGranted got clientId clientSecret token.

Lemma returns_randomString n bytes : returns (randomString n bytes) (λ _ es, es = []).
Proof.
  eapply returns_bind; [by apply (returns_observe _ (λ _ es, es = []))|].
  intros r ? ->. by apply returns_ret.
Qed.

(** Nothing was created: neither is there anything to remove. *)
Lemma harmless_IssueTrace runUuid subject i' err es :
  harmless es → IssueTrace runUuid subject i' (Err err) es.
Proof.
  intros Hh. split; [|done]. intros es1 e es2 id -> [Hc _]. apply Forall_app in Hh as [_ Hh].
  apply list.Forall_cons in Hh as [Hh _]. by destruct Hh.
Qed.

(** A list around the one place where a client can come into being. *)
Lemma split_around {A} (P : A → Prop) (pre post es1 es2 : list A) x y :
  pre ++ x :: post = es1 ++ y :: es2 → Forall (λ z, ¬ P z) pre → Forall (λ z, ¬ P z) post → P y →
  y = x ∧ es2 = post.
Proof.
  revert es1. induction pre as [|z pre IH]; intros [|w es1]; simpl; intros [= <- Heq] Hpre Hpost Hy.
  - by subst.
  - exfalso. rewrite Heq in Hpost. apply Forall_app in Hpost as [_ Hpost].
    by apply list.Forall_cons in Hpost as [? _].
  - by apply list.Forall_cons in Hpre as [? _].
  - apply list.Forall_cons in Hpre as [_ Hpre]. by apply (IH es1).
Qed.

(** A creation after harmless requests is none of them. *)
Lemma app_harmless login es es1 e es2 :
  login ++ es = es1 ++ e :: es2 → harmless login → isCreate e → ∃ es3, es1 = login ++ es3 ∧ es = es3 ++ e :: es2.
Proof.
  revert es1. induction login as [|x login IH]; intros [|y es1]; simpl; intros Heq Hh He.
  - by exists [].
  - by exists (y :: es1).
  - injection Heq as -> _. by apply list.Forall_cons in Hh as [? _].
  - injection Heq as -> Heq. apply list.Forall_cons in Hh as [_ Hh].
    destruct (IH _ Heq Hh He) as (es3 & -> & ->). by exists es3.
Qed.

(** The client was created: the removal is the last event. *)
Lemma created_IssueTrace runUuid subject i' r login e id suffix clientSecret body a :
  let clientId := clientIdPrefix +:+ runUuid +:+ "-" +:+ suffix in
  harmless login → e.1 = creation (adminToken i') clientId clientSecret subject → created e id → id ≠ "" →
  harmless body →
  (∀ issued, r = Ok issued → checkToken issued subject = None ∧
     ∃ scopes got, body = scopes ++ [got] ∧ tokenGranted got clientId clientSecret issued) →
  IssueTrace runUuid subject i' r (login ++ [e] ++ body ++ [(removal (adminToken i') id, a)]).
Proof.
  intros clientId Hl He Hc Hne Hb Hg. split.
  - intros es1 e' es2 id' Heq Hc'.
    assert (harmless (body ++ [(removal (adminToken i') id, a)])) as Hpost.
    { apply Forall_app. split; [exact Hb|]. repeat constructor. by intros []. }
    destruct (split_around isCreate _ _ _ _ _ _ Heq Hl Hpost (proj1 Hc')) as [-> ->].
    destruct Hc as (_ & r1 & Hr1 & _ & Hid1), Hc' as (_ & r2 & Hr2 & _ & Hid2).
    replace id' with id by congruence. split; [|done]. intros _. by exists body, a.
  - intros token Htok. destruct (Hg _ Htok) as (Hcheck & scopes & got & -> & Hgot). split; [exact Hcheck|].
    exists login, e, scopes, got, a, id, suffix, clientSecret. simpl. by rewrite <-app_assoc.
Qed.

Lemma returns_Issue runUuid subject i :
  returns (Issue runUuid subject i) (λ '(r, i') es, IssueTrace runUuid subject i' r es).
Proof.
  unfold Issue. eapply returns_bind; [apply returns_adminAccessToken|].
  intros [[token|err] i'] login [Hh Htok].
  2: { apply returns_ret. rewrite app_nil_r. by apply harmless_IssueTrace. }
  destruct (Htok _ eq_refl) as [<- _]. clear Htok.
  eapply returns_bind; [apply returns_randomString|]. intros [suffix|err] ? ->.
  2: { apply returns_ret. rewrite ?app_nil_r. by apply harmless_IssueTrace. }
  eapply returns_bind; [apply returns_randomString|]. intros [clientSecret|err] ? ->.
  2: { apply returns_ret. rewrite ?app_nil_r. by apply harmless_IssueTrace. }
  set (clientId := _ +:+ _). eapply returns_bind; [apply returns_createClient|].
  intros id es [Hall Hok]. destruct id as [id|err].
  2: { apply returns_ret. simpl. rewrite app_nil_r. split; [|done]. intros es1 e es2 id Heq Hc.
       apply app_harmless in Heq as (es3 & -> & ->); [|exact Hh|exact (proj1 Hc)].
       destruct (Hall _ _ _ _ eq_refl Hc) as (-> & Hid & _). split; [intros Hne; by specialize (Hid Hne)|].
       intros _. split; [done|by exists err]. }
  destruct (Hok _ eq_refl) as (Hn & Hne & e & -> & He & Hc).
  eapply returns_bind; [by apply returns_issueFor|].
  intros r es1 (es2 & a & -> & Hh2 & Hg). apply returns_ret. simpl. rewrite app_nil_r.
  by refine (created_IssueTrace runUuid subject i' r login e id suffix clientSecret es2 a _ _ _ _ _ _).
Qed.

(** C14. Issuing a token always comes to an end. When Keycloak created a client
    and named it in the Location of its answer, the very last request of the
    call, sent with the admin's token and whatever failed before it, is the one
    that removes that client. A client that Keycloak created without naming it
    is left behind: the call fails at once and sends nothing more. A token that
    is handed out passed the check of its claims and was granted to the one
    client this call created, under the run's id and the secret of this call. *)
Theorem Issue_removes_client (runUuid subject : string) (i : Issuer) (t : KcTrace) :
  ∃ r i' es, Issue runUuid subject i t = (Some (r, i'), t ++ es) ∧ IssueTrace runUuid subject i' r es.
Proof.
  destruct (returns_Issue runUuid subject i t) as ([r i'] & es & Heq & HI). by exists r, i', es.
Qed.

(** An admin token that has not expired is used again, without a request. *)
Lemma adminAccessToken_cached (i : Issuer) (t : KcTrace) :
  adminToken i ≠ "" → (kc_Now env t < adminTokenExpiry i)%Z →
  adminAccessToken i t = (Some (Ok (adminToken i), i), t).
Proof.
  intros Hne Hlt. unfold adminAccessToken, mbind, K_bind, observe. simpl. by rewrite decide_True.
Qed.
End Keycloak.

(** ** A Keycloak *)

(** It creates every client, grants every token, and has one default scope;
    removing scopes fails or not. *)
Definition exampleKeycloak (scopesRemovable : bool) : KcEnv := {|
  kc_NewRequestErr _ := None;
  kc_Do _ req :=
    if decide (kq_Method req = "POST" ∧ hasChar "?" (kq_Url req) = false ∧ kq_Authorization req ≠ None)
    then Ok (mkKcResponse 201 "https://kc/admin/realms/r/clients/c-1" "")
    else if decide (kq_Method req = "POST")
    then Ok (mkKcResponse 200 "" (match kq_Body req with
         | Form ((_, clientId) :: _) => if decide (clientId = "admin") then "admin-token" else "e30.e30.c2ln"
         | _ => "" end))
    else if decide (kq_Method req = "GET") then Ok (mkKcResponse 200 "" "scope-1")
    else Ok (mkKcResponse (if scopesRemovable then 204 else 500)%Z "" "");
  kc_Now _ := (1700000000 * Second)%Z;
  kc_Random _ n bytes := Ok (if decide (n = 0) then "abcd" else "01234567890123456789012345678901");
  kc_decodeToken body := Ok (body, 60%Z);
  kc_decodeScopes body := Ok [body];
  kc_decodeError _ := ("", "", "");
  kc_parseClaims _ := Ok (exampleClaims 1700005400 1700000000);
  kc_rangeOrder := map_to_list;
  kc_fmt_float _ := ""; kc_fmt_duration _ := ""; kc_quote s := s; kc_outOfRange _ := 0%Z |}.

Definition exampleKcConfig : Config :=
  mkConfig "https://kc" "r" "https://kc/realms/r" "admin" "s" (90 * Minute)%Z.

(** Keycloak does not let the scopes be removed: no token, and the client is
    removed all the same. *)
Lemma Issue_removes_client_witness :
  ∃ r i' es, Issue exampleKcConfig (exampleKeycloak false) "run-1" "bbd:ws:d1" NewIssuer [] = (Some (r, i'), [] ++ es) ∧
    IssueTrace exampleKcConfig (exampleKeycloak false) "run-1" "bbd:ws:d1" i' r es.
Proof. apply Issue_removes_client. intros id _. reflexivity. Defined.

Definition kinds (es : list KcEvent) : list (string * string) := map (λ e, (kq_Method e.1, kq_Url e.1)) es.

Example Issue_example_refused :
  let '(r, es) := Issue exampleKcConfig (exampleKeycloak false) "run-1" "bbd:ws:d1" NewIssuer [] in
  option_map fst r = Some (Err (errNew "DELETE /clients/c-1/default-client-scopes/scope-1: Keycloak returned HTTP 500")) ∧
  kinds es = [("POST", "https://kc/realms/r/protocol/openid-connect/token");
    ("POST", "https://kc/admin/realms/r/clients");
    ("GET", "https://kc/admin/realms/r/clients/c-1/default-client-scopes");
    ("DELETE", "https://kc/admin/realms/r/clients/c-1/default-client-scopes/scope-1");
    ("DELETE", "https://kc/admin/realms/r/clients/c-1")].
Proof. vm_compute. auto. Qed.

Example Issue_example_granted :
  let '(r, es) := Issue exampleKcConfig (exampleKeycloak true) "run-1" "bbd:ws:d1" NewIssuer [] in
  r = Some (Ok "e30.e30.c2ln", mkIssuer "admin-token" (1700000030 * Second)%Z) ∧ length es = 8.
Proof. vm_compute. auto. Qed.
