(* ===== verification/WifToken.v ===== *)
(** * WifToken: the token a job mounts is the one that was announced

    Composes the parts of a workload identity with Keycloak: the issuer made
    from the configuration (run-controller/controller/wiftoken.go), the
    registration that tells the clouds what to trust, and the file of the job.
    The clouds accept a token by its issuer, its subject and its audience, at
    the path that was registered. *)

From S2P Require Import Prelude Base64 GoUrl MeshDtos MeshAuth TfConfig Trace ControllerConfig Registration Controller Kubernetes KeycloakClaims Keycloak.

Definition wifTokenIssueTimeout : Z := 15 * Second.

(** [newWifTokenIssuer]: what it configures the issuer with. *)
Definition newWifTokenIssuer (config : KeycloakWifConfig) : Config := {|
  kcc_Url := kc_Url config;
  kcc_Realm := kc_Realm config;
  kcc_Issuer := keycloak_issuer config;
  kcc_ClientId := kc_ClientId config;
  kcc_ClientSecret := kc_ClientSecret config;
  kcc_TokenLifetime := wrap64 (kc_TokenLifetimeMinutes config * Minute) |}.

(** What a cloud checks of a payload that is meant for the run [info],
    against what meshStack was told to configure it with. *)
Definition trustedBy (wif : WifDTO) (info : RunInfo) (claims : gmap string any) (cloud : CloudWifDTO) : Prop :=
  claims !! "iss" = Some (anyStr (wif_Issuer wif)) ∧
  claims !! "sub" = Some (anyStr (renderSubjectTemplate (wif_SubjectTemplate wif) info)) ∧
  claims !! "azp" = Some (anyStr (cw_Audience cloud)) ∧
  (claims !! "aud" = Some (anyStr (cw_Audience cloud)) ∨ claims !! "aud" = Some (anyList [anyStr (cw_Audience cloud)])).

(** The secret [name] with the data [data] is at [path] in a container. *)
Definition mountedAt (volumes : list Volume) (mounts : list VolumeMount) (name : string) (data : gmap string string)
    (path text : string) : Prop :=
  ∃ volume dir key, mkVolume volume (SecretVolume name) ∈ volumes ∧ mkVolumeMount volume dir true ∈ mounts ∧
    data !! key = Some text ∧ path = dir +:+ "/" +:+ key.

Section WifToken.
Context (AppConfig : ControllerConfig) (k : KeycloakWifConfig) (env : KcEnv).
Context (Hissuer : wif_issuer (cc_WorkloadIdentityFederation AppConfig) = WifIssuerKeycloak).
Context (Hk : wifc_Keycloak (cc_WorkloadIdentityFederation AppConfig) = Some k).
Context (Hrange : ∀ m, kc_rangeOrder env m ≡ₚ map_to_list m).
Context (Hescape : ∀ id,
  kc_NewRequestErr env (adminUrl (newWifTokenIssuer k) "/clients") = None →
  kc_NewRequestErr env (adminUrl (newWifTokenIssuer k) (clientPath id)) = None).

Lemma registered_keycloak discovered :
  option_map regapi_wif (NewRegistrationApi AppConfig discovered) = Some (Some (keycloakWif (keycloak_issuer k))).
Proof.
  unfold NewRegistrationApi, registeredWif. rewrite decide_False by (by rewrite Hissuer).
  rewrite decide_True by done. by rewrite Hk.
Qed.

(** What a token was checked for, in terms of what was registered. *)
Lemma issued_trusted info i t token i' t' :
  let wif := keycloakWif (keycloak_issuer k) in
  Issue (newWifTokenIssuer k) env (info_Uuid info) (renderSubjectTemplate keycloakSubjectTemplate info) i t
    = (Some (Ok token, i'), t') →
  ∃ header payload signature json claims,
    SplitChar "." token = [header; payload; signature] ∧ RawURL_DecodeString payload = Ok json ∧
    kc_parseClaims env json = Ok claims ∧ trustedBy wif info claims (mkCloudWif Audience wifTokenPath).
Proof.
  intros wif Hi. destruct (returns_Issue (newWifTokenIssuer k) env Hescape (info_Uuid info)
    (renderSubjectTemplate keycloakSubjectTemplate info) i t) as ([r i1] & es & Heq & _ & Hok).
  rewrite Hi in Heq. injection Heq as <- <- _. destruct (Hok token eq_refl) as [Hc _].
  unfold checkToken in Hc. apply checkClaims_None in Hc; [|exact Hrange].
  destruct Hc as (h & p & s & json & claims & Hs & Hp & Hj & [] & _).
  exists h, p, s, json, claims. by split_and!.
Qed.

(** C15. With the Keycloak issuer, whatever meshStack told the clouds to trust
    is what a job gets: a token that was issued for a run has the registered
    issuer, the registered subject filled in for the run's definition, and the
    audience registered for each of the three clouds; and the secret it is
    stored in is mounted so that the token is the content of the file that was
    registered. *)
Theorem issued_token_as_registered (discovered : string) (info : RunInfo) (secretName : string) (i : Issuer)
    (t : KcTrace) (token : string) (i' : Issuer) (t' : KcTrace)
    (Hi : Issue (newWifTokenIssuer k) env (info_Uuid info) (renderSubjectTemplate keycloakSubjectTemplate info) i t
            = (Some (Ok token, i'), t'))
    (Hs : secretName ≠ "") :
  ∃ api wif, NewRegistrationApi AppConfig discovered = Some api ∧ regapi_wif api = Some wif ∧
    (∃ header payload signature json claims,
      SplitChar "." token = [header; payload; signature] ∧ RawURL_DecodeString payload = Ok json ∧
      kc_parseClaims env json = Ok claims ∧
      ∀ cloud, cloud ∈ omap id [wif_Gcp wif; wif_Aws wif; wif_Azure wif] → trustedBy wif info claims cloud) ∧
    ∀ cloud, cloud ∈ omap id [wif_Gcp wif; wif_Aws wif; wif_Azure wif] →
      let '(volumes, mounts) := wifTokenVolumes AppConfig (cc_Namespace AppConfig) secretName in
      mountedAt volumes mounts secretName (sec_Data (tokenSecret AppConfig (info_Uuid info) token))
        (cw_TokenPath cloud) token.
Proof.
  pose proof (registered_keycloak discovered) as Hreg.
  destruct (NewRegistrationApi AppConfig discovered) as [api|]; [|done]. injection Hreg as Hwif.
  exists api, (keycloakWif (keycloak_issuer k)).
  assert (∀ cloud : CloudWifDTO, cloud ∈ omap id [wif_Gcp (keycloakWif (keycloak_issuer k));
    wif_Aws (keycloakWif (keycloak_issuer k)); wif_Azure (keycloakWif (keycloak_issuer k))] →
    cloud = mkCloudWif Audience wifTokenPath) as Hcloud by (intros cloud; simpl; set_solver).
  split_and!; [done|done| |].
  - destruct (issued_trusted info i t token i' t' Hi) as (h & p & s & json & claims & H1 & H2 & H3 & H4).
    exists h, p, s, json, claims. split_and!; [done..|]. by intros cloud ->%Hcloud.
  - intros cloud ->%Hcloud. unfold wifTokenVolumes. rewrite decide_True by done. rewrite decide_False by done.
    exists wifTokenVolumeName, wifTokenMountPath, wifTokenSecretKey. split_and!; [left|left| |done].
    apply lookup_singleton_eq.
Qed.
End WifToken.

(** ** A run with a token *)

Definition exampleWif : KeycloakWifConfig := mkKeycloakWifConfig "https://kc" "r" "admin" "s" 90.
Definition exampleWifRun : RunInfo := mkRunInfo "run-1" "ws" "d1" "ws".
Definition exampleWifConfig : ControllerConfig :=
  set_cc_Wif (mkWifConfig WifIssuerKeycloak (Some exampleWif)) exampleConfig.

Lemma issued_token_as_registered_witness :
  ∃ i' t', Issue (newWifTokenIssuer exampleWif) (exampleKeycloak true) "run-1"
      (renderSubjectTemplate keycloakSubjectTemplate exampleWifRun) NewIssuer []
      = (Some (Ok "e30.e30.c2ln", i'), t') ∧
    ∃ api wif, NewRegistrationApi exampleWifConfig "" = Some api ∧ regapi_wif api = Some wif ∧
      wif_Gcp wif = Some (mkCloudWif "external-platform" "/var/run/secrets/workload-identity/meshstack/token").
Proof.
  do 2 eexists. split; [vm_compute; reflexivity|].
  edestruct (issued_token_as_registered exampleWifConfig exampleWif (exampleKeycloak true) eq_refl eq_refl
    (λ m, reflexivity _) (λ _ _, eq_refl) "" exampleWifRun "wif-token-run-1-x7" NewIssuer [])
    as (api & wif & Hapi & Hwif & _); [vm_compute; reflexivity|done|].
  exists api, wif. split; [exact Hapi|]. split; [exact Hwif|].
  revert Hapi. vm_compute. intros [= <-]. revert Hwif. vm_compute. by intros [= <-].
Defined.
