(* ===== verification/Startup.v ===== *)
(** * Startup: what a process has done before it takes its first run

    Models the entry points: run-controller/main.go with the choice of the
    dispatcher, the Kubernetes client it is made with (kubernetes.go) and the
    retried registration, and tf-block-runner/main.go with the choice of its
    mode; manual-block-runner/main.go is in ManualRun.v, and what the processes
    do from there to their exit code in Process.v. The metrics server and log
    lines are left out; [log.Fatal] and [os.Exit(1)] are errors of the result,
    a panic is [None]. *)

From S2P Require Import Prelude MeshDtos MeshAuth MeshClient TfConfig TfBinaries Crypto ControllerConfig Registration Trace Keycloak WifToken ControllerApi Controller Metrics Kubernetes.

(** ** run-controller: the registration *)

Section Registering.
(** The clock of the process starts with [registerController]: how long each
    attempt takes, when a signal comes, and which branch the [select] takes
    when both are ready at the same time. An attempt may panic. *)
Context (register : nat → option (option error)).
Context (took : nat → Z) (interrupted : option Z) (timerFirst : nat → bool).

Definition registerTimeout : Z := 10 * Minute.
Definition retryInterval : Z := 10 * Second.

(** When [ctx.Done()] is ready. *)
Definition doneAt : Z := match interrupted with Some at_ => Z.min at_ registerTimeout | None => registerTimeout end.

(** The loop from attempt [n] on, at the time [now]: how many attempts it took.
    [None] stands for a panic, or no fuel. *)
Fixpoint registerController (fuel n : nat) (now : Z) : option (result nat) :=
  match fuel with
  | 0 => None
  | S fuel =>
      err ← register n;
      match err with
      | None => Some (Ok (S n))
      | Some err =>
          let after := (now + took n + retryInterval)%Z in
          if decide (doneAt < after ∨ (doneAt = after ∧ timerFirst n = false))%Z
          then Some (Err (errWrap "Failed to register controller: " err ""))
          else registerController fuel (S n) after
      end
  end.

(** One more than the retries that fit into the timeout. *)
Definition registerAttempts : nat := 61.

Definition refused (n : nat) : Prop := ∃ err, register n = Some (Some err).

Context (Htook : ∀ n, (0 ≤ took n)%Z).

(** When attempt [n] starts, if there is one. *)
Fixpoint startOf (n : nat) : Z :=
  match n with 0 => 0 | S n => startOf n + took n + retryInterval end.

Lemma startOf_lower n : (Z.of_nat n * retryInterval ≤ startOf n)%Z.
Proof.
  induction n as [|n IH]; [done|]. cbn [startOf]. specialize (Htook n).
  replace (Z.of_nat (S n) * retryInterval)%Z with (Z.of_nat n * retryInterval + retryInterval)%Z by lia. lia.
Qed.

(** The registration of a controller that gave up after attempt [m]. *)
Definition gaveUp (m : nat) (err : error) : Prop :=
  (∃ e, register m = Some (Some e) ∧ err = errWrap "Failed to register controller: " e "") ∧
  (∀ j, j ≤ m → refused j) ∧ (doneAt ≤ startOf m + took m + retryInterval)%Z.

Context (Hregister : ∀ n, is_Some (register n)).

(** Every retry takes ten seconds, so the timeout is over after sixty. *)
Lemma registerController_ends fuel n :
  (∀ j, j < n → refused j) → (startOf n ≤ registerTimeout)%Z → registerAttempts ≤ fuel + n →
  ∃ r, registerController fuel n (startOf n) = Some r ∧
    match r with
    | Ok attempts => 0 < attempts ≤ registerAttempts ∧ register (attempts - 1) = Some None ∧
        ∀ j, j < attempts - 1 → refused j
    | Err err => ∃ m, m < registerAttempts ∧ gaveUp m err
    end.
Proof.
  revert n. induction fuel as [|fuel IH]; intros n Hprev Hnow Hfuel;
    pose proof (startOf_lower n) as Hlow; unfold registerTimeout, retryInterval, registerAttempts in *;
    [exfalso; lia64|].
  assert (n ≤ 60) as Hn by lia64. cbn [registerController].
  destruct (Hregister n) as [[err|] Hr]; rewrite Hr; simpl.
  2: { eexists. split; [done|]. simpl. rewrite Nat.sub_0_r. split_and!; [lia|lia|done|done]. }
  assert (∀ j, j < S n → refused j) as Hprev'.
  { intros j Hj. destruct (decide (j = n)) as [->|]; [by exists err|]. apply Hprev. lia. }
  case_decide as Hd.
  - eexists. split; [done|]. exists n. split; [lia|]. split; [by exists err|].
    split; [intros; apply Hprev'; lia|]. unfold retryInterval in *. destruct Hd as [Hd|[Hd _]]; lia.
  - apply (IH (S n)); [done| |lia]. cbn [startOf]. unfold retryInterval, doneAt, registerTimeout in *.
    destruct interrupted; lia.
Qed.
End Registering.

(** ** run-controller: main *)

(** The dispatcher the controller gets: the one of Kubernetes, with the issuer
    that [newKubernetesClient] left in [DiscoveredOidcIssuer] and the issuer
    of its tokens, or one by its name. *)
Inductive DispatcherChoice :=
  | KubernetesChoice (discovered : string) (wifTokens : option Config)
  | NamedChoice (name : string).

Section ControllerMain.
Context (os : OS) (lib : CryptoLib).
(* the cluster: the configuration of its client, the client, its discovery document and encoding/json on it *)
Context (getKubernetesConfig NewForConfig : option error) (oidcDocument : result string)
  (unmarshalIssuer : string → result string).
(* the dispatchers this binary contains, what creating one of them returns, and %q *)
Context (contains : string → bool) (create : string → option error) (quote : string → string).
(* meshStack at each attempt of the registration, and the clock *)
Context (httpAt : nat → HttpEnv) (marshal : MeshBuildingBlockRunnerDTO → result string).
Context (took : nat → Z) (interrupted : option Z) (timerFirst : nat → bool).

(** *** The dispatcher *)

(** [newKubernetesClient]; what counts of the client is [DiscoveredOidcIssuer]. *)
Definition newKubernetesClient (AppConfig : ControllerConfig) : result string :=
  match getKubernetesConfig with
  | Some err => Err (errWrap "failed to get kubernetes config: " err "")
  | None =>
      match NewForConfig with
      | Some err => Err (errWrap "failed to create kubernetes client: " err "")
      | None =>
          Ok (if decide (wif_issuer (cc_WorkloadIdentityFederation AppConfig) = WifIssuerKubernetes)
              then discoverOIDCIssuer oidcDocument unmarshalIssuer else "")
      end
  end.

Definition NewKubernetesDispatcher (AppConfig : ControllerConfig) : may_panic DispatcherChoice :=
  let wif := cc_WorkloadIdentityFederation AppConfig in
  match newKubernetesClient AppConfig with
  | Err err => Some (Err (errWrap "Failed to create Kubernetes client: " err ""))
  | Ok discovered =>
      if decide (wif_issuer wif = WifIssuerKeycloak) then
        k ← wifc_Keycloak wif; Some (Ok (KubernetesChoice discovered (Some (newWifTokenIssuer k))))
      else Some (Ok (KubernetesChoice discovered None))
  end.

Definition newDispatcher (AppConfig : ControllerConfig) : may_panic DispatcherChoice :=
  let name := os_Getenv os "RUNCONTROLLER_DISPATCHER" in
  if decide (name = "") then NewKubernetesDispatcher AppConfig
  else if decide (wifc_Issuer (cc_WorkloadIdentityFederation AppConfig) = WifIssuerKeycloak)
  then Some (Err (errNew ("The " +:+ name +:+ " dispatcher cannot issue Keycloak workload identity tokens; " +:+
         "set workloadIdentityFederation.issuer to kubernetes or off")))
  else if negb (contains name)
  then Some (Err (errNew ("This binary does not contain the dispatcher " +:+ quote name +:+
         "; build it with -tags inprocess")))
  else
    match create name with
    | Some err => Some (Err (errWrap ("Failed to create the " +:+ name +:+ " dispatcher: ") err ""))
    | None => Some (Ok (NamedChoice name))
    end.

(** [DiscoveredOidcIssuer] once the dispatcher is there. *)
Definition discoveredBy (dispatcher : DispatcherChoice) : string :=
  match dispatcher with KubernetesChoice discovered _ => discovered | NamedChoice _ => "" end.

(** *** main *)

(** What the polling starts with. *)
Record ControllerStart := mkControllerStart {
  cs_Config : ControllerConfig;
  cs_Dispatcher : DispatcherChoice;
  cs_Attempts : nat;
  cs_Crypto : MeshCertBasedCrypto;
}.

Definition bindMain {X Y} (r : may_panic X) (f : X → may_panic Y) : may_panic Y :=
  match r with Some (Ok x) => f x | Some (Err err) => Some (Err err) | None => None end.

(** One attempt of the registration. *)
Definition registerAttempt (AppConfig : ControllerConfig) (dispatcher : DispatcherChoice) (n : nat)
    : option (option error) :=
  '(err, _) ← RegisterController AppConfig (httpAt n) marshal (discoveredBy dispatcher); Some err.

(** [config] is what [ReadConfig] returned. *)
Definition controllerMain (config : result ControllerConfig) : may_panic ControllerStart :=
  bindMain (Some config) (λ config,
  bindMain (newDispatcher config) (λ dispatcher,
  bindMain (registerController (registerAttempt config dispatcher) took interrupted timerFirst registerAttempts 0 0)
    (λ attempts,
  bindMain (NewController_crypto lib config) (λ crypto,
  Some (Ok (mkControllerStart config dispatcher attempts crypto)))))).

(** *** Properties *)

Context (Htook : ∀ n, (0 ≤ took n)%Z).

Lemma bindMain_Ok {X Y} (r : may_panic X) (f : X → may_panic Y) y :
  bindMain r f = Some (Ok y) ↔ ∃ x, r = Some (Ok x) ∧ f x = Some (Ok y).
Proof.
  split; [destruct r as [[x|e]|]; simpl; eauto; done|]. by intros (x & -> & ?).
Qed.

(** The dispatcher fits the issuer of the configuration. *)
Definition dispatcherFits (AppConfig : ControllerConfig) (choice : DispatcherChoice) : Prop :=
  let wif := cc_WorkloadIdentityFederation AppConfig in
  match choice with
  | KubernetesChoice discovered tokens =>
      (wif_issuer wif = WifIssuerKubernetes → discovered = discoverOIDCIssuer oidcDocument unmarshalIssuer) ∧
      match tokens with
      | Some tokens =>
          wif_issuer wif = WifIssuerKeycloak ∧ ∃ k, wifc_Keycloak wif = Some k ∧ tokens = newWifTokenIssuer k
      | None => wif_issuer wif ≠ WifIssuerKeycloak
      end
  | NamedChoice name => wif_issuer wif ≠ WifIssuerKeycloak ∧ contains name = true ∧
      name = os_Getenv os "RUNCONTROLLER_DISPATCHER"
  end.

Lemma newDispatcher_Ok AppConfig choice :
  newDispatcher AppConfig = Some (Ok choice) → dispatcherFits AppConfig choice.
Proof.
  unfold newDispatcher, NewKubernetesDispatcher, newKubernetesClient, dispatcherFits. simpl. case_decide.
  - destruct getKubernetesConfig; [done|]. destruct NewForConfig; [done|]. simpl.
    case_decide as Hkc; [|intros [= <-]; split; [intros ?; by rewrite decide_True|done]].
    destruct (wifc_Keycloak _) as [k|] eqn:Hk; [|done]. intros [= <-]. split; [by intros ->|].
    split; [done|]. by exists k.
  - case_decide as Hkc; [done|]. destruct (contains _) eqn:Hc; [|done]. simpl.
    destruct (create _); [done|]. intros [= <-]. split_and!; [|done|done].
    unfold wif_issuer, cmpOr. by case_decide.
Qed.

(** A configuration with a dispatcher can be registered: the Keycloak section
    that the registration reads is there. *)
Lemma registerAttempt_some AppConfig choice n :
  dispatcherFits AppConfig choice → is_Some (registerAttempt AppConfig choice n).
Proof.
  intros Hfit. assert (is_Some (NewRegistrationApi AppConfig (discoveredBy choice))) as [api Hapi].
  { unfold NewRegistrationApi, registeredWif. case_decide; [by eexists|]. case_decide as Hkc; [|by eexists].
    destruct choice as [d [t|]|]; simpl in Hfit; [|by destruct Hfit..].
    destruct Hfit as (_ & _ & k & -> & _). by eexists. }
  unfold registerAttempt, RegisterController. rewrite Hapi. simpl.
  destruct (api_RegisterController _ _ _ _) as [[err api'] measured]. by eexists.
Qed.

(** An attempt that succeeds has put what the runs' tokens will be. *)
Definition registeredAs (AppConfig : ControllerConfig) (dispatcher : DispatcherChoice) (n : nat) : Prop :=
  ∃ wif body headers resp,
    registeredWif (cc_WorkloadIdentityFederation AppConfig) (cc_Namespace AppConfig) (discoveredBy dispatcher) = Some wif ∧
    marshal (BuildRunnerRegistrationDTO AppConfig wif) = Ok body ∧
    http_Do (httpAt n) (mkRequest "PUT" (EP_RunnerWithUuid (capi_Url (cc_Api AppConfig)) (cc_Uuid AppConfig)) headers body)
      = Ok resp ∧ resp_StatusCode resp = StatusOK.

Lemma registerAttempt_registered AppConfig dispatcher n :
  registerAttempt AppConfig dispatcher n = Some None → registeredAs AppConfig dispatcher n.
Proof.
  unfold registerAttempt, RegisterController, NewRegistrationApi, registeredAs.
  destruct (registeredWif _ _ _) as [wif|]; simpl; [|done].
  destruct (api_RegisterController _ _ _ _) as [[[err|] api] measured] eqn:Hr; simpl; [done|]. intros _.
  destruct (proj2 (api_RegisterController_ok _ _ _ _ _ _ _ Hr) eq_refl) as (body & headers & resp & H).
  by exists wif, body, headers, resp.
Qed.

(** C28. The run-controller claims its first run only when everything a run
    depends on is in place: meshStack has taken the registration, which was
    tried until then and for at most 61 attempts and which names the issuer
    and the subjects of the tokens that this very dispatcher mounts; the keys
    were validated against each other; and tokens of a Keycloak issuer, if one
    is configured, will be issued by the one dispatcher that can, under that
    configuration. With a dispatcher the registration comes to an end, whatever
    meshStack answers and however long it takes, and it cannot panic; without
    a signal it does not give up before the timeout could no longer be met. *)
Theorem controllerMain_start (config : result ControllerConfig) :
  (∀ start, controllerMain config = Some (Ok start) →
     let AppConfig := cs_Config start in
     let register := registerAttempt AppConfig (cs_Dispatcher start) in
     config = Ok AppConfig ∧
     (0 < cs_Attempts start ≤ registerAttempts ∧ ∀ j, j < cs_Attempts start - 1 → refused register j) ∧
     registeredAs AppConfig (cs_Dispatcher start) (cs_Attempts start - 1) ∧
     NewController_crypto lib AppConfig = Some (Ok (cs_Crypto start)) ∧
     dispatcherFits AppConfig (cs_Dispatcher start)) ∧
  ∀ AppConfig dispatcher, newDispatcher AppConfig = Some (Ok dispatcher) →
    let register := registerAttempt AppConfig dispatcher in
    ∃ r, registerController register took interrupted timerFirst registerAttempts 0 0 = Some r ∧
      ∀ err, r = Err err → ∃ m, m < registerAttempts ∧ gaveUp register took interrupted m err.
Proof.
  assert (∀ AppConfig dispatcher, newDispatcher AppConfig = Some (Ok dispatcher) →
    let register := registerAttempt AppConfig dispatcher in
    ∃ r, registerController register took interrupted timerFirst registerAttempts 0 0 = Some r ∧
      match r with
      | Ok attempts => 0 < attempts ≤ registerAttempts ∧ register (attempts - 1) = Some None ∧
          ∀ j, j < attempts - 1 → refused register j
      | Err err => ∃ m, m < registerAttempts ∧ gaveUp register took interrupted m err
      end) as Hends.
  { intros AppConfig dispatcher Hd register.
    apply (registerController_ends register took interrupted timerFirst Htook) with (n := 0); [|lia|by vm_compute|lia].
    intros n. by apply registerAttempt_some, newDispatcher_Ok. }
  split.
  - intros start Hs. unfold controllerMain in Hs.
    apply bindMain_Ok in Hs as (c & [= ->] & Hs). apply bindMain_Ok in Hs as (d & Hd & Hs).
    apply bindMain_Ok in Hs as (n & Hn & Hs). apply bindMain_Ok in Hs as (crypto & Hc & [= <-]). simpl.
    destruct (Hends _ _ Hd) as (r & Hr & Hspec). cbv zeta in Hr. rewrite Hr in Hn. injection Hn as ->.
    destruct Hspec as (Hb & Hreg & Href). split_and!; [done|lia|lia|done| |done|by apply newDispatcher_Ok].
    by apply registerAttempt_registered.
  - intros AppConfig dispatcher Hd. destruct (Hends _ _ Hd) as (r & Hr & Hspec). exists r. split; [exact Hr|]. by intros err ->.
Qed.
End ControllerMain.

(** ** tf-block-runner *)

Inductive TfStart :=
  | SingleRunOf (runJson : string)
  | PollingWith (crypto : option MeshCertBasedCrypto).

Section TfMain.
Context (os : OS) (lib : CryptoLib) (mkdirAll : string → option error).

Definition executeSingleRun : result TfStart :=
  let runJsonFilePath := os_Getenv os "RUN_JSON_FILE_PATH" in
  if decide (runJsonFilePath = "")
  then Err (errNew "RUN_JSON_FILE_PATH environment variable is required in single-run mode")
  else
    runJson ← wrapErr ("Failed to read run JSON file from " +:+ runJsonFilePath +:+ ": ")
                (os_ReadFile os runJsonFilePath) "";
    Ok (SingleRunOf runJson).

(** The key of polling mode, if one is configured. *)
Definition pollingCrypto (config : TfRunnerConfig) : result (option MeshCertBasedCrypto) :=
  if decide (PrivateKey config = "") then Ok None
  else
    match NewCertBasedDecryptor lib (PrivateKey config) with
    | (_, Some err) => Err (errWrap "failed to initialize crypto: private key could not be loaded: " err "")
    | (crypto, None) => Ok (Some crypto)
    end.

(** [config] is what [ReadConfig] returned; [NewTfBin] panics on an error. *)
Definition tfMain (config : result TfRunnerConfig) : may_panic TfStart :=
  bindMain (Some (wrapErr "cannot read config: " config "")) (λ config,
  let singleRunMode := isSingleRunMode os in
  bindMain (Some (if singleRunMode then Ok None else pollingCrypto config)) (λ crypto,
  match NewTfBin mkdirAll (TfInstallDir config) with
  | Err _ => None
  | Ok _ => Some (if singleRunMode then executeSingleRun else Ok (PollingWith crypto))
  end)).

(** A process that was given a run needs no key and loads none; one that polls
    has the configured key in memory, or decrypts nothing. *)
Lemma tfMain_modes (config : TfRunnerConfig) (start : TfStart) :
  tfMain (Ok config) = Some (Ok start) →
  match start with
  | SingleRunOf runJson => isSingleRunMode os = true ∧
      os_ReadFile os (os_Getenv os "RUN_JSON_FILE_PATH") = Ok runJson
  | PollingWith None => isSingleRunMode os = false ∧ PrivateKey config = ""
  | PollingWith (Some crypto) => isSingleRunMode os = false ∧
      NewCertBasedDecryptor lib (PrivateKey config) = (crypto, None)
  end.
Proof.
  unfold tfMain, executeSingleRun, pollingCrypto. simpl. destruct (isSingleRunMode os); simpl.
  - destruct (NewTfBin _ _); [|done]. case_decide; [done|].
    destruct (os_ReadFile os _) eqn:Hf; simpl; [|done]. by intros [= <-].
  - case_decide; simpl.
    + destruct (NewTfBin _ _); [|done]. by intros [= <-].
    + destruct (NewCertBasedDecryptor lib (PrivateKey config)) as [crypto [err|]]; simpl; [done|].
      destruct (NewTfBin _ _); [|done]. by intros [= <-].
Qed.
End TfMain.

(** ** A start *)

Definition exampleOSOf (env : gmap string string) : OS := mkOS (λ key, env !! key) (λ _, Err (errNotExist "f")).

(** meshStack, which is still starting at the first two attempts. *)
Definition startingUp (n : nat) : HttpEnv :=
  exampleHttp (mkResponse (if decide (n < 2)%nat then 503 else 200)%Z "" None).

Lemma controllerMain_start_witness :
  let wif := set_cc_Wif (mkWifConfig WifIssuerKeycloak (Some exampleWif)) exampleConfig in
  let main := controllerMain (exampleOSOf ∅) exampleCrypto None None (Err (errNew "403")) Ok (λ _, false)
                (λ _, None) id startingUp (λ _, Ok "{}") (λ _, Second) None (λ _, true) (Ok wif) in
  let dispatcher := KubernetesChoice "" (Some (newWifTokenIssuer exampleWif)) in
  (∃ crypto, main = Some (Ok (mkControllerStart wif dispatcher 3 crypto))) ∧
  registeredAs startingUp (λ _, Ok "{}") wif dispatcher 2.
Proof.
  intros wif main dispatcher.
  assert (∃ crypto, main = Some (Ok (mkControllerStart wif dispatcher 3 crypto))) as [crypto Hs]
    by (eexists; vm_compute; reflexivity).
  split; [by exists crypto|].
  exact (proj1 (proj2 (proj2 (proj1 (controllerMain_start (exampleOSOf ∅) exampleCrypto None None (Err (errNew "403")) Ok
    (λ _, false) (λ _, None) id startingUp (λ _, Ok "{}") (λ _, Second) None (λ _, true)
    ltac:(intros n; by vm_compute) (Ok wif)) _ Hs)))).
Defined.

(** A registration that never succeeds is given up after sixty-one attempts
    that take no time, or fewer that take some. *)
Example registerController_refused took :
  took ∈ [0; Second; Minute]%Z →
  is_Some (registerController (λ _, Some (Some (errNew "404"))) (λ _, took) None (λ _, true) registerAttempts 0 0).
Proof. intros H. repeat (apply elem_of_cons in H as [->|H]; [vm_compute; eexists; reflexivity|]). by apply elem_of_nil in H. Qed.
