(* ===== verification/ManualConfig.v ===== *)
(** * ManualConfig: the manual runner's configuration

    Models manual-block-runner/manual/config.go: the YAML tree of the file with
    keys and placeholders resolved the way Spring resolves them, the defaults,
    and the environment on top. What yaml.v3 does with text and with the
    resolved tree is a parameter. *)

From S2P Require Import Prelude GoPath TfConfig.

(** [Config], with the nested structs flattened. *)
Record Config := mkConfig {
  cfg_Uuid : string;
  cfg_Url : string;
  cfg_Username : string;
  cfg_Password : string;
  cfg_ClientId : string;
  cfg_ClientSecret : string;
}.

Definition defaultConfig : Config := {|
  cfg_Uuid := "d943b032-7836-4fef-a4a0-158817beecf3";
  cfg_Url := "http://localhost:8301";
  cfg_Username := "bb-api";
  cfg_Password := "guest";
  cfg_ClientId := "";
  cfg_ClientSecret := "" |}.

(** ** yaml.Node *)

Inductive Kind := NoKind | DocumentNode | SequenceNode | MappingNode | ScalarNode | AliasNode.

#[export] Instance Kind_eq_dec : EqDecision Kind.
Proof. solve_decision. Defined.

(** [M] is what else a node has: tag, style, anchor, comments, position. *)
Inductive Node (M : Type) := mkNode (kind : Kind) (meta : M) (Value : string) (Content : list (Node M)).
Arguments mkNode {M}.

Definition node_Kind {M} (n : Node M) : Kind := let 'mkNode k _ _ _ := n in k.
Definition node_Meta {M} (n : Node M) : M := let 'mkNode _ m _ _ := n in m.
Definition node_Value {M} (n : Node M) : string := let 'mkNode _ _ v _ := n in v.
Definition node_Content {M} (n : Node M) : list (Node M) := let 'mkNode _ _ _ c := n in c.
Definition set_Value {M} (v : string) (n : Node M) : Node M :=
  let 'mkNode k m _ c := n in mkNode k m v c.

(** ** Placeholders *)

(** The longest prefix without a character that [stop] names. *)
Fixpoint cutBefore (stop : string) (s : string) : string * string :=
  match s with
  | "" => ("", "")
  | String c s' =>
      if hasChar c stop then ("", s) else let '(p, rest) := cutBefore stop s' in (String c p, rest)
  end.

(** [springPlaceholder] at the beginning of [s]: the name, the default if there
    is one, and what follows. Since neither part may hold the character that
    ends it, the expression matches in at most one way. *)
Definition placeholderAt (s : string) : option (string * option string * string) :=
  s ← CutPrefix s "${";
  let '(name, rest) := cutBefore "}:" s in
  if decide (name = "") then None
  else
    match rest with
    | String "}" rest => Some (name, None, rest)
    | String ":" rest =>
        match cutBefore "}" rest with
        | (dflt, String "}" rest) => Some (name, Some dflt, rest)
        | _ => None
        end
    | _ => None
    end.

Section Resolve.
Context (LookupEnv : string → option string).

(** The replacement of one placeholder; [match[2]] of a group that took no
    part is empty. *)
Definition placeholderValue (name : string) (dflt : option string) : string :=
  default (default "" dflt) (LookupEnv name).

(** [ReplaceAllStringFunc]: from left to right, what is inserted is not looked
    at again. The fuel is the length of the text. *)
Fixpoint expand_go (fuel : nat) (s : string) : string :=
  match fuel, s with
  | S fuel, String c s' =>
      match placeholderAt s with
      | Some (name, dflt, rest) => placeholderValue name dflt +:+ expand_go fuel rest
      | None => String c (expand_go fuel s')
      end
  | _, _ => s
  end.
Definition expand (s : string) : string := expand_go (String.length s) s.

(** ** resolveLikeSpring *)

(** Keys are lower-cased as ASCII text; Go also knows the letters of other
    scripts, which no key of the configuration has. *)
Definition normaliseKey (key : string) : string := ToLower (Replacer_Replace [("-", ""); ("_", "")] key).

(** The assignments to the keys of a mapping: [Content[0]], [Content[2]], ... *)
Fixpoint normaliseKeys {M} (content : list (Node M)) : list (Node M) :=
  match content with
  | [] => []
  | [key] => [set_Value (normaliseKey (node_Value key)) key]
  | key :: value :: content => set_Value (normaliseKey (node_Value key)) key :: value :: normaliseKeys content
  end.

(** The recursion reaches the children after their keys have been assigned.
    For the termination check that assignment is made on the way down: [key]
    says that it is due; [resolve_eq] below is the equation of the source. *)
Fixpoint resolveAt {M} (key : bool) (node : Node M) : Node M :=
  let 'mkNode kind meta value content := node in
  let value := if key then normaliseKey value else value in
  let value := if decide (kind = ScalarNode) then expand value else value in
  let children := fix children (isKey : bool) (content : list (Node M)) :=
    match content with
    | [] => []
    | child :: content =>
        resolveAt (bool_decide (kind = MappingNode) && isKey) child :: children (negb isKey) content
    end in
  mkNode kind meta value (children true content).

Definition resolveLikeSpring {M} : Node M → Node M := resolveAt false.
End Resolve.

(** ** Loading *)

Section Load.
Context (os : OS) {M : Type}.
(* yaml.Unmarshal, and Decode into the configuration behind the blockrunner key *)
Context (unmarshal : string → result (Node M)) (decode : Node M → Config → result Config).

Definition readConfigFile (configFile : string) (cfg : Config) : result Config :=
  match os_ReadFile os configFile with
  | Err err => if errors_Is isNotExist err then Ok cfg else Err err
  | Ok data => root ← unmarshal data; decode (resolveLikeSpring (os_LookupEnv os) root) cfg
  end.

Definition LoadConfig (configFile : string) : result Config :=
  cfg ← wrapErr ("read " +:+ configFile +:+ ": ") (readConfigFile configFile defaultConfig) "";
  Ok {| cfg_Uuid := cmpOr (os_Getenv os "RUNNER_UUID") (cfg_Uuid cfg);
        cfg_Url := cmpOr (os_Getenv os "RUNNER_API_URL") (cfg_Url cfg);
        cfg_Username := cmpOr (os_Getenv os "RUNNER_API_USERNAME") (cfg_Username cfg);
        cfg_Password := cmpOr (os_Getenv os "RUNNER_API_PASSWORD") (cfg_Password cfg);
        cfg_ClientId := cmpOr (os_Getenv os "RUNNER_API_CLIENT_ID") (cfg_ClientId cfg);
        cfg_ClientSecret := cmpOr (os_Getenv os "RUNNER_API_CLIENT_SECRET") (cfg_ClientSecret cfg) |}.
End Load.

(** ** The tree *)

Section NodeInd.
Context {M : Type} (P : Node M → Prop).
Context (H : ∀ kind meta value content, Forall P content → P (mkNode kind meta value content)).

Fixpoint Node_ind' (n : Node M) : P n :=
  match n with
  | mkNode kind meta value content =>
      H kind meta value content
        ((fix go (l : list (Node M)) : Forall P l :=
            match l with
            | [] => Forall_nil _
            | n :: l => Forall_cons _ n l (Node_ind' n) (go l)
            end) content)
  end.
End NodeInd.

(** A tree without its texts. *)
Fixpoint skeleton {M} (n : Node M) : Node M :=
  let 'mkNode kind meta _ content := n in mkNode kind meta "" (map skeleton content).

(** The node at a path of child indices, and whether it is a mapping's key. *)
Fixpoint nodeAt {M} (path : list nat) (n : Node M) : option (Node M) :=
  match path with
  | [] => Some n
  | i :: path => child ← node_Content n !! i; nodeAt path child
  end.
Fixpoint keyAt {M} (key : bool) (path : list nat) (n : Node M) : bool :=
  match path with
  | [] => key
  | i :: path =>
      match node_Content n !! i with
      | Some child => keyAt (bool_decide (node_Kind n = MappingNode) && Nat.even i) path child
      | None => false
      end
  end.

Section Tree.
Context (LookupEnv : string → option string) {M : Type}.
Implicit Types (n : Node M) (content : list (Node M)).

Definition resolvedValue (key : bool) (n : Node M) : string :=
  let value := if key then normaliseKey (node_Value n) else node_Value n in
  if decide (node_Kind n = ScalarNode) then expand LookupEnv value else value.

(** The children as [resolveAt] visits them. *)
Fixpoint resolveChildren (mapping isKey : bool) (content : list (Node M)) : list (Node M) :=
  match content with
  | [] => []
  | child :: content =>
      resolveAt LookupEnv (mapping && isKey) child :: resolveChildren mapping (negb isKey) content
  end.

Lemma resolveAt_eq key n :
  resolveAt LookupEnv key n =
  mkNode (node_Kind n) (node_Meta n) (resolvedValue key n)
    (resolveChildren (bool_decide (node_Kind n = MappingNode)) true (node_Content n)).
Proof.
  destruct n as [kind meta value content]. cbn [resolveAt node_Kind node_Meta node_Content].
  f_equal. generalize true as isKey.
  induction content as [|child content IH]; intros isKey; cbn [resolveChildren]; [done|]. f_equal. apply IH.
Qed.

Lemma resolveAt_key n : resolveAt LookupEnv true n = resolveAt LookupEnv false (set_Value (normaliseKey (node_Value n)) n).
Proof. by destruct n. Qed.

Lemma resolveChildren_false isKey content :
  resolveChildren false isKey content = map (resolveLikeSpring LookupEnv) content.
Proof. revert isKey. induction content as [|c l IH]; intros isKey; [done|]. cbn. f_equal. apply IH. Qed.

Lemma resolveChildren_true content :
  resolveChildren true true content = map (resolveLikeSpring LookupEnv) (normaliseKeys content).
Proof.
  assert (∀ k l, length l ≤ k → resolveChildren true true l = map (resolveLikeSpring LookupEnv) (normaliseKeys l)) as Hk;
    [|by apply (Hk (length content))].
  induction k as [|k IH]; intros [|key [|value l]] Hl; simpl in *; try done; try lia.
  - by rewrite resolveAt_key.
  - rewrite resolveAt_key. do 2 f_equal. apply IH. lia.
Qed.

(** The equation of the source: the keys of a mapping are assigned before any of
    its children is visited. *)
Lemma resolve_eq kind meta value content :
  resolveLikeSpring LookupEnv (mkNode kind meta value content) =
  mkNode kind meta (if decide (kind = ScalarNode) then expand LookupEnv value else value)
    (map (resolveLikeSpring LookupEnv) (if decide (kind = MappingNode) then normaliseKeys content else content)).
Proof.
  unfold resolveLikeSpring at 1. rewrite resolveAt_eq. cbn. f_equal. case_decide.
  - rewrite bool_decide_true by done. apply resolveChildren_true.
  - rewrite bool_decide_false by done. apply resolveChildren_false.
Qed.

Lemma resolveChildren_length mapping isKey content :
  length (resolveChildren mapping isKey content) = length content.
Proof. revert isKey. induction content as [|c l IH]; intros isKey; simpl; [done|]. by rewrite IH. Qed.

Lemma resolveChildren_lookup mapping isKey content i :
  resolveChildren mapping isKey content !! i =
  resolveAt LookupEnv (mapping && xorb (negb isKey) (Nat.even i)) <$> content !! i.
Proof.
  revert isKey i. induction content as [|c l IH]; intros isKey i; [done|].
  destruct i as [|i]; cbn [resolveChildren lookup list_lookup].
  - by destruct isKey.
  - rewrite IH. destruct (l !! i) as [child|]; [|done]. cbn [fmap option_fmap option_map]. do 2 f_equal.
    rewrite Nat.even_succ, <-Nat.negb_even. by destruct mapping, isKey, (Nat.even i).
Qed.

Lemma skeleton_resolve key n : skeleton (resolveAt LookupEnv key n) = skeleton n.
Proof.
  revert key. induction n as [kind meta value content IH] using Node_ind'; intros key.
  rewrite resolveAt_eq. cbn. f_equal. generalize true as isKey. generalize (bool_decide (kind = MappingNode)).
  intros mapping. induction IH as [|c l Hc _ IHl]; intros isKey; cbn; [done|]. by rewrite Hc, IHl.
Qed.

Lemma resolveAt_nodeAt path key n :
  node_Value <$> nodeAt path (resolveAt LookupEnv key n) = resolvedValue (keyAt key path n) <$> nodeAt path n.
Proof.
  revert key n. induction path as [|i path IH]; intros key n; rewrite resolveAt_eq.
  - cbn. by destruct n.
  - cbn [nodeAt node_Content keyAt]. rewrite resolveChildren_lookup. cbn [negb xorb].
    destruct (node_Content n !! i) as [child|]; [|done]. cbn [fmap option_fmap option_map mbind option_bind].
    rewrite IH. done.
Qed.
End Tree.

(** ** Placeholders, declaratively *)

Definition Placeholder (s name : string) (dflt : option string) (rest : string) : Prop :=
  s = "${" +:+ name +:+ match dflt with Some d => ":" +:+ d | None => "" end +:+ "}" +:+ rest ∧
  name ≠ "" ∧ hasChar "}" name = false ∧ hasChar ":" name = false ∧
  (∀ d, dflt = Some d → hasChar "}" d = false).

(** The leftmost matches, one after the other, what is between them kept. *)
Inductive Expands (LookupEnv : string → option string) : string → string → Prop :=
  | expands_end : Expands LookupEnv "" ""
  | expands_placeholder s name dflt rest r :
      Placeholder s name dflt rest → Expands LookupEnv rest r →
      Expands LookupEnv s (placeholderValue LookupEnv name dflt +:+ r)
  | expands_char c s r :
      (∀ name dflt rest, ¬ Placeholder (String c s) name dflt rest) → Expands LookupEnv s r →
      Expands LookupEnv (String c s) (String c r).

Lemma cutBefore_spec stop s p rest :
  cutBefore stop s = (p, rest) →
  s = p +:+ rest ∧ (∀ c, hasChar c stop = true → hasChar c p = false) ∧
  (rest = "" ∨ ∃ c rest', rest = String c rest' ∧ hasChar c stop = true).
Proof.
  revert p. induction s as [|c s IH]; intros p; simpl; [intros [= <- <-]; auto|].
  destruct (hasChar c stop) eqn:Hc.
  - intros [= <- <-]. split_and!; [done|done|]. right. by exists c, s.
  - destruct (cutBefore stop s) as [p' r]. intros [= <- <-]. destruct (IH p' eq_refl) as (-> & Hp & Hr).
    split_and!; [done| |done]. intros d Hd. simpl. rewrite (Hp d Hd), orb_false_r.
    apply bool_decide_eq_false. congruence.
Qed.

Lemma cutBefore_app stop p c rest :
  (∀ d, hasChar d stop = true → hasChar d p = false) → hasChar c stop = true →
  cutBefore stop (p +:+ String c rest) = (p, String c rest).
Proof.
  intros Hp Hc. induction p as [|d p IH]; simpl; [by rewrite Hc|].
  destruct (hasChar d stop) eqn:Hd.
  - specialize (Hp d Hd). simpl in Hp. by rewrite bool_decide_true in Hp.
  - rewrite IH; [done|]. intros e He. specialize (Hp e He). simpl in Hp. by apply orb_false_iff in Hp as [_ ?].
Qed.

Lemma stops_two p : (∀ c, hasChar c "}:" = true → hasChar c p = false) ↔ hasChar "}" p = false ∧ hasChar ":" p = false.
Proof.
  split; [intros H; split; by apply H|]. intros [H1 H2] c. cbn. rewrite orb_false_r.
  intros [<-%bool_decide_eq_true|<-%bool_decide_eq_true]%orb_true_iff; done.
Qed.
Lemma stops_one p : (∀ c, hasChar c "}" = true → hasChar c p = false) ↔ hasChar "}" p = false.
Proof.
  split; [intros H; by apply H|]. intros H c. cbn. rewrite orb_false_r.
  intros <-%bool_decide_eq_true. done.
Qed.

Lemma placeholderAt_spec s name dflt rest :
  placeholderAt s = Some (name, dflt, rest) ↔ Placeholder s name dflt rest.
Proof.
  unfold placeholderAt, Placeholder. split.
  - destruct (CutPrefix s "${") as [s'|] eqn:Hs; [|done]. apply CutPrefix_Some in Hs as ->. cbn [mbind option_bind].
    destruct (cutBefore "}:" s') as [name' rest'] eqn:Hc.
    apply cutBefore_spec in Hc as (-> & [Hn1 Hn2]%stops_two & Hr). case_decide as Hne; [done|].
    destruct Hr as [->|(c & rest2 & -> & Hc)]; [done|].
    cbn in Hc. rewrite orb_false_r in Hc.
    apply orb_true_iff in Hc as [<-%bool_decide_eq_true|<-%bool_decide_eq_true].
    + intros [= <- <- <-]. by split_and!.
    + destruct (cutBefore "}" rest2) as [d rest3] eqn:Hc.
      apply cutBefore_spec in Hc as (-> & Hd%stops_one & Hr).
      destruct Hr as [->|(c & rest4 & -> & Hc)]; [done|].
      cbn in Hc. rewrite orb_false_r in Hc. apply bool_decide_eq_true in Hc as <-.
      intros [= <- <- <-]. split_and!; [|done..|by intros ? [= <-]].
      by rewrite <-!string_app_assoc.
  - intros (-> & Hne & H1 & H2 & Hd).
    assert (∀ t, CutPrefix ("${" +:+ t) "${" = Some t) as -> by (intros t; by apply CutPrefix_Some).
    cbn [mbind option_bind].
    assert (∀ c, hasChar c "}:" = true → hasChar c name = false) as Hn by by apply stops_two.
    destruct dflt as [d|].
    + change (":" +:+ d) with (String ":" d). rewrite string_app_cons.
      rewrite cutBefore_app, decide_False by done.
      change ("}" +:+ rest) with (String "}" rest). rewrite cutBefore_app; [done| |done]. apply stops_one. auto.
    + change ("" +:+ "}" +:+ rest) with (String "}" rest). by rewrite cutBefore_app, decide_False.
Qed.

Section Expand.
Context (LookupEnv : string → option string).

Lemma Placeholder_shorter s name dflt rest :
  Placeholder s name dflt rest → String.length rest < String.length s.
Proof. intros (-> & _). rewrite !length_string_app. simpl. lia. Qed.

Lemma expand_go_enough fuel fuel' s :
  String.length s ≤ fuel → String.length s ≤ fuel' → expand_go LookupEnv fuel s = expand_go LookupEnv fuel' s.
Proof.
  revert fuel' s. induction fuel as [|fuel IH]; intros [|fuel'] [|c s] Hf Hf'; simpl in *; try done; try lia.
  destruct (placeholderAt (String c s)) as [[[name d] rest]|] eqn:Hp.
  - apply placeholderAt_spec, Placeholder_shorter in Hp. simpl in Hp. f_equal. apply IH; lia.
  - f_equal. apply IH; lia.
Qed.

Lemma expand_cons c s :
  expand LookupEnv (String c s) =
  match placeholderAt (String c s) with
  | Some (name, dflt, rest) => placeholderValue LookupEnv name dflt +:+ expand LookupEnv rest
  | None => String c (expand LookupEnv s)
  end.
Proof.
  unfold expand at 1. simpl. destruct (placeholderAt (String c s)) as [[[name d] rest]|] eqn:Hp; [|done].
  apply placeholderAt_spec, Placeholder_shorter in Hp. simpl in Hp. f_equal. apply expand_go_enough; lia.
Qed.

Lemma Expands_fun s r : Expands LookupEnv s r → expand LookupEnv s = r.
Proof.
  induction 1 as [|s name dflt rest r Hp _ IH|c s r Hp _ IH]; [done|..].
  - destruct s as [|c s]; [by destruct Hp as [Hp _]|]. rewrite expand_cons.
    apply placeholderAt_spec in Hp as ->. by rewrite IH.
  - rewrite expand_cons. destruct (placeholderAt (String c s)) as [[[name d] rest]|] eqn:Hq; [|by rewrite IH].
    apply placeholderAt_spec in Hq. by destruct (Hp _ _ _ Hq).
Qed.

Lemma Expands_total s : Expands LookupEnv s (expand LookupEnv s).
Proof.
  assert (∀ n s, String.length s ≤ n → Expands LookupEnv s (expand LookupEnv s)) as H; [|by apply (H (String.length s))].
  induction n as [|n IH]; intros [|c t] Hl; simpl in Hl; try constructor; try lia.
  rewrite expand_cons. destruct (placeholderAt (String c t)) as [[[name d] rest]|] eqn:Hp.
  - apply placeholderAt_spec in Hp. econstructor; [exact Hp|].
    apply Placeholder_shorter in Hp. simpl in Hp. apply IH. lia.
  - constructor; [|apply IH; lia]. intros name d rest Hq%placeholderAt_spec. congruence.
Qed.

(** C39. The text at every place of the file is what Spring would have read:
    the leftmost placeholders one after the other replaced by the environment
    or else by their default, what is between them kept and what was inserted
    never expanded again, and every key of a mapping first stripped of its
    separators and lower-cased. *)
Theorem resolve_text {M} (path : list nat) (n : Node M) (v : string) :
  node_Value <$> nodeAt path (resolveLikeSpring LookupEnv n) = Some v ↔
  ∃ m, nodeAt path n = Some m ∧
    let value := if keyAt false path n then normaliseKey (node_Value m) else node_Value m in
    if decide (node_Kind m = ScalarNode) then Expands LookupEnv value v else v = value.
Proof.
  unfold resolveLikeSpring. rewrite resolveAt_nodeAt. destruct (nodeAt path n) as [m|]; simpl.
  2: { split; [done|by intros (? & ? & _)]. }
  unfold resolvedValue. split.
  - intros [= <-]. exists m. split; [done|]. simpl. case_decide; [apply Expands_total|done].
  - intros (? & [= <-] & Hv). simpl in Hv. f_equal. case_decide; [by apply Expands_fun|done].
Qed.
End Expand.

(** ** Loading a file *)

(** The spelling of a key that counts: without separators, in lower case. *)
Definition NormalKey (key text : string) : Prop :=
  text = String.string_of_list_ascii (map lowerChar (filter (λ c, c ≠ "-"%char ∧ c ≠ "_"%char) (String.list_ascii_of_string key))).

Lemma normaliseKey_NormalKey key : NormalKey key (normaliseKey key).
Proof.
  unfold NormalKey, normaliseKey, Replacer_Replace.
  assert (∀ n s, String.length s ≤ n → ToLower (Replacer_go n [("-", ""); ("_", "")] s) =
    String.string_of_list_ascii (map lowerChar (filter (λ c, c ≠ "-"%char ∧ c ≠ "_"%char) (String.list_ascii_of_string s)))) as H;
    [|by apply H].
  induction n as [|n IH]; intros [|c s] Hl; simpl in Hl; [done|lia|done|].
  cbn [Replacer_go list_find fst String.list_ascii_of_string]. rewrite filter_cons.
  assert (∀ d, HasPrefix (String c s) (String d "") = true ↔ c = d) as Hp.
  { intros d. rewrite HasPrefix_spec. split; [by intros [r [= -> _]]|intros ->; by exists s]. }
  destruct (decide (HasPrefix (String c s) "-" = true)) as [Hd|Hd].
  { rewrite (decide_False (P := c ≠ "-"%char ∧ _)) by (apply Hp in Hd; naive_solver). apply IH. simpl. lia. }
  destruct (decide (HasPrefix (String c s) "_" = true)) as [Hu|Hu].
  { rewrite (decide_False (P := c ≠ "-"%char ∧ _)) by (apply Hp in Hu; naive_solver). apply IH. simpl. lia. }
  rewrite Hp in Hd, Hu. rewrite decide_True by done. cbn [option_map fmap option_fmap].
  cbn [ToLower map String.string_of_list_ascii]. f_equal. apply IH. lia.
Qed.

Section Loading.
Context (os : OS) {M : Type} (unmarshal : string → result (Node M)) (decode : Node M → Config → result Config).

(** The file as Spring reads it: the same nodes at the same places, with their
    kinds, tags and anchors; a key of a mapping in the spelling that counts;
    and in every scalar, keys included, the placeholders expanded. *)
Definition SpringText (key : bool) (n : Node M) (v : string) : Prop :=
  ∃ text, (if key then NormalKey (node_Value n) text else text = node_Value n) ∧
    if decide (node_Kind n = ScalarNode) then Expands (os_LookupEnv os) text v else v = text.

Definition SpringTree (root root' : Node M) : Prop :=
  skeleton root' = skeleton root ∧
  ∀ path n n', nodeAt path root = Some n → nodeAt path root' = Some n' →
    SpringText (keyAt false path root) n (node_Value n').

Lemma SpringText_resolved key n v : SpringText key n v ↔ v = resolvedValue (os_LookupEnv os) key n.
Proof.
  unfold SpringText, resolvedValue. split.
  - intros (text & Ht & Hv). assert (text = if key then normaliseKey (node_Value n) else node_Value n) as ->.
    { destruct key; [|done]. pose proof (normaliseKey_NormalKey (node_Value n)). unfold NormalKey in *. congruence. }
    case_decide; [by apply Expands_fun in Hv|done].
  - intros ->. eexists. split; [|case_decide; [apply Expands_total|done]].
    destruct key; [apply normaliseKey_NormalKey|done].
Qed.

(** A tree is its skeleton and its texts. *)
Lemma tree_ext (m n : Node M) :
  skeleton m = skeleton n →
  (∀ path a b, nodeAt path m = Some a → nodeAt path n = Some b → node_Value a = node_Value b) → m = n.
Proof.
  revert n. induction m as [kind meta value content IH] using Node_ind'. intros [kind' meta' value' content'] Hs Hv.
  simpl in Hs. injection Hs as -> -> Hc. assert (value = value') as -> by apply (Hv [] _ _ eq_refl eq_refl). f_equal.
  assert (∀ i path a b, (c ← content !! i; nodeAt path c) = Some a → (c ← content' !! i; nodeAt path c) = Some b →
    node_Value a = node_Value b) as Hv' by (intros i path; apply (Hv (i :: path))). clear Hv.
  revert content' Hc Hv'. induction IH as [|c l Hn _ IHl]; intros [|c' l'] Hc Hv'; try done.
  injection Hc as Hc Hl. f_equal; [by apply Hn, (Hv' 0)|]. apply IHl; [done|]. intros i. apply (Hv' (S i)).
Qed.

Lemma SpringTree_resolve root root' : SpringTree root root' ↔ root' = resolveLikeSpring (os_LookupEnv os) root.
Proof.
  assert (SpringTree root (resolveLikeSpring (os_LookupEnv os) root)) as Hr.
  { split; [apply skeleton_resolve|]. intros path n n' Hn Hn'. apply SpringText_resolved.
    pose proof (resolveAt_nodeAt (os_LookupEnv os) path false root) as Ht.
    unfold resolveLikeSpring in Hn'. rewrite Hn, Hn' in Ht. by injection Ht. }
  split; [|by intros ->]. intros [Hs Ht]. apply tree_ext.
  - rewrite Hs. symmetry. apply skeleton_resolve.
  - intros path a b Ha Hb. destruct (nodeAt path root) as [n|] eqn:Hn.
    + specialize (Ht _ _ _ Hn Ha). apply SpringText_resolved in Ht as ->.
      destruct Hr as [_ Hr]. specialize (Hr _ _ _ Hn Hb). by apply SpringText_resolved in Hr as ->.
    + pose proof (resolveAt_nodeAt (os_LookupEnv os) path false root) as Hx.
      unfold resolveLikeSpring in Hb. by rewrite Hn, Hb in Hx.
Qed.

(** What the file says: nothing, which leaves the defaults, when there is none;
    else what decodes on top of them from the file as Spring reads it. *)
Inductive FromFile (configFile : string) : Config → Prop :=
  | FromFile_none err :
      os_ReadFile os configFile = Err err → errors_Is isNotExist err = true → FromFile configFile defaultConfig
  | FromFile_read data root root' cfg :
      os_ReadFile os configFile = Ok data → unmarshal data = Ok root → SpringTree root root' →
      decode root' defaultConfig = Ok cfg → FromFile configFile cfg.

(** A variable that is set and not empty wins over the file. *)
Definition overridden (name fromFile v : string) : Prop :=
  (∃ w, os_LookupEnv os name = Some w ∧ w ≠ "" ∧ v = w) ∨
  ((∀ w, os_LookupEnv os name = Some w → w = "") ∧ v = fromFile).

Lemma overridden_cmpOr name fromFile v : overridden name fromFile v ↔ v = cmpOr (os_Getenv os name) fromFile.
Proof.
  unfold overridden, cmpOr, os_Getenv. destruct (os_LookupEnv os name) as [w|]; simpl.
  - case_decide as Hw; subst; [|naive_solver]. split; [|intros ->; right; naive_solver].
    intros [(w & [= <-] & ? & _)|[_ ->]]; done.
  - split; [by intros [(w & ? & _)|[_ ->]]|intros ->; by right].
Qed.

(** C38. The configuration is loaded exactly when the file does not exist, or
    can be read, parsed and, as Spring reads it, decoded on top of the
    defaults; and it is what the file says, or the defaults say without one,
    but for the six settings whose environment variable is set and not empty.
    As Spring reads it: no node moved, added or dropped, every mapping key
    without separators and in lower case, every scalar with its placeholders
    expanded once. *)
Theorem LoadConfig_loads (configFile : string) (cfg : Config) :
  LoadConfig os unmarshal decode configFile = Ok cfg ↔
  ∃ file, FromFile configFile file ∧
    overridden "RUNNER_UUID" (cfg_Uuid file) (cfg_Uuid cfg) ∧
    overridden "RUNNER_API_URL" (cfg_Url file) (cfg_Url cfg) ∧
    overridden "RUNNER_API_USERNAME" (cfg_Username file) (cfg_Username cfg) ∧
    overridden "RUNNER_API_PASSWORD" (cfg_Password file) (cfg_Password cfg) ∧
    overridden "RUNNER_API_CLIENT_ID" (cfg_ClientId file) (cfg_ClientId cfg) ∧
    overridden "RUNNER_API_CLIENT_SECRET" (cfg_ClientSecret file) (cfg_ClientSecret cfg).
Proof.
  assert (∀ file, readConfigFile os unmarshal decode configFile defaultConfig = Ok file ↔ FromFile configFile file)
    as Hfile.
  { intros file. unfold readConfigFile. split.
    - destruct (os_ReadFile os configFile) as [data|err] eqn:Hr.
      + destruct (unmarshal data) as [root|] eqn:Hu; simpl; [|done]. intros Hd.
        eapply FromFile_read; [done..| |exact Hd]. by apply SpringTree_resolve.
      + destruct (errors_Is isNotExist err) eqn:He; [|done]. intros [= <-]. by eapply FromFile_none.
    - intros [err Hr He|data root root' cfg' Hr Hu ->%SpringTree_resolve Hd]; rewrite Hr; [by rewrite He|].
      by rewrite Hu. }
  unfold LoadConfig. setoid_rewrite <-Hfile. setoid_rewrite overridden_cmpOr.
  destruct (readConfigFile _ _ _ _ _) as [file|err]; simpl; [|split; [done|by intros (? & ? & _)]]. split.
  - intros [= <-]. by exists file.
  - intros (? & [= <-] & ? & ? & ? & ? & ? & ?). f_equal. destruct cfg; simpl in *. by subst.
Qed.
End Loading.

(** ** A file *)

Definition scalar (v : string) : Node unit := mkNode ScalarNode tt v [].
Definition mapping (content : list (Node unit)) : Node unit := mkNode MappingNode tt "" content.

(** [blockrunner: {api: {url: "${RUNNER_API_URL:http://localhost:8301}"}, auth: {api-key: {client_Id: a-b_C}}}] *)
Definition exampleFile : Node unit :=
  mkNode DocumentNode tt "" [mapping [scalar "blockrunner"; mapping [
    scalar "api"; mapping [scalar "url"; scalar "${RUNNER_API_URL:http://localhost:8301}"];
    scalar "auth"; mapping [scalar "api-key"; mapping [scalar "client_Id"; scalar "a-b_C"]]]]].

Definition exampleResolved : Node unit :=
  mkNode DocumentNode tt "" [mapping [scalar "blockrunner"; mapping [
    scalar "api"; mapping [scalar "url"; scalar "http://localhost:8301"];
    scalar "auth"; mapping [scalar "apikey"; mapping [scalar "clientid"; scalar "a-b_C"]]]]].

Example resolve_example : resolveLikeSpring (λ _, None) exampleFile = exampleResolved.
Proof. vm_compute. reflexivity. Qed.

(** What yaml.v3 finds in a resolved mapping: the first entry of that key. *)
Fixpoint entry (key : string) (content : list (Node unit)) : option (Node unit) :=
  match content with
  | k :: v :: content => if decide (node_Value k = key) then Some v else entry key content
  | _ => None
  end.
Fixpoint textAt (path : list string) (n : Node unit) : option string :=
  match path with
  | [] => Some (node_Value n)
  | key :: path => child ← entry key (node_Content n); textAt path child
  end.
Definition exampleDecode (root : Node unit) (cfg : Config) : result Config :=
  let field path dflt := default dflt (root ← head (node_Content root); textAt ("blockrunner" :: path) root) in
  Ok {| cfg_Uuid := field ["uuid"] (cfg_Uuid cfg);
        cfg_Url := field ["api"; "url"] (cfg_Url cfg);
        cfg_Username := field ["auth"; "username"] (cfg_Username cfg);
        cfg_Password := field ["auth"; "password"] (cfg_Password cfg);
        cfg_ClientId := field ["auth"; "apikey"; "clientid"] (cfg_ClientId cfg);
        cfg_ClientSecret := field ["auth"; "apikey"; "clientsecret"] (cfg_ClientSecret cfg) |}.

Definition exampleOS (env : gmap string string) (file : result string) : OS :=
  mkOS (λ key, env !! key) (λ _, file).

Example LoadConfig_example :
  LoadConfig (exampleOS {[ "RUNNER_API_CLIENT_SECRET" := "s" ]} (Ok "...")) (λ _, Ok exampleFile) exampleDecode "f" =
  Ok (mkConfig (cfg_Uuid defaultConfig) "http://localhost:8301" "bb-api" "guest" "a-b_C" "s").
Proof. vm_compute. reflexivity. Qed.
Example LoadConfig_no_file :
  LoadConfig (exampleOS ∅ (Err (errNotExist "f"))) (λ _, Ok exampleFile) exampleDecode "f" = Ok defaultConfig.
Proof. vm_compute. reflexivity. Qed.
