(* ===== verification/ManualRun.v ===== *)
(** * ManualRun: reporting a manual run as succeeded

    Models manual-block-runner/manual/run.go and poll.go: a run is registered
    at the link it brings along and reported as succeeded, with its inputs as
    outputs; the poller fetches one run after the other. The requests are
    MeshClient.v's. JSON is a record of functions, log lines are left out. *)

From S2P Require Import Prelude GoUrl MeshDtos MeshAuth MeshClient TfConfig ManualConfig.

Definition stepId : string := "manual".
Definition stepDisplayName : string := "Manual Block Run".
Definition succeeded : string := "SUCCEEDED".
Definition pollInterval : Z := 10 * Second.

(** [parseRun] keeps every number as its text, an [anyRaw], where the client's
    [ParseRunDetails] makes a float of it. *)
Record ManualJson := mkManualJson {
  mj_ParseRunDetails : string → result RunDetailsDTO;
  mj_parseRun : string → result RunDetailsDTO;
  mj_MarshalRegistration : RegistrationDTO → result string;
  mj_MarshalUpdate : StatusUpdateDTO → result string;
}.

(** ** The report *)

Definition sourceURLs (links : LinksDTO) (sourceId : string) : result (string * string) :=
  if decide (Href (RegisterSourceLink links) = "") then Err (errNew "the run has no registerSource link")
  else if decide (Href (UpdateSourceLink links) = "") then Err (errNew "the run has no updateSource link")
  else Ok (Href (RegisterSourceLink links), ReplaceAll (Href (UpdateSourceLink links)) "{sourceId}" (PathEscape sourceId)).

Definition outputType (inputType : string) : string :=
  if decide (inputType ∈ ["FILE"; "SINGLE_SELECT"]) then "STRING"
  else if decide (inputType ∈ ["LIST"; "MULTI_SELECT"]) then "CODE"
  else inputType.

Definition outputOf (input : BuildingBlockInputSpecDTO) : OutputDTO :=
  mkOutputDTO (input_Value input) (outputType (input_Type input)) (input_IsSensitive input).

Definition outputsFrom (inputs : list BuildingBlockInputSpecDTO) : gmap string OutputDTO :=
  foldl (λ outputs input, <[input_Key input := outputOf input]> outputs) ∅ inputs.

(** Every input is an output of the run under its key, the last one of a key. *)
Lemma outputsFrom_lookup (inputs : list BuildingBlockInputSpecDTO) (key : string) :
  outputsFrom inputs !! key = outputOf <$> list.last (filter (λ i, input_Key i = key) inputs).
Proof.
  unfold outputsFrom. induction inputs as [|input inputs IH] using rev_ind; [done|].
  rewrite foldl_app, list.filter_app. cbn [foldl]. rewrite list.filter_cons, list.filter_nil.
  case_decide as Hk.
  - rewrite list.last_snoc, <-Hk. by rewrite lookup_insert_eq.
  - rewrite lookup_insert_ne by done. by rewrite app_nil_r.
Qed.

(** The type that an output is shown with. *)
Inductive shownAs : string → string → Prop :=
| shown_text t : t ∈ ["FILE"; "SINGLE_SELECT"] → shownAs t "STRING"
| shown_code t : t ∈ ["LIST"; "MULTI_SELECT"] → shownAs t "CODE"
| shown_same t : t ∉ ["FILE"; "SINGLE_SELECT"; "LIST"; "MULTI_SELECT"] → shownAs t t.

(** The outputs are the inputs, of which the last one of a key counts. *)
Definition echoes (inputs : list BuildingBlockInputSpecDTO) (outputs : gmap string OutputDTO) : Prop :=
  ∀ key output, outputs !! key = Some output ↔
    ∃ before input after, inputs = before ++ input :: after ∧ input_Key input = key ∧
      Forall (λ i, input_Key i ≠ key) after ∧
      dto_Value output = input_Value input ∧ shownAs (input_Type input) (dto_Type output) ∧
      dto_Sensitive output = input_IsSensitive input.

Lemma outputType_shown t t' : outputType t = t' ↔ shownAs t t'.
Proof.
  unfold outputType. split.
  - intros <-. repeat case_decide; constructor; set_solver.
  - intros []; repeat case_decide; set_solver.
Qed.

(** The last element of a list that a predicate holds of. *)
Lemma last_filter_Some {A} (P : A → Prop) `{!∀ x, Decision (P x)} l x :
  list.last (filter P l) = Some x ↔ ∃ l1 l2, l = l1 ++ x :: l2 ∧ P x ∧ Forall (λ y, ¬ P y) l2.
Proof.
  induction l as [|y l IH] using rev_ind.
  { split; [done|]. intros (l1 & l2 & Hl & _). by destruct l1. }
  rewrite list.filter_app, list.filter_cons, list.filter_nil. case_decide as Hy.
  - rewrite list.last_snoc. split; [intros [= ->]; by exists l, []|].
    intros (l1 & l2 & Hl & Hx & HF). destruct l2 as [|z l2 _] using rev_ind.
    + by apply app_inj_tail in Hl as [_ ->].
    + change (l1 ++ x :: l2 ++ [z]) with (l1 ++ (x :: l2) ++ [z]) in Hl. rewrite app_assoc in Hl.
      apply app_inj_tail in Hl as [_ ->]. apply Forall_app in HF as [_ Hz]. by inversion Hz.
  - rewrite app_nil_r, IH. split; intros (l1 & l2 & Hl & Hx & HF).
    + exists l1, (l2 ++ [y]). split_and!; [by rewrite Hl, <-app_assoc|done|]. by apply Forall_app; repeat constructor.
    + destruct l2 as [|z l2 _] using rev_ind.
      * apply app_inj_tail in Hl as [_ ->]. done.
      * change (l1 ++ x :: l2 ++ [z]) with (l1 ++ (x :: l2) ++ [z]) in Hl. rewrite app_assoc in Hl.
        apply app_inj_tail in Hl as [-> _]. apply Forall_app in HF as [HF _]. by exists l1, l2.
Qed.

Lemma outputsFrom_echoes inputs : echoes inputs (outputsFrom inputs).
Proof.
  intros key [v t s]. rewrite outputsFrom_lookup, fmap_Some. setoid_rewrite last_filter_Some. unfold outputOf. simpl.
  setoid_rewrite <-outputType_shown. split.
  - intros (i & (l1 & l2 & Hl & Hk & HF) & [= -> -> ->]). by exists l1, i, l2.
  - intros (l1 & i & l2 & Hl & Hk & HF & -> & <- & ->). exists i. split; [by exists l1, l2|done].
Qed.

Lemma outputsFrom_unique inputs outputs : echoes inputs outputs → outputs = outputsFrom inputs.
Proof.
  intros He. apply map_eq. intros key. apply option_eq. intros o. by rewrite (He key o), (outputsFrom_echoes inputs key o).
Qed.

Section ManualRun.
Context (meta : ClientMetadata) (json : ManualJson) (cfg : Config).

Definition registration : RegistrationDTO :=
  mkRegistration (cfg_Uuid cfg) [mkStepRegistration stepId stepDisplayName None].

Definition report (run : RunDetailsDTO) : StatusUpdateDTO :=
  mkStatusUpdate (Some succeeded) None
    [mkStepUpdate stepId stepDisplayName (Some succeeded) None None
       (outputsFrom (bb_Inputs (bb_Spec (spec_BuildingBlock (run_Spec run)))))].

(** Registration and report see [env] and [env'], one after the other. *)
Definition ExecuteRun (env env' : HttpEnv) (run : RunDetailsDTO) : option error :=
  let runId := run_Uuid run in
  match sourceURLs (run_Links run) (cfg_Uuid cfg) with
  | Err err => Some (errWrap ("run " +:+ runId +:+ ": ") err "")
  | Ok (registerURL, updateURL) =>
      let client := mkClient (cfg_Url cfg) (cfg_Uuid cfg) (mkBearerTokenAuth (spec_RunToken (run_Spec run))) in
      let '(err, client) := RegisterSourceAt meta env (mj_MarshalRegistration json) client registerURL registration in
      match err with
      | Some err => Some (errWrap ("register as source of run " +:+ runId +:+ ": ") err "")
      | None =>
          match (PatchStatusAt meta env' (mj_MarshalUpdate json) client updateURL (report run)).1 with
          | Err err => Some (errWrap ("report run " +:+ runId +:+ ": ") err "")
          | Ok _ => None
          end
      end
  end.

Definition ExecuteRunJson (env env' : HttpEnv) (data : string) : option error :=
  match mj_parseRun json data with
  | Err err => Some (errWrap "parse run: " err "")
  | Ok run => ExecuteRun env env' run
  end.

(** ** The poller *)

(** [NewPoller]: an API key wins over a user and a password. *)
Definition NewPoller : Client ConfiguredAuth :=
  mkClient (cfg_Url cfg) (cfg_Uuid cfg)
    (if decide (cfg_ClientId cfg ≠ "" ∧ cfg_ClientSecret cfg ≠ "")
     then ApiKeyProvider (NewApiKeyAuth (cfg_Url cfg) (cfg_ClientId cfg) (cfg_ClientSecret cfg))
     else BasicProvider (mkBasicAuth (cfg_Username cfg) (cfg_Password cfg))).

(** The poller's client, and which of the [worlds] its next call sees. *)
Record Poller := mkPoller { p_client : Client ConfiguredAuth; p_now : nat }.

Context (worlds : nat → HttpEnv).

(** [FetchRun] parses the body on its own, so a run is parsed twice, and
    refused when either way fails. The context is not looked at: a claimed run is reported even during shutdown. *)
Definition executeNextRun (p : Poller) : bool * Poller :=
  let '(fetched, client) := FetchRun meta (worlds (p_now p)) (mj_ParseRunDetails json) (p_client p) (cfg_Uuid cfg) in
  match fetched with
  | Err _ => (false, mkPoller client (1 + p_now p))
  | Ok (_, data) =>
      match mj_parseRun json data with
      | Err _ => (false, mkPoller client (1 + p_now p))
      | Ok run =>
          let err := ExecuteRun (worlds (1 + p_now p)) (worlds (2 + p_now p)) run in
          (bool_decide (err = None), mkPoller client (3 + p_now p))
      end
  end.

(** The loop of [Run]: [cancelled i] is what [ctx.Err()] says before iteration
    [i]; after an iteration without a reported run the loop waits for the
    ticker or the shutdown. Returned are the iterations that waited. *)
Fixpoint Run (fuel : nat) (cancelled : nat → bool) (i : nat) (p : Poller) : option (list nat * Poller) :=
  match fuel with
  | 0 => None
  | S fuel =>
      if cancelled i then Some ([], p)
      else
        let '(reported, p) := executeNextRun p in
        '(waits, p) ← Run fuel cancelled (S i) p;
        Some (if reported then (waits, p) else (i :: waits, p))
  end.

(** ** What meshStack sees *)

(** The headers of a request under a run's token. *)
Definition runHeaders (token : string) : gmap string string :=
  <["X-Meshcloud-Runner-Version" := runnerVersion meta]>
  (<["X-Meshcloud-Runner-Name" := runnerName meta]>
   (<["User-Agent" := userAgent meta]>
    (<["X-Block-Runner-Node-Id" := cfg_Uuid cfg]>
     (<["Content-Type" := BlockRunMediaTypeV1]>
      (<["Accept" := BlockRunMediaTypeV1]>
       (<["Authorization" := "Bearer " +:+ token]> ∅)))))).

(** [env] answers [req] with a response that [good] accepts. *)
Definition answers (env : HttpEnv) (req : Request) (good : Response → Prop) : Prop :=
  http_NewRequestErr env (req_URL req) = None ∧ ∃ resp, http_Do env req = Ok resp ∧ good resp.

Lemma RegisterSourceAt_None env token url reg :
  let client := mkClient (cfg_Url cfg) (cfg_Uuid cfg) (mkBearerTokenAuth token) in
  (RegisterSourceAt meta env (mj_MarshalRegistration json) client url reg).1 = None ↔
  ∃ body, mj_MarshalRegistration json reg = Ok body ∧
    answers env (mkRequest "POST" url (runHeaders token) body)
      (λ resp, resp_StatusCode resp = StatusConflict ∨ (200 ≤ resp_StatusCode resp < 300)%Z).
Proof.
  simpl. unfold RegisterSourceAt, answers. destruct (mj_MarshalRegistration json reg) as [body|e]; [|naive_solver].
  unfold exchange. simpl. fold (runHeaders token). unfold id.
  destruct (http_NewRequestErr env url); [naive_solver|].
  destruct (http_Do env _) as [resp|e] eqn:Hdo; simpl.
  2: { split; [done|]. intros (? & [= <-] & _ & ? & Hr & _). simpl in Hr. congruence. }
  transitivity (resp_StatusCode resp = StatusConflict ∨ (200 ≤ resp_StatusCode resp < 300)%Z).
  - rewrite <-not2xx_spec. case_decide; [naive_solver|]. destruct (not2xx _); naive_solver.
  - split; [by intros; exists body; eauto|]. intros (? & [= <-] & _ & ? & Hr & ?). simpl in Hr. congruence.
Qed.

Lemma PatchStatusAt_Ok env token url (update : StatusUpdateDTO) :
  let client := mkClient (cfg_Url cfg) (cfg_Uuid cfg) (mkBearerTokenAuth token) in
  is_ok (PatchStatusAt meta env (mj_MarshalUpdate json) client url update).1 = true ↔
  ∃ body, mj_MarshalUpdate json update = Ok body ∧
    answers env (mkRequest "PATCH" url (runHeaders token) body)
      (λ resp, (200 ≤ resp_StatusCode resp < 300)%Z ∧ resp_BodyErr resp = None).
Proof.
  simpl. unfold PatchStatusAt, answers. destruct (mj_MarshalUpdate json update) as [body|e]; [|naive_solver].
  unfold exchange. simpl. fold (runHeaders token). unfold id.
  destruct (http_NewRequestErr env url); [naive_solver|].
  destruct (http_Do env _) as [resp|e] eqn:Hdo; simpl.
  2: { split; [done|]. intros (? & [= <-] & _ & ? & Hr & _). simpl in Hr. congruence. }
  transitivity ((200 ≤ resp_StatusCode resp < 300)%Z ∧ resp_BodyErr resp = None).
  - rewrite <-not2xx_spec. destruct (not2xx _); simpl; [naive_solver|]. destruct (resp_BodyErr resp); naive_solver.
  - split; [by intros; exists body; eauto|]. intros (? & [= <-] & _ & ? & Hr & ?). simpl in Hr. congruence.
Qed.

(** The two requests of a run that was reported at its [links] with its
    [token]: the source with one step, then the success of that step and of the
    run, with the [inputs] as outputs. *)
Definition reportedAt (env env' : HttpEnv) (links : LinksDTO) (token : string)
    (inputs : list BuildingBlockInputSpecDTO) : Prop :=
  Href (RegisterSourceLink links) ≠ "" ∧ Href (UpdateSourceLink links) ≠ "" ∧
  ∃ body outputs body',
    mj_MarshalRegistration json
      (mkRegistration (cfg_Uuid cfg) [mkStepRegistration "manual" "Manual Block Run" None]) = Ok body ∧
    answers env (mkRequest "POST" (Href (RegisterSourceLink links)) (runHeaders token) body)
      (λ resp, resp_StatusCode resp = 409%Z ∨ (200 ≤ resp_StatusCode resp < 300)%Z) ∧
    echoes inputs outputs ∧
    mj_MarshalUpdate json
      (mkStatusUpdate (Some "SUCCEEDED") None
         [mkStepUpdate "manual" "Manual Block Run" (Some "SUCCEEDED") None None outputs]) = Ok body' ∧
    answers env' (mkRequest "PATCH"
        (ReplaceAll (Href (UpdateSourceLink links)) "{sourceId}" (PathEscape (cfg_Uuid cfg))) (runHeaders token) body')
      (λ resp, (200 ≤ resp_StatusCode resp < 300)%Z ∧ resp_BodyErr resp = None).

Lemma sourceURLs_Ok links sourceId registerURL updateURL :
  sourceURLs links sourceId = Ok (registerURL, updateURL) ↔
  Href (RegisterSourceLink links) ≠ "" ∧ Href (UpdateSourceLink links) ≠ "" ∧
  registerURL = Href (RegisterSourceLink links) ∧
  updateURL = ReplaceAll (Href (UpdateSourceLink links)) "{sourceId}" (PathEscape sourceId).
Proof. unfold sourceURLs. repeat case_decide; naive_solver. Qed.

Lemma ExecuteRun_None (env env' : HttpEnv) (run : RunDetailsDTO) :
  ExecuteRun env env' run = None ↔
  reportedAt env env' (run_Links run) (spec_RunToken (run_Spec run)) (bb_Inputs (bb_Spec (spec_BuildingBlock (run_Spec run)))).
Proof.
  unfold ExecuteRun, reportedAt. destruct (sourceURLs _ _) as [[registerURL updateURL]|e] eqn:Hs.
  2: { split; [done|]. intros (H1 & H2 & _).
    assert (Err e = Ok (Href (RegisterSourceLink (run_Links run)),
      ReplaceAll (Href (UpdateSourceLink (run_Links run))) "{sourceId}" (PathEscape (cfg_Uuid cfg)))); [|done].
    rewrite <-Hs. by apply sourceURLs_Ok. }
  apply sourceURLs_Ok in Hs as (Hreg & Hupd & -> & ->).
  set (registerURL := Href (RegisterSourceLink (run_Links run))) in *. set (updateURL := ReplaceAll _ _ _).
  pose proof (RegisterSourceAt_None env (spec_RunToken (run_Spec run)) registerURL registration) as H1.
  destruct (RegisterSourceAt _ _ _ _ _ _) as [err client] eqn:Hr.
  cbv zeta in H1. rewrite Hr in H1. cbn [fst] in H1.
  assert (client = mkClient (cfg_Url cfg) (cfg_Uuid cfg) (mkBearerTokenAuth (spec_RunToken (run_Spec run)))) as ->.
  { revert Hr. unfold RegisterSourceAt, exchange. simpl. intros. repeat case_match; by simplify_eq. }
  pose proof (PatchStatusAt_Ok env' (spec_RunToken (run_Spec run)) updateURL (report run)) as H2.
  cbv zeta in H2. destruct err as [err|].
  - split; [done|]. intros (_ & _ & body & _ & _ & ? & ? & _). exfalso.
    assert (Some err = None) by (apply H1; by exists body). done.
  - destruct (PatchStatusAt _ _ _ _ _ _).1 as [text|e]; simpl in H2.
    + split; [|done]. intros _. destruct (proj1 H1 eq_refl) as (b & ? & ?), (proj1 H2 eq_refl) as (b' & ? & ?).
      split_and!; [done..|]. exists b, (outputsFrom (bb_Inputs (bb_Spec (spec_BuildingBlock (run_Spec run))))), b'.
      split_and!; [done|done|apply outputsFrom_echoes|done|done].
    + split; [done|]. intros (_ & _ & _ & outputs & body' & _ & _ & Hecho & ? & ?). exfalso.
      apply outputsFrom_unique in Hecho as ->. assert (false = true) by (apply H2; by exists body'). done.
Qed.

(** C40. A manual run ends well exactly when the run brings both links along,
    its source is registered, or was already, at the first with the run's own
    token and the step "manual", and then a 2xx takes the report at the second,
    in which the runner's id is filled in: the run SUCCEEDED, and so did its
    one step, whose outputs are the run's inputs: under each key that an input
    has, the value and the sensitivity of its last input, and the type that
    meshStack has for such an output. Nothing is reported when the
    registration fails. *)
Theorem ExecuteRun_reports (env env' : HttpEnv) (run : RunDetailsDTO) :
  ExecuteRun env env' run = None ↔
  let links := run_Links run in let token := spec_RunToken (run_Spec run) in
  Href (RegisterSourceLink links) ≠ "" ∧ Href (UpdateSourceLink links) ≠ "" ∧
  ∃ body outputs body',
    mj_MarshalRegistration json
      (mkRegistration (cfg_Uuid cfg) [mkStepRegistration "manual" "Manual Block Run" None]) = Ok body ∧
    answers env (mkRequest "POST" (Href (RegisterSourceLink links)) (runHeaders token) body)
      (λ resp, resp_StatusCode resp = 409%Z ∨ (200 ≤ resp_StatusCode resp < 300)%Z) ∧
    echoes (bb_Inputs (bb_Spec (spec_BuildingBlock (run_Spec run)))) outputs ∧
    mj_MarshalUpdate json
      (mkStatusUpdate (Some "SUCCEEDED") None
         [mkStepUpdate "manual" "Manual Block Run" (Some "SUCCEEDED") None None outputs]) = Ok body' ∧
    answers env' (mkRequest "PATCH"
        (ReplaceAll (Href (UpdateSourceLink links)) "{sourceId}" (PathEscape (cfg_Uuid cfg))) (runHeaders token) body')
      (λ resp, (200 ≤ resp_StatusCode resp < 300)%Z ∧ resp_BodyErr resp = None).
Proof. apply ExecuteRun_None. Qed.

(** ** The loop *)

Definition nextPoller (p : Poller) : Poller := (executeNextRun p).2.

(** [Run] comes to an end when the context is cancelled, after exactly the
    iterations before that, and only those that reported a run do not wait. *)
Lemma Run_until_cancelled (cancelled : nat → bool) (n i : nat) (p : Poller) :
  (∀ j, j < n → cancelled (i + j) = false) → cancelled (i + n) = true →
  ∃ waits, Run (S n) cancelled i p = Some (waits, Nat.iter n nextPoller p) ∧
    ∀ j, j ∈ waits ↔ i ≤ j < i + n ∧ (executeNextRun (Nat.iter (j - i) nextPoller p)).1 = false.
Proof.
  revert i p. induction n as [|n IH]; intros i p Hf Ht.
  { rewrite Nat.add_0_r in Ht. simpl. rewrite Ht. eexists. split; [done|]. intros j. rewrite elem_of_nil. lia. }
  pose proof (Hf 0 ltac:(lia)) as H0. rewrite Nat.add_0_r in H0.
  destruct (IH (S i) (nextPoller p)) as (waits & Hr & Hw).
  { intros j Hj. rewrite Nat.add_succ_comm. apply Hf. lia. }
  { by rewrite Nat.add_succ_comm. }
  assert (∀ m, Nat.iter m nextPoller (nextPoller p) = Nat.iter (S m) nextPoller p) as Hiter
    by (intros m; by rewrite Nat.iter_succ_r).
  change (Run (S (S n)) cancelled i p) with
    (if cancelled i then Some ([], p)
     else let '(reported, p) := executeNextRun p in
          '(waits, p) ← Run (S n) cancelled (S i) p; Some (if reported then (waits, p) else (i :: waits, p))).
  rewrite H0. unfold nextPoller in Hr at 1. destruct (executeNextRun p) as [reported p1] eqn:He.
  simpl snd in Hr. rewrite Hr. cbn [mbind option_bind]. rewrite Hiter.
  assert (∀ j, j ∈ waits ↔ S i ≤ j < i + S n ∧ (executeNextRun (Nat.iter (j - i) nextPoller p)).1 = false) as Hw'.
  { intros j. rewrite Hw, Hiter. split; intros [? Hj]; (split; [lia|]);
      by replace (j - i) with (S (j - S i)) in * by lia. }
  exists (if reported then waits else i :: waits). split; [by destruct reported|]. intros j.
  assert (j = i → executeNextRun (Nat.iter (j - i) nextPoller p) = (reported, p1)) as Hi
    by (intros ->; by rewrite Nat.sub_diag).
  destruct (decide (j = i)) as [->|Hne].
  - rewrite Hi by done. destruct reported; simpl; rewrite ?elem_of_cons, ?Hw'; intuition (try done; lia).
  - destruct reported; rewrite ?elem_of_cons, Hw'; intuition lia.
Qed.
End ManualRun.

(** ** main.go *)

Inductive ManualEnd := ExitFailure (err : error) | ExitSuccess | Stopped (waits : list nat) (p : Poller).

Section ManualMain.
Context (meta : ClientMetadata) (json : ManualJson) (os : OS) {M : Type}.
Context (unmarshal : string → result (Node M)) (decode : Node M → Config → result Config).
(* net.Listen on an address *)
Context (listen : string → option error) (worlds : nat → HttpEnv) (cancelled : nat → bool).

Definition executeRunFile (cfg : Config) (runFile : string) : option error :=
  match os_ReadFile os runFile with
  | Err err => Some err
  | Ok data => ExecuteRunJson meta json cfg (worlds 0) (worlds 1) data
  end.

(** The port that Spring Boot read, whose runner this one replaces. *)
Definition healthAddr : string :=
  ":" +:+ cmpOr (os_Getenv os "SERVER_PORT") (cmpOr (os_Getenv os "PORT") "8104").

Definition startHealthServer : option error := listen healthAddr.

(** [None] stands for no fuel. *)
Definition manualMain (fuel : nat) : option ManualEnd :=
  match LoadConfig os unmarshal decode (cmpOr (os_Getenv os "RUNNER_CONFIG_FILE") "runner-config.yml") with
  | Err err => Some (ExitFailure err)
  | Ok cfg =>
      let runFile := os_Getenv os "RUN_JSON_FILE_PATH" in
      if decide (runFile ≠ "") then
        match executeRunFile cfg runFile with
        | Some err => Some (ExitFailure err)
        | None => Some ExitSuccess
        end
      else
        match startHealthServer with
        | Some err => Some (ExitFailure err)
        | None =>
            '(waits, p) ← Run meta json cfg worlds fuel cancelled 0 (mkPoller (NewPoller cfg) 0);
            Some (Stopped waits p)
        end
  end.

Lemma manualMain_file_ends (fuel : nat) (cfg : Config) :
  LoadConfig os unmarshal decode (cmpOr (os_Getenv os "RUNNER_CONFIG_FILE") "runner-config.yml") = Ok cfg →
  os_Getenv os "RUN_JSON_FILE_PATH" ≠ "" →
  manualMain fuel = Some (match executeRunFile cfg (os_Getenv os "RUN_JSON_FILE_PATH") with
                          | Some err => ExitFailure err | None => ExitSuccess end).
Proof. intros Hl Hf. unfold manualMain. rewrite Hl, decide_True by done. by destruct (executeRunFile _ _). Qed.

(** Other than a Terraform run's, the exit code of a run from a file says
    whether it was reported. *)
Lemma manualMain_run_file (fuel : nat) (cfg : Config) :
  LoadConfig os unmarshal decode (cmpOr (os_Getenv os "RUNNER_CONFIG_FILE") "runner-config.yml") = Ok cfg →
  os_Getenv os "RUN_JSON_FILE_PATH" ≠ "" →
  manualMain fuel = Some ExitSuccess ↔
  ∃ data run, os_ReadFile os (os_Getenv os "RUN_JSON_FILE_PATH") = Ok data ∧ mj_parseRun json data = Ok run ∧
    ExecuteRun meta json cfg (worlds 0) (worlds 1) run = None.
Proof.
  intros Hl Hf. unfold manualMain. rewrite Hl, decide_True by done. unfold executeRunFile, ExecuteRunJson.
  destruct (os_ReadFile os _) as [data|e]; [|split; [done|by intros (? & ? & ? & _)]].
  destruct (mj_parseRun json data) as [run|e] eqn:Hp.
  2: { split; [done|]. intros (? & ? & [= <-] & ? & _). congruence. }
  destruct (ExecuteRun _ _ _ _ _ run) eqn:He; split; try done.
  - intros (? & ? & [= <-] & ? & ?). congruence.
  - intros _. by exists data, run.
Qed.

(** Until a signal comes, the poller polls. *)
Lemma manualMain_polls (fuel n : nat) (cfg : Config) :
  LoadConfig os unmarshal decode (cmpOr (os_Getenv os "RUNNER_CONFIG_FILE") "runner-config.yml") = Ok cfg →
  os_Getenv os "RUN_JSON_FILE_PATH" = "" → startHealthServer = None →
  (∀ j, j < n → cancelled j = false) → cancelled n = true →
  ∃ waits, manualMain (S n) =
    Some (Stopped waits (Nat.iter n (nextPoller meta json cfg worlds) (mkPoller (NewPoller cfg) 0))).
Proof.
  intros Hl Hf Hh Hc Hn. unfold manualMain. rewrite Hl, Hf, Hh. rewrite decide_False by (intros []; done).
  destruct (Run_until_cancelled meta json cfg worlds cancelled n 0 (mkPoller (NewPoller cfg) 0)) as (waits & Hr & _);
    [done..|]. rewrite Hr. by exists waits.
Qed.
End ManualMain.

(** ** Links *)

Lemma ReplaceAll_go_plain p r old new n :
  hasChar "{" p = false →
  ReplaceAll_go (String.length p + n) (p +:+ r) (String "{" old) new =
  p +:+ ReplaceAll_go n r (String "{" old) new.
Proof.
  induction p as [|c p IH]; [done|]. cbn [hasChar]. intros [Hc%bool_decide_eq_false Hp]%orb_false_iff.
  rewrite !string_app_cons. cbn [String.length plus ReplaceAll_go].
  destruct (HasPrefix (String c (p +:+ r)) (String "{" old)) eqn:Hpre; [|by rewrite IH].
  apply HasPrefix_spec in Hpre as [? [= -> _]]. done.
Qed.

Lemma ReplaceAll_go_none p old new n : hasChar "{" p = false →
  ReplaceAll_go (n + String.length p) p (String "{" old) new = p.
Proof.
  intros Hp. pose proof (ReplaceAll_go_plain p "" old new n Hp) as H.
  rewrite Nat.add_comm. rewrite string_app_nil_r in H. rewrite H.
  destruct n; apply string_app_nil_r.
Qed.

(** The source's id takes exactly the place the link keeps for it, and
    stays a single segment of its path: whatever the id, no slash, question
    mark or hash of it reaches the URL, so an update goes to the source's
    path and nowhere else. *)
Theorem sourceURLs_segment (links : LinksDTO) (sourceId before after : string)
    (Hreg : Href (RegisterSourceLink links) ≠ "")
    (Hlink : Href (UpdateSourceLink links) = before +:+ "{sourceId}" +:+ after)
    (Hbefore : hasChar "{" before = false) (Hafter : hasChar "{" after = false) :
  ∃ segment, sourceURLs links sourceId = Ok (Href (RegisterSourceLink links), before +:+ segment +:+ after) ∧
    segment = PathEscape sourceId ∧
    Forall (λ c, hasChar c segment = false) ["/"; "?"; "#"]%char.
Proof.
  exists (PathEscape sourceId). split_and!; [|done|].
  - unfold sourceURLs. rewrite decide_False by done. rewrite decide_False.
    2: { rewrite Hlink. by destruct before. }
    rewrite Hlink. unfold ReplaceAll. rewrite length_string_app, ReplaceAll_go_plain by done.
    assert (∀ n s new, ReplaceAll_go (S n) ("{sourceId}" +:+ s) "{sourceId}" new =
              new +:+ ReplaceAll_go n s "{sourceId}" new) as Hstep.
    { intros n s new. cbn [ReplaceAll_go]. change ("{sourceId}" +:+ s) with (String "{" ("sourceId}" +:+ s)) at 1.
      cbv iota. assert (HasPrefix ("{sourceId}" +:+ s) "{sourceId}" = true) as -> by (apply HasPrefix_spec; eauto).
      by rewrite sdrop_app. }
    rewrite length_string_app. change (String.length "{sourceId}" + String.length after) with (S (9 + String.length after)).
    by rewrite Hstep, ReplaceAll_go_none.
  - repeat constructor; by apply PathEscape_segment.
Qed.

(** ** A manual run *)

Definition exampleInputs : list BuildingBlockInputSpecDTO :=
  [mkInput "count" (anyRaw "12345678901234567890") "INTEGER" false false;
   mkInput "region" (anyStr "eu") "SINGLE_SELECT" false false;
   mkInput "zones" (anyList [anyStr "a"]) "MULTI_SELECT" false false;
   mkInput "region" (anyStr "us") "STRING" true false].

Example outputsFrom_example : outputsFrom exampleInputs =
  {[ "count" := mkOutputDTO (anyRaw "12345678901234567890") "INTEGER" false;
     "region" := mkOutputDTO (anyStr "us") "STRING" true;
     "zones" := mkOutputDTO (anyList [anyStr "a"]) "CODE" false ]}.
Proof. apply map_eq. intros k. vm_compute. reflexivity. Qed.

Definition exampleLinks : LinksDTO :=
  let no := mkLinkDTO "" false in
  mkLinksDTO no (mkLinkDTO "http://mesh/run-1/source" false) (mkLinkDTO "http://mesh/run-1/source/{sourceId}/status" true)
    no no no no.

Lemma sourceURLs_segment_witness :
  sourceURLs exampleLinks "a/b?c" = Ok ("http://mesh/run-1/source", "http://mesh/run-1/source/a%2Fb%3Fc/status").
Proof.
  destruct (sourceURLs_segment exampleLinks "a/b?c" "http://mesh/run-1/source/" "/status") as (s & H & -> & _);
    [done|reflexivity|reflexivity|reflexivity|]. exact H.
Defined.

Definition exampleRun : RunDetailsDTO :=
  mkRunDetails "v1" "meshBuildingBlockRun" "run-1"
    (mkRunSpec 1 "APPLY" (mkBB "bb-1" (mkBBDetails "Block" "ws" "p" "" exampleInputs []))
       (mkDefinition "def-1" (mkDefinitionDetails "owner" 1 "MANUAL")) "token" None)
    "IN_PROGRESS" exampleLinks.

Definition exampleManualJson : ManualJson :=
  mkManualJson (λ _, Ok exampleRun) (λ _, Ok exampleRun) (λ _, Ok "{}") (λ _, Ok "{}").

(** The source is registered already, the report is taken; or it is not. *)
Example ExecuteRun_example :
  ExecuteRun defaultMetadata exampleManualJson defaultConfig (exampleHttp (mkResponse 409 "" None))
    (exampleHttp (mkResponse 200 "" None)) exampleRun = None.
Proof. vm_compute. reflexivity. Qed.
Example ExecuteRun_refused :
  ExecuteRun defaultMetadata exampleManualJson defaultConfig (exampleHttp (mkResponse 409 "" None))
    (exampleHttp (mkResponse 500 "" None)) exampleRun =
  Some (errWrap "report run run-1: " (errWrap "patch status: " (errStatus 500) ": ") "").
Proof. vm_compute. reflexivity. Qed.
