(* ===== verification/TfWorkspace.v ===== *)
(** * TfWorkspace: whose state a command works on

    The building blocks of one definition share their sources and often their
    backend, so that only the workspace (or the backend that the runner
    generates) keeps their states apart. This file follows the workspace calls
    of tfcmd.go ([init], [createMeshStackHttpBackendFile], [selectWorkspace],
    [useWorkspaceIfNeeded], [deleteWorkspaceIfNeeded]) through a whole command
    and proves that it plans, applies and destroys on its own block's state. *)

From S2P Require Import Prelude GoPath Base64 Hcl VarsFile Status MeshDtos MeshAuth MeshClient TfConfig Run RunM Example Frame GitSource TfEnv Script TfVars TfBinaries TfCmd TfCommands TfFrames TfRun TfContract Dtos RunApi StatusUpdate Worker.

(** ** Computations that leave the workspace flag alone *)

Definition sameFlag (w w' : World) : Prop := useWorkspaces w' = useWorkspaces w.
#[export] Instance sameFlag_preorder : PreOrder sameFlag.
Proof. split; [done|]. intros x y z ??. unfold sameFlag in *. congruence. Qed.

Create HintDb flag discriminated.

Ltac keeps_flag_step :=
  first
    [ solve [auto with flag nocore]
    | apply (Keeps_ret _) | apply (Keeps_gets _) | apply (Keeps_panic _)
    | apply (Keeps_bind _); [|intros ?]
    | match goal with |- Keeps _ (match ?x with _ => _ end) => destruct x end
    | match goal with |- Keeps _ (let _ := _ in _) => cbv zeta end
    | apply Keeps_modify; intros ?; repeat case_match; reflexivity ].
Ltac keeps_flag := repeat keeps_flag_step.

Section Flag.
Context (env : Env) (lib : HclLib) (cfg : TfRunnerConfig) (info : RunContextInfo)
  (params : TfCmdParams) (installDir : string).

#[local] Abbreviation flag := (Keeps sameFlag).

Lemma flag_setCurrentStepMessage m : flag (setCurrentStepMessage env m).
Proof. unfold setCurrentStepMessage, fileContentOrEmpty, ask. keeps_flag. Qed.
#[local] Hint Resolve flag_setCurrentStepMessage : flag.

Lemma flag_logwrap_Write p : flag (logwrap_Write env p).
Proof. unfold logwrap_Write, logCallback, commitStatus, publishStatus, ask. keeps_flag. Qed.
#[local] Hint Resolve flag_logwrap_Write : flag.

Lemma flag_PrintlnToUpdateLogs m : flag (PrintlnToUpdateLogs env m).
Proof. unfold PrintlnToUpdateLogs. keeps_flag. Qed.
Lemma flag_PrintlnToLocalAndUpdateLogs m : flag (PrintlnToLocalAndUpdateLogs env m).
Proof. apply flag_PrintlnToUpdateLogs. Qed.
Lemma flag_osFails op p : flag (osFails env op p).
Proof. apply (Keeps_gets _). Qed.
Lemma flag_ask {A} (f : list event → A) : flag (ask f).
Proof. apply (Keeps_gets _). Qed.
#[local] Hint Resolve flag_PrintlnToUpdateLogs flag_PrintlnToLocalAndUpdateLogs flag_osFails flag_ask : flag.

Lemma flag_writeChunks l : flag (writeChunks env l).
Proof. induction l; simpl; keeps_flag. Qed.
#[local] Hint Resolve flag_writeChunks : flag.
Lemma flag_runTf call : flag (runTf env call).
Proof. unfold runTf. keeps_flag. Qed.
Lemma flag_os_WriteFile p c : flag (os_WriteFile env p c).
Proof. unfold os_WriteFile. keeps_flag. Qed.
Lemma flag_os_ReadFileM p : flag (os_ReadFileM env p).
Proof. unfold os_ReadFileM. keeps_flag. Qed.
Lemma flag_os_Stat p : flag (os_Stat env p).
Proof. unfold os_Stat. keeps_flag. Qed.
Lemma flag_os_Mkdir p : flag (os_Mkdir env p).
Proof. unfold os_Mkdir. keeps_flag. Qed.
Lemma flag_os_RemoveAll p : flag (os_RemoveAll env p).
Proof. unfold os_RemoveAll. keeps_flag. Qed.
#[local] Hint Resolve flag_runTf flag_os_WriteFile flag_os_ReadFileM flag_os_Stat flag_os_Mkdir flag_os_RemoveAll : flag.

Lemma flag_runGit call : flag (runGit env call).
Proof. unfold runGit. keeps_flag. Qed.
#[local] Hint Resolve flag_runGit : flag.
Lemma flag_resolveFirst revisions e : flag (resolveFirst env revisions e).
Proof. revert e. induction revisions; intros e; simpl; keeps_flag. Qed.
Lemma flag_moveFiles src dst rels : flag (moveFiles env src dst rels).
Proof. induction rels; simpl; keeps_flag. Qed.
#[local] Hint Resolve flag_resolveFirst flag_moveFiles : flag.

Lemma flag_createFreshCommandWd : flag (createFreshCommandWd env cfg info params).
Proof.
  unfold createFreshCommandWd, CopyToTargetDir, cloneAndCheckout, moveSources, moveDirContent, azureClone,
    azureCheckoutRef, git_clone, noAuthClone, authClone, toTransport, checkoutRef, auth_prepare. keeps_flag.
Qed.

Lemma flag_GetTF ver : flag (GetTF env installDir ver).
Proof. unfold GetTF, NewTerraform, unlessFails, installTerraform, installTofuBinaries. keeps_flag. Qed.
Lemma flag_varsEnv l m : flag (varsEnv env l m).
Proof. revert m. induction l as [|[]]; intros m; simpl; keeps_flag. Qed.
#[local] Hint Resolve flag_varsEnv : flag.
Lemma flag_buildTfEnv : flag (buildTfEnv env cfg info params).
Proof. unfold buildTfEnv. keeps_flag. Qed.
Lemma flag_SetEnv tfEnv : flag (SetEnv env tfEnv).
Proof. unfold SetEnv. keeps_flag. Qed.

Lemma flag_saveInputFiles_loop l n : flag (saveInputFiles_loop env info l n).
Proof.
  revert n. induction l as [|[]]; intros n; simpl; unfold saveInputFile, writeInputFile, fileProblem; keeps_flag.
Qed.
#[local] Hint Resolve flag_saveInputFiles_loop : flag.
Lemma flag_saveInputFiles : flag (r ← saveInputFiles env info params; mret r.2).
Proof. unfold saveInputFiles. keeps_flag. Qed.

Lemma flag_logDiags n l : flag (logDiags env n l).
Proof. unfold logDiags. induction l; simpl; keeps_flag. Qed.
#[local] Hint Resolve flag_logDiags : flag.
Lemma flag_addInputs existing l f : flag (addInputs env lib params existing l f).
Proof.
  revert f. induction l as [|[]]; intros f; simpl; unfold addInput, orOverflow; keeps_flag.
Qed.
Lemma flag_addMeshStackVars existing l f d : flag (addMeshStackVars env lib params existing l f d).
Proof. revert f d. induction l as [|[[]]]; intros f d; simpl; unfold orOverflow; keeps_flag. Qed.
#[local] Hint Resolve flag_addInputs flag_addMeshStackVars : flag.
Lemma flag_vars_cmd : flag (vars_cmd env lib info params).
Proof. unfold vars_cmd, writeDeclarations, writeVarsFile. keeps_flag. Qed.

Lemma flag_startRun : flag startRun.
Proof. unfold startRun, firstStepM, setRunStatus, modifyStatus, commitStatus, publishStatus. keeps_flag. Qed.
Lemma flag_assignOutput : flag assignOutput.
Proof. unfold assignOutput. keeps_flag. Qed.
Lemma flag_advanceStep m : flag (advanceStep env info m).
Proof. unfold advanceStep, nextStepM, modifyStatus, commitStatus, publishStatus. keeps_flag. Qed.
Lemma flag_initRunSteps c : flag (initRunSteps info c).
Proof. destruct c; apply Keeps_modify; by intros. Qed.

Lemma flag_detectBackend : flag (detectBackend env lib info).
Proof. unfold detectBackend. keeps_flag. Qed.
Lemma flag_plainInit b : flag (plainInit env b).
Proof. unfold plainInit. keeps_flag. Qed.
End Flag.

#[export] Hint Resolve flag_setCurrentStepMessage flag_logwrap_Write flag_PrintlnToUpdateLogs
  flag_PrintlnToLocalAndUpdateLogs flag_osFails flag_ask flag_runTf flag_os_WriteFile flag_os_Stat
  flag_createFreshCommandWd flag_GetTF flag_buildTfEnv flag_SetEnv flag_saveInputFiles flag_vars_cmd
  flag_startRun flag_assignOutput flag_advanceStep flag_initRunSteps flag_detectBackend flag_plainInit : flag.

(** ** Where a command works *)

Section Isolation.
Context (env : Env) (lib : HclLib) (cfg : TfRunnerConfig) (info : RunContextInfo)
  (params : TfCmdParams) (installDir : string).

(** The name of a workspace of this building block. *)
Definition ownName (ws : string) : Prop := HasSuffix ws (buildingBlockId params) = true.

(** The call, after the events [past], succeeds and shows or makes one of the
    block's workspaces the current one. *)
Definition entersOwn (past : list event) (call : TfCall) : Prop :=
  env_tfErr env past call = None ∧
  match call with
  | TfWorkspaceList => ownName (env_tfWorkspaces env past).2
  | TfWorkspaceSelect ws | TfWorkspaceNew ws _ => ownName ws
  | _ => False
  end.

(** After these events the current workspace is the block's: no workspace call
    came after the one that entered it. *)
Inductive inOwnWorkspace : list event → Prop :=
| own_entered call past : entersOwn past call → inOwnWorkspace (EvTf call :: past)
| own_stays ev past : inOwnWorkspace past →
    (∀ ws lock, ev ≠ EvTf (TfWorkspaceNew ws lock)) → (∀ ws, ev ≠ EvTf (TfWorkspaceSelect ws)) →
    (∀ ws force lock, ev ≠ EvTf (TfWorkspaceDelete ws force lock)) →
    inOwnWorkspace (ev :: past).

(** The runner configured the meshStack backend at the block's own address,
    and tofu was initialised with it. *)
Inductive onGeneratedBackend : list event → Prop :=
| generated_init now mid past :
    useMeshBackendFallback info = true → runToken info ≠ "" →
    env_tfErr env (mid ++ EvFile (path_Join [workingDirectory info; backendFileName now])
                          (hclBytes lib (backendConfig lib info (backendUrl cfg info))) :: past)
      (TfInit true false) = None →
    onGeneratedBackend (EvTf (TfInit true false) :: mid ++
      EvFile (path_Join [workingDirectory info; backendFileName now])
        (hclBytes lib (backendConfig lib info (backendUrl cfg info))) :: past)
| generated_stays ev past : onGeneratedBackend past → onGeneratedBackend (ev :: past).

Definition isolated (past : list event) : Prop := inOwnWorkspace past ∨ onGeneratedBackend past.

(** What a command may do with states and workspaces, given the events before it. *)
Definition stateAllowed (ev : event) (past : list event) : Prop :=
  match ev with
  | EvTf (TfPlan _ _) | EvTf (TfApply _ _) | EvTf (TfDestroy _ _) => isolated past
  | EvTf (TfWorkspaceNew ws _) => ws = suggestedWorkspace params
  | EvTf (TfWorkspaceSelect ws) => ownName ws ∨ ws = "default"
  | EvTf (TfWorkspaceDelete ws _ _) => ownName ws ∨ ws = ""
  | _ => True
  end.

Lemma stateAllowed_calm ev past : calmEvent ev = true → stateAllowed ev past.
Proof. by destruct ev as [| |[]| | | | | | | |]. Qed.

(** ** Computations between two assertions *)

Definition Between (S : World → Prop) {A} (m : M A) (Q : A → World → Prop) : Prop :=
  ∀ w, S w → grows stateAllowed w (m w).2 ∧ ∀ a w', m w = (Done a, w') → Q a w'.

Lemma Between_bind S {A B} (m : M A) R (k : A → M B) Q :
  Between S m R → (∀ a, Between (R a) (k a) Q) → Between S (m ≫= k) Q.
Proof.
  intros Hm Hk w Hw. destruct (Hm w Hw) as [Hg Hr]. unfold mbind, M_bind.
  destruct (m w) as [[a|msg] w1]; simpl in *; [|done].
  destruct (Hk a w1 (Hr a w1 eq_refl)) as [Hg' Hq]. split; [by etrans|done].
Qed.

Lemma Between_mono (S S' : World → Prop) {A} (m : M A) (Q Q' : A → World → Prop) :
  Between S m Q → (∀ w, S' w → S w) → (∀ a w, Q a w → Q' a w) → Between S' m Q'.
Proof. intros Hm HS HQ w Hw. destruct (Hm w (HS w Hw)) as [? Hr]. split; [done|]. eauto. Qed.

Lemma Between_ret S {A} (a : A) : Between S (mret a) (λ b w, a = b ∧ S w).
Proof. intros w Hw. split; [apply (Keeps_ret (grows stateAllowed))|]. intros b w' [= <- <-]. done. Qed.

Lemma Between_any S {A} (m : M A) : Keeps (grows stateAllowed) m → Between S m (λ _ _, True).
Proof. by intros Hm w _. Qed.

Lemma grows_calm_state {A} (m : M A) : Emits (λ ev, calmEvent ev = true) m → Keeps (grows stateAllowed) m.
Proof. apply Keeps_grows_of_Emits, stateAllowed_calm. Qed.

Lemma Between_orFail S m R k :
  Between S m (λ r w, r = None → R w) → Between R k (λ _ _, True) →
  Between S (orFail env cfg m k) (λ _ _, True).
Proof.
  intros Hm Hk. eapply Between_bind; [exact Hm|]. intros [e|].
  - apply Between_any, grows_calm_state, calm_fail.
  - eapply Between_mono; [exact Hk|auto|done].
Qed.

Lemma Between_orFailWith S {A} (m : M (result A)) R k :
  Between S m (λ _ w, R w) → (∀ a, Between R (k a) (λ _ _, True)) →
  Between S (orFailWith env cfg m k) (λ _ _, True).
Proof.
  intros Hm Hk. eapply Between_bind; [exact Hm|]. intros [a|e]; [apply Hk|].
  apply Between_any, grows_calm_state, calm_fail.
Qed.

(** ** The calls of tofu *)

Lemma stateAllowed_output ev past : outputEvent ev = true → stateAllowed ev past.
Proof. by destruct ev. Qed.

Lemma grows_runTf_state call w :
  stateAllowed (EvTf call) (trace w) → grows stateAllowed w (runTf env call w).2.
Proof.
  intros Hc. apply (extends_trans _ _ (EvTf call :: trace w)); [by constructor; [constructor|]|].
  eapply extends_mono; [|apply runTf_extends]. intros ev past Hev. by apply stateAllowed_output.
Qed.

(** Events that do not change the workspace. *)
Definition staysEvent (ev : event) : bool :=
  match ev with
  | EvTf (TfWorkspaceNew _ _) | EvTf (TfWorkspaceSelect _) | EvTf (TfWorkspaceDelete _ _ _) => false
  | _ => true
  end.

Lemma isolated_stays past tr :
  extends (λ ev _, staysEvent ev = true) past tr → isolated past → isolated tr.
Proof.
  intros Hx Hi. induction Hx as [|ev tr _ [IH|IH] Hev]; [done| |by right; constructor].
  left. apply own_stays; [done|intros ws lock ->|intros ws ->|intros ws force lock ->]; done.
Qed.

Lemma isolated_Emits {A} (m : M A) w :
  Emits (λ ev, staysEvent ev = true) m → isolated (trace w) → isolated (trace (m w).2).
Proof. intros Hm. apply isolated_stays, Hm. Qed.

(** Everything but workspace calls and the calls that need isolation. *)
Definition freeEvent (ev : event) : bool :=
  match ev with EvDownload _ _ _ | EvUpload _ _ _ => true | _ => calmEvent ev end.
#[local] Instance free_log : AllowsLog (λ ev, freeEvent ev = true).
Proof. by split. Qed.

Lemma free_of_calm {A} (m : M A) :
  Emits (λ ev, calmEvent ev = true) m → Emits (λ ev, freeEvent ev = true) m.
Proof. apply Emits_mono. intros ev. by destruct ev. Qed.

Lemma Between_isolated_free {A} (m : M A) :
  Emits (λ ev, freeEvent ev = true) m → Between (λ w, isolated (trace w)) m (λ _ w, isolated (trace w)).
Proof.
  intros Hm w Hw. split.
  - eapply (Keeps_grows_of_Emits (λ ev, freeEvent ev = true)); [|exact Hm].
    intros ev past Hev. by destruct ev as [| |[]| | | | | | | |].
  - intros a w' Hr. assert (Emits (λ ev, staysEvent ev = true) m) as Hs.
    { eapply Emits_mono; [|exact Hm]. intros ev. by destruct ev as [| |[]| | | | | | | |]. }
    pose proof (isolated_Emits m w Hs Hw) as H. by rewrite Hr in H.
Qed.

Lemma Between_isolated_runTf call :
  staysEvent (EvTf call) = true →
  Between (λ w, isolated (trace w)) (runTf env call) (λ _ w, isolated (trace w)).
Proof.
  intros Hs w Hw. split.
  - apply grows_runTf_state. by destruct call.
  - intros r w' Hr. pose proof (runTf_extends env call w) as Hx. rewrite Hr in Hx. simpl in Hx.
    eapply isolated_stays; [|exact Hw]. apply (extends_trans _ _ (EvTf call :: trace w)).
    + by constructor; [constructor|].
    + eapply extends_mono; [|exact Hx]. intros ev past Hev. by destruct ev.
Qed.

(** ** From the start to the workspace *)

Definition fresh (w : World) : Prop := useWorkspaces w = true.

(** After init: the workspace is still to be selected, or the backend was generated. *)
Definition settled (w : World) : Prop := fresh w ∨ onGeneratedBackend (trace w).

Lemma Between_fresh {A} (m : M A) :
  Keeps sameFlag m → Emits (λ ev, calmEvent ev = true) m → Between fresh m (λ _, fresh).
Proof.
  intros Hf Hc w Hw. split; [by apply grows_calm_state|]. intros a w' Hr.
  specialize (Hf w). rewrite Hr in Hf. unfold fresh, sameFlag in *. simpl in Hf. congruence.
Qed.

Lemma generated_extends P past tr : extends P past tr → onGeneratedBackend past → onGeneratedBackend tr.
Proof. intros Hx Hg. induction Hx; [done|]. by constructor. Qed.

Lemma created_file w w' :
  createMeshStackHttpBackendFile env lib cfg info w = (Done None, w') →
  runToken info ≠ "" ∧ useWorkspaces w' = useWorkspaces w ∧
  ∃ now past, trace w' = EvFile (path_Join [workingDirectory info; backendFileName now])
    (hclBytes lib (backendConfig lib info (backendUrl cfg info))) :: past.
Proof.
  unfold createMeshStackHttpBackendFile. intros (r & w1 & [= <- <-] & H)%M_bind_Done.
  destruct (env_osErr _ _ _ _); [done|].
  apply M_bind_Done in H as (now & w2 & [= <- <-] & H).
  apply M_bind_Done in H as (stat & w3 & Hs & H).
  unfold os_Stat in Hs. apply M_bind_Done in Hs as (? & ? & [= <- <-] & Hs).
  apply M_bind_Done in Hs as (? & ? & [= <- <-] & Hs). apply M_ret_Done in Hs as [<- <-].
  match type of H with context [match ?x with Some _ => _ | None => _ end] => destruct x as [e|] end;
    [|by apply M_ret_Done in H as [? _]].
  destruct (errors_Is isNotExist e); [|by apply M_ret_Done in H as [? _]].
  case_decide as Ht; [by apply M_ret_Done in H as [? _]|].
  unfold os_WriteFile in H. apply M_bind_Done in H as (f & ? & [= <- <-] & H).
  destruct (env_osErr _ _ _ _).
  - do 2 apply M_bind_Done in H as (? & ? & _ & H). by apply M_ret_Done in H as [? _].
  - apply M_bind_Done in H as (? & ? & [= <- <-] & H). apply M_ret_Done in H as [_ <-].
    split_and!; [done|done|]. by eexists _, _.
Qed.

Lemma plainInit_None w w' :
  plainInit env false w = (Done None, w') →
  ∃ post mid, trace w' = post ++ EvTf (TfInit true false) :: mid ++ trace w ∧
    env_tfErr env (mid ++ trace w) (TfInit true false) = None.
Proof.
  unfold plainInit. intros (r & w1 & H1 & H)%M_bind_Done.
  pose proof (runTf_extends env (TfInit true false) w) as Hx. rewrite H1 in Hx. simpl in Hx.
  apply extends_app in Hx as [evs Hx].
  apply runTf_Done in H1 as ->. destruct (env_tfErr env (trace w) _) as [e|] eqn:He.
  - apply M_bind_Done in H as (? & w2 & [= <- <-] & H).
    pose proof (runTf_extends env (TfInit true false) (emit (EvSleep 1000) w1)) as Hx2.
    rewrite H in Hx2. simpl in Hx2. apply extends_app in Hx2 as [evs2 Hx2].
    apply runTf_Done in H. simpl in H. rewrite Hx in Hx2, H.
    exists evs2, (EvSleep 1000 :: evs ++ [EvTf (TfInit true false)]).
    rewrite Hx2. simpl. rewrite <-app_assoc. simpl. done.
  - apply M_ret_Done in H as [_ <-]. by exists evs, [].
Qed.

Lemma Between_init : Between fresh (init env lib cfg info) (λ r w, r = None → settled w).
Proof.
  intros w Hw. split; [by apply grows_calm_state, calm_init|].
  assert (∀ w0 r w', useWorkspaces w0 = true → plainInit env false w0 = (Done r, w') → settled w') as Hplain.
  { intros w0 r w' H0 Hr. left. pose proof (flag_plainInit env false w0) as Hf. rewrite Hr in Hf.
    unfold fresh, sameFlag in *. simpl in Hf. congruence. }
  intros r w' Hr ->. unfold init in Hr. destruct (useMeshBackendFallback info) eqn:Hfb; [|by eapply Hplain].
  apply M_bind_Done in Hr as (found & w1 & H1 & Hr).
  pose proof (flag_detectBackend env lib info w) as Hf. rewrite H1 in Hf. unfold sameFlag in Hf. simpl in Hf.
  destruct found as [[|]|e]; [| |by apply M_ret_Done in Hr as [? _]].
  - apply M_bind_Done in Hr as (? & w2 & H2 & Hr).
    pose proof (flag_PrintlnToLocalAndUpdateLogs env "Using existing backend." w1) as Hf2.
    rewrite H2 in Hf2. unfold sameFlag in Hf2. simpl in Hf2. eapply Hplain; [|exact Hr]. unfold fresh in Hw. congruence.
  - apply M_bind_Done in Hr as (? & w2 & H2 & Hr). apply M_bind_Done in Hr as (created & w3 & H3 & Hr).
    destruct created; [by apply M_ret_Done in Hr as [? _]|].
    apply created_file in H3 as (Htok & _ & now & past & H3).
    apply M_bind_Done in Hr as (? & w4 & [= <- <-] & Hr).
    apply plainInit_None in Hr as (post & mid & Hr & He). simpl in Hr, He. rewrite H3 in Hr, He.
    right. rewrite Hr. clear -Hfb Htok He. induction post as [|ev post IH]; [|by apply generated_stays].
    by apply generated_init.
Qed.

Lemma ownName_own : ownName (buildingBlockId params).
Proof. apply (HasSuffix_app ""). Qed.

Lemma own_extends past tr :
  extends (λ ev _, outputEvent ev = true) past tr → inOwnWorkspace past → inOwnWorkspace tr.
Proof.
  intros Hx Ho. induction Hx as [|ev tr _ IH Hev]; [done|].
  apply own_stays; [done|intros ws lock ->|intros ws ->|intros ws force lock ->]; done.
Qed.

(** A successful call that enters the workspace leaves it entered. *)
Lemma runTf_enters call w w' :
  runTf env call w = (Done None, w') → (env_tfErr env (trace w) call = None → entersOwn (trace w) call) →
  inOwnWorkspace (trace w').
Proof.
  intros Hr Hc. pose proof (runTf_extends env call w) as Hx. rewrite Hr in Hx.
  apply runTf_Done in Hr. eapply own_extends; [exact Hx|]. by apply own_entered, Hc.
Qed.

(** What a selection came to. *)
Definition selected (r : result string) (w : World) : Prop :=
  ∀ ws, r = Ok ws → ws = "" ∨ ownName ws ∧ inOwnWorkspace (trace w).

Lemma Between_selectFrom l : Between (λ _, True) (selectFrom env params l) selected.
Proof.
  induction l as [|ws l IH]; simpl.
  - eapply Between_mono; [apply (Between_ret (λ _, True))|done|]. intros r w [<- _] ws [= <-]. by left.
  - destruct (HasSuffix ws (buildingBlockId params)) eqn:Hs; [|exact IH].
    intros w _. split.
    + pose proof (grows_runTf_state (TfWorkspaceSelect ws) w (or_introl Hs)) as Hg.
      unfold mbind, M_bind. destruct (runTf _ _ w) as [[[e|]|] w1]; exact Hg.
    + intros r w' (err & w1 & H1 & Hr)%M_bind_Done ws' ->.
      destruct err; apply M_ret_Done in Hr as [[= <-] <-]; [by left|]. right. split; [apply ownName_own|].
      by eapply runTf_enters.
Qed.

Lemma Between_selectWorkspace : Between (λ _, True) (selectWorkspace env params) selected.
Proof.
  unfold selectWorkspace. apply (Between_bind _ _ (λ t w, t = trace w)).
  { intros w _. split; [apply (Keeps_gets (grows stateAllowed))|]. by intros t w' [= <- <-]. }
  intros t. apply (Between_bind _ _ (λ err w1, ∃ w, trace w = t ∧ runTf env TfWorkspaceList w = (Done err, w1))).
  { intros w ->. split; [by apply grows_runTf_state|]. eauto. }
  intros [e|]; [eapply Between_mono; [apply (Between_ret (λ _, True))|done|]; by intros r w [<- _]|].
  destruct (env_tfWorkspaces env t) as [available current] eqn:Hws.
  destruct (HasSuffix current (buildingBlockId params)) eqn:Hs.
  - eapply Between_mono; [apply Between_ret|by intros ? H; exact H|]. intros r w1 [<- (w & <- & Hr)] ws [= <-]. right.
    split; [done|]. eapply runTf_enters; [done|]. intros He. split; [done|]. by rewrite Hws.
  - eapply Between_mono; [apply Between_selectFrom|done|done].
Qed.

(** The workspace that a run suggests is the block's: [toWorkspaceStr_suffix]. *)
Context (Hsuggested : ownName (suggestedWorkspace params)).

Lemma Between_useWorkspaceIfNeeded :
  Between settled (useWorkspaceIfNeeded env params) (λ r w, r = None → isolated (trace w)).
Proof.
  unfold useWorkspaceIfNeeded.
  apply (Between_bind _ _ (λ needed w, needed = false → onGeneratedBackend (trace w))).
  { intros w Hw. split; [apply (Keeps_gets (grows stateAllowed))|]. intros b w' [= <- <-] Hb.
    destruct Hw as [Hw|]; [|done]. unfold fresh in Hw. congruence. }
  intros [|].
  2:{ eapply Between_mono; [apply (Between_ret (λ w, onGeneratedBackend (trace w)))|intros w H; by apply H|].
      intros r w [_ Hg] _. by right. }
  apply (Between_mono (λ _, True) _ _ (λ r w, r = None → isolated (trace w))); [|done|done].
  apply (Between_bind _ _ selected); [apply Between_selectWorkspace|]. intros [ws|e].
  - case_decide as Hws.
    + intros w _. split; [by apply grows_runTf_state|]. intros r w' Hr ->. left.
      by eapply runTf_enters.
    + eapply Between_mono; [apply (Between_ret (selected (Ok ws)))|done|].
      intros r w [_ Hs] _. left. destruct (Hs ws eq_refl) as [?|[_ ?]]; done.
  - eapply Between_mono; [apply (Between_ret (λ _, True))|done|]. by intros r w [<- _].
Qed.

Lemma grows_deleteWorkspaceIfNeeded : Keeps (grows stateAllowed) (deleteWorkspaceIfNeeded env params).
Proof.
  assert (Between (λ _, True) (deleteWorkspaceIfNeeded env params) (λ _ _, True)) as H;
    [|intros w; by apply H].
  unfold deleteWorkspaceIfNeeded.
  apply (Between_bind _ _ (λ _ _, True)); [apply Between_any, Keeps_gets, _|]. intros [|];
    [|apply Between_any, Keeps_ret, _].
  apply (Between_bind _ _ selected); [apply Between_selectWorkspace|]. intros r.
  apply (Between_bind _ _ (λ _ _, ownName (match r with Ok w => w | Err _ => "" end) ∨
    match r with Ok w => w | Err _ => "" end = "")).
  { intros w Hs. split; [apply grows_runTf_state; by right|]. intros e w' _.
    destruct r as [ws|]; [|by right]. destruct (Hs ws eq_refl) as [|[? _]]; [by right|by left]. }
  intros [e|]; [apply Between_any, Keeps_ret, _|].
  apply (Between_bind _ _ (λ _ _, True)); [|intros ?; apply Between_any, Keeps_ret, _].
  intros w Hw. split; [by apply grows_runTf_state|done].
Qed.

(** ** The commands *)

Lemma Between_prefix (k : gmap string string → M unit) :
  (∀ tfEnv, Between fresh (k tfEnv) (λ _ _, True)) →
  Between fresh
    (startRun;;
     orFail env cfg (createFreshCommandWd env cfg info params) (
     orFailWith env cfg (GetTF env installDir (tfVersion params)) (λ _,
     orFailWith env cfg (buildTfEnv env cfg info params) (λ tfEnv,
     orFail env cfg (SetEnv env tfEnv) (
     assignOutput;;
     advanceStep env info None;;
     orFail env cfg (r ← saveInputFiles env info params; mret r.2) (
     orFail env cfg (vars_cmd env lib info params) (
     advanceStep env info None;;
     k tfEnv))))))) (λ _ _, True).
Proof.
  intros Hk.
  assert (∀ {A} (m : M A), Keeps sameFlag m → Emits (λ ev, calmEvent ev = true) m →
    Between fresh m (λ _ w, fresh w)) as Hq by (intros; by apply Between_fresh).
  assert (∀ m k', Keeps sameFlag m → Emits (λ ev, calmEvent ev = true) m → Between fresh k' (λ _ _, True) →
    Between fresh (orFail env cfg m k') (λ _ _, True)) as Hf.
  { intros m k' ? ? ?. eapply Between_orFail; [|done]. eapply Between_mono; [by apply Hq|done|by intros]. }
  apply (Between_bind _ _ (λ _, fresh)); [apply Hq; auto with flag prep|intros _].
  apply Hf; [auto with flag prep..|].
  eapply Between_orFailWith; [apply Hq; auto with flag prep|intros _].
  eapply Between_orFailWith; [apply Hq; auto with flag prep|intros tfEnv].
  apply Hf; [auto with flag prep..|].
  apply (Between_bind _ _ (λ _, fresh)); [apply Hq; auto with flag prep|intros _].
  apply (Between_bind _ _ (λ _, fresh)); [apply Hq; auto with flag prep|intros _].
  apply Hf; [auto with flag prep..|]. apply Hf; [auto with flag prep..|].
  apply (Between_bind _ _ (λ _, fresh)); [apply Hq; auto with flag prep|intros _]. apply Hk.
Qed.

Lemma Between_iso_orFail m k :
  Between (λ w, isolated (trace w)) m (λ _ w, isolated (trace w)) →
  Between (λ w, isolated (trace w)) k (λ _ _, True) →
  Between (λ w, isolated (trace w)) (orFail env cfg m k) (λ _ _, True).
Proof. intros Hm Hk. eapply Between_orFail; [|exact Hk]. eapply Between_mono; [exact Hm|done|by intros]. Qed.

Lemma Between_initWithHint : Between fresh (initWithHint env lib cfg info) (λ r w, r = None → settled w).
Proof.
  apply (Between_bind _ _ (λ r w, r = None → settled w)); [apply Between_init|]. intros [e|].
  - apply (Between_bind _ _ (λ _ _, True)).
    { apply Between_any, grows_calm_state, Emits_PrintlnToUpdateLogs; apply _. }
    intros _. eapply Between_mono; [apply (Between_ret (λ _, True))|done|]. by intros r w [<- _].
  - eapply Between_mono; [apply (Between_ret settled)|by intros w H; apply H|]. by intros r w [_ ?] _.
Qed.

(** From init to the step that works on the state. *)
Lemma Between_middle m tfEnv k :
  Between fresh m (λ r w, r = None → settled w) → Between (λ w, isolated (trace w)) k (λ _ _, True) →
  Between fresh
    (orFail env cfg m (
     orFail env cfg (useWorkspaceIfNeeded env params) (
     advanceStep env info None;;
     orFailScript env cfg info params installDir tfEnv k))) (λ _ _, True).
Proof.
  intros Hm Hk. eapply Between_orFail; [exact Hm|].
  eapply Between_orFail; [exact Between_useWorkspaceIfNeeded|].
  apply (Between_bind _ _ (λ _ w, isolated (trace w))).
  { apply Between_isolated_free, free_of_calm, calm_advanceStep. }
  intros _. apply (Between_bind _ _ (λ _ w, isolated (trace w))).
  { apply Between_isolated_free, free_of_calm, calm_runPreRunScript. }
  intros [msg [e|]]; [apply Between_any, grows_calm_state, calm_failWithUserMsg|].
  apply (Between_bind _ _ (λ _ w, isolated (trace w))); [|intros _; exact Hk].
  apply Between_isolated_free, free_of_calm, calm_advanceStep.
Qed.

Lemma free_bind {A B} (m : M A) (k : A → M B) :
  Emits (λ ev, freeEvent ev = true) m → (∀ a, Emits (λ ev, freeEvent ev = true) (k a)) →
  Emits (λ ev, freeEvent ev = true) (m ≫= k).
Proof. apply Emits_bind. Qed.

Lemma Between_applyAny :
  Between (λ w, isolated (trace w)) (applyAny env info params) (λ _ w, isolated (trace w)).
Proof.
  assert (∀ call, Between (λ w, isolated (trace w)) (runTf env (TfApply call stateLockTimeout))
    (λ _ w, isolated (trace w))) as Happly by (intros; by apply Between_isolated_runTf).
  assert (∀ {A} (m : M A), Emits (λ ev, freeEvent ev = true) m →
    Between (λ w, isolated (trace w)) m (λ _ w, isolated (trace w))) as Hfree
    by (intros; by apply Between_isolated_free).
  assert (∀ {A B} (m : M A) (k : A → M B),
    Between (λ w, isolated (trace w)) m (λ _ w, isolated (trace w)) →
    (∀ a, Between (λ w, isolated (trace w)) (k a) (λ _ w, isolated (trace w))) →
    Between (λ w, isolated (trace w)) (m ≫= k) (λ _ w, isolated (trace w))) as Hbind.
  { intros A B m k Hm Hk. by apply (Between_bind _ _ (λ _ w, isolated (trace w))). }
  unfold applyAny, applyPredecessorPlan. case_decide.
  - apply Hbind; [apply Hfree; emits|intros _]. apply Hbind; [apply Hfree; emits|intros [e|]; [apply Hfree; emits|]].
    apply Hbind; [apply Hfree; by apply Emits_modify_same|intros _].
    apply Hbind; [|intros [e|]; [apply Hfree; emits|]].
    { apply Hfree. unfold DownloadPredecessorArtifact. apply free_bind; [apply Emits_gets|]. intros t.
      destruct (env_download _ _ _) as [bytes err].
      apply free_bind; [by eapply (Emits_modify_emit _ _ (EvDownload _ _ _))|intros; apply Emits_ret]. }
    apply Hbind; [apply Hfree; emits|intros [e|]; [apply Hfree; emits|]].
    apply Hbind; [apply Happly|intros [e|]; apply Hfree; emits].
  - apply Hbind; [apply Hfree; emits|intros _; apply Happly].
Qed.

Lemma Between_planAndUpload :
  Between (λ w, isolated (trace w)) (planAndUpload env cfg info params) (λ _ _, True).
Proof.
  unfold planAndUpload. apply (Between_bind _ _ (λ _ w, isolated (trace w))).
  { apply Between_isolated_free, Emits_gets. }
  intros t. apply Between_iso_orFail; [by apply Between_isolated_runTf|].
  eapply Between_mono; [apply Between_isolated_free|done|done].
  apply free_bind; [apply free_of_calm, calm_modifyStatus|intros _].
  pose proof (λ e, free_of_calm _ (calm_fail env cfg e)) as Hfail.
  cbv zeta. case_decide; [apply Hfail|].
  apply free_bind; [emits|]. intros [data|e]; [|apply Hfail].
  apply free_bind; [|intros [e|]; [apply Hfail|apply free_of_calm, calm_completeRun]].
  unfold UploadArtifact. apply free_bind; [apply Emits_gets|]. intros t'.
  apply free_bind; [by eapply (Emits_modify_emit _ _ (EvUpload _ _ _))|intros; apply Emits_ret].
Qed.

Lemma Between_calm {A} S (m : M A) : Emits (λ ev, calmEvent ev = true) m → Between S m (λ _ _, True).
Proof. intros Hm. by apply Between_any, grows_calm_state. Qed.

Lemma grows_outputs (k : M unit) :
  Keeps (grows stateAllowed) k →
  Keeps (grows stateAllowed) (advanceStep env info None;;
    orFailWith env cfg (TfOutput_ env) (λ output, collectOutput env output;; k)).
Proof.
  intros Hk. apply grows_bind; [apply grows_calm_state, calm_advanceStep|intros _].
  apply grows_bind; [apply grows_calm_state, calm_TfOutput|intros [output|e]].
  - apply grows_bind; [apply grows_calm_state, calm_collectOutput|by intros _].
  - apply grows_calm_state, calm_fail.
Qed.

Lemma Between_execute c : Between fresh (execute env lib cfg info params installDir c) (λ _ _, True).
Proof.
  destruct c; simpl; apply Between_prefix; intros tfEnv; apply Between_middle.
  - apply Between_init.
  - apply Between_iso_orFail; [apply Between_applyAny|].
    apply Between_any, grows_outputs, grows_calm_state, calm_completeRun.
  - apply Between_initWithHint.
  - apply Between_planAndUpload.
  - apply Between_initWithHint.
  - apply Between_iso_orFail.
    { destruct (asyncRun info); [by apply Between_isolated_runTf|apply Between_isolated_free, Emits_ret]. }
    apply Between_iso_orFail; [by apply Between_isolated_runTf|].
    apply Between_any, grows_outputs.
    apply grows_bind; [apply grows_deleteWorkspaceIfNeeded|intros _]. apply grows_calm_state, calm_completeRun.
Qed.
End Isolation.

(** C4. A run never works on the state of another building block. Whenever its
    command plans, applies or destroys, tofu has been moved into (or was found
    in) a workspace whose name ends in the id of the run's block, and no
    workspace call came in between; or it was initialised with the generated
    backend, whose address names the block's workspace and id. It creates no
    workspace but the one the run suggests, selects none but the block's own
    and, before it deletes, the default one, and deletes none but the block's
    own (or, when it found none, the empty name). *)
Theorem run_state_isolated (env : Env) (lib : HclLib) (cfg : TfRunnerConfig) (installDir : string)
    (register : list event → RunStatus → option error) (run : Run) (info : RunContextInfo)
    (fs : gmap string string) (ds : gset string) :
  extends (stateAllowed env lib cfg info (runParams run (default "" (Behavior_str (r_Behavior run))))) []
    (trace (workRoutine env lib cfg installDir register run info (startWorld run fs ds)).2).
Proof.
  unfold workRoutine. destruct (Behavior_str (r_Behavior run)) as [mode|]; [simpl|constructor].
  destruct (commandOf (r_Behavior run)) as [c|]; [|constructor].
  set (params := runParams run mode).
  assert (Between env lib cfg info params fresh (initRunSteps info c) (λ _, fresh)) as Hinit.
  { apply Between_fresh; [apply flag_initRunSteps|]. destruct c; by apply Emits_modify_same. }
  assert (Between env lib cfg info params fresh
    (initRunSteps info c;; status ← gets runStatus; err ← ask (λ t, register t status);
     match err with Some _ => reportFailed | None => execute env lib cfg info params installDir c end)
    (λ _ _, True)) as H; [|exact (proj1 (H (startWorld run fs ds) eq_refl))].
  apply (Between_bind _ _ _ _ _ _ _ (λ _, fresh)); [exact Hinit|intros _].
  apply (Between_bind _ _ _ _ _ _ _ (λ _, fresh)); [apply Between_fresh; [apply (Keeps_gets _)|apply Emits_gets]|intros status].
  apply (Between_bind _ _ _ _ _ _ _ (λ _, fresh)); [apply Between_fresh; [apply (Keeps_gets _)|apply Emits_gets]|intros err].
  destruct err.
  - apply Between_calm. by apply Emits_modify_same.
  - apply Between_execute. apply toWorkspaceStr_suffix.
Qed.
