(* ===== verification/EndToEnd.v ===== *)
(** * EndToEnd: a run decrypted by the controller, or by its runner

    A Terraform run reaches tofu on one of two paths. A polling runner parses
    the fetched run (meshapi's ParseRunDetails, tfrun/dtos.go's
    runDTOToInternal) and decrypts each secret when it needs it (run.go,
    authSsh.go). Otherwise the run-controller decrypts the run
    (controller/decryption.go) and the runner in its job parses what it is
    handed (tfrun/singlerunworker.go, dtos.go's ToInternalWithoutDecryption)
    without a key. This file composes the two paths from Decryption.v, Dtos.v,
    Run.v and GitSource.v and states that they agree. *)

From S2P Require Import Prelude Base64 Status MeshDtos Run RunM Example GitSource Crypto Decryption Dtos.

(** ** Texts that JSON can carry *)

Definition inRange (lo hi : N) (c : ascii) : bool := bool_decide (lo ≤ N_of_ascii c ≤ hi)%N.
Definition continuation : ascii → bool := inRange 128 191.

(** [utf8.ValidString]. [json.Marshal] writes every other text with its
    invalid bytes replaced. *)
Fixpoint validUTF8 (s : string) : bool :=
  match s with
  | "" => true
  | String a s1 =>
      if inRange 0 127 a then validUTF8 s1
      else match s1 with
      | "" => false
      | String b s2 =>
          if inRange 194 223 a then continuation b && validUTF8 s2
          else match s2 with
          | "" => false
          | String c s3 =>
              if inRange 224 239 a then
                (if inRange 224 224 a then inRange 160 191 b
                 else if inRange 237 237 a then inRange 128 159 b else continuation b)
                && continuation c && validUTF8 s3
              else match s3 with
              | "" => false
              | String d s4 =>
                  inRange 240 244 a &&
                  (if inRange 240 240 a then inRange 144 191 b
                   else if inRange 244 244 a then inRange 128 143 b else continuation b)
                  && continuation c && continuation d && validUTF8 s4
              end
          end
      end
  end%string.

Example validUTF8_texts :
  validUTF8 "Grüße, 世界" = true ∧ validUTF8 (String "195" "(") = false ∧ validUTF8 (String "255" "") = false.
Proof. by vm_compute. Qed.

(** An input of a parsed run, or that input with another text that JSON can carry. *)
Definition rewritten (input input' : BuildingBlockInputSpecDTO) : Prop :=
  input' = input ∨
  ∃ text, validUTF8 text = true ∧ input' = set_input_Value (anyStr text) input.

(** Documented behaviour of [encoding/json]: a parsed object, with texts of it
    replaced by valid ones, is read back as it was written. A [RawMessage] is
    written in compact form, in which [json.Marshal] gave it. *)
Class JsonLaws (json : DecryptionJson) : Prop := {
  json_run_roundtrip src dto inputs impl raw text :
    dj_ParseRunDetails json src = Ok dto → Forall2 rewritten (run_Inputs dto) inputs →
    dj_MarshalTerraform json impl = Ok raw →
    dj_MarshalRun json (set_run_secrets inputs raw dto) = Ok text →
    dj_ParseRunDetails json text = Ok (set_run_secrets inputs raw dto);
  json_terraform_roundtrip src impl raw :
    dj_Terraform json src = Ok impl → dj_MarshalTerraform json impl = Ok raw →
    dj_Terraform json raw = Ok impl;
  json_terraform_key_roundtrip src impl key raw :
    dj_Terraform json src = Ok impl → validUTF8 key = true →
    dj_MarshalTerraform json (set_tfi_SshPrivateKey (Some key) impl) = Ok raw →
    dj_Terraform json raw = Ok (set_tfi_SshPrivateKey (Some key) impl);
}.

(** ** When the two paths agree *)

Definition nonEmptyText (v : any) : bool :=
  match v with anyStr s => bool_decide (s ≠ "") | _ => false end.

(** Like [set_Vars], for the two other fields that the paths fill differently. *)
Definition set_Source (source : GitSource) (r : Run) : Run :=
  mkRun (r_Id r) (r_TerraformVersion r) (r_Behavior r) (r_WorkspaceIdentifier r)
    (r_ProjectIdentifier r) (r_FullPlatformIdentifier r) (r_BuildingBlockId r)
    (r_BuildingBlockName r) (r_IsAsync r) (r_Vars r) (r_RunJsonBase64 r) source
    (r_UseMeshBackendFallback r) (r_PreRunScript r) (r_RunToken r) (r_MeshstackBaseUrl r)
    (r_ArtifactUrl r) (r_ArtifactUploadUrl r) (r_TfStateLockUrl r).
Definition set_RunJsonBase64 (encoded : string) (r : Run) : Run :=
  mkRun (r_Id r) (r_TerraformVersion r) (r_Behavior r) (r_WorkspaceIdentifier r)
    (r_ProjectIdentifier r) (r_FullPlatformIdentifier r) (r_BuildingBlockId r)
    (r_BuildingBlockName r) (r_IsAsync r) (r_Vars r) encoded (r_Source r)
    (r_UseMeshBackendFallback r) (r_PreRunScript r) (r_RunToken r) (r_MeshstackBaseUrl r)
    (r_ArtifactUrl r) (r_ArtifactUploadUrl r) (r_TfStateLockUrl r).

Section EndToEnd.
Context (lib : CryptoLib) (json : DecryptionJson) (cryptoInstance : MeshCertBasedCrypto).
(* the polling runner, which holds the controller's key, and the runner of a job, which has none *)
Context (fmt_float : spec_float → string) (envPolling envJob : Env).
Context (Hpolling : env_crypto envPolling = Some (DecryptMeshCertBased lib cryptoInstance)).
Context (Hjob : env_crypto envJob = None).
Context `{!JsonLaws json}.

(** An input as the two runners have it. A sensitive text that is empty, or of
    a type the runner does not decrypt, is where they differ: the controller
    decrypts by value, the runner by type. *)
Definition sameInput (polled single : InputVariable) : Prop :=
  var_env single = var_env polled ∧ var_Type single = var_Type polled ∧
  decryptIfSensitive fmt_float (env_crypto envJob) single = Some (Ok (var_value single)) ∧
  ((var_isSensitive polled = true →
      var_Type polled ∈ decryptableTypes ∧ nonEmptyText (var_value polled)) →
   decryptIfSensitive fmt_float (env_crypto envPolling) polled = Some (Ok (var_value single))).

(** The private key that the two runners hand to git. *)
Definition sameAuth (polled single : Auth) : Prop :=
  match polled, single with
  | NoAuth, NoAuth => True
  | SshAuth kh cert, SshAuth kh' cert' =>
      kh' = kh ∧
      (cert = "" ∧ cert' = "" ∨
       cert ≠ "" ∧ unwrapCert envPolling cert = Some (Ok cert') ∧ unwrapCert envJob cert' = Some (Ok cert'))
  | _, _ => False
  end.

(** The same run, but for the run object that is handed on to tofu and the
    script as it is, which each runner marshals from what it got. *)
Definition sameRun (polled single : Run) : Prop :=
  single = set_RunJsonBase64 (r_RunJsonBase64 single)
    (set_Source (r_Source single) (set_Vars (r_Vars single) polled)) ∧
  gs_url (r_Source single) = gs_url (r_Source polled) ∧
  gs_path (r_Source single) = gs_path (r_Source polled) ∧
  gs_refName (r_Source single) = gs_refName (r_Source polled) ∧
  sameAuth (gs_auth (r_Source polled)) (gs_auth (r_Source single)) ∧
  ∀ key, option_Forall2 sameInput (r_Vars polled !! key) (r_Vars single !! key).

(** What the key decrypts of this run are texts. *)
Record Textual (dto : RunDetailsDTO) : Prop := {
  textual_inputs input secret plain :
    input ∈ run_Inputs dto → encryptedText input = Some secret →
    Reveals lib cryptoInstance secret plain → validUTF8 plain = true;
  textual_key impl secret plain :
    dj_Terraform json (run_Implementation dto) = Ok impl → tfi_SshPrivateKey impl = Some secret →
    Reveals lib cryptoInstance secret plain → validUTF8 plain = true;
}.

(** ** Lemmas *)

Lemma revealed_key input input' :
  InputRevealed lib cryptoInstance input input' → input_Key input' = input_Key input.
Proof. unfold InputRevealed. case_match; [by intros (? & _ & ->)|by intros ->]. Qed.

Lemma revealed_sameInput input input' :
  InputRevealed lib cryptoInstance input input' →
  sameInput (toInternalVariable input) (decryptedVariable input').
Proof.
  unfold InputRevealed, encryptedText, sameInput, decryptIfSensitive. simpl. intros Hr.
  destruct (input_IsSensitive input) eqn:Hs; [|by subst].
  destruct (input_Value input) as [| | | |s| |] eqn:Hv; try (subst; split_and!; [done..|]; intros Hd; by destruct (Hd eq_refl)).
  case_decide as Hempty.
  - subst. split_and!; [done..|]. intros Hd. destruct (Hd eq_refl) as [_ Hne]. by rewrite <-(bool_decide_spec _) in Hne.
  - destruct Hr as (plain & Hp & ->). split_and!; [done..|].
    intros Hd. destruct (Hd eq_refl) as [Ht _]. rewrite decide_True by done. rewrite Hpolling. simpl. by rewrite Hp.
Qed.

Lemma revealed_rewritten dto inputs :
  Textual dto → Forall2 (InputRevealed lib cryptoInstance) (run_Inputs dto) inputs →
  Forall2 rewritten (run_Inputs dto) inputs.
Proof.
  intros Ht Hr. eapply Forall2_same_length_lookup_2; [by eapply Forall2_length|].
  intros i input input' Hi Hi'. pose proof (Forall2_lookup_lr _ _ _ _ _ _ Hr Hi Hi') as H.
  unfold InputRevealed in H. destruct (encryptedText input) as [secret|] eqn:Hs; [|by left].
  destruct H as (plain & Hp & ->). right. exists plain. split; [|done].
  eapply (textual_inputs _ Ht); [|done..]. by eapply list_elem_of_lookup_2.
Qed.

(** Two maps built alike from inputs with the same keys are alike. *)
Lemma insert_alike {A B} (R : A → B → Prop) f g (Q : BuildingBlockInputSpecDTO → BuildingBlockInputSpecDTO → Prop)
    (HQ : ∀ i i', Q i i' → input_Key i' = input_Key i ∧ R (f i) (g i')) l l' (m : gmap string A) (m' : gmap string B) :
  Forall2 Q l l' → (∀ key, option_Forall2 R (m !! key) (m' !! key)) →
  ∀ key, option_Forall2 R (foldl (λ r v, <[input_Key v := f v]> r) m l !! key)
    (foldl (λ r v, <[input_Key v := g v]> r) m' l' !! key).
Proof.
  intros HF. revert m m'. induction HF as [|i i' l l' Hi HF IH]; intros m m' Hm; [done|]. simpl.
  apply IH. intros key. apply HQ in Hi as [-> Hi]. destruct (decide (input_Key i = key)) as [->|].
  - rewrite !lookup_insert_eq. by constructor.
  - by rewrite !lookup_insert_ne by done.
Qed.

Lemma revealed_vars inputs inputs' :
  Forall2 (InputRevealed lib cryptoInstance) inputs inputs' →
  ∀ key, option_Forall2 sameInput (toInternalVariableMap inputs !! key) (decryptedVariableMap inputs' !! key).
Proof.
  intros HF. eapply insert_alike; [|done|].
  - intros i i' Hi. split; [by eapply revealed_key|by apply revealed_sameInput].
  - intros key. rewrite !lookup_empty. constructor.
Qed.

(** The implementation that the job's runner reads back. *)
Definition revealedImpl (impl impl' : TerraformImplementation) : Prop :=
  (default "" (tfi_SshPrivateKey impl) = "" ∧ impl' = impl) ∨
  ∃ key key', tfi_SshPrivateKey impl = Some key ∧ key ≠ "" ∧
    Reveals lib cryptoInstance key key' ∧ impl' = set_tfi_SshPrivateKey (Some key') impl.

Lemma revealed_terraform dto raw :
  Textual dto → ImplRevealed lib json cryptoInstance ImplTypeTerraform (run_Implementation dto) raw →
  ∃ impl impl', dj_Terraform json (run_Implementation dto) = Ok impl ∧ revealedImpl impl impl' ∧
    dj_MarshalTerraform json impl' = Ok raw ∧ dj_Terraform json raw = Ok impl'.
Proof.
  intros Ht Hr. inversion Hr as [? impl ? Hp Hk Hm|? impl key key' ? Hp Hk Hne Hrev Hm| | | |]; subst.
  - exists impl, impl. split_and!; [done|by left|done|]. by eapply json_terraform_roundtrip.
  - exists impl, (set_tfi_SshPrivateKey (Some key') impl). split_and!; [done| |done|].
    + right. by exists key, key'.
    + eapply json_terraform_key_roundtrip; [done| |done]. by eapply (textual_key _ Ht).
Qed.

Lemma revealed_source impl impl' source :
  revealedImpl impl impl' → terraformImplToGitSource impl = Ok source →
  ∃ source', terraformImplToGitSource impl' = Ok source' ∧
    gs_url source' = gs_url source ∧ gs_path source' = gs_path source ∧
    gs_refName source' = gs_refName source ∧ sameAuth (gs_auth source) (gs_auth source').
Proof.
  unfold terraformImplToGitSource, terraformImplAuthMethod.
  intros [[Hd ->]|(key & key' & Hk & Hne & Hr & ->)].
  - destruct (tfi_SshPrivateKey impl) as [key|]; simpl in *; intros [= <-];
      (eexists; split; [done|]; split_and!; try done). simpl. split; [done|]. by left.
  - rewrite Hk. simpl. intros [= <-]. eexists. split; [done|]. split_and!; try done. simpl.
    split; [done|]. right. unfold unwrapCert. rewrite Hpolling, Hjob. done.
Qed.

(** A Terraform run that the controller decrypted is parsed by the job's
    runner as the fetched one with its secrets revealed. *)
Lemma decrypted_parses b64 src decrypted dto :
  DecodeString b64 = Ok src → dj_ParseRunDetails json src = Ok dto → Textual dto →
  dj_Type json (run_Implementation dto) = Ok ImplTypeTerraform →
  decryptRunDetails lib json cryptoInstance b64 = Some (Ok decrypted) →
  ∃ text inputs raw impl impl', decrypted = EncodeToString text ∧
    dj_ParseRunDetails json text = Ok (set_run_secrets inputs raw dto) ∧
    dj_MarshalRun json (set_run_secrets inputs raw dto) = Ok text ∧
    Forall2 (InputRevealed lib cryptoInstance) (run_Inputs dto) inputs ∧
    dj_Terraform json (run_Implementation dto) = Ok impl ∧ revealedImpl impl impl' ∧ dj_Terraform json raw = Ok impl'.
Proof.
  intros Hsrc Hdto Htext Htype (bytes & dto0 & inputs & type & raw & text & Hb & Hp & Hin
    & Hty & Himpl & Hm & ->)%decryptRunDetails_Ok.
  assert (bytes = src) as -> by congruence. assert (dto0 = dto) as -> by congruence.
  assert (type = ImplTypeTerraform) as -> by congruence.
  destruct (revealed_terraform _ _ Htext Himpl) as (impl & impl' & Hd & Hri & Hmi & Hdi).
  exists text, inputs, raw, impl, impl'. split_and!; try done.
  eapply json_run_roundtrip; [done|by apply revealed_rewritten|done..].
Qed.

(** Which then converts it, if the polling runner could. *)
Lemma decrypted_converts inputs raw impl impl' text dto polled :
  dj_MarshalRun json (set_run_secrets inputs raw dto) = Ok text →
  dj_Terraform json (run_Implementation dto) = Ok impl → dj_Terraform json raw = Ok impl' →
  runDTOToInternal (dj_Terraform json) (dj_MarshalRun json) dto = Ok polled →
  ∃ single, ToInternalWithoutDecryption (dj_Terraform json) (dj_MarshalRun json) (set_run_secrets inputs raw dto) = Ok single.
Proof.
  intros Hm Hd Hdi. unfold runDTOToInternal, ToInternalWithoutDecryption.
  change (spec_Behavior (run_Spec (set_run_secrets inputs raw dto))) with (spec_Behavior (run_Spec dto)).
  change (def_Implementation (def_Spec (spec_Definition (run_Spec dto)))) with (run_Implementation dto).
  destruct (DetermineBehavior _) as [behavior [err|]]; [done|]. intros _. simpl. rewrite Hdi. simpl.
  unfold terraformImplToGitSource, terraformImplAuthMethod.
  destruct (tfi_SshPrivateKey impl'); simpl; rewrite Hm; simpl; by eexists.
Qed.

(** ** The paths agree *)

(** C20. A Terraform run is the same whether its runner decrypts it or the
    run-controller does, but for one field. When a run that a polling runner can
    convert, and whose secrets are UTF-8 text, is decrypted by the controller, the runner of the job parses and
    converts what it is handed; the two runs agree on where their sources are
    and on the private key that git gets, input by input on the value tofu
    sees, except for a sensitive input that is not a non-empty text of a type
    the runner decrypts, and on every other field except the run object that is
    handed on to tofu and the pre-run script: the polling runner's holds the
    secrets as they were fetched, encrypted, the job's holds them decrypted. *)
Theorem run_paths_agree (src decrypted : string) (dto : RunDetailsDTO) (polled : Run)
    (Hdto : dj_ParseRunDetails json src = Ok dto) (Htext : Textual dto)
    (Htype : dj_Type json (run_Implementation dto) = Ok ImplTypeTerraform)
    (Hpolled : runDTOToInternal (dj_Terraform json) (dj_MarshalRun json) dto = Ok polled)
    (Hdecrypted : decryptRunDetails lib json cryptoInstance (EncodeToString src) = Some (Ok decrypted)) :
  ∃ runJson dto' single encrypted,
    DecodeString decrypted = Ok runJson ∧ dj_ParseRunDetails json runJson = Ok dto' ∧
    ToInternalWithoutDecryption (dj_Terraform json) (dj_MarshalRun json) dto' = Ok single ∧
    sameRun polled single ∧
    dj_MarshalRun json dto = Ok encrypted ∧ r_RunJsonBase64 polled = EncodeToString encrypted ∧
    r_RunJsonBase64 single = decrypted.
Proof.
  destruct (decrypted_parses _ _ _ _ (decode_encode src) Hdto Htext Htype Hdecrypted)
    as (text & inputs & raw & impl & impl' & -> & Hparse & Hm & Hin & Hd & Hri & Hdi).
  exists text, (set_run_secrets inputs raw dto).
  unfold runDTOToInternal in Hpolled. unfold ToInternalWithoutDecryption.
  change (spec_Behavior (run_Spec (set_run_secrets inputs raw dto))) with (spec_Behavior (run_Spec dto)).
  change (def_Implementation (def_Spec (spec_Definition (run_Spec dto)))) with (run_Implementation dto) in Hpolled.
  destruct (DetermineBehavior _) as [behavior [err|]]; [done|].
  rewrite Hd in Hpolled. simpl in Hpolled |- *. rewrite Hdi. simpl.
  destruct (terraformImplToGitSource impl) as [source|] eqn:Hs; [simpl in Hpolled|done].
  destruct (revealed_source _ _ _ Hri Hs) as (source' & -> & Hsrc). simpl. rewrite Hm. simpl.
  destruct (dj_MarshalRun json dto) as [encoded|]; [simpl in Hpolled|done]. simplify_eq.
  eexists _, encoded. split; [apply decode_encode|]. split; [done|]. split; [done|]. split; [|done].
  destruct Hsrc as (? & ? & ? & ?). split; [|split_and!; try done; by apply revealed_vars].
  unfold set_RunJsonBase64, set_Source, set_Vars, runLiteral. simpl.
  destruct Hri as [[_ ->]|(key & key' & _ & _ & _ & ->)]; done.
Qed.
End EndToEnd.

(** ** A run that takes both paths *)

Definition exampleHolder : MeshCertBasedCrypto :=
  mkCertBased (Some (priv_PublicKey exampleKey)) (Some exampleKey).

Definition sealed (plain : string) : string :=
  match EncryptMeshCertBased exampleCrypto exampleHolder ("0123456789abcdef", None) ("0123456789ab", None)
          "seed" plain with
  | Some (Ok secret) => secret
  | _ => ""
  end.

Definition exampleDecrypt : string → option (result string) := DecryptMeshCertBased exampleCrypto exampleHolder.

Definition exampleTfRun (region impl : string) : RunDetailsDTO :=
  let link := mkLinkDTO "" false in
  mkRunDetails "v1" "meshBuildingBlockRun" "run-1"
    (mkRunSpec 1 "APPLY" (mkBB "bb-1" (mkBBDetails "Block" "ws" "p" ""
         [mkInput "region" (anyStr region) DATA_TYPE_STRING true false] []))
       (mkDefinition "def-1" (mkDefinitionDetails "owner" 1 impl)) "token" None)
    "IN_PROGRESS" (mkLinksDTO link link link link link link link).

Definition exampleTfImpl (key : string) : TerraformImplementation :=
  mkTerraformImpl "TERRAFORM" "1.9.0" "https://git/repo" None (Some "main") (Some key) None false true None.

(** A JSON in which just the sealed run and the revealed one have texts. *)
Definition twoRuns : DecryptionJson :=
  let no {X Y} := λ _ : X, Err (errNew "unused") : result Y in
  let written d := match run_Inputs d with [mkInput _ (anyStr v) _ _ _] => (v, run_Implementation d) | _ => ("", "") end in
  mkDecryptionJson
    (λ s, if decide (s = "sealed run") then Ok (exampleTfRun (sealed "eu") "sealed")
          else if decide (s = "run") then Ok (exampleTfRun "eu" "revealed") else Err (errNew "JSON"))
    (λ d, if decide (written d = (sealed "eu", "sealed")) then Ok "sealed run"
          else if decide (written d = ("eu", "revealed")) then Ok "run" else Err (errNew "JSON"))
    (λ _, Ok ImplTypeTerraform)
    (λ s, if decide (s = "sealed") then Ok (exampleTfImpl (sealed "KEY"))
          else if decide (s = "revealed") then Ok (exampleTfImpl "KEY") else Err (errNew "JSON"))
    (λ i, if decide (tfi_SshPrivateKey i = Some (sealed "KEY")) then Ok "sealed"
          else if decide (tfi_SshPrivateKey i = Some "KEY") then Ok "revealed" else Err (errNew "JSON"))
    no no no no no no.

Lemma twoRuns_parse src dto :
  dj_ParseRunDetails twoRuns src = Ok dto → ∃ region impl, dto = exampleTfRun region impl.
Proof. simpl. repeat case_decide; intros; simplify_eq; eauto. Qed.

Lemma twoRuns_terraform src impl :
  dj_Terraform twoRuns src = Ok impl → ∃ key, impl = exampleTfImpl key.
Proof. simpl. repeat case_decide; intros; simplify_eq; eauto. Qed.

Lemma twoRuns_key key raw :
  dj_MarshalTerraform twoRuns (exampleTfImpl key) = Ok raw → dj_Terraform twoRuns raw = Ok (exampleTfImpl key).
Proof. simpl. repeat case_decide; intros; simplify_eq; by simplify_eq. Qed.

#[export] Instance twoRuns_laws : JsonLaws twoRuns.
Proof.
  split.
  - intros src dto inputs impl raw text (region & i & ->)%twoRuns_parse Hr _.
    change (run_Inputs (exampleTfRun region i)) with
      [mkInput "region" (anyStr region) DATA_TYPE_STRING true false] in Hr.
    apply Forall2_cons_inv_l in Hr as (input & rest & Hr & ->%Forall2_nil_inv_l & ->).
    assert (∃ v, input = mkInput "region" (anyStr v) DATA_TYPE_STRING true false) as [v ->]
      by (destruct Hr as [->|(v & _ & ->)]; by eexists).
    change (set_run_secrets _ raw _) with (exampleTfRun v raw).
    assert (run_Implementation (exampleTfRun v raw) = raw) as Himpl by done.
    simpl. rewrite Himpl. repeat case_decide; intros; by simplify_eq.
  - intros src impl raw (key & ->)%twoRuns_terraform. apply twoRuns_key.
  - intros src impl key raw (key' & ->)%twoRuns_terraform _. apply (twoRuns_key key).
Qed.

Lemma twoRuns_textual : Textual exampleCrypto twoRuns exampleHolder (exampleTfRun (sealed "eu") "sealed").
Proof.
  split.
  - intros input secret plain Hin Hs Hr. apply list_elem_of_singleton in Hin as ->.
    vm_compute in Hs. injection Hs as <-. vm_compute in Hr. by injection Hr as <-.
  - intros impl secret plain Hi Hs Hr. vm_compute in Hi. injection Hi as <-.
    vm_compute in Hs. injection Hs as <-. vm_compute in Hr. by injection Hr as <-.
Qed.

Lemma run_paths_agree_witness :
  ∃ polled decrypted,
    decryptRunDetails exampleCrypto twoRuns exampleHolder (EncodeToString "sealed run") = Some (Ok decrypted) ∧
    ∃ runJson dto' single encrypted,
      DecodeString decrypted = Ok runJson ∧ dj_ParseRunDetails twoRuns runJson = Ok dto' ∧
      ToInternalWithoutDecryption (dj_Terraform twoRuns) (dj_MarshalRun twoRuns) dto' = Ok single ∧
      sameRun (λ _, "") (exampleEnvOf (Some exampleDecrypt) (λ _, None)) exampleEnv polled single ∧
      dj_MarshalRun twoRuns (exampleTfRun (sealed "eu") "sealed") = Ok encrypted ∧
      r_RunJsonBase64 polled = EncodeToString encrypted ∧ r_RunJsonBase64 single = decrypted.
Proof.
  eexists _, _. split; [vm_compute; reflexivity|].
  eapply (run_paths_agree exampleCrypto twoRuns exampleHolder (λ _, "")
    (exampleEnvOf (Some exampleDecrypt) (λ _, None)) exampleEnv eq_refl eq_refl) with (src := "sealed run").
  - vm_compute; reflexivity.
  - exact twoRuns_textual.
  - reflexivity.
  - vm_compute; reflexivity.
  - vm_compute; reflexivity.
Defined.
