(* ===== verification/Cluster.v ===== *)
(** * Cluster: the controller, its dispatcher and the runners in the cluster

    Composes Controller.v with the Kubernetes dispatcher (dispatcher.go,
    kubernetes.go) and with the single-run worker of tf-block-runner that runs
    in the jobs (singlerunworker.go): the dispatcher keeps the laws that the
    polling loop was verified against, so the loop keeps the cluster within
    its capacity, and what a job's runner finds in its secret is a run that it
    can execute. *)

From S2P Require Import Prelude GoPath Base64 Trace Hcl VarsFile Status MeshDtos MeshAuth MeshClient TfConfig Run RunM Example Frame TfVars TfRun Dtos RunApi StatusUpdate Worker SingleRun Crypto Decryption ControllerConfig Registration ControllerApi Controller Metrics Kubernetes EndToEnd.

(** ** The laws of the dispatcher *)

Section Laws.
Context (AppConfig : ControllerConfig) (env : KubeEnv).

(** The jobs of this controller that have not finished, as the cluster sees
    them after what happened. Documented behaviour: only a job that was
    created adds one, and a list of the labelled jobs shows every one of them. *)
Class ClusterLaws := {
  running : KubeTrace → Z;
  running_nonneg t : (0 ≤ running t)%Z;
  running_step t e :
    (running (t ++ [e]) ≤ running t + match e with EvCreateJob _ (Ok _) => 1 | _ => 0 end)%Z;
  running_listed t jobs :
    kube_ListJobs env t ("meshcloud.io/runner-id=" +:+ cc_Uuid AppConfig) = Ok jobs →
    (running t ≤ Z.of_nat (length (filter (λ cs, isJobFinished cs = false) jobs)))%Z;
  created_named t s name : kube_CreateSecret env t s = Ok name → name ≠ "";
}.
Context `{!ClusterLaws}.

Lemma running_app t es : (running (t ++ es) ≤ running t + Z.of_nat (length (jobsCreated es)))%Z.
Proof.
  induction es as [|e es IH] using rev_ind; [rewrite app_nil_r; simpl; lia|].
  rewrite app_assoc, jobsCreated_app, length_app. pose proof (running_step (t ++ es) e) as Hs.
  destruct e as [| ? [] | | | | | | | | | |]; simpl in *; lia.
Qed.

(** The label by which a controller counts its jobs. *)
Definition labelled (job : Job * CreatedJob) : Prop :=
  job_Labels job.1 !! "meshcloud.io/runner-id" = Some (cc_Uuid AppConfig).

Lemma buildJob_labelled runInfo type spec name sa secret token job :
  buildJob AppConfig env runInfo type spec name sa secret token = Some job →
  job_Labels job = jobLabels AppConfig (info_Uuid runInfo) type.
Proof.
  unfold buildJob. destruct (wifTokenVolumes _ _ _). destruct (buildResourceRequirements _ _); simpl; [|done].
  by intros [= <-].
Qed.

Lemma jobsCreated_requests es : jobsCreated (requests es) = jobsCreated es.
Proof. induction es as [|[] es IH]; simpl; [done|..]; unfold jobsCreated in *; simpl; by rewrite ?IH. Qed.

Lemma kubernetesDispatch_jobs run json type t err t' :
  kubernetesDispatch AppConfig env run json type t = (Some err, t') →
  ∃ es, t' = t ++ es ∧ length (jobsCreated es) ≤ (match err with Some _ => 0 | None => 1 end) ∧
    Forall labelled (jobsCreated es).
Proof.
  unfold kubernetesDispatch. destruct (cc_Implementations AppConfig !! type) as [spec|]; [intros Hr|].
  2: { intros [= <- <-]. exists []. rewrite app_nil_r. by repeat split. }
  destruct (ends_run _ _ _ _ _ (ends_CreateRunnerJob AppConfig env created_named json (GetRunInfo run) type spec) Hr)
    as (es & -> & [_ Ho]). exists es. split; [done|]. destruct err.
  - destruct Ho as [-> _]. split; [simpl; lia|constructor].
  - destruct Ho as [Ho|(_ & pre & job & created & post & token & -> & Hpre & Hpost & Hb & _)].
    + rewrite <-jobsCreated_requests, Ho. split; [simpl; lia|constructor].
    + rewrite jobsCreated_app, Hpre, app_nil_l. simpl. rewrite Hpost. split; [simpl; lia|]. repeat constructor. unfold labelled. simpl. by rewrite (buildJob_labelled _ _ _ _ _ _ _ _ Hb).
Qed.

#[export] Instance KubernetesDispatcher_Laws :
  @DispatcherLaws KubeTrace (KubernetesDispatcher AppConfig env).
Proof.
  refine {| active := running |}.
  - apply running_nonneg.
  - intros t. simpl. unfold CountActiveJobs, request. simpl.
    pose proof (running_step t (EvListJobs ("meshcloud.io/runner-id=" +:+ cc_Uuid AppConfig)
      (kube_ListJobs env t ("meshcloud.io/runner-id=" +:+ cc_Uuid AppConfig)))). simpl in *. lia.
  - intros t n t'. simpl. unfold CountActiveJobs, request. simpl.
    destruct (kube_ListJobs env t _) as [jobs|e] eqn:Hl; [|done]. intros [= <- <-].
    pose proof (running_step t (EvListJobs ("meshcloud.io/runner-id=" +:+ cc_Uuid AppConfig) (Ok jobs))).
    pose proof (running_listed t jobs Hl). simpl in *. lia.
  - intros run json type t err t'. simpl.
    destruct (kubernetesDispatch _ _ _ _ _ t) as [[err'|] t1] eqn:Hd; [|done]. intros [= <- <-].
    apply kubernetesDispatch_jobs in Hd as (es & -> & Hn & _). pose proof (running_app t es).
    destruct err'; lia.
Defined.

(** ** Capacity *)

(** From [t] to [t'] there are never more than [n] jobs running, and every job
    created is one that is counted. *)
Definition keeps (n : Z) (t t' : KubeTrace) : Prop :=
  ∃ es, t' = t ++ es ∧ Forall labelled (jobsCreated es) ∧
    ∀ es1 es2, es = es1 ++ es2 → es1 ≠ [] → (running (t ++ es1) ≤ n)%Z.

#[export] Instance keeps_preorder n : PreOrder (keeps n).
Proof.
  split.
  - intros t. exists []. rewrite app_nil_r. split_and!; [done|constructor|]. by intros [] ? [=].
  - intros t1 t2 t3 (es & -> & Hl & Hes) (es' & -> & Hl' & Hes'). exists (es ++ es'). rewrite <-app_assoc. split; [done|].
    split; [by rewrite jobsCreated_app; apply Forall_app|]. intros es1 es2 Heq Hne.
    apply app_eq_app in Heq as (l & [[Hes1 Hes2]|[Hes1 Hes2]]).
    + by eapply Hes.
    + subst es1. destruct (decide (l = [])) as [->|Hl0].
      * rewrite app_nil_r in *. eapply (Hes es []); [by rewrite app_nil_r|done].
      * rewrite app_assoc. by eapply Hes'.
Qed.

(** No part of a list of events created more jobs than all of it. *)
Lemma keeps_created n t es :
  Forall labelled (jobsCreated es) → (running t + Z.of_nat (length (jobsCreated es)) ≤ n)%Z → keeps n t (t ++ es).
Proof.
  intros Hl Hn. exists es. split_and!; [done|done|]. intros es1 es2 -> _.
  pose proof (running_app t es1). rewrite jobsCreated_app, length_app in Hn. lia.
Qed.

(** C9. However long the controller runs, and whatever meshStack and the
    cluster answer, at no moment more of its jobs are running than it may have:
    not between the requests of a dispatch either. Every job it creates has the
    label by which it counts its jobs. *)
Theorem cluster_within_capacity (lib : CryptoLib) (json : DecryptionJson) (crypto : MeshCertBasedCrypto)
    `{ControllerRunApi A} (events : list CycleEvent) (measured : list Measurement) (a a' : A) (t t' : KubeTrace)
    (Hmax : (0 ≤ cc_MaxConcurrentJobs AppConfig)%Z) (Hstart : (running t ≤ cc_MaxConcurrentJobs AppConfig)%Z)
    (Hrun : Run AppConfig lib json crypto (H0 := KubernetesDispatcher AppConfig env) events a t = Some (measured, a', t')) :
  keeps (cc_MaxConcurrentJobs AppConfig) t t'.
Proof.
  eapply (Run_kept AppConfig lib json crypto (H0 := KubernetesDispatcher AppConfig env)); [apply _|exact Hmax| | |exact Hrun|exact Hstart].
  - intros d Hd. simpl. apply (keeps_created _ d [_]); [by constructor|simpl in *; lia].
  - intros run text type d err d'. simpl. destruct (kubernetesDispatch _ _ _ _ _ d) as [[err'|] d1] eqn:Hd; [|done].
    intros [= <- <-] Hroom. apply kubernetesDispatch_jobs in Hd as (es & -> & Hn & Hl).
    apply keeps_created; [done|]. simpl in Hroom. destruct err'; lia.
Qed.
End Laws.

(** ** From the controller to the runner of a job *)

Section Dispatched.
Context (AppConfig : ControllerConfig) (env : KubeEnv) `{!ClusterLaws AppConfig env}.
Context (lib : CryptoLib) (json : DecryptionJson) (crypto : MeshCertBasedCrypto) `{!JsonLaws json}.
Context {A : Type} `{ControllerRunApi A} `{!ControllerRunApiLaws (dj_ParseRunDetails json) A}.
(* the runner of the job: its host, its libraries and its API *)
Context (tfEnv : Env) (hcl : HclLib) (cfg : TfRunnerConfig) (installDir : string).
Context {B : Type} `{RunApi B} `{!RunApiLaws B} (Retry : RetryOp) (fmtDuration : Z → string) (newRunApi : B).

#[local] Abbreviation executes :=
  (ExecuteDecryptedRun tfEnv hcl cfg installDir Retry fmtDuration (dj_ParseRunDetails json)
     (dj_Terraform json) (dj_MarshalRun json) newRunApi).

(** The runner's variable names a file in a directory where the secret is. *)
Definition findsRun (job : Job) (secretName : string) : Prop :=
  ∃ c volume directory, pod_Containers (job_Pod job) = [c] ∧
    ("RUN_JSON_FILE_PATH", directory +:+ "/" +:+ "run.json") ∈ con_Env c ∧
    mkVolumeMount volume directory true ∈ con_VolumeMounts c ∧
    mkVolume volume (SecretVolume secretName) ∈ pod_Volumes (job_Pod job).

Lemma buildJob_findsRun runInfo type spec name sa secret token job :
  buildJob AppConfig env runInfo type spec name sa secret token = Some job → findsRun job secret.
Proof.
  unfold buildJob. destruct (wifTokenVolumes _ _ _) as [vs ms]. destruct (buildResourceRequirements _ _); simpl; [|done].
  intros [= <-]. eexists _, "run-json", "/var/run/secrets/meshstack". split_and!; [reflexivity|simpl; set_solver..].
Qed.

(** A run object with the secrets of [dto] revealed and nothing else changed. *)
Definition revealedRun (dto dto' : RunDetailsDTO) : Prop :=
  ∃ inputs raw impl impl', dto' = set_run_secrets inputs raw dto ∧
    Forall2 (InputRevealed lib crypto) (run_Inputs dto) inputs ∧
    dj_Terraform json (run_Implementation dto) = Ok impl ∧ dj_Terraform json raw = Ok impl' ∧
    revealedImpl lib crypto impl impl'.

(** What is said of an execution of [runJson] for the fetched run [dto]. The
    runner reads [dto] with its secrets revealed, and what it executes is the
    run this converts to. It ends and reports under the token of [dto], unless
    no runner could convert it; it crashes for the causes of [SingleCrash]
    only. *)
Definition executesAs (dto : RunDetailsDTO) (runJson : string) : Prop :=
  ∃ dto', dj_ParseRunDetails json runJson = Ok dto' ∧ revealedRun dto dto' ∧
    ∀ mkdirAll h tmp, (∃ o, executes mkdirAll h runJson tmp o) ∧
      ∀ o, executes mkdirAll h runJson tmp o →
        (∀ run, ToInternalWithoutDecryption (dj_Terraform json) (dj_MarshalRun json) dto' = Ok run →
           ExecuteRun tfEnv hcl cfg installDir Retry fmtDuration
             (NewSingleRunWorkerWithApi (TfParentWorkingDir cfg) (TfCommandTimeoutMins cfg)
                (api_SetRunToken (spec_RunToken (run_Spec dto)) newRunApi)) mkdirAll h run tmp o) ∧
        match o with
        | Some (err, b, _) =>
            api_token b = Some (spec_RunToken (run_Spec dto)) ∨
            is_Some err ∧ ∃ e, runDTOToInternal (dj_Terraform json) (dj_MarshalRun json) dto = Err e
        | None => ∃ run wd, ToInternalWithoutDecryption (dj_Terraform json) (dj_MarshalRun json) dto' = Ok run ∧
            mkdirAll = None ∧ host_mkdirTemp h = Ok wd ∧ host_mkdirLogs h = None ∧ SingleCrash tfEnv h run wd
        end.

Lemma decrypted_executes (Hretry : RetriesAsDocumented Retry) (Hh : HostLaws tfEnv hcl)
    b64 src decrypted dto runJson :
  DecodeString b64 = Ok src → dj_ParseRunDetails json src = Ok dto → Textual lib json crypto dto →
  dj_Type json (run_Implementation dto) = Ok ImplTypeTerraform →
  decryptRunDetails lib json crypto b64 = Some (Ok decrypted) → DecodeString decrypted = Ok runJson →
  executesAs dto runJson.
Proof.
  intros Hsrc Hdto Htext Htype Hdec Hrun.
  destruct (decrypted_parses _ _ _ _ _ _ _ Hsrc Hdto Htext Htype Hdec)
    as (text & inputs & raw & impl & impl' & -> & Hparse & Hm & Hin & Hd & Hri & Hdi).
  rewrite decode_encode in Hrun. injection Hrun as <-. exists (set_run_secrets inputs raw dto).
  split; [done|]. split; [by exists inputs, raw, impl, impl'|]. intros mkdirAll h tmp.
  destruct (single_run_ends tfEnv hcl cfg installDir Retry fmtDuration (dj_ParseRunDetails json) (dj_Terraform json)
    (dj_MarshalRun json) newRunApi Hretry Hh mkdirAll h text tmp) as [Ho Hall].
  split; [done|]. intros o Hexec. split.
  { intros run Hr. destruct Hexec as [e He|dto' e He Hc|dto' run' o He Hc Hexec]; [congruence|congruence|].
    assert (dto' = set_run_secrets inputs raw dto) as -> by congruence. assert (run' = run) as -> by congruence. exact Hexec. }
  apply Hall in Hexec. destruct o as [[[err b] tmp']|]; simpl in Hexec; [rewrite Hparse in Hexec|].
  - destruct Hexec as [Hb|[He [e Hc]]]; [by left|right]. split; [done|].
    destruct (runDTOToInternal _ _ dto) as [polled|e'] eqn:Hp; [|by exists e'].
    destruct (decrypted_converts _ _ _ _ _ _ _ _ Hm Hd Hdi Hp) as [single Hs]. congruence.
  - destruct Hexec as (dto' & run & wd & Hu & Hexec). assert (dto' = set_run_secrets inputs raw dto) as -> by congruence.
    by exists run, wd.
Qed.

(** C7. What becomes of a Terraform run that the controller claims and
    dispatches, and whose secrets are UTF-8 text. A job of that run existed
    already, or exactly one is created, which mounts the run's secret where its
    runner looks for the run. That secret was created before the job, and the
    runner that is given what it holds reads it as the run that was fetched,
    with its secrets revealed, executes the run this converts to and reports it
    under the token of the fetched run, whatever its host and its API answer,
    unless no runner could convert it or the runner crashes for a cause that
    [SingleCrash] names: a log that cannot be opened, a version that is not one
    or a clone that cannot be looked at. The other case is a secret of that
    name that was found in the cluster: it is mounted as it is. *)
Theorem dispatched_run_executes (Hretry : RetriesAsDocumented Retry) (Hh : HostLaws tfEnv hcl)
    (measured : list Measurement) (a a' : A) (t t' : KubeTrace)
    (Hrun : processNextRun AppConfig lib json crypto (H0 := KubernetesDispatcher AppConfig env) a t
      = Some (runProcessed, measured, a', t')) :
  ∃ b64 src dto es,
    ctl_FetchRunDetails (cc_Uuid AppConfig) a = (Ok (b64, dto), a') ∧
    DecodeString b64 = Ok src ∧ dj_ParseRunDetails json src = Ok dto ∧ t' = t ++ es ∧
    (requests es = [EvGetJob (jobNameOf (GetRunInfo dto)) None] ∨
     ∃ pre job created post,
       es = pre ++ EvCreateJob job (Ok created) :: post ∧ jobsCreated pre = [] ∧ jobsCreated post = [] ∧
       findsRun job (runJsonSecretNameOf (GetRunInfo dto)) ∧
       ((∃ runJson name, EvCreateSecret (runJsonSecret AppConfig (runJsonSecretNameOf (GetRunInfo dto))
             (info_Uuid (GetRunInfo dto)) runJson) (Ok name) ∈ pre ∧
           (dj_Type json (run_Implementation dto) = Ok ImplTypeTerraform → Textual lib json crypto dto →
              executesAs dto runJson)) ∨
        ∃ secret, EvGetSecret (runJsonSecretNameOf (GetRunInfo dto)) (Ok secret) ∈ pre ∧ noData pre)).
Proof.
  unfold processNextRun in Hrun.
  destruct (ctl_FetchRunDetails (cc_Uuid AppConfig) a) as [[[b64 dto]|err] a1] eqn:Hf; [|done].
  destruct (decryptRunDetails lib json crypto b64) as [[decrypted|err]|] eqn:Hdec; simpl in Hrun; [|done..].
  pose proof (fetched_text _ _ _ _ _ Hf) as (src & Hsrc & Hdto).
  destruct (GetImplementationType _ _) as [type|]; [|done].
  destruct (kubernetesDispatch AppConfig env dto decrypted (ToRunnerType type) t) as [[[err|]|] t1] eqn:Hd;
    simpl in Hrun; [done| |done]. injection Hrun as _ <- <-.
  unfold kubernetesDispatch in Hd. destruct (cc_Implementations AppConfig !! _) as [spec|]; [|done].
  destruct (ends_run _ _ _ _ _ (ends_CreateRunnerJob AppConfig env (created_named AppConfig env) decrypted (GetRunInfo dto) _ spec) Hd)
    as (es & -> & [_ Ho]).
  exists b64, src, dto, es. split_and!; [done..|].
  destruct Ho as [Ho|(_ & pre & job & created & post & token & -> & Hpre & Hpost & Hb & Hdata & _)]; [by left|right].
  exists pre, job, created, post. split_and!; [done..|by eapply buildJob_findsRun|].
  destruct Hdata as [(runJson & name & Hdecoded & Hin)|[[secret Hin] Hnone]]; [left|right; by exists secret].
  exists runJson, name. split; [done|]. intros Htype Htext.
  eapply (decrypted_executes Hretry Hh); [exact Hsrc|exact Hdto|exact Htext|exact Htype|exact Hdec|exact Hdecoded].
Qed.
End Dispatched.

(** ** A cluster with a controller *)

Definition placing : KubeEnv := exampleCluster (Ok (mkCreatedJob "runner-run-1" "uid")).

#[export] Instance placing_Laws : ClusterLaws exampleController placing.
Proof.
  refine {| running t := Z.of_nat (length (jobsCreated t)) |}.
  - lia.
  - intros t e. rewrite jobsCreated_app, length_app. destruct e as [| ? [] | | | | | | | | | |]; simpl; lia.
  - intros t jobs. simpl. intros [= <-]. induction (length (jobsCreated t)) as [|n IH]; [simpl; lia|].
    simpl replicate. rewrite list.filter_cons_True by done. simpl length. lia.
  - intros t s name. simpl. case_decide as Hs; intros [= <-]; [|exact Hs]. by destruct (sec_GenerateName s).
Defined.

(** meshStack with a number of encrypted runs to hand out. *)
Record SealedRuns := mkSealedRuns { waiting : nat }.
#[export] Instance SealedRuns_Api : ControllerRunApi SealedRuns := {|
  ctl_FetchRunDetails _ s :=
    match waiting s with
    | 0 => (Err (errStatus 404), s)
    | S n => (Ok (EncodeToString "sealed run", exampleTfRun (sealed "eu") "sealed"), mkSealedRuns n)
    end;
  ctl_RegisterSource _ s := (None, s);
  ctl_UpdateRunStatus _ _ _ _ s := (None, s);
|}.
#[export] Instance SealedRuns_Laws : ControllerRunApiLaws (dj_ParseRunDetails twoRuns) SealedRuns.
Proof.
  intros postfix [[|n]] b64 dto a'; simpl; [done|]. intros [= <- <- <-].
  exists "sealed run". split; vm_compute; reflexivity.
Qed.

(** What the controller does to the cluster in two cycles, and with one run. *)
Definition twoCycles : list CycleEvent := [Tick (λ _, false); Tick (λ _, false); Shutdown].
Definition ticked : list Measurement :=
  [(controllerLoopIterations NewMetricsCollector, []); (controllerLoopIterations NewMetricsCollector, []);
   (jobsAtCapacitySkips NewMetricsCollector, ["uuid"])].
Definition crowded : KubeTrace :=
  match Run exampleController exampleCrypto twoRuns exampleHolder (H0 := KubernetesDispatcher exampleController placing)
          twoCycles (mkSealedRuns 5) [] with
  | Some (_, _, t) => t
  | None => []
  end.
Definition placed : KubeTrace :=
  match processNextRun exampleController exampleCrypto twoRuns exampleHolder
          (H0 := KubernetesDispatcher exampleController placing) (mkSealedRuns 1) [] with
  | Some (_, _, _, t) => t
  | None => []
  end.
Definition placedSecret : Secret := runJsonSecret exampleController "run-json-run-1" "run-1" "run".

Lemma cluster_within_capacity_witness :
  Run exampleController exampleCrypto twoRuns exampleHolder (H0 := KubernetesDispatcher exampleController placing)
    twoCycles (mkSealedRuns 5) [] = Some (ticked, mkSealedRuns 2, crowded) ∧
  length (jobsCreated crowded) = 3 ∧ keeps exampleController placing 3 [] crowded.
Proof.
  assert (Run exampleController exampleCrypto twoRuns exampleHolder (H0 := KubernetesDispatcher exampleController placing)
    twoCycles (mkSealedRuns 5) [] = Some (ticked, mkSealedRuns 2, crowded)) as Hrun by (vm_compute; reflexivity).
  split; [exact Hrun|]. split; [vm_compute; reflexivity|].
  apply (cluster_within_capacity exampleController placing exampleCrypto twoRuns exampleHolder
    twoCycles (ticked) (mkSealedRuns 5) (mkSealedRuns 2)); [vm_compute; congruence|vm_compute; congruence|exact Hrun].
Defined.

Lemma placed_secret : ∃ e0 e1 e2 rest,
  placed = e0 :: e1 :: e2 :: EvCreateSecret placedSecret (Ok "run-json-run-1") :: rest ∧
  Forall (λ e, ∀ job created, e ≠ EvCreateJob job created) [e0; e1; e2].
Proof. do 4 eexists. split; [vm_compute; reflexivity|by repeat constructor]. Qed.

(** The run's secret is created, its job finds it, and its runner executes it. *)
Lemma dispatched_run_executes_witness :
  processNextRun exampleController exampleCrypto twoRuns exampleHolder
    (H0 := KubernetesDispatcher exampleController placing) (mkSealedRuns 1) [] = Some (runProcessed, [], mkSealedRuns 0, placed) ∧
  length (jobsCreated placed) = 1 ∧
  ∃ pre job created post runJson name,
    placed = pre ++ EvCreateJob job (Ok created) :: post ∧ findsRun job "run-json-run-1" ∧
    EvCreateSecret (runJsonSecret exampleController "run-json-run-1" "run-1" runJson) (Ok name) ∈ pre ∧
    executesAs exampleCrypto twoRuns exampleHolder exampleEnv exampleLib exampleCfg "/install"
      (H0 := LiveApi_RunApi exampleApiCfg defaultMetadata (exampleJson "APPLY")) exampleRetry (λ _, "10m0s")
      exampleLive (exampleTfRun (sealed "eu") "sealed") runJson.
Proof.
  assert (processNextRun exampleController exampleCrypto twoRuns exampleHolder
    (H0 := KubernetesDispatcher exampleController placing) (mkSealedRuns 1) [] = Some (runProcessed, [], mkSealedRuns 0, placed))
    as Hrun by (vm_compute; reflexivity).
  split; [exact Hrun|]. split; [vm_compute; reflexivity|].
  destruct (dispatched_run_executes exampleController placing exampleCrypto twoRuns exampleHolder
    exampleEnv exampleLib exampleCfg "/install"
    (RunApiLaws0 := LiveApi_RunApiLaws exampleApiCfg defaultMetadata (exampleJson "APPLY")) exampleRetry (λ _, "10m0s")
    exampleLive (λ S schedule cause op s, retryN_Retries 5 cause op s) exampleHostLaws
    _ (mkSealedRuns 1) _ [] _ Hrun) as (b64 & src & dto & es & Hf & _ & _ & Ht & Hall).
  assert (dto = exampleTfRun (sealed "eu") "sealed") as -> by (unfold ctl_FetchRunDetails in Hf; simpl in Hf; congruence).
  rewrite app_nil_l in Ht. subst es.
  destruct Hall as [Hnone|(pre & job & created & post & Hes & _ & _ & Hfinds & [(runJson & name & Hin & Hexec)|(secret & _ & Hnone)])].
  - exfalso. revert Hnone. clear. vm_compute. intros Hnone. discriminate Hnone.
  - exists pre, job, created, post, runJson, name. split; [exact Hes|]. split; [exact Hfinds|]. split; [exact Hin|].
    exact (Hexec eq_refl twoRuns_textual).
  - exfalso. destruct (placed_secret) as (e0 & e1 & e2 & rest & Hp & Hj). rewrite Hp in Hes. clear - Hes Hj Hnone.
    rewrite !list.Forall_cons in Hj. destruct Hj as (H0 & H1 & H2 & _).
    destruct pre as [|p0 [|p1 [|p2 [|p3 pre]]]]; injection Hes; intros; subst;
      [by edestruct H0|by edestruct H1|by edestruct H2|done|].
    assert (sec_Data placedSecret !! "run.json" = None) as Hd by (eapply Hnone; right; right; right; left).
    discriminate Hd.
Defined.
