(* ===== verification/InProcessRuns.v ===== *)
(** * InProcessRuns: the runs that the controller executes itself

    Composes Controller.v with the in-process dispatcher
    (inprocess/dispatcher.go) and the two runners that its executors are: the
    single-run worker of tf-block-runner (singlerunworker.go) and the manual
    runner (manual/run.go). What a goroutine of the dispatcher gets is the run
    that was claimed, decrypted, and it is executed as that run. *)

From S2P Require Import Prelude GoPath Base64 Trace Hcl VarsFile Status MeshDtos MeshAuth MeshClient TfConfig ManualConfig ManualRun Run RunM Example Frame TfVars TfBinaries TfRun Dtos RunApi StatusUpdate Worker SingleRun Crypto Decryption ControllerConfig Registration ControllerApi Controller Metrics InProcess Kubernetes EndToEnd Cluster.

(** The configuration of the manual runner: the credentials are the run's. *)
Definition inprocessManualConfig (runnerUuid apiUrl : string) : ManualConfig.Config :=
  ManualConfig.mkConfig runnerUuid apiUrl "" "" "" "".

(** Tofu's installation directory is made, and the two configurations are
    those of the executors. *)
Definition NewDispatcher (mkdirAll : string → option error) (runnerUuid apiUrl : string)
    : result (TfRunnerConfig * ManualConfig.Config * InProcess) :=
  let AppConfig := inprocessTfConfig runnerUuid apiUrl in
  match NewTfBin mkdirAll (TfInstallDir AppConfig) with
  | Err err => Err err
  | Ok _ => Ok (AppConfig, inprocessManualConfig runnerUuid apiUrl, NewInProcess)
  end.

(** [build.Dispatchers] of a binary built with the tag, after [init]. *)
Definition Dispatchers (mkdirAll : string → option error) (AppConfig : ControllerConfig)
    : gmap string (result (TfRunnerConfig * ManualConfig.Config * InProcess)) :=
  {[ "inprocess" := NewDispatcher mkdirAll (cc_Uuid AppConfig) (capi_Url (cc_Api AppConfig)) ]}.

(** ** What the manual runner reads *)

(** An input that [parseRun] reads: all but numbers are as they were. *)
Definition keptInput (input input' : BuildingBlockInputSpecDTO) : Prop :=
  input' = mkInput (input_Key input) (input_Value input') (input_Type input) (input_IsSensitive input) (input_Env input) ∧
  match input_Value input with
  | anyNil | anyBool _ | anyStr _ => input_Value input' = input_Value input
  | _ => True
  end.

Definition readAs (dto run : RunDetailsDTO) : Prop :=
  run = set_run_secrets (run_Inputs run) (run_Implementation run) dto ∧
  Forall2 keptInput (run_Inputs dto) (run_Inputs run).

(** Documented behaviour of the two JSON packages: of a run that
    [json.Marshal] wrote, with texts that JSON can carry, [parseRun] makes the
    same run, numbers aside, unless it refuses it. *)
Class ManualJsonLaws (json : DecryptionJson) (manual : ManualJson) : Prop :=
  manual_reads src dto inputs raw text run :
    dj_ParseRunDetails json src = Ok dto → Forall2 rewritten (run_Inputs dto) inputs →
    dj_MarshalRun json (set_run_secrets inputs raw dto) = Ok text → mj_parseRun manual text = Ok run →
    readAs (set_run_secrets inputs raw dto) run.

(** ** From the controller to a goroutine *)

Lemma ToRunnerType_terraform type : ToRunnerType type = RunnerTypeTerraform → type = ImplTypeTerraform.
Proof. unfold ToRunnerType. by repeat case_decide. Qed.

Lemma executors_spec type ex :
  executors !! ToRunnerType type = Some ex →
  match ex with ExecuteTerraform => type = ImplTypeTerraform | ExecuteManual => True end.
Proof.
  intros H. destruct ex; [|done]. apply ToRunnerType_terraform. unfold executors in H.
  apply lookup_insert_Some in H as [[<- _]|[_ H]]; [done|].
  apply lookup_singleton_Some in H as [_ ?]. done.
Qed.

Section InProcessRuns.
Context (AppConfig : ControllerConfig) (lib : CryptoLib) (json : DecryptionJson) (crypto : MeshCertBasedCrypto).
Context `{!JsonLaws json} {A : Type} `{ControllerRunApi A} `{!ControllerRunApiLaws (dj_ParseRunDetails json) A}.
(* the Terraform runner: its host, its libraries and its API *)
Context (tfEnv : Env) (hcl : HclLib).
Context {B : Type} `{RunApi B} `{!RunApiLaws B} (Retry : RetryOp) (fmtDuration : Z → string) (newRunApi : B).
(* the manual runner *)
Context (meta : ClientMetadata) (manual : ManualJson) `{!ManualJsonLaws json manual}.

#[local] Abbreviation tfConfig := (inprocessTfConfig (cc_Uuid AppConfig) (capi_Url (cc_Api AppConfig))).
#[local] Abbreviation manualConfig := (inprocessManualConfig (cc_Uuid AppConfig) (capi_Url (cc_Api AppConfig))).

(** The manual runner ends well exactly when the claimed run [dto] is reported
    at its links with its token, its outputs being the decrypted inputs. *)
Definition manuallyExecutedAs (dto : RunDetailsDTO) (runJson : string) : Prop :=
  ∃ inputs, Forall2 (InputRevealed lib crypto) (run_Inputs dto) inputs ∧
    ∀ env env', ExecuteRunJson meta manual manualConfig env env' runJson = None ↔
      ∃ run, mj_parseRun manual runJson = Ok run ∧ Forall2 keptInput inputs (run_Inputs run) ∧
        reportedAt meta manual manualConfig env env' (run_Links dto) (spec_RunToken (run_Spec dto)) (run_Inputs run).

Definition executedAs (dto : RunDetailsDTO) (ex : Executor) (runJson : string) : Prop :=
  match ex with
  | ExecuteTerraform =>
      executesAs lib json crypto tfEnv hcl tfConfig (TfInstallDir tfConfig) Retry fmtDuration newRunApi dto runJson
  | ExecuteManual => manuallyExecutedAs dto runJson
  end.

Lemma decrypted_manual b64 src decrypted dto runJson :
  DecodeString b64 = Ok src → dj_ParseRunDetails json src = Ok dto → Textual lib json crypto dto →
  decryptRunDetails lib json crypto b64 = Some (Ok decrypted) → DecodeString decrypted = Ok runJson →
  manuallyExecutedAs dto runJson.
Proof.
  intros Hsrc Hdto Htext (bytes & dto0 & inputs & type & raw & text & Hb & Hp & Hin & _ & _ & Hm & ->)%decryptRunDetails_Ok.
  assert (bytes = src) as -> by congruence. assert (dto0 = dto) as -> by congruence.
  rewrite decode_encode. intros [= <-]. exists inputs. split; [done|]. intros env env'.
  unfold ExecuteRunJson. destruct (mj_parseRun manual text) as [run|e] eqn:Hrun; [|split; [done|by intros (? & ? & _)]].
  destruct (manual_reads src dto inputs raw text run) as [Hr Hk]; [done|by eapply revealed_rewritten|done..|].
  rewrite ExecuteRun_None.
  assert (run_Links run = run_Links dto) as -> by (by rewrite Hr).
  assert (spec_RunToken (run_Spec run) = spec_RunToken (run_Spec dto)) as -> by (by rewrite Hr).
  split; [intros Hrep; by exists run|by intros (run' & [= <-] & _ & ?)].
Qed.

(** A dispatch starts one goroutine, which may have gone on by the time the
    controller looks again. *)
Lemma dispatch_goroutine (run : RunDetailsDTO) (b64 type : string) (d d' : LiveInProcess) :
  dispatch run b64 type d = Some (None, d') →
  ∃ ex runJson s, executors !! type = Some ex ∧ DecodeString b64 = Ok runJson ∧
    ip_runs s = ip_runs (li_state d) ++ [((run_Uuid run, ex, runJson), Executing)] ∧ rtc ip_step s (li_state d').
Proof.
  intros Hd. assert ((ip_Dispatch run b64 type (li_state d)).1 = None ∧
    rtc ip_step (ip_Dispatch run b64 type (li_state d)).2 (li_state d')) as [Hok Hsteps].
  { unfold dispatch in Hd. cbn [LiveInProcess_Dispatcher] in Hd. injection Hd as Herr <-. split; [exact Herr|apply li_steps]. }
  clear Hd. unfold ip_Dispatch in *. destruct (executors !! type) as [ex|]; [|done].
  destruct (DecodeString b64) as [runJson|]; [|done]. exists ex, runJson. eexists. repeat split; [|exact Hsteps]. done.
Qed.

End InProcessRuns.

(** ** A manual run in the controller *)

Definition manualDto (region : string) : RunDetailsDTO :=
  mkRunDetails "v1" "meshBuildingBlockRun" "run-1"
    (mkRunSpec 1 "APPLY" (mkBB "bb-1" (mkBBDetails "Block" "ws" "p" ""
         [mkInput "region" (anyStr region) DATA_TYPE_STRING true false] []))
       (mkDefinition "def-1" (mkDefinitionDetails "owner" 1 "{}")) "token" None)
    "IN_PROGRESS" exampleLinks.

(** A JSON in which just the sealed run and the revealed one have texts. *)
Definition manualRuns : DecryptionJson :=
  let no {X Y} := λ _ : X, Err (errNew "unused") : result Y in
  mkDecryptionJson
    (λ s, if decide (s = "sealed run") then Ok (manualDto (sealed "eu"))
          else if decide (s = "run") then Ok (manualDto "eu") else Err (errNew "JSON"))
    (λ d, match run_Inputs d with
          | [mkInput _ (anyStr v) _ _ _] => if decide (v = "eu") then Ok "run" else Err (errNew "JSON")
          | _ => Err (errNew "JSON")
          end)
    (λ _, Ok ImplTypeManual) no no no no no no no no.

#[export] Instance manualRuns_laws : JsonLaws manualRuns.
Proof. by split. Qed.

Definition manualReader : ManualJson :=
  mkManualJson (dj_ParseRunDetails manualRuns) (dj_ParseRunDetails manualRuns) (λ _, Ok "{}") (λ _, Ok "{}").

Lemma keptInput_refl input : keptInput input input.
Proof. split; [by destruct input|by case_match]. Qed.

Lemma manualRuns_parse src dto :
  dj_ParseRunDetails manualRuns src = Ok dto → ∃ region, dto = manualDto region.
Proof. simpl. repeat case_decide; intros; simplify_eq; eauto. Qed.

#[export] Instance manualReader_laws : ManualJsonLaws manualRuns manualReader.
Proof.
  intros src dto inputs raw text run (region & ->)%manualRuns_parse Hr Hm Hp.
  change (run_Inputs (manualDto region)) with [mkInput "region" (anyStr region) DATA_TYPE_STRING true false] in Hr.
  apply Forall2_cons_inv_l in Hr as (input & rest & Hr & ->%Forall2_nil_inv_l & ->).
  assert (∃ v, input = mkInput "region" (anyStr v) DATA_TYPE_STRING true false) as [v ->]
    by (destruct Hr as [->|(v & _ & ->)]; by eexists).
  simpl in Hm. case_decide as Hv; [subst v|done]. injection Hm as <-.
  simpl in Hp. injection Hp as <-. split; [done|]. by repeat constructor.
Qed.

(** meshStack with the sealed run. *)
Inductive SealedManual := sealedManual.
#[export] Instance SealedManual_Api : ControllerRunApi SealedManual := {|
  ctl_FetchRunDetails _ s := (Ok (EncodeToString "sealed run", manualDto (sealed "eu")), s);
  ctl_RegisterSource _ s := (None, s);
  ctl_UpdateRunStatus _ _ _ _ s := (None, s);
|}.
#[export] Instance SealedManual_Laws : ControllerRunApiLaws (dj_ParseRunDetails manualRuns) SealedManual.
Proof.
  intros postfix a b64 dto a' Hf. injection Hf as <- <-. exists "sealed run". split; vm_compute; reflexivity.
Qed.

Lemma manualRuns_textual : Textual exampleCrypto manualRuns exampleHolder (manualDto (sealed "eu")).
Proof.
  split; [|done]. intros input secret plain Hin Hs Hr. apply list_elem_of_singleton in Hin as ->.
  vm_compute in Hs. injection Hs as <-. vm_compute in Hr. by injection Hr as <-.
Qed.

Definition idle : LiveInProcess := mkLiveInProcess NewInProcess 0 (λ _ d, d) eq_refl (λ _ d, rtc_refl _ d).

