(* ===== verification/Process.v ===== *)
(** * Process: how the processes end

    Models the rest of the entry points, from the start that Startup.v and
    ManualRun.v model up to the exit code: tf-block-runner/main.go with the
    run of a single-run process or the manager of a polling one, its health
    server and the signal, manual-block-runner/main.go, and the end of
    run-controller/main.go. An exit code is 0, 1 for [log.Fatal] and
    [os.Exit(1)], or 2 for a panic. A second signal, which kills a process, what
    the health servers answer (always OK) and an end of the manual runner's
    [http.Serve] are left out. *)

From S2P Require Import Prelude GoPath Base64 Trace Hcl VarsFile Status MeshDtos MeshAuth MeshClient TfConfig Run RunM Example Frame TfEnv TfVars TfBinaries TfCmd TfCommands TfRun TfContract Dtos RunApi StatusUpdate Worker SingleRun Manager Crypto Decryption ControllerConfig Registration ControllerApi Controller InProcess Kubernetes Startup ManualConfig ManualRun InProcessRuns.

(** ** tf-block-runner *)

Section TfProcess.
Context (os : OS) (crypto : CryptoLib) (mkdirInstall : string → option error).
(* net.Listen on an address; whether http.Serve ever returns *)
Context (listen : string → option error) (serveReturns : bool).
(* the runner: its environment under a crypto instance, its libraries, and the API that NewRunApi makes *)
Context (envWith : option MeshCertBasedCrypto → Env) (hcl : HclLib) {A : Type} `{RunApi A}
  (Retry : RetryOp) (fmtDuration : Z → string) (newRunApi : TfRunnerConfig → A).
Context (unmarshalRun : string → result RunDetailsDTO) (unmarshalImpl : string → result TerraformImplementation)
  (marshalRun : RunDetailsDTO → result string).
(* os.MkdirAll on the working directory, the host of a single run, and the temporary directories *)
Context (mkdirAll : option error) (h : Host) (tmp : gset string).

Definition healthAddr : string := ":" +:+ cmpOr (os_Getenv os "PORT") "8100".

Definition startHealthServer : option error := listen healthAddr.

(** *** The polling process *)

(** The goroutines, with the API and the temporary directories of the worker. *)
Record Polling := mkPolling { pl_manager : RunManager; pl_api : A; pl_tmp : gset string }.

(** [Start] does not look at whether the working directory could be made. *)
Definition startPolling (cfg : TfRunnerConfig) : Polling := mkPolling startManager (newRunApi cfg) tmp.

Definition workerNumber : nat := 1.

(** A step of the goroutines; the worker's item is a fetch and a run. *)
Inductive poll_step (env : Env) (cfg : TfRunnerConfig) : Polling → Polling → Prop :=
| poll_item m m' t api api' tmp tmp' :
    workerPhase m = Working → workerPhase m' = Reporting t → mstep m m' →
    workItem env hcl cfg (TfInstallDir cfg) Retry fmtDuration workerNumber api tmp t api' tmp' →
    poll_step env cfg (mkPolling m api tmp) (mkPolling m' api' tmp')
| poll_other m m' api tmp :
    (workerPhase m = Working → workerPhase m' = Working) → mstep m m' →
    poll_step env cfg (mkPolling m api tmp) (mkPolling m' api tmp).

(** The worker's goroutine panics in a run it has fetched. *)
Definition crashes (env : Env) (cfg : TfRunnerConfig) (p : Polling) : Prop :=
  workerPhase (pl_manager p) = Working ∧
  ∃ run api h, api_FetchRunDetails ("worker-" +:+ pretty workerNumber) (pl_api p) = (Ok run, api) ∧
    tfExecution env hcl cfg (TfInstallDir cfg) Retry fmtDuration h run api (pl_tmp p) None.

(** *** main *)

#[local] Abbreviation startedAs config := (tfMain os crypto mkdirInstall config).

(** The exit codes that the process can end with; [config] is what
    [ReadConfig] returned. *)
Inductive tfExit : result TfRunnerConfig → Z → Prop :=
| exit_panic config : startedAs config = None → tfExit config 2
| exit_fatal config err : startedAs config = Some (Err err) → tfExit config 1
(* executeSingleRun: the error of the run is only logged *)
| exit_single cfg runJson o :
    startedAs (Ok cfg) = Some (Ok (SingleRunOf runJson)) →
    ExecuteDecryptedRun (envWith None) hcl cfg (TfInstallDir cfg) Retry fmtDuration
      unmarshalRun unmarshalImpl marshalRun (newRunApi cfg) mkdirAll h runJson tmp o →
    tfExit (Ok cfg) (match o with Some _ => 0 | None => 2 end)
| exit_unhealthy cfg c err :
    startedAs (Ok cfg) = Some (Ok (PollingWith c)) → startHealthServer = Some err → tfExit (Ok cfg) 1
| exit_served cfg c :
    startedAs (Ok cfg) = Some (Ok (PollingWith c)) → startHealthServer = None → serveReturns = true → tfExit (Ok cfg) 1
| exit_crashed cfg c p :
    startedAs (Ok cfg) = Some (Ok (PollingWith c)) → startHealthServer = None →
    rtc (poll_step (envWith c) cfg) (startPolling cfg) p → crashes (envWith c) cfg p → tfExit (Ok cfg) 2
(* wg.Wait returns when the manager is done *)
| exit_stopped cfg c p :
    startedAs (Ok cfg) = Some (Ok (PollingWith c)) → startHealthServer = None →
    rtc (poll_step (envWith c) cfg) (startPolling cfg) p → handle (pl_manager p) = false → tfExit (Ok cfg) 0.

(** *** Properties *)

Lemma poll_step_mstep env cfg p p' : poll_step env cfg p p' → mstep (pl_manager p) (pl_manager p').
Proof. by intros []. Qed.

Lemma poll_steps_msteps env cfg p p' :
  rtc (poll_step env cfg) p p' → rtc mstep (pl_manager p) (pl_manager p').
Proof. apply rtc_congruence. apply poll_step_mstep. Qed.

Lemma poll_nsteps_msteps env cfg k p p' :
  nsteps (poll_step env cfg) k p p' → nsteps mstep k (pl_manager p) (pl_manager p').
Proof. apply nsteps_congruence. apply poll_step_mstep. Qed.

(** A worker that has taken the token can always bring its item to an end. *)
Lemma item_possible env cfg api : ∃ t api', itemToken t ∧
  ∀ tmp, workItem env hcl cfg (TfInstallDir cfg) Retry fmtDuration workerNumber api tmp t api' tmp.
Proof.
  destruct (api_FetchRunDetails ("worker-" +:+ pretty workerNumber) api) as [[run|err] api1] eqn:Hf.
  - destruct (sendInitFail Retry fmtDuration run api1) as [r api2] eqn:Hs.
    exists done_, (api_ClearRunToken api2). split; [by left|]. intros tmp'.
    eapply (workItem_run _ _ _ _ _ _ _ _ _ (mkHost (Err (errNew "disk full")) None None ∅)); [done|].
    by eapply tfExecution_noTemp.
  - exists (handleFetchRunError err), api1. split; [apply handleFetchRunError_token|]. intros tmp'. by eapply workItem_noRun.
Qed.

(** Every step of the manager's goroutines is one of the process. *)
Lemma poll_possible env cfg p m' : mstep (pl_manager p) m' → ∃ p', poll_step env cfg p p'.
Proof.
  destruct p as [m api tmp']. simpl. intros Hs. destruct (decide (workerPhase m = Working)) as [Hw|Hw].
  - destruct (item_possible env cfg api) as (t & api' & Ht & Hitem).
    destruct m as [wi mi sd hs ph sw hd n]. simpl in Hw. subst ph.
    exists (mkPolling (mkRunManager wi mi sd hs (Reporting t) sw hd n) api' tmp').
    by eapply poll_item; [done..|by constructor|].
  - exists (mkPolling m' api tmp'). by apply poll_other.
Qed.

(** C23. The exit code of a process that was given a run, once its file could
    be read: it ends with 0 whatever becomes of the run, with a run that does
    not parse or convert, that fails, or whose report is refused, so that
    Kubernetes does not start the job again, which would execute it twice. The
    only other code is 2, of a panic: the run converted, and its log file could
    not be opened, its version is not one, or its clone cannot be looked at. A
    log file that cannot be opened is such a panic for certain. *)
Theorem single_run_exits_zero `{!RunApiLaws A} (Hretry : RetriesAsDocumented Retry)
    (Hlaws : HostLaws (envWith None) hcl) (cfg : TfRunnerConfig) (runJson : string)
    (Hstart : startedAs (Ok cfg) = Some (Ok (SingleRunOf runJson))) :
  let mayPanic cause := ∃ dto run wd, unmarshalRun runJson = Ok dto ∧
    ToInternalWithoutDecryption unmarshalImpl marshalRun dto = Ok run ∧ mkdirAll = None ∧
    host_mkdirTemp h = Ok wd ∧ host_mkdirLogs h = None ∧ cause run wd in
  (∃ code, tfExit (Ok cfg) code) ∧
  (∀ code, tfExit (Ok cfg) code → code = 0%Z ∨ code = 2%Z ∧ mayPanic (SingleCrash (envWith None) h)) ∧
  (mayPanic (λ _ _, is_Some (host_openLog h)) → ∀ code, tfExit (Ok cfg) code → code = 2%Z).
Proof.
  destruct (single_run_ends (envWith None) hcl cfg (TfInstallDir cfg) Retry fmtDuration unmarshalRun unmarshalImpl
    marshalRun (newRunApi cfg) Hretry Hlaws mkdirAll h runJson tmp) as [[o Ho] Hall].
  assert (∀ code, tfExit (Ok cfg) code → ∃ o, code = (match o with Some _ => 0 | None => 2 end)%Z ∧
    ExecuteDecryptedRun (envWith None) hcl cfg (TfInstallDir cfg) Retry fmtDuration
      unmarshalRun unmarshalImpl marshalRun (newRunApi cfg) mkdirAll h runJson tmp o) as Hinv.
  { intros code Hexit. inversion Hexit; simplify_eq; try congruence. eexists. split; [reflexivity|].
    done. }
  split_and!.
  - eexists. by eapply exit_single.
  - intros code (o' & -> & Hex%Hall)%Hinv. destruct o' as [|]; [by left|right; by split].
  - intros (dto & run & wd & Hu & Hr & Hm & Hwd & Hl & [e He]) code (o' & -> & Hex)%Hinv.
    assert (o' = None) as ->; [|done]. eapply single_run_crashes; [exact Hu|exact Hr|exact Hm|exact Hwd|exact Hl|exact He|exact Hex].
Qed.

(** C24. A polling process ends with the exit code 0 only after a signal, once
    its worker has exited. When the signal has come, it ends: whatever
    meshStack answers and however its goroutines interleave, after at most ten
    more of their steps and at most one more run, unless a run makes the
    worker panic; there is no deadlock. *)
Theorem polling_process_stops (cfg : TfRunnerConfig) (c : option MeshCertBasedCrypto)
    (Hstart : startedAs (Ok cfg) = Some (Ok (PollingWith c))) (Hhealth : startHealthServer = None) :
  (tfExit (Ok cfg) 0 ↔ ∃ p, rtc (poll_step (envWith c) cfg) (startPolling cfg) p ∧
     handle (pl_manager p) = false ∧ shutdown (pl_manager p) = true ∧ workerPhase (pl_manager p) = Exited) ∧
  ∀ p, rtc (poll_step (envWith c) cfg) (startPolling cfg) p → shutdown (pl_manager p) = true →
    (∀ k p', nsteps (poll_step (envWith c) cfg) k p p' → k ≤ 10 ∧ started (pl_manager p') ≤ started (pl_manager p) + 1) ∧
    ∀ p', rtc (poll_step (envWith c) cfg) p p' → (∀ p'', ¬ poll_step (envWith c) cfg p' p'') → handle (pl_manager p') = false.
Proof.
  split; [split|].
  - intros Hexit. inversion Hexit; simplify_eq; try congruence.
    match goal with Hp : rtc _ _ ?p |- _ => exists p; split_and!; [exact Hp|done|..];
      apply poll_steps_msteps, ended_stopped in Hp; naive_solver end.
  - intros (p & Hp & Hend & _). by eapply exit_stopped.
  - intros p Hp Hdown. destruct (stop_ends_manager _ (poll_steps_msteps _ _ _ _ Hp) Hdown) as [Hb Hend].
    split; [intros k p' Hk; by eapply Hb, poll_nsteps_msteps|].
    intros p' Hp' Hstuck. apply (Hend _ (poll_steps_msteps _ _ _ _ Hp')).
    intros m' Hm. destruct (poll_possible (envWith c) cfg p' m' Hm) as [p'' Hs]. by destruct (Hstuck p'').
Qed.
End TfProcess.

(** ** run-controller *)

Section ControllerProcess.
Context (lib : CryptoLib) (json : DecryptionJson).
Context {A D : Type} `{ControllerRunApi A} `{Dispatcher D}.
(* [Wait] of the dispatcher: in which states it returns *)
Context (Wait : D → D → Prop).

(** [start] is what Startup.v's [controllerMain] ended with, [events] is what
    the loop saw up to the signal, [d] the dispatcher that was made. A panic in
    the work routine of an in-process run ends the process as well, but is no
    step of its goroutines (InProcess.v). *)
Inductive controllerExit (start : may_panic ControllerStart) (events : list CycleEvent) (a : A) (d : D) : Z → Prop :=
| controller_panics : start = None → controllerExit start events a d 2
| controller_fails err : start = Some (Err err) → controllerExit start events a d 1
| controller_crashes s :
    start = Some (Ok s) → Controller.Run (cs_Config s) lib json (cs_Crypto s) events a d = None →
    controllerExit start events a d 2
| controller_waits s measured a' d' d'' :
    start = Some (Ok s) → Controller.Run (cs_Config s) lib json (cs_Crypto s) events a d = Some (measured, a', d') →
    Wait d' d'' → controllerExit start events a d 0.
End ControllerProcess.

(** [Wait] of the two dispatchers. *)
Definition Wait_Kubernetes (t t' : KubeTrace) : Prop := t' = t.
Definition Wait_inprocess (d d' : LiveInProcess) : Prop :=
  rtc ip_step (li_state d) (li_state d') ∧ ip_Waited (li_state d').

(** The loop's end is the process's end: with Kubernetes at once, in process
    when the goroutines have ended, which they always can. *)
Lemma inprocess_controller_exits (lib : CryptoLib) (json : DecryptionJson) `{ControllerRunApi A}
    (s : ControllerStart) (events : list CycleEvent) (a : A) (d : LiveInProcess) :
  controllerExit lib json Wait_inprocess (Some (Ok s)) events a d
    (match Controller.Run (cs_Config s) lib json (cs_Crypto s) events a d with Some _ => 0 | None => 2 end).
Proof.
  destruct (Controller.Run _ _ _ _ events a d) as [[[measured a'] d']|] eqn:Hr; [|by eapply controller_crashes].
  destruct (ip_Wait_returns (li_state d')) as (d'' & Hs & Hw).
  pose proof (proj1 (ip_steps_Inv _ _ Hs (li_inv d'))) as Hi.
  by apply (controller_waits lib json Wait_inprocess _ _ _ _ s measured a' d'
    (mkLiveInProcess d'' (li_now d') (li_progress d') Hi (li_steps d'))).
Qed.

(** A binary built with the tag starts in process when it is told to and its
    tokens come from the cluster, unless tofu's directory cannot be made. *)
Lemma inprocess_starts (os : OS) getKubernetesConfig NewForConfig oidcDocument unmarshalIssuer mkdirAll quote
    (AppConfig : ControllerConfig) :
  os_Getenv os "RUNCONTROLLER_DISPATCHER" = "inprocess" →
  wifc_Issuer (cc_WorkloadIdentityFederation AppConfig) ≠ WifIssuerKeycloak →
  let dispatchers := Dispatchers mkdirAll AppConfig in
  newDispatcher os getKubernetesConfig NewForConfig oidcDocument unmarshalIssuer
    (λ name, bool_decide (is_Some (dispatchers !! name)))
    (λ name, match dispatchers !! name with Some (Err err) => Some err | _ => None end) quote AppConfig =
  Some (match mkdirAll "/tmp/runner/tfbin" with
        | None => Ok (NamedChoice "inprocess")
        | Some err => Err (errWrap "Failed to create the inprocess dispatcher: " err "")
        end).
Proof.
  intros Hname Hissuer. simpl. unfold newDispatcher. rewrite Hname, decide_False, decide_False by done.
  unfold Dispatchers, NewDispatcher, NewTfBin, prepareInstallDir. rewrite lookup_singleton_eq. simpl.
  by destruct (mkdirAll _).
Qed.

(** ** manual-block-runner *)

(** The exit code of what [manualMain] came to. *)
Definition manualExitCode (e : ManualEnd) : Z := match e with ExitFailure _ => 1 | ExitSuccess | Stopped _ _ => 0 end.

(** Unlike a Terraform run's, a manual run's failure is an exit code that makes
    Kubernetes start the job again; a source that the first try registered is
    accepted by the second. *)
Lemma manual_run_file_exit meta json os {M : Type} unmarshal decode listen worlds cancelled fuel cfg
    (Hcfg : LoadConfig os unmarshal (decode : ManualConfig.Node M → _) (cmpOr (os_Getenv os "RUNNER_CONFIG_FILE") "runner-config.yml") = Ok cfg)
    (Hfile : os_Getenv os "RUN_JSON_FILE_PATH" ≠ "") :
  option_map manualExitCode (manualMain meta json os unmarshal decode listen worlds cancelled fuel) = Some 0%Z ↔
  ∃ data run, os_ReadFile os (os_Getenv os "RUN_JSON_FILE_PATH") = Ok data ∧ mj_parseRun json data = Ok run ∧
    reportedAt meta json cfg (worlds 0) (worlds 1) (run_Links run) (spec_RunToken (run_Spec run))
      (bb_Inputs (bb_Spec (spec_BuildingBlock (run_Spec run)))).
Proof.
  setoid_rewrite <-(ExecuteRun_None meta json cfg (worlds 0) (worlds 1)).
  rewrite <-(manualMain_run_file meta json os unmarshal decode listen worlds cancelled fuel cfg Hcfg Hfile).
  rewrite (manualMain_file_ends meta json os unmarshal decode listen worlds cancelled fuel cfg Hcfg Hfile).
  destruct (executeRunFile _ _ _ _ _ _); simpl; split; intros [=]; done.
Qed.

(** ** Processes *)

Definition exampleOSWith (env : gmap string string) : OS := mkOS (λ key, env !! key) (λ _, Ok "{}").
Definition singleRunOS : OS :=
  exampleOSWith {[ "EXECUTION_MODE" := "single-run"; "RUN_JSON_FILE_PATH" := "/run.json" ]}.

(** A run file that does not convert: the process still ends well. *)
Lemma single_run_exits_zero_witness :
  let json := exampleJson "REPAIR" in
  let inst := LiveApi_RunApi exampleApiCfg defaultMetadata json in
  is_ok (ToInternalWithoutDecryption (json_unmarshalImpl json) (json_marshalRun json) (exampleRunDto "REPAIR")) = false ∧
  ∀ code, tfExit (H := inst) singleRunOS exampleCrypto (λ _, None) (λ _, None) false (λ _, exampleEnv) exampleLib exampleRetry
    (λ _, "10m0s") (λ _, exampleLive) (json_parseRunDetails json) (json_unmarshalImpl json) (json_marshalRun json)
    None exampleHost ∅ (Ok exampleCfg) code → code = 0%Z.
Proof.
  intros json inst.
  assert (is_ok (ToInternalWithoutDecryption (json_unmarshalImpl json) (json_marshalRun json) (exampleRunDto "REPAIR")) = false)
    as Hno by (vm_compute; reflexivity). split; [exact Hno|].
  destruct (single_run_exits_zero (H := inst) singleRunOS exampleCrypto (λ _, None) (λ _, None) false (λ _, exampleEnv) exampleLib
    exampleRetry (λ _, "10m0s") (λ _, exampleLive) (json_parseRunDetails json) (json_unmarshalImpl json)
    (json_marshalRun json) None exampleHost ∅
    (RunApiLaws0 := LiveApi_RunApiLaws exampleApiCfg defaultMetadata json)
    (λ S schedule cause op s, retryN_Retries 5 cause op s) exampleHostLaws exampleCfg "{}"
    ltac:(vm_compute; reflexivity)) as (_ & Hcodes & _).
  intros code Hcode. destruct (Hcodes code Hcode) as [Hz|(_ & dto & run & wd & Hu & Hr & _)]; [exact Hz|exfalso].
  assert (dto = exampleRunDto "REPAIR") as -> by (injection Hu as <-; reflexivity). by rewrite Hr in Hno.
Defined.

(** A signal that comes before the worker took its first token. *)
Definition signalled : RunManager := mkRunManager [work] [] true [] Receiving 0 true 0.

#[local] Instance exampleInst : RunApi LiveApi := LiveApi_RunApi exampleApiCfg defaultMetadata (exampleJson "APPLY").
Definition exampleStep : Polling (A := LiveApi) → Polling (A := LiveApi) → Prop :=
  poll_step exampleLib exampleRetry (λ _, "10m0s") exampleEnv exampleCfg.
Definition exampleStart : Polling := startPolling (λ _ : TfRunnerConfig, exampleLive) ∅ exampleCfg.

Lemma polling_process_stops_witness :
  exampleStep exampleStart (mkPolling signalled exampleLive ∅) ∧
  ∀ k p', nsteps exampleStep k (mkPolling signalled exampleLive ∅) p' → k ≤ 10 ∧ started (pl_manager p') ≤ 1.
Proof.
  assert (exampleStep exampleStart (mkPolling signalled exampleLive ∅)) as Hs
    by (apply poll_other; [discriminate|apply m_shutdown]).
  split; [exact Hs|].
  assert (tfMain (exampleOSWith ∅) exampleCrypto (λ _, None) (Ok exampleCfg) = Some (Ok (PollingWith None))) as Hstart
    by (vm_compute; reflexivity).
  destruct (polling_process_stops (exampleOSWith ∅) exampleCrypto (λ _, None) (λ _, None) false
    (λ _, exampleEnv) exampleLib exampleRetry (λ _, "10m0s") (λ _, exampleLive)
    (λ _, Ok (exampleRunDto "APPLY")) (λ _, Ok exampleImpl) (λ _, Ok "{}") None exampleHost ∅ exampleCfg None
    Hstart eq_refl) as [_ Hends].
  destruct (Hends (mkPolling signalled exampleLive ∅) (rtc_once _ _ Hs) eq_refl) as [Hb _]. exact Hb.
Defined.
